(* ===== verification/_CoqProject ===== *)
-Q . S2P
Prelude.v
Threads.v
Json.v
Common.v
Protocol.v
Metrics.v
Rpc.v
RpcProps.v
Encoders.v
World.v
Session.v
SessionSafety.v
Hub.v
SessionRace.v
HubSpec.v
HubDelivery.v
HubDisconnect.v
HubRace.v
Node.v
NodeShutdown.v
Collector.v
NodeProps.v
NodeRace.v
NodeShutdownProps.v
StateFlow.v
NodeSafe.v
HandlersSafe.v
RpcLaws.v
QueueRace.v
Mocks.v
System.v
Publish.v
Gopool.v
Stats.v
ConnPool.v
Net.v
Server.v
Ws.v
PubSub.v
Sentinel.v
MetricsRun.v
Mruby.v
Gobench.v
Options.v
Dialer.v
RpcRace.v
Grpc.v
Logging.v
Cli.v
Startup.v
Bench.v
BenchMain.v
