(* ===== verification/Prelude.v ===== *)
(** * AnyCable-Go: a verification development

    AnyCable-Go is a WebSocket server that keeps the connections of clients and leaves
    what they mean to an application behind RPC. This library models the server as
    functions and step relations, and proves what the parts promise to each other.

    ** The program and its parts

    A client's request arrives at an HTTP server (package server), is checked and upgraded
    (package ws) and becomes a session (node/session.go). The node (node/node.go) asks a
    controller, the RPC controller (package rpc, over the messages of package protocol) or
    the benchmark controller (package gobench), whether the session may connect, subscribe
    or perform, and acts on the reply: it registers the session and its streams with the
    hub (node/hub.go) and queues frames for the session, which its writing goroutine
    passes to the connection. Messages published by the application come in through Redis
    or HTTP (package pubsub); the hub schedules their delivery on a pool of goroutines
    (utils/gopool.go), and all sessions of a broadcast share one encoding
    (node/encoding_cache.go, package encoders). A session that leaves is removed from the
    hub and handed to the disconnect queue (node/disconnect_queue.go), which tells the
    controller at a limited rate. Metrics are counted all along (package metrics). Package
    cli reads the options, builds the parts and shuts them down on a signal.

    ** Which file models what

    The files are listed in the order in which they build on each other; source paths are
    relative to [src/].

    - Prelude: this file; integers at their width, errors, the effect monad, channels,
      mutexes, iteration over maps, and a small program logic ([safe], [maintains]).
    - Threads: goroutines as sequences of atomic actions, pools of them that interleave in
      any way, and a logic to prove a pool safe one goroutine at a time.
    - Json: the part of encoding/json in use: documents, printing, parsing.
    - Common: common/common.go. Session environment (nil pointers, maps), results,
      messages, [PubSubMessageFromJSON].
    - Protocol: protocol/protocol.go, and the message types of protos/rpc.pb.go.
    - Metrics: metrics/counter.go, gauge.go, prometheus.go, config.go and the registry of
      metrics.go.
    - Rpc, RpcProps: rpc/rpc.go. Semaphore, retries with growing delays, the recovery of
      the client, every call, [Start] and [Shutdown]; the remote side is a class [Remote].
      RpcRace: the calls and the shutdown action by action.
    - Grpc: the service of protos/rpc.pb.go, client stubs, handlers and description, over
      the classes [PbMessage] and [Codec]; [stub_remote] is a [Remote] made of them.
    - Encoders: encoders/*.go and node/encoding_cache.go, frames of ws/ws.go.
    - World: the state that the goroutines of a node share. Sessions are in a store and are
      referred to by location, because the hub, its tasks and the goroutines of a session
      all hold the same one.
    - Session, SessionSafety: node/session.go. SessionRace: the same operations action by
      action ([p_sendFrame] for [sendFrame], and so on).
    - Hub, HubSpec, HubDelivery, HubDisconnect: node/hub.go, with the hub's pool as a
      bounded bag of tasks; the abstract registry; deliveries; remote disconnects. HubRace:
      the loop and the disconnecting task action by action.
    - Node, NodeProps, NodeShutdown, NodeShutdownProps: node/node.go, node/controller.go
      (the class [Controller]), node/disconnect_queue.go, node/disconnector.go.
      Collector: the goroutine of the statistics of node/node.go. NodeRace: the commands of
      a client and [DisconnectNow] action by action. QueueRace: the disconnect queue action
      by action.
    - StateFlow: the state of the application across common/common.go, node/node.go and
      protocol/protocol.go.
    - NodeSafe, HandlersSafe, RpcLaws: the invariant of a node, that every handler keeps
      it for any controller with the laws of the class [LawfulController], and that the
      RPC controller is an instance. Mocks: mocks/controller.go and mocks/common.go, the
      mock controller, another instance.
    - System: the goroutines of a node as a step relation (the session handler of
      cli/cli.go, the readers, writers and timers of sessions, hub, workers, disconnect
      queue, statistics, shutdown), with reachability.
    - Publish: the path of a published message from its text to the connection.
    - Gopool: utils/gopool.go itself, with semaphore, queue and workers.
    - Stats, ConnPool: stats/stats.go, pool/pool.go.
    - Net: what is used of strings, strconv, net, net/url and net/http.
    - Server: server/*.go. The package variables, and servers with their listener.
    - Ws: ws/handler.go, ws/connection.go, ws/config.go.
    - PubSub: pubsub/*.go. Sentinel: the sentinels of pubsub/redis.go.
    - MetricsRun: metrics/metrics.go as a process, metrics/printer.go, and the endpoint
      that serves the text of metrics/prometheus.go.
    - Mruby: mrb/mrb.go, metrics/custom_printer.go, over the class [GoMruby].
    - Gobench: gobench/gobench.go.
    - Options: config/config.go, rpc/config.go, cli/options.go.
    - Dialer: the default dialer of rpc/rpc.go, and that [Start] readies the controller.
    - Logging: utils/logging.go, utils/log_handler.go.
    - Cli: cli/cli.go, version/version.go, cmd/anycable-go, cmd/gobench-cable.
      Startup: what cli/cli.go announces, utils/os_limits.go, mrb/mrb_unsupported.go,
      diagnostics/diagnostics_gops.go.
    - Bench, BenchMain: cmd/rpcbench, cmd/rpcbench/pool.

    A definition has the name of the function it models, with its type in front where two
    types have the same method ([Session_Disconnect], [Node_Disconnect]); a function whose
    parts interleave with other goroutines is also given in parts ([Start_claim],
    [Start_listen], [Start_serve]).

    ** How code becomes definitions

    Code on a state [W] is a function [M W A]: from a state it returns a value and a
    state, it blocks (a full or empty channel, a lock that is held, an endless wait), or it
    panics (nil dereference, closed channel, index out of range, division by zero). Locks,
    channels and nil pointers are those of the code, so that a theorem that a handler
    returns also says that it neither deadlocks nor panics. The order in which Go visits a
    map is arbitrary: definitions that range over a map take an order as a parameter, the
    class [GoRange], and theorems hold for every order. Counters wrap at 64 bits. Of time,
    deadlines and delays are kept, the clock is an argument. Texts of errors are kept where
    the code compares or transmits them; what is only logged is left out.

    Concurrency is interleaving: a round of a goroutine (one message, one frame, one
    iteration of a select) is a step, and steps of different goroutines come in any order.
    Where the code itself releases a lock in between and the outcome depends on it, the
    parts are separate steps: [ForPort], [Start], the pool of connections, the writing of
    metrics, the receiving goroutine of Redis. Where goroutines share a session, the hub's
    registry, the RPC client, the disconnect queue or the default engine of mruby, the
    operations are also sequences of single actions (taking a lock, reading or writing a
    field, one operation on a channel), and an operation that runs alone is proved to do
    what its definition in one piece does ([alone_as_whole], [hub_alone_as_whole],
    [rpc_alone_as_whole], [commands_alone_as_whole], [queue_alone_as_whole],
    [erases_DefaultEngine]). Each of these files splits the component it is about: in
    SessionRace the critical section of [Enqueue], in HubRace that of [addSession], and in
    NodeRace a call of the controller and in QueueRace a call of [DisconnectNow] is one
    action. What a theorem counts but the code does not store (requests under way in
    RpcRace, sessions accepted and reported in QueueRace) is ghost state beside the world,
    which no action reads.

    The application behind RPC, the raw WebSocket connection and its upgrade, Redis and its
    sentinels, the mruby library, the encoding and transport of gRPC, system calls, opening
    a listener, loading a key pair, generating identifiers, parsing the command line,
    running handlers of signals and the ring buffer of a benchmark belong to other packages
    (the vendored ones included) or to the machine. They are parameters;
    what is relied on is stated as the laws of a class or as a hypothesis of a section, and
    every theorem with hypotheses comes with a witness that applies it to concrete values.

    Fuel: [sendFrame] calls itself at most once, through the disconnect it triggers, and
    has depth 2; [SendMessages] takes fuel above the number of queued frames and is proved
    to stop before; the retry loops have fuel 303, proved enough because the delays exceed
    the age limit before; closing the connection pool takes one more than the channel
    holds. All of these are theorems: no result depends on running out of fuel. The loop of
    [p_SendMessages] has any number of rounds, and its theorems hold for each of them. The
    retries of RpcRace have the fuel 303 of those in one piece. The goroutine of the
    disconnect queue takes a list of choices, one for each iteration of its loop (which case
    of the select is taken when both are ready); theorems hold for every list, and
    [queue_never_stuck] asks that the list has not run out.

    ** What is proved

    - A running node: no reachable step panics ([node_never_panics]), and locks, channels,
      the maps of the hub and the registered sessions stay consistent
      ([node_stays_consistent]); a published message reaches the wire
      ([published_reaches_wire]).
    - The hub: it refines a registry of sets ([hub_refines_registry]); a broadcast queues
      exactly one frame per subscription ([broadcast_reaches_subscribers]); a remote
      disconnect is complete ([remote_disconnect_complete]); the goroutine pool runs every
      task once and refines the pool the hub is modelled with ([pool_runs_each_once],
      [gopool_refines_hub_pool]).
    - Sessions under any interleaving: no goroutine panics ([no_interleaving_panics]), a
      session departs at most once ([departs_once_interleaved]), and whoever holds its lock
      can go on ([lock_holder_proceeds]).
    - Sessions: frames are written in order ([SendMessages_drains]), a session departs at
      most once ([departs_at_most_once]), operations leave sessions unlocked and usable
      ([operations_leave_sessions_ok]), slow clients are cut off without losing what was
      queued ([slow_client_cut_off]), pings ([sendPing_spec]).
    - Commands and authentication: the effect of every branch ([Subscribe_effect],
      [Unsubscribe_effect], [commands_guarded], [Authenticate_success],
      [Authenticate_failure]).
    - RPC: [Start] readies the controller ([controller_starts]), retries end
      ([retry_returns]) and calls are balanced ([rpc_calls_balanced]). However calls
      interleave, at most [Concurrency] requests are under way ([calls_bounded]) and the
      goroutines do not deadlock ([calls_never_deadlock]). One call is one call of the
      server, with what the session holds ([Authenticate_end_to_end]).
    - Shutdown: of the node when there is room for the departures, and what happens when
      there is not ([Node_Shutdown_closes_all], [Node_Shutdown_blocks]); of the disconnect
      queue ([queue_shutdown_drains]) and its rate ([disconnect_rate_interval]). However
      its goroutines interleave, a departure is reported at most once and never lost
      ([queue_reports_once]) and nobody waits for ever ([queue_never_stuck]).
    - The edge: origins ([CheckOrigin_spec]), what a session is made of
      ([session_from_request]), the connection refines the one of the sessions
      ([connection_refines_conn]), servers listen once ([server_listens_once]), broadcasts
      over HTTP are guarded ([http_broadcast_guarded]), Redis reconnects and gives up
      ([redis_gives_up]), sentinels are dialled with their passwords
      ([sentinel_dial_spec]).
    - The process: it starts, fails closed and stops ([Run_starts], [Run_fails_closed],
      [signal_shuts_down]); its options have their types ([flags_typed]); one mruby engine
      is shared ([default_engine_shared]), loading a script releases what it took
      ([LoadString_spec]), the custom printer prints what its script answers
      ([ruby_printer_prints]); diagnostics ([diagnostics_init_spec]).
    - Data: messages survive the round trip through JSON ([pubsub_roundtrip]), the state of
      the application comes back to it ([state_comes_back]), merged independently of the
      map order ([merge_states_spec]), the encoding cache is
      transparent ([fetch_transparent]), intervals of counters are exact
      ([counter_intervals_exact]), the connection pool keeps its books
      ([pool_keeps_books]), percentiles ([percentile_spec]), the
      benchmark reports all its requests ([bench_reports_all]).

    Theorems that show a defect are stated as such, next to what holds: for example
    [departure_can_be_lost], [remote_disconnect_can_deadlock],
    [collector_stops_only_in_select], [pending_removal_wipes_new_streams], [rejected_subscription_recorded],
    [Shutdown_does_not_wait], [pool_strands_tasks], [CheckOrigin_panics], [ForPort_race],
    [receiver_leaks], [shutdown_while_writing], [metrics_server_stops_rotation],
    [Get_races_Close], [worker_panics_without_session], [departure_can_crash],
    [shutdown_waits_for_nothing].

    ** Not modelled

    - Vendored packages; of protos/rpc.pb.go the generated accessors, the marshalling and
      the compressed descriptors; the mocks generated for tests (mocks/Handler.go,
      mocks/RPCClient.go, node_mocks/AppNode.go), which replay what a test programs through
      the testify library.
    - System calls (utils/os_limits.go, the test for a terminal) and calls of libraries with
      no logic of their own.
    - What is only printed or logged, except the lines of the log handler, the help screen,
      the announcements of Startup and the reports of the benchmarks.
    - Letters beyond ASCII are not folded by [ToLower]; net/url is modelled up to the host
      and its user information; in [ServeMux] a pattern is a path.
    - Data races in the sense of the Go memory model: an action is atomic and seen by all
      goroutines in the same order. *)

From Stdlib Require Import ZArith Lia.
From stdpp Require Import base gmap strings list fin_maps.

(** ** Go integers *)

Definition u64_modulus : Z := 2 ^ 64.

(** [uint64(z)]: reduction modulo 2^64. *)
Definition to_u64 (z : Z) : Z := z `mod` u64_modulus.

(** [int64(z)]: two's complement reduction to 64 bits. *)
Definition to_i64 (z : Z) : Z :=
  (z + 2 ^ 63) `mod` u64_modulus - 2 ^ 63.

(** ** Errors *)

(** A Go [error] value. Errors made with [errors.New] and [fmt.Errorf] carry
    their text; a gRPC status error also carries its code. *)
Inductive error : Type :=
| Errorf (msg : string)
| StatusError (code : Z) (msg : string).

#[export] Instance error_eq_dec : EqDecision error.
Proof. solve_decision. Defined.

(** A call that returns [(v, err)] with exactly one of the two meaningful. *)
Inductive result (A : Type) : Type :=
| Ok (a : A)
| Err (e : error).
Arguments Ok {A} _.
Arguments Err {A} _.

(** ** The effect monad *)

(** The outcome of running a piece of Go code from a state: it returns, it
    blocks for ever unless another goroutine acts (in the state reached), or it
    panics. *)
Inductive outcome (W A : Type) : Type :=
| Ret (a : A) (w : W)
| Block (why : string) (w : W)
| Panic (why : string) (w : W).
Arguments Ret {W A} _ _.
Arguments Block {W A} _ _.
Arguments Panic {W A} _ _.

Definition M (W A : Type) : Type := W -> outcome W A.

Declare Scope go_scope.
Delimit Scope go_scope with go.

Definition ret {W A} (a : A) : M W A := fun w => Ret a w.

Definition bind {W A B} (m : M W A) (k : A -> M W B) : M W B :=
  fun w =>
    match m w with
    | Ret a w' => k a w'
    | Block c w' => Block c w'
    | Panic c w' => Panic c w'
    end.

Notation "'let!' p := c 'in' k" := (bind c (fun p => k))
  (at level 10, p as pattern, c at level 200, k at level 200,
   format "'[v' 'let!'  p  :=  c  'in' '/' k ']'") : go_scope.
Notation "c ;; k" := (bind c (fun _ => k))
  (at level 100, k at level 200, right associativity) : go_scope.

Open Scope go_scope.

(** The whole state, a panic, and blocking for ever as computations. *)
Definition get {W} : M W W := fun w => Ret w w.
Definition modify {W} (f : W -> W) : M W unit := fun w => Ret tt (f w).
Definition panic {W A} (why : string) : M W A := fun w => Panic why w.
Definition block {W A} (why : string) : M W A := fun w => Block why w.

(** The dereference of a nil pointer, as the Go runtime reports it. *)
Definition nil_deref {W A} : M W A :=
  panic "invalid memory address or nil pointer dereference".

Definition when {W} (b : bool) (m : M W unit) : M W unit :=
  if b then m else ret tt.

(** [for _, x := range l { f(x) }] over a slice. *)
Fixpoint each {W A} (f : A -> M W unit) (l : list A) : M W unit :=
  match l with
  | [] => ret tt
  | x :: l' => f x ;; each f l'
  end.

(** Running code that works on one field of a larger state. *)
Definition zoom {W V A} (g : W -> V) (p : V -> W -> W) (m : M V A) : M W A :=
  fun w =>
    match m (g w) with
    | Ret a v => Ret a (p v w)
    | Block c v => Block c (p v w)
    | Panic c v => Panic c (p v w)
    end.

(** Whether a computation returns. *)
Definition came_back {W A} (o : outcome W A) : bool := match o with Ret _ _ => true | _ => false end.

Lemma came_back_ret {W A} (o : outcome W A) : came_back o = true -> exists a w, o = Ret a w.
Proof. destruct o as [a w| |]; [by exists a, w | done..]. Qed.

(** ** Channels *)

(** A buffered channel: what it holds (oldest first), its capacity, and
    whether it has been closed. *)
Record Chan (A : Type) : Type := mkChan {
  ch_buf : list A;
  ch_cap : nat;
  ch_closed : bool
}.
Arguments mkChan {A} _ _ _.
Arguments ch_buf {A} _.
Arguments ch_cap {A} _.
Arguments ch_closed {A} _.

Definition make_chan {A} (n : nat) : Chan A := mkChan [] n false.

Definition chan_full {A} (c : Chan A) : bool :=
  bool_decide (ch_cap c ≤ length (ch_buf c)).

Definition chan_push {A} (x : A) (c : Chan A) : Chan A :=
  mkChan (ch_buf c ++ [x]) (ch_cap c) (ch_closed c).

(** [c <- x] *)
Definition chan_send {A} (x : A) : M (Chan A) unit := fun c =>
  if ch_closed c then Panic "send on closed channel" c
  else if chan_full c then Block "chan send" c
  else Ret tt (chan_push x c).

(** [select { case c <- x: ... default: ... }]: whether the send happened. *)
Definition chan_try_send {A} (x : A) : M (Chan A) bool := fun c =>
  if ch_closed c then Panic "send on closed channel" c
  else if chan_full c then Ret false c
  else Ret true (chan_push x c).

(** [x, ok := <-c]: [None] when the channel is closed and drained. *)
Definition chan_recv {A} : M (Chan A) (option A) := fun c =>
  match ch_buf c with
  | x :: b => Ret (Some x) (mkChan b (ch_cap c) (ch_closed c))
  | [] => if ch_closed c then Ret None c else Block "chan receive" c
  end.

(** [close(c)] *)
Definition chan_close {A} : M (Chan A) unit := fun c =>
  if ch_closed c then Panic "close of closed channel" c
  else Ret tt (mkChan (ch_buf c) (ch_cap c) true).

(** ** Locks *)

(** A [sync.Mutex], as whether it is held. *)
Definition lock : M bool unit := fun m =>
  if m then Block "sync.Mutex.Lock" m else Ret tt true.
Definition unlock : M bool unit := fun m =>
  if m then Ret tt false else Panic "sync: unlock of unlocked mutex" m.

(** A [sync.RWMutex]: a writer, or a number of readers. *)
Record RWMutex : Type := mkRW { rw_writer : bool; rw_readers : nat }.

#[export] Instance RWMutex_eq_dec : EqDecision RWMutex.
Proof. solve_decision. Defined.

Definition rw_free : RWMutex := mkRW false 0.

Definition rw_rlock : M RWMutex unit := fun m =>
  if rw_writer m then Block "sync.RWMutex.RLock" m
  else Ret tt (mkRW false (S (rw_readers m))).
Definition rw_runlock : M RWMutex unit := fun m =>
  match rw_readers m with
  | O => Panic "sync: RUnlock of unlocked RWMutex" m
  | S n => Ret tt (mkRW (rw_writer m) n)
  end.
Definition rw_lock : M RWMutex unit := fun m =>
  if rw_writer m then Block "sync.RWMutex.Lock" m
  else match rw_readers m with
       | O => Ret tt (mkRW true 0)
       | S _ => Block "sync.RWMutex.Lock" m
       end.
Definition rw_unlock : M RWMutex unit := fun m =>
  if rw_writer m then Ret tt (mkRW false (rw_readers m))
  else Panic "sync: Unlock of unlocked RWMutex" m.

(** ** Maps *)

(** Go visits the entries of a map in an order that is not specified. Code
    that ranges over a map is modelled with an arbitrary [range] function that
    lists each entry once; a theorem about such code holds for every order. *)
Class GoRange : Type := {
  range : forall {A : Type}, gmap string A -> list (string * A);
  range_perm : forall (A : Type) (m : gmap string A), range m ≡ₚ map_to_list m
}.

(** One such order, to evaluate the definitions with. *)
Definition canonical_order : GoRange :=
  {| range := fun A m => map_to_list m;
     range_perm := fun A m => Permutation_refl _ |}.

Definition range_keys `{GoRange} {A} (m : gmap string A) : list string :=
  (range m).*1.

(** ** Reasoning about effects *)

(** [returns m Q w]: run from [w], [m] neither blocks nor panics, and its value
    and final state satisfy [Q]. *)
Definition returns {W A} (m : M W A) (Q : A -> W -> Prop) (w : W) : Prop :=
  match m w with Ret a w' => Q a w' | _ => False end.

(** [keeps m P]: whatever [m] does, a state that satisfies [P] is left in a state
    that satisfies [P]. *)
Definition final {W A} (o : outcome W A) : W :=
  match o with Ret _ w => w | Block _ w => w | Panic _ w => w end.
Definition keeps {W A} (m : M W A) (P : W -> Prop) : Prop :=
  forall w, P w -> P (final (m w)).

(** [safe m Q w]: run from [w], [m] does not panic, and if it returns its value
    and final state satisfy [Q]. It may wait for another goroutine. *)
Definition safe {W A} (m : M W A) (Q : A -> W -> Prop) (w : W) : Prop :=
  match m w with Ret a w' => Q a w' | Block _ _ => True | Panic _ _ => False end.

(** [maintains P m]: from a state that satisfies [P], [m] does not panic, and if it
    returns the state satisfies [P] again. *)
Definition maintains {W A} (P : W -> Prop) (m : M W A) : Prop :=
  forall w, P w -> safe m (fun _ => P) w.

Create HintDb go discriminated.

Section effects.
Context {W : Type}.

Lemma returns_bind {A B} (m : M W A) (k : A -> M W B) Q w :
  returns (bind m k) Q w <-> returns m (fun a => returns (k a) Q) w.
Proof. unfold returns, bind. destruct (m w); reflexivity. Qed.

Lemma returns_mono {A} (m : M W A) (Q Q' : A -> W -> Prop) w :
  returns m Q w -> (forall a w', Q a w' -> Q' a w') -> returns m Q' w.
Proof. unfold returns. destruct (m w); auto. Qed.

Lemma returns_inv {A} (m : M W A) Q w :
  returns m Q w -> exists a w', m w = Ret a w' /\ Q a w'.
Proof. unfold returns. destruct (m w); [eauto | done..]. Qed.

Lemma keeps_bind {A B} (m : M W A) (k : A -> M W B) P :
  keeps m P -> (forall a, keeps (k a) P) -> keeps (bind m k) P.
Proof.
  intros Hm Hk w Hw. specialize (Hm w Hw). unfold bind.
  destruct (m w); [apply Hk |..]; exact Hm.
Qed.

Lemma keeps_ret {A} (a : A) P : keeps (ret (W := W) a) P.
Proof. intros w Hw. exact Hw. Qed.

Lemma keeps_each {A} (f : A -> M W unit) (l : list A) P :
  (forall x, keeps (f x) P) -> keeps (each f l) P.
Proof.
  intros Hf. induction l; simpl; [apply keeps_ret | by apply keeps_bind].
Qed.

Lemma bind_ret_l {A B} (a : A) (k : A -> M W B) : bind (ret a) k = k a.
Proof. reflexivity. Qed.

Lemma bind_ret_eq {A B} (m : M W A) (k : A -> M W B) w a w' :
  m w = Ret a w' -> bind m k w = k a w'.
Proof. intros Hm. unfold bind. by rewrite Hm. Qed.

Lemma bind_bind_ret {A B D} (m : M W A) (k : A -> M W B) (f : B -> M W D) w b w' :
  bind m k w = Ret b w' -> bind m (fun x => bind (k x) f) w = f b w'.
Proof. unfold bind. intros Hm. destruct (m w); [by rewrite Hm | done..]. Qed.

Lemma safe_bind {A B} (m : M W A) (k : A -> M W B) Q w :
  safe (bind m k) Q w <-> safe m (fun a => safe (k a) Q) w.
Proof. unfold safe, bind. destruct (m w); reflexivity. Qed.

Lemma safe_mono {A} (m : M W A) (Q Q' : A -> W -> Prop) w :
  safe m Q w -> (forall a w', Q a w' -> Q' a w') -> safe m Q' w.
Proof. unfold safe. destruct (m w); auto. Qed.

Lemma safe_returns {A} (m : M W A) (Q : A -> W -> Prop) w a w' :
  m w = Ret a w' -> Q a w' -> safe m Q w.
Proof. unfold safe. by intros ->. Qed.

Lemma safe_step {A B} (m : M W A) (k : A -> M W B) (Q : B -> W -> Prop) w a w' :
  m w = Ret a w' -> safe (k a) Q w' -> safe (bind m k) Q w.
Proof. unfold safe, bind. by intros ->. Qed.

Lemma maintains_bind {A B} (P : W -> Prop) (m : M W A) (k : A -> M W B) :
  maintains P m -> (forall a, maintains P (k a)) -> maintains P (bind m k).
Proof.
  intros Hm Hk w Hw. apply safe_bind. eapply safe_mono; [by apply Hm |].
  intros a w' Hw'. by apply Hk.
Qed.

Lemma safe_then {A B} (P : W -> Prop) (m : M W A) (k : A -> M W B) Q w :
  P w -> maintains P m -> (forall a w', P w' -> safe (k a) Q w') -> safe (bind m k) Q w.
Proof.
  intros Hw Hm Hk. apply safe_bind. eapply safe_mono; [by apply Hm |]. intros a w'. apply Hk.
Qed.

Lemma maintains_ret {A} (P : W -> Prop) (a : A) : maintains P (ret a).
Proof. by intros w Hw. Qed.

Lemma maintains_get {A} (P : W -> Prop) (k : W -> M W A) :
  (forall v, P v -> maintains P (k v)) -> maintains P (bind get k).
Proof. intros Hk w Hw. by apply Hk. Qed.

Lemma maintains_when (P : W -> Prop) (b : bool) (m : M W unit) :
  maintains P m -> maintains P (when b m).
Proof. destruct b; [done | intros _; apply maintains_ret]. Qed.

Lemma maintains_each {A} (P : W -> Prop) (f : A -> M W unit) (l : list A) :
  (forall x, x ∈ l -> maintains P (f x)) -> maintains P (each f l).
Proof.
  induction l as [|x l IH]; intros Hf; simpl; [apply maintains_ret |].
  apply maintains_bind; [apply Hf; set_solver | intros _; apply IH; set_solver].
Qed.

(** A loop whose body always returns computes a fold over the state. *)
Lemma each_foldl {A} (f : A -> M W unit) (step : W -> A -> W) (P : W -> Prop) l w :
  P w ->
  (forall v x, P v -> f x v = Ret tt (step v x) /\ P (step v x)) ->
  each f l w = Ret tt (foldl step w l) /\ P (foldl step w l).
Proof.
  intros Hw Hf. revert w Hw. induction l as [|x l IH]; intros w Hw; [done |].
  simpl. destruct (Hf w x Hw) as [Heq Hp]. unfold bind. rewrite Heq. by apply IH.
Qed.

Lemma each_app {A} (f : A -> M W unit) (l k : list A) w :
  each f (l ++ k) w = bind (each f l) (fun _ => each f k) w.
Proof.
  revert w. induction l as [|x l IH]; intros w; [done |].
  simpl. unfold bind in *. destruct (f x w); [apply IH | done..].
Qed.

Lemma each_fmap {A B} (f : A -> M W unit) (g : B -> A) xs w :
  each (fun x => f (g x)) xs w = each f (g <$> xs) w.
Proof.
  revert w. induction xs as [|x xs IH]; intros w; [done |]. simpl. unfold bind.
  destruct (f (g x) w); [apply IH | done..].
Qed.
End effects.

#[export] Hint Resolve keeps_bind keeps_ret keeps_each maintains_ret maintains_when : go.

Section range_lemmas.
Context `{GoRange} {A : Type}.
Implicit Types m : gmap string A.

Lemma range_keys_NoDup m : NoDup (range m).*1.
Proof. rewrite range_perm. apply NoDup_fst_map_to_list. Qed.

Lemma range_list_to_map m : list_to_map (range m) = m.
Proof.
  rewrite <- (list_to_map_to_list m) at 2.
  apply list_to_map_proper; [apply range_keys_NoDup | apply range_perm].
Qed.

Lemma elem_of_range m k x : (k, x) ∈ range m <-> m !! k = Some x.
Proof. rewrite range_perm. apply elem_of_map_to_list. Qed.

Lemma elem_of_range_keys m k : k ∈ range_keys m <-> is_Some (m !! k).
Proof.
  unfold range_keys. rewrite list_elem_of_fmap. split.
  - intros [[k' x] [-> Hin]]. apply elem_of_range in Hin. eauto.
  - intros [x Hx]. exists (k, x). by rewrite elem_of_range.
Qed.

Lemma length_range_keys m : length (range_keys m) = size m.
Proof. unfold range_keys. by rewrite length_fmap, range_perm, length_map_to_list. Qed.

Lemma range_keys_empty : range_keys (∅ : gmap string A) = [].
Proof.
  unfold range_keys. pose proof (range_perm A ∅) as Hp. rewrite map_to_list_empty in Hp.
  apply Permutation_nil_r in Hp. by rewrite Hp.
Qed.
End range_lemmas.

(** ** Integers *)

Lemma to_i64_small z : (- 2 ^ 63 <= z < 2 ^ 63)%Z -> to_i64 z = z.
Proof.
  intros Hz. unfold to_i64, u64_modulus. rewrite Z.mod_small; lia.
Qed.

(** ** Lists *)

Lemma filter_ext_in {A} (P Q : A -> Prop) `{forall x, Decision (P x), forall x, Decision (Q x)} (l : list A) :
  (forall x, x ∈ l -> P x <-> Q x) -> filter P l = filter Q l.
Proof.
  induction l as [|x l IH]; intros Hpq; [done |].
  assert (Hl : filter P l = filter Q l) by (apply IH; intros; apply Hpq; set_solver).
  assert (Hx : P x <-> Q x) by (apply Hpq; set_solver).
  rewrite !filter_cons, Hl. repeat case_decide; tauto.
Qed.
