(* ===== verification/Threads.v ===== *)
(** * Goroutines that interleave

    A goroutine as a sequence of atomic actions on a shared state, and pools of them that
    take steps in any order; a goroutine that runs alone is a program of the effect monad
    again. Safety of a pool is proved one goroutine at a time: every goroutine has a view,
    which is what it knows about the state (that it holds a lock, say), and a global
    invariant relates the views of all goroutines to the state. *)

From Stdlib Require Import Lia.
From stdpp Require Import base list relations.
From S2P Require Import Prelude.

(** ** Programs of atomic actions *)

Inductive proc (W A : Type) : Type :=
| Pure (a : A)
| Act {X : Type} (m : M W X) (k : X -> proc W A).
Arguments Pure {W A} a.
Arguments Act {W A X} m k.

Declare Scope proc_scope.
Delimit Scope proc_scope with proc.
Bind Scope proc_scope with proc.

Definition act {W X} (m : M W X) : proc W X := Act m Pure.

Fixpoint pbind {W A B} (p : proc W A) (f : A -> proc W B) : proc W B :=
  match p with
  | Pure a => f a
  | Act m k => Act m (fun x => pbind (k x) f)
  end.

Notation "'do!' x := p 'in' q" := (pbind p (fun x => q))
  (at level 200, x pattern, p at level 100, q at level 200, right associativity) : proc_scope.
Notation "p ;>> q" := (pbind p (fun _ => q)) (at level 100, right associativity) : proc_scope.

(** A program that runs alone. *)
Fixpoint run {W A} (p : proc W A) : M W A :=
  match p with
  | Pure a => ret a
  | Act m k => bind m (fun x => run (k x))
  end.

Lemma run_pbind {W A B} (p : proc W A) (f : A -> proc W B) w :
  run (pbind p f) w = bind (run p) (fun a => run (f a)) w.
Proof.
  revert w. induction p as [a|X m k IH]; intros w; [done |]. simpl.
  unfold bind. destruct (m w) as [x w'| |]; [| done..]. by rewrite IH.
Qed.

(** ** Pools *)

(** One action of a goroutine; [None] when it has ended. *)
Definition step_thread {W} (p : proc W unit) (w : W) : option (outcome W (proc W unit)) :=
  match p with
  | Pure _ => None
  | Act m k =>
      Some match m w with
           | Ret x w' => Ret (k x) w'
           | Block why w' => Block why w'
           | Panic why w' => Panic why w'
           end
  end.

Section pools.
Context {W : Type} (start : proc W unit -> Prop).

(** A goroutine of the pool takes a step, or a new one is started. *)
Inductive pool_step : list (proc W unit) * W -> list (proc W unit) * W -> Prop :=
| step_runs ts w i p p' w' :
    ts !! i = Some p -> step_thread p w = Some (Ret p' w') -> pool_step (ts, w) (<[i := p']> ts, w')
| step_starts ts w p : start p -> pool_step (ts, w) (ts ++ [p], w).

(** What a pool gets to by any interleaving. *)
Definition pool_reaches : list (proc W unit) * W -> list (proc W unit) * W -> Prop := rtc pool_step.

(** ** Views *)

Context {V : Type} (G : list V -> W -> Prop).
(** In which states a goroutine with a view may have to wait, and which views a goroutine
    may end with. *)
Context (waits : V -> W -> Prop) (ends : V -> Prop).

Fixpoint wpp {A} (p : proc W A) (Q : A -> V -> Prop) (v : V) : Prop :=
  match p with
  | Pure a => Q a v
  | Act m k =>
      forall vs i w, vs !! i = Some v -> G vs w ->
        match m w with
        | Ret x w' => exists v', G (<[i := v']> vs) w' /\ wpp (k x) Q v'
        | Block _ _ => waits v w
        | Panic _ _ => False
        end
  end.

Lemma wpp_mono {A} (p : proc W A) (Q Q' : A -> V -> Prop) v :
  (forall a u, Q a u -> Q' a u) -> wpp p Q v -> wpp p Q' v.
Proof.
  intros HQ. revert v. induction p as [a|X m k IH]; intros v; simpl; [apply HQ |].
  intros Hp vs i w Hi Hw. specialize (Hp vs i w Hi Hw). destruct (m w) as [x w'| |]; [| done..].
  destruct Hp as (v' & Hv' & Hk). exists v'. split; [done |]. by apply IH.
Qed.

Lemma wpp_bind {A B} (p : proc W A) (f : A -> proc W B) Q v :
  wpp p (fun a u => wpp (f a) Q u) v -> wpp (pbind p f) Q v.
Proof.
  revert v. induction p as [a|X m k IH]; intros v; simpl; [done |].
  intros Hp vs i w Hi Hw. specialize (Hp vs i w Hi Hw). destruct (m w) as [x w'| |]; [| done..].
  destruct Hp as (v' & Hv' & Hk). exists v'. split; [done |]. by apply IH.
Qed.

(** The rule of consequence and sequence in one. *)
Lemma wpp_seq {A B} (p : proc W A) (f : A -> proc W B) (R : A -> V -> Prop) Q v :
  wpp p R v -> (forall a u, R a u -> wpp (f a) Q u) -> wpp (pbind p f) Q v.
Proof. intros Hp Hf. apply wpp_bind. by eapply wpp_mono. Qed.

(** Every goroutine is safe from what it knows, and what they know agrees with the
    state. *)
Definition pool_ok (c : list (proc W unit) * W) : Prop :=
  exists vs, Forall2 (fun p v => wpp p (fun _ => ends) v) c.1 vs /\ G vs c.2.

Context (start_ok : forall p vs w, start p -> G vs w ->
  exists v, wpp p (fun _ => ends) v /\ G (vs ++ [v]) w).

Lemma pool_ok_step c c' : pool_ok c -> pool_step c c' -> pool_ok c'.
Proof.
  intros (vs & Hts & Hw) Hstep. destruct Hstep as [ts w i p p' w' Hi Hp | ts w p Hp]; simpl in *.
  - destruct (Forall2_lookup_l _ _ _ _ _ Hts Hi) as (v & Hv & Hsafe).
    destruct p as [a|X m k]; [done |]. simpl in Hp, Hsafe. specialize (Hsafe vs i w Hv Hw).
    destruct (m w) as [x w1| |]; [| done..]. injection Hp as <- <-. destruct Hsafe as (v' & Hv' & Hk).
    exists (<[i := v']> vs). split; [| done]. by apply Forall2_insert.
  - destruct (start_ok p vs w Hp Hw) as (v & Hsafe & Hv). exists (vs ++ [v]). split; [| done].
    apply Forall2_app; [done |]. by constructor.
Qed.

Lemma pool_reaches_ok c c' : pool_ok c -> pool_reaches c c' -> pool_ok c'.
Proof. intros H0 Hr. induction Hr as [|c c1 c2 Hs _ IH]; [done |]. by apply IH, (pool_ok_step c). Qed.

(** No goroutine of such a pool panics. *)
Lemma pool_ok_no_panic ts w i p why w' :
  pool_ok (ts, w) -> ts !! i = Some p -> step_thread p w <> Some (Panic why w').
Proof.
  intros (vs & Hts & Hw) Hi. destruct (Forall2_lookup_l _ _ _ _ _ Hts Hi) as (v & Hv & Hsafe).
  destruct p as [a|X m k]; [done |]. simpl in *. specialize (Hsafe vs i w Hv Hw). by destruct (m w).
Qed.

(** A goroutine that cannot take a step has ended, or has to wait. *)
Lemma pool_ok_stuck ts w i p v vs :
  Forall2 (fun p v => wpp p (fun _ => ends) v) ts vs -> G vs w ->
  ts !! i = Some p -> vs !! i = Some v -> (forall p' w', step_thread p w <> Some (Ret p' w')) ->
  (exists a, p = Pure a) /\ ends v \/ waits v w.
Proof.
  intros Hts Hw Hi Hv Hstuck. destruct (Forall2_lookup_l _ _ _ _ _ Hts Hi) as (v' & Hv' & Hsafe).
  rewrite Hv in Hv'. injection Hv' as <-. destruct p as [a|X m k]; simpl in *; [left; split; [by exists a | done] |].
  right. specialize (Hsafe vs i w Hv Hw). destruct (m w) as [x w1| |]; [| done..]. by destruct (Hstuck (k x) w1).
Qed.
End pools.

(** ** Counting over the goroutines *)

(** The sum of a measure over the views of the goroutines. *)
Fixpoint total {V} (f : V -> nat) (vs : list V) : nat :=
  match vs with [] => 0 | v :: vs => f v + total f vs end.

Lemma total_insert {V} (f : V -> nat) vs i v v' :
  vs !! i = Some v -> total f (<[i := v']> vs) + f v = total f vs + f v'.
Proof.
  revert i. induction vs as [|u vs IH]; intros [|i] Hi; simpl in *; try done; simplify_eq; [lia |].
  specialize (IH i Hi). lia.
Qed.
Lemma total_app {V} (f : V -> nat) vs us : total f (vs ++ us) = total f vs + total f us.
Proof. induction vs; simpl; lia. Qed.
Lemma total_lookup {V} (f : V -> nat) vs i v : vs !! i = Some v -> f v <= total f vs.
Proof. revert i. induction vs as [|u vs IH]; intros [|i] Hi; simpl in *; simplify_eq; [lia |]. specialize (IH i Hi). lia. Qed.
(** Two goroutines with the measure make two. *)
Lemma total_two {V} (f : V -> nat) vs i j v u :
  vs !! i = Some v -> vs !! j = Some u -> i <> j -> f v + f u <= total f vs.
Proof.
  revert i j. induction vs as [|x vs IH]; intros [|i] [|j] Hi Hj Hij; simpl in *; simplify_eq; try done.
  - pose proof (total_lookup f vs j u Hj). lia.
  - pose proof (total_lookup f vs i v Hi). lia.
  - assert (i <> j) by congruence. pose proof (IH i j Hi Hj). lia.
Qed.
Lemma total_pos {V} (f : V -> nat) vs : 0 < total f vs -> exists i v, vs !! i = Some v /\ 0 < f v.
Proof.
  induction vs as [|u vs IH]; simpl; [lia |]. intros H. destruct (f u) eqn:Hu.
  - destruct IH as (i & v & Hi & Hv); [lia |]. by exists (S i), v.
  - exists 0, u. split; [done | lia].
Qed.

Lemma total_none {V} (f : V -> nat) vs : (forall i v, vs !! i = Some v -> f v = 0) -> total f vs = 0.
Proof.
  induction vs as [|u vs IH]; simpl; intros Hf; [done |]. rewrite (Hf 0 u eq_refl), IH; [done |].
  intros i v Hi. by apply (Hf (S i)).
Qed.
Lemma total_length {V} (f : V -> nat) vs : (forall v, f v <= 1) -> total f vs <= length vs.
Proof. intros Hf. induction vs as [|u vs IH]; simpl; [lia |]. specialize (Hf u). lia. Qed.
Lemma total_le {V} (f g : V -> nat) vs : (forall v, f v <= g v) -> total f vs <= total g vs.
Proof. intros Hf. induction vs as [|u vs IH]; simpl; [lia |]. specialize (Hf u). lia. Qed.

(** A goroutine can take a step, or none can. *)
Definition can_step {W} (p : proc W unit) (w : W) : Prop := exists p' w', step_thread p w = Some (Ret p' w').

Lemma pool_steps_or_stuck {W} (ts : list (proc W unit)) (w : W) :
  (exists i p, ts !! i = Some p /\ can_step p w) \/
  (forall i p, ts !! i = Some p -> ~ can_step p w).
Proof.
  induction ts as [|p ts [(i & q & Hi & Hq)|IH]]; [by right | left; by exists (S i), q |].
  destruct (step_thread p w) as [[p' w'| |]|] eqn:Hp; [left; exists 0, p; split; [done | by exists p', w'] | right..].
  all: intros [|i] q Hi; simpl in Hi; [injection Hi as <- | by eapply IH]; intros (p' & w' & Hq); by rewrite Hp in Hq.
Qed.

(** ** Schedules *)

(** The pool after the goroutines have taken steps in the given order; [None] when one of
    them cannot. *)
Fixpoint run_schedule {W} (order : list nat) (ts : list (proc W unit)) (w : W)
    : option (list (proc W unit) * W) :=
  match order with
  | [] => Some (ts, w)
  | i :: order =>
      match ts !! i with
      | Some p =>
          match step_thread p w with
          | Some (Ret p' w') => run_schedule order (<[i := p']> ts) w'
          | _ => None
          end
      | None => None
      end
  end.

Lemma run_schedule_reaches {W} (start : proc W unit -> Prop) order ts w c :
  run_schedule order ts w = Some c -> pool_reaches start (ts, w) c.
Proof.
  revert ts w. induction order as [|i order IH]; simpl; intros ts w Hr; [injection Hr as <-; apply rtc_refl |].
  destruct (ts !! i) as [p|] eqn:Hi; [| done]. destruct (step_thread p w) as [[p' w'| |]|] eqn:Hp; [| done..].
  eapply rtc_l; [by eapply step_runs |]. by apply IH.
Qed.

(** ** Goroutines that run alone *)

(** A goroutine that, alone, does what a program of the effect monad does. *)
Definition erases {W A} (p : proc W A) (m : M W A) : Prop := forall w, run p w = m w.

Lemma erases_pure {W A} (a : A) : erases (W := W) (Pure a) (ret a).
Proof. done. Qed.

Lemma erases_act {W A} (m : M W A) : erases (act m) m.
Proof. intros w. simpl. unfold bind. by destruct (m w). Qed.

Lemma erases_bind {W A B} (p : proc W A) m (f : A -> proc W B) g :
  erases p m -> (forall a, erases (f a) (g a)) -> erases (pbind p f) (bind m g).
Proof.
  intros Hp Hf w. rewrite run_pbind. unfold bind. rewrite Hp. destruct (m w); [apply Hf | done..].
Qed.

Lemma erases_assoc {W A B D} (p : proc W D) (m : M W A) (g : A -> M W B) (f : B -> M W D) :
  erases p (bind m (fun a => bind (g a) f)) -> erases p (bind (bind m g) f).
Proof. intros Hp w. rewrite Hp. unfold bind. by destruct (m w). Qed.

(** A last step that returns nothing of interest. *)
Lemma erases_end {W B} (p : proc W unit) (m : M W unit) (b : B) :
  erases p m -> erases p (m ;; ret b ;; ret tt).
Proof. intros Hp w. rewrite Hp. unfold bind, ret. by destruct (m w) as [[]| |]. Qed.

(** The rest of a goroutine around a part of it. *)
Definition around {W A} (E : proc W A -> proc W unit) : Prop :=
  forall X (m : M W X) k w,
    step_thread (E (Act m k)) w =
    Some match m w with
         | Ret x w' => Ret (E (k x)) w'
         | Block why w' => Block why w'
         | Panic why w' => Panic why w'
         end.

(** A part of a goroutine that, alone, returns can run to its end while the others wait. *)
Lemma alone_reaches {W A} (start : proc W unit -> Prop) ts i E (p : proc W A) w x w' :
  around E -> i < length ts -> run p w = Ret x w' ->
  pool_reaches start (<[i := E p]> ts, w) (<[i := E (Pure x)]> ts, w').
Proof.
  intros HE Hi. revert w. induction p as [a|X m k IH]; intros w Hr; simpl in Hr.
  - injection Hr as -> ->. apply rtc_refl.
  - unfold bind in Hr. destruct (m w) as [y w1| |] eqn:Hm; [| done..].
    eapply rtc_l; [| exact (IH y w1 Hr)]. rewrite <- (list_insert_insert_eq ts i (E (k y)) (E (Act m k))).
    eapply step_runs; [by apply list_lookup_insert_eq |]. by rewrite HE, Hm.
Qed.

Lemma act_reaches {W A} (start : proc W unit -> Prop) ts i (m : M W A) f w x w' :
  i < length ts -> m w = Ret x w' ->
  pool_reaches start (<[i := pbind (act m) f]> ts, w) (<[i := f x]> ts, w').
Proof.
  intros Hi Hm. apply (alone_reaches start ts i (fun p => pbind p f)); [done | done |].
  simpl. unfold bind. by rewrite Hm.
Qed.

(** A pool to which nothing is added. *)
Definition nobody {W} : proc W unit -> Prop := fun _ => False.

(** Lets the goroutine at a place of a pool of two perform its next action. *)
Ltac go i :=
  lazymatch goal with
  | |- pool_reaches _ ([?p; ?q], _) _ =>
      etransitivity; [eapply (act_reaches _ [p; q] i); [simpl; lia |] |]
  | |- rtc _ ([?p; ?q], _) _ =>
      etransitivity; [eapply (act_reaches _ [p; q] i); [simpl; lia |] |]
  | |- context [insert _ _ _] => cbn [insert list_insert]; go i
  end.

(** Programs stay sequences of named parts from here on. *)
#[global] Arguments pbind {W A B} p f : simpl never.
