(* ===== verification/Json.v ===== *)
(** * encoding/json

    The part of Go's [encoding/json] that the server relies on: the scanner and
    [Unmarshal] (text to a document tree), decoding of a tree into
    [interface{}], and [Marshal]. Strings are Go strings, that is, sequences of
    bytes. Numbers decoded into [interface{}] become 64-bit floats, so a number
    is printed back in the shortest form that denotes the same float. *)

From Stdlib Require Import ZArith Lia ZifyBool ZifyN Ascii String SpecFloat DecimalString.
From stdpp Require Import base gmap strings list.
From S2P Require Import Prelude.

Local Open Scope string_scope.

(** A JSON document. An object keeps its members in the order of the text,
    repeated keys included; a number is its literal. *)
Inductive json : Type :=
| JNull
| JBool (b : bool)
| JNum (literal : string)
| JStr (s : string)
| JArr (l : list json)
| JObj (members : list (string * json)).

(** ** UTF-8 *)

Definition byte_in (lo hi : N) (c : ascii) : bool :=
  (lo <=? N_of_ascii c)%N && (N_of_ascii c <=? hi)%N.

Definition byte_cont : ascii -> bool := byte_in 128 191.

Definition utf8_2 (a b : ascii) : bool := byte_in 194 223 a && byte_cont b.
Definition utf8_3 (a b c : ascii) : bool :=
  ((byte_in 224 224 a && byte_in 160 191 b)
   || ((byte_in 225 236 a || byte_in 238 239 a) && byte_cont b)
   || (byte_in 237 237 a && byte_in 128 159 b)) && byte_cont c.
Definition utf8_4 (a b c d : ascii) : bool :=
  ((byte_in 240 240 a && byte_in 144 191 b)
   || (byte_in 241 243 a && byte_cont b)
   || (byte_in 244 244 a && byte_in 128 143 b)) && byte_cont c && byte_cont d.

(** The width of the well-formed UTF-8 sequence a string starts with, 0 when it
    starts with none ([utf8.DecodeRune] then yields the replacement character). *)
Definition rune_width (s : string) : nat :=
  match s with
  | EmptyString => 0
  | String a s1 =>
      if (N_of_ascii a <? 128)%N then 1
      else match s1 with
           | String b s2 =>
               if utf8_2 a b then 2
               else match s2 with
                    | String c s3 =>
                        if utf8_3 a b c then 3
                        else match s3 with
                             | String d _ => if utf8_4 a b c d then 4 else 0
                             | EmptyString => 0
                             end
                    | EmptyString => 0
                    end
           | EmptyString => 0
           end
  end.

Definition byte (n : N) : ascii := ascii_of_N n.

Definition str1 (c : ascii) : string := String c EmptyString.

(** [utf8.EncodeRune] for a code point that is not a surrogate. *)
Definition encode_rune (n : N) : string :=
  (if n <? 128 then String (byte n) EmptyString
   else if n <? 2048 then
     String (byte (192 + n / 64)) (String (byte (128 + n mod 64)) EmptyString)
   else if n <? 65536 then
     String (byte (224 + n / 4096))
       (String (byte (128 + (n / 64) mod 64)) (String (byte (128 + n mod 64)) EmptyString))
   else
     String (byte (240 + n / 262144))
       (String (byte (128 + (n / 4096) mod 64))
          (String (byte (128 + (n / 64) mod 64))
             (String (byte (128 + n mod 64)) EmptyString))))%N.

Definition replacement_rune : string := encode_rune 65533.

(** ** Scanning *)

Definition is_space (c : ascii) : bool :=
  (c =? " ")%char || (c =? "009")%char || (c =? "010")%char || (c =? "013")%char.

Fixpoint skip_space (s : string) : string :=
  match s with
  | String c r => if is_space c then skip_space r else s
  | EmptyString => EmptyString
  end.

Definition hex_value (c : ascii) : option N :=
  (if byte_in 48 57 c then Some (N_of_ascii c - 48)
   else if byte_in 97 102 c then Some (N_of_ascii c - 87)
   else if byte_in 65 70 c then Some (N_of_ascii c - 55)
   else None)%N.

Definition hex4 (a b c d : ascii) : option N :=
  match hex_value a, hex_value b, hex_value c, hex_value d with
  | Some w, Some x, Some y, Some z => Some (((w * 16 + x) * 16 + y) * 16 + z)%N
  | _, _, _, _ => None
  end.

Definition is_surrogate (n : N) : bool := (55296 <=? n)%N && (n <? 57344)%N.

(** [utf16.DecodeRune]: the code point of a surrogate pair. *)
Definition surrogate_pair (hi lo : N) : option N :=
  (if (55296 <=? hi) && (hi <? 56320) && (56320 <=? lo) && (lo <? 57344)
   then Some ((hi - 55296) * 1024 + (lo - 56320) + 65536)
   else None)%N.

(** What a one-character escape stands for. *)
Definition simple_escape (c : ascii) : option string :=
  match c with
  | "034"%char => Some (str1 "034")
  | "\"%char => Some (str1 "\")
  | "/"%char => Some (str1 "/")
  | "b"%char => Some (str1 "008")
  | "f"%char => Some (str1 "012")
  | "n"%char => Some (str1 "010")
  | "r"%char => Some (str1 "013")
  | "t"%char => Some (str1 "009")
  | _ => None
  end.

(** A string literal after its opening quote: its value (invalid UTF-8 and lone
    surrogates replaced) and the text after the closing quote. *)
Fixpoint scan_string (s : string) : option (string * string) :=
  let cons_to p r :=
    match scan_string r with
    | Some (v, rest) => Some (p ++ v, rest)
    | None => None
    end in
  match s with
  | EmptyString => None
  | String "034" rest => Some (EmptyString, rest)
  | String "\" (String "u" (String a (String b (String c (String d r))))) =>
      match hex4 a b c d with
      | None => None
      | Some n =>
          if is_surrogate n then
            match r with
            | String "\" (String "u" (String a' (String b' (String c' (String d' r'))))) =>
                match hex4 a' b' c' d' with
                | None => None
                | Some n' =>
                    match surrogate_pair n n' with
                    | Some p => cons_to (encode_rune p) r'
                    | None => cons_to replacement_rune r
                    end
                end
            | _ => cons_to replacement_rune r
            end
          else cons_to (encode_rune n) r
      end
  | String "\" (String c r) =>
      match simple_escape c with
      | Some p => cons_to p r
      | None => None
      end
  | String "\" EmptyString => None
  | String a r =>
      if (N_of_ascii a <? 32)%N then None
      else match rune_width s, r with
           | 2, String b r2 => cons_to (String a (str1 b)) r2
           | 3, String b (String c r3) => cons_to (String a (String b (str1 c))) r3
           | 4, String b (String c (String d r4)) =>
               cons_to (String a (String b (String c (str1 d)))) r4
           | 1, _ => cons_to (str1 a) r
           | _, _ => cons_to replacement_rune r
           end
  end.

Definition is_digit : ascii -> bool := byte_in 48 57.

Fixpoint scan_digits (s : string) : string * string :=
  match s with
  | String c r =>
      if is_digit c then let (d, rest) := scan_digits r in (String c d, rest)
      else (EmptyString, s)
  | EmptyString => (EmptyString, EmptyString)
  end.

(** A number literal, cut into sign, integer digits, fraction digits and
    exponent. *)
Record number : Type := mkNumber {
  num_negative : bool;
  num_int : string;
  num_frac : string;
  num_exp_negative : bool;
  num_exp : string
}.

Definition scan_fraction (s : string) : option (string * string) :=
  match s with
  | String "." r =>
      match scan_digits r with
      | (EmptyString, _) => None
      | (d, rest) => Some (d, rest)
      end
  | _ => Some (EmptyString, s)
  end.

Definition scan_exponent (s : string) : option (bool * string * string) :=
  match s with
  | String c r =>
      if (c =? "e")%char || (c =? "E")%char then
        let '(neg, r') :=
          match r with
          | String "-" r' => (true, r')
          | String "+" r' => (false, r')
          | _ => (false, r)
          end in
        match scan_digits r' with
        | (EmptyString, _) => None
        | (d, rest) => Some (neg, d, rest)
        end
      else Some (false, EmptyString, s)
  | EmptyString => Some (false, EmptyString, s)
  end.

Definition scan_number (s : string) : option (number * string) :=
  let '(neg, r) := match s with String "-" r => (true, r) | _ => (false, s) end in
  let int :=
    match r with
    | String "0" r' => Some (str1 "0", r')
    | _ => match scan_digits r with
           | (EmptyString, _) => None
           | (d, rest) => Some (d, rest)
           end
    end in
  match int with
  | None => None
  | Some (i, r1) =>
      match scan_fraction r1 with
      | None => None
      | Some (f, r2) =>
          match scan_exponent r2 with
          | None => None
          | Some (eneg, e, r3) => Some (mkNumber neg i f eneg e, r3)
          end
      end
  end.

(** The first [length s - length rest] bytes of [s]. *)
Definition consumed (s rest : string) : string :=
  String.substring 0 (String.length s - String.length rest) s.

Definition strip_prefix (p s : string) : option string :=
  if String.prefix p s
  then Some (String.substring (String.length p) (String.length s - String.length p) s)
  else None.

Definition scan_literal (s : string) : option (json * string) :=
  match strip_prefix "null" s with
  | Some r => Some (JNull, r)
  | None =>
      match strip_prefix "true" s with
      | Some r => Some (JBool true, r)
      | None =>
          match strip_prefix "false" s with
          | Some r => Some (JBool false, r)
          | None =>
              match scan_number s with
              | Some (_, r) => Some (JNum (consumed s r), r)
              | None => None
              end
          end
      end
  end.

(** The scanner. [depth] is how many more arrays and objects may be opened;
    every call consumes input or is followed by one that does, so a [fuel] of
    twice the length of the text is never exhausted. *)
Fixpoint scan_value (fuel depth : nat) (s : string) : option (json * string) :=
  match fuel with
  | O => None
  | S fuel =>
      match skip_space s with
      | String "034" r =>
          match scan_string r with
          | Some (v, rest) => Some (JStr v, rest)
          | None => None
          end
      | String "[" r =>
          match depth with
          | O => None
          | S depth =>
              match skip_space r with
              | String "]" rest => Some (JArr [], rest)
              | _ => match scan_elements fuel depth r with
                     | Some (l, rest) => Some (JArr l, rest)
                     | None => None
                     end
              end
          end
      | String "{" r =>
          match depth with
          | O => None
          | S depth =>
              match skip_space r with
              | String "}" rest => Some (JObj [], rest)
              | _ => match scan_members fuel depth r with
                     | Some (l, rest) => Some (JObj l, rest)
                     | None => None
                     end
              end
          end
      | s' => scan_literal s'
      end
  end
with scan_elements (fuel depth : nat) (s : string) : option (list json * string) :=
  match fuel with
  | O => None
  | S fuel =>
      match scan_value fuel depth s with
      | None => None
      | Some (v, r) =>
          match skip_space r with
          | String "]" rest => Some ([v], rest)
          | String "," r' =>
              match scan_elements fuel depth r' with
              | Some (l, rest) => Some (v :: l, rest)
              | None => None
              end
          | _ => None
          end
      end
  end
with scan_members (fuel depth : nat) (s : string)
  : option (list (string * json) * string) :=
  match fuel with
  | O => None
  | S fuel =>
      match skip_space s with
      | String "034" r =>
          match scan_string r with
          | None => None
          | Some (k, r1) =>
              match skip_space r1 with
              | String ":" r2 =>
                  match scan_value fuel depth r2 with
                  | None => None
                  | Some (v, r3) =>
                      match skip_space r3 with
                      | String "}" rest => Some ([(k, v)], rest)
                      | String "," r' =>
                          match scan_members fuel depth r' with
                          | Some (l, rest) => Some ((k, v) :: l, rest)
                          | None => None
                          end
                      | _ => None
                      end
                  end
              | _ => None
              end
          end
      | _ => None
      end
  end.

Definition max_nesting_depth : nat := Z.to_nat 10000.

(** The document of a text, if the text is syntactically valid. *)
Definition scan (s : string) : option json :=
  match scan_value (S (2 * String.length s)) max_nesting_depth s with
  | Some (v, rest) =>
      match skip_space rest with EmptyString => Some v | _ => None end
  | None => None
  end.

(** ** Numbers as 64-bit floats *)

Fixpoint digits_value (acc : Z) (s : string) : Z :=
  match s with
  | EmptyString => acc
  | String c r => digits_value (10 * acc + (Z.of_N (N_of_ascii c) - 48)) r
  end.

(** The float nearest to [m * 10^e] ([strconv.ParseFloat]). The quotient keeps
    more than 64 significant bits and a sticky bit, so rounding it is rounding
    the exact value. *)
Definition decimal_to_float (m e : Z) : spec_float :=
  (if m =? 0 then S754_zero false
   else if e + 20 + Z.log2 m <? -1000 then S754_zero false
   else if 400 <? e then S754_infinity false
   else if 0 <=? e then binary_normalize 53 1024 (m * 10 ^ e) 0 false
   else
     let d := 10 ^ (- e) in
     let k := Z.max 0 (Z.log2 d - Z.log2 m + 66) in
     let q := m * 2 ^ k / d in
     let sticky := if m * 2 ^ k mod d =? 0 then 0 else 1 in
     binary_normalize 53 1024 (2 * q + sticky) (- (k + 1)) false)%Z.

Definition number_to_float (n : number) : spec_float :=
  (let m := digits_value 0 (num_int n ++ num_frac n) in
   let x := digits_value 0 (num_exp n) in
   let e := (if num_exp_negative n then - x else x)
            - Z.of_nat (String.length (num_frac n)) in
   let f := decimal_to_float m e in
   if num_negative n then
     match f with
     | S754_zero _ => S754_zero true
     | S754_infinity _ => S754_infinity true
     | S754_finite _ a b => S754_finite true a b
     | S754_nan => S754_nan
     end
   else f)%Z.

Definition float_eqb (f g : spec_float) : bool :=
  match f, g with
  | S754_finite s m e, S754_finite s' m' e' =>
      Bool.eqb s s' && (m =? m')%positive && (e =? e')%Z
  | S754_zero s, S754_zero s' => Bool.eqb s s'
  | _, _ => false
  end.

Definition Z_to_string (z : Z) : string :=
  NilZero.string_of_int (Z.to_int z).

(** [round(num/den)], halves up. *)
Definition round_div (num den : Z) : Z := ((2 * num + den) / (2 * den))%Z.

(** The number of digits before the decimal point of [num/den]. *)
Fixpoint decimal_point (fuel : nat) (k num den : Z) : Z :=
  match fuel with
  | O => k
  | S fuel =>
      (if if 0 <=? k then num <? den * 10 ^ (k - 1) else num * 10 ^ (1 - k) <? den
       then decimal_point fuel (k - 1) num den
       else if if 0 <=? k then den * 10 ^ k <=? num else den <=? num * 10 ^ (- k)
            then decimal_point fuel (k + 1) num den
            else k)%Z
  end.

(** The fewest digits that denote the float [m * 2^e], and the position of the
    decimal point. *)
Fixpoint shortest (fuel : nat) (n k num den : Z) (f : spec_float) : Z * Z :=
  let d := (if 0 <=? n - k then round_div (num * 10 ^ (n - k)) den
            else round_div num (den * 10 ^ (k - n)))%Z in
  match fuel with
  | O => (d, k)
  | S fuel =>
      if float_eqb (decimal_to_float d (k - n)) f
      then if (d =? 10 ^ n)%Z then (1, k + 1)%Z else (d, k)
      else shortest fuel (n + 1) k num den f
  end.

Fixpoint zeros (n : nat) : string :=
  match n with O => EmptyString | S n => String "0" (zeros n) end.

(** [strconv.AppendFloat] as [encoding/json] calls it: plain digits, or an
    exponent when the magnitude is below 1e-6 or at least 1e21. *)
Definition format_digits (digits : string) (k : Z) : string :=
  (let n := Z.of_nat (String.length digits) in
   if (k <? -5) || (21 <? k) then
     let x := k - 1 in
     let mant := match digits with
                 | String c EmptyString => str1 c
                 | String c r => String c (String "." r)
                 | EmptyString => EmptyString
                 end in
     mant ++ "e" ++ (if x <? 0 then "-" else "+") ++ Z_to_string (Z.abs x)
   else if k <=? 0 then "0." ++ zeros (Z.to_nat (- k)) ++ digits
   else if n <=? k then digits ++ zeros (Z.to_nat (k - n))
   else String.substring 0 (Z.to_nat k) digits ++ "." ++
        String.substring (Z.to_nat k) (Z.to_nat (n - k)) digits)%Z.

Definition float_text (f : spec_float) : option string :=
  match f with
  | S754_zero s => Some (if s then "-0" else "0")
  | S754_finite s m e =>
      let num := if (0 <=? e)%Z then (Z.pos m * 2 ^ e)%Z else Z.pos m in
      let den := if (0 <=? e)%Z then 1%Z else (2 ^ (- e))%Z in
      let k := decimal_point 8 ((Z.log2 num - Z.log2 den) * 30103 / 100000 + 1)%Z num den in
      let '(d, k') := shortest 17 1 k num den f in
      Some ((if s then "-" else EmptyString) ++ format_digits (Z_to_string d) k')
  | _ => None
  end.

(** The text a number literal is printed back as after passing through a
    [float64]; [None] when it overflows. *)
Definition float64_text (literal : string) : option string :=
  match scan_number literal with
  | Some (n, EmptyString) => float_text (number_to_float n)
  | _ => None
  end.

(** ** Decoding into [interface{}] *)

Definition string_leb (a b : string) : bool :=
  match String.compare a b with Gt => false | _ => true end.

(** Insertion of a member into a list sorted by key; a later member replaces an
    earlier one with the same key. *)
Fixpoint insert_member (k : string) (v : json) (l : list (string * json))
  : list (string * json) :=
  match l with
  | [] => [(k, v)]
  | (k', v') :: r =>
      match String.compare k k' with
      | Eq => (k, v) :: r
      | Lt => (k, v) :: l
      | Gt => (k', v') :: insert_member k v r
      end
  end.

(** The value a document has as an [interface{}], as the document it is
    marshalled back to: objects become maps (the last member of a key counts,
    keys are printed in order), numbers become floats, and a number out of range
    is left nil. *)
Fixpoint to_interface (v : json) : json :=
  match v with
  | JNum lit => match float64_text lit with Some t => JNum t | None => JNull end
  | JArr l => JArr (map to_interface l)
  | JObj ms =>
      JObj (foldl (fun acc kv => insert_member kv.1 kv.2 acc) []
              (map (fun kv => (kv.1, to_interface kv.2)) ms))
  | _ => v
  end.

(** ** Marshal *)

Definition hex_digit (n : N) : ascii :=
  if (n <? 10)%N then byte (48 + n) else byte (87 + n).

Definition u_escape_low (n : N) : string :=
  "\u00" ++ String (hex_digit (n / 16)) (str1 (hex_digit (n mod 16))).

(** An ASCII byte inside a string literal; HTML-sensitive bytes are escaped. *)
Definition escape_ascii (c : ascii) : string :=
  let n := N_of_ascii c in
  if (c =? "034")%char || (c =? "\")%char then String "\" (str1 c)
  else if (c =? "010")%char then "\n"
  else if (c =? "013")%char then "\r"
  else if (c =? "009")%char then "\t"
  else if (n <? 32)%N || (c =? "<")%char || (c =? ">")%char || (c =? "&")%char
  then u_escape_low n
  else str1 c.

(** The body of a string literal. *)
Fixpoint escape_string (s : string) : string :=
  match s with
  | EmptyString => EmptyString
  | String a r =>
      match rune_width s, r with
      | 1, _ => escape_ascii a ++ escape_string r
      | 2, String b r2 => String a (String b (escape_string r2))
      | 3, String b (String c r3) =>
          (if byte_in 226 226 a && byte_in 128 128 b && byte_in 168 169 c
           then "\u202" ++ str1 (hex_digit (N_of_ascii c - 160))
           else String a (String b (str1 c)))
          ++ escape_string r3
      | 4, String b (String c (String d r4)) =>
          String a (String b (String c (String d (escape_string r4))))
      | _, _ => ("\uff" ++ "fd") ++ escape_string r
      end
  end.

Definition quoted (s : string) : string :=
  String "034" (escape_string s ++ str1 "034").

(** [json.Marshal] of a document. *)
Fixpoint marshal (v : json) : string :=
  match v with
  | JNull => "null"
  | JBool true => "true"
  | JBool false => "false"
  | JNum lit => lit
  | JStr s => quoted s
  | JArr l => "[" ++ String.concat "," (map marshal l) ++ "]"
  | JObj ms =>
      "{" ++ String.concat "," (map (fun kv => quoted kv.1 ++ ":" ++ marshal kv.2) ms)
      ++ "}"
  end.

(** ** Printing and scanning a string *)

(** Well-formed UTF-8. *)
Inductive valid_utf8 : string -> Prop :=
| valid_nil : valid_utf8 EmptyString
| valid_1 a r :
    (N_of_ascii a <? 128)%N = true -> valid_utf8 r -> valid_utf8 (String a r)
| valid_2 a b r :
    utf8_2 a b = true -> valid_utf8 r -> valid_utf8 (String a (String b r))
| valid_3 a b c r :
    utf8_3 a b c = true -> valid_utf8 r ->
    valid_utf8 (String a (String b (String c r)))
| valid_4 a b c d r :
    utf8_4 a b c d = true -> valid_utf8 r ->
    valid_utf8 (String a (String b (String c (String d r)))).

(** Every ASCII byte is escaped to something that is scanned back to it. *)
Lemma scan_escape_ascii a t :
  (N_of_ascii a <? 128)%N = true ->
  scan_string (escape_ascii a ++ t) =
  match scan_string t with
  | Some (v, rest) => Some (str1 a ++ v, rest)
  | None => None
  end.
Proof.
  destruct a as [[] [] [] [] [] [] [] []]; intros Ha; try discriminate Ha; reflexivity.
Qed.

(** A byte of 128 and above is neither a quote, a backslash nor a control
    character, so it is scanned by its UTF-8 width alone. *)
Lemma scan_string_high a r :
  (N_of_ascii a <? 128)%N = false ->
  scan_string (String a r) =
  let cons_to p r :=
    match scan_string r with
    | Some (v, rest) => Some (p ++ v, rest)
    | None => None
    end in
  match rune_width (String a r), r with
  | 2, String b r2 => cons_to (String a (str1 b)) r2
  | 3, String b (String c r3) => cons_to (String a (String b (str1 c))) r3
  | 4, String b (String c (String d r4)) =>
      cons_to (String a (String b (String c (str1 d)))) r4
  | 1, _ => cons_to (str1 a) r
  | _, _ => cons_to replacement_rune r
  end.
Proof.
  destruct a as [[] [] [] [] [] [] [] []]; intros Ha; try discriminate Ha; reflexivity.
Qed.

Ltac solve_bytes :=
  unfold utf8_2, utf8_3, utf8_4, byte_cont, byte_in in *; lia.

Lemma rune_width_2 a b r :
  utf8_2 a b = true ->
  (N_of_ascii a <? 128)%N = false /\ rune_width (String a (String b r)) = 2.
Proof.
  intros Hu. assert (Ha : (N_of_ascii a <? 128)%N = false) by solve_bytes.
  split; [done |]. unfold rune_width. by rewrite Ha, Hu.
Qed.

Lemma rune_width_3 a b c r :
  utf8_3 a b c = true ->
  (N_of_ascii a <? 128)%N = false /\ rune_width (String a (String b (String c r))) = 3.
Proof.
  intros Hu. assert (Ha : (N_of_ascii a <? 128)%N = false) by solve_bytes.
  assert (H2 : utf8_2 a b = false) by solve_bytes.
  split; [done |]. unfold rune_width. by rewrite Ha, H2, Hu.
Qed.

Lemma rune_width_4 a b c d r :
  utf8_4 a b c d = true ->
  (N_of_ascii a <? 128)%N = false /\
  rune_width (String a (String b (String c (String d r)))) = 4.
Proof.
  intros Hu. assert (Ha : (N_of_ascii a <? 128)%N = false) by solve_bytes.
  assert (H2 : utf8_2 a b = false) by solve_bytes.
  assert (H3 : utf8_3 a b c = false) by solve_bytes.
  split; [done |]. unfold rune_width. by rewrite Ha, H2, H3, Hu.
Qed.

Lemma string_app_cons c (s t : string) : String c s ++ t = String c (s ++ t).
Proof. reflexivity. Qed.

Lemma string_app_nil (t : string) : EmptyString ++ t = t.
Proof. reflexivity. Qed.

Lemma string_app_assoc (s t u : string) : (s ++ t) ++ u = s ++ t ++ u.
Proof.
  induction s as [|c s IH]; [done |]. rewrite !string_app_cons. by rewrite IH.
Qed.

(** The line separators, which are escaped although they are not ASCII. *)
Lemma line_separator a b c :
  byte_in 226 226 a && byte_in 128 128 b && byte_in 168 169 c = true ->
  a = byte 226 /\ b = byte 128 /\ (c = byte 168 \/ c = byte 169).
Proof.
  intros Hu.
  assert (N_of_ascii a = 226%N /\ N_of_ascii b = 128%N /\
          (N_of_ascii c = 168%N \/ N_of_ascii c = 169%N)) as (Ha & Hb & Hc)
    by solve_bytes.
  unfold byte. rewrite <- Ha, <- Hb, !ascii_N_embedding. repeat split.
  destruct Hc as [Hc | Hc]; rewrite <- Hc, ascii_N_embedding; auto.
Qed.

Lemma scan_line_separator c t :
  c = byte 168 \/ c = byte 169 ->
  scan_string (("\u202" ++ str1 (hex_digit (N_of_ascii c - 160))) ++ t) =
  match scan_string t with
  | Some (v, rest) => Some (String (byte 226) (String (byte 128) (String c v)), rest)
  | None => None
  end.
Proof. intros [-> | ->]; reflexivity. Qed.

(** Scanning undoes escaping. *)
Lemma scan_escape s rest :
  valid_utf8 s ->
  scan_string (escape_string s ++ String "034" rest) = Some (s, rest).
Proof.
  induction 1 as [|a r Ha Hr IH|a b r Hu Hr IH|a b c r Hu Hr IH|a b c d r Hu Hr IH].
  - done.
  - assert (Hw : rune_width (String a r) = 1) by (unfold rune_width; by rewrite Ha).
    cbn [escape_string]. rewrite Hw, string_app_assoc, scan_escape_ascii, IH by done. done.
  - destruct (rune_width_2 a b r Hu) as [Ha Hw]. cbn [escape_string]. rewrite Hw.
    rewrite ?string_app_cons, ?string_app_nil, scan_string_high by done.
    destruct (rune_width_2 a b (escape_string r ++ String "034" rest) Hu) as [_ ->].
    cbn beta iota zeta. by rewrite IH.
  - destruct (rune_width_3 a b c r Hu) as [Ha Hw]. cbn [escape_string]. rewrite Hw.
    destruct (byte_in 226 226 a && byte_in 128 128 b && byte_in 168 169 c) eqn:Hls.
    + apply line_separator in Hls as (-> & -> & Hc).
      by rewrite string_app_assoc, scan_line_separator, IH.
    + unfold str1. rewrite ?string_app_cons, ?string_app_nil, scan_string_high by done.
      destruct (rune_width_3 a b c (escape_string r ++ String "034" rest) Hu) as [_ ->].
      cbn beta iota zeta. by rewrite IH.
  - destruct (rune_width_4 a b c d r Hu) as [Ha Hw]. cbn [escape_string]. rewrite Hw.
    rewrite ?string_app_cons, ?string_app_nil, scan_string_high by done.
    destruct (rune_width_4 a b c d (escape_string r ++ String "034" rest) Hu) as [_ ->].
    cbn beta iota zeta. by rewrite IH.
Qed.

(** ** Printing and scanning a document *)

(** Documents without numbers, whose strings are well-formed UTF-8. *)
Fixpoint printable (v : json) : Prop :=
  match v with
  | JNull | JBool _ => True
  | JNum _ => False
  | JStr s => valid_utf8 s
  | JArr l => (fix all (l : list json) : Prop :=
                 match l with [] => True | v :: l => printable v /\ all l end) l
  | JObj ms => (fix all (ms : list (string * json)) : Prop :=
                  match ms with
                  | [] => True
                  | (k, v) :: ms => valid_utf8 k /\ printable v /\ all ms
                  end) ms
  end.

(** How deep arrays and objects are nested. *)
Fixpoint nesting (v : json) : nat :=
  match v with
  | JArr l => S ((fix go (l : list json) : nat :=
                    match l with [] => 0 | v :: l => nesting v `max` go l end) l)
  | JObj ms => S ((fix go (ms : list (string * json)) : nat :=
                     match ms with [] => 0 | (_, v) :: ms => nesting v `max` go ms end) ms)
  | _ => 0
  end.

(** The fuel scanning a printed document takes. *)
Fixpoint scan_cost (v : json) : nat :=
  match v with
  | JArr l => S ((fix go (l : list json) : nat :=
                    match l with [] => 0 | v :: l => S (scan_cost v `max` go l) end) l)
  | JObj ms => S ((fix go (ms : list (string * json)) : nat :=
                     match ms with [] => 0 | (_, v) :: ms => S (scan_cost v `max` go ms) end) ms)
  | _ => 1
  end.

Section json_induction.
Context (P : json -> Prop)
  (Hnull : P JNull) (Hbool : forall b, P (JBool b)) (Hnum : forall n, P (JNum n))
  (Hstr : forall s, P (JStr s))
  (Harr : forall l, Forall P l -> P (JArr l))
  (Hobj : forall ms, Forall (fun kv => P kv.2) ms -> P (JObj ms)).

Fixpoint json_nested_ind (v : json) : P v :=
  match v with
  | JNull => Hnull
  | JBool b => Hbool b
  | JNum n => Hnum n
  | JStr s => Hstr s
  | JArr l =>
      Harr l ((fix go (l : list json) : Forall P l :=
                 match l with
                 | [] => Forall_nil_2 P
                 | v :: l => Forall_cons_2 P v l (json_nested_ind v) (go l)
                 end) l)
  | JObj ms =>
      Hobj ms ((fix go (ms : list (string * json)) : Forall (fun kv => P kv.2) ms :=
                  match ms with
                  | [] => Forall_nil_2 _
                  | kv :: ms => Forall_cons_2 _ kv ms (json_nested_ind kv.2) (go ms)
                  end) ms)
  end.
End json_induction.

(** The first byte of a printed document starts a value. *)
Definition starts_value (c : ascii) : Prop :=
  is_space c = false /\ c <> "]"%char /\ c <> "}"%char.

Lemma marshal_first v rest :
  printable v ->
  exists c r, marshal v ++ rest = String c r /\ starts_value c.
Proof.
  destruct v as [|[]| |s|l|ms]; intros Hp; try done;
    (eexists _, _; split; [reflexivity | done]).
Qed.

Lemma skip_space_id c r : is_space c = false -> skip_space (String c r) = String c r.
Proof. intros Hc. simpl. by rewrite Hc. Qed.

Lemma substring_all s : String.substring 0 (String.length s) s = s.
Proof. induction s as [|c s IH]; [done |]. simpl. by rewrite IH. Qed.

Lemma strip_prefix_app p r : strip_prefix p (p ++ r) = Some r.
Proof.
  unfold strip_prefix.
  assert (String.prefix p (p ++ r) = true /\
          String.substring (String.length p)
            (String.length (p ++ r) - String.length p) (p ++ r) = r) as [-> ->]; [| done].
  induction p as [|c p [IH1 IH2]].
  - rewrite string_app_nil. split; [by destruct r |].
    simpl. rewrite Nat.sub_0_r. apply substring_all.
  - rewrite string_app_cons. cbn. split.
    + by destruct (ascii_dec c c).
    + exact IH2.
Qed.

Lemma scan_null rest : scan_literal ("null" ++ rest) = Some (JNull, rest).
Proof. unfold scan_literal. by rewrite strip_prefix_app. Qed.

Lemma scan_bool b rest :
  scan_literal (marshal (JBool b) ++ rest) = Some (JBool b, rest).
Proof.
  unfold scan_literal. destruct b; cbn [marshal].
  - change (strip_prefix "null" ("true" ++ rest)) with (@None string).
    by rewrite strip_prefix_app.
  - change (strip_prefix "null" ("false" ++ rest)) with (@None string).
    change (strip_prefix "true" ("false" ++ rest)) with (@None string).
    by rewrite strip_prefix_app.
Qed.

(** The members of an object as they are printed. *)
Definition marshal_member (kv : string * json) : string :=
  quoted kv.1 ++ ":" ++ marshal kv.2.

Definition scans (v : json) : Prop :=
  printable v ->
  forall fuel depth rest,
    scan_cost v <= fuel -> nesting v <= depth ->
    scan_value fuel depth (marshal v ++ rest) = Some (v, rest).

(** The costs and nesting of the parts of an array or of an object. *)
Fixpoint parts_cost (l : list json) : nat :=
  match l with [] => 0 | v :: l => S (scan_cost v `max` parts_cost l) end.
Fixpoint parts_nesting (l : list json) : nat :=
  match l with [] => 0 | v :: l => nesting v `max` parts_nesting l end.

Lemma scan_cost_arr l : scan_cost (JArr l) = S (parts_cost l).
Proof. reflexivity. Qed.
Lemma scan_cost_obj ms : scan_cost (JObj ms) = S (parts_cost ms.*2).
Proof. simpl. f_equal. induction ms as [|[k v] l IH]; simpl; [done | by rewrite IH]. Qed.
Lemma nesting_arr l : nesting (JArr l) = S (parts_nesting l).
Proof. reflexivity. Qed.
Lemma nesting_obj ms : nesting (JObj ms) = S (parts_nesting ms.*2).
Proof. simpl. f_equal. induction ms as [|[k v] l IH]; simpl; [done | by rewrite IH]. Qed.
Lemma printable_arr l : printable (JArr l) <-> Forall printable l.
Proof.
  simpl. induction l as [|v l IH]; [by rewrite Forall_nil |].
  by rewrite Forall_cons, IH.
Qed.
Lemma printable_obj ms :
  printable (JObj ms) <-> Forall (fun kv => valid_utf8 kv.1 /\ printable kv.2) ms.
Proof.
  simpl. induction ms as [|[k v] l IH]; [by rewrite Forall_nil |].
  rewrite Forall_cons, IH. simpl. tauto.
Qed.

Lemma concat_cons x y l :
  String.concat "," (x :: y :: l) = x ++ "," ++ String.concat "," (y :: l).
Proof. reflexivity. Qed.

Lemma scan_elements_marshal v l fuel depth rest :
  Forall scans (v :: l) -> Forall printable (v :: l) ->
  parts_cost (v :: l) <= fuel -> parts_nesting (v :: l) <= depth ->
  scan_elements fuel depth
    (String.concat "," (map marshal (v :: l)) ++ String "]" rest) = Some (v :: l, rest).
Proof.
  revert v fuel rest. induction l as [|w l IH]; intros v fuel rest Hs Hp Hc Hn;
    apply Forall_cons in Hs as [Hv Hs], Hp as [Hpv Hp];
    (destruct fuel as [|fuel]; [simpl in Hc; lia |]);
    cbn [scan_elements]; simpl parts_cost in Hc; simpl parts_nesting in Hn.
  - cbn [map String.concat]. rewrite Hv by (done || lia). done.
  - rewrite !map_cons, concat_cons, !string_app_assoc, Hv by (done || lia).
    rewrite string_app_cons, string_app_nil, skip_space_id by done. cbn beta iota.
    rewrite <- map_cons, IH by (done || simpl; lia). done.
Qed.

Lemma scan_member_marshal k v t fuel depth :
  valid_utf8 k ->
  scan_members (S fuel) depth (marshal_member (k, v) ++ t) =
  match scan_value fuel depth (marshal v ++ t) with
  | None => None
  | Some (v, r3) =>
      match skip_space r3 with
      | String "}" rest => Some ([(k, v)], rest)
      | String "," r' =>
          match scan_members fuel depth r' with
          | Some (l, rest) => Some ((k, v) :: l, rest)
          | None => None
          end
      | _ => None
      end
  end.
Proof.
  intros Hk. unfold marshal_member, quoted, str1. cbn [fst snd scan_members].
  rewrite !string_app_cons, !string_app_assoc, skip_space_id by done. cbn beta iota.
  rewrite !string_app_cons, !string_app_nil, scan_escape by done.
  rewrite skip_space_id by done. done.
Qed.

Lemma scan_members_marshal kv ms fuel depth rest :
  Forall (fun kv => scans kv.2) (kv :: ms) ->
  Forall (fun kv => valid_utf8 kv.1 /\ printable kv.2) (kv :: ms) ->
  parts_cost (kv :: ms).*2 <= fuel -> parts_nesting (kv :: ms).*2 <= depth ->
  scan_members fuel depth
    (String.concat "," (map marshal_member (kv :: ms)) ++ String "}" rest)
  = Some (kv :: ms, rest).
Proof.
  revert kv fuel rest. induction ms as [|w l IH]; intros [k v] fuel rest Hs Hp Hc Hn;
    apply Forall_cons in Hs as [Hv Hs], Hp as [[Hk Hpv] Hp]; simpl in Hv, Hk, Hpv;
    (destruct fuel as [|fuel]; [simpl in Hc; lia |]);
    simpl parts_cost in Hc; simpl parts_nesting in Hn.
  - cbn [map String.concat]. rewrite scan_member_marshal, Hv by (done || lia). done.
  - rewrite !map_cons, concat_cons, !string_app_assoc.
    rewrite scan_member_marshal, Hv by (done || lia).
    rewrite string_app_cons, string_app_nil, skip_space_id by done. cbn beta iota.
    rewrite <- map_cons, IH by (done || simpl; lia). done.
Qed.

Lemma not_bracket {A} (c : ascii) (y x : A) :
  c <> "]"%char -> match c with "]"%char => y | _ => x end = x.
Proof. intros Hc. destruct c as [[] [] [] [] [] [] [] []]; done. Qed.

Lemma marshal_first_element v l t :
  printable v ->
  exists c r, String.concat "," (map marshal (v :: l)) ++ t = String c r /\ starts_value c.
Proof.
  intros Hp. destruct l as [|w l]; [by apply marshal_first |].
  rewrite !map_cons, concat_cons, string_app_assoc. by apply marshal_first.
Qed.

(** Scanning a printed document gives the document back. *)
Lemma marshal_scans v : scans v.
Proof.
  induction v as [|b|n|s|l IH|ms IH] using json_nested_ind;
    intros Hp [|fuel] depth rest Hc Hn; try (simpl in Hc; lia); try done.
  - cbn [scan_value marshal]. rewrite string_app_cons, skip_space_id by done.
    apply scan_null.
  - destruct b; cbn [scan_value marshal]; rewrite string_app_cons, skip_space_id by done;
      [apply (scan_bool true rest) | apply (scan_bool false rest)].
  - cbn [scan_value marshal]. unfold quoted, str1.
    rewrite string_app_cons, skip_space_id by done. cbn beta iota.
    by rewrite string_app_assoc, string_app_cons, string_app_nil, scan_escape.
  - rewrite scan_cost_arr in Hc. rewrite nesting_arr in Hn. apply printable_arr in Hp.
    destruct depth as [|depth]; [lia |].
    cbn [scan_value marshal].
    rewrite !string_app_cons, !string_app_nil, skip_space_id by done. cbn beta iota.
    destruct l as [|v l]; [done |].
    rewrite string_app_assoc, string_app_cons, string_app_nil.
    pose proof Hp as [Hpv _]%Forall_cons.
    destruct (marshal_first_element v l (String "]" rest) Hpv) as (c & r & Heq & Hsp & Hb & _).
    rewrite Heq, skip_space_id by done.
    etransitivity; [by apply (not_bracket c (Some (JArr [], r))) |].
    rewrite <- Heq, scan_elements_marshal by (done || lia). done.
  - rewrite scan_cost_obj in Hc. rewrite nesting_obj in Hn. apply printable_obj in Hp.
    destruct depth as [|depth]; [lia |].
    cbn [scan_value]. change (marshal (JObj ms))
      with ("{" ++ String.concat "," (map marshal_member ms) ++ "}").
    rewrite !string_app_cons, !string_app_nil, skip_space_id by done. cbn beta iota.
    destruct ms as [|kv ms]; [done |].
    rewrite string_app_assoc, string_app_cons, string_app_nil.
    rewrite scan_members_marshal by (done || lia).
    destruct ms; done.
Qed.

(** Cost of a printed document in terms of the length of its text. *)
Lemma length_app_string s t : String.length (s ++ t) = String.length s + String.length t.
Proof. induction s as [|c s IH]; [done |]. rewrite string_app_cons. simpl. by rewrite IH. Qed.

Lemma parts_cost_bound (l : list json) (print : list string) :
  length print = length l ->
  (forall i v t, l !! i = Some v -> print !! i = Some t ->
     scan_cost v <= 2 * String.length t) ->
  parts_cost l <= 2 * String.length (String.concat "," print) + 1.
Proof.
  revert print. induction l as [|v l IH]; intros [|t print] Hlen Hall; simpl in Hlen; try lia.
  { simpl. lia. }
  assert (Hv : scan_cost v <= 2 * String.length t) by by eapply (Hall 0).
  assert (Hl : parts_cost l <= 2 * String.length (String.concat "," print) + 1).
  { apply IH; [lia |]. intros i v' t' Hi Hi'. by eapply (Hall (S i)). }
  destruct print as [|t' print].
  - destruct l; simpl in *; lia.
  - rewrite concat_cons, !length_app_string. simpl parts_cost. simpl (String.length ","). lia.
Qed.

Lemma scan_cost_length v : printable v -> scan_cost v <= 2 * String.length (marshal v).
Proof.
  induction v as [|b|n|s|l IH|ms IH] using json_nested_ind; intros Hp; try done.
  - simpl. lia.
  - destruct b; simpl; lia.
  - simpl. lia.
  - rewrite scan_cost_arr. apply printable_arr in Hp. cbn [marshal].
    rewrite !length_app_string.
    assert (parts_cost l <= 2 * String.length (String.concat "," (map marshal l)) + 1).
    { apply parts_cost_bound; [by rewrite length_map |].
      intros i v t Hi Ht. change (map marshal l) with (marshal <$> l) in Ht.
      rewrite list_lookup_fmap, Hi in Ht. simplify_eq/=.
      rewrite Forall_forall in IH, Hp.
      apply IH; [| apply Hp]; by apply list_elem_of_lookup_2 in Hi. }
    simpl. lia.
  - rewrite scan_cost_obj. apply printable_obj in Hp. change (marshal (JObj ms))
      with ("{" ++ String.concat "," (map marshal_member ms) ++ "}").
    rewrite !length_app_string.
    assert (parts_cost ms.*2 <= 2 * String.length (String.concat "," (map marshal_member ms)) + 1).
    { apply parts_cost_bound; [by rewrite length_map, length_fmap |].
      intros i v t Hi Ht. change (map marshal_member ms) with (marshal_member <$> ms) in Ht.
      rewrite list_lookup_fmap in Hi. rewrite list_lookup_fmap in Ht.
      destruct (ms !! i) as [[k w]|] eqn:Hm; simplify_eq/=.
      rewrite Forall_forall in IH, Hp. apply list_elem_of_lookup_2 in Hm.
      unfold marshal_member. rewrite !length_app_string.
      pose proof (IH _ Hm) as Hw. destruct (Hp _ Hm) as [_ Hpw]. specialize (Hw Hpw).
      simpl in *. lia. }
    simpl. lia.
Qed.

(** The text of a document is read back as that document. *)
Lemma scan_marshal v :
  printable v -> nesting v <= max_nesting_depth -> scan (marshal v) = Some v.
Proof.
  intros Hp Hn. unfold scan.
  assert (Heq : marshal v = marshal v ++ EmptyString).
  { generalize (marshal v). intros s. induction s as [|c s IH]; [done |].
    rewrite string_app_cons. by rewrite <- IH. }
  rewrite Heq at 2. rewrite marshal_scans; [done | done | | done].
  pose proof (scan_cost_length v Hp). lia.
Qed.
