(* ===== verification/Common.v ===== *)
(** * Package common

    The data shared by all the components ([src/common/common.go]): session
    environments, controller results, client and pub/sub messages, and the
    parser of pub/sub messages. *)

From Stdlib Require Import ZArith Lia Ascii String.
From stdpp Require Import base gmap strings list fin_maps.
From S2P Require Import Prelude Json.

Local Open Scope string_scope.

(** ** Command result statuses *)

Definition SUCCESS : Z := 0.
Definition FAILURE : Z := 1.
Definition ERROR : Z := 2.

(** ** Outgoing message types *)

Definition PingType : string := "ping".
Definition ReplyType : string := "message".
Definition DisconnectType : string := "disconnect".

(** ** Session environment *)

(** The three maps are held through pointers, which may be nil. *)
Record SessionEnv : Type := mkSessionEnv {
  URL : string;
  Headers : option (gmap string string);
  ConnectionState : option (gmap string string);
  ChannelStates : option (gmap string (gmap string string))
}.

Definition NewSessionEnv (url : string) (headers : option (gmap string string)) : SessionEnv :=
  {| URL := url;
     Headers := headers;
     ConnectionState := Some ∅;
     ChannelStates := Some ∅ |}.

Definition set_ConnectionState (m : gmap string string) (st : SessionEnv) : SessionEnv :=
  mkSessionEnv (URL st) (Headers st) (Some m) (ChannelStates st).
Definition set_ChannelStates (m : gmap string (gmap string string)) (st : SessionEnv) : SessionEnv :=
  mkSessionEnv (URL st) (Headers st) (ConnectionState st) (Some m).

(** One iteration of [MergeConnectionState]: an empty value removes the key. *)
Definition merge_connection_entry (kv : string * string) : M SessionEnv unit := fun st =>
  match ConnectionState st with
  | None => nil_deref st
  | Some m =>
      Ret tt (set_ConnectionState
                (if String.eqb kv.2 EmptyString then delete kv.1 m else <[kv.1 := kv.2]> m) st)
  end.

Definition MergeConnectionState `{GoRange} (other : gmap string string) : M SessionEnv unit :=
  each merge_connection_entry (range other).

(** One iteration of [MergeChannelState]; storing into the nil map of an unknown
    channel would panic. *)
Definition merge_channel_entry (id : string) (kv : string * string) : M SessionEnv unit := fun st =>
  match ChannelStates st with
  | None => nil_deref st
  | Some cs =>
      match cs !! id with
      | Some m =>
          Ret tt (set_ChannelStates
                    (<[id := if String.eqb kv.2 EmptyString then delete kv.1 m
                             else <[kv.1 := kv.2]> m]> cs) st)
      | None =>
          if String.eqb kv.2 EmptyString then Ret tt st
          else Panic "assignment to entry in nil map" st
      end
  end.

Definition MergeChannelState `{GoRange} (id : string) (other : gmap string string) : M SessionEnv unit :=
  (fun st =>
     match ChannelStates st with
     | None => nil_deref st
     | Some cs =>
         match cs !! id with
         | Some _ => Ret tt st
         | None => Ret tt (set_ChannelStates (<[id := ∅]> cs) st)
         end
     end) ;;
  each (merge_channel_entry id) (range other).

Definition GetChannelStateField (id field : string) : M SessionEnv string := fun st =>
  match ChannelStates st with
  | None => nil_deref st
  | Some cs =>
      match cs !! id with
      | None => Ret EmptyString st
      | Some cst => Ret (default EmptyString (cst !! field)) st
      end
  end.

Definition GetConnectionStateField (field : string) (st : SessionEnv) : string :=
  match ConnectionState st with
  | None => EmptyString
  | Some m => default EmptyString (m !! field)
  end.

Definition SetHeader (key val : string) (st : SessionEnv) : SessionEnv :=
  mkSessionEnv (URL st)
    (match Headers st with
     | None => Some {[ key := val ]}
     | Some h => Some (<[key := val]> h)
     end)
    (ConnectionState st) (ChannelStates st).

(** ** Pub/sub and client messages *)

Record StreamMessage : Type := mkStreamMessage { Stream : string; Data : string }.

Record RemoteDisconnectMessage : Type := mkRemoteDisconnect {
  rd_Identifier : string;
  rd_Reconnect : bool
}.

(** [Payload] is the raw text of a member, which is itself a JSON document. *)
Record RemoteCommandMessage : Type := mkRemoteCommand {
  rc_Command : string;
  rc_Payload : option json
}.

(** A client message. [msg_Data] has type [interface{}]; nil is [JNull]. *)
Record Message : Type := mkMessage {
  Command : string;
  Identifier : string;
  msg_Data : json
}.

(** Messages sent to clients: the implementations of [encoders.EncodedMessage]
    in this package. *)
Record Reply : Type := mkReply {
  rep_Type : string;
  rep_Identifier : string;
  rep_Message : json
}.
Record PingMessage : Type := mkPing { ping_Type : string; ping_Message : Z }.
Record DisconnectMessage : Type := mkDisconnect {
  dis_Type : string;
  dis_Reason : string;
  dis_Reconnect : bool
}.

(** [GetType]: the type of a message, whatever its field says. *)
Definition Reply_GetType (r : Reply) : string := ReplyType.
Definition Ping_GetType (p : PingMessage) : string := PingType.
Definition Disconnect_GetType (d : DisconnectMessage) : string := DisconnectType.

(** ** Controller results *)

(** A nil map is [None]; a nil slice is the empty list. *)
Record CallResult : Type := mkCallResult {
  call_Transmissions : list string;
  call_Broadcasts : list StreamMessage;
  call_CState : option (gmap string string);
  call_IState : option (gmap string string)
}.

Record ConnectResult : Type := mkConnectResult {
  con_Identifier : string;
  con_Transmissions : list string;
  con_Broadcasts : list StreamMessage;
  con_CState : option (gmap string string);
  con_IState : option (gmap string string);
  con_Status : Z
}.

Record CommandResult : Type := mkCommandResult {
  StopAllStreams : bool;
  Disconnect : bool;
  Streams : list string;
  StoppedStreams : list string;
  Transmissions : list string;
  Broadcasts : list StreamMessage;
  CState : option (gmap string string);
  IState : option (gmap string string);
  Status : Z
}.

Definition ConnectResult_ToCallResult (c : ConnectResult) : CallResult :=
  {| call_Transmissions := con_Transmissions c;
     call_Broadcasts := con_Broadcasts c;
     call_CState := match con_CState c with Some m => Some m | None => None end;
     call_IState := match con_IState c with Some m => Some m | None => None end |}.

Definition CommandResult_ToCallResult (c : CommandResult) : CallResult :=
  {| call_Transmissions := Transmissions c;
     call_Broadcasts := Broadcasts c;
     call_CState := match CState c with Some m => Some m | None => None end;
     call_IState := match IState c with Some m => Some m | None => None end |}.

(** ** Decoding JSON into structs *)

Definition lower_ascii (c : ascii) : ascii :=
  if byte_in 65 90 c then byte (N_of_ascii c + 32) else c.

(** Case folding of a member name. The only letters outside ASCII that fold to
    an ASCII letter are the long s (bytes 197 191) and the Kelvin sign (bytes 226
    132 170). *)
Fixpoint fold_key (s : string) : string :=
  match s with
  | EmptyString => EmptyString
  | String "197" (String "191" r) => String "s" (fold_key r)
  | String "226" (String "132" (String "170" r)) => String "k" (fold_key r)
  | String c r => String (lower_ascii c) (fold_key r)
  end.

(** The field of a struct that a member name selects: the field of that name,
    or the first one equal to it up to case. *)
Definition field_of (fields : list string) (key : string) : option string :=
  match list_find (fun f => f = key) fields with
  | Some (_, f) => Some f
  | None => snd <$> list_find (fun f => fold_key f = fold_key key) fields
  end.

(** [json.Unmarshal] of a document into a struct: [set] stores a member into
    the field it names and says whether the type was wrong. A document that is
    neither an object nor null is a type error; after a type error decoding goes
    on, and the error is returned at the end. *)
Definition decode_struct {A} (fields : list string)
    (set : string -> json -> A -> A * bool) (v : json) (a : A) : A * bool :=
  match v with
  | JNull => (a, false)
  | JObj ms =>
      foldl (fun '(a, bad) kv =>
               match field_of fields kv.1 with
               | Some f => let '(a', bad') := set f kv.2 a in (a', bad || bad')
               | None => (a, bad)
               end) (a, false) ms
  | _ => (a, true)
  end.

(** A [string] field: null leaves it alone. *)
Definition decode_string (v : json) (old : string) : string * bool :=
  match v with
  | JStr s => (s, false)
  | JNull => (old, false)
  | _ => (old, true)
  end.

Definition decode_bool (v : json) (old : bool) : bool * bool :=
  match v with
  | JBool b => (b, false)
  | JNull => (old, false)
  | _ => (old, true)
  end.

Definition set_StreamMessage (f : string) (v : json) (m : StreamMessage) : StreamMessage * bool :=
  if String.eqb f "stream"
  then let '(s, bad) := decode_string v (Stream m) in (mkStreamMessage s (Data m), bad)
  else let '(s, bad) := decode_string v (Data m) in (mkStreamMessage (Stream m) s, bad).

Definition set_RemoteCommand (f : string) (v : json) (m : RemoteCommandMessage)
  : RemoteCommandMessage * bool :=
  if String.eqb f "command"
  then let '(s, bad) := decode_string v (rc_Command m) in (mkRemoteCommand s (rc_Payload m), bad)
  else (mkRemoteCommand (rc_Command m) (Some v), false).

Definition set_RemoteDisconnect (f : string) (v : json) (m : RemoteDisconnectMessage)
  : RemoteDisconnectMessage * bool :=
  if String.eqb f "identifier"
  then let '(s, bad) := decode_string v (rd_Identifier m) in
       (mkRemoteDisconnect s (rd_Reconnect m), bad)
  else let '(b, bad) := decode_bool v (rd_Reconnect m) in
       (mkRemoteDisconnect (rd_Identifier m) b, bad).

(** The text of an [interface{}] member is decoded as a value of its own; a
    number that overflows a float is an error. *)
Fixpoint has_bad_number (v : json) : bool :=
  match v with
  | JNum lit => match float64_text lit with Some _ => false | None => true end
  | JArr l => existsb has_bad_number l
  | JObj ms => existsb (fun kv => has_bad_number kv.2) ms
  | _ => false
  end.

Definition set_Message (f : string) (v : json) (m : Message) : Message * bool :=
  if String.eqb f "command"
  then let '(s, bad) := decode_string v (Command m) in
       (mkMessage s (Identifier m) (msg_Data m), bad)
  else if String.eqb f "identifier"
  then let '(s, bad) := decode_string v (Identifier m) in
       (mkMessage (Command m) s (msg_Data m), bad)
  else (mkMessage (Command m) (Identifier m) (to_interface v), has_bad_number v).

(** [json.Unmarshal(raw, &a)]: [None] when it returns an error. *)
Definition unmarshal_struct {A} (fields : list string)
    (set : string -> json -> A -> A * bool) (doc : option json) (a : A) : option A :=
  match doc with
  | None => None
  | Some v => match decode_struct fields set v a with
              | (a', false) => Some a'
              | (_, true) => None
              end
  end.

(** ** PubSubMessageFromJSON *)

Inductive PubSubMessage : Type :=
| PSStream (m : StreamMessage)
| PSRemoteDisconnect (m : RemoteDisconnectMessage).

Definition PubSubMessageFromJSON (raw : string) : result PubSubMessage :=
  let remote :=
    match unmarshal_struct ["command"; "payload"] set_RemoteCommand (scan raw)
            (mkRemoteCommand EmptyString None) with
    | None => Err (Errorf "json: cannot unmarshal")
    | Some rmsg =>
        if String.eqb (rc_Command rmsg) "disconnect" then
          match unmarshal_struct ["identifier"; "reconnect"] set_RemoteDisconnect
                  (rc_Payload rmsg) (mkRemoteDisconnect EmptyString false) with
          | None => Err (Errorf "json: cannot unmarshal")
          | Some dmsg => Ok (PSRemoteDisconnect dmsg)
          end
        else Err (Errorf ("Unknown message: " ++ raw))
    end in
  match unmarshal_struct ["stream"; "data"] set_StreamMessage (scan raw)
          (mkStreamMessage EmptyString EmptyString) with
  | Some smsg =>
      if negb (String.eqb (Stream smsg) EmptyString) then Ok (PSStream smsg) else remote
  | None => remote
  end.

(** ** Merging states *)

(** What merging [other] into [m] should give: a key of [other] takes its new
    value, or disappears when that value is empty; other keys are kept. *)
Definition merged_value (old new : option string) : option string :=
  match new with
  | Some v => if String.eqb v EmptyString then None else Some v
  | None => old
  end.
Definition merged (m other : gmap string string) : gmap string string :=
  merge merged_value m other.

Definition merge_entry (m : gmap string string) (kv : string * string) : gmap string string :=
  if String.eqb kv.2 EmptyString then delete kv.1 m else <[kv.1 := kv.2]> m.

Lemma lookup_merged m other k :
  merged m other !! k = merged_value (m !! k) (other !! k).
Proof.
  unfold merged. rewrite lookup_merge.
  by destruct (m !! k), (other !! k).
Qed.

Lemma lookup_merge_entry m kv k :
  merge_entry m kv !! k = if decide (kv.1 = k) then merged_value (m !! k) (Some kv.2) else m !! k.
Proof.
  unfold merge_entry, merged_value. destruct (String.eqb kv.2 EmptyString).
  - rewrite lookup_delete. by case_decide.
  - rewrite lookup_insert. by case_decide.
Qed.

(** Entries may be merged one by one, in any order. *)
Lemma foldl_merge_entry l m :
  NoDup l.*1 -> foldl merge_entry m l = merged m (list_to_map l).
Proof.
  revert m. induction l as [|[k v] l IH]; intros m Hnd; simpl.
  - apply map_eq; intros i. by rewrite lookup_merged, lookup_empty.
  - apply NoDup_cons in Hnd as [Hk Hnd]. rewrite IH by done.
    apply map_eq; intros i. rewrite !lookup_merged, lookup_merge_entry, lookup_insert; simpl.
    case_decide as Hi; [subst i | done].
    by rewrite not_elem_of_list_to_map_1.
Qed.

Lemma foldl_range_merge `{GoRange} m other :
  foldl merge_entry m (range other) = merged m other.
Proof.
  rewrite foldl_merge_entry by apply range_keys_NoDup. by rewrite range_list_to_map.
Qed.

Lemma each_merge_connection l st m :
  ConnectionState st = Some m ->
  each merge_connection_entry l st = Ret tt (set_ConnectionState (foldl merge_entry m l) st).
Proof.
  revert st m. induction l as [|kv l IH]; intros st m Hst.
  - destruct st; simpl in *. by subst.
  - simpl. unfold bind, merge_connection_entry at 1. rewrite Hst.
    by rewrite (IH _ (merge_entry m kv)).
Qed.

Lemma each_merge_channel id l st cs m :
  ChannelStates st = Some cs -> cs !! id = Some m ->
  each (merge_channel_entry id) l st =
  Ret tt (set_ChannelStates (<[id := foldl merge_entry m l]> cs) st).
Proof.
  revert st cs m. induction l as [|kv l IH]; intros st cs m Hst Hid.
  - destruct st; simpl in *. rewrite insert_id by done. by subst.
  - simpl. unfold bind, merge_channel_entry at 1. rewrite Hst, Hid.
    rewrite (IH _ (<[id := merge_entry m kv]> cs) (merge_entry m kv)); simpl.
    + by rewrite insert_insert_eq.
    + done.
    + apply lookup_insert_eq.
Qed.

Lemma MergeConnectionState_ok `{GoRange} st m other :
  ConnectionState st = Some m ->
  MergeConnectionState other st = Ret tt (set_ConnectionState (merged m other) st).
Proof.
  intros Hm. unfold MergeConnectionState.
  by rewrite (each_merge_connection _ _ m), foldl_range_merge.
Qed.

Lemma MergeChannelState_ok `{GoRange} st cs id other :
  ChannelStates st = Some cs ->
  MergeChannelState id other st =
    Ret tt (set_ChannelStates (<[id := merged (default ∅ (cs !! id)) other]> cs) st).
Proof.
  intros Hcs. unfold MergeChannelState, bind. rewrite Hcs.
  destruct (cs !! id) as [c|] eqn:Hid; simpl.
  - by rewrite (each_merge_channel _ _ _ cs c), foldl_range_merge.
  - rewrite (each_merge_channel _ _ _ (<[id := ∅]> cs) ∅) by (done || apply lookup_insert_eq).
    by rewrite foldl_range_merge, insert_insert_eq.
Qed.

(** The environments of sessions have both state maps. *)
Definition env_ok (st : SessionEnv) : Prop :=
  is_Some (ConnectionState st) /\ is_Some (ChannelStates st).

Lemma NewSessionEnv_ok url headers : env_ok (NewSessionEnv url headers).
Proof. split; eauto. Qed.

(** ** Properties *)

(** Merging controller state into a session environment is total and does
    not depend on the order in which Go visits the map: an empty value removes
    the key, any other value is stored, and every other key, channel and field of
    the environment is left alone. *)
Theorem merge_states_spec `{GoRange} (st : SessionEnv) m cs id other :
  ConnectionState st = Some m -> ChannelStates st = Some cs ->
  MergeConnectionState other st = Ret tt (set_ConnectionState (merged m other) st) /\
  MergeChannelState id other st =
    Ret tt (set_ChannelStates (<[id := merged (default ∅ (cs !! id)) other]> cs) st).
Proof.
  intros Hm Hcs. split; [by apply MergeConnectionState_ok | by apply MergeChannelState_ok].
Qed.

Definition sample_env : SessionEnv :=
  mkSessionEnv "/cable" (Some ∅) (Some {[ "a" := "1"; "b" := "2" ]})
    (Some {[ "chat" := {[ "x" := "y" ]} ]}).

Lemma merge_states_witness :
  @MergeConnectionState canonical_order {[ "a" := EmptyString; "c" := "3" ]} sample_env =
    Ret tt (set_ConnectionState {[ "b" := "2"; "c" := "3" ]} sample_env).
Proof.
  destruct (@merge_states_spec canonical_order sample_env {[ "a" := "1"; "b" := "2" ]}
              {[ "chat" := {[ "x" := "y" ]} ]} "chat" {[ "a" := EmptyString; "c" := "3" ]}
              eq_refl eq_refl) as [Hmerge _].
  rewrite Hmerge. vm_compute. reflexivity.
Defined.

(** The published text of a broadcast and of a remote disconnect. *)
Definition stream_document (m : StreamMessage) : json :=
  JObj [("stream", JStr (Stream m)); ("data", JStr (Data m))].
Definition disconnect_document (m : RemoteDisconnectMessage) : json :=
  JObj [("command", JStr "disconnect");
        ("payload", JObj [("identifier", JStr (rd_Identifier m));
                          ("reconnect", JBool (rd_Reconnect m))])].

(** A boolean test of well-formed UTF-8 for closed strings of ASCII. *)
Fixpoint all_ascii (s : string) : bool :=
  match s with
  | EmptyString => true
  | String c r => (N_of_ascii c <? 128)%N && all_ascii r
  end.

Lemma all_ascii_valid s : all_ascii s = true -> valid_utf8 s.
Proof.
  induction s as [|c s IH]; simpl; intros Hs; [constructor |].
  apply andb_true_iff in Hs as [Hc Hs]. apply valid_1; auto.
Qed.

Lemma scan_stream_document m :
  valid_utf8 (Stream m) -> valid_utf8 (Data m) ->
  scan (marshal (stream_document m)) = Some (stream_document m).
Proof.
  intros Hs Hd. apply scan_marshal.
  - simpl. repeat split; auto; by apply all_ascii_valid.
  - apply Nat.leb_le. vm_compute. reflexivity.
Qed.

Lemma scan_disconnect_document m :
  valid_utf8 (rd_Identifier m) ->
  scan (marshal (disconnect_document m)) = Some (disconnect_document m).
Proof.
  intros Hs. apply scan_marshal.
  - simpl. repeat split; auto; by apply all_ascii_valid.
  - apply Nat.leb_le. vm_compute. reflexivity.
Qed.

(** The structs these two documents decode to. *)
Lemma decode_stream_document m a :
  unmarshal_struct ["stream"; "data"] set_StreamMessage (Some (stream_document m)) a = Some m.
Proof. by destruct m. Qed.
Lemma decode_disconnect_document m a b :
  unmarshal_struct ["stream"; "data"] set_StreamMessage (Some (disconnect_document m)) a = Some a /\
  unmarshal_struct ["command"; "payload"] set_RemoteCommand (Some (disconnect_document m)) b =
    Some (mkRemoteCommand "disconnect"
            (Some (JObj [("identifier", JStr (rd_Identifier m));
                         ("reconnect", JBool (rd_Reconnect m))]))).
Proof. done. Qed.
Lemma decode_disconnect_payload m a :
  unmarshal_struct ["identifier"; "reconnect"] set_RemoteDisconnect
    (Some (JObj [("identifier", JStr (rd_Identifier m));
                 ("reconnect", JBool (rd_Reconnect m))])) a = Some m.
Proof. by destruct m. Qed.

Lemma parse_stream_document (m : StreamMessage) :
  Stream m <> EmptyString -> valid_utf8 (Stream m) -> valid_utf8 (Data m) ->
  PubSubMessageFromJSON (marshal (stream_document m)) = Ok (PSStream m).
Proof.
  intros Hne Hs Hd. unfold PubSubMessageFromJSON.
  rewrite scan_stream_document, decode_stream_document by done.
  apply String.eqb_neq in Hne. by rewrite Hne.
Qed.

(** C39. What a publisher writes as JSON is what the server reads: the text of a
    broadcast to a non-empty stream parses to that stream and data, and the text
    of a remote disconnect parses to that identifier and reconnect flag. *)
Theorem pubsub_roundtrip (m : StreamMessage) (d : RemoteDisconnectMessage) :
  Stream m <> EmptyString -> valid_utf8 (Stream m) -> valid_utf8 (Data m) ->
  valid_utf8 (rd_Identifier d) ->
  PubSubMessageFromJSON (marshal (stream_document m)) = Ok (PSStream m) /\
  PubSubMessageFromJSON (marshal (disconnect_document d)) = Ok (PSRemoteDisconnect d).
Proof.
  intros Hne Hs Hd Hi. split; [by apply parse_stream_document |]. unfold PubSubMessageFromJSON.
  rewrite scan_disconnect_document by done.
  edestruct (decode_disconnect_document d) as [-> ->]. cbn [Stream rc_Payload].
  by rewrite decode_disconnect_payload.
Qed.

Lemma pubsub_roundtrip_witness :
  PubSubMessageFromJSON
    (marshal (stream_document (mkStreamMessage "chat" "hello"))) =
    Ok (PSStream (mkStreamMessage "chat" "hello")).
Proof.
  apply (pubsub_roundtrip (mkStreamMessage "chat" "hello") (mkRemoteDisconnect "u1" true));
    [discriminate | apply all_ascii_valid; reflexivity ..].
Defined.
