(* ===== verification/Protocol.v ===== *)
(** * Package protocol

    The RPC payloads and their translation to and from the node's data
    ([src/protocol/protocol.go]); the message types are those of the generated
    [src/protos/rpc.pb.go]. *)

From Stdlib Require Import ZArith Lia Ascii String.
From stdpp Require Import base gmap strings list sorting fin_maps.
From S2P Require Import Prelude Json Common.

Local Open Scope string_scope.

(** ** Messages *)

(** A nil map is [None]. *)
Record Env : Type := mkEnv {
  Url : string;
  pb_Headers : option (gmap string string);
  Cstate : option (gmap string string);
  Istate : option (gmap string string)
}.

Record EnvResponse : Type := mkEnvResponse {
  er_Cstate : option (gmap string string);
  er_Istate : option (gmap string string)
}.

Record ConnectionRequest : Type := mkConnectionRequest { cq_Env : Env }.

Record ConnectionResponse : Type := mkConnectionResponse {
  cr_Status : Z;
  cr_Identifiers : string;
  cr_Transmissions : list string;
  cr_ErrorMsg : string;
  cr_Env : option EnvResponse
}.

Record CommandMessage : Type := mkCommandMessage {
  cm_Command : string;
  cm_Identifier : string;
  cm_ConnectionIdentifiers : string;
  cm_Data : string;
  cm_Env : Env
}.

Record CommandResponse : Type := mkCommandResponse {
  cmr_Status : Z;
  cmr_Disconnect : bool;
  cmr_StopStreams : bool;
  cmr_Streams : list string;
  cmr_Transmissions : list string;
  cmr_ErrorMsg : string;
  cmr_Env : option EnvResponse;
  cmr_StoppedStreams : list string
}.

Record DisconnectRequest : Type := mkDisconnectRequest {
  dr_Identifiers : string;
  dr_Subscriptions : list string;
  dr_Env : Env
}.

Record DisconnectResponse : Type := mkDisconnectResponse {
  dsr_Status : Z;
  dsr_ErrorMsg : string
}.

(** [Status.String]: the name of the enumeration value, or its number. *)
Definition Status_name (status : Z) : option string :=
  if (status =? 0)%Z then Some "ERROR"
  else if (status =? 1)%Z then Some "SUCCESS"
  else if (status =? 2)%Z then Some "FAILURE"
  else None.

Definition Status_String (status : Z) : string :=
  default (Z_to_string status) (Status_name status).

(** ** Building requests *)

Section requests.
Context {W : Type}.

(** The headers are dereferenced without a check. *)
Definition buildEnv (env : SessionEnv) : M W Env :=
  match Headers env with
  | None => nil_deref
  | Some headers => ret (mkEnv (URL env) (Some headers) (ConnectionState env) None)
  end.

(** [json.Marshal] of a [map[string]string]: the members in the order of their
    keys. *)
Definition marshal_map (m : gmap string string) : string :=
  marshal (JObj (prod_map id JStr <$>
    merge_sort (fun a b => Is_true (String.leb a.1 b.1)) (map_to_list m))).

Definition buildDisconnectEnv (env : SessionEnv) : M W Env :=
  let! protoEnv := buildEnv env in
  match ChannelStates env with
  | None => ret protoEnv
  | Some states =>
      ret (mkEnv (Url protoEnv) (pb_Headers protoEnv) (Cstate protoEnv)
             (Some (marshal_map <$> states)))
  end.

Definition buildChannelEnv (id : string) (env : SessionEnv) : M W Env :=
  let! protoEnv := buildEnv env in
  match ChannelStates env with
  | None => ret protoEnv
  | Some states =>
      match states !! id with
      | None => ret protoEnv
      | Some state =>
          ret (mkEnv (Url protoEnv) (pb_Headers protoEnv) (Cstate protoEnv) (Some state))
      end
  end.

Definition NewConnectMessage (env : SessionEnv) : M W ConnectionRequest :=
  let! e := buildEnv env in
  ret (mkConnectionRequest e).

(** [Data] is set when it is not empty, and is empty otherwise. *)
Definition NewCommandMessage (env : SessionEnv) (command channel identifiers data : string)
    : M W CommandMessage :=
  let! e := buildChannelEnv channel env in
  ret (mkCommandMessage command channel identifiers data e).

Definition NewDisconnectMessage (env : SessionEnv) (identifiers : string)
    (subscriptions : list string) : M W DisconnectRequest :=
  let! e := buildDisconnectEnv env in
  ret (mkDisconnectRequest identifiers subscriptions e).
End requests.

(** ** Parsing responses *)

Definition application_error (msg : string) : error := Errorf ("Application error: " ++ msg).

Definition ParseConnectResponse (response : ConnectionResponse)
    : option ConnectResult * option error :=
  let reply identifier status :=
    {| con_Identifier := identifier;
       con_Transmissions := cr_Transmissions response;
       con_Broadcasts := [];
       con_CState := match cr_Env response with Some e => er_Cstate e | None => None end;
       con_IState := None;
       con_Status := status |} in
  if String.eqb (Status_String (cr_Status response)) "SUCCESS"
  then (Some (reply (cr_Identifiers response) SUCCESS), None)
  else if String.eqb (Status_String (cr_Status response)) "FAILURE"
  then (Some (reply EmptyString FAILURE), None)
  else (Some (reply EmptyString ERROR), Some (application_error (cr_ErrorMsg response))).

Definition ParseCommandResponse (response : CommandResponse)
    : option CommandResult * option error :=
  let res status :=
    {| StopAllStreams := cmr_StopStreams response;
       Disconnect := cmr_Disconnect response;
       Streams := cmr_Streams response;
       StoppedStreams := cmr_StoppedStreams response;
       Transmissions := cmr_Transmissions response;
       Broadcasts := [];
       CState := match cmr_Env response with Some e => er_Cstate e | None => None end;
       IState := match cmr_Env response with Some e => er_Istate e | None => None end;
       Status := status |} in
  if String.eqb (Status_String (cmr_Status response)) "SUCCESS" then (Some (res SUCCESS), None)
  else if String.eqb (Status_String (cmr_Status response)) "FAILURE" then (Some (res FAILURE), None)
  else (Some (res ERROR), Some (application_error (cmr_ErrorMsg response))).

Definition ParseDisconnectResponse (response : DisconnectResponse) : option error :=
  if negb (String.eqb (Status_String (dsr_Status response)) "ERROR") then None
  else Some (application_error (dsr_ErrorMsg response)).
