(* ===== verification/Metrics.v ===== *)
(** * Package metrics

    Counters, gauges and their registry ([src/metrics/counter.go],
    [src/metrics/gauge.go], [src/metrics/metrics.go]), the Prometheus exposition
    ([src/metrics/prometheus.go]) and the configuration predicates
    ([src/metrics/config.go]). Values are [uint64]: integers modulo 2^64. *)

From Stdlib Require Import ZArith Lia Ascii String.
From stdpp Require Import base gmap strings list fin_maps.
From S2P Require Import Prelude Json.

Local Open Scope string_scope.
Local Open Scope Z_scope.

(** ** Counters *)

Record Counter : Type := mkCounter {
  c_name : string;
  c_desc : string;
  c_value : Z;
  c_lastIntervalValue : Z;
  c_lastIntervalDelta : Z
}.

Definition NewCounter (name desc : string) : Counter := mkCounter name desc 0 0 0.

Definition Counter_Value (c : Counter) : Z := c_value c.

Definition IntervalValue (c : Counter) : Z :=
  if c_lastIntervalValue c =? 0 then Counter_Value c else c_lastIntervalDelta c.

Definition Counter_Add (n : Z) (c : Counter) : Counter :=
  mkCounter (c_name c) (c_desc c) (to_u64 (c_value c + n))
    (c_lastIntervalValue c) (c_lastIntervalDelta c).

Definition Counter_Inc (c : Counter) : Counter := Counter_Add 1 c.

Definition UpdateDelta (c : Counter) : Counter :=
  let now := c_value c in
  mkCounter (c_name c) (c_desc c) now now (to_u64 (now - c_lastIntervalValue c)).

(** ** Gauges *)

Record Gauge : Type := mkGauge { g_value : Z; g_name : string; g_desc : string }.

Definition NewGauge (name desc : string) : Gauge := mkGauge 0 name desc.

Definition Gauge_Set (value : Z) (g : Gauge) : Gauge :=
  mkGauge (to_u64 value) (g_name g) (g_desc g).
Definition Gauge_Inc (g : Gauge) : Gauge :=
  mkGauge (to_u64 (g_value g + 1)) (g_name g) (g_desc g).
(** [^uint64(0)] is 2^64 - 1. *)
Definition Gauge_Dec (g : Gauge) : Gauge :=
  mkGauge (to_u64 (g_value g + (u64_modulus - 1))) (g_name g) (g_desc g).
Definition Gauge_Set64 (value : Z) (g : Gauge) : Gauge :=
  mkGauge value (g_name g) (g_desc g).
Definition Gauge_Value (g : Gauge) : Z := g_value g.

(** ** The registry *)

Record Metrics : Type := mkMetrics {
  counters : gmap string Counter;
  gauges : gmap string Gauge
}.

Definition NewMetrics : Metrics := mkMetrics ∅ ∅.

Definition RegisterCounter (name desc : string) (m : Metrics) : Metrics :=
  mkMetrics (<[name := NewCounter name desc]> (counters m)) (gauges m).
Definition RegisterGauge (name desc : string) (m : Metrics) : Metrics :=
  mkMetrics (counters m) (<[name := NewGauge name desc]> (gauges m)).

(** [m.Counter(name)] is a nil pointer for a name that is not registered; every
    operation on it then panics. *)
Definition on_counter (f : Counter -> Counter) (name : string) : M Metrics unit := fun m =>
  match counters m !! name with
  | None => nil_deref m
  | Some c => Ret tt (mkMetrics (<[name := f c]> (counters m)) (gauges m))
  end.
Definition on_gauge (f : Gauge -> Gauge) (name : string) : M Metrics unit := fun m =>
  match gauges m !! name with
  | None => nil_deref m
  | Some g => Ret tt (mkMetrics (counters m) (<[name := f g]> (gauges m)))
  end.

Definition counter_inc : string -> M Metrics unit := on_counter Counter_Inc.
Definition counter_add (n : Z) : string -> M Metrics unit := on_counter (Counter_Add n).

Definition IntervalSnapshot (m : Metrics) : gmap string Z :=
  (Gauge_Value <$> gauges m) ∪ (IntervalValue <$> counters m).

Definition rotate (m : Metrics) : Metrics :=
  mkMetrics (UpdateDelta <$> counters m) (gauges m).

(** ** Prometheus *)

Definition prometheusNamespace : string := "anycable_go".

Definition newline : string := String "010"%char EmptyString.

Definition prometheus_block (kind name desc : string) (value : Z) : string :=
  let full := prometheusNamespace ++ "_" ++ name in
  (newline ++ "# HELP " ++ full ++ " " ++ desc ++ newline)
  ++ ("# TYPE " ++ full ++ " " ++ kind ++ newline)
  ++ (full ++ " " ++ Z_to_string value ++ newline).

Definition Prometheus `{GoRange} (m : Metrics) : string :=
  String.concat EmptyString
    (map (fun kc => prometheus_block "counter" (c_name kc.2) (c_desc kc.2) (Counter_Value kc.2))
       (range (counters m))
     ++ map (fun kg => prometheus_block "gauge" (g_name kg.2) (g_desc kg.2) (Gauge_Value kg.2))
          (range (gauges m)))%list.

(** ** Configuration *)

Record Config : Type := mkConfig {
  Log : bool;
  LogInterval : Z;
  RotateInterval : Z;
  LogFormatter : string;
  HTTP : string;
  Host : string;
  Port : Z
}.

Definition NewConfig : Config :=
  mkConfig false 0 0 EmptyString EmptyString EmptyString 0.

Definition LogFormatterEnabled (c : Config) : bool :=
  negb (String.eqb (LogFormatter c) EmptyString).
Definition LogEnabled (c : Config) : bool := Log c || LogFormatterEnabled c.
Definition HTTPEnabled (c : Config) : bool := negb (String.eqb (HTTP c) EmptyString).

(** ** Properties *)

Definition is_u64 (z : Z) : Prop := 0 <= z < u64_modulus.

Lemma to_u64_bounds z : is_u64 (to_u64 z).
Proof. unfold to_u64, is_u64, u64_modulus. apply Z.mod_pos_bound. lia. Qed.

Lemma to_u64_small z : is_u64 z -> to_u64 z = z.
Proof. unfold to_u64, is_u64. apply Z.mod_small. Qed.

Lemma to_u64_idem z : to_u64 (to_u64 z) = to_u64 z.
Proof. apply to_u64_small, to_u64_bounds. Qed.

Lemma to_u64_add_l a b : to_u64 (to_u64 a + b) = to_u64 (a + b).
Proof. unfold to_u64. apply Zplus_mod_idemp_l. Qed.

Lemma to_u64_sub a b : to_u64 (to_u64 a - to_u64 b) = to_u64 (a - b).
Proof. unfold to_u64. by rewrite <- Zminus_mod. Qed.

(** Raising a gauge and lowering it again gives it back, whatever its value. *)
Lemma gauge_dec_inc g : is_u64 (g_value g) -> Gauge_Dec (Gauge_Inc g) = g.
Proof.
  intros Hg. destruct g as [v n d]; unfold Gauge_Dec, Gauge_Inc; simpl in *. f_equal.
  rewrite to_u64_add_l. replace (v + 1 + (u64_modulus - 1)) with (v + 1 * u64_modulus) by lia.
  unfold to_u64. rewrite Z.mod_add by (unfold u64_modulus; lia). by apply Z.mod_small.
Qed.

(** A history of a counter: additions, and the rotations of [Metrics.Run]. *)
Inductive counter_op : Type := OpAdd (n : Z) | OpRotate.

Definition counter_step (s : Counter * list Z) (op : counter_op) : Counter * list Z :=
  match op with
  | OpAdd n => (Counter_Add n s.1, s.2)
  | OpRotate => let c := UpdateDelta s.1 in (c, (s.2 ++ [c_lastIntervalDelta c])%list)
  end.

(** What was added in each completed interval, as plain integers. *)
Fixpoint interval_sums (acc : Z) (ops : list counter_op) : list Z :=
  match ops with
  | [] => []
  | OpAdd n :: ops => interval_sums (acc + n) ops
  | OpRotate :: ops => acc :: interval_sums 0 ops
  end.
Fixpoint total_added (ops : list counter_op) : Z :=
  match ops with
  | [] => 0
  | OpAdd n :: ops => n + total_added ops
  | OpRotate :: ops => total_added ops
  end.

Lemma counter_history c ds ops total base :
  c_value c = to_u64 total -> c_lastIntervalValue c = to_u64 base ->
  let s := foldl counter_step (c, ds) ops in
  c_value s.1 = to_u64 (total + total_added ops) /\
  s.2 = (ds ++ map to_u64 (interval_sums (total - base) ops))%list.
Proof.
  revert c ds total base. induction ops as [|[n|] ops IH]; intros c ds total base Hv Hl; simpl.
  - by rewrite Z.add_0_r, app_nil_r.
  - destruct (IH (Counter_Add n c) ds (total + n) base) as [IH1 IH2]; simpl.
    + by rewrite Hv, to_u64_add_l.
    + done.
    + rewrite IH1, IH2. split; [f_equal; lia |]. do 3 f_equal. lia.
  - destruct (IH (UpdateDelta c)
                (ds ++ [to_u64 (c_value c - c_lastIntervalValue c)])%list total total)
      as [IH1 IH2]; [done.. |].
    rewrite IH1, IH2. split; [done |]. rewrite <- app_assoc. simpl.
    by rewrite Hv, Hl, to_u64_sub, Z.sub_diag.
Qed.

(** A counter is exact modulo 2^64: whatever the interleaving of additions
    and rotations, its value is the sum of all additions, and each rotation
    reports what was added since the previous one. *)
Theorem counter_intervals_exact name desc ops :
  let s := foldl counter_step (NewCounter name desc, []) ops in
  Counter_Value s.1 = to_u64 (total_added ops) /\
  s.2 = map to_u64 (interval_sums 0 ops).
Proof.
  unfold Counter_Value.
  destruct (counter_history (NewCounter name desc) [] ops 0 0) as [Hv Hd]; [done.. |].
  by rewrite Hv, Hd, Z.add_0_l.
Qed.

(** Right after a rotation, the interval value of a counter that has not
    wrapped around is exactly what was counted in that interval. *)
Theorem interval_value_after_rotation c :
  is_u64 (c_value c) -> is_u64 (c_lastIntervalValue c) ->
  c_lastIntervalValue c <= c_value c ->
  IntervalValue (UpdateDelta c) = c_value c - c_lastIntervalValue c.
Proof.
  intros Hv Hl Hle. unfold IntervalValue, UpdateDelta, Counter_Value, is_u64 in *; simpl.
  destruct (Z.eqb_spec (c_value c) 0); [lia |].
  apply to_u64_small. unfold is_u64. lia.
Qed.

Lemma interval_value_witness :
  IntervalValue (UpdateDelta (mkCounter "c" "d" 12 5 0)) = 7.
Proof.
  apply (interval_value_after_rotation (mkCounter "c" "d" 12 5 0));
    unfold is_u64, u64_modulus; simpl; lia.
Defined.
