(* ===== verification/Rpc.v ===== *)
(** * Package rpc

    The gRPC controller ([src/rpc/rpc.go]): the semaphore that bounds concurrent
    calls, the retries, and the five calls with their metrics. The gRPC library
    and the server behind it are not part of the repository: they are the
    operations of [Remote], over a state of their own. *)

From Stdlib Require Import ZArith Lia Ascii String.
From stdpp Require Import base gmap strings list fin_maps.
From S2P Require Import Prelude Json Common Protocol Metrics.

Local Open Scope string_scope.

(** ** The connection and the server *)

(** [google.golang.org/grpc/connectivity] *)
Inductive connectivity : Type :=
| Idle | Connecting | Ready | TransientFailure | Shutdown.

(** What the controller uses of the client connection and of the RPC client. Every
    call may change the state of the remote side and answer differently the next
    time. *)
Class Remote (R : Type) : Type := {
  client_Connect : string -> ConnectionRequest -> R -> result ConnectionResponse * R;
  client_Command : string -> CommandMessage -> R -> result CommandResponse * R;
  client_Disconnect : string -> DisconnectRequest -> R -> result DisconnectResponse * R;
  conn_GetState : R -> connectivity * R;
  conn_ResetConnectBackoff : R -> R;
  conn_Close : R -> R
}.

(** Codes of [google.golang.org/grpc/codes]. *)
Definition ResourceExhausted : Z := 8.
Definition Unavailable : Z := 14.

(** [status.FromError]: the code, for an error that carries a status. *)
Definition status_FromError (e : error) : option Z :=
  match e with StatusError code _ => Some code | Errorf _ => None end.

Definition ProtoVersions : string := "v1".
Definition invokeTimeout : Z := 3000.
Definition retryExhaustedInterval : Z := 10.
Definition retryUnavailableInterval : Z := 100.

Definition metricsRPCCalls : string := "rpc_call_total".
Definition metricsRPCRetries : string := "rpc_retries_total".
Definition metricsRPCFailures : string := "rpc_error_total".
Definition metricsRPCPending : string := "rpc_pending_num".

(** ** The controller *)

(** [grpcClientHelper] *)
Record ClientHelper : Type := mkHelper { recovering : bool; helper_mu : bool }.

(** [rc_sem] and [rc_clientState] are nil before [Start]; [rc_slept] is the time
    spent in [time.Sleep], in milliseconds. *)
Record RpcController (R : Type) : Type := mkRpc {
  rc_Concurrency : Z;
  rc_sem : option (Chan unit);
  rc_clientState : option ClientHelper;
  rc_slept : Z;
  rc_remote : R
}.
Arguments mkRpc {R}.
Arguments rc_Concurrency {R}.
Arguments rc_sem {R}.
Arguments rc_clientState {R}.
Arguments rc_slept {R}.
Arguments rc_remote {R}.

Section controller.
Context {R : Type} `{Remote R}.
Implicit Types c : RpcController R.

Definition set_sem v c := mkRpc (rc_Concurrency c) v (rc_clientState c) (rc_slept c) (rc_remote c).
Definition set_clientState v c := mkRpc (rc_Concurrency c) (rc_sem c) v (rc_slept c) (rc_remote c).
Definition set_slept v c := mkRpc (rc_Concurrency c) (rc_sem c) (rc_clientState c) v (rc_remote c).
Definition set_remote (v : R) c := mkRpc (rc_Concurrency c) (rc_sem c) (rc_clientState c) (rc_slept c) v.

(** Operations work on the metrics registry and the controller. *)
Abbreviation Rpc := (M (Metrics * RpcController R)%type).

Definition on_rpc {A} : M (RpcController R) A -> Rpc A := zoom snd (fun c st => (st.1, c)).
Definition on_rpc_metrics {A} : M Metrics A -> Rpc A := zoom fst (fun m st => (m, st.2)).

Definition call {A} (f : R -> A * R) : M (RpcController R) A := fun c =>
  let '(a, r) := f (rc_remote c) in Ret a (set_remote r c).

(** *** The client helper *)

(** An operation on the helper, which panics when there is none. *)
Definition on_helper {A} (m : M ClientHelper A) : M (RpcController R) A := fun c =>
  match rc_clientState c with
  | None => nil_deref c
  | Some h => zoom (fun _ => h) (fun h => set_clientState (Some h)) m c
  end.

Definition on_helper_mu : M bool unit -> M ClientHelper unit :=
  zoom helper_mu (fun v h => mkHelper (recovering h) v).

Definition tryRecover : M (RpcController R) (option error) :=
  on_helper (on_helper_mu lock) ;;
  let! h := on_helper get in
  if recovering h then
    on_helper (on_helper_mu unlock) ;;
    ret (Some (Errorf "grpc connection is not ready"))
  else
    on_helper (modify (fun h => mkHelper true (helper_mu h))) ;;
    call (fun r => (tt, conn_ResetConnectBackoff r)) ;;
    on_helper (on_helper_mu unlock) ;;
    ret None.

Definition reset : M (RpcController R) unit :=
  on_helper (on_helper_mu lock) ;;
  let! h := on_helper get in
  when (recovering h) (on_helper (modify (fun h => mkHelper false (helper_mu h)))) ;;
  on_helper (on_helper_mu unlock).

(** [grpcClientHelper.Ready] *)
Definition helper_Ready : M (RpcController R) (option error) :=
  let! h := on_helper get in
  let! s := call conn_GetState in
  match s with
  | Shutdown => ret (Some (Errorf "grpc connection is closed"))
  | TransientFailure => tryRecover
  | _ => when (recovering h) reset ;; ret None
  end.

(** [grpcClientHelper.Close] *)
Definition helper_Close : M (RpcController R) unit := call (fun r => (tt, conn_Close r)).

(** *** Retries *)

(** One round of [retry] and the rounds after it. [fuel] bounds the rounds;
    [retry_returns] shows that [retry_fuel] of them are enough. *)
Fixpoint retry_loop {A} (callback : M (RpcController R) (result A)) (fuel : nat)
    (retryAge : Z) (attempt : nat) (wasExhausted : bool) : Rpc (result A) :=
  match fuel with
  | O => block "fuel"
  | S fuel =>
      let! stErr := on_rpc helper_Ready in
      match stErr with
      | Some e => ret (Err e)
      | None =>
          let! res := on_rpc callback in
          match res with
          | Ok a => ret (Ok a)
          | Err err =>
              if (invokeTimeout <? retryAge)%Z then ret (Err err)
              else
                match status_FromError err with
                | None => ret (Err err)
                | Some code =>
                    if negb ((code =? ResourceExhausted) || (code =? Unavailable))%Z then ret (Err err)
                    else
                      let exhausted := (code =? ResourceExhausted)%Z in
                      let interval :=
                        if exhausted then retryExhaustedInterval else retryUnavailableInterval in
                      let attempt := if eqb exhausted wasExhausted then attempt else O in
                      let delayMS := (2 ^ Z.of_nat attempt * interval)%Z in
                      on_rpc_metrics (counter_inc metricsRPCRetries) ;;
                      on_rpc (modify (fun c => set_slept (rc_slept c + delayMS)%Z c)) ;;
                      retry_loop callback fuel (retryAge + delayMS) (S attempt) exhausted
                end
          end
      end
  end.

Definition retry_fuel : nat := 303.

Definition retry {A} (callback : M (RpcController R) (result A)) : Rpc (result A) :=
  retry_loop callback retry_fuel 0 0 false.

(** *** The semaphore *)

(** A receive from the nil channel of a controller that was not started waits for
    ever. *)
Definition on_sem {A} (m : M (Chan unit) A) : M (RpcController R) A := fun c =>
  match rc_sem c with
  | None => Block "chan receive (nil chan)" c
  | Some ch => zoom (fun _ => ch) (fun ch => set_sem (Some ch)) m c
  end.

Definition initSemaphore (capacity : Z) : M (RpcController R) unit :=
  if (capacity <? 0)%Z then panic "makechan: size out of range"
  else
    modify (set_sem (Some (make_chan (Z.to_nat capacity)))) ;;
    each (fun _ => on_sem (chan_send tt)) (seq 0 (Z.to_nat capacity)).

(** The frame shared by the calls: take a ticket, run, give the ticket back. *)
Definition with_ticket {A} (m : Rpc A) : Rpc A :=
  on_rpc_metrics (on_gauge Gauge_Inc metricsRPCPending) ;;
  on_rpc (on_sem chan_recv) ;;
  on_rpc_metrics (on_gauge Gauge_Dec metricsRPCPending) ;;
  let! a := m in
  on_rpc (on_sem (chan_send tt)) ;;
  ret a.

(** *** The calls *)

Definition rpc_Authenticate (sid : string) (env : SessionEnv)
    : Rpc (option ConnectResult * option error) :=
  with_ticket (
    on_rpc_metrics (counter_inc metricsRPCCalls) ;;
    let! response := retry (let! m := NewConnectMessage env in call (client_Connect sid m)) in
    match response with
    | Err err => on_rpc_metrics (counter_inc metricsRPCFailures) ;; ret (None, Some err)
    | Ok r => ret (ParseConnectResponse r)
    end).

Definition parseCommandResponse (response : result CommandResponse)
    : Rpc (option CommandResult * option error) :=
  on_rpc_metrics (counter_inc metricsRPCCalls) ;;
  match response with
  | Err err => on_rpc_metrics (counter_inc metricsRPCFailures) ;; ret (None, Some err)
  | Ok r => ret (ParseCommandResponse r)
  end.

(** [Subscribe], [Unsubscribe] and [Perform] differ in the command and the data. *)
Definition command_call (sid : string) (env : SessionEnv) (command id channel data : string)
    : Rpc (option CommandResult * option error) :=
  with_ticket (
    let! response :=
      retry (let! m := NewCommandMessage env command channel id data in
             call (client_Command sid m)) in
    parseCommandResponse response).

Definition rpc_Subscribe sid env id channel := command_call sid env "subscribe" id channel EmptyString.
Definition rpc_Unsubscribe sid env id channel := command_call sid env "unsubscribe" id channel EmptyString.
Definition rpc_Perform sid env id channel data := command_call sid env "message" id channel data.

Definition rpc_Disconnect (sid : string) (env : SessionEnv) (id : string)
    (subscriptions : list string) : Rpc (option error) :=
  with_ticket (
    on_rpc_metrics (counter_inc metricsRPCCalls) ;;
    let! response :=
      retry (let! m := NewDisconnectMessage env id subscriptions in
             call (client_Disconnect sid m)) in
    match response with
    | Err err => on_rpc_metrics (counter_inc metricsRPCFailures) ;; ret (Some err)
    | Ok r =>
        match ParseDisconnectResponse r with
        | Some err => on_rpc_metrics (counter_inc metricsRPCFailures) ;; ret (Some err)
        | None => ret None
        end
    end).

(** *** Start and shutdown *)

(** [NewController], for a remote side that is still to be dialled. *)
Definition NewController (concurrency : Z) (r : R) (m : Metrics) : Metrics * RpcController R :=
  let m := RegisterCounter metricsRPCCalls "The total number of RPC calls" m in
  let m := RegisterCounter metricsRPCRetries "The total number of RPC call retries" m in
  let m := RegisterCounter metricsRPCFailures "The total number of failed RPC calls" m in
  let m := RegisterGauge metricsRPCPending "The number of pending RPC calls" m in
  (m, mkRpc concurrency None None 0 r).

(** [Start], given what the dialer returns: an error, or a client and its helper. *)
Definition rpc_Start (dialer : R -> option error * R) : M (RpcController R) (option error) :=
  let! err := call dialer in
  let! c := get in
  initSemaphore (rc_Concurrency c) ;;
  modify (set_clientState (match err with Some _ => None | None => Some (mkHelper false false) end)) ;;
  ret err.

Definition busy c : Z :=
  (rc_Concurrency c - match rc_sem c with Some ch => Z.of_nat (length (ch_buf ch)) | None => 0 end)%Z.

Definition busy_error (n : Z) : error :=
  Errorf ("There are " ++ Z_to_string n ++ " active RPC connections left").

Definition rpc_Shutdown : Rpc (option error) :=
  let! st := get in
  match rc_clientState st.2 with
  | None => ret None
  | Some _ =>
      let! res :=
        retry (let! c := get in
               if (0 <? busy c)%Z then ret (Err (busy_error (busy c))) else ret (Ok tt)) in
      on_rpc helper_Close ;;
      ret (match res with Ok _ => None | Err e => Some e end)
  end.
End controller.
