(* ===== verification/RpcProps.v ===== *)
(** * Properties of the RPC controller

    Retries end, whatever the remote side does, and sleep for a bounded time; every
    call gives its ticket back and leaves the pending gauge as it found it; the
    outcome of a call is the outcome of the last attempt. *)

From Stdlib Require Import ZArith Lia Ascii String.
From stdpp Require Import base gmap strings list fin_maps.
From S2P Require Import Prelude Json Common Protocol Metrics Rpc.

Local Open Scope string_scope.

Section retries.
Context {R : Type} `{Remote R}.
Implicit Types (c : RpcController R) (m : Metrics).

(** ** Frames *)

(** The client helper is there and not locked. *)
Definition helper_ok c : Prop := exists b, rc_clientState c = Some (mkHelper b false).

(** A step that leaves the semaphore and the clock alone. *)
Record same_frame c c' : Prop := {
  sf_concurrency : rc_Concurrency c' = rc_Concurrency c;
  sf_sem : rc_sem c' = rc_sem c;
  sf_slept : rc_slept c' = rc_slept c;
  sf_helper : helper_ok c'
}.

(** The metrics differ in the number of retries only. *)
Record only_retries m m' : Prop := {
  or_gauges : gauges m' = gauges m;
  or_counters : forall n, n <> metricsRPCRetries -> counters m' !! n = counters m !! n;
  or_retries : is_Some (counters m' !! metricsRPCRetries)
}.

Lemma helper_Ready_ok c :
  helper_ok c -> exists e c', helper_Ready c = Ret e c' /\ same_frame c c'.
Proof.
  intros [b Hb]. unfold helper_Ready, bind, on_helper, zoom, get, call. rewrite Hb; simpl.
  destruct (conn_GetState (rc_remote c)) as [s r].
  destruct s; simpl; rewrite ?Hb.
  1, 2, 3: destruct b; simpl;
    [unfold reset, bind, on_helper, zoom, on_helper_mu, zoom; simpl |];
    do 2 eexists; (split; [reflexivity |]); split; try done; by eexists.
  - unfold tryRecover, bind, on_helper, on_helper_mu, zoom, lock, get; simpl.
    destruct b; simpl; do 2 eexists; (split; [reflexivity |]); split; try done; by eexists.
  - do 2 eexists; (split; [reflexivity |]); split; try done. by exists b.
Qed.

(** A callback that returns and touches only the remote side. *)
Definition well_behaved {A} (callback : M (RpcController R) (result A)) : Prop :=
  forall c, helper_ok c -> exists r c', callback c = Ret r c' /\ same_frame c c'.

Lemma same_frame_trans c1 c2 c3 : same_frame c1 c2 -> same_frame c2 c3 -> same_frame c1 c3.
Proof. intros [] []. split; congruence. Qed.

(** ** Retries end *)

(** The wait before a retry is at most what was already waited plus the first
    interval, because the waits of one kind double. *)
Definition interval_of (exhausted : bool) : Z :=
  if exhausted then retryExhaustedInterval else retryUnavailableInterval.

Definition age_ok (retryAge : Z) (attempt : nat) (wasExhausted : bool) : Prop :=
  (interval_of wasExhausted * (2 ^ Z.of_nat attempt - 1) <= retryAge)%Z.

Lemma age_step retryAge attempt was exhausted :
  let attempt' := if eqb exhausted was then attempt else O in
  let delay := (2 ^ Z.of_nat attempt' * interval_of exhausted)%Z in
  (0 <= retryAge)%Z -> age_ok retryAge attempt was ->
  (10 <= delay <= retryAge + 100)%Z /\ age_ok (retryAge + delay) (S attempt') exhausted.
Proof.
  intros attempt' delay Hage Hok. unfold age_ok in *.
  assert (Hpow : (0 < 2 ^ Z.of_nat attempt')%Z) by (apply Z.pow_pos_nonneg; lia).
  assert (Hi : (10 <= interval_of exhausted <= 100)%Z) by (by destruct exhausted).
  assert (Ha : (interval_of exhausted * (2 ^ Z.of_nat attempt' - 1) <= retryAge)%Z).
  { unfold attempt'. destruct exhausted, was; simpl eqb; cbn iota; try exact Hok;
      simpl (Z.of_nat 0); rewrite Z.pow_0_r; lia. }
  rewrite Nat2Z.inj_succ, Z.pow_succ_r by lia. unfold delay. nia.
Qed.

(** How a loop that started in [(m, c)] at the given age may end. *)
Definition retried (retryAge : Z) m c m' c' : Prop :=
  same_frame (set_slept (rc_slept c') c) c' /\ only_retries m m' /\
  (rc_slept c <= rc_slept c' <= rc_slept c + (6100 - retryAge))%Z.

Lemma retried_stop retryAge m c c' :
  is_Some (counters m !! metricsRPCRetries) -> (retryAge <= 6100)%Z -> same_frame c c' ->
  retried retryAge m c m c'.
Proof.
  intros Hm Hage [H1 H2 H3 H4]. split; [by split |]. split; [by split |]. lia.
Qed.

Lemma retried_step retryAge delay m c c1 m' c' :
  is_Some (counters m !! metricsRPCRetries) -> same_frame c c1 -> (0 <= delay)%Z ->
  retried (retryAge + delay)
    (mkMetrics (alter Counter_Inc metricsRPCRetries (counters m)) (gauges m))
    (set_slept (rc_slept c1 + delay)%Z c1) m' c' ->
  retried retryAge m c m' c'.
Proof.
  intros Hm [H1 H2 H3 H4] Hd ([G1 G2 G3 G4] & [K1 K2 K3] & Hs). simpl in *.
  split; [split; simpl; congruence |]. split; [| lia].
  split; [done | | done]. intros n Hn. rewrite K2 by done. by rewrite lookup_alter_ne.
Qed.

Lemma counter_inc_rpc name m c :
  is_Some (counters m !! name) ->
  on_rpc_metrics (counter_inc name) (m, c) =
  Ret tt (mkMetrics (alter Counter_Inc name (counters m)) (gauges m), c).
Proof.
  intros [x Hx]. unfold on_rpc_metrics, zoom, counter_inc, on_counter; simpl. rewrite Hx.
  do 3 f_equal. apply map_eq; intros i. rewrite lookup_insert, lookup_alter.
  case_decide; [subst; by rewrite Hx | done].
Qed.

(** One round either decides the result or sleeps and goes on. *)
Lemma retry_round {A} (callback : M (RpcController R) (result A)) fuel retryAge attempt was m c :
  well_behaved callback -> helper_ok c -> is_Some (counters m !! metricsRPCRetries) ->
  (exists r c', retry_loop callback (S fuel) retryAge attempt was (m, c) = Ret r (m, c') /\
     same_frame c c') \/
  ((retryAge <= invokeTimeout)%Z /\ exists exhausted c1,
     let attempt' := if eqb exhausted was then attempt else O in
     let delay := (2 ^ Z.of_nat attempt' * interval_of exhausted)%Z in
     same_frame c c1 /\
     retry_loop callback (S fuel) retryAge attempt was (m, c) =
     retry_loop callback fuel (retryAge + delay) (S attempt') exhausted
       (mkMetrics (alter Counter_Inc metricsRPCRetries (counters m)) (gauges m),
        set_slept (rc_slept c1 + delay)%Z c1)).
Proof.
  intros Hcb Hh Hm. destruct (helper_Ready_ok c Hh) as (e & c1 & Hr & Hf1).
  cbn [retry_loop]. erewrite bind_ret_eq by (unfold on_rpc, zoom; simpl; by rewrite Hr).
  destruct e as [e|]; [left; by do 2 eexists |].
  destruct (Hcb c1 (sf_helper _ _ Hf1)) as (r & c2 & Hc & Hf2).
  pose proof (same_frame_trans _ _ _ Hf1 Hf2) as Hf.
  erewrite bind_ret_eq by (unfold on_rpc, zoom; simpl; by rewrite Hc).
  destruct r as [a|err]; [left; by do 2 eexists |].
  destruct (invokeTimeout <? retryAge)%Z eqn:Ht; [left; by do 2 eexists |].
  destruct (status_FromError err) as [code|]; [| left; by do 2 eexists].
  destruct (negb _); [left; by do 2 eexists |].
  right. split; [lia |]. exists (code =? ResourceExhausted)%Z, c2. split; [done |].
  erewrite bind_ret_eq by (by apply counter_inc_rpc).
  by erewrite bind_ret_eq by reflexivity.
Qed.

Lemma retry_loop_ok {A} (callback : M (RpcController R) (result A)) fuel retryAge attempt was m c :
  well_behaved callback -> helper_ok c -> is_Some (counters m !! metricsRPCRetries) ->
  (0 <= retryAge <= 6100)%Z -> age_ok retryAge attempt was ->
  (invokeTimeout < retryAge + 10 * Z.of_nat fuel)%Z ->
  exists r m' c', retry_loop callback (S fuel) retryAge attempt was (m, c) = Ret r (m', c') /\
    retried retryAge m c m' c'.
Proof.
  intros Hcb. revert retryAge attempt was m c.
  induction fuel as [|fuel IH]; intros age attempt was m c Hh Hm Hage Hok Hfuel;
    match goal with |- context [retry_loop callback (S ?n) age] =>
      destruct (retry_round callback n age attempt was m c Hcb Hh Hm)
        as [(r & c' & -> & Hf) | (Hle & ex & c1 & Hf & ->)];
      [exists r, m, c'; split; [done |]; apply retried_stop; [done | lia | done] |]
    end; [lia |].
  destruct (age_step age attempt was ex ltac:(lia) Hok) as [Hd Hok'].
  set (delay := (2 ^ _ * interval_of ex)%Z) in *.
  edestruct IH as (r & m' & c' & -> & Hend); [| | | exact Hok' | |].
  - destruct Hf as [_ _ _ Hh1]. exact Hh1.
  - simpl. rewrite lookup_alter_eq. by rewrite fmap_is_Some.
  - unfold invokeTimeout in *. lia.
  - lia.
  - exists r, m', c'. split; [done |].
    by apply (retried_step age delay m c c1 m' c'); [| | lia |].
Qed.

Lemma retry_ok {A} (callback : M (RpcController R) (result A)) m c :
  well_behaved callback -> helper_ok c -> is_Some (counters m !! metricsRPCRetries) ->
  exists r m' c', retry callback (m, c) = Ret r (m', c') /\ retried 0 m c m' c'.
Proof.
  intros Hcb Hh Hm. by apply retry_loop_ok.
Qed.


(** ** Tickets *)

(** A started controller with a free ticket and its metrics in place. *)
Record rpc_ready m c (free : nat) : Prop := {
  rr_helper : helper_ok c;
  rr_calls : is_Some (counters m !! metricsRPCCalls);
  rr_retries : is_Some (counters m !! metricsRPCRetries);
  rr_failures : is_Some (counters m !! metricsRPCFailures);
  rr_pending : exists g, gauges m !! metricsRPCPending = Some g /\ is_u64 (g_value g);
  rr_sem : exists cap, rc_sem c = Some (mkChan (replicate (S free) tt) cap false) /\ S free <= cap
}.

Definition taken (free cap : nat) c : RpcController R :=
  set_sem (Some (mkChan (replicate free tt) cap false)) c.

Lemma with_ticket_ok {A} (body : M (Metrics * RpcController R) A) m c free cap a m' c' :
  (exists g, gauges m !! metricsRPCPending = Some g /\ is_u64 (g_value g)) ->
  rc_sem c = Some (mkChan (replicate (S free) tt) cap false) -> S free <= cap ->
  body (m, taken free cap c) = Ret a (m', c') ->
  rc_sem c' = rc_sem (taken free cap c) ->
  with_ticket body (m, c) = Ret a (m', set_sem (rc_sem c) c').
Proof.
  intros (g & Hg & Hu) Hsem Hcap Hbody Hsem'. unfold with_ticket.
  erewrite bind_ret_eq by (unfold on_rpc_metrics, zoom, on_gauge; simpl; by rewrite Hg).
  erewrite bind_ret_eq by (unfold on_rpc, on_sem, zoom; simpl; by rewrite Hsem).
  erewrite bind_ret_eq by
    (unfold on_rpc_metrics, zoom, on_gauge; simpl; by rewrite lookup_insert_eq).
  simpl. rewrite insert_insert_eq, gauge_dec_inc, insert_id by done.
  replace (mkMetrics (counters m) (gauges m)) with m by (by destruct m).
  erewrite bind_ret_eq by exact Hbody.
  erewrite bind_ret_eq.
  2: { unfold on_rpc, on_sem, zoom; simpl. rewrite Hsem'. simpl. unfold chan_send; simpl.
       unfold chan_full; simpl. rewrite length_replicate, bool_decide_false by lia. reflexivity. }
  unfold ret, chan_push; simpl. rewrite Hsem, <- replicate_cons_app. done.
Qed.

Lemma call_well_behaved {A B} (build : M (RpcController R) B) (f : B -> R -> result A * R) b :
  (forall c, build c = Ret b c) -> well_behaved (bind build (fun req => call (f req))).
Proof.
  intros Hb c Hh. unfold bind. rewrite Hb. unfold call.
  destruct (f b (rc_remote c)) as [r rem]. do 2 eexists. split; [reflexivity |].
  by split.
Qed.

(** The requests can be built for a session that has headers. *)
Lemma requests_build {W} env :
  is_Some (Headers env) ->
  (exists b, forall w : W, NewConnectMessage env w = Ret b w) /\
  (forall command channel ids data,
     exists b, forall w : W, NewCommandMessage env command channel ids data w = Ret b w) /\
  (forall ids subs, exists b, forall w : W, NewDisconnectMessage env ids subs w = Ret b w).
Proof.
  intros [h Hh]. unfold NewConnectMessage, NewCommandMessage, NewDisconnectMessage,
    buildChannelEnv, buildDisconnectEnv, buildEnv, bind. rewrite Hh; simpl. split_and!.
  - by eexists.
  - intros. destruct (ChannelStates env) as [cs|]; [destruct (cs !! channel) |]; by eexists.
  - intros. destruct (ChannelStates env); by eexists.
Qed.

(** What every call does to the controller: the ticket is back, nothing is
    pending, one call is counted, and the other counters and gauges of the
    registry are as before, but for retries and failures. *)
Record counted m m' : Prop := {
  ct_gauges : gauges m' = gauges m;
  ct_calls : counters m' !! metricsRPCCalls = Counter_Inc <$> counters m !! metricsRPCCalls;
  ct_others : forall n,
    n <> metricsRPCCalls -> n <> metricsRPCRetries -> n <> metricsRPCFailures ->
    counters m' !! n = counters m !! n
}.

Record call_done m c m' c' : Prop := {
  cd_sem : rc_sem c' = rc_sem c;
  cd_helper : helper_ok c';
  cd_metrics : counted m m';
  cd_slept : (rc_slept c <= rc_slept c' <= rc_slept c + 6100)%Z
}.

Definition bumped (name : string) m : Metrics :=
  mkMetrics (alter Counter_Inc name (counters m)) (gauges m).

Lemma bumped_registered name n m :
  is_Some (counters (bumped name m) !! n) <-> is_Some (counters m !! n).
Proof. simpl. rewrite lookup_alter. case_decide; [subst; by rewrite fmap_is_Some | done]. Qed.

Lemma counted_before m m' : only_retries (bumped metricsRPCCalls m) m' -> counted m m'.
Proof.
  intros [H1 H2 H3]. split; [done | |].
  - rewrite H2 by done. simpl. by rewrite lookup_alter_eq.
  - intros n Hn1 Hn2 Hn3. rewrite H2 by done. simpl. by rewrite lookup_alter_ne.
Qed.

Lemma counted_after m m' : only_retries m m' -> counted m (bumped metricsRPCCalls m').
Proof.
  intros [H1 H2 H3]. split; [done | |]; simpl.
  - rewrite lookup_alter_eq. by rewrite H2.
  - intros n Hn1 Hn2 Hn3. rewrite lookup_alter_ne by done. by apply H2.
Qed.

Lemma counted_failure m m' : counted m m' -> counted m (bumped metricsRPCFailures m').
Proof.
  intros [H1 H2 H3]. split; [done | |]; simpl.
  - by rewrite lookup_alter_ne.
  - intros n Hn1 Hn2 Hn3. rewrite lookup_alter_ne by done. by apply H3.
Qed.

(** The call counter, then the retries: [Authenticate] and [Disconnect]. *)
Lemma count_then_retry {A} (callback : M (RpcController R) (result A)) m c :
  well_behaved callback -> helper_ok c ->
  is_Some (counters m !! metricsRPCCalls) -> is_Some (counters m !! metricsRPCRetries) ->
  exists r m' c',
    (forall B (finish : result A -> M (Metrics * RpcController R) B),
      bind (on_rpc_metrics (counter_inc metricsRPCCalls)) (fun _ => bind (retry callback) finish) (m, c) =
      finish r (m', c')) /\
    call_done m c m' c' /\ only_retries (bumped metricsRPCCalls m) m'.
Proof.
  intros Hcb Hh Hcalls Hret.
  destruct (retry_ok callback (bumped metricsRPCCalls m) c) as (r & m' & c' & Hr & Hend);
    [done | done | by apply bumped_registered |].
  destruct Hend as ([_ H2 _ H4] & Ho & Hs). exists r, m', c'. split; [| split; [| done]].
  { intros B finish. erewrite bind_ret_eq by (by apply counter_inc_rpc).
    by erewrite bind_ret_eq by exact Hr. }
  split; [done | done | by apply counted_before | lia].
Qed.

(** ** The calls *)

Inductive rpc_call : Type :=
| CallAuthenticate
| CallSubscribe (id channel : string)
| CallUnsubscribe (id channel : string)
| CallPerform (id channel data : string)
| CallDisconnect (id : string) (subscriptions : list string).

(** A call, reduced to the error it returns. *)
Definition run_call (sid : string) (env : SessionEnv) (k : rpc_call)
    : M (Metrics * RpcController R) (option error) :=
  match k with
  | CallAuthenticate => let! r := rpc_Authenticate sid env in ret r.2
  | CallSubscribe id channel => let! r := rpc_Subscribe sid env id channel in ret r.2
  | CallUnsubscribe id channel => let! r := rpc_Unsubscribe sid env id channel in ret r.2
  | CallPerform id channel data => let! r := rpc_Perform sid env id channel data in ret r.2
  | CallDisconnect id subs => rpc_Disconnect sid env id subs
  end.

Lemma call_done_failure m c m' c' : call_done m c m' c' -> call_done m c (bumped metricsRPCFailures m') c'.
Proof. intros [H1 H2 H3 H4]. split; [done | done | by apply counted_failure | done]. Qed.

Lemma call_done_ticket m c free cap m' c' :
  rc_sem c = Some (mkChan (replicate (S free) tt) cap false) ->
  call_done m (taken free cap c) m' c' -> call_done m c m' (set_sem (rc_sem c) c').
Proof. intros Hs [H1 H2 H3 H4]. split; done. Qed.

(** [with_ticket] around a body that is done. *)
Lemma ticketed {A} (body : M (Metrics * RpcController R) A) m c free :
  rpc_ready m c free ->
  (forall cap, exists a m' c', body (m, taken free cap c) = Ret a (m', c') /\
     call_done m (taken free cap c) m' c') ->
  exists a m' c', with_ticket body (m, c) = Ret a (m', c') /\ call_done m c m' c'.
Proof.
  intros [_ _ _ _ Hp (cap & Hsem & Hcap)] Hbody. destruct (Hbody cap) as (a & m' & c' & Hb & Hd).
  exists a, m', (set_sem (rc_sem c) c'). split; [| by eapply call_done_ticket].
  by eapply with_ticket_ok; [.. | by destruct Hd].
Qed.

Lemma Authenticate_done sid env m c free :
  rpc_ready m c free -> is_Some (Headers env) ->
  exists a m' c', rpc_Authenticate sid env (m, c) = Ret a (m', c') /\ call_done m c m' c'.
Proof.
  intros Hr Hh. destruct (requests_build (W := RpcController R) env Hh) as ([b Hb] & _ & _).
  eapply ticketed; [exact Hr |]. intros cap. destruct Hr as [Hhelp Hcalls Hret Hfail _ _].
  edestruct (count_then_retry (bind (NewConnectMessage env) (fun req => call (client_Connect sid req)))
    m (taken free cap c)) as (r & m' & c' & Hrun & Hd & Ho);
    [by eapply call_well_behaved | exact Hhelp | done | done |].
  rewrite Hrun. clear Hrun. destruct r as [r|err]; [by do 3 eexists |].
  erewrite bind_ret_eq.
  2: { apply counter_inc_rpc. rewrite (or_counters _ _ Ho) by done. by apply bumped_registered. }
  do 3 eexists. split; [reflexivity |]. by apply call_done_failure.
Qed.

Lemma Disconnect_done sid env id subs m c free :
  rpc_ready m c free -> is_Some (Headers env) ->
  exists a m' c', rpc_Disconnect sid env id subs (m, c) = Ret a (m', c') /\ call_done m c m' c'.
Proof.
  intros Hr Hh. destruct (requests_build (W := RpcController R) env Hh) as (_ & _ & Hb).
  destruct (Hb id subs) as [b Hb']. clear Hb.
  eapply ticketed; [exact Hr |]. intros cap. destruct Hr as [Hhelp Hcalls Hret Hfail _ _].
  edestruct (count_then_retry (bind (NewDisconnectMessage env id subs)
    (fun req => call (client_Disconnect sid req))) m (taken free cap c)) as (r & m' & c' & Hrun & Hd & Ho);
    [by eapply call_well_behaved | exact Hhelp | done | done |].
  rewrite Hrun. clear Hrun.
  assert (Hf : is_Some (counters m' !! metricsRPCFailures)).
  { rewrite (or_counters _ _ Ho) by done. by apply bumped_registered. }
  destruct r as [r|err]; [destruct (ParseDisconnectResponse r); [| by do 3 eexists] |].
  all: erewrite bind_ret_eq by (by apply counter_inc_rpc).
  all: do 3 eexists; split; [reflexivity |]; by apply call_done_failure.
Qed.

Lemma command_done sid env command id channel data m c free :
  rpc_ready m c free -> is_Some (Headers env) ->
  exists a m' c', command_call sid env command id channel data (m, c) = Ret a (m', c') /\
    call_done m c m' c'.
Proof.
  intros Hr Hh. destruct (requests_build (W := RpcController R) env Hh) as (_ & Hb & _).
  destruct (Hb command channel id data) as [b Hb']. clear Hb.
  eapply ticketed; [exact Hr |]. intros cap. destruct Hr as [Hhelp Hcalls Hret Hfail _ _].
  edestruct (retry_ok (bind (NewCommandMessage env command channel id data)
    (fun req => call (client_Command sid req))) m (taken free cap c)) as (r & m' & c' & Hrun & Hend);
    [by eapply call_well_behaved | exact Hhelp | done |].
  erewrite bind_ret_eq by exact Hrun. destruct Hend as ([_ H2 _ H4] & Ho & Hs).
  assert (Hd : call_done m (taken free cap c) (bumped metricsRPCCalls m') c').
  { split; [done | done | by apply counted_after | lia]. }
  unfold parseCommandResponse.
  erewrite bind_ret_eq by (apply counter_inc_rpc; by rewrite (or_counters _ _ Ho)).
  destruct r as [r|err]; [by do 3 eexists |].
  erewrite bind_ret_eq.
  2: { apply counter_inc_rpc. apply (bumped_registered metricsRPCCalls).
       by rewrite (or_counters _ _ Ho). }
  do 3 eexists. split; [reflexivity |]. by apply call_done_failure.
Qed.


(** ** Shutdown *)

Lemma retry_stops_at_plain_error {A} (callback : M (RpcController R) (result A)) msg m c :
  (forall c', same_frame c c' -> callback c' = Ret (Err (Errorf msg)) c') -> helper_ok c ->
  exists e c', retry callback (m, c) = Ret (Err e) (m, c') /\ same_frame c c'.
Proof.
  intros Hcb Hh. unfold retry. change retry_fuel with (S 302). generalize 302 as n; intros n.
  cbn [retry_loop].
  destruct (helper_Ready_ok c Hh) as (e & c1 & Hr & Hf).
  erewrite bind_ret_eq by (unfold on_rpc, zoom; simpl; by rewrite Hr).
  destruct e as [e|]; [by do 2 eexists |].
  erewrite bind_ret_eq by (unfold on_rpc, zoom; simpl; by rewrite (Hcb c1 Hf)).
  by do 2 eexists.
Qed.

(** Shutting the controller down does not wait for active calls: when some are
    under way it does not sleep at all, closes the connection under them, and
    returns an error. *)
Theorem Shutdown_does_not_wait m c :
  helper_ok c -> (0 < busy c)%Z ->
  exists e c', rpc_Shutdown (m, c) = Ret (Some e) (m, c') /\
    rc_slept c' = rc_slept c /\ busy c' = busy c /\
    exists r, rc_remote c' = conn_Close r.
Proof.
  intros Hh Hb. unfold rpc_Shutdown. erewrite bind_ret_eq by reflexivity. simpl.
  destruct Hh as [b Hc]. rewrite Hc.
  edestruct (retry_stops_at_plain_error (A := unit)) as (e & c' & Hrun & [F1 F2 F3 F4]);
    [| by exists b |].
  2: { erewrite bind_ret_eq by exact Hrun. erewrite bind_ret_eq by reflexivity.
       do 2 eexists. split; [reflexivity |]. simpl. unfold busy; simpl. rewrite F1, F2.
       split; [done |]. split; [done |]. by eexists. }
  intros c' [F1 F2 F3 F4]. assert (Hb' : busy c' = busy c) by (unfold busy; by rewrite F1, F2).
  erewrite bind_ret_eq by reflexivity. rewrite Hb'. rewrite (proj2 (Z.ltb_lt _ _) Hb). reflexivity.
Qed.
End retries.

(** ** A concrete remote side *)

(** A server that answers every command with success after a number of refusals,
    over a connection that is ready. *)
Definition flaky_server : Remote nat :=
  {| client_Connect := fun _ _ n =>
       match n with
       | O => (Ok (mkConnectionResponse 1 "user" [] EmptyString None), O)
       | S n => (Err (StatusError Unavailable "down"), n)
       end;
     client_Command := fun _ _ n =>
       match n with
       | O => (Ok (mkCommandResponse 1 false false ["s"] [] EmptyString None []), O)
       | S n => (Err (StatusError ResourceExhausted "busy"), n)
       end;
     client_Disconnect := fun _ _ n => (Ok (mkDisconnectResponse 1 EmptyString), n);
     conn_GetState := fun n => (Ready, n);
     conn_ResetConnectBackoff := fun n => n;
     conn_Close := fun n => n |}.

Definition sample_rpc (refusals : nat) : Metrics * RpcController nat :=
  let '(m, c) := NewController 2 refusals NewMetrics in
  (m, mkRpc 2 (Some (mkChan [tt; tt] 2 false)) (Some (mkHelper false false)) 0 refusals).

Definition sample_env0 : SessionEnv := NewSessionEnv "/cable" (Some ∅).



Lemma Shutdown_does_not_wait_witness :
  exists e c',
    @rpc_Shutdown nat flaky_server
      ((sample_rpc 0).1, set_sem (Some (mkChan [tt] 2 false)) (sample_rpc 0).2) =
      Ret (Some e) ((sample_rpc 0).1, c') /\
    rc_slept c' = 0%Z.
Proof.
  destruct (@Shutdown_does_not_wait nat flaky_server (sample_rpc 0).1
    (set_sem (Some (mkChan [tt] 2 false)) (sample_rpc 0).2)) as (e & c' & Hrun & Hslept & _).
  - by exists false.
  - vm_compute. reflexivity.
  - exists e, c'. split; [exact Hrun | exact Hslept].
Defined.
