(* ===== verification/Encoders.v ===== *)
(** * Package encoders, frames, and the encoding cache

    Frames written to a WebSocket and close codes ([src/ws/ws.go]), the encoder
    interface and its JSON implementation ([src/encoders/encoder.go],
    [src/encoders/json.go]), and the cache that lets one broadcast be encoded once
    per encoder ([src/node/encoding_cache.go]). *)

From Stdlib Require Import ZArith Lia Ascii String.
From stdpp Require Import base gmap strings list fin_maps.
From S2P Require Import Prelude Json Common.

Local Open Scope string_scope.

(** ** Frames *)

(** [FrameType] is an [int] with three named values. *)
Definition TextFrame : Z := 0.
Definition CloseFrame : Z := 1.
Definition BinaryFrame : Z := 2.

Record SentFrame : Type := mkFrame {
  FrameType : Z;
  Payload : string;
  CloseCode : Z;
  CloseReason : string
}.

#[export] Instance SentFrame_eq_dec : EqDecision SentFrame.
Proof. solve_decision. Defined.

Definition CloseNormalClosure : Z := 1000.
Definition CloseGoingAway : Z := 1001.
Definition CloseNoStatusReceived : Z := 1005.
Definition CloseAbnormalClosure : Z := 1006.
Definition CloseInternalServerErr : Z := 1011.

Definition expectedCloseStatuses : list Z :=
  [CloseNormalClosure; CloseGoingAway; CloseNoStatusReceived].

(** An error of a read: a close frame of the peer, with its code, or something
    else. *)
Inductive read_error : Type :=
| ReadCloseError (code : Z)
| ReadOtherError.

Definition IsCloseError (err : read_error) : bool :=
  match err with
  | ReadCloseError code => existsb (Z.eqb code) expectedCloseStatuses
  | ReadOtherError => false
  end.

(** ** Messages *)

(** The entries of a cache: an encoder whose encoding failed has a nil frame. *)
Abbreviation EncodingCache := (gmap string (option SentFrame)).

(** The implementations of [encoders.EncodedMessage]. *)
Inductive EncodedMessage : Type :=
| EReply (r : Reply)
| EPing (p : PingMessage)
| EDisconnect (d : DisconnectMessage)
| ECached (target : EncodedMessage) (cache : EncodingCache).

Fixpoint GetType (m : EncodedMessage) : string :=
  match m with
  | EReply r => Reply_GetType r
  | EPing p => Ping_GetType p
  | EDisconnect d => Disconnect_GetType d
  | ECached target _ => GetType target
  end.

(** The document a message is marshalled to; [type] of a reply is omitted when
    it is empty, and a cached message is marshalled as its target. *)
Fixpoint message_document (m : EncodedMessage) : json :=
  match m with
  | EReply r =>
      JObj ((if String.eqb (rep_Type r) EmptyString then [] else [("type", JStr (rep_Type r))])
            ++ [("identifier", JStr (rep_Identifier r)); ("message", rep_Message r)])%list
  | EPing p => JObj [("type", JStr (ping_Type p)); ("message", JNum (Z_to_string (ping_Message p)))]
  | EDisconnect d =>
      JObj [("type", JStr (dis_Type d)); ("reason", JStr (dis_Reason d));
            ("reconnect", JBool (dis_Reconnect d))]
  | ECached target _ => message_document target
  end.

(** ** Encoders *)

(** The interface. An encoder may answer with a nil frame and no error, and
    [Decode] with a nil message and no error. *)
Record Encoder : Type := mkEncoder {
  ID : string;
  Encode : EncodedMessage -> result (option SentFrame);
  EncodeTransmission : string -> result (option SentFrame);
  Decode : string -> result (option Message)
}.

Definition text_frame (payload : string) : SentFrame :=
  mkFrame TextFrame payload 0 EmptyString.

Definition JSON_Encode (msg : EncodedMessage) : result (option SentFrame) :=
  Ok (Some (text_frame (marshal (message_document msg)))).

Definition JSON_EncodeTransmission (msg : string) : result (option SentFrame) :=
  Ok (Some (text_frame msg)).

(** The decoder is given a pointer to a pointer, so that the document null makes
    the message nil. *)
Definition JSON_Decode (raw : string) : result (option Message) :=
  match scan raw with
  | Some JNull => Ok None
  | doc =>
      match unmarshal_struct ["command"; "identifier"; "data"] set_Message doc
              (mkMessage EmptyString EmptyString JNull) with
      | None => Err (Errorf "json: cannot unmarshal")
      | Some msg => Ok (Some msg)
      end
  end.

Definition JSON : Encoder :=
  {| ID := "json";
     Encode := JSON_Encode;
     EncodeTransmission := JSON_EncodeTransmission;
     Decode := JSON_Decode |}.

(** ** The encoding cache *)

Definition NewEncodingCache : EncodingCache := ∅.

Definition Fetch (msg : EncodedMessage) (encoder : string)
    (callback : EncodedMessage -> result (option SentFrame))
    : M EncodingCache (result SentFrame) := fun encodedBytes =>
  let encodedBytes' :=
    match encodedBytes !! encoder with
    | Some _ => encodedBytes
    | None =>
        <[encoder := match callback msg with Err _ => None | Ok b => b end]> encodedBytes
    end in
  match encodedBytes' !! encoder with
  | Some (Some b) => Ret (Ok b) encodedBytes'
  | _ => Ret (Err (Errorf "Encoding failed")) encodedBytes'
  end.

Definition NewCachedEncodedMessage (msg : EncodedMessage) : EncodedMessage :=
  ECached msg NewEncodingCache.

(** ** Properties *)

(** The frame a message has under an encoder, when it has one. *)
Definition frame_of (r : result (option SentFrame)) : option SentFrame :=
  match r with Ok b => b | Err _ => None end.

(** A cache holds only what the encoder of each name produces. *)
Definition coherent (encode : string -> EncodedMessage -> result (option SentFrame))
    (msg : EncodedMessage) (cache : EncodingCache) : Prop :=
  forall id f, cache !! id = Some f -> f = frame_of (encode id msg).

Lemma fetch_coherent encode msg id cache :
  coherent encode msg cache ->
  exists cache',
    Fetch msg id (encode id) cache =
      Ret (match frame_of (encode id msg) with
           | Some f => Ok f
           | None => Err (Errorf "Encoding failed")
           end) cache' /\
    coherent encode msg cache'.
Proof.
  intros Hco. unfold Fetch. destruct (cache !! id) as [f|] eqn:Hid.
  - rewrite Hid. apply Hco in Hid as Hf. exists cache. subst f.
    by destruct (frame_of (encode id msg)).
  - set (f := match encode id msg with Err _ => None | Ok b => b end).
    assert (Hf : f = frame_of (encode id msg)) by done.
    rewrite lookup_insert_eq. exists (<[id := f]> cache). rewrite <- Hf.
    assert (coherent encode msg (<[id := f]> cache)).
    { intros i g Hi. apply lookup_insert_Some in Hi as [[-> <-] | [_ Hi]]; auto. }
    by destruct f.
Qed.

(** The encoding cache is transparent: when encoders of the same name encode
    alike, fetching a message through a cache that started empty gives the frame
    the encoder would give directly, and leaves the cache such that every later
    fetch does too. *)
Theorem fetch_transparent encode msg id cache :
  coherent encode msg cache ->
  exists cache',
    Fetch msg id (encode id) cache =
      Ret (match frame_of (encode id msg) with
           | Some f => Ok f
           | None => Err (Errorf "Encoding failed")
           end) cache' /\
    coherent encode msg cache' /\
    coherent encode msg NewEncodingCache.
Proof.
  intros Hco. destruct (fetch_coherent encode msg id cache Hco) as (cache' & Hf & Hco').
  by exists cache'.
Qed.

Lemma fetch_transparent_witness :
  exists cache', Fetch (EPing (mkPing "ping" 5)) "json" JSON_Encode ∅ =
    Ret (Ok (text_frame (marshal (message_document (EPing (mkPing "ping" 5)))))) cache'.
Proof.
  destruct (fetch_transparent (fun _ => JSON_Encode) (EPing (mkPing "ping" 5)) "json" ∅)
    as (cache' & Hfetch & _); [done |].
  exists cache'. exact Hfetch.
Defined.
