(* ===== verification/World.v ===== *)
(** * The state of a node

    The objects of package node and how they refer to each other: sessions
    ([src/node/session.go]), the hub ([src/node/hub.go]), the disconnect queue
    ([src/node/disconnect_queue.go], [src/node/disconnector.go]) and the node itself
    ([src/node/node.go]). Sessions are shared mutable objects: the hub, its
    channels and the disconnect queue hold pointers ([loc]) to them. *)

From Stdlib Require Import ZArith Lia Ascii String.
From stdpp Require Import base gmap strings list fin_maps.
From S2P Require Import Prelude Json Common Metrics Encoders.

Local Open Scope string_scope.

(** A pointer to a session. *)
Abbreviation loc := nat.

(** ** Connections *)

(** The calls made on a connection, with how far in the future the write
    deadline was (nanoseconds). *)
Inductive ConnEvent : Type :=
| EvWrite (msg : string) (wait : Z)
| EvWriteBinary (msg : string) (wait : Z)
| EvClose (code : Z) (reason : string).

(** A [Connection]: the calls made so far, and whether a further call succeeds,
    which may depend on them in any way. *)
Record Conn : Type := mkConn {
  conn_trace : list ConnEvent;
  conn_ok : list ConnEvent -> ConnEvent -> bool
}.

Definition conn_call (e : ConnEvent) : M Conn (option error) := fun c =>
  Ret (if conn_ok c (conn_trace c) e then None else Some (Errorf "write failed"))
      (mkConn (conn_trace c ++ [e])%list (conn_ok c)).

(** ** Sessions *)

(** [sendCh] says whether the field [sendCh] still points to the channel
    [sendQ]; the channel itself lives on after the field is set to nil, because
    [SendMessages] ranges over it. [pingTimer] is the timer, and whether it is
    armed. *)
Record Session : Type := mkSession {
  conn : Conn;
  encoder : Encoder;
  env : SessionEnv;
  subscriptions : gmap string bool;
  closed : bool;
  mu : bool;
  smu : bool;
  sendCh : bool;
  sendQ : Chan SentFrame;
  pingTimer : option bool;
  pingInterval : Z;
  pingTimestampPrecision : string;
  UID : string;
  Identifiers : string;
  Connected : bool
}.

Definition set_conn v s := mkSession v (encoder s) (env s) (subscriptions s) (closed s) (mu s) (smu s) (sendCh s) (sendQ s) (pingTimer s) (pingInterval s) (pingTimestampPrecision s) (UID s) (Identifiers s) (Connected s).
Definition set_encoder v s := mkSession (conn s) v (env s) (subscriptions s) (closed s) (mu s) (smu s) (sendCh s) (sendQ s) (pingTimer s) (pingInterval s) (pingTimestampPrecision s) (UID s) (Identifiers s) (Connected s).
Definition set_env v s := mkSession (conn s) (encoder s) v (subscriptions s) (closed s) (mu s) (smu s) (sendCh s) (sendQ s) (pingTimer s) (pingInterval s) (pingTimestampPrecision s) (UID s) (Identifiers s) (Connected s).
Definition set_subscriptions v s := mkSession (conn s) (encoder s) (env s) v (closed s) (mu s) (smu s) (sendCh s) (sendQ s) (pingTimer s) (pingInterval s) (pingTimestampPrecision s) (UID s) (Identifiers s) (Connected s).
Definition set_closed v s := mkSession (conn s) (encoder s) (env s) (subscriptions s) v (mu s) (smu s) (sendCh s) (sendQ s) (pingTimer s) (pingInterval s) (pingTimestampPrecision s) (UID s) (Identifiers s) (Connected s).
Definition set_mu v s := mkSession (conn s) (encoder s) (env s) (subscriptions s) (closed s) v (smu s) (sendCh s) (sendQ s) (pingTimer s) (pingInterval s) (pingTimestampPrecision s) (UID s) (Identifiers s) (Connected s).
Definition set_smu v s := mkSession (conn s) (encoder s) (env s) (subscriptions s) (closed s) (mu s) v (sendCh s) (sendQ s) (pingTimer s) (pingInterval s) (pingTimestampPrecision s) (UID s) (Identifiers s) (Connected s).
Definition set_sendCh v s := mkSession (conn s) (encoder s) (env s) (subscriptions s) (closed s) (mu s) (smu s) v (sendQ s) (pingTimer s) (pingInterval s) (pingTimestampPrecision s) (UID s) (Identifiers s) (Connected s).
Definition set_sendQ v s := mkSession (conn s) (encoder s) (env s) (subscriptions s) (closed s) (mu s) (smu s) (sendCh s) v (pingTimer s) (pingInterval s) (pingTimestampPrecision s) (UID s) (Identifiers s) (Connected s).
Definition set_pingTimer v s := mkSession (conn s) (encoder s) (env s) (subscriptions s) (closed s) (mu s) (smu s) (sendCh s) (sendQ s) v (pingInterval s) (pingTimestampPrecision s) (UID s) (Identifiers s) (Connected s).
Definition set_Identifiers v s := mkSession (conn s) (encoder s) (env s) (subscriptions s) (closed s) (mu s) (smu s) (sendCh s) (sendQ s) (pingTimer s) (pingInterval s) (pingTimestampPrecision s) (UID s) v (Connected s).
Definition set_Connected v s := mkSession (conn s) (encoder s) (env s) (subscriptions s) (closed s) (mu s) (smu s) (sendCh s) (sendQ s) (pingTimer s) (pingInterval s) (pingTimestampPrecision s) (UID s) (Identifiers s) v.

(** ** The hub *)

Record HubSubscription : Type := mkHubSubscription {
  sub_event : string;
  sub_session : string;
  sub_stream : string;
  sub_identifier : string
}.

Record HubRegistration : Type := mkHubRegistration {
  reg_event : string;
  reg_session : loc
}.

(** What the hub hands to its goroutine pool: the broadcast of a message, or the
    disconnection of the sessions of an identifier, whose set is captured as a
    reference to the live map. *)
Inductive task : Type :=
| TaskBroadcast (stream data : string)
| TaskDisconnect (ids : nat) (msg : DisconnectMessage).

(** The pool: [pool_tasks] are the tasks accepted and not finished yet; with
    [pool_size] workers and a queue of [pool_queue] a task is accepted unless
    every worker is busy and the queue is full. *)
Record HubPool : Type := mkPool {
  pool_size : nat;
  pool_queue : nat;
  pool_tasks : list task
}.

Record Hub : Type := mkHub {
  sessions : gmap string loc;
  identifiers : gmap string nat;
  idmaps : gmap nat (gmap string bool);
  streams : gmap string (gmap string (gmap string bool));
  sessionsStreams : gmap string (gmap string (list string));
  broadcast : Chan StreamMessage;
  disconnect : Chan RemoteDisconnectMessage;
  register : Chan HubRegistration;
  subscribe : Chan HubSubscription;
  running : bool;
  pool : HubPool;
  streamsMu : RWMutex;
  sessionsMu : RWMutex
}.
(** [identifiers] maps an identifier to the map object of its sessions; the map
    objects are in [idmaps], because a scheduled task may hold on to one.
    [running] says whether the goroutine of [Run] is serving the channels. *)

Definition set_sessions v h := mkHub v (identifiers h) (idmaps h) (streams h) (sessionsStreams h) (broadcast h) (disconnect h) (register h) (subscribe h) (running h) (pool h) (streamsMu h) (sessionsMu h).
Definition set_identifiers v h := mkHub (sessions h) v (idmaps h) (streams h) (sessionsStreams h) (broadcast h) (disconnect h) (register h) (subscribe h) (running h) (pool h) (streamsMu h) (sessionsMu h).
Definition set_idmaps v h := mkHub (sessions h) (identifiers h) v (streams h) (sessionsStreams h) (broadcast h) (disconnect h) (register h) (subscribe h) (running h) (pool h) (streamsMu h) (sessionsMu h).
Definition set_streams v h := mkHub (sessions h) (identifiers h) (idmaps h) v (sessionsStreams h) (broadcast h) (disconnect h) (register h) (subscribe h) (running h) (pool h) (streamsMu h) (sessionsMu h).
Definition set_sessionsStreams v h := mkHub (sessions h) (identifiers h) (idmaps h) (streams h) v (broadcast h) (disconnect h) (register h) (subscribe h) (running h) (pool h) (streamsMu h) (sessionsMu h).
Definition set_broadcast v h := mkHub (sessions h) (identifiers h) (idmaps h) (streams h) (sessionsStreams h) v (disconnect h) (register h) (subscribe h) (running h) (pool h) (streamsMu h) (sessionsMu h).
Definition set_disconnect v h := mkHub (sessions h) (identifiers h) (idmaps h) (streams h) (sessionsStreams h) (broadcast h) v (register h) (subscribe h) (running h) (pool h) (streamsMu h) (sessionsMu h).
Definition set_register v h := mkHub (sessions h) (identifiers h) (idmaps h) (streams h) (sessionsStreams h) (broadcast h) (disconnect h) v (subscribe h) (running h) (pool h) (streamsMu h) (sessionsMu h).
Definition set_subscribe v h := mkHub (sessions h) (identifiers h) (idmaps h) (streams h) (sessionsStreams h) (broadcast h) (disconnect h) (register h) v (running h) (pool h) (streamsMu h) (sessionsMu h).
Definition set_running v h := mkHub (sessions h) (identifiers h) (idmaps h) (streams h) (sessionsStreams h) (broadcast h) (disconnect h) (register h) (subscribe h) v (pool h) (streamsMu h) (sessionsMu h).
Definition set_pool v h := mkHub (sessions h) (identifiers h) (idmaps h) (streams h) (sessionsStreams h) (broadcast h) (disconnect h) (register h) (subscribe h) (running h) v (streamsMu h) (sessionsMu h).
Definition set_streamsMu v h := mkHub (sessions h) (identifiers h) (idmaps h) (streams h) (sessionsStreams h) (broadcast h) (disconnect h) (register h) (subscribe h) (running h) (pool h) v (sessionsMu h).
Definition set_sessionsMu v h := mkHub (sessions h) (identifiers h) (idmaps h) (streams h) (sessionsStreams h) (broadcast h) (disconnect h) (register h) (subscribe h) (running h) (pool h) (streamsMu h) v.

(** ** The disconnector *)

(** [rate] and [timeout] are durations in nanoseconds. *)
Record DisconnectQueue : Type := mkDQ {
  dq_rate : Z;
  dq_timeout : Z;
  dq_disconnect : Chan loc;
  dq_shutdown : Chan unit;
  dq_isStopped : bool;
  dq_mu : bool
}.

Inductive Disconnector : Type :=
| DQueue (q : DisconnectQueue)
| DNoop.

(** ** The node *)

Record NodeConfig : Type := mkNodeConfig {
  PingInterval : Z;
  StatsRefreshInterval : Z;
  HubGopoolSize : Z;
  PingTimestampPrecision : string
}.

(** [w_disconnector] is nil until [SetDisconnector]; [w_shutdownCh] says whether
    the field [shutdownCh] is not nil; [w_ctl] is the state of the controller;
    [w_sessions] is the heap of sessions. *)
Record World (C : Type) : Type := mkWorld {
  w_config : NodeConfig;
  w_metrics : Metrics;
  w_hub : Hub;
  w_disconnector : option Disconnector;
  w_shutdownCh : bool;
  w_ctl : C;
  w_sessions : gmap loc Session
}.
Arguments mkWorld {C}.
Arguments w_config {C}.
Arguments w_metrics {C}.
Arguments w_hub {C}.
Arguments w_disconnector {C}.
Arguments w_shutdownCh {C}.
Arguments w_ctl {C}.
Arguments w_sessions {C}.

Section world.
Context {C : Type}.
Implicit Types w : World C.

Definition set_metrics v w := mkWorld (w_config w) v (w_hub w) (w_disconnector w) (w_shutdownCh w) (w_ctl w) (w_sessions w).
Definition set_hub v w := mkWorld (w_config w) (w_metrics w) v (w_disconnector w) (w_shutdownCh w) (w_ctl w) (w_sessions w).
Definition set_disconnector v w := mkWorld (w_config w) (w_metrics w) (w_hub w) v (w_shutdownCh w) (w_ctl w) (w_sessions w).
Definition set_shutdownCh v w := mkWorld (w_config w) (w_metrics w) (w_hub w) (w_disconnector w) v (w_ctl w) (w_sessions w).
Definition set_ctl (v : C) w : World C := mkWorld (w_config w) (w_metrics w) (w_hub w) (w_disconnector w) (w_shutdownCh w) v (w_sessions w).
Definition set_heap v w := mkWorld (w_config w) (w_metrics w) (w_hub w) (w_disconnector w) (w_shutdownCh w) (w_ctl w) v.
Definition put_session (l : loc) (s : Session) w := set_heap (<[l := s]> (w_sessions w)) w.

(** Running code on a part of the state. *)
Definition on_metrics {A} : M Metrics A -> M (World C) A := zoom w_metrics set_metrics.
Definition on_hub {A} : M Hub A -> M (World C) A := zoom w_hub set_hub.

Definition on_session {A} (l : loc) (m : M Session A) : M (World C) A := fun w =>
  match w_sessions w !! l with
  | None => nil_deref w
  | Some s =>
      match m s with
      | Ret a s' => Ret a (put_session l s' w)
      | Block c s' => Block c (put_session l s' w)
      | Panic c s' => Panic c (put_session l s' w)
      end
  end.

(** The session a pointer points to. *)
Definition load (l : loc) : M (World C) Session := fun w =>
  match w_sessions w !! l with
  | None => nil_deref w
  | Some s => Ret s w
  end.
End world.

#[global] Arguments put_session {C} l s w : simpl never.
#[global] Arguments on_session {C A} l m w : simpl never.
#[global] Arguments load {C} l w : simpl never.

(** Fields of a session and of the hub as parts of the state. *)
Definition lock_mu : M Session unit := zoom mu set_mu lock.
Definition unlock_mu : M Session unit := zoom mu set_mu unlock.
Definition lock_smu : M Session unit := zoom smu set_smu lock.
Definition unlock_smu : M Session unit := zoom smu set_smu unlock.
Definition on_conn (e : ConnEvent) : M Session (option error) := zoom conn set_conn (conn_call e).
Definition on_sendQ {A} : M (Chan SentFrame) A -> M Session A := zoom sendQ set_sendQ.

Definition on_streamsMu : M RWMutex unit -> M Hub unit := zoom streamsMu set_streamsMu.
Definition on_sessionsMu : M RWMutex unit -> M Hub unit := zoom sessionsMu set_sessionsMu.
Definition on_register {A} : M (Chan HubRegistration) A -> M Hub A := zoom register set_register.
Definition on_subscribe {A} : M (Chan HubSubscription) A -> M Hub A := zoom subscribe set_subscribe.
Definition on_broadcast {A} : M (Chan StreamMessage) A -> M Hub A := zoom broadcast set_broadcast.
Definition on_disconnect {A} : M (Chan RemoteDisconnectMessage) A -> M Hub A :=
  zoom disconnect set_disconnect.

(** ** Names of the metrics of a node *)

Definition metricsGoroutines : string := "goroutines_num".
Definition metricsMemSys : string := "mem_sys_bytes".
Definition metricsClientsNum : string := "clients_num".
Definition metricsUniqClientsNum : string := "clients_uniq_num".
Definition metricsStreamsNum : string := "broadcast_streams_num".
Definition metricsDisconnectQueue : string := "disconnect_queue_size".
Definition metricsFailedAuths : string := "failed_auths_total".
Definition metricsReceivedMsg : string := "client_msg_total".
Definition metricsFailedCommandReceived : string := "failed_client_msg_total".
Definition metricsBroadcastMsg : string := "broadcast_msg_total".
Definition metricsUnknownBroadcast : string := "failed_broadcast_msg_total".
Definition metricsSentMsg : string := "server_msg_total".
Definition metricsFailedSent : string := "failed_server_msg_total".
Definition metricsDataSent : string := "data_sent_total".
Definition metricsDataReceived : string := "data_rcvd_total".

(** ** Construction *)

(** [NewConfig] of package node. *)
Definition NewNodeConfig : NodeConfig := mkNodeConfig 3 5 16 "s".

(** [NewGoPool]: a negative size makes the creation of the semaphore panic, and
    with size 0 the first worker waits for ever for a place. *)
Definition NewGoPool {W} (size : Z) : M W HubPool :=
  let queue := Z.quot size 2 in
  let queue := (if queue <=? 0 then 1 else queue)%Z in
  if (size <? 0)%Z then panic "makechan: size out of range"
  else if (size =? 0)%Z then block "chan send"
  else ret (mkPool (Z.to_nat size) (Z.to_nat queue) []).

Definition hub_with_pool (p : HubPool) : Hub :=
  {| sessions := ∅;
     identifiers := ∅;
     idmaps := ∅;
     streams := ∅;
     sessionsStreams := ∅;
     broadcast := make_chan 256;
     disconnect := make_chan 128;
     register := make_chan 2048;
     subscribe := make_chan 128;
     running := false;
     pool := p;
     streamsMu := rw_free;
     sessionsMu := rw_free |}.

Definition NewHub {W} (poolSize : Z) : M W Hub :=
  let! p := NewGoPool poolSize in
  ret (hub_with_pool p).

Definition registerMetrics (m : Metrics) : Metrics :=
  let m := RegisterGauge metricsGoroutines "The number of Go routines" m in
  let m := RegisterGauge metricsMemSys "The total bytes of memory obtained from the OS" m in
  let m := RegisterGauge metricsClientsNum "The number of active clients" m in
  let m := RegisterGauge metricsUniqClientsNum "The number of unique clients (with respect to connection identifiers)" m in
  let m := RegisterGauge metricsStreamsNum "The number of active broadcasting streams" m in
  let m := RegisterGauge metricsDisconnectQueue "The size of delayed disconnect" m in
  let m := RegisterCounter metricsFailedAuths "The total number of failed authentication attempts" m in
  let m := RegisterCounter metricsReceivedMsg "The total number of received messages from clients" m in
  let m := RegisterCounter metricsFailedCommandReceived "The total number of unrecognized messages received from clients" m in
  let m := RegisterCounter metricsBroadcastMsg "The total number of messages received through PubSub (for broadcast)" m in
  let m := RegisterCounter metricsUnknownBroadcast "The total number of unrecognized messages received through PubSub" m in
  let m := RegisterCounter metricsSentMsg "The total number of messages sent to clients" m in
  let m := RegisterCounter metricsFailedSent "The total number of messages failed to send to clients" m in
  let m := RegisterCounter metricsDataSent "The total amount of bytes sent to clients" m in
  RegisterCounter metricsDataReceived "The total amount of bytes received from clients" m.

(** The state that [NewNode] builds, for a hub and a controller. *)
Definition node_with_hub {C} (controller : C) (m : Metrics) (config : NodeConfig) (h : Hub)
    : World C :=
  {| w_config := config;
     w_metrics := registerMetrics m;
     w_hub := h;
     w_disconnector := None;
     w_shutdownCh := true;
     w_ctl := controller;
     w_sessions := ∅ |}.

Definition NewNode {W C} (controller : C) (m : Metrics) (config : NodeConfig)
    : M W (World C) :=
  let! h := NewHub (HubGopoolSize config) in
  ret (node_with_hub controller m config h).
