(* ===== verification/Session.v ===== *)
(** * Sessions

    The operations of a session ([src/node/session.go]): queueing frames,
    writing them, reading messages, pings, and the two ways to disconnect. A
    session calls back into its node when it disconnects, so the node's
    [Disconnect], the hub's [RemoveSession] and the disconnectors' [Enqueue] are
    here too. *)

From Stdlib Require Import ZArith Lia Ascii String.
From stdpp Require Import base gmap strings list fin_maps.
From S2P Require Import Prelude Json Common Metrics Encoders World.

Local Open Scope string_scope.

Section session.
Context {C : Type}.
Implicit Types (l : loc) (w : World C).

(** ** Leaving the node *)

(** [Hub.AddSession] and [Hub.RemoveSession] *)
Definition AddSession l : M (World C) unit :=
  on_hub (on_register (chan_send (mkHubRegistration "add" l))).
Definition RemoveSession l : M (World C) unit :=
  on_hub (on_register (chan_send (mkHubRegistration "remove" l))).

(** [DisconnectQueue.Enqueue] *)
Definition DisconnectQueue_Enqueue l : M DisconnectQueue (option error) :=
  let on_mu := zoom dq_mu (fun v q => mkDQ (dq_rate q) (dq_timeout q) (dq_disconnect q)
                                        (dq_shutdown q) (dq_isStopped q) v) in
  let on_chan := zoom dq_disconnect (fun v q => mkDQ (dq_rate q) (dq_timeout q) v
                                        (dq_shutdown q) (dq_isStopped q) (dq_mu q)) in
  on_mu lock ;;
  let! q := get in
  if dq_isStopped q then on_mu unlock ;; ret None
  else on_chan (chan_send l) ;; on_mu unlock ;; ret None.

(** The disconnector of the node: a nil interface until it is set. *)
Definition Enqueue l : M (World C) (option error) := fun w =>
  match w_disconnector w with
  | None => nil_deref w
  | Some DNoop => Ret None w
  | Some (DQueue q) =>
      zoom (fun _ => q) (fun q => set_disconnector (Some (DQueue q)))
        (DisconnectQueue_Enqueue l) w
  end.

(** [Node.Disconnect] *)
Definition Node_Disconnect l : M (World C) (option error) :=
  RemoveSession l ;; Enqueue l.

Definition disconnectFromNode l : M (World C) unit :=
  on_session l lock_mu ;;
  let! s := load l in
  on_session l (modify (set_Connected false)) ;;
  on_session l unlock_mu ;;
  when (Connected s) (let! _ := Node_Disconnect l in ret tt).

(** ** Queueing frames *)

Definition stop_ping : Session -> Session := fun s =>
  match pingTimer s with
  | Some _ => set_pingTimer (Some false) s
  | None => s
  end.

Definition Session_close l : M (World C) unit :=
  on_session l lock_mu ;;
  let! s := load l in
  if closed s then on_session l unlock_mu
  else
    on_session l (modify (set_closed true)) ;;
    on_session l unlock_mu ;;
    on_session l (modify stop_ping).

Definition close_frame (reason : string) (code : Z) : SentFrame :=
  mkFrame CloseFrame EmptyString code reason.

(** [sendFrame] disconnects the session when the queue is full, and
    [Disconnect] sends a close frame, which finds the queue gone. The calls nest
    at most three deep. *)
Fixpoint sendFrame_rec (depth : nat) l (message : SentFrame) : M (World C) unit :=
  match depth with
  | O => block "call depth"
  | S depth =>
      let Disconnect_rec reason code :=
        disconnectFromNode l ;;
        sendFrame_rec depth l (close_frame reason code) ;;
        Session_close l in
      on_session l lock_mu ;;
      let! s := load l in
      if negb (sendCh s) then on_session l unlock_mu
      else
        let! sent := on_session l (on_sendQ (chan_try_send message)) in
        if sent then on_session l unlock_mu
        else
          on_session l (on_sendQ chan_close) ;;
          on_session l (modify (set_sendCh false)) ;;
          on_session l unlock_mu ;;
          Disconnect_rec "Write failed" CloseAbnormalClosure
  end.

Definition sendFrame : loc -> SentFrame -> M (World C) unit := sendFrame_rec 2.

Definition sendClose l (reason : string) (code : Z) : M (World C) unit :=
  sendFrame l (close_frame reason code).

Definition Session_Disconnect l (reason : string) (code : Z) : M (World C) unit :=
  disconnectFromNode l ;; sendClose l reason code ;; Session_close l.

(** ** Encoding and sending messages *)

(** The frame of a message under the session's encoder, and the message with
    its cache updated. *)
Definition encodeMessage l (msg : EncodedMessage)
    : M (World C) (result (option SentFrame) * EncodedMessage) :=
  let! s := load l in
  match msg with
  | ECached target cache =>
      match Fetch target (ID (encoder s)) (Encode (encoder s)) cache with
      | Ret (Ok b) cache' => ret (Ok (Some b), ECached target cache')
      | Ret (Err e) cache' => ret (Err e, ECached target cache')
      | Block why _ => block why
      | Panic why _ => panic why
      end
  | _ => ret (Encode (encoder s) msg, msg)
  end.

Definition Send l (msg : EncodedMessage) : M (World C) EncodedMessage :=
  let! (b, msg') := encodeMessage l msg in
  match b with
  | Ok (Some f) => sendFrame l f ;; ret msg'
  | _ => ret msg'
  end.

Definition SendJSONTransmission l (msg : string) : M (World C) unit :=
  let! s := load l in
  match EncodeTransmission (encoder s) msg with
  | Ok (Some f) => sendFrame l f
  | _ => ret tt
  end.

(** ** Writing frames *)

Definition seconds (n : Z) : Z := n * 1000000000.
Definition writeWait : Z := seconds 10.

Definition writeFrameWithDeadline l (message : SentFrame) (wait : Z)
    : M (World C) (option error) :=
  on_metrics (counter_add (Z.of_nat (String.length (Payload message))) metricsDataSent) ;;
  if (FrameType message =? TextFrame)%Z then
    on_session l lock_mu ;;
    let! err := on_session l (on_conn (EvWrite (Payload message) wait)) in
    on_session l unlock_mu ;;
    ret err
  else if (FrameType message =? BinaryFrame)%Z then
    on_session l lock_mu ;;
    let! err := on_session l (on_conn (EvWriteBinary (Payload message) wait)) in
    on_session l unlock_mu ;;
    ret err
  else if (FrameType message =? CloseFrame)%Z then
    on_session l (on_conn (EvClose (CloseCode message) (CloseReason message))) ;;
    ret (Some (Errorf "Closed"))
  else ret (Some (Errorf "Unknown frame type")).

Definition writeFrame l (message : SentFrame) : M (World C) (option error) :=
  writeFrameWithDeadline l message writeWait.

Definition disconnectNow l (reason : string) (code : Z) : M (World C) unit :=
  disconnectFromNode l ;;
  writeFrame l (close_frame reason code) ;;
  on_session l lock_mu ;;
  let! s := load l in
  when (sendCh s)
    (on_session l (on_sendQ chan_close) ;; on_session l (modify (set_sendCh false))) ;;
  on_session l unlock_mu ;;
  Session_close l.

(** The goroutine that writes what is queued. [fuel] bounds the number of frames
    taken from the queue; on an empty open queue the goroutine waits. *)
Fixpoint SendMessages (fuel : nat) l : M (World C) unit :=
  match fuel with
  | O => block "fuel"
  | S fuel =>
      let! m := on_session l (on_sendQ chan_recv) in
      match m with
      | None => disconnectNow l "Write Failed" CloseAbnormalClosure
      | Some message =>
          let! err := writeFrame l message in
          match err with
          | Some _ =>
              on_metrics (counter_inc metricsFailedSent) ;;
              disconnectNow l "Write Failed" CloseAbnormalClosure
          | None =>
              on_metrics (counter_inc metricsSentMsg) ;;
              SendMessages fuel l
          end
      end
  end.

(** ** Reading messages *)

(** [ReadMessage], given the executor of the session. *)
Definition ReadMessage (HandleCommand : loc -> Message -> M (World C) (option error))
    l (message : string) : M (World C) (option error) :=
  on_metrics (counter_add (Z.of_nat (String.length message)) metricsDataReceived) ;;
  let! s := load l in
  match Decode (encoder s) message with
  | Err e => on_metrics (counter_inc metricsFailedCommandReceived) ;; ret (Some e)
  | Ok None => ret None
  | Ok (Some command) =>
      on_metrics (counter_inc metricsReceivedMsg) ;;
      let! err := HandleCommand l command in
      match err with
      | Some _ => on_metrics (counter_inc metricsFailedCommandReceived) ;; ret None
      | None => ret None
      end
  end.

(** The reading goroutine of [Serve], for the results of the successive reads of
    the connection; when they run out it waits for the next one. *)
Fixpoint Serve (HandleCommand : loc -> Message -> M (World C) (option error))
    (callback : M (World C) unit) l (reads : list (string + read_error)) : M (World C) unit :=
  match reads with
  | [] => block "Connection.Read"
  | inr err :: _ =>
      (if IsCloseError err then disconnectNow l "Read closed" CloseNormalClosure
       else disconnectNow l "Read failed" CloseAbnormalClosure) ;;
      callback
  | inl message :: reads =>
      let! err := ReadMessage HandleCommand l message in
      match err with
      | Some _ => callback
      | None => Serve HandleCommand callback l reads
      end
  end.

(** ** Pings *)

(** [now] is the wall clock in nanoseconds since the epoch. *)
Definition newPingMessage (format : string) (now : Z) : PingMessage :=
  let ts :=
    if String.eqb format "ns" then now
    else if String.eqb format "ms" then Z.quot now 1000000
    else (now / 1000000000)%Z in
  mkPing "ping" ts.

Definition addPing l : M (World C) unit :=
  on_session l (modify (set_pingTimer (Some true))).

Definition sendPing l (now : Z) : M (World C) unit :=
  let! s := load l in
  if closed s then ret tt
  else
    let wait := Z.quot (pingInterval s) 2 in
    let! (b, _) := encodeMessage l (EPing (newPingMessage (pingTimestampPrecision s) now)) in
    let! err :=
      match b with
      | Err e => ret (Some e)
      | Ok (Some f) => writeFrameWithDeadline l f wait
      | Ok None => ret None
      end in
    match err with
    | Some _ => Session_Disconnect l "Ping failed" CloseAbnormalClosure
    | None => addPing l
    end.

(** ** Environments *)

Definition SetEncoder l (enc : Encoder) : M (World C) unit := on_session l (modify (set_encoder enc)).
Definition GetEnv l : M (World C) SessionEnv := let! s := load l in ret (env s).
Definition SetEnv l (e : SessionEnv) : M (World C) unit := on_session l (modify (set_env e)).

Definition MergeEnv `{GoRange} l (other : SessionEnv) : M (World C) unit :=
  on_session l lock_smu ;;
  match ConnectionState other with
  | Some m => on_session l (zoom env set_env (MergeConnectionState m))
  | None => ret tt
  end ;;
  match ChannelStates other with
  | Some states =>
      each (fun kv => on_session l (zoom env set_env (MergeChannelState kv.1 kv.2))) (range states)
  | None => ret tt
  end ;;
  on_session l unlock_smu.

(** ** Creation *)

(** The session that [NewSession] builds, before its first ping is armed. *)
Definition new_session (cfg : NodeConfig) (c : Conn) (url : string)
    (headers : option (gmap string string)) (uid : string) : Session :=
  {| conn := c;
     encoder := JSON;
     env := NewSessionEnv url headers;
     subscriptions := ∅;
     closed := false;
     mu := false;
     smu := false;
     sendCh := true;
     sendQ := make_chan 256;
     pingTimer := None;
     pingInterval := to_i64 (seconds (PingInterval cfg));
     pingTimestampPrecision := PingTimestampPrecision cfg;
     UID := uid;
     Identifiers := EmptyString;
     Connected := false |}.

(** [NewSession], for a session object allocated at [l]; the goroutine of
    [SendMessages] starts with it. *)
Definition NewSession l (c : Conn) (url : string) (headers : option (gmap string string))
    (uid : string) : M (World C) unit := fun w =>
  addPing l (put_session l (new_session (w_config w) c url headers uid) w).

End session.

(** ** Running session code symbolically *)

Section symbolic.
Context {C : Type}.
Implicit Types (l : loc) (w : World C) (s : Session).

Lemma put_session_id l s w : w_sessions w !! l = Some s -> put_session l s w = w.
Proof.
  intros Hl. destruct w; unfold put_session, set_heap; simpl in *. by rewrite insert_id.
Qed.

Lemma put_put l s s' w : put_session l s' (put_session l s w) = put_session l s' w.
Proof. unfold put_session, set_heap; simpl. by rewrite insert_insert_eq. Qed.

Lemma lookup_put l s w : w_sessions (put_session l s w) !! l = Some s.
Proof. apply lookup_insert_eq. Qed.

Lemma lookup_put_ne l l' s w :
  l <> l' -> w_sessions (put_session l s w) !! l' = w_sessions w !! l'.
Proof. apply lookup_insert_ne. Qed.

Lemma load_put l s w : load l (put_session l s w) = Ret s (put_session l s w).
Proof. unfold load. by rewrite lookup_put. Qed.

Lemma on_session_put {A} l (m : M Session A) s w :
  on_session l m (put_session l s w) =
  match m s with
  | Ret a s' => Ret a (put_session l s' w)
  | Block c s' => Block c (put_session l s' w)
  | Panic c s' => Panic c (put_session l s' w)
  end.
Proof. unfold on_session. rewrite lookup_put. destruct (m s); by rewrite put_put. Qed.

(** What a session should look like between two operations: no lock is held,
    the channel is open exactly when the field points to it, and it is not
    overfull. *)
Record session_ok s : Prop := {
  ok_mu : mu s = false;
  ok_smu : smu s = false;
  ok_open : ch_closed (sendQ s) = negb (sendCh s);
  ok_room : length (ch_buf (sendQ s)) <= ch_cap (sendQ s)
}.

(** One step of each kind on a session at hand. *)
Lemma lock_put l s w :
  mu s = false -> on_session l lock_mu (put_session l s w) = Ret tt (put_session l (set_mu true s) w).
Proof. intros Hmu. rewrite on_session_put. unfold lock_mu, zoom, lock. by rewrite Hmu. Qed.

Lemma unlock_put l s w :
  mu s = true -> on_session l unlock_mu (put_session l s w) = Ret tt (put_session l (set_mu false s) w).
Proof. intros Hmu. rewrite on_session_put. unfold unlock_mu, zoom, unlock. by rewrite Hmu. Qed.

Lemma lock_smu_put l s w :
  smu s = false -> on_session l lock_smu (put_session l s w) = Ret tt (put_session l (set_smu true s) w).
Proof. intros Hmu. rewrite on_session_put. unfold lock_smu, zoom, lock. by rewrite Hmu. Qed.

Lemma unlock_smu_put l s w :
  smu s = true -> on_session l unlock_smu (put_session l s w) = Ret tt (put_session l (set_smu false s) w).
Proof. intros Hmu. rewrite on_session_put. unfold unlock_smu, zoom, unlock. by rewrite Hmu. Qed.

Lemma modify_put l f s w :
  on_session l (modify f) (put_session l s w) = Ret tt (put_session l (f s) w).
Proof. by rewrite on_session_put. Qed.

Lemma try_send_put l f s w :
  ch_closed (sendQ s) = false ->
  on_session l (on_sendQ (chan_try_send f)) (put_session l s w) =
  Ret (negb (chan_full (sendQ s)))
    (put_session l (if chan_full (sendQ s) then s else set_sendQ (chan_push f (sendQ s)) s) w).
Proof.
  intros Hc. rewrite on_session_put. unfold on_sendQ, zoom, chan_try_send. rewrite Hc.
  destruct (chan_full (sendQ s)); by destruct s.
Qed.

Lemma close_chan_put l s w :
  ch_closed (sendQ s) = false ->
  on_session l (on_sendQ chan_close) (put_session l s w) =
  Ret tt (put_session l (set_sendQ (mkChan (ch_buf (sendQ s)) (ch_cap (sendQ s)) true) s) w).
Proof.
  intros Hc. rewrite on_session_put. unfold on_sendQ, zoom, chan_close. by rewrite Hc.
Qed.

End symbolic.

(** Runs the first step of a sequence. *)
Ltac step :=
  erewrite bind_ret_eq by
    (first [ apply load_put | apply modify_put
           | apply lock_put; done | apply unlock_put; done
           | apply lock_smu_put; done | apply unlock_smu_put; done
           | apply try_send_put; done | apply close_chan_put; done ]).

(** Opens a session record, with the fields that decide control flow named. *)
Ltac open_session s :=
  let cl := fresh "is_closed" in let sc := fresh "open_ch" in
  let q := fresh "q" in let pt := fresh "timer" in let co := fresh "is_connected" in
  let m := fresh "locked" in let sm := fresh "slocked" in
  destruct s as [? ? ? ? cl m sm sc q pt ? ? ? ? co]; simpl in *; subst; simpl.

(** ** Closed forms of the operations *)

Section closed_forms.
Context {C : Type}.
Implicit Types (l : loc) (w : World C) (s : Session).

(** The session after [close]. *)
Definition closing s : Session :=
  if closed s then s else stop_ping (set_closed true s).

Lemma set_mu_same b s : mu s = b -> set_mu b s = s.
Proof. destruct s; simpl. by intros ->. Qed.

Lemma set_Connected_false s : Connected s = false -> set_Connected false s = s.
Proof. destruct s; simpl. by intros ->. Qed.

Lemma Session_close_put l s w :
  mu s = false -> Session_close l (put_session l s w) = Ret tt (put_session l (closing s) w).
Proof.
  intros Hmu. unfold Session_close. step. step. unfold closing. open_session s.
  destruct is_closed; [by rewrite unlock_put |]. step. step. rewrite modify_put.
  by destruct timer.
Qed.

Lemma disconnectFromNode_put l s w :
  mu s = false ->
  disconnectFromNode l (put_session l s w) =
  if Connected s
  then bind (Node_Disconnect l) (fun _ => ret tt) (put_session l (set_Connected false s) w)
  else Ret tt (put_session l s w).
Proof.
  intros Hmu. unfold disconnectFromNode. step. step. step. step. open_session s.
  by destruct is_connected.
Qed.

(** The node can take a departing session: the registration channel and the
    disconnect queue have room. *)
Definition disconnector_room (d : Disconnector) : Prop :=
  match d with
  | DNoop => True
  | DQueue q =>
      dq_mu q = false /\ ch_closed (dq_disconnect q) = false /\
      (dq_isStopped q = false -> chan_full (dq_disconnect q) = false)
  end.
Definition can_leave w : Prop :=
  ch_closed (register (w_hub w)) = false /\ chan_full (register (w_hub w)) = false /\
  match w_disconnector w with None => False | Some d => disconnector_room d end.

Definition enqueued l (d : Disconnector) : Disconnector :=
  match d with
  | DNoop => DNoop
  | DQueue q =>
      if dq_isStopped q then d
      else DQueue (mkDQ (dq_rate q) (dq_timeout q) (chan_push l (dq_disconnect q))
                     (dq_shutdown q) (dq_isStopped q) (dq_mu q))
  end.

(** The node after a session has left it: its removal is queued for the hub, and
    the session for the disconnector. *)
Definition departed l w : World C :=
  set_disconnector (enqueued l <$> w_disconnector w)
    (set_hub (set_register (chan_push (mkHubRegistration "remove" l) (register (w_hub w)))
                (w_hub w)) w).

Lemma departed_put l l' s w : departed l (put_session l' s w) = put_session l' s (departed l w).
Proof. reflexivity. Qed.

Lemma Node_Disconnect_ok l w : can_leave w -> Node_Disconnect l w = Ret None (departed l w).
Proof.
  intros (Hc & Hf & Hd). unfold Node_Disconnect, bind, RemoveSession, on_hub, on_register.
  unfold zoom at 1 2, chan_send. rewrite Hc, Hf. unfold Enqueue; simpl.
  destruct (w_disconnector w) as [[q|]|] eqn:Hw; [| | done].
  - destruct Hd as (Hm & Hqc & Hqf). unfold DisconnectQueue_Enqueue, zoom, bind, lock; simpl.
    rewrite Hm. simpl. unfold departed. rewrite Hw; simpl.
    destruct (dq_isStopped q) eqn:Hst; simpl.
    + destruct q; simpl in *; by subst.
    + unfold chan_send. rewrite Hqc, (Hqf eq_refl). simpl. by rewrite Hm.
  - unfold departed. rewrite Hw. destruct w; simpl in *. by subst.
Qed.

(** A session that is told to leave its node. *)
Definition leaving l s w : World C :=
  put_session l (set_Connected false s) (if Connected s then departed l w else w).

Lemma disconnectFromNode_ok l s w :
  mu s = false -> (Connected s = true -> can_leave w) ->
  disconnectFromNode l (put_session l s w) = Ret tt (leaving l s w).
Proof.
  intros Hmu Hw. rewrite disconnectFromNode_put by done. unfold leaving.
  destruct (Connected s) eqn:Hc.
  - unfold bind. rewrite Node_Disconnect_ok by (by apply Hw). done.
  - by rewrite set_Connected_false.
Qed.

Definition closed_chan {A} (c : Chan A) : Chan A := mkChan (ch_buf c) (ch_cap c) true.

(** The session after [sendFrame]. *)
Definition after_send (f : SentFrame) s : Session :=
  if sendCh s then
    if chan_full (sendQ s)
    then closing (set_Connected false (set_sendCh false (set_sendQ (closed_chan (sendQ s)) s)))
    else set_sendQ (chan_push f (sendQ s)) s
  else s.

Definition overflows s : bool := sendCh s && chan_full (sendQ s).

Lemma sendFrame_nil_put depth l f s w :
  mu s = false -> sendCh s = false ->
  sendFrame_rec (S depth) l f (put_session l s w) = Ret tt (put_session l s w).
Proof.
  intros Hmu Hch. cbn [sendFrame_rec]. step. step. open_session s. by rewrite unlock_put.
Qed.

Lemma sendFrame_rec_ok depth l f s w :
  session_ok s -> (overflows s && Connected s = true -> can_leave w) ->
  sendFrame_rec (S (S depth)) l f (put_session l s w) =
  Ret tt (put_session l (after_send f s)
            (if overflows s && Connected s then departed l w else w)).
Proof.
  intros [Hmu Hsmu Hop Hroom] Hw. unfold after_send, overflows in *.
  remember (S depth) as d eqn:Hd.
  destruct (sendCh s) eqn:Hch; [| by rewrite sendFrame_nil_put].
  cbn [sendFrame_rec]. step. step.
  change (sendCh (set_mu true s)) with (sendCh s). rewrite Hch. cbn [negb] in *. step.
  change (sendQ (set_mu true s)) with (sendQ s).
  destruct (chan_full (sendQ s)) eqn:Hfull; cbn [negb andb] in *.
  - step. step. step. open_session s.
    erewrite bind_ret_eq by (apply disconnectFromNode_ok; [done | exact Hw]).
    unfold leaving. erewrite bind_ret_eq by (by apply sendFrame_nil_put).
    by rewrite Session_close_put.
  - rewrite unlock_put by done. by open_session s.
Qed.

Lemma sendFrame_ok l f s w :
  session_ok s -> (overflows s && Connected s = true -> can_leave w) ->
  sendFrame l f (put_session l s w) =
  Ret tt (put_session l (after_send f s)
            (if overflows s && Connected s then departed l w else w)).
Proof. apply sendFrame_rec_ok. Qed.

(** The session and the node after [Disconnect]. *)
Definition disconnected reason code s : Session :=
  closing (after_send (close_frame reason code) (set_Connected false s)).

Lemma after_send_ok f s : session_ok s -> session_ok (after_send f s).
Proof.
  intros [Hmu Hsmu Hop Hroom]. unfold after_send, closing, chan_full, stop_ping.
  open_session s. destruct open_ch; simpl; [| by split].
  case_bool_decide as Hfull.
  - destruct is_closed, timer; simpl; by split.
  - simpl. split; simpl; auto. rewrite length_app. simpl. lia.
Qed.

Lemma closing_ok s : session_ok s -> session_ok (closing s).
Proof.
  intros [Hmu Hsmu Hop Hroom]. unfold closing, stop_ping.
  open_session s. destruct is_closed, timer; by split.
Qed.

Lemma set_Connected_ok b s : session_ok s -> session_ok (set_Connected b s).
Proof. intros [Hmu Hsmu Hop Hroom]. by split. Qed.

Lemma Session_Disconnect_ok l reason code s w :
  session_ok s -> (Connected s = true -> can_leave w) ->
  Session_Disconnect l reason code (put_session l s w) =
  Ret tt (put_session l (disconnected reason code s)
            (if Connected s then departed l w else w)).
Proof.
  intros Hok Hw. pose proof Hok as [Hmu _ _ _].
  unfold Session_Disconnect, sendClose, bind. rewrite disconnectFromNode_ok by done.
  unfold leaving. rewrite sendFrame_ok.
  - simpl. rewrite andb_false_r. rewrite Session_close_put; [done |].
    apply after_send_ok. by apply set_Connected_ok.
  - by apply set_Connected_ok.
  - simpl. by rewrite andb_false_r.
Qed.

(** ** Counters *)

(** A counter of the node after an update. *)
Definition bump (f : Counter -> Counter) (name : string) w : World C :=
  set_metrics (mkMetrics (alter f name (counters (w_metrics w))) (gauges (w_metrics w))) w.

Definition registered (name : string) w : Prop := is_Some (counters (w_metrics w) !! name).

Definition counter_value (name : string) w : Z :=
  match counters (w_metrics w) !! name with Some c => c_value c | None => 0 end.

Lemma on_counter_ok f name w :
  registered name w -> on_metrics (on_counter f name) w = Ret tt (bump f name w).
Proof.
  intros [c Hc]. unfold on_metrics, zoom, on_counter, bump. rewrite Hc.
  do 3 f_equal. apply map_eq; intros i. rewrite lookup_insert, lookup_alter.
  case_decide as Hi; [| done]. subst i. by rewrite Hc.
Qed.

Lemma counter_inc_ok name w :
  registered name w -> on_metrics (counter_inc name) w = Ret tt (bump (Counter_Add 1) name w).
Proof. apply (on_counter_ok (Counter_Add 1)). Qed.

Lemma registered_bump f name name' w : registered name' (bump f name w) <-> registered name' w.
Proof.
  unfold registered, bump; simpl. rewrite lookup_alter. case_decide; [| done]. subst.
  by rewrite fmap_is_Some.
Qed.

Lemma counter_value_bump n name name' w :
  registered name w ->
  counter_value name' (bump (Counter_Add n) name w) =
  if decide (name = name') then to_u64 (counter_value name' w + n) else counter_value name' w.
Proof.
  intros [c Hc]. unfold counter_value, bump; simpl. rewrite lookup_alter.
  case_decide; [| done]. subst. by rewrite Hc.
Qed.

(** ** Writing *)

Definition wrote (e : ConnEvent) s : Session :=
  set_conn (mkConn (conn_trace (conn s) ++ [e])%list (conn_ok (conn s))) s.
Definition write_err (e : ConnEvent) s : option error :=
  if conn_ok (conn s) (conn_trace (conn s)) e then None else Some (Errorf "write failed").

Lemma on_conn_put l e s w :
  on_session l (on_conn e) (put_session l s w) =
  Ret (write_err e s) (put_session l (wrote e s) w).
Proof. by rewrite on_session_put. Qed.

(** What writing a frame does to the session, and the error it returns. *)
Definition frame_written (m : SentFrame) (wait : Z) s : option error * Session :=
  if (FrameType m =? TextFrame)%Z
  then (write_err (EvWrite (Payload m) wait) s, wrote (EvWrite (Payload m) wait) s)
  else if (FrameType m =? BinaryFrame)%Z
  then (write_err (EvWriteBinary (Payload m) wait) s, wrote (EvWriteBinary (Payload m) wait) s)
  else if (FrameType m =? CloseFrame)%Z
  then (Some (Errorf "Closed"), wrote (EvClose (CloseCode m) (CloseReason m)) s)
  else (Some (Errorf "Unknown frame type"), s).

Lemma frame_written_close reason code wait s :
  frame_written (close_frame reason code) wait s =
  (Some (Errorf "Closed"), wrote (EvClose code reason) s).
Proof. reflexivity. Qed.

Definition payload_size (m : SentFrame) : Z := Z.of_nat (String.length (Payload m)).

Lemma writeFrameWithDeadline_ok l m wait s w :
  mu s = false -> registered metricsDataSent w ->
  writeFrameWithDeadline l m wait (put_session l s w) =
  Ret (frame_written m wait s).1
    (put_session l (frame_written m wait s).2
       (bump (Counter_Add (payload_size m)) metricsDataSent w)).
Proof.
  intros Hmu Hreg. unfold writeFrameWithDeadline, frame_written.
  erewrite bind_ret_eq by (apply on_counter_ok; exact Hreg).
  change (bump ?f ?n (put_session l s w)) with (put_session l s (bump f n w)).
  fold (payload_size m).
  destruct (FrameType m =? TextFrame)%Z; [| destruct (FrameType m =? BinaryFrame)%Z].
  1, 2: step; erewrite bind_ret_eq by apply on_conn_put;
    erewrite bind_ret_eq by (by apply unlock_put);
    unfold ret; open_session s; done.
  destruct (FrameType m =? CloseFrame)%Z; [| done].
  by erewrite bind_ret_eq by apply on_conn_put.
Qed.

(** The end of [disconnectNow]: the field is set to nil and the channel closed. *)
Definition hang_up s : Session :=
  if sendCh s then set_sendCh false (set_sendQ (closed_chan (sendQ s)) s) else s.

Definition now_disconnected reason code s : Session :=
  closing (hang_up (wrote (EvClose code reason) (set_Connected false s))).

Lemma disconnectNow_ok l reason code s w :
  session_ok s -> registered metricsDataSent w -> (Connected s = true -> can_leave w) ->
  disconnectNow l reason code (put_session l s w) =
  Ret tt (put_session l (now_disconnected reason code s)
            (bump (Counter_Add 0) metricsDataSent (if Connected s then departed l w else w))).
Proof.
  intros [Hmu Hsmu Hop Hroom] Hreg Hw. unfold disconnectNow, writeFrame.
  erewrite bind_ret_eq by (by apply disconnectFromNode_ok). unfold leaving.
  erewrite bind_ret_eq by
    (apply writeFrameWithDeadline_ok; [done | by destruct (Connected s)]).
  rewrite frame_written_close. cbn [snd].
  change (payload_size (close_frame reason code)) with 0%Z. step. step.
  unfold now_disconnected, hang_up.
  change (sendCh (set_mu true (wrote (EvClose code reason) (set_Connected false s))))
    with (sendCh s).
  change (sendCh (wrote (EvClose code reason) (set_Connected false s))) with (sendCh s).
  destruct (sendCh s) eqn:Hch; cbn [when].
  - erewrite bind_ret_eq.
    2: { erewrite bind_ret_eq by (apply close_chan_put; by destruct s). apply modify_put. }
    step. rewrite Session_close_put by done. by open_session s.
  - erewrite bind_ret_eq by reflexivity. step. rewrite Session_close_put by done.
    by open_session s.
Qed.

Lemma now_disconnected_facts reason code s :
  conn_trace (conn (now_disconnected reason code s)) =
    (conn_trace (conn s) ++ [EvClose code reason])%list /\
  Connected (now_disconnected reason code s) = false /\
  closed (now_disconnected reason code s) = true /\
  sendCh (now_disconnected reason code s) = false.
Proof.
  unfold now_disconnected, closing, hang_up, stop_ping. open_session s.
  destruct open_ch, is_closed, timer; done.
Qed.

Lemma now_disconnected_ok reason code s :
  session_ok s -> session_ok (now_disconnected reason code s).
Proof.
  intros [Hmu Hsmu Hop Hroom]. apply closing_ok. unfold hang_up.
  open_session s. destruct open_ch; by split.
Qed.

Lemma recv_put l s w :
  on_session l (on_sendQ chan_recv) (put_session l s w) =
  match ch_buf (sendQ s) with
  | f :: b => Ret (Some f) (put_session l (set_sendQ (mkChan b (ch_cap (sendQ s)) (ch_closed (sendQ s))) s) w)
  | [] => if ch_closed (sendQ s) then Ret None (put_session l s w)
          else Block "chan receive" (put_session l s w)
  end.
Proof.
  rewrite on_session_put. unfold on_sendQ, zoom, chan_recv.
  destruct (ch_buf (sendQ s)); [destruct (ch_closed (sendQ s)) |]; by destruct s.
Qed.

(** What the writing goroutine does to the connection, as a function of the queue
    and of what the connection answers: the events, the number of frames sent,
    and whether it stopped at a frame (a close frame, or one that failed). *)
Definition frame_event (f : SentFrame) : option ConnEvent :=
  if (FrameType f =? TextFrame)%Z then Some (EvWrite (Payload f) writeWait)
  else if (FrameType f =? BinaryFrame)%Z then Some (EvWriteBinary (Payload f) writeWait)
  else if (FrameType f =? CloseFrame)%Z then Some (EvClose (CloseCode f) (CloseReason f))
  else None.

Definition goes_out (ok : list ConnEvent -> ConnEvent -> bool) past f : bool :=
  match frame_event f with
  | None | Some (EvClose _ _) => false
  | Some e => ok past e
  end.

Fixpoint written ok past (frames : list SentFrame) : list ConnEvent * nat * bool :=
  match frames with
  | [] => ([], O, false)
  | f :: frames =>
      let evs := option_list (frame_event f) in
      if goes_out ok past f then
        let '(rest, n, failed) := written ok (past ++ evs)%list frames in
        ((evs ++ rest)%list, S n, failed)
      else (evs, O, true)
  end.

Lemma frame_written_spec f s :
  (frame_written f writeWait s).2 =
    set_conn (mkConn (conn_trace (conn s) ++ option_list (frame_event f))%list
                (conn_ok (conn s))) s /\
  bool_decide ((frame_written f writeWait s).1 = None) =
    goes_out (conn_ok (conn s)) (conn_trace (conn s)) f.
Proof.
  unfold frame_written, goes_out, frame_event.
  destruct (FrameType f =? TextFrame)%Z; [| destruct (FrameType f =? BinaryFrame)%Z;
    [| destruct (FrameType f =? CloseFrame)%Z]]; simpl; split;
    try done; unfold write_err; try (by destruct (conn_ok _ _ _)).
  destruct s as [[] ]; simpl. by rewrite app_nil_r.
Qed.

Definition writer_ready w : Prop :=
  registered metricsDataSent w /\ registered metricsSentMsg w /\ registered metricsFailedSent w.

Lemma writer_ready_bump f name w : writer_ready w -> writer_ready (bump f name w).
Proof. unfold writer_ready. rewrite !registered_bump. tauto. Qed.

(** The outcome that [written] predicts. *)
Definition drained l s w (out : outcome (World C) unit) : Prop :=
  let '(evs, n, failed) :=
    written (conn_ok (conn s)) (conn_trace (conn s)) (ch_buf (sendQ s)) in
  exists s' w',
    out = (if failed || ch_closed (sendQ s)
           then Ret tt (put_session l s' w') else Block "chan receive" (put_session l s' w')) /\
    conn_trace (conn s') =
      (conn_trace (conn s) ++ evs ++
       if failed || ch_closed (sendQ s)
       then [EvClose CloseAbnormalClosure "Write Failed"] else [])%list /\
    (if failed || ch_closed (sendQ s)
     then Connected s' = false /\ closed s' = true /\ sendCh s' = false
     else Connected s' = Connected s /\ closed s' = closed s /\ sendCh s' = sendCh s /\
          ch_buf (sendQ s') = []) /\
    (session_ok s' /\ w_sessions w' = w_sessions w /\ writer_ready w') /\
    to_u64 (counter_value metricsSentMsg w') =
      to_u64 (counter_value metricsSentMsg w + Z.of_nat n) /\
    to_u64 (counter_value metricsFailedSent w') =
      to_u64 (counter_value metricsFailedSent w + Z.b2z failed).

Lemma after_recv_ok b s :
  session_ok s -> length b <= ch_cap (sendQ s) ->
  session_ok (set_sendQ (mkChan b (ch_cap (sendQ s)) (ch_closed (sendQ s))) s).
Proof. intros [Hmu Hsmu Hop Hroom] Hb. by split. Qed.

Lemma set_conn_ok c s : session_ok s -> session_ok (set_conn c s).
Proof. intros [Hmu Hsmu Hop Hroom]. by split. Qed.

(** The end of [SendMessages], once the session is told to go. *)
Lemma drained_end l s w past evs :
  session_ok s -> writer_ready w -> (Connected s = true -> can_leave w) ->
  conn_trace (conn s) = (past ++ evs)%list ->
  exists s' w',
    disconnectNow l "Write Failed" CloseAbnormalClosure (put_session l s w) =
      Ret tt (put_session l s' w') /\
    conn_trace (conn s') =
      (past ++ evs ++ [EvClose CloseAbnormalClosure "Write Failed"])%list /\
    (Connected s' = false /\ closed s' = true /\ sendCh s' = false) /\
    (session_ok s' /\ w_sessions w' = w_sessions w /\ writer_ready w') /\
    counter_value metricsSentMsg w' = counter_value metricsSentMsg w /\
    counter_value metricsFailedSent w' = counter_value metricsFailedSent w.
Proof.
  intros Hs Hr Hw Htr. pose proof Hr as [Hreg _].
  do 2 eexists. split; [by apply disconnectNow_ok |].
  destruct (now_disconnected_facts "Write Failed" CloseAbnormalClosure s) as (-> & Hf).
  rewrite Htr, <- app_assoc. split; [done |]. split; [done |]. split.
  { split_and!; [by apply now_disconnected_ok | by destruct (Connected s) |].
    apply writer_ready_bump. by destruct (Connected s). }
  rewrite !counter_value_bump by (by destruct (Connected s)). by destruct (Connected s).
Qed.

Lemma SendMessages_ok fuel l s w :
  session_ok s -> writer_ready w -> (Connected s = true -> can_leave w) ->
  length (ch_buf (sendQ s)) < fuel ->
  drained l s w (SendMessages fuel l (put_session l s w)).
Proof.
  revert s w. induction fuel as [|fuel IH]; intros s w Hs Hw Hl Hfuel; [lia |].
  pose proof Hw as (Hd & Hsent & Hfail).
  unfold drained. cbn [SendMessages]. unfold bind at 1. rewrite recv_put.
  destruct (ch_buf (sendQ s)) as [|f b] eqn:Hb; cbn [written].
  - destruct (ch_closed (sendQ s)) eqn:Hc; cbn [orb app].
    + destruct (drained_end l s w (conn_trace (conn s)) []) as (s' & w' & He & Ht & Hf & Hok & H1 & H2);
        [done.. | by rewrite app_nil_r |].
      exists s', w'. rewrite H1, H2. by rewrite !Z.add_0_r.
    + exists s, w. by rewrite !Z.add_0_r, app_nil_r.
  - set (s1 := set_sendQ _ s).
    assert (Hs1 : session_ok s1).
    { apply after_recv_ok; [done |]. destruct Hs as [_ _ _ Hr]. rewrite Hb in Hr.
      simpl in Hr. lia. }
    unfold writeFrame. erewrite bind_ret_eq by
      (apply writeFrameWithDeadline_ok; [apply Hs1 | done]).
    destruct (frame_written_spec f s1) as [H2 H1]. rewrite H2.
    change (conn_ok (conn s1)) with (conn_ok (conn s)) in *.
    change (conn_trace (conn s1)) with (conn_trace (conn s)) in *.
    rewrite <- H1. destruct (frame_written f writeWait s1).1 as [e|]; simpl.
    + erewrite bind_ret_eq by (by apply counter_inc_ok, registered_bump).
      change (bump ?g ?n (put_session l ?x ?v)) with (put_session l x (bump g n v)).
      match goal with |- context [disconnectNow l _ _ (put_session l ?x ?v)] =>
        destruct (drained_end l x v (conn_trace (conn s)) (option_list (frame_event f)))
          as (s' & w' & He & Ht & Hf & Hok & H3 & H4);
          [by apply set_conn_ok | by apply writer_ready_bump, writer_ready_bump | done | done |]
      end.
      exists s', w'. rewrite H3, H4, !counter_value_bump by (by rewrite ?registered_bump).
      simpl. rewrite to_u64_idem, Z.add_0_r. done.
    + erewrite bind_ret_eq by (by apply counter_inc_ok, registered_bump).
      change (bump ?g ?n (put_session l ?x ?v)) with (put_session l x (bump g n v)).
      match goal with |- context [SendMessages fuel l (put_session l ?x ?v)] =>
        pose proof (IH x v ltac:(by apply set_conn_ok)
          ltac:(by apply writer_ready_bump, writer_ready_bump) Hl
          ltac:(simpl in *; lia)) as IHs end.
      unfold drained in IHs. simpl in IHs.
      destruct (written _ _ b) as [[rest n] failed].
      destruct IHs as (s' & w' & He & Ht & Hf & Hok & H3 & H4). exists s', w'.
      rewrite H3, H4, !counter_value_bump, Ht by (by rewrite ?registered_bump).
      simpl. rewrite to_u64_add_l, <- !app_assoc. do 4 (split; [done |]).
      split; [f_equal; lia | done].
Qed.
End closed_forms.
