(* ===== verification/SessionSafety.v ===== *)
(** * Properties of sessions

    What the operations of [src/node/session.go] guarantee: a session leaves its
    node at most once however its operations are mixed, a client that is too slow
    to read is cut off without losing what was queued, pings are written with half
    the interval as deadline, and malformed input ends the reading loop. *)

From Stdlib Require Import ZArith Lia Ascii String.
From stdpp Require Import base gmap strings list fin_maps.
From S2P Require Import Prelude Json Common Metrics Encoders World Session.

Local Open Scope string_scope.

(** What stays within the budget of departures below. *)
Create HintDb departs discriminated.
#[export] Hint Constants Opaque : departs.

Section departures.
Context {C : Type} {order : GoRange}.
Implicit Types (l : loc) (w : World C) (s : Session).

(** ** Mixing operations *)

(** The operations that other goroutines perform on a session. *)
Inductive session_op : Type :=
| OpSend (msg : EncodedMessage)
| OpTransmit (msg : string)
| OpDisconnect (reason : string) (code : Z)
| OpDisconnectNow (reason : string) (code : Z)
| OpSendMessages (fuel : nat)
| OpPing (now : Z)
| OpMergeEnv (other : SessionEnv).

Definition run_op l (op : session_op) : M (World C) unit :=
  match op with
  | OpSend msg => Send l msg ;; ret tt
  | OpTransmit msg => SendJSONTransmission l msg
  | OpDisconnect reason code => Session_Disconnect l reason code
  | OpDisconnectNow reason code => disconnectNow l reason code
  | OpSendMessages fuel => SendMessages fuel l
  | OpPing now => sendPing l now
  | OpMergeEnv other => MergeEnv l other
  end.

(** The state after a sequence of operations on any sessions, each run until it
    returns, blocks or panics. *)
Definition after_ops (ops : list (loc * session_op)) w : World C :=
  foldl (fun w op => final (run_op op.1 op.2 w)) w ops.

(** How often the departure of [l] is queued for the hub and for the
    disconnector, and whether the session still counts as connected. *)
Definition removals l w : nat :=
  length (filter (fun r => reg_event r = "remove" /\ reg_session r = l)
            (ch_buf (register (w_hub w)))).
Definition queued l w : nat :=
  match w_disconnector w with
  | Some (DQueue q) => length (filter (eq l) (ch_buf (dq_disconnect q)))
  | _ => O
  end.
Definition alive l w : nat :=
  match w_sessions w !! l with
  | Some s => if Connected s then 1 else 0
  | None => 0
  end.

Definition budget l (a b c : nat) w : Prop :=
  removals l w + alive l w <= a /\ queued l w + alive l w <= b /\ alive l w <= c.

(** ** What stays within the budget *)

Lemma alive_put l l' s w :
  alive l (put_session l' s w) =
  if decide (l' = l) then (if Connected s then 1 else 0) else alive l w.
Proof.
  unfold alive. case_decide as He; [subst; by rewrite lookup_put | by rewrite lookup_put_ne].
Qed.

Lemma keeps_on_session {A} l l' (m : M Session A) a b c :
  (forall s, Connected (final (m s)) = true -> Connected s = true) ->
  keeps (on_session l' m) (budget l a b c).
Proof.
  intros Hm w Hw. unfold on_session.
  destruct (w_sessions w !! l') as [s|] eqn:Hl; [| done].
  specialize (Hm s). unfold budget in *.
  assert (Hle : forall s', (Connected s' = true -> Connected s = true) ->
            alive l (put_session l' s' w) <= alive l w).
  { intros s' Hs'. rewrite alive_put. case_decide as He; [| done]. subst. unfold alive.
    rewrite Hl. destruct (Connected s'); [| lia]. by rewrite Hs'. }
  destruct (m s) as [? s'|? s'|? s']; simpl in *;
    specialize (Hle s' Hm); unfold removals, queued in *; simpl in *; lia.
Qed.

Lemma keeps_load l l' a b c : keeps (load (C := C) l') (budget l a b c).
Proof. intros w Hw. unfold load. by destruct (w_sessions w !! l'). Qed.

Lemma keeps_on_metrics {A} (m : M Metrics A) l a b c : keeps (on_metrics (C := C) m) (budget l a b c).
Proof. intros w Hw. unfold on_metrics, zoom. by destruct (m (w_metrics w)). Qed.

Lemma keeps_when (b : bool) (m : M (World C) unit) P : keeps m P -> keeps (when b m) P.
Proof. intros Hm. destruct b; [done | apply keeps_ret]. Qed.

(** One departure uses up the session's connectedness. *)
Lemma chan_send_filter {A} (P : A -> Prop) `{forall x, Decision (P x)} (x : A) c :
  length (filter P (ch_buf (final (chan_send x c)))) <=
  length (filter P (ch_buf c)) + (if decide (P x) then 1 else 0).
Proof.
  unfold chan_send. destruct (ch_closed c); simpl; [lia |].
  destruct (chan_full c); simpl; [lia |].
  rewrite filter_app, filter_cons, filter_nil, length_app. case_decide; simpl; lia.
Qed.

Lemma RemoveSession_final l' w :
  w_sessions (final (RemoveSession l' w)) = w_sessions w /\
  w_disconnector (final (RemoveSession l' w)) = w_disconnector w /\
  forall l, removals l (final (RemoveSession l' w)) <=
            removals l w + (if decide (l' = l) then 1 else 0).
Proof.
  unfold RemoveSession, on_hub, on_register, zoom, removals.
  pose proof (fun l => chan_send_filter
    (fun r => reg_event r = "remove" /\ reg_session r = l)
    (mkHubRegistration "remove" l') (register (w_hub w))) as Hc.
  destruct (chan_send _ _) as [? c|? c|? c]; simpl in *; split_and!; try done;
    intros l; specialize (Hc l); repeat case_decide; tauto || lia.
Qed.

Lemma Enqueue_final l' w :
  w_sessions (final (Enqueue l' w)) = w_sessions w /\
  w_hub (final (Enqueue l' w)) = w_hub w /\
  forall l, queued l (final (Enqueue l' w)) <= queued l w + (if decide (l' = l) then 1 else 0).
Proof.
  unfold Enqueue, queued. destruct (w_disconnector w) as [[q|]|] eqn:Hd;
    [| simpl; rewrite Hd; split_and!; (done || intros; lia) ..].
  pose proof (fun l => chan_send_filter (eq l) l' (dq_disconnect q)) as Hc.
  unfold DisconnectQueue_Enqueue, zoom, bind, lock, get, ret; simpl.
  destruct (dq_mu q); simpl; [split_and!; (done || intros; lia) |].
  destruct (dq_isStopped q); simpl; [split_and!; (done || intros; lia) |].
  destruct (chan_send l' (dq_disconnect q)) as [? c|? c|? c]; simpl in *;
    split_and!; try done; intros l; specialize (Hc l); repeat case_decide;
    congruence || lia.
Qed.

Lemma Node_Disconnect_final l' w :
  w_sessions (final (Node_Disconnect l' w)) = w_sessions w /\
  forall l, removals l (final (Node_Disconnect l' w)) <=
              removals l w + (if decide (l' = l) then 1 else 0) /\
            queued l (final (Node_Disconnect l' w)) <=
              queued l w + (if decide (l' = l) then 1 else 0).
Proof.
  destruct (RemoveSession_final l' w) as (Hs & Hd & Hr). unfold Node_Disconnect, bind.
  assert (Hq : forall l, queued l (final (RemoveSession l' w)) = queued l w).
  { intros l. unfold queued. by rewrite Hd. }
  destruct (RemoveSession l' w) as [u w1|u w1|u w1]; simpl in *.
  2, 3: split; [done |]; intros l; specialize (Hr l); rewrite Hq; split; lia.
  destruct (Enqueue_final l' w1) as (Hs' & Hh & He). split; [congruence |].
  intros l. specialize (Hr l). specialize (He l). rewrite Hq in He.
  unfold removals in *. rewrite Hh. lia.
Qed.

Lemma keeps_disconnectFromNode l l' a b c : keeps (disconnectFromNode (C := C) l') (budget l a b c).
Proof.
  intros w Hw. destruct (w_sessions w !! l') as [s|] eqn:Hl.
  2: { unfold disconnectFromNode, bind, on_session. by rewrite Hl. }
  rewrite <- (put_session_id l' s w) by done. destruct (mu s) eqn:Hmu.
  { unfold disconnectFromNode, bind. rewrite on_session_put. unfold lock_mu, zoom, lock.
    rewrite Hmu. simpl. rewrite set_mu_same, put_session_id by done. done. }
  rewrite disconnectFromNode_put by done. destruct (Connected s) eqn:Hc; simpl.
  2: by rewrite put_session_id.
  set (w1 := put_session l' (set_Connected false s) w).
  assert (Hb : forall A (o : outcome (World C) A),
    final (match o with Ret _ v => ret tt v | Block c v => Block c v | Panic c v => Panic c v end)
    = final o) by (by intros A []).
  unfold bind. rewrite Hb. destruct (Node_Disconnect_final l' w1) as [Hs Hf].
  destruct (Hf l) as [Hr Hq]. unfold budget in *.
  assert (Ha : alive l (final (Node_Disconnect l' w1)) = alive l w1).
  { unfold alive. by rewrite Hs. }
  rewrite Ha. unfold w1 at 2 4 5. rewrite alive_put. simpl.
  change (removals l w1) with (removals l w) in *.
  change (queued l w1) with (queued l w) in *.
  case_decide as He; [subst | lia]. unfold alive in Hw. rewrite Hl, Hc in Hw. lia.
Qed.

(** Code that is put together from such steps stays within the budget. *)
#[local] Hint Resolve keeps_ret keeps_load keeps_on_metrics keeps_disconnectFromNode : departs.
Ltac mono := intros s; unfold lock_mu, unlock_mu, lock_smu, unlock_smu, on_sendQ, on_conn,
  zoom, lock, unlock, modify, conn_call, chan_try_send, chan_close, chan_recv, stop_ping;
  repeat case_match; simpl; intros; done || congruence.
Ltac walk :=
  repeat first
    [ done | solve [auto with departs]
    | apply keeps_on_session; mono
    | apply keeps_when | apply keeps_bind; [| intros] | case_match ].

Lemma keeps_close l l' a b c : keeps (Session_close (C := C) l') (budget l a b c).
Proof. unfold Session_close. walk. Qed.
#[local] Hint Resolve keeps_close : departs.

Lemma keeps_sendFrame_rec depth l l' f a b c :
  keeps (sendFrame_rec (C := C) depth l' f) (budget l a b c).
Proof. revert f. induction depth; intros f; simpl; [by intros w Hw | walk]. Qed.
#[local] Hint Resolve keeps_sendFrame_rec : departs.

Lemma keeps_Disconnect l l' reason code a b c :
  keeps (Session_Disconnect (C := C) l' reason code) (budget l a b c).
Proof. unfold Session_Disconnect, sendClose, sendFrame. walk. Qed.

Lemma keeps_encodeMessage l l' msg a b c : keeps (encodeMessage (C := C) l' msg) (budget l a b c).
Proof. unfold encodeMessage. walk; by intros v Hv. Qed.

Lemma keeps_writeFrame l l' f wait a b c :
  keeps (writeFrameWithDeadline (C := C) l' f wait) (budget l a b c).
Proof. unfold writeFrameWithDeadline. walk. Qed.
#[local] Hint Resolve keeps_Disconnect keeps_encodeMessage keeps_writeFrame : departs.

Lemma keeps_disconnectNow l l' reason code a b c :
  keeps (disconnectNow (C := C) l' reason code) (budget l a b c).
Proof. unfold disconnectNow, writeFrame. walk. Qed.
#[local] Hint Resolve keeps_disconnectNow : departs.

Lemma keeps_SendMessages fuel l l' a b c :
  keeps (SendMessages (C := C) fuel l') (budget l a b c).
Proof. unfold writeFrame. induction fuel; simpl; [by intros w Hw | unfold writeFrame; walk]. Qed.
#[local] Hint Resolve keeps_SendMessages : departs.

Lemma keeps_MergeEnv l l' other a b c : keeps (MergeEnv (C := C) l' other) (budget l a b c).
Proof.
  assert (Hz : forall m : M SessionEnv unit,
    keeps (on_session (C := C) l' (zoom env set_env m)) (budget l a b c)).
  { intros m. apply keeps_on_session. intros s. unfold zoom. by destruct (m (env s)). }
  unfold MergeEnv. walk. apply keeps_each. auto.
Qed.
#[local] Hint Resolve keeps_MergeEnv : departs.

Lemma keeps_run_op l l' op a b c : keeps (run_op l' op) (budget l a b c).
Proof.
  destruct op; simpl; unfold Send, SendJSONTransmission, sendPing, sendFrame, addPing; walk.
Qed.

(** However sends, transmissions, pings, writes and disconnects of any sessions
    are mixed, and whether they return, block or panic, a session is handed to
    the hub for removal and to the disconnect queue at most once in its life:
    no more than once in total after any sequence, and never again once it no
    longer counts as connected. *)
Theorem departs_at_most_once ops l w :
  removals l (after_ops ops w) <= removals l w + alive l w /\
  queued l (after_ops ops w) <= queued l w + alive l w /\
  alive l (after_ops ops w) <= alive l w.
Proof.
  assert (H : forall a b c, budget l a b c w -> budget l a b c (after_ops ops w)).
  { intros a b c. unfold after_ops. revert w. induction ops as [|[l' op] ops IH]; simpl; [done |].
    intros w Hw. apply IH. by apply keeps_run_op. }
  destruct (H (removals l w + alive l w) (queued l w + alive l w) (alive l w)) as (H1 & H2 & H3);
    [done | lia].
Qed.
End departures.

Section delivery.
Context {C : Type} {order : GoRange}.
Implicit Types (l : loc) (w : World C) (s : Session).

(** ** Delivery *)

(** C13. The writing goroutine does what [written] says: it passes the queued frames to
    the connection in order, up to the first close frame or failing write. It
    returns exactly when it meets such a frame or finds the channel closed, and
    then the session is disconnected and closed; otherwise it waits with an empty
    queue and the session as it was. Every frame written is counted as sent, the
    one it stops at as failed. *)
Theorem SendMessages_drains fuel l s w :
  session_ok s -> writer_ready w -> (Connected s = true -> can_leave w) ->
  length (ch_buf (sendQ s)) < fuel ->
  drained l s w (SendMessages fuel l (put_session l s w)).
Proof. apply SendMessages_ok. Qed.

Definition is_data (f : SentFrame) : Prop :=
  FrameType f = TextFrame \/ FrameType f = BinaryFrame.

Lemma written_all ok past frames :
  (forall past e, ok past e = true) -> Forall is_data frames ->
  written ok past frames = (omap frame_event frames, length frames, false).
Proof.
  intros Hok. revert past. induction frames as [|f frames IH]; intros past Hall; [done |].
  inversion Hall as [|? ? Hf Hrest]; subst. simpl. unfold goes_out, frame_event.
  destruct Hf as [-> | ->]; simpl; rewrite Hok; by rewrite IH.
Qed.

(** A client that reads too slowly: when a frame meets a full queue, it is
    dropped, the session leaves the node and no further frame is accepted. The
    frames already queued are still written, in order, before the connection is
    closed. *)
Theorem slow_client_cut_off fuel l f s w :
  session_ok s -> overflows s = true -> Connected s = true -> can_leave w -> writer_ready w ->
  (forall past e, conn_ok (conn s) past e = true) -> Forall is_data (ch_buf (sendQ s)) ->
  length (ch_buf (sendQ s)) < fuel ->
  exists s1 s2 w2,
    sendFrame l f (put_session l s w) = Ret tt (put_session l s1 (departed l w)) /\
    sendCh s1 = false /\ Connected s1 = false /\ closed s1 = true /\
    SendMessages fuel l (put_session l s1 (departed l w)) = Ret tt (put_session l s2 w2) /\
    conn_trace (conn s2) =
      (conn_trace (conn s) ++ omap frame_event (ch_buf (sendQ s)) ++
       [EvClose CloseAbnormalClosure "Write Failed"])%list.
Proof.
  intros Hs Ho Hc Hl Hw Hok Hdata Hfuel.
  assert (Ha : after_send f s =
    closing (set_Connected false (set_sendCh false (set_sendQ (closed_chan (sendQ s)) s)))).
  { unfold overflows in Ho. apply andb_prop in Ho as [H1 H2]. unfold after_send. by rewrite H1, H2. }
  pose proof (after_send_ok f s Hs) as Hs1.
  assert (Hf : conn (after_send f s) = conn s /\ sendCh (after_send f s) = false /\
    Connected (after_send f s) = false /\ closed (after_send f s) = true /\
    sendQ (after_send f s) = closed_chan (sendQ s)).
  { rewrite Ha. unfold closing, stop_ping. open_session s. destruct is_closed, timer; done. }
  destruct Hf as (Hconn & Hch & Hcon & Hcl & Hq).
  pose proof (SendMessages_ok fuel l (after_send f s) (departed l w) Hs1 Hw
    ltac:(by rewrite Hcon) ltac:(by rewrite Hq)) as Hd.
  unfold drained in Hd. rewrite Hq, Hconn in Hd. simpl in Hd. rewrite written_all in Hd by done.
  simpl in Hd. destruct Hd as (s2 & w2 & He & Ht & _).
  exists (after_send f s), s2, w2. rewrite sendFrame_ok, Ho, Hc by done. by split_and!.
Qed.

(** ** Pings *)

(** A ping of an open session writes one frame, due within half the ping
    interval. When the write succeeds the timer is armed again, otherwise the
    session is disconnected. A closed session is left alone. *)
Theorem sendPing_spec l now s w :
  session_ok s -> encoder s = JSON -> registered metricsDataSent w ->
  (Connected s = true -> can_leave w) ->
  sendPing l now (put_session l s w) =
    let frame := text_frame (marshal (message_document
                   (EPing (newPingMessage (pingTimestampPrecision s) now)))) in
    let e := EvWrite (Payload frame) (Z.quot (pingInterval s) 2) in
    let w1 := bump (Counter_Add (payload_size frame)) metricsDataSent w in
    if closed s then Ret tt (put_session l s w)
    else if conn_ok (conn s) (conn_trace (conn s)) e
    then Ret tt (put_session l (set_pingTimer (Some true) (wrote e s)) w1)
    else Ret tt (put_session l (disconnected "Ping failed" CloseAbnormalClosure (wrote e s))
                   (if Connected s then departed l w1 else w1)).
Proof.
  intros Hs He Hreg Hl. pose proof Hs as [Hmu _ _ _]. unfold sendPing. step.
  destruct (closed s); [done |]. unfold encodeMessage.
  erewrite bind_ret_eq by (erewrite bind_ret_eq by apply load_put; reflexivity).
  rewrite He. simpl (Encode JSON _). unfold JSON_Encode. cbv zeta.
  set (frame := text_frame _). erewrite bind_ret_eq by (by apply writeFrameWithDeadline_ok).
  unfold frame_written. simpl (_ =? _)%Z. unfold write_err. cbn [fst snd].
  destruct (conn_ok (conn s) (conn_trace (conn s)) _) eqn:Hok.
  - unfold addPing. by rewrite modify_put.
  - rewrite Session_Disconnect_ok; [done | by apply set_conn_ok | exact Hl].
Qed.

(** ** Malformed input *)

Lemma ReadMessage_malformed HandleCommand l message e s w :
  Decode (encoder s) message = Err e ->
  registered metricsDataReceived w -> registered metricsFailedCommandReceived w ->
  ReadMessage HandleCommand l message (put_session l s w) =
  Ret (Some e) (put_session l s
    (bump (Counter_Add 1) metricsFailedCommandReceived
      (bump (Counter_Add (Z.of_nat (String.length message))) metricsDataReceived w))).
Proof.
  intros He H1 H2. unfold ReadMessage. erewrite bind_ret_eq by (by apply on_counter_ok).
  change (bump ?g ?n (put_session l ?x ?v)) with (put_session l x (bump g n v)).
  step. rewrite He. by erewrite bind_ret_eq by (by apply counter_inc_ok, registered_bump).
Qed.

(** A message the decoder rejects ends the reading loop: it is counted, the
    callback runs, nothing more is read, and the session itself stays as it was.
    In particular it is not disconnected. *)
Theorem Serve_stops_at_malformed HandleCommand callback l message reads e s w :
  Decode (encoder s) message = Err e ->
  registered metricsDataReceived w -> registered metricsFailedCommandReceived w ->
  Serve HandleCommand callback l (inl message :: reads) (put_session l s w) =
  callback (put_session l s
    (bump (Counter_Add 1) metricsFailedCommandReceived
      (bump (Counter_Add (Z.of_nat (String.length message))) metricsDataReceived w))).
Proof.
  intros He H1 H2. simpl. by erewrite bind_ret_eq by (by apply ReadMessage_malformed).
Qed.

(** ** No operation gets stuck *)

(** A node between operations: it takes departing sessions, its metrics are
    registered, and every session is in order. *)
Definition node_ready w : Prop :=
  can_leave w /\ writer_ready w /\ map_Forall (fun _ s => session_ok s) (w_sessions w).

(** How an operation ends: it returns, or waits for more frames to write. *)
Definition ends (op : session_op) (out : outcome (World C) unit) (w : World C) : Prop :=
  out = Ret tt w \/ exists fuel, op = OpSendMessages fuel /\ out = Block "chan receive" w.

Lemma sessions_ok_put l s w :
  session_ok s -> map_Forall (fun _ s => session_ok s) (w_sessions w) ->
  map_Forall (fun _ s => session_ok s) (w_sessions (put_session l s w)).
Proof. intros. by apply map_Forall_insert_2. Qed.

Lemma encodeMessage_returns l msg s w :
  exists r msg', encodeMessage l msg (put_session l s w) = Ret (r, msg') (put_session l s w).
Proof.
  unfold encodeMessage. step. destruct msg; try (by do 2 eexists).
  unfold Fetch. repeat case_match; simplify_eq; by do 2 eexists.
Qed.

Lemma MergeEnv_returns l other s w :
  smu s = false -> env_ok (env s) ->
  exists e, MergeEnv l other (put_session l s w) = Ret tt (put_session l (set_env e s) w).
Proof.
  intros Hsmu Henv. unfold MergeEnv. step. set (s1 := set_smu true s).
  assert (H1 : exists e, env_ok e /\
    match ConnectionState other with
    | Some m => on_session l (zoom env set_env (MergeConnectionState m))
    | None => ret tt
    end (put_session l s1 w) = Ret tt (put_session l (set_env e s1) w)).
  { destruct Henv as [[m Hm] [cs Hcs]]. destruct (ConnectionState other) as [o|].
    - exists (set_ConnectionState (merged m o) (env s)). split; [split; simpl; eauto |].
      rewrite on_session_put. unfold zoom. simpl env. by rewrite (MergeConnectionState_ok _ m).
    - exists (env s). split; [split; eauto | by destruct s]. }
  destruct H1 as (e1 & He1 & Heq1). erewrite bind_ret_eq by exact Heq1.
  assert (H2 : exists e, match ChannelStates other with
    | Some states => each (fun kv => on_session l
        (zoom env set_env (MergeChannelState kv.1 kv.2))) (range states)
    | None => ret tt
    end (put_session l (set_env e1 s1) w) = Ret tt (put_session l (set_env e s1) w)).
  { destruct (ChannelStates other) as [states|]; [| by exists e1].
    generalize (range states) as kvs. intros kvs. clear Heq1. revert e1 He1.
    induction kvs as [|kv kvs IH]; intros e1 [Hc [cs Hcs]]; [by exists e1 |].
    simpl. unfold bind. rewrite on_session_put. unfold zoom. simpl env.
    rewrite (MergeChannelState_ok _ cs) by done.
    destruct (IH (set_ChannelStates (<[kv.1 := merged (default ∅ (cs !! kv.1)) kv.2]> cs) e1))
      as [e He]; [by split; simpl; eauto |]. by exists e. }
  destruct H2 as (e2 & Heq2). erewrite bind_ret_eq by exact Heq2.
  rewrite unlock_smu_put by done. exists e2. open_session s. done.
Qed.

(** An operation ended, with the metrics in place and every session in order. *)
Definition settled (op : session_op) (out : outcome (World C) unit) : Prop :=
  exists w', ends op out w' /\ writer_ready w' /\
    map_Forall (fun _ s => session_ok s) (w_sessions w').

Lemma settled_put op l s w :
  writer_ready w -> map_Forall (fun _ s => session_ok s) (w_sessions w) -> session_ok s ->
  settled op (Ret tt (put_session l s w)).
Proof. intros. eexists. split; [by left |]. split; [done | by apply sessions_ok_put]. Qed.

Lemma settled_departed op l s w (b : bool) :
  writer_ready w -> map_Forall (fun _ s => session_ok s) (w_sessions w) -> session_ok s ->
  settled op (Ret tt (put_session l s (if b then departed l w else w))).
Proof. intros. destruct b; by apply settled_put. Qed.

Lemma sendFrame_settled op l f s w :
  node_ready w -> session_ok s -> settled op (sendFrame l f (put_session l s w)).
Proof.
  intros (Hl & Hr & Hall) Hs. rewrite sendFrame_ok by done.
  apply settled_departed; by try apply after_send_ok.
Qed.

Lemma Send_settled op l msg s w :
  node_ready w -> session_ok s -> settled op (bind (Send l msg) (fun _ => ret tt) (put_session l s w)).
Proof.
  intros Hw Hs. unfold Send. destruct (encodeMessage_returns l msg s w) as (r & msg' & He).
  unfold bind. rewrite He. destruct Hw as (Hl & Hr & Hall).
  destruct r as [[f|]|]; [| by apply settled_put ..].
  destruct (sendFrame_settled op l f s w) as (w' & [-> | (fuel & Hop & ->)] & H); [done.. | |];
    eexists; (split; [| exact H]); [by left | right; eauto].
Qed.

Lemma disconnectNow_settled op l reason code s w :
  node_ready w -> session_ok s -> settled op (disconnectNow l reason code (put_session l s w)).
Proof.
  intros (Hl & Hr & Hall) Hs. pose proof Hr as [Hd _]. rewrite disconnectNow_ok by done.
  apply settled_put.
  - apply writer_ready_bump. by destruct (Connected s).
  - by destruct (Connected s).
  - by apply now_disconnected_ok.
Qed.

Lemma SendMessages_settled fuel l s w :
  node_ready w -> session_ok s -> length (ch_buf (sendQ s)) < fuel ->
  settled (OpSendMessages fuel) (SendMessages fuel l (put_session l s w)).
Proof.
  intros (Hl & Hr & Hall) Hs Hf. pose proof (SendMessages_ok fuel l s w Hs Hr (fun _ => Hl) Hf) as Hd.
  unfold drained in Hd. destruct (written _ _ _) as [[evs n] failed].
  destruct Hd as (s' & w' & -> & _ & _ & (Hok & Hw & Hr') & _).
  exists (put_session l s' w').
  split; [| split; [done | apply sessions_ok_put; [done | by rewrite Hw]]].
  destruct (failed || _); [by left | right; eauto].
Qed.

Lemma frame_written_ok f wait s : session_ok s -> session_ok (frame_written f wait s).2.
Proof. intros Hs. unfold frame_written. repeat case_match; by try apply set_conn_ok. Qed.

Lemma sendPing_settled op l now s w :
  node_ready w -> session_ok s -> settled op (sendPing l now (put_session l s w)).
Proof.
  intros (Hl & Hr & Hall) Hs. pose proof Hr as [Hd _]. unfold sendPing. step.
  destruct (closed s); [by apply settled_put |].
  destruct (encodeMessage_returns l (EPing (newPingMessage (pingTimestampPrecision s) now)) s w)
    as (r & msg' & He). erewrite bind_ret_eq by exact He.
  assert (Hend : forall err s1 w1, session_ok s1 -> can_leave w1 -> writer_ready w1 ->
    map_Forall (fun _ s => session_ok s) (w_sessions w1) ->
    settled op (match err : option error with
                | Some _ => Session_Disconnect l "Ping failed" CloseAbnormalClosure
                | None => addPing l
                end (put_session l s1 w1))).
  { intros err s1 w1 Hs1 Hl1 Hr1 Hall1. destruct err.
    - rewrite Session_Disconnect_ok by done. apply settled_departed; [done.. |].
      by apply closing_ok, after_send_ok, set_Connected_ok.
    - unfold addPing. rewrite modify_put. apply settled_put; [done.. |]. by destruct Hs1; split. }
  destruct r as [[f|]|]; [| by erewrite bind_ret_eq by reflexivity; apply Hend ..].
  erewrite bind_ret_eq by (apply writeFrameWithDeadline_ok; [by destruct Hs | done]).
  apply Hend; [by apply frame_written_ok | done | by apply writer_ready_bump | done].
Qed.

(** What an operation needs of the session: room in the fuel for what is queued,
    and state maps to merge into. *)
Definition op_enabled (op : session_op) s : Prop :=
  match op with
  | OpSendMessages fuel => length (ch_buf (sendQ s)) < fuel
  | OpMergeEnv _ => env_ok (env s)
  | _ => True
  end.

(** No operation on a session deadlocks, panics or leaves a lock held or a
    channel half closed: on a node that is in order and takes departing sessions
    each returns, or, for the writing goroutine, waits for the next frame, and
    every session of the node is in order afterwards. *)
Theorem operations_leave_sessions_ok l op s w :
  node_ready w -> w_sessions w !! l = Some s -> op_enabled op s ->
  settled op (run_op l op w).
Proof.
  intros Hw Hs Hop. pose proof Hw as (Hl & Hr & Hall). pose proof (Hall _ _ Hs) as Hok.
  rewrite <- (put_session_id l s w) by done. destruct op; cbn [run_op].
  - by apply Send_settled.
  - unfold SendJSONTransmission. step.
    destruct (EncodeTransmission _ _) as [[f|]|]; [by apply sendFrame_settled | by apply settled_put ..].
  - rewrite Session_Disconnect_ok by done. apply settled_departed; [done.. |].
    by apply closing_ok, after_send_ok, set_Connected_ok.
  - by apply disconnectNow_settled.
  - by apply SendMessages_settled.
  - by apply sendPing_settled.
  - destruct (MergeEnv_returns l other s w) as [e He]; [by destruct Hok | done |].
    rewrite He. apply settled_put; [done.. |]. by destruct Hok; split.
Qed.
End delivery.

(** ** A concrete node *)

(** A node with one connected session, whose connection accepts everything and
    whose queue holds [frames]. *)
Definition sample_node : World unit :=
  set_disconnector (Some DNoop)
    (node_with_hub tt NewMetrics NewNodeConfig (hub_with_pool (mkPool 16 8 []))).
Definition sample_conn : Conn := mkConn [] (fun _ _ => true).
Definition sample_session (frames : list SentFrame) (cap : nat) : Session :=
  set_Connected true (set_sendQ (mkChan frames cap false)
    (new_session NewNodeConfig sample_conn "/cable" (Some ∅) "sid")).

Lemma sample_session_ok frames cap : length frames <= cap -> session_ok (sample_session frames cap).
Proof. by split. Qed.

Lemma sample_can_leave : can_leave sample_node.
Proof. done. Qed.

Lemma sample_writer_ready : writer_ready sample_node.
Proof. repeat split; vm_compute; eauto. Qed.

Lemma sample_node_ready l frames cap :
  length frames <= cap -> node_ready (put_session l (sample_session frames cap) sample_node).
Proof.
  intros. split; [apply sample_can_leave |]. split; [apply sample_writer_ready |].
  apply sessions_ok_put; [by apply sample_session_ok | by intros ? ? ?].
Qed.

Lemma SendMessages_drains_witness :
  exists s' w',
    SendMessages 3 1 (put_session 1
      (sample_session [text_frame "hi"; close_frame "bye" 1000] 256) sample_node) =
      Ret tt (put_session 1 s' w') /\
    conn_trace (conn s') =
      [EvWrite "hi" writeWait; EvClose 1000 "bye"; EvClose CloseAbnormalClosure "Write Failed"].
Proof.
  destruct (SendMessages_drains 3 1
    (sample_session [text_frame "hi"; close_frame "bye" 1000] 256) sample_node
    (sample_session_ok [text_frame "hi"; close_frame "bye" 1000] 256 ltac:(simpl; lia))
    sample_writer_ready (fun _ => sample_can_leave) ltac:(simpl; lia))
    as (s' & w' & Hrun & Htrace & _).
  exists s', w'. split; [exact Hrun | exact Htrace].
Defined.

Lemma slow_client_witness :
  exists s1 s2 w2,
    sendFrame 1 (text_frame "c")
      (put_session 1 (sample_session [text_frame "a"; text_frame "b"] 2) sample_node) =
      Ret tt (put_session 1 s1 (departed 1 sample_node)) /\
    SendMessages 3 1 (put_session 1 s1 (departed 1 sample_node)) = Ret tt (put_session 1 s2 w2) /\
    conn_trace (conn s2) =
      [EvWrite "a" writeWait; EvWrite "b" writeWait; EvClose CloseAbnormalClosure "Write Failed"].
Proof.
  destruct (slow_client_cut_off 3 1 (text_frame "c")
    (sample_session [text_frame "a"; text_frame "b"] 2) sample_node
    (sample_session_ok [text_frame "a"; text_frame "b"] 2 ltac:(simpl; lia)) eq_refl eq_refl
    sample_can_leave sample_writer_ready (fun _ _ => eq_refl)
    ltac:(repeat constructor) ltac:(simpl; lia))
    as (s1 & s2 & w2 & Hsend & _ & _ & _ & Hrun & Htrace).
  exists s1, s2, w2. split; [exact Hsend |]. split; [exact Hrun | exact Htrace].
Defined.

Lemma sendPing_spec_witness :
  exists w', sendPing 1 1700000000123456789
    (put_session 1 (sample_session [] 256) sample_node) =
  Ret tt (put_session 1 (set_pingTimer (Some true)
    (wrote (EvWrite (marshal (JObj [("type", JStr "ping"); ("message", JNum "1700000000")]))
              (seconds 3 / 2)) (sample_session [] 256))) w').
Proof.
  eexists. rewrite (sendPing_spec 1 1700000000123456789 (sample_session [] 256) sample_node
    (sample_session_ok [] 256 ltac:(simpl; lia)) eq_refl
    ltac:(destruct sample_writer_ready as [Hd _]; exact Hd) (fun _ => sample_can_leave)).
  reflexivity.
Defined.

Lemma Serve_malformed_witness :
  exists w', Serve (fun _ _ => ret None) (ret tt) 1 [inl "{"; inl "{}"]
    (put_session 1 (sample_session [] 256) sample_node) =
  Ret tt (put_session 1 (sample_session [] 256) w').
Proof.
  eexists. rewrite (Serve_stops_at_malformed (fun _ _ => ret None) (ret tt) 1 "{" [inl "{}"]
    (Errorf "json: cannot unmarshal") (sample_session [] 256) sample_node
    ltac:(vm_compute; reflexivity) ltac:(vm_compute; eauto) ltac:(vm_compute; eauto)).
  reflexivity.
Defined.

Lemma operations_leave_sessions_ok_witness :
  @settled unit (OpDisconnect "bye" 1000)
    (@run_op unit canonical_order 1 (OpDisconnect "bye" 1000)
       (put_session 1 (sample_session [text_frame "a"] 256) sample_node)).
Proof.
  apply (@operations_leave_sessions_ok unit canonical_order 1 (OpDisconnect "bye" 1000)
    (sample_session [text_frame "a"] 256)).
  - apply sample_node_ready. simpl. lia.
  - reflexivity.
  - exact I.
Defined.
