(* ===== verification/Hub.v ===== *)
(** * The hub

    The registry of sessions and stream subscriptions ([src/node/hub.go]): the
    requests other goroutines queue for it, the loop of [Run], the lookups, and the
    tasks it hands to its goroutine pool. *)

From Stdlib Require Import ZArith Lia Ascii String.
From stdpp Require Import base gmap strings list fin_maps.
From S2P Require Import Prelude Json Common Metrics Encoders World Session.

Local Open Scope string_scope.

(** ** The maps of the hub *)

Section hub.
Context {order : GoRange}.

(** A map object that is not in use yet. *)
Definition fresh_idmap (h : Hub) : nat := map_fold (fun k _ n => Nat.max (S k) n) O (idmaps h).

(** [addSession], for a session with the given [UID] and [Identifiers]. *)
Definition hub_addSession (l : loc) (uid ids : string) : M Hub unit :=
  on_sessionsMu rw_lock ;;
  modify (fun h => set_sessions (<[uid := l]> (sessions h)) h) ;;
  modify (fun h =>
    match identifiers h !! ids with
    | Some _ => h
    | None =>
        let o := fresh_idmap h in
        set_idmaps (<[o := ∅]> (idmaps h)) (set_identifiers (<[ids := o]> (identifiers h)) h)
    end) ;;
  modify (fun h =>
    match identifiers h !! ids with
    | Some o => set_idmaps (alter (insert uid true) o (idmaps h)) h
    | None => h
    end) ;;
  on_sessionsMu rw_unlock.

(** The body of the loop of [unsubscribeSessionFromChannel]: deleting from a nil
    map does nothing, and emptied maps are removed. *)
Definition drop_stream (sid identifier stream : string)
    (st : gmap string (gmap string (gmap string bool))) :=
  match st !! stream with
  | None => st
  | Some by_sid =>
      let by_sid :=
        match by_sid !! sid with
        | None => by_sid
        | Some ids =>
            let ids := delete identifier ids in
            if decide (ids = ∅) then delete sid by_sid else <[sid := ids]> by_sid
        end in
      if decide (by_sid = ∅) then delete stream st else <[stream := by_sid]> st
  end.

Definition unsubscribeSessionFromChannel (sid identifier : string) (locked : bool) : M Hub unit :=
  when (negb locked) (on_streamsMu rw_lock) ;;
  modify (fun h =>
    match sessionsStreams h !! sid with
    | None => h
    | Some by_id =>
        set_streams
          (foldl (fun st stream => drop_stream sid identifier stream st) (streams h)
             (default [] (by_id !! identifier))) h
    end) ;;
  when (negb locked) (on_streamsMu rw_unlock).

Definition unsubscribeSessionFromAllChannels (sid : string) : M Hub unit :=
  on_streamsMu rw_lock ;;
  let! h := get in
  each (fun channel => unsubscribeSessionFromChannel sid channel true)
    (range_keys (default ∅ (sessionsStreams h !! sid))) ;;
  modify (fun h => set_sessionsStreams (delete sid (sessionsStreams h)) h) ;;
  on_streamsMu rw_unlock.

(** [removeSession], for a session with the given [UID] and [Identifiers]. *)
Definition hub_removeSession (uid ids : string) : M Hub unit :=
  on_sessionsMu rw_rlock ;;
  let! h := get in
  match sessions h !! uid with
  | None => on_sessionsMu rw_runlock
  | Some _ =>
      on_sessionsMu rw_runlock ;;
      unsubscribeSessionFromAllChannels uid ;;
      on_sessionsMu rw_lock ;;
      modify (fun h => set_sessions (delete uid (sessions h)) h) ;;
      modify (fun h =>
        match identifiers h !! ids with
        | None => h
        | Some o => set_idmaps (alter (delete uid) o (idmaps h)) h
        end) ;;
      modify (fun h =>
        match identifiers h !! ids with
        | None => h
        | Some o =>
            if decide (default ∅ (idmaps h !! o) = ∅)
            then set_identifiers (delete ids (identifiers h)) h else h
        end) ;;
      on_sessionsMu rw_unlock
  end.

Definition subscribeSession (sid stream identifier : string) : M Hub unit :=
  on_streamsMu rw_lock ;;
  modify (fun h =>
    let by_sid := default ∅ (streams h !! stream) in
    let ids := default ∅ (by_sid !! sid) in
    set_streams (<[stream := <[sid := <[identifier := true]> ids]> by_sid]> (streams h)) h) ;;
  modify (fun h =>
    let by_id := default ∅ (sessionsStreams h !! sid) in
    let listed := default [] (by_id !! identifier) in
    set_sessionsStreams
      (<[sid := <[identifier := (listed ++ [stream])%list]> by_id]> (sessionsStreams h)) h) ;;
  on_streamsMu rw_unlock.

Definition unsubscribeSession (sid stream identifier : string) : M Hub unit :=
  on_streamsMu rw_rlock ;;
  let! h := get in
  match streams h !! stream with
  | None => on_streamsMu rw_runlock
  | Some by_sid =>
      match by_sid !! sid with
      | None => on_streamsMu rw_runlock
      | Some ids =>
          match ids !! identifier with
          | None => on_streamsMu rw_runlock
          | Some _ =>
              on_streamsMu rw_runlock ;;
              on_streamsMu rw_lock ;;
              modify (fun h =>
                set_streams (alter (alter (delete identifier) sid) stream (streams h)) h) ;;
              on_streamsMu rw_unlock
          end
      end
  end.

(** ** Counting and looking up *)

Definition read_sessions {A} (f : Hub -> A) : M Hub A :=
  on_sessionsMu rw_rlock ;;
  let! h := get in
  on_sessionsMu rw_runlock ;;
  ret (f h).

(** [Size], [UniqSize] and [StreamsSize] *)
Definition Hub_Size : M Hub Z := read_sessions (fun h => Z.of_nat (size (sessions h))).
Definition UniqSize : M Hub Z := read_sessions (fun h => Z.of_nat (size (identifiers h))).
Definition StreamsSize : M Hub Z :=
  on_streamsMu rw_rlock ;;
  let! h := get in
  on_streamsMu rw_runlock ;;
  ret (Z.of_nat (size (streams h))).

Definition first_registered (h : Hub) (ids : gmap string bool) : option loc :=
  head (omap (fun id => sessions h !! id) (range_keys ids)).

Definition findByIdentifier (id : string) : M Hub (option loc) :=
  read_sessions (fun h =>
    match identifiers h !! id with
    | None => None
    | Some o => first_registered h (default ∅ (idmaps h !! o))
    end).

(** ** Queueing requests *)

Definition AddSubscription (sid identifier stream : string) : M Hub unit :=
  on_subscribe (chan_send (mkHubSubscription "add" sid stream identifier)).
Definition RemoveSubscription (sid identifier stream : string) : M Hub unit :=
  on_subscribe (chan_send (mkHubSubscription "remove" sid stream identifier)).
Definition RemoveAllSubscriptions (sid identifier : string) : M Hub unit :=
  on_subscribe (chan_send (mkHubSubscription "removeAll" sid EmptyString identifier)).
Definition Hub_Broadcast (stream data : string) : M Hub unit :=
  on_broadcast (chan_send (mkStreamMessage stream data)).
Definition BroadcastMessage (msg : StreamMessage) : M Hub unit := on_broadcast (chan_send msg).
Definition Hub_RemoteDisconnect (msg : RemoteDisconnectMessage) : M Hub unit :=
  on_disconnect (chan_send msg).

(** [Shutdown] hands over its signal on an unbuffered channel and waits for
    [Run] to return, so it waits for ever when [Run] is not there to take it. *)
Definition Hub_Shutdown : M Hub unit := fun h =>
  if running h then Ret tt (set_running false h) else Block "chan send" h.

(** ** The pool *)

Definition Schedule (t : task) : M Hub unit := fun h =>
  let p := pool h in
  if bool_decide (length (pool_tasks p) < pool_size p + pool_queue p)
  then Ret tt (set_pool (mkPool (pool_size p) (pool_queue p) (pool_tasks p ++ [t])%list) h)
  else Block "GoPool.Schedule" h.

Definition remoteDisconnectReason : string := "remote".

Definition newDisconnectMessage (reason : string) (reconnect : bool) : DisconnectMessage :=
  mkDisconnect "disconnect" reason reconnect.

Definition broadcastToStream (stream data : string) : M Hub unit :=
  on_streamsMu rw_rlock ;;
  let! h := get in
  match streams h !! stream with
  | None => on_streamsMu rw_runlock
  | Some _ => on_streamsMu rw_runlock ;; Schedule (TaskBroadcast stream data)
  end.

Definition disconnectSessions (identifier : string) (reconnect : bool) : M Hub unit :=
  let! ids := read_sessions (fun h => identifiers h !! identifier) in
  match ids with
  | None => ret tt
  | Some o => Schedule (TaskDisconnect o (newDisconnectMessage remoteDisconnectReason reconnect))
  end.

(** The failure of [json.Unmarshal] is ignored, which leaves the message nil. *)
Definition buildMessage (data identifier : string) : EncodedMessage :=
  let msg := match scan data with Some v => to_interface v | None => JNull end in
  NewCachedEncodedMessage (EReply (mkReply EmptyString identifier msg)).

Definition streamSessionsSnapshot (src : gmap string (gmap string bool)) : gmap string (list string) :=
  (fun ids => range_keys ids) <$> src.
End hub.

(** ** Sessions and tasks *)

Section hub_world.
Context {C : Type} {order : GoRange}.
Implicit Types (l : loc) (w : World C).

Definition addSession l : M (World C) unit :=
  let! s := load l in
  on_hub (hub_addSession l (UID s) (Identifiers s)).

Definition removeSession l : M (World C) unit :=
  let! s := load l in
  on_hub (hub_removeSession (UID s) (Identifiers s)).

(** The messages built so far for a broadcast, by identifier. *)
Abbreviation buffer := (gmap string EncodedMessage).

(** The inner loop of a broadcast: one message for each identifier of a session.
    The message, with what its cache has learned, is kept for the next session. *)
Fixpoint send_all (data : string) l (ids : list string) (buf : buffer) : M (World C) buffer :=
  match ids with
  | [] => ret buf
  | id :: ids =>
      let bdata := match buf !! id with Some msg => msg | None => buildMessage data id end in
      let! bdata' := Send l bdata in
      send_all data l ids (<[id := bdata']> buf)
  end.

Fixpoint broadcast_loop (data : string) (targets : list (string * list string)) (buf : buffer)
    : M (World C) unit :=
  match targets with
  | [] => ret tt
  | (sid, ids) :: targets =>
      let! session := on_hub (read_sessions (fun h => sessions h !! sid)) in
      match session with
      | None => broadcast_loop data targets buf
      | Some l =>
          let! buf' := send_all data l ids buf in
          broadcast_loop data targets buf'
      end
  end.

Definition run_broadcast (stream data : string) : M (World C) unit :=
  on_hub (on_streamsMu rw_rlock) ;;
  let! w := get in
  let streamSessions := streamSessionsSnapshot (default ∅ (streams (w_hub w) !! stream)) in
  on_hub (on_streamsMu rw_runlock) ;;
  broadcast_loop data (range streamSessions) ∅.

(** The disconnection task reads the live map of the identifier, with the
    registry locked for reading throughout. *)
Definition run_disconnect (ids : nat) (msg : DisconnectMessage) : M (World C) unit :=
  on_hub (on_sessionsMu rw_rlock) ;;
  let! w := get in
  each (fun id =>
          let! w := get in
          match sessions (w_hub w) !! id with
          | None => ret tt
          | Some l =>
              Send l (EDisconnect msg) ;;
              Session_Disconnect l "Closed remotely" CloseNormalClosure
          end)
    (range_keys (default ∅ (idmaps (w_hub w) !! ids))) ;;
  on_hub (on_sessionsMu rw_runlock).

Definition run_task (t : task) : M (World C) unit :=
  match t with
  | TaskBroadcast stream data => run_broadcast stream data
  | TaskDisconnect ids msg => run_disconnect ids msg
  end.

(** A worker of the pool performs the accepted task at position [n]; the task
    counts as accepted until it is done. *)
Definition worker (n : nat) : M (World C) unit :=
  let! w := get in
  match pool_tasks (pool (w_hub w)) !! n with
  | None => block "chan receive"
  | Some t =>
      run_task t ;;
      on_hub (modify (fun h =>
        set_pool (mkPool (pool_size (pool h)) (pool_queue (pool h))
                    (delete n (pool_tasks (pool h)))) h))
  end.

(** ** The loop *)

(** The cases of the select in [Run]; Go picks any that is ready. *)
Inductive hub_case : Type :=
| CaseRegister
| CaseSubscribe
| CaseBroadcast
| CaseDisconnect.

(** A receive from one of the hub's channels, none of which is ever closed; a
    receive from a closed channel would give a zero value. *)
Definition receive {A} (on : M (Chan A) (option A) -> M Hub (option A)) (k : A -> M (World C) unit)
    : M (World C) unit :=
  let! m := on_hub (on chan_recv) in
  match m with
  | Some x => k x
  | None => panic "receive from a closed channel"
  end.

Definition handle_registration (r : HubRegistration) : M (World C) unit :=
  if String.eqb (reg_event r) "add" then addSession (reg_session r)
  else removeSession (reg_session r).

Definition handle_subscription (subinfo : HubSubscription) : M Hub unit :=
  if String.eqb (sub_event subinfo) "add" then
    subscribeSession (sub_session subinfo) (sub_stream subinfo) (sub_identifier subinfo)
  else if String.eqb (sub_event subinfo) "removeAll" then
    unsubscribeSessionFromChannel (sub_session subinfo) (sub_identifier subinfo) false
  else unsubscribeSession (sub_session subinfo) (sub_stream subinfo) (sub_identifier subinfo).

(** One iteration of [Run] that takes the given case; the case of the shutdown
    channel is part of [Hub_Shutdown]. *)
Definition Run (c : hub_case) : M (World C) unit :=
  let! w := get in
  if negb (running (w_hub w)) then block "Run has returned"
  else
    match c with
    | CaseRegister => receive on_register handle_registration
    | CaseSubscribe => receive on_subscribe (fun s => on_hub (handle_subscription s))
    | CaseBroadcast =>
        receive on_broadcast (fun m => on_hub (broadcastToStream (Stream m) (Data m)))
    | CaseDisconnect =>
        receive on_disconnect (fun c => on_hub (disconnectSessions (rd_Identifier c) (rd_Reconnect c)))
    end.
End hub_world.
