(* ===== verification/SessionRace.v ===== *)
(** * Sessions under concurrency

    A session is used by several goroutines at once: the one that writes its queue, the one
    that reads its connection, the timer of its pings, the workers of the hub and the
    goroutine that authenticates it. Here the operations of [src/node/session.go] are
    sequences of atomic actions (taking or releasing [mu], reading or writing the fields,
    one operation on a channel, one call of the connection), and the theorems hold for
    every interleaving of any number of them. *)

From Stdlib Require Import ZArith Lia Ascii String.
From stdpp Require Import base gmap strings list fin_maps.
From S2P Require Import Prelude Threads Json Common Metrics Encoders World Session SessionSafety Hub.

Local Open Scope string_scope.
Local Open Scope proc_scope.

Section operations.
Context {C : Type}.
Implicit Types (l : loc) (w : World C).

(** ** The operations, action by action *)

Definition p_lock l : proc (World C) unit := act (on_session l lock_mu).
Definition p_unlock l : proc (World C) unit := act (on_session l unlock_mu).
Definition p_set l (f : Session -> Session) : proc (World C) unit := act (on_session l (modify f)).

(** The deferred call of [Node.Disconnect] comes after the unlock. *)
Definition p_Disconnect_node l : proc (World C) unit :=
  act (RemoveSession l) ;>> do! _ := act (Enqueue l) in Pure tt.

Definition p_disconnectFromNode l : proc (World C) unit :=
  p_lock l ;>>
  do! s := act (load l) in
  p_set l (set_Connected false) ;>>
  p_unlock l ;>>
  if Connected s then p_Disconnect_node l else Pure tt.

Definition p_close l : proc (World C) unit :=
  p_lock l ;>>
  do! s := act (load l) in
  if closed s then p_unlock l
  else p_set l (set_closed true) ;>> p_unlock l ;>> p_set l stop_ping.

Fixpoint p_sendFrame_rec (depth : nat) l (message : SentFrame) : proc (World C) unit :=
  match depth with
  | O => act (block "call depth")
  | S depth =>
      p_lock l ;>>
      do! s := act (load l) in
      if negb (sendCh s) then p_unlock l
      else
        do! sent := act (on_session l (on_sendQ (chan_try_send message))) in
        if sent then p_unlock l
        else
          act (on_session l (on_sendQ chan_close)) ;>>
          p_set l (set_sendCh false) ;>>
          p_unlock l ;>>
          p_disconnectFromNode l ;>>
          p_sendFrame_rec depth l (close_frame "Write failed" CloseAbnormalClosure) ;>>
          p_close l
  end.

Definition p_sendFrame : loc -> SentFrame -> proc (World C) unit := p_sendFrame_rec 2.

Definition p_Disconnect l (reason : string) (code : Z) : proc (World C) unit :=
  p_disconnectFromNode l ;>> p_sendFrame l (close_frame reason code) ;>> p_close l.

Definition p_Send l (msg : EncodedMessage) : proc (World C) unit :=
  do! (b, _) := act (encodeMessage l msg) in
  match b with
  | Ok (Some f) => p_sendFrame l f
  | _ => Pure tt
  end.

Definition p_SendJSONTransmission l (msg : string) : proc (World C) unit :=
  do! s := act (load l) in
  match EncodeTransmission (encoder s) msg with
  | Ok (Some f) => p_sendFrame l f
  | _ => Pure tt
  end.

(** A call of the connection with [mu] held. *)
Definition p_write_locked l (e : ConnEvent) : proc (World C) (option error) :=
  p_lock l ;>> do! err := act (on_session l (on_conn e)) in p_unlock l ;>> Pure err.

Definition p_writeFrameWithDeadline l (message : SentFrame) (wait : Z)
    : proc (World C) (option error) :=
  act (on_metrics (counter_add (Z.of_nat (String.length (Payload message))) metricsDataSent)) ;>>
  if (FrameType message =? TextFrame)%Z then p_write_locked l (EvWrite (Payload message) wait)
  else if (FrameType message =? BinaryFrame)%Z then
    p_write_locked l (EvWriteBinary (Payload message) wait)
  else if (FrameType message =? CloseFrame)%Z then
    do! _ := act (on_session l (on_conn (EvClose (CloseCode message) (CloseReason message)))) in
    Pure (Some (Errorf "Closed"))
  else Pure (Some (Errorf "Unknown frame type")).

Definition p_disconnectNow l (reason : string) (code : Z) : proc (World C) unit :=
  p_disconnectFromNode l ;>>
  do! _ := p_writeFrameWithDeadline l (close_frame reason code) writeWait in
  p_lock l ;>>
  do! s := act (load l) in
  (if sendCh s then act (on_session l (on_sendQ chan_close)) ;>> p_set l (set_sendCh false)
   else Pure tt) ;>>
  p_unlock l ;>>
  p_close l.

(** The loop of [SendMessages] over its channel, for at most [fuel] receptions. *)
Fixpoint p_send_loop (fuel : nat) l : proc (World C) unit :=
  match fuel with
  | O => act (block "fuel")
  | S fuel =>
      do! m := act (on_session l (on_sendQ chan_recv)) in
      match m with
      | None => p_disconnectNow l "Write Failed" CloseAbnormalClosure
      | Some message =>
          do! err := p_writeFrameWithDeadline l message writeWait in
          match err with
          | Some _ =>
              act (on_metrics (counter_inc metricsFailedSent)) ;>>
              p_disconnectNow l "Write Failed" CloseAbnormalClosure
          | None => act (on_metrics (counter_inc metricsSentMsg)) ;>> p_send_loop fuel l
          end
      end
  end.

(** The goroutine reads the field [sendCh] once, when it starts to range over it; a nil
    channel is never ready. *)
Definition p_SendMessages (fuel : nat) l : proc (World C) unit :=
  do! s := act (load l) in
  if sendCh s then p_send_loop fuel l else act (block "chan receive (nil chan)").

Definition p_sendPing l (now : Z) : proc (World C) unit :=
  do! s := act (load l) in
  if closed s then Pure tt
  else
    do! (b, _) := act (encodeMessage l (EPing (newPingMessage (pingTimestampPrecision s) now))) in
    do! err :=
      match b with
      | Err e => Pure (Some e)
      | Ok (Some f) => p_writeFrameWithDeadline l f (Z.quot (pingInterval s) 2)
      | Ok None => Pure None
      end in
    match err with
    | Some _ => p_Disconnect l "Ping failed" CloseAbnormalClosure
    | None => act (addPing l)
    end.

(** The branch of [Node.Authenticate] that admits a session: both fields are written
    without the lock. *)
Definition p_admit l (identifier : string) : proc (World C) unit :=
  p_set l (set_Identifiers identifier) ;>>
  p_set l (set_Connected true) ;>>
  act (addSession l).

(** The goroutine of an operation. [MergeEnv] works under the lock [smu], on the
    environment only, and is one action. *)
Definition p_op `{GoRange} l (op : session_op) : proc (World C) unit :=
  match op with
  | OpSend msg => p_Send l msg
  | OpTransmit msg => p_SendJSONTransmission l msg
  | OpDisconnect reason code => p_Disconnect l reason code
  | OpDisconnectNow reason code => p_disconnectNow l reason code
  | OpSendMessages fuel => p_SendMessages fuel l
  | OpPing now => p_sendPing l now
  | OpMergeEnv other => act (MergeEnv l other)
  end.

(** The operations that use what [mu] protects. *)
Definition uses_mu (op : session_op) : Prop :=
  match op with OpMergeEnv _ => False | _ => True end.
Inductive session_thread `{GoRange} l : proc (World C) unit -> Prop :=
| thread_of op : uses_mu op -> session_thread l (p_op l op).
End operations.

(** ** An operation that runs alone *)

Section alone.
Context {C : Type} {order : GoRange}.
Implicit Types (l : loc) (w : World C).

Lemma erases_disconnectFromNode l : erases (p_disconnectFromNode (C := C) l) (disconnectFromNode l).
Proof.
  unfold p_disconnectFromNode, p_lock, p_unlock, p_set, disconnectFromNode. repeat (apply erases_bind; [apply erases_act | intros ?]).
  destruct (Connected _); [| done]. intros w. unfold p_Disconnect_node, Node_Disconnect.
  rewrite run_pbind. cbn [when]. unfold bind at 1 2 3. rewrite erases_act.
  destruct (RemoveSession l w) as [[] w'| |]; [| done..]. rewrite run_pbind. unfold bind.
  rewrite erases_act. by destruct (Enqueue l w').
Qed.

(** Follows the structure of both programs. *)
Ltac alone :=
  repeat first
    [ apply erases_disconnectFromNode | apply erases_act | apply erases_pure
    | apply erases_bind; [| intros ?] | progress auto
    | case_match; try (congruence || done) ].

Lemma erases_close l : erases (p_close (C := C) l) (Session_close l).
Proof. unfold p_close, Session_close, p_lock, p_unlock, p_set. alone. Qed.

Lemma erases_sendFrame_rec depth l f :
  erases (p_sendFrame_rec (C := C) depth l f) (sendFrame_rec depth l f).
Proof.
  revert f. induction depth as [|depth IH]; intros f; [apply erases_act |].
  cbn [p_sendFrame_rec sendFrame_rec]. unfold p_lock, p_unlock, p_set. alone.
Qed.

Lemma erases_sendFrame l f : erases (p_sendFrame (C := C) l f) (sendFrame l f).
Proof. apply erases_sendFrame_rec. Qed.

Lemma erases_Disconnect l reason code :
  erases (p_Disconnect (C := C) l reason code) (Session_Disconnect l reason code).
Proof.
  unfold p_Disconnect, Session_Disconnect, sendClose. apply erases_bind; [apply erases_disconnectFromNode |].
  intros _. apply erases_bind; [apply erases_sendFrame | intros _; apply erases_close].
Qed.

Lemma erases_writeFrameWithDeadline l f wait :
  erases (p_writeFrameWithDeadline (C := C) l f wait) (writeFrameWithDeadline l f wait).
Proof.
  unfold p_writeFrameWithDeadline, writeFrameWithDeadline, p_write_locked, p_lock, p_unlock. alone.
Qed.

Lemma erases_disconnectNow l reason code :
  erases (p_disconnectNow (C := C) l reason code) (disconnectNow l reason code).
Proof.
  unfold p_disconnectNow, disconnectNow, p_lock, p_unlock, p_set, writeFrame.
  apply erases_bind; [apply erases_disconnectFromNode | intros _].
  apply erases_bind; [apply erases_writeFrameWithDeadline | intros _].
  do 2 (apply erases_bind; [apply erases_act | intros ?]).
  apply erases_bind; [| intros _; apply erases_bind; [apply erases_act | intros _; apply erases_close]].
  destruct (sendCh _); [| done]. alone.
Qed.

Lemma erases_send_loop fuel l : erases (p_send_loop (C := C) fuel l) (SendMessages fuel l).
Proof.
  induction fuel as [|fuel IH]; [apply erases_act |]. cbn [p_send_loop SendMessages].
  apply erases_bind; [apply erases_act | intros [f|]]; [| apply erases_disconnectNow].
  apply erases_bind; [apply erases_writeFrameWithDeadline | intros [e|]];
    (apply erases_bind; [apply erases_act | intros _]); [apply erases_disconnectNow | done].
Qed.

Lemma erases_Send l msg : erases (p_Send (C := C) l msg) (Send l msg ;; ret tt).
Proof.
  unfold p_Send, Send. apply erases_assoc. apply erases_bind; [apply erases_act |].
  intros [[[f|]|e] msg']; [| done..]. apply erases_assoc, erases_end, erases_sendFrame.
Qed.

Lemma erases_sendPing l now : erases (p_sendPing (C := C) l now) (sendPing l now).
Proof.
  unfold p_sendPing, sendPing. apply erases_bind; [apply erases_act | intros s].
  destruct (closed s); [done |]. apply erases_bind; [apply erases_act | intros [b msg']].
  apply erases_bind; [destruct b as [[f|]|e]; [apply erases_writeFrameWithDeadline | done..] |].
  intros [e|]; [apply erases_Disconnect | apply erases_act].
Qed.

End alone.

(** ** What a goroutine knows *)

(** With the lock held: the fields [sendCh] and whether the channel is closed, and
    perhaps that the session is connected. *)
Record held : Type := mkHeld { h_ch : bool; h_closed : bool; h_con : bool }.

(** A goroutine may hold the lock, may still have to hand the session to the hub and to
    the disconnector, and may still have to set [Connected]. *)
Record view : Type := mkView { holds : option held; to_remove : nat; to_enqueue : nat; to_set : nat }.

Definition idle : view := mkView None 0 0 0.
Definition admitting : view := mkView None 0 0 1.
Definition holding (sc cc con : bool) : view := mkView (Some (mkHeld sc cc con)) 0 0 0.

Definition lock_count (v : view) : nat := match holds v with Some _ => 1 | None => 0 end.
Definition agrees (v : view) (s : Session) : Prop :=
  match holds v with
  | None => True
  | Some h => sendCh s = h_ch h /\ ch_closed (sendQ s) = h_closed h /\ (h_con h = true -> Connected s = true)
  end.
Definition bit (b : bool) : nat := if b then 1 else 0.

Section interleaving.
Context {C : Type} {order : GoRange} (l : loc) (a b : nat).
Implicit Types (w : World C) (s : Session) (v u : view) (vs : list view).

(** The parts of the node a session calls exist: its counters are registered, there is a
    disconnector, and nobody closes the channels of the hub and of the disconnector. *)
Definition serving w : Prop :=
  writer_ready w /\ ch_closed (register (w_hub w)) = false /\
  match w_disconnector w with
  | None => False
  | Some DNoop => True
  | Some (DQueue q) => ch_closed (dq_disconnect q) = false
  end.

(** The lock is held by one goroutine or free; every goroutine's knowledge is right;
    between critical sections the channel is open exactly when the field points to it;
    and departures that happened, that are under way, and that are still possible are
    at most [a] for the hub and [b] for the disconnector. *)
Record together vs w s : Prop := {
  t_lock : total lock_count vs = bit (mu s);
  t_agree : forall i v, vs !! i = Some v -> agrees v s;
  t_open : mu s = false -> ch_closed (sendQ s) = negb (sendCh s);
  t_remove : removals l w + total to_remove vs + total to_set vs + bit (Connected s) <= a;
  t_enqueue : queued l w + total to_enqueue vs + total to_set vs + bit (Connected s) <= b
}.
Definition G vs w : Prop := serving w /\ exists s, w_sessions w !! l = Some s /\ together vs w s.

(** Only a goroutine without the lock may have to wait, and a goroutine ends with nothing
    left to do. *)
Definition may_wait v w : Prop := holds v = None.
Definition at_rest v : Prop := v = idle.

Abbreviation safe_from := (wpp G may_wait).

(** *** One action *)

(** What an action of a goroutine with view [v] must see to. *)
Record moves v v' w w' s s' : Prop := {
  m_lock : bit (mu s') + lock_count v = bit (mu s) + lock_count v';
  m_agree : agrees v' s';
  m_others : lock_count v = 1 \/ mu s = false \/
    sendCh s' = sendCh s /\ ch_closed (sendQ s') = ch_closed (sendQ s) /\
    (Connected s = true -> Connected s' = true);
  m_open : mu s' = false -> ch_closed (sendQ s') = negb (sendCh s');
  m_remove : removals l w' + to_remove v' + to_set v' + bit (Connected s') <=
             removals l w + to_remove v + to_set v + bit (Connected s);
  m_enqueue : queued l w' + to_enqueue v' + to_set v' + bit (Connected s') <=
              queued l w + to_enqueue v + to_set v + bit (Connected s)
}.

Lemma others_idle vs w s i j v u :
  together vs w s -> vs !! i = Some v -> vs !! j = Some u -> i <> j ->
  lock_count v = 1 \/ mu s = false -> holds u = None.
Proof.
  intros Ht Hi Hj Hij Hl. pose proof (total_two lock_count vs i j v u Hi Hj Hij) as H2.
  pose proof (total_lookup lock_count vs j u Hj) as H1. rewrite (t_lock _ _ _ Ht) in *.
  unfold lock_count in *. destruct (holds u); [| done]. destruct Hl as [Hl|Hl]; [| rewrite Hl in H1; simpl in H1; lia].
  rewrite Hl in H2. destruct (mu s); simpl in *; lia.
Qed.

Lemma together_moves vs i v v' w w' s s' :
  together vs w s -> vs !! i = Some v -> moves v v' w w' s s' -> together (<[i := v']> vs) w' s'.
Proof.
  intros Ht Hi [Hlock Hagree Hoth Hopen Hrem Henq]. pose proof Ht as [T1 T2 T3 T4 T5].
  pose proof (total_insert lock_count vs i v v' Hi) as I1. pose proof (total_insert to_remove vs i v v' Hi) as I2.
  pose proof (total_insert to_enqueue vs i v v' Hi) as I3. pose proof (total_insert to_set vs i v v' Hi) as I4.
  split; [clear - T1 Hlock I1; lia | | done | clear - T4 Hrem I2 I4; lia | clear - T5 Henq I3 I4; lia].
  intros j u Hj. destruct (decide (i = j)) as [<-|Hij].
  - rewrite list_lookup_insert_eq in Hj by (by eapply lookup_lt_Some). by injection Hj as <-.
  - rewrite list_lookup_insert_ne in Hj by done. specialize (T2 j u Hj).
    destruct Hoth as [Ho|[Ho|(Ho1 & Ho2 & Ho3)]];
      [unfold agrees; by rewrite (others_idle _ _ _ _ _ _ _ Ht Hi Hj Hij) by tauto .. |].
    unfold agrees in *. destruct (holds u); [| done]. rewrite Ho1, Ho2. naive_solver.
Qed.

(** An action on the session only. *)
Lemma safe_on_session {X A} (m : M Session X) (k : X -> proc (World C) A) Q v :
  (forall s, agrees v s -> (lock_count v = 1 -> mu s = true) ->
     (mu s = false -> ch_closed (sendQ s) = negb (sendCh s)) ->
     match m s with
     | Ret x s' => exists v', (forall w w', removals l w' = removals l w -> queued l w' = queued l w ->
                                 moves v v' w w' s s') /\ safe_from (k x) Q v'
     | Block _ _ => holds v = None
     | Panic _ _ => False
     end) ->
  safe_from (Act (on_session l m) k) Q v.
Proof.
  intros Hm vs i w Hi (Hw & s & Hs & Ht). unfold on_session. rewrite Hs.
  assert (Hmu : lock_count v = 1 -> mu s = true).
  { intros Hv. pose proof (total_lookup lock_count vs i v Hi). rewrite (t_lock _ _ _ Ht) in *.
    destruct (mu s); simpl in *; [done | lia]. }
  specialize (Hm s (t_agree _ _ _ Ht i v Hi) Hmu (t_open _ _ _ Ht)).
  destruct (m s) as [x s'| |]; [| done..]. destruct Hm as (v' & Hmv & Hk). exists v'. split; [| done].
  split; [done |]. exists s'. split; [apply lookup_put |]. by eapply together_moves; [| | apply Hmv].
Qed.

Lemma safe_load {A} (k : Session -> proc (World C) A) Q v :
  (forall s, agrees v s -> (mu s = false -> ch_closed (sendQ s) = negb (sendCh s)) ->
     exists v', (forall w, moves v v' w w s s) /\ safe_from (k s) Q v') ->
  safe_from (Act (load l) k) Q v.
Proof.
  intros Hk vs i w Hi (Hw & s & Hs & Ht). unfold load. rewrite Hs.
  destruct (Hk s (t_agree _ _ _ Ht i v Hi) (t_open _ _ _ Ht)) as (v' & Hmv & Hs'). exists v'. split; [| done].
  split; [done |]. exists s. split; [done |]. by eapply together_moves; [| | apply Hmv].
Qed.

(** *** The actions of the operations *)

(** Solves what is left of an action once the session is at hand. *)
Ltac settle_move :=
  split; unfold agrees, lock_count, bit in *; simpl in *; repeat case_match; simplify_eq/=;
  try done; try lia; try tauto; try naive_solver.

Lemma moves_same v w w' s :
  agrees v s -> (mu s = false -> ch_closed (sendQ s) = negb (sendCh s)) ->
  removals l w' = removals l w -> queued l w' = queued l w -> moves v v w w' s s.
Proof. intros Ha Ho Hr Hq. split; [done | done | by right; right | done | lia | lia]. Qed.

Lemma safe_lock {A} (k : unit -> proc (World C) A) Q :
  (forall sc, safe_from (k tt) Q (holding sc (negb sc) false)) ->
  safe_from (Act (on_session l lock_mu) k) Q idle.
Proof.
  intros Hk. apply safe_on_session. intros s _ _ Ho. unfold lock_mu, zoom, lock.
  destruct (mu s) eqn:Hmu; [done |]. exists (holding (sendCh s) (negb (sendCh s)) false).
  split; [| done]. intros w w' Hr Hq. specialize (Ho eq_refl). settle_move.
Qed.

Lemma safe_unlock {A} (k : unit -> proc (World C) A) Q sc cc con r e :
  cc = negb sc -> safe_from (k tt) Q (mkView None r e 0) ->
  safe_from (Act (on_session l unlock_mu) k) Q (mkView (Some (mkHeld sc cc con)) r e 0).
Proof.
  intros -> Hk. apply safe_on_session. intros s (Hc & Hq & _) Hmu _. unfold unlock_mu, zoom, unlock.
  rewrite Hmu by done. exists (mkView None r e 0). split; [| done]. intros w w' Hr He. specialize (Hmu eq_refl).
  simpl in *. settle_move.
Qed.

Lemma safe_load_held {A} (k : Session -> proc (World C) A) Q sc cc con :
  (forall s, sendCh s = sc -> safe_from (k s) Q (holding sc cc (Connected s))) ->
  safe_from (Act (load l) k) Q (holding sc cc con).
Proof.
  intros Hk. apply safe_load. intros s (Hc & Hq & Hcon) Ho. exists (holding sc cc (Connected s)).
  split; [| by apply Hk]. intros w. settle_move.
Qed.

Lemma safe_load_idle {A} (k : Session -> proc (World C) A) Q :
  (forall s, safe_from (k s) Q idle) -> safe_from (Act (load l) k) Q idle.
Proof. intros Hk. apply safe_load. intros s _ Ho. exists idle. split; [| done]. intros w. by apply moves_same. Qed.

(** Fields that the invariant does not mention. *)
Definition quiet (f : Session -> Session) : Prop :=
  forall s, mu (f s) = mu s /\ sendCh (f s) = sendCh s /\ ch_closed (sendQ (f s)) = ch_closed (sendQ s) /\
    Connected (f s) = Connected s.

Lemma moves_quiet f v w w' s :
  quiet f -> agrees v s -> (mu s = false -> ch_closed (sendQ s) = negb (sendCh s)) ->
  removals l w' = removals l w -> queued l w' = queued l w -> moves v v w w' s (f s).
Proof.
  intros Hf Ha Ho Hr Hq. destruct (Hf s) as (H1 & H2 & H3 & H4).
  split; rewrite ?H1, ?H2, ?H3, ?H4; [done | | by right; right | done | by rewrite Hr | by rewrite Hq].
  unfold agrees in *. by rewrite H2, H3, H4.
Qed.

Lemma safe_quiet {X A} (m : M Session X) (k : X -> proc (World C) A) Q v :
  (forall s, match m s with
             | Ret x s' => (exists f, quiet f /\ s' = f s) /\ safe_from (k x) Q v
             | Block _ _ => holds v = None
             | Panic _ _ => False
             end) ->
  safe_from (Act (on_session l m) k) Q v.
Proof.
  intros Hm. apply safe_on_session. intros s Ha _ Ho. specialize (Hm s).
  destruct (m s) as [x s'| |]; [| done..]. destruct Hm as ((f & Hf & ->) & Hk).
  exists v. split; [| done]. intros w w' Hr Hq. by apply moves_quiet.
Qed.

Lemma safe_set_quiet {A} f (k : unit -> proc (World C) A) Q v :
  quiet f -> safe_from (k tt) Q v -> safe_from (Act (on_session l (modify f)) k) Q v.
Proof. intros Hf Hk. apply safe_quiet. intros s. simpl. eauto. Qed.

Lemma safe_conn {A} e (k : option error -> proc (World C) A) Q v :
  (forall err, safe_from (k err) Q v) -> safe_from (Act (on_session l (on_conn e)) k) Q v.
Proof.
  intros Hk. apply safe_quiet. intros s. unfold on_conn, zoom, conn_call. split; [| apply Hk].
  exists (set_conn (mkConn (conn_trace (conn s) ++ [e])%list (conn_ok (conn s)))). by split.
Qed.

Lemma safe_recv {A} (k : option SentFrame -> proc (World C) A) Q :
  (forall m, safe_from (k m) Q idle) -> safe_from (Act (on_session l (on_sendQ chan_recv)) k) Q idle.
Proof.
  intros Hk. apply safe_quiet. intros s. unfold on_sendQ, zoom, chan_recv.
  destruct (ch_buf (sendQ s)) as [|f buf] eqn:Hb; [destruct (ch_closed (sendQ s)) eqn:Hc; [| done] |];
    (split; [| apply Hk]).
  - exists (fun s => set_sendQ (sendQ s) s). by split.
  - exists (fun s => set_sendQ (mkChan (drop 1 (ch_buf (sendQ s))) (ch_cap (sendQ s)) (ch_closed (sendQ s))) s).
    rewrite Hb. by split.
Qed.

Lemma safe_try_send {A} f (k : bool -> proc (World C) A) Q con :
  (forall sent, safe_from (k sent) Q (holding true false con)) ->
  safe_from (Act (on_session l (on_sendQ (chan_try_send f))) k) Q (holding true false con).
Proof.
  intros Hk. apply safe_on_session. intros s Ha Hmu Ho. destruct Ha as (H1 & H2 & H3). simpl in H2.
  unfold on_sendQ, zoom, chan_try_send. rewrite H2. specialize (Hmu eq_refl).
  destruct (chan_full (sendQ s)); (eexists; split; [| apply Hk]); intros w w' Hr Hq; simpl in *; settle_move.
Qed.

Lemma safe_close_chan {A} (k : unit -> proc (World C) A) Q sc con :
  safe_from (k tt) Q (holding sc true con) ->
  safe_from (Act (on_session l (on_sendQ chan_close)) k) Q (holding sc false con).
Proof.
  intros Hk. apply safe_on_session. intros s (H1 & H2 & H3) Hmu Ho. simpl in *.
  unfold on_sendQ, zoom, chan_close. rewrite H2. specialize (Hmu eq_refl).
  eexists. split; [| apply Hk]. intros w w' Hr Hq. settle_move.
Qed.

Lemma safe_set_sendCh {A} (k : unit -> proc (World C) A) Q sc cc con :
  safe_from (k tt) Q (holding false cc con) ->
  safe_from (Act (on_session l (modify (set_sendCh false))) k) Q (holding sc cc con).
Proof.
  intros Hk. apply safe_on_session. intros s (H1 & H2 & H3) Hmu Ho. simpl in *. specialize (Hmu eq_refl).
  eexists. split; [| apply Hk]. intros w w' Hr Hq. settle_move.
Qed.

(** Clearing [Connected] obliges the goroutine that found it set. *)
Lemma safe_clear_Connected {A} (k : unit -> proc (World C) A) Q sc cc con :
  safe_from (k tt) Q (mkView (Some (mkHeld sc cc false)) (bit con) (bit con) 0) ->
  safe_from (Act (on_session l (modify (set_Connected false))) k) Q (holding sc cc con).
Proof.
  intros Hk. apply safe_on_session. intros s (H1 & H2 & H3) Hmu Ho. simpl in *. specialize (Hmu eq_refl).
  eexists. split; [| apply Hk]. intros w w' Hr Hq. destruct con; [specialize (H3 eq_refl) |]; settle_move.
Qed.

Lemma safe_set_Connected {A} (k : unit -> proc (World C) A) Q :
  safe_from (k tt) Q idle -> safe_from (Act (on_session l (modify (set_Connected true))) k) Q admitting.
Proof.
  intros Hk. apply safe_on_session. intros s _ _ Ho. exists idle. split; [| done].
  intros w w' Hr Hq. settle_move.
Qed.

(** *** Actions on the node *)

(** An action that leaves the sessions alone. *)
Lemma safe_node {X A} (m : M (World C) X) (k : X -> proc (World C) A) Q v :
  (forall w, serving w ->
     match m w with
     | Ret x w' => w_sessions w' = w_sessions w /\ serving w' /\
         exists v', holds v' = holds v /\ to_set v' = to_set v /\
           removals l w' + to_remove v' <= removals l w + to_remove v /\
           queued l w' + to_enqueue v' <= queued l w + to_enqueue v /\ safe_from (k x) Q v'
     | Block _ _ => holds v = None
     | Panic _ _ => False
     end) ->
  safe_from (Act m k) Q v.
Proof.
  intros Hm vs i w Hi (Hw & s & Hs & Ht). specialize (Hm w Hw). destruct (m w) as [x w'| |]; [| done..].
  destruct Hm as (Hw' & Hserv & v' & H1 & H2 & H3 & H4 & Hk). exists v'. split; [| done].
  split; [done |]. exists s. split; [by rewrite Hw' |]. eapply together_moves; [done | done |].
  pose proof (t_agree _ _ _ Ht i v Hi) as Ha. pose proof (t_open _ _ _ Ht) as Ho. clear Ht Hw Hserv.
  split; unfold agrees, lock_count in *; rewrite ?H1; [done | done | by right; right | done | lia | lia].
Qed.

Lemma safe_metrics {A} f name (k : unit -> proc (World C) A) Q v :
  name = metricsDataSent \/ name = metricsSentMsg \/ name = metricsFailedSent ->
  safe_from (k tt) Q v -> safe_from (Act (on_metrics (on_counter f name)) k) Q v.
Proof.
  intros Hn Hk. apply safe_node. intros w (Hr & Hreg & Hd).
  assert (Hname : registered name w) by (unfold writer_ready in Hr; naive_solver).
  rewrite on_counter_ok by done. split_and!; [done | split_and!; [by apply writer_ready_bump | done | done] |].
  exists v. by split_and!.
Qed.

Lemma safe_RemoveSession {A} (k : unit -> proc (World C) A) Q e :
  safe_from (k tt) Q (mkView None 0 e 0) -> safe_from (Act (RemoveSession l) k) Q (mkView None 1 e 0).
Proof.
  intros Hk. apply safe_node. intros w (Hr & Hreg & Hd). pose proof (RemoveSession_final l w) as (H1 & H2 & H3).
  specialize (H3 l). rewrite decide_True in H3 by done. revert H1 H2 H3.
  unfold RemoveSession, on_hub, on_register, zoom, chan_send. rewrite Hreg.
  destruct (chan_full _); [done |]. intros H1 H2 H3. split_and!; [done | by split_and! |].
  exists (mkView None 0 e 0). split_and!; try done. simpl in *. lia.
Qed.

Lemma safe_Enqueue {A} (k : option error -> proc (World C) A) Q :
  (forall err, safe_from (k err) Q idle) -> safe_from (Act (Enqueue l) k) Q (mkView None 0 1 0).
Proof.
  intros Hk. apply safe_node. intros w (Hr & Hreg & Hd). pose proof (Enqueue_final l w) as (H1 & H2 & H3).
  specialize (H3 l). rewrite decide_True in H3 by done. revert H1 H2 H3. unfold Enqueue.
  destruct (w_disconnector w) as [[q|]|] eqn:Hq; [| | done].
  - unfold zoom, DisconnectQueue_Enqueue, bind, lock, unlock, get, ret, zoom, chan_send; simpl.
    destruct (dq_mu q); [done |]; simpl. destruct (dq_isStopped q); simpl; [| rewrite Hd; destruct (chan_full _); [done |]];
      simpl; intros H1 H2 H3; (split_and!; [done | by split_and! | exists idle; split_and!; try done; simpl in *; lia]).
  - simpl. intros _ _ H3. split_and!; [done | split_and!; [done | done | by rewrite Hq] | exists idle; split_and!; try done; simpl in *; lia].
Qed.

Lemma safe_encode {A} msg (k : result (option SentFrame) * EncodedMessage -> proc (World C) A) Q :
  (forall r, safe_from (k r) Q idle) -> safe_from (Act (encodeMessage l msg) k) Q idle.
Proof.
  intros Hk vs i w Hi Hw. pose proof Hw as (Hserv & s & Hs & Ht).
  destruct (encodeMessage_returns l msg s w) as (r & msg' & He). rewrite put_session_id in He by done.
  rewrite He. exists idle. split; [| apply Hk]. by rewrite list_insert_id.
Qed.

Lemma hub_addSession_register k uid ids (h : Hub) :
  match hub_addSession k uid ids h with
  | Ret _ h' => register h' = register h
  | Block _ _ => True
  | Panic _ _ => False
  end.
Proof.
  unfold hub_addSession, bind, on_sessionsMu, zoom, rw_lock, rw_unlock.
  destruct (rw_writer (sessionsMu h)); [done |]. destruct (rw_readers (sessionsMu h)); [| done]. simpl.
  destruct (identifiers h !! ids) as [o|] eqn:Ho; simpl; [by rewrite Ho | by rewrite lookup_insert_eq].
Qed.

Lemma safe_addSession {A} (k : unit -> proc (World C) A) Q :
  safe_from (k tt) Q idle -> safe_from (Act (addSession l) k) Q idle.
Proof.
  intros Hk vs i w Hi (Hserv & s & Hs & Ht). unfold addSession.
  erewrite bind_ret_eq by (unfold load; by rewrite Hs). unfold on_hub, zoom.
  pose proof (hub_addSession_register l (UID s) (Identifiers s) (w_hub w)) as Hr.
  destruct (hub_addSession _ _ _ _) as [[] h'| |]; [| done..]. exists idle. split; [| exact Hk].
  rewrite list_insert_id by done. split; [| exists s; split; [done |]].
  - destruct Hserv as (H1 & H2 & H3). split_and!; [done | by simpl; rewrite Hr | done].
  - destruct Ht. split; try done. unfold removals in *. simpl. by rewrite Hr.
Qed.

Lemma safe_block {A X} why (k : X -> proc (World C) A) Q v :
  holds v = None -> safe_from (Act (block why) k) Q v.
Proof. by intros Hv vs i w Hi Hw. Qed.

(** ** The operations *)

(** Safe for a goroutine that knows nothing, and again at rest when done. *)
Abbreviation rests p := (safe_from p (fun _ v => v = idle) idle).

Lemma rests_seq {A B} (p : proc (World C) A) (f : A -> proc (World C) B) :
  rests p -> (forall x, rests (f x)) -> rests (pbind p f).
Proof. intros Hp Hf. eapply wpp_seq; [exact Hp |]. intros x v ->. apply Hf. Qed.

Lemma quiet_closed c : quiet (set_closed c).
Proof. by intros s. Qed.
Lemma quiet_stop_ping : quiet stop_ping.
Proof. intros s. unfold stop_ping. by destruct (pingTimer s). Qed.
Lemma quiet_pingTimer t : quiet (set_pingTimer t).
Proof. by intros s. Qed.
Lemma quiet_Identifiers ids : quiet (set_Identifiers ids).
Proof. by intros s. Qed.

(** Runs the next action. *)
Ltac next :=
  lazymatch goal with
  | |- wpp ?g ?wt (pbind (act ?m) ?f) ?Q ?v => change (wpp g wt (Act m f) Q v)
  | |- wpp ?g ?wt (act ?m) ?Q ?v => change (wpp g wt (Act m Pure) Q v)
  | _ => idtac
  end;
  first
    [ apply safe_lock; intros ?sc
    | apply safe_unlock; [done |]
    | apply safe_load_held; intros ?s ?Hs
    | apply safe_load_idle; intros ?s
    | apply safe_try_send; intros [|]
    | apply safe_close_chan
    | apply safe_set_sendCh
    | apply safe_clear_Connected
    | apply safe_set_quiet;
        [first [apply quiet_closed | apply quiet_stop_ping | apply quiet_pingTimer | apply quiet_Identifiers] |]
    | apply safe_conn; intros ?err
    | apply safe_recv; intros [?f|]
    | apply safe_encode; intros [?b ?msg]
    | apply safe_metrics; [by auto |]
    | apply safe_RemoveSession
    | apply safe_Enqueue; intros ?err
    | apply safe_block; reflexivity ].

Lemma rests_disconnectFromNode : rests (p_disconnectFromNode l).
Proof.
  unfold p_disconnectFromNode, p_lock, p_unlock, p_set, p_Disconnect_node. do 4 next.
  destruct (Connected s); [by do 2 next | done].
Qed.

Lemma rests_close : rests (p_close l).
Proof.
  unfold p_close, p_lock, p_unlock, p_set. do 2 next. destruct (closed s); [by next |]. by do 3 next.
Qed.

Lemma rests_sendFrame_rec depth f : rests (p_sendFrame_rec depth l f).
Proof.
  revert f. induction depth as [|depth IH]; intros f; [by next |].
  cbn [p_sendFrame_rec]. unfold p_lock, p_unlock, p_set. do 2 next. subst sc.
  destruct (sendCh s); cbn [negb]; [| by next]. next; [by next |]. do 3 next.
  repeat (apply rests_seq; [first [apply rests_disconnectFromNode | apply IH] | intros _]). apply rests_close.
Qed.

Lemma rests_sendFrame f : rests (p_sendFrame l f).
Proof. apply rests_sendFrame_rec. Qed.

Lemma rests_Disconnect reason code : rests (p_Disconnect l reason code).
Proof.
  apply rests_seq; [apply rests_disconnectFromNode | intros _].
  apply rests_seq; [apply rests_sendFrame | intros _; apply rests_close].
Qed.

Lemma rests_writeFrameWithDeadline f wait : rests (p_writeFrameWithDeadline l f wait).
Proof.
  unfold p_writeFrameWithDeadline, p_write_locked, p_lock, p_unlock, counter_add. next.
  destruct (_ =? _)%Z; [by do 3 next |]. destruct (_ =? _)%Z; [by do 3 next |].
  destruct (_ =? _)%Z; [by next | done].
Qed.

Lemma rests_disconnectNow reason code : rests (p_disconnectNow l reason code).
Proof.
  apply rests_seq; [apply rests_disconnectFromNode | intros _].
  apply rests_seq; [apply rests_writeFrameWithDeadline | intros _].
  unfold p_lock, p_unlock, p_set. do 2 next. subst sc.
  destruct (sendCh s); cbn [negb]; apply wpp_bind; [do 2 next |]; cbn [wpp]; next; apply rests_close.
Qed.

Lemma rests_send_loop fuel : rests (p_send_loop fuel l).
Proof.
  induction fuel as [|fuel IH]; [by next |]. cbn [p_send_loop]. next; [| apply rests_disconnectNow].
  apply rests_seq; [apply rests_writeFrameWithDeadline | intros [e|]]; unfold counter_inc, counter_add; next;
    [apply rests_disconnectNow | exact IH].
Qed.

Lemma rests_sendPing now : rests (p_sendPing l now).
Proof.
  unfold p_sendPing, addPing. next. destruct (closed s); [done |]. next.
  apply rests_seq; [destruct b0 as [[f|]|e]; [apply rests_writeFrameWithDeadline | done..] |].
  intros [e|]; [apply rests_Disconnect | by next].
Qed.

Lemma rests_op op : uses_mu op -> rests (p_op l op).
Proof.
  intros Hop. destruct op; cbn [p_op]; [| | | | | | done].
  - unfold p_Send. next. destruct b0 as [[f|]|e]; [apply rests_sendFrame | done..].
  - unfold p_SendJSONTransmission. next. destruct (EncodeTransmission _ _) as [[f|]|]; [apply rests_sendFrame | done..].
  - apply rests_Disconnect.
  - apply rests_disconnectNow.
  - unfold p_SendMessages. next. destruct (sendCh s); [apply rests_send_loop | by next].
  - apply rests_sendPing.
Qed.

Lemma admit_safe ids : safe_from (p_admit l ids) (fun _ v => v = idle) admitting.
Proof.
  unfold p_admit, p_set. next. apply safe_set_Connected. by apply safe_addSession.
Qed.
End interleaving.

(** ** Any number of goroutines *)

Section pools.
Context {C : Type} {order : GoRange}.
Implicit Types (l : loc) (w : World C) (s : Session).

(** A pool that starts with the admissions of a session (one, for a session that is being
    authenticated; none, when that is over), to which goroutines that use the session are
    added at any time. *)
Definition session_pool l (admissions : list string) w : list (proc (World C) unit) * World C :=
  (map (p_admit l) admissions, w).
Definition interleaves l (admissions : list string) w : list (proc (World C) unit) * World C -> Prop :=
  pool_reaches (session_thread l) (session_pool l admissions w).

Lemma total_admitting f n : total f (replicate n admitting) = n * f admitting.
Proof. induction n; simpl; lia. Qed.

Lemma start_together l a b admissions s w :
  serving w -> w_sessions w !! l = Some s -> session_ok s ->
  removals l w + alive l w + length admissions <= a ->
  queued l w + alive l w + length admissions <= b ->
  pool_ok (G l a b) may_wait at_rest (session_pool l admissions w).
Proof.
  intros Hw Hs [Hmu _ Ho _] Ha Hb. exists (replicate (length admissions) admitting). split.
  - clear. unfold session_pool; simpl. induction admissions as [|x xs IH]; simpl; constructor; [apply admit_safe | done].
  - split; [done |]. exists s. split; [done |]. unfold alive in Ha, Hb. rewrite Hs in Ha, Hb.
    split; rewrite ?total_admitting; simpl.
    + by rewrite Hmu, Nat.mul_0_r.
    + intros i v Hi. apply lookup_replicate in Hi as [-> _]. done.
    + intros _. done.
    + unfold bit. lia.
    + unfold bit. lia.
Qed.

Lemma thread_start l a b (p : proc (World C) unit) vs w :
  session_thread l p -> G l a b vs w ->
  exists v, wpp (G l a b) may_wait p (fun _ => at_rest) v /\ G l a b (vs ++ [v]) w.
Proof.
  intros [op Hop] (Hw & s & Hs & Ht). exists idle. split; [by apply rests_op |]. split; [done |].
  exists s. split; [done |]. destruct Ht as [T1 T2 T3 T4 T5].
  split; rewrite ?total_app; simpl; [lia | | done | lia | lia].
  intros i v Hi. apply lookup_app_Some in Hi as [Hi|[_ Hi]]; [by eapply T2 |].
  apply list_lookup_singleton_Some in Hi as [_ <-]. done.
Qed.

(** The invariant of every state that is reached, for the budgets of the first one. *)
Lemma interleaves_ok l admissions s w c :
  serving w -> w_sessions w !! l = Some s -> session_ok s -> interleaves l admissions w c ->
  pool_ok (G (C := C) l (removals l w + alive l w + length admissions) (queued l w + alive l w + length admissions))
    may_wait at_rest c.
Proof.
  intros Hw Hs Hok Hr. eapply pool_reaches_ok; [| by eapply start_together | exact Hr].
  intros p vs w'. apply thread_start.
Qed.

(** C3. No interleaving of the goroutines that use a session makes one of them panic:
    none sends on its closed queue, closes the queue twice or unlocks a lock it does not
    hold, however many sends, transmissions, pings, writes, disconnects and admissions
    there are and in whatever order their actions come. *)
Theorem no_interleaving_panics l admissions s w ts w' i p why w'' :
  serving w -> w_sessions w !! l = Some s -> session_ok s ->
  interleaves l admissions w (ts, w') -> ts !! i = Some p -> step_thread p w' <> Some (Panic why w'').
Proof. intros Hw Hs Hok Hr. eapply pool_ok_no_panic, interleaves_ok; eauto. Qed.

(** C7. Whatever the interleaving, a session is handed to the hub for removal, and to the
    disconnector, at most once for each time it was connected. *)
Theorem departs_once_interleaved l admissions s w ts w' :
  serving w -> w_sessions w !! l = Some s -> session_ok s -> interleaves l admissions w (ts, w') ->
  removals l w' + alive l w' <= removals l w + alive l w + length admissions /\
  queued l w' + alive l w' <= queued l w + alive l w + length admissions.
Proof.
  intros Hw Hs Hok Hr. destruct (interleaves_ok l admissions s w _ Hw Hs Hok Hr) as (vs & _ & _ & s' & Hs' & Ht).
  simpl in *. destruct Ht as [_ _ _ T4 T5]. unfold alive at 1 3. rewrite Hs'. unfold bit in *. lia.
Qed.

End pools.

(** ** A departure that is lost *)

Definition ended {W} (p : proc W unit) : bool := match p with Pure _ => true | Act _ _ => false end.

(** A session whose authentication is under way, on a connection that has broken. *)
Definition broken_session : Session :=
  new_session NewNodeConfig (mkConn [] (fun _ _ => false)) "/cable" (Some ∅) "sid".
Definition authenticating : World unit := put_session 0 broken_session sample_node.

(** The goroutine that admits it, the timer whose ping fails, and the goroutine that finds
    the connection closed. *)
Definition racing : list (proc (World unit) unit) :=
  [p_admit 0 "user"; p_op (H := canonical_order) 0 (OpPing 0);
   p_op (H := canonical_order) 0 (OpDisconnectNow "Read failed" CloseAbnormalClosure)].

(** The ping fails and [disconnectFromNode] finds the session not connected; now the
    session is admitted; then [disconnectFromNode] writes [Connected] and goes on. *)
Definition lost_schedule : list nat := replicate 8 1 ++ replicate 3 0 ++ replicate 11 1 ++ replicate 14 2.

Definition lost_run : option (list (proc (World unit) unit) * World unit) :=
  run_schedule lost_schedule racing authenticating.

Definition in_order s : bool :=
  negb (mu s) && negb (smu s) && eqb (ch_closed (sendQ s)) (negb (sendCh s))
  && bool_decide (length (ch_buf (sendQ s)) <= ch_cap (sendQ s)).
Definition lost_state (c : list (proc (World unit) unit) * World unit) : bool :=
  forallb ended c.1 && bool_decide (sessions (w_hub c.2) !! "sid" = Some 0)
  && bool_decide (alive 0 c.2 = 0) && bool_decide (removals 0 c.2 = 0)
  && match w_sessions c.2 !! 0 with Some s => in_order s | None => false end.

Lemma in_order_ok s : in_order s = true -> session_ok s.
Proof.
  unfold in_order. rewrite !andb_true_iff, !negb_true_iff, eqb_true_iff, bool_decide_eq_true.
  intros [[[H1 H2] H3] H4]. by split.
Qed.

Lemma authenticating_serving : serving authenticating.
Proof. split_and!; [apply sample_writer_ready | done | done]. Qed.
Lemma broken_session_ok : session_ok broken_session.
Proof. split; [done | done | done |]. simpl. lia. Qed.

Lemma lost_run_reached c :
  lost_run = Some c -> interleaves (order := canonical_order) 0 ["user"] authenticating c.
Proof.
  intros Hr. unfold interleaves, session_pool. simpl.
  eapply rtc_l; [apply (step_starts _ _ _ (p_op (H := canonical_order) 0 (OpPing 0))); by constructor |].
  eapply rtc_l; [apply (step_starts _ _ _ (p_op (H := canonical_order) 0
    (OpDisconnectNow "Read failed" CloseAbnormalClosure))); by constructor |].
  exact (run_schedule_reaches _ lost_schedule racing authenticating c Hr).
Qed.

(** C26. [Connected] is set without the lock, and an update can be lost: when a ping fails
    while a session is being authenticated, [disconnectFromNode] may find it not connected,
    then it is admitted, and then [Connected] is cleared again. All goroutines end, the
    session stays registered with the hub, and nothing that is done with it afterwards
    ever removes it from there. *)
Theorem departure_can_be_lost :
  exists ts w, interleaves (order := canonical_order) 0 ["user"] authenticating (ts, w) /\
    forallb ended ts = true /\ sessions (w_hub w) !! "sid" = Some 0 /\
    forall ts' w', interleaves (order := canonical_order) 0 [] w (ts', w') -> removals 0 w' = 0.
Proof.
  assert (Hl : match lost_run with Some c => lost_state c | None => false end = true) by (vm_compute; reflexivity).
  destruct lost_run as [[ts w]|] eqn:Hr; [| discriminate Hl]. pose proof (lost_run_reached _ Hr) as Hreach.
  clear Hr. unfold lost_state in Hl. cbn [fst snd] in Hl. rewrite !andb_true_iff, !bool_decide_eq_true in Hl.
  destruct Hl as [[[[Hend Hhub] Ha] Hrem] Hs]. exists ts, w. split_and!; [exact Hreach | exact Hend | exact Hhub |].
  destruct (w_sessions w !! 0) as [s|] eqn:Hs0; [| discriminate Hs].
  destruct (interleaves_ok (order := canonical_order) 0 ["user"] broken_session authenticating (ts, w)) as (vs & _ & Hserv & _);
    [apply authenticating_serving | reflexivity | apply broken_session_ok | exact Hreach |].
  intros ts' w' Hr'. destruct (interleaves_ok (order := canonical_order) 0 [] s w (ts', w') Hserv Hs0 (in_order_ok s Hs) Hr') as (vs' & _ & _ & s' & _ & Ht).
  pose proof (t_remove _ _ _ _ _ _ Ht) as Hle. rewrite Ha, Hrem in Hle. cbn [snd length] in Hle. lia.
Qed.

(** ** Witnesses *)

(** Two goroutines transmit to a session whose queue is full: the first one has closed the
    queue and holds the lock, the second one waits for it. *)
Definition full_world : World unit := put_session 0 (sample_session [close_frame "x" 1000] 1) sample_node.
Definition transmits : proc (World unit) unit := p_op (H := canonical_order) 0 (OpTransmit "a").
Definition full_run : option (list (proc (World unit) unit) * World unit) :=
  run_schedule [0; 0; 1; 0; 0; 0; 0] [transmits; transmits] full_world.

Lemma full_world_serving : serving full_world.
Proof. split_and!; [apply sample_writer_ready | done | done]. Qed.

Lemma full_run_reached c :
  full_run = Some c -> interleaves (order := canonical_order) 0 [] full_world c.
Proof.
  intros Hr. unfold interleaves, session_pool. simpl.
  do 2 (eapply rtc_l; [apply (step_starts _ _ _ transmits); by apply (thread_of (H := canonical_order) 0 (OpTransmit "a")) |]).
  exact (run_schedule_reaches _ _ [transmits; transmits] full_world c Hr).
Qed.

Lemma full_run_shape :
  exists p ts w s, full_run = Some (p :: ts, w) /\ w_sessions w !! 0 = Some s /\ mu s = true /\ sendCh s = false.
Proof.
  assert (Hb : match full_run with
               | Some (_ :: _, w) => match w_sessions w !! 0 with Some s => mu s && negb (sendCh s) | None => false end
               | _ => false
               end = true) by (vm_compute; reflexivity).
  destruct full_run as [[[|p ts] w]|]; [discriminate Hb | | discriminate Hb].
  destruct (w_sessions w !! 0) as [s|] eqn:Hs; [| discriminate Hb].
  apply andb_true_iff in Hb as [H1 H2]. apply negb_true_iff in H2. by exists p, ts, w, s.
Qed.


Lemma no_interleaving_panics_witness :
  exists p ts w, full_run = Some (p :: ts, w) /\ step_thread p w <> Some (Panic "close of closed channel" w).
Proof.
  destruct full_run_shape as (p & ts & w & s & Hr & _). exists p, ts, w. split; [exact Hr |].
  apply (no_interleaving_panics (order := canonical_order) 0 [] (sample_session [close_frame "x" 1000] 1)
    full_world (p :: ts) w 0 p); [apply full_world_serving | reflexivity
    | apply sample_session_ok; simpl; lia | exact (full_run_reached _ Hr) | reflexivity].
Defined.

Lemma departs_once_interleaved_witness :
  exists ts w, full_run = Some (ts, w) /\ removals 0 w + alive 0 w <= 1.
Proof.
  destruct full_run_shape as (p & ts & w & s & Hr & _). exists (p :: ts), w. split; [exact Hr |].
  exact (proj1 (departs_once_interleaved (order := canonical_order) 0 [] (sample_session [close_frame "x" 1000] 1)
    full_world (p :: ts) w full_world_serving eq_refl
    (sample_session_ok [close_frame "x" 1000] 1 (le_n 1)) (full_run_reached _ Hr))).
Defined.

