(* ===== verification/HubSpec.v ===== *)
(** * What the hub promises

    The nested maps of [src/node/hub.go] implement a registry of sessions, of their
    identifiers, and of (stream, session, identifier) subscriptions. The registry
    is specified with plain finite sets, and the operations of the hub are shown
    to refine it for every sequence of requests. *)

From Stdlib Require Import ZArith Lia Ascii String.
From stdpp Require Import base gmap strings list fin_maps fin_sets.
From S2P Require Import Prelude Json Common Metrics Encoders World Session Hub.

Local Open Scope string_scope.

(** ** The nested maps *)

Abbreviation stream_map := (gmap string (gmap string (gmap string bool))).
Abbreviation triple := (string * string * string)%type.

(** The entry of a stream, session and identifier. *)
Definition entry (st : stream_map) (t : triple) : option bool :=
  let '(stream, sid, id) := t in
  match st !! stream with
  | None => None
  | Some by_sid => match by_sid !! sid with None => None | Some ids => ids !! id end
  end.

Lemma entry_insert st stream by_sid t :
  entry (<[stream := by_sid]> st) t =
  if decide (stream = t.1.1)
  then match by_sid !! t.1.2 with None => None | Some ids => ids !! t.2 end
  else entry st t.
Proof.
  destruct t as [[stream' sid] id]. simpl. rewrite lookup_insert. by case_decide.
Qed.

Lemma entry_delete st stream t :
  entry (delete stream st) t = if decide (stream = t.1.1) then None else entry st t.
Proof.
  destruct t as [[stream' sid] id]. simpl. rewrite lookup_delete. by case_decide.
Qed.

Lemma entry_drop_stream sid id stream st t :
  entry (drop_stream sid id stream st) t = if decide (t = (stream, sid, id)) then None else entry st t.
Proof.
  destruct t as [[stream' sid'] id']. unfold drop_stream.
  destruct (st !! stream) as [by_sid|] eqn:Hst.
  2: { case_decide; simplify_eq; simpl; [by rewrite Hst | done]. }
  set (by_sid' := match by_sid !! sid with None => _ | Some _ => _ end).
  assert (Hby : forall s i,
    match by_sid' !! s with None => None | Some ids => ids !! i end =
    if decide (s = sid /\ i = id) then None
    else match by_sid !! s with None => None | Some ids => ids !! i end).
  { intros s i. unfold by_sid'. destruct (by_sid !! sid) as [ids|] eqn:Hsid.
    - destruct (decide (delete id ids = ∅)) as [He|He].
      + rewrite lookup_delete. case_decide; subst.
        * assert (Hi : delete id ids !! i = None) by (by rewrite He).
          rewrite lookup_delete in Hi. rewrite Hsid. repeat case_decide; naive_solver.
        * case_decide; naive_solver.
      + rewrite lookup_insert. case_decide; subst.
        * rewrite Hsid, lookup_delete. repeat case_decide; naive_solver.
        * case_decide; naive_solver.
    - case_decide as Hd; [destruct Hd; subst; by rewrite Hsid | done]. }
  destruct (decide (by_sid' = ∅)) as [He|He].
  - rewrite entry_delete. simpl. specialize (Hby sid' id').
    rewrite He, lookup_empty in Hby.
    repeat case_decide; simplify_eq; try done; rewrite ?Hst in *; naive_solver.
  - rewrite entry_insert. simpl. rewrite Hby.
    repeat case_decide; simplify_eq; try done; rewrite ?Hst; naive_solver.
Qed.

Lemma entry_drop_streams sid id l st t :
  entry (foldl (fun st stream => drop_stream sid id stream st) st l) t =
  if decide (t.1.2 = sid /\ t.2 = id /\ t.1.1 ∈ l) then None else entry st t.
Proof.
  revert st. induction l as [|stream l IH]; intros st; simpl.
  - case_decide as Hd; [set_solver | done].
  - rewrite IH, entry_drop_stream. destruct t as [[x y] z]; simpl.
    repeat case_decide; naive_solver set_solver.
Qed.

Lemma entry_unsubscribe sid id stream st t :
  entry (alter (alter (delete id) sid) stream st) t =
  if decide (t = (stream, sid, id)) then None else entry st t.
Proof.
  destruct t as [[x y] z]. simpl. rewrite lookup_alter. case_decide as Hx.
  2: { case_decide; naive_solver. }
  subst. destruct (st !! x) as [by_sid|]; simpl; [| by case_decide].
  rewrite lookup_alter. case_decide as Hy; [subst | case_decide; naive_solver].
  destruct (by_sid !! y) as [ids|]; simpl; [| by case_decide].
  rewrite lookup_delete. repeat case_decide; naive_solver.
Qed.

Definition with_entry (stream sid id : string) (st : stream_map) : stream_map :=
  <[stream := <[sid := <[id := true]> (default ∅ (default ∅ (st !! stream) !! sid))]>
                (default ∅ (st !! stream))]> st.

Lemma entry_with_entry stream sid id st t :
  entry (with_entry stream sid id st) t =
  if decide (t = (stream, sid, id)) then Some true else entry st t.
Proof.
  destruct t as [[x y] z]. unfold with_entry. rewrite entry_insert; simpl.
  case_decide as Hx; [subst | case_decide; naive_solver].
  rewrite lookup_insert. case_decide as Hy; [subst |].
  - rewrite lookup_insert. repeat case_decide; simplify_eq; try done; try naive_solver.
    destruct (st !! x) as [by_sid|]; simpl; [| done].
    destruct (by_sid !! y); done.
  - destruct (st !! x); simpl; case_decide; naive_solver.
Qed.

(** Opens a hub record, with its maps named. *)
Ltac open_hub h :=
  destruct h as [ss idents idms sts sstreams ? ? ? ? ? ? smu semu]; simpl in *; subst; simpl.

(** ** Requests and what they should do *)

(** The registry: who is connected, under which identifiers, and who receives
    what. *)
Record Registry : Type := mkRegistry {
  r_sessions : gmap string loc;
  r_idents : gset (string * string);
  r_subs : gset triple
}.

Definition empty_registry : Registry := mkRegistry ∅ ∅ ∅.

Inductive hub_cmd : Type :=
| CmdAdd (l : loc) (uid ids : string)
| CmdRemove (uid ids : string)
| CmdSubscribe (sid stream id : string)
| CmdUnsubscribe (sid stream id : string)
| CmdUnsubscribeAll (sid id : string).

Definition spec_cmd (r : Registry) (c : hub_cmd) : Registry :=
  match c with
  | CmdAdd l uid ids =>
      mkRegistry (<[uid := l]> (r_sessions r)) (r_idents r ∪ {[ (ids, uid) ]}) (r_subs r)
  | CmdRemove uid ids =>
      match r_sessions r !! uid with
      | None => r
      | Some _ =>
          mkRegistry (delete uid (r_sessions r)) (r_idents r ∖ {[ (ids, uid) ]})
            (filter (fun t => t.1.2 <> uid) (r_subs r))
      end
  | CmdSubscribe sid stream id =>
      mkRegistry (r_sessions r) (r_idents r) (r_subs r ∪ {[ (stream, sid, id) ]})
  | CmdUnsubscribe sid stream id =>
      mkRegistry (r_sessions r) (r_idents r) (r_subs r ∖ {[ (stream, sid, id) ]})
  | CmdUnsubscribeAll sid id =>
      mkRegistry (r_sessions r) (r_idents r)
        (filter (fun t => ~ (t.1.2 = sid /\ t.2 = id)) (r_subs r))
  end.

Section refinement.
Context {order : GoRange}.
Implicit Types (h : Hub) (r : Registry).

Definition run_cmd (c : hub_cmd) : M Hub unit :=
  match c with
  | CmdAdd l uid ids => hub_addSession l uid ids
  | CmdRemove uid ids => hub_removeSession uid ids
  | CmdSubscribe sid stream id => subscribeSession sid stream id
  | CmdUnsubscribe sid stream id => unsubscribeSession sid stream id
  | CmdUnsubscribeAll sid id => unsubscribeSessionFromChannel sid id false
  end.

Definition ident_entry h (p : string * string) : option bool :=
  match identifiers h !! p.1 with
  | None => None
  | Some o => match idmaps h !! o with None => None | Some m => m !! p.2 end
  end.

(** The streams a session and identifier were ever subscribed to, as the hub
    lists them. *)
Definition listed h (sid id : string) : list string :=
  match sessionsStreams h !! sid with
  | None => []
  | Some by_id => default [] (by_id !! id)
  end.

Record implements h r : Prop := {
  im_streamsMu : streamsMu h = rw_free;
  im_sessionsMu : sessionsMu h = rw_free;
  im_sessions : sessions h = r_sessions r;
  im_subs : forall t, t ∈ r_subs r <-> is_Some (entry (streams h) t);
  im_idents : forall p, p ∈ r_idents r <-> is_Some (ident_entry h p);
  im_listed : forall t, is_Some (entry (streams h) t) -> t.1.1 ∈ listed h t.1.2 t.2;
  im_idmaps : forall i o, identifiers h !! i = Some o -> exists m, idmaps h !! o = Some m /\ m <> ∅;
  im_inj : forall i j o, identifiers h !! i = Some o -> identifiers h !! j = Some o -> i = j
}.

(** ** Closed forms *)

Definition streams_subscribed sid stream id h : Hub :=
  let by_id := default ∅ (sessionsStreams h !! sid) in
  set_sessionsStreams
    (<[sid := <[id := (default [] (by_id !! id) ++ [stream])%list]> by_id]> (sessionsStreams h))
    (set_streams (with_entry stream sid id (streams h)) h).

Lemma subscribeSession_ok sid stream id h :
  streamsMu h = rw_free ->
  subscribeSession sid stream id h = Ret tt (streams_subscribed sid stream id h).
Proof. intros Hmu. by open_hub h. Qed.

Lemma unsubscribeSession_ok sid stream id h :
  streamsMu h = rw_free ->
  exists st, unsubscribeSession sid stream id h = Ret tt (set_streams st h) /\
    forall t, entry st t = if decide (t = (stream, sid, id)) then None else entry (streams h) t.
Proof.
  intros Hmu. open_hub h. unfold unsubscribeSession, bind; simpl.
  assert (Hn : entry sts (stream, sid, id) = None -> forall t, entry sts t =
            if decide (t = (stream, sid, id)) then None else entry sts t).
  { intros Hn t. case_decide; by subst. }
  destruct (sts !! stream) as [by_sid|] eqn:H1.
  2: { eexists; split; [reflexivity |]. apply Hn. simpl. by rewrite H1. }
  destruct (by_sid !! sid) as [ids|] eqn:H2.
  2: { eexists; split; [reflexivity |]. apply Hn. simpl. by rewrite H1, H2. }
  destruct (ids !! id) as [b|] eqn:H3.
  2: { eexists; split; [reflexivity |]. apply Hn. simpl. by rewrite H1, H2. }
  eexists; split; [reflexivity |]. apply entry_unsubscribe.
Qed.

Lemma unsubscribe_channel_ok sid id (locked : bool) h :
  (if locked then rw_writer (streamsMu h) = true else streamsMu h = rw_free) ->
  exists st, unsubscribeSessionFromChannel sid id locked h = Ret tt (set_streams st h) /\
    forall t, entry st t =
      if decide (t.1.2 = sid /\ t.2 = id /\ t.1.1 ∈ listed h sid id) then None
      else entry (streams h) t.
Proof.
  intros Hmu. exists (foldl (fun st stream => drop_stream sid id stream st) (streams h)
    (listed h sid id)).
  split; [| intros t; apply entry_drop_streams].
  unfold unsubscribeSessionFromChannel, bind, listed.
  destruct locked; open_hub h; by destruct (sstreams !! sid).
Qed.

Lemma unsubscribe_channels_ok sid channels h :
  rw_writer (streamsMu h) = true ->
  exists st,
    each (fun channel => unsubscribeSessionFromChannel sid channel true) channels h =
      Ret tt (set_streams st h) /\
    forall t, entry st t =
      if decide (t.1.2 = sid /\ t.2 ∈ channels /\ t.1.1 ∈ listed h sid t.2) then None
      else entry (streams h) t.
Proof.
  intros Hmu. revert h Hmu. induction channels as [|ch channels IH]; intros h Hmu.
  - exists (streams h). split; [by destruct h |]. intros t. case_decide; set_solver.
  - simpl. destruct (unsubscribe_channel_ok sid ch true h Hmu) as (st & Hrun & Hst).
    erewrite bind_ret_eq by exact Hrun.
    destruct (IH (set_streams st h) Hmu) as (st' & -> & Hst'). exists st'. split; [done |].
    intros t. rewrite Hst'. simpl. rewrite Hst. destruct t as [[x y] z]; simpl.
    change (listed (set_streams st h)) with (listed h).
    repeat case_decide; naive_solver set_solver.
Qed.

Lemma unsubscribe_all_ok sid h :
  streamsMu h = rw_free ->
  exists st,
    unsubscribeSessionFromAllChannels sid h =
      Ret tt (set_sessionsStreams (delete sid (sessionsStreams h)) (set_streams st h)) /\
    forall t, entry st t =
      if decide (t.1.2 = sid /\ t.1.1 ∈ listed h sid t.2) then None else entry (streams h) t.
Proof.
  intros Hmu. set (h1 := set_streamsMu (mkRW true 0) h).
  destruct (unsubscribe_channels_ok sid (range_keys (default ∅ (sessionsStreams h !! sid))) h1)
    as (st & Hrun & Hst); [done |].
  exists st. split.
  - unfold unsubscribeSessionFromAllChannels.
    erewrite bind_ret_eq by (unfold on_streamsMu, zoom, rw_lock; by rewrite Hmu).
    erewrite bind_ret_eq by reflexivity. erewrite bind_ret_eq by exact Hrun.
    by open_hub h.
  - intros [[x y] z]. rewrite Hst. simpl. change (listed h1) with (listed h).
    assert (Hin : x ∈ listed h sid z ->
              z ∈ range_keys (default ∅ (sessionsStreams h !! sid))).
    { unfold listed. rewrite elem_of_range_keys.
      destruct (sessionsStreams h !! sid) as [by_id|]; simpl; [| set_solver].
      destruct (by_id !! z); simpl; [eauto | set_solver]. }
    repeat case_decide; naive_solver.
Qed.

(** ** Each request does what it should *)

Lemma subscribe_refines sid stream id h r :
  implements h r ->
  exists h', subscribeSession sid stream id h = Ret tt h' /\
    implements h' (spec_cmd r (CmdSubscribe sid stream id)).
Proof.
  intros [Hm1 Hm2 Hs Hsub Hid Hl Him Hinj]. eexists. split; [by apply subscribeSession_ok |].
  unfold streams_subscribed. split; simpl; try done.
  - intros t. rewrite entry_with_entry, elem_of_union, elem_of_singleton, Hsub.
    case_decide; naive_solver.
  - intros [[x y] z]. rewrite entry_with_entry. unfold listed; simpl.
    specialize (Hl (x, y, z)). unfold listed in Hl; simpl in Hl.
    rewrite lookup_insert. case_decide as He.
    + simplify_eq. intros _. rewrite decide_True by done. simpl. rewrite lookup_insert_eq.
      set_solver.
    + intros Hx. specialize (Hl Hx). case_decide as Hy; [subst | done]. simpl.
      destruct (sessionsStreams h !! y) as [by_id|]; simpl in *; [| set_solver].
      rewrite lookup_insert. case_decide; subst; simpl; set_solver.
Qed.

Lemma unsubscribe_refines sid stream id h r :
  implements h r ->
  exists h', unsubscribeSession sid stream id h = Ret tt h' /\
    implements h' (spec_cmd r (CmdUnsubscribe sid stream id)).
Proof.
  intros [Hm1 Hm2 Hs Hsub Hid Hl Him Hinj].
  destruct (unsubscribeSession_ok sid stream id h Hm1) as (st & -> & Hst).
  eexists. split; [done |]. split; simpl; try done.
  - intros t. rewrite Hst, elem_of_difference, elem_of_singleton, Hsub.
    case_decide; [split; [tauto | by intros []] | tauto].
  - intros t. rewrite Hst. case_decide; [by intros [] |]. apply Hl.
Qed.

Lemma unsubscribe_all_refines sid id h r :
  implements h r ->
  exists h', unsubscribeSessionFromChannel sid id false h = Ret tt h' /\
    implements h' (spec_cmd r (CmdUnsubscribeAll sid id)).
Proof.
  intros [Hm1 Hm2 Hs Hsub Hid Hl Him Hinj].
  destruct (unsubscribe_channel_ok sid id false h Hm1) as (st & -> & Hst).
  eexists. split; [done |]. split; simpl; try done.
  - intros [[x y] z]. rewrite Hst, elem_of_filter, Hsub. specialize (Hl (x, y, z)). simpl in *.
    case_decide as Hd; [split; [tauto | by intros []] |].
    split; [tauto |]. intros Hx. split; [| done]. intros [-> ->]. apply Hd. auto.
  - intros t. rewrite Hst. case_decide; [by intros [] |]. apply Hl.
Qed.

Lemma fresh_idmap_fresh h : idmaps h !! fresh_idmap h = None.
Proof.
  assert (H : forall k, is_Some (idmaps h !! k) -> k < fresh_idmap h).
  { unfold fresh_idmap. generalize (idmaps h). clear. intros m.
    apply (map_fold_weak_ind (fun n m => forall k, is_Some (m !! k) -> k < n)).
    - intros k [x Hx]. by rewrite lookup_empty in Hx.
    - intros i x m' n _ IH k. rewrite lookup_insert. case_decide; subst; [lia |].
      intros Hk. specialize (IH k Hk). lia. }
  destruct (idmaps h !! fresh_idmap h) eqn:He; [| done].
  assert (fresh_idmap h < fresh_idmap h) by (apply H; eauto). lia.
Qed.

Lemma alter_as_insert {A} (f : A -> A) (k : nat) (m : gmap nat A) x :
  m !! k = Some x -> alter f k m = <[k := f x]> m.
Proof.
  intros Hx. apply map_eq; intros i. rewrite lookup_alter, lookup_insert.
  case_decide; [subst; by rewrite Hx | done].
Qed.

(** Adding a session stores it under the map object of its identifiers, which is
    made if there is none. *)
Lemma hub_addSession_ok l uid ids h r :
  implements h r ->
  exists o m,
    hub_addSession l uid ids h =
      Ret tt (set_idmaps (<[o := <[uid := true]> m]> (idmaps h))
               (set_identifiers (<[ids := o]> (identifiers h))
                 (set_sessions (<[uid := l]> (sessions h)) h))) /\
    ((identifiers h !! ids = Some o /\ idmaps h !! o = Some m) \/
     (identifiers h !! ids = None /\ idmaps h !! o = None /\ m = ∅)).
Proof.
  intros Him. pose proof (fresh_idmap_fresh h) as Hf. destruct Him as [_ Hmu _ _ _ _ Him _].
  destruct (identifiers h !! ids) as [o|] eqn:Hids.
  - destruct (Him ids o Hids) as (m & Hm & _). exists o, m. split; [| by left].
    open_hub h. unfold hub_addSession, bind; simpl. rewrite Hids; simpl. rewrite Hids.
    by rewrite (insert_id idents), (alter_as_insert _ o _ m).
  - exists (fresh_idmap h), ∅. split; [| by right]. open_hub h.
    unfold hub_addSession, bind; simpl. rewrite Hids; simpl. rewrite lookup_insert_eq.
    rewrite (alter_as_insert _ _ _ ∅) by apply lookup_insert_eq. by rewrite insert_insert_eq.
Qed.

Lemma add_refines l uid ids h r :
  implements h r ->
  exists h', hub_addSession l uid ids h = Ret tt h' /\ implements h' (spec_cmd r (CmdAdd l uid ids)).
Proof.
  intros Hi. destruct (hub_addSession_ok l uid ids h r Hi) as (o & m & -> & Ho).
  destruct Hi as [Hm1 Hm2 Hs Hsub Hid Hl Him Hinj]. eexists. split; [done |].
  assert (Hother : forall i o', identifiers h !! i = Some o' -> i <> ids -> o' <> o).
  { intros i o' Hi Hne ->. destruct Ho as [[Hids _] | (_ & Hnone & _)].
    - by eapply Hne, Hinj.
    - destruct (Him i o Hi) as (m' & Hm' & _). congruence. }
  split; simpl; try done.
  - by rewrite Hs.
  - intros [i u]. rewrite elem_of_union, elem_of_singleton, Hid. unfold ident_entry; simpl.
    rewrite lookup_insert. case_decide as Hi; [subst i |].
    + rewrite lookup_insert_eq, lookup_insert. case_decide as Hu; [naive_solver |].
      destruct Ho as [[-> ->] | (-> & _ & ->)].
      * naive_solver.
      * rewrite lookup_empty. split; [| by intros []]. intros [[] | ?]; naive_solver.
    + destruct (identifiers h !! i) as [o'|] eqn:Hio; [| naive_solver].
      rewrite lookup_insert_ne by (symmetry; eauto). naive_solver.
  - intros i o'. rewrite lookup_insert. case_decide as Hi.
    + intros [= <-]. rewrite lookup_insert_eq. eexists. split; [done |]. apply insert_non_empty.
    + intros Hio. rewrite lookup_insert_ne by (symmetry; eauto). eauto.
  - intros i j o'. rewrite !lookup_insert. repeat case_decide; subst; eauto; try done;
      intros ? ?; simplify_eq; exfalso; eapply Hother; eauto.
Qed.

(** Removing a session that is not registered changes nothing; otherwise it
    disappears from all the maps. *)
Lemma remove_registry_ok uid ids h :
  sessionsMu h = rw_free -> streamsMu h = rw_free ->
  is_Some (sessions h !! uid) ->
  (forall i o, identifiers h !! i = Some o -> is_Some (idmaps h !! o)) ->
  exists st idents idms,
    hub_removeSession uid ids h =
      Ret tt (set_identifiers idents (set_idmaps idms (set_sessions (delete uid (sessions h))
        (set_sessionsStreams (delete uid (sessionsStreams h)) (set_streams st h))))) /\
    (forall t, entry st t =
      if decide (t.1.2 = uid /\ t.1.1 ∈ listed h uid t.2) then None else entry (streams h) t) /\
    match identifiers h !! ids with
    | None => idents = identifiers h /\ idms = idmaps h
    | Some o =>
        idms = alter (delete uid) o (idmaps h) /\
        idents = (if decide (delete uid (default ∅ (idmaps h !! o)) = ∅)
                  then delete ids (identifiers h) else identifiers h)
    end.
Proof.
  intros Hm2 Hm1 Hreg Hobj.
  destruct (unsubscribe_all_ok uid h Hm1) as (st & Hun & Hst).
  assert (Hun' : unsubscribeSessionFromAllChannels uid (set_sessionsMu rw_free h) =
    Ret tt (set_sessionsStreams (delete uid (sessionsStreams h)) (set_streams st h))).
  { destruct h; simpl in *; by subst. }
  exists st, (match identifiers h !! ids with
              | None => identifiers h
              | Some o => if decide (delete uid (default ∅ (idmaps h !! o)) = ∅)
                          then delete ids (identifiers h) else identifiers h
              end),
    (match identifiers h !! ids with
     | None => idmaps h
     | Some o => alter (delete uid) o (idmaps h)
     end).
  split; [| split; [exact Hst | by destruct (identifiers h !! ids)]].
  unfold hub_removeSession.
  erewrite bind_ret_eq by (unfold on_sessionsMu, zoom, rw_rlock; by rewrite Hm2).
  erewrite bind_ret_eq by reflexivity.
  change (sessions (set_sessionsMu ?x h)) with (sessions h).
  destruct (sessions h !! uid) as [l|]; [| by destruct Hreg].
  erewrite bind_ret_eq by reflexivity. simpl.
  erewrite bind_ret_eq by exact Hun'.
  open_hub h. unfold bind; simpl. destruct (idents !! ids) as [o|] eqn:Hids; simpl; [| by rewrite Hids].
  rewrite Hids, lookup_alter_eq.
  destruct (Hobj ids o Hids) as [m Hm]. rewrite Hm; simpl.
  by destruct (decide (delete uid m = ∅)).
Qed.

Definition idents_ok h : Prop :=
  (forall i o, identifiers h !! i = Some o -> exists m, idmaps h !! o = Some m /\ m <> ∅) /\
  (forall i j o, identifiers h !! i = Some o -> identifiers h !! j = Some o -> i = j).

Lemma idents_removed uid ids h h' :
  idents_ok h ->
  match identifiers h !! ids with
  | None => identifiers h' = identifiers h /\ idmaps h' = idmaps h
  | Some o =>
      idmaps h' = alter (delete uid) o (idmaps h) /\
      identifiers h' = (if decide (delete uid (default ∅ (idmaps h !! o)) = ∅)
                        then delete ids (identifiers h) else identifiers h)
  end ->
  idents_ok h' /\
  forall p, is_Some (ident_entry h' p) <-> is_Some (ident_entry h p) /\ p <> (ids, uid).
Proof.
  intros [Him Hinj] Hmaps. unfold ident_entry.
  destruct (identifiers h !! ids) as [o|] eqn:Hids.
  2: { destruct Hmaps as [H1 H2]. unfold idents_ok. rewrite H1, H2. split; [done |].
       intros [i u]; simpl. split; [| tauto]. intros Hx. split; [done |].
       intros [= -> ->]. rewrite Hids in Hx. by destruct Hx. }
  destruct (Him ids o Hids) as (m & Hm & Hne). rewrite Hm in Hmaps. simpl in Hmaps.
  destruct Hmaps as [H1 H2].
  assert (Hother : forall i o', identifiers h !! i = Some o' -> i <> ids -> o' <> o).
  { intros i o' Hi Hn ->. eauto. }
  unfold idents_ok. rewrite H1, H2. clear H1 H2.
  destruct (decide (delete uid m = ∅)) as [He|He]; (split; [split |]).
  - intros i o'. rewrite lookup_delete. case_decide; [done |]. intros Hi.
    rewrite lookup_alter_ne by (symmetry; eauto). eauto.
  - intros i j o'. rewrite !lookup_delete. repeat case_decide; eauto; done.
  - intros [i u]. simpl. rewrite lookup_delete. case_decide as Hi.
    + subst. split; [by intros [] |]. rewrite Hids, Hm. intros [Hu Hp]. exfalso.
      assert (delete uid m !! u = None) as Hn by (by rewrite He).
      rewrite lookup_delete_ne in Hn by naive_solver. rewrite Hn in Hu. by destruct Hu.
    + destruct (identifiers h !! i) as [o'|] eqn:Hio; [| naive_solver].
      rewrite lookup_alter_ne by (symmetry; eauto). naive_solver.
  - intros i o' Hi. rewrite lookup_alter. case_decide; [subst; rewrite Hm; simpl; eauto | eauto].
  - done.
  - intros [i u]. simpl. destruct (identifiers h !! i) as [o'|] eqn:Hio; [| naive_solver].
    rewrite lookup_alter. case_decide as Ho; [subst | split; [| tauto]].
    + assert (i = ids) by eauto. subst. rewrite Hm; simpl. rewrite lookup_delete.
      case_decide; naive_solver.
    + intros Hx. split; [done |]. intros [= -> ->]. congruence.
Qed.

Lemma remove_refines uid ids h r :
  implements h r ->
  exists h', hub_removeSession uid ids h = Ret tt h' /\ implements h' (spec_cmd r (CmdRemove uid ids)).
Proof.
  intros [Hm1 Hm2 Hs Hsub Hid Hl Him Hinj]. simpl. rewrite <- Hs.
  destruct (sessions h !! uid) as [l|] eqn:Hu.
  2: { exists h. split; [| by split]. open_hub h. unfold hub_removeSession, bind; simpl.
       by rewrite Hu. }
  destruct (remove_registry_ok uid ids h) as (st & idents & idms & -> & Hst & Hmaps); [done | done | eauto | |].
  { intros i o Hi. destruct (Him i o Hi) as (m & Hm & _). eauto. }
  eexists. split; [done |].
  match goal with |- implements ?h' _ =>
    destruct (idents_removed uid ids h h') as [[Hid1 Hid2] Hid3]; [by split | exact Hmaps |] end.
  split; simpl; try done.
  - intros [[x y] z]. rewrite Hst, elem_of_filter, Hsub. specialize (Hl (x, y, z)). simpl in *.
    case_decide as Hd; [split; [naive_solver | by intros []] |].
    split; [tauto |]. intros Hx. split; [| done]. intros ->. apply Hd. auto.
  - intros p. by rewrite elem_of_difference, elem_of_singleton, Hid, Hid3.
  - intros [[x y] z]. rewrite Hst. simpl. case_decide as Hd; [by intros [] |]. intros Hx.
    specialize (Hl (x, y, z) Hx). simpl in Hl. unfold listed in *; simpl.
    rewrite lookup_delete_ne; [done |]. intros ->. apply Hd. done.
Qed.

Lemma new_hub_implements p : implements (hub_with_pool p) empty_registry.
Proof.
  split; simpl; try done.
  - intros [[x y] z]. simpl. split; [set_solver | by intros []].
  - intros [i u]. split; [set_solver | by intros []].
  - intros [[x y] z]. by intros [].
Qed.

Lemma run_cmd_refines c h r :
  implements h r -> exists h', run_cmd c h = Ret tt h' /\ implements h' (spec_cmd r c).
Proof.
  destruct c; [apply add_refines | apply remove_refines | apply subscribe_refines
    | apply unsubscribe_refines | apply unsubscribe_all_refines].
Qed.

(** C6. The hub refines the registry of sets: from a fresh hub, any sequence of
    registrations, removals, subscriptions and unsubscriptions runs to completion
    with both locks free, for every iteration order of the maps, and afterwards
    the registered sessions, the sessions of each identifier and the subscribed
    (stream, session, identifier) triples are exactly those the registry
    computes. *)
Theorem hub_refines_registry cmds p :
  exists h', each run_cmd cmds (hub_with_pool p) = Ret tt h' /\
    implements h' (foldl spec_cmd empty_registry cmds).
Proof.
  pose proof (new_hub_implements p) as Hi. revert Hi.
  generalize (hub_with_pool p) as h, empty_registry as r.
  induction cmds as [|c cmds IH]; intros h r Hi; simpl; [by exists h |].
  destruct (run_cmd_refines c h r Hi) as (h1 & Hrun & Hi1).
  erewrite bind_ret_eq by exact Hrun. by apply IH.
Qed.
End refinement.
