(* ===== verification/HubDelivery.v ===== *)
(** * Broadcasts reach their subscribers

    The broadcast task of [src/node/hub.go], run on a node whose sessions have
    room in their queues: every registered session gets one frame for each of
    its identifiers subscribed to the stream, whatever the iteration order of the
    maps, and the shared encoding cache does not change the frames. *)

From Stdlib Require Import ZArith Lia Ascii String.
From stdpp Require Import base gmap strings list fin_maps fin_sets.
From S2P Require Import Prelude Json Common Metrics Encoders World Session SessionSafety Hub HubSpec.

Local Open Scope string_scope.

Section delivery.
Context {C : Type} {order : GoRange}.
(** Encoders of the same name encode alike. *)
Context (encode : string -> EncodedMessage -> result (option SentFrame)).
Implicit Types (l : loc) (w : World C) (s : Session) (h : Hub).

(** The reply that carries [data] to the subscriber of an identifier, and its
    frame under the encoder of a session. *)
Definition reply_of (data id : string) : EncodedMessage :=
  EReply (mkReply EmptyString id
    (match scan data with Some v => to_interface v | None => JNull end)).

Definition frame_for (data : string) s (id : string) : option SentFrame :=
  frame_of (Encode (encoder s) (reply_of data id)).

Definition pushed (fs : list SentFrame) s : Session :=
  set_sendQ (mkChan (ch_buf (sendQ s) ++ fs)%list (ch_cap (sendQ s)) (ch_closed (sendQ s))) s.

(** A session that can take [n] more frames. *)
Definition has_room (n : nat) s : Prop :=
  session_ok s /\ sendCh s = true /\ length (ch_buf (sendQ s)) + n <= ch_cap (sendQ s).

Lemma pushed_nil s : pushed [] s = s.
Proof. destruct s as [? ? ? ? ? ? ? ? [] ]; unfold pushed; simpl. by rewrite app_nil_r. Qed.

Lemma pushed_pushed fs gs s : pushed gs (pushed fs s) = pushed (fs ++ gs)%list s.
Proof. unfold pushed; simpl. by rewrite <- app_assoc. Qed.

Lemma pushed_room n f s : has_room (S n) s -> has_room n (pushed [f] s).
Proof.
  intros ([Hmu Hsmu Hop Hr] & Hch & Hn). split; [| split; [done |]].
  - split; simpl; try done. rewrite length_app; simpl. lia.
  - simpl. rewrite length_app; simpl. lia.
Qed.

Lemma sendFrame_room n l f s w :
  has_room (S n) s -> sendFrame l f (put_session l s w) = Ret tt (put_session l (pushed [f] s) w).
Proof.
  intros (Hs & Hch & Hn).
  assert (Hf : chan_full (sendQ s) = false) by (apply bool_decide_eq_false; lia).
  assert (Ho : overflows s = false) by (unfold overflows; by rewrite Hf, andb_false_r).
  rewrite sendFrame_ok by (rewrite ?Ho; done). unfold after_send. by rewrite Ho, Hch, Hf.
Qed.

(** A message under construction for a broadcast of [data]. *)
Definition cached_reply (data id : string) (m : EncodedMessage) : Prop :=
  exists cache, m = ECached (reply_of data id) cache /\ coherent encode (reply_of data id) cache.

Definition buffer_ok (data : string) (buf : gmap string EncodedMessage) : Prop :=
  forall id m, buf !! id = Some m -> cached_reply data id m.

Lemma buildMessage_cached data id : cached_reply data id (buildMessage data id).
Proof. exists ∅. split; [done |]. by intros ? ?. Qed.

Lemma Send_cached n data id m l s w :
  cached_reply data id m -> Encode (encoder s) = encode (ID (encoder s)) -> has_room (S n) s ->
  exists m', Send l m (put_session l s w) =
      Ret m' (put_session l (pushed (option_list (frame_for data s id)) s) w) /\
    cached_reply data id m'.
Proof.
  intros (cache & -> & Hco) Henc Hroom. unfold Send, encodeMessage, frame_for. rewrite Henc.
  destruct (fetch_coherent encode (reply_of data id) (ID (encoder s)) cache Hco)
    as (cache' & Hf & Hco').
  exists (ECached (reply_of data id) cache').
  unfold bind at 1 2. rewrite load_put, Henc, Hf.
  destruct (frame_of (encode (ID (encoder s)) (reply_of data id))) as [f|]; simpl.
  - unfold bind. erewrite sendFrame_room by done. split; [done | by exists cache'].
  - rewrite pushed_nil. split; [done | by exists cache'].
Qed.

Lemma pushed_encoder fs s : encoder (pushed fs s) = encoder s.
Proof. done. Qed.

Lemma send_all_ok data l ids buf s w :
  buffer_ok data buf -> Encode (encoder s) = encode (ID (encoder s)) ->
  has_room (length ids) s ->
  exists buf', send_all data l ids buf (put_session l s w) =
      Ret buf' (put_session l (pushed (omap (frame_for data s) ids) s) w) /\
    buffer_ok data buf'.
Proof.
  revert buf s. induction ids as [|id ids IH]; intros buf s Hbuf Henc Hroom.
  - exists buf. simpl. by rewrite pushed_nil.
  - assert (Hm : cached_reply data id
      (match buf !! id with Some msg => msg | None => buildMessage data id end)).
    { destruct (buf !! id) eqn:Hb; [by apply Hbuf | apply buildMessage_cached]. }
    destruct (Send_cached (length ids) data id _ l s w Hm Henc Hroom) as (m' & Hsend & Hm').
    cbn [send_all omap list_omap]. erewrite bind_ret_eq by exact Hsend.
    assert (Hbuf' : buffer_ok data (<[id := m']> buf)).
    { intros i m Hi. apply lookup_insert_Some in Hi as [[<- <-] | [_ Hi]]; [done | by apply Hbuf]. }
    assert (Hroom' : has_room (length ids) (pushed (option_list (frame_for data s id)) s)).
    { destruct (frame_for data s id); simpl; [by apply pushed_room |].
      rewrite pushed_nil. destruct Hroom as (Hs & Hch & Hn). simpl in Hn.
      split; [done |]. split; [done | lia]. }
    destruct (IH _ (pushed (option_list (frame_for data s id)) s) Hbuf' Henc Hroom') as (buf' & -> & Hok). exists buf'. split; [| done].
    rewrite pushed_pushed. do 3 f_equal. by destruct (frame_for data s id).
Qed.

(** The heap after a broadcast to the given targets. *)
Definition delivered (data : string) h (targets : list (string * list string))
    (heap : gmap loc Session) : gmap loc Session :=
  foldl (fun heap target =>
    match sessions h !! target.1 with
    | None => heap
    | Some l => alter (fun s => pushed (omap (frame_for data s) target.2) s) l heap
    end) heap targets.

(** Registered sessions exist and go by the name they are registered under. *)
Definition registered_ok h (heap : gmap loc Session) : Prop :=
  forall sid l, sessions h !! sid = Some l -> exists s, heap !! l = Some s /\ UID s = sid.

Lemma registered_inj h heap sid sid' l :
  registered_ok h heap -> sessions h !! sid = Some l -> sessions h !! sid' = Some l -> sid = sid'.
Proof.
  intros Hr H1 H2. destruct (Hr _ _ H1) as (s & Hs & <-). destruct (Hr _ _ H2) as (s' & Hs' & <-).
  congruence.
Qed.

Lemma put_alter l f s w :
  w_sessions w !! l = Some s -> put_session l (f s) w = set_heap (alter f l (w_sessions w)) w.
Proof. intros Hs. unfold put_session. by rewrite (alter_as_insert f l _ s). Qed.

(** Every target has room, and uses a known encoder. *)
Definition target_ready h (heap : gmap loc Session) (target : string * list string) : Prop :=
  forall l s, sessions h !! target.1 = Some l -> heap !! l = Some s ->
    has_room (length target.2) s /\ Encode (encoder s) = encode (ID (encoder s)).

Lemma broadcast_loop_ok data targets buf w :
  sessionsMu (w_hub w) = rw_free -> registered_ok (w_hub w) (w_sessions w) ->
  NoDup targets.*1 -> Forall (target_ready (w_hub w) (w_sessions w)) targets ->
  buffer_ok data buf ->
  broadcast_loop data targets buf w =
    Ret tt (set_heap (delivered data (w_hub w) targets (w_sessions w)) w).
Proof.
  revert buf w. induction targets as [|[sid ids] targets IH]; intros buf w Hmu Hreg Hnd Hall Hbuf.
  { by destruct w. }
  apply NoDup_cons in Hnd as [Hnin Hnd]. inversion Hall as [|? ? Ht Hall']; subst.
  cbn [broadcast_loop]. unfold bind at 1.
  assert (Hread : on_hub (read_sessions (fun h => sessions h !! sid)) w =
                  Ret (sessions (w_hub w) !! sid) w).
  { destruct w as [? ? h ? ? ? ?]; simpl in *. by open_hub h. }
  rewrite Hread. simpl delivered. destruct (sessions (w_hub w) !! sid) as [l|] eqn:Hsid.
  2: by apply IH.
  destruct (Hreg _ _ Hsid) as (s & Hs & Huid). destruct (Ht l s Hsid Hs) as [Hroom Henc].
  rewrite <- (put_session_id l s w) at 1 by done.
  destruct (send_all_ok data l ids buf s w Hbuf Henc Hroom) as (buf' & Hsend & Hbuf').
  erewrite bind_ret_eq by exact Hsend.
  rewrite (put_alter l (fun s => pushed (omap (frame_for data s) ids) s) s w Hs).
  apply (IH buf' (set_heap _ w)); simpl; try done.
  - intros sid' l' Hl'. destruct (Hreg _ _ Hl') as (s' & Hs' & Hu'). rewrite lookup_alter.
    case_decide; [subst l'; rewrite Hs'; by eexists | eauto].
  - rewrite Forall_forall in Hall'. apply Forall_forall. intros [sid' ids'] Hin l' s' Hl' Hs'.
    simpl in *. rewrite lookup_alter_ne in Hs'; [exact (Hall' _ Hin _ _ Hl' Hs') |].
    intros <-. apply Hnin. apply list_elem_of_fmap. exists (sid', ids'). split; [| done].
    by eapply registered_inj.
Qed.

Lemma delivered_cons data h sid ids targets heap :
  delivered data h ((sid, ids) :: targets) heap =
  delivered data h targets
    (match sessions h !! sid with
     | None => heap
     | Some l => alter (fun s => pushed (omap (frame_for data s) ids) s) l heap
     end).
Proof. done. Qed.

Lemma delivered_lookup data h targets heap l s :
  registered_ok h heap -> NoDup targets.*1 -> heap !! l = Some s ->
  delivered data h targets heap !! l =
  Some (pushed (if decide (sessions h !! UID s = Some l)
                then omap (frame_for data s)
                       (default [] ((list_to_map targets : gmap string (list string)) !! UID s))
                else []) s).
Proof.
  revert heap s. induction targets as [|[sid ids] targets IH]; intros heap s Hreg Hnd Hs.
  - simpl. rewrite lookup_empty. simpl. by case_decide; rewrite pushed_nil.
  - apply NoDup_cons in Hnd as [Hnin Hnd]. rewrite delivered_cons. simpl list_to_map. rewrite lookup_insert.
    destruct (sessions h !! sid) as [l'|] eqn:Hsid.
    2: { rewrite (IH heap s) by done. case_decide as Hd; [| done].
         rewrite decide_False by (intros ->; congruence). done. }
    assert (Hreg' : registered_ok h
      (alter (fun s => pushed (omap (frame_for data s) ids) s) l' heap)).
    { intros x y Hx. destruct (Hreg _ _ Hx) as (t & Ht & Hu). rewrite lookup_alter.
      case_decide; [subst; rewrite Ht; by eexists | eauto]. }
    destruct (decide (l' = l)) as [->|Hne].
    + destruct (Hreg _ _ Hsid) as (t & Ht & Hu). assert (t = s) by congruence. subst t sid.
      rewrite (IH _ (pushed (omap (frame_for data s) ids) s)); [| done.. |].
      2: { rewrite lookup_alter_eq. by rewrite Hs. }
      simpl UID. rewrite !decide_True by done.
      rewrite (not_elem_of_list_to_map_1 targets (UID s)) by done. simpl.
      by rewrite pushed_nil.
    + rewrite (IH _ s); [| done.. |].
      2: by rewrite lookup_alter_ne.
      case_decide as Hd; [| done]. rewrite decide_False; [done |]. intros ->. congruence.
Qed.

(** The identifiers under which a session receives a stream. *)
Definition subscribed_ids h (stream sid : string) : gmap string bool :=
  default ∅ (default ∅ (streams h !! stream) !! sid).

Lemma snapshot_lookup h stream sid :
  default [] (streamSessionsSnapshot (default ∅ (streams h !! stream)) !! sid) =
  range_keys (subscribed_ids h stream sid).
Proof.
  unfold streamSessionsSnapshot, subscribed_ids. rewrite lookup_fmap.
  destruct (default ∅ (streams h !! stream) !! sid); simpl; [done |].
  by rewrite range_keys_empty.
Qed.

Lemma subscribed_ids_entry h stream sid id :
  id ∈ range_keys (subscribed_ids h stream sid) <-> is_Some (entry (streams h) (stream, sid, id)).
Proof.
  rewrite elem_of_range_keys. unfold subscribed_ids; simpl.
  destruct (streams h !! stream) as [by_sid|]; simpl; [| by rewrite !lookup_empty].
  by destruct (by_sid !! sid).
Qed.

Lemma run_broadcast_ok stream data w :
  streamsMu (w_hub w) = rw_free -> sessionsMu (w_hub w) = rw_free ->
  registered_ok (w_hub w) (w_sessions w) ->
  (forall l s, sessions (w_hub w) !! UID s = Some l -> w_sessions w !! l = Some s ->
    has_room (size (subscribed_ids (w_hub w) stream (UID s))) s /\
    Encode (encoder s) = encode (ID (encoder s))) ->
  exists targets, run_broadcast stream data w =
      Ret tt (set_heap (delivered data (w_hub w) targets (w_sessions w)) w) /\
    NoDup targets.*1 /\
    list_to_map targets = streamSessionsSnapshot (default ∅ (streams (w_hub w) !! stream)).
Proof.
  intros Hmu1 Hmu2 Hreg Hready.
  set (snapshot := streamSessionsSnapshot (default ∅ (streams (w_hub w) !! stream))).
  exists (range snapshot). split; [| split; [apply range_keys_NoDup | apply range_list_to_map]].
  assert (Hrun : run_broadcast stream data w = broadcast_loop data (range snapshot) ∅ w).
  { unfold run_broadcast, snapshot. destruct w as [? ? h ? ? ? ?]; simpl in *. by open_hub h. }
  rewrite Hrun. apply broadcast_loop_ok; try done; [apply range_keys_NoDup |].
  apply Forall_forall. intros [sid ids] Hin l s Hl Hs. simpl in *.
  destruct (Hreg _ _ Hl) as (s' & Hs' & Hu). assert (s' = s) by congruence. subst s' sid.
  destruct (Hready l s Hl Hs) as [Hroom Henc]. split; [| done].
  apply elem_of_range in Hin. pose proof (snapshot_lookup (w_hub w) stream (UID s)) as Hids.
  fold snapshot in Hids. rewrite Hin in Hids. simpl in Hids. subst ids.
  unfold range_keys. by rewrite length_fmap, range_perm, length_map_to_list.
Qed.

End delivery.

(** ** A concrete broadcast *)

Definition sample_hub_node : World unit :=
  put_session 1 (sample_session [] 256)
    (set_hub (set_sessions {[ "sid" := 1 ]}
       (set_streams {[ "news" := {[ "sid" := {[ "chat" := true ]} ]} ]}
          (hub_with_pool (mkPool 16 8 [])))) sample_node).

