(* ===== verification/HubDisconnect.v ===== *)
(** * Disconnecting many sessions

    The hub's remote disconnect task and the node's shutdown both tell a list of
    sessions to go ([src/node/hub.go] [disconnectSessions], [src/node/node.go]
    [Shutdown]). This file runs that loop symbolically. *)

From Stdlib Require Import ZArith Lia Ascii String.
From stdpp Require Import base gmap strings list fin_maps fin_sets.
From S2P Require Import Prelude Json Common Metrics Encoders World Session SessionSafety Hub HubSpec HubDelivery.

Local Open Scope string_scope.

Section kicking.
Context {C : Type} {order : GoRange}.
Implicit Types (l : loc) (w : World C) (s : Session) (h : Hub).
Context (msg : DisconnectMessage) (reason : string) (code : Z).

(** One session: the disconnect message, then the close frame. *)
Definition kick l : M (World C) unit :=
  Send l (EDisconnect msg) ;; Session_Disconnect l reason code.

(** The session after it. *)
Definition kicked s : Session :=
  disconnected reason code
    (match Encode (encoder s) (EDisconnect msg) with
     | Ok (Some f) => after_send f s
     | _ => s
     end).

(** The node can take [n] departures. *)
Definition leave_room (n : nat) w : Prop :=
  ch_closed (register (w_hub w)) = false /\
  length (ch_buf (register (w_hub w))) + n <= ch_cap (register (w_hub w)) /\
  match w_disconnector w with
  | None => False
  | Some DNoop => True
  | Some (DQueue q) =>
      dq_mu q = false /\ ch_closed (dq_disconnect q) = false /\
      (dq_isStopped q = false ->
       length (ch_buf (dq_disconnect q)) + n <= ch_cap (dq_disconnect q))
  end.

Lemma leave_room_can_leave n w : leave_room (S n) w -> can_leave w.
Proof.
  intros (Hc & Hn & Hd). split; [done |].
  split; [apply bool_decide_eq_false; lia |].
  destruct (w_disconnector w) as [[q|]|]; try done.
  destruct Hd as (H1 & H2 & H3). split; [done |]. split; [done |].
  intros Hs. specialize (H3 Hs). apply bool_decide_eq_false. lia.
Qed.

Lemma leave_room_departed n l w : leave_room (S n) w -> leave_room n (departed l w).
Proof.
  intros (Hc & Hn & Hd). split; [done |]. split; [simpl; rewrite length_app; simpl; lia |].
  simpl. destruct (w_disconnector w) as [[q|]|]; simpl; try done.
  destruct Hd as (H1 & H2 & H3). destruct (dq_isStopped q) eqn:Hs; simpl.
  - rewrite Hs. done.
  - split; [done |]. split; [done |]. intros _. rewrite length_app. simpl. specialize (H3 eq_refl). lia.
Qed.

Lemma leave_room_le n m w : m <= n -> leave_room n w -> leave_room m w.
Proof.
  intros Hle (Hc & Hn & Hd). split; [done |]. split; [lia |].
  destruct (w_disconnector w) as [[q|]|]; try done.
  destruct Hd as (H1 & H2 & H3). split_and!; try done. intros Hs. specialize (H3 Hs). lia.
Qed.

Lemma Send_disconnect_ok l s w :
  session_ok s -> (Connected s = true -> can_leave w) ->
  Send l (EDisconnect msg) (put_session l s w) =
  Ret (EDisconnect msg)
    (match Encode (encoder s) (EDisconnect msg) with
     | Ok (Some f) => put_session l (after_send f s)
                        (if overflows s && Connected s then departed l w else w)
     | _ => put_session l s w
     end).
Proof.
  intros Hs Hl. unfold Send.
  erewrite bind_ret_eq by (unfold encodeMessage; erewrite bind_ret_eq by apply load_put; reflexivity).
  destruct (Encode (encoder s) (EDisconnect msg)) as [[f|]|]; [| done..].
  erewrite bind_ret_eq; [reflexivity |]. apply sendFrame_ok; [done |].
  intros Ho. apply Hl. by apply andb_prop in Ho as [_ ?].
Qed.

Lemma kick_ok l s w :
  session_ok s -> (Connected s = true -> can_leave w) ->
  kick l (put_session l s w) =
  Ret tt (put_session l (kicked s) (if Connected s then departed l w else w)).
Proof.
  intros Hs Hl. unfold kick, kicked.
  erewrite bind_ret_eq by (by apply Send_disconnect_ok).
  destruct (Encode (encoder s) (EDisconnect msg)) as [[f|]|].
  2, 3: by rewrite Session_Disconnect_ok.
  assert (Hc : Connected (after_send f s) = negb (overflows s) && Connected s).
  { unfold after_send, overflows, closing, stop_ping. open_session s.
    destruct open_ch, (chan_full q), is_closed, timer, is_connected; done. }
  rewrite Session_Disconnect_ok; [| by apply after_send_ok |]; rewrite ?Hc.
  - by destruct (overflows s), (Connected s).
  - destruct (overflows s); [done |]. apply Hl.
Qed.

(** Many sessions, one after the other. *)
Definition kick_step w l : World C :=
  match w_sessions w !! l with
  | Some s => put_session l (kicked s) (if Connected s then departed l w else w)
  | None => w
  end.

Lemma kick_each ls w :
  NoDup ls -> Forall (fun l => exists s, w_sessions w !! l = Some s /\ session_ok s) ls ->
  leave_room (length ls) w ->
  each kick ls w = Ret tt (foldl kick_step w ls).
Proof.
  revert w. induction ls as [|l ls IH]; intros w Hnd Hall Hroom; [done |].
  apply NoDup_cons in Hnd as [Hnin Hnd]. inversion Hall as [|? ? (s & Hs & Hok) Hall']; subst.
  simpl. unfold kick_step at 2. rewrite Hs.
  assert (Hk : kick l w = Ret tt (put_session l (kicked s) (if Connected s then departed l w else w))).
  { rewrite <- (put_session_id l s w) at 1 by done. apply kick_ok; [done |].
    intros _. by eapply leave_room_can_leave. }
  erewrite bind_ret_eq by exact Hk. apply IH; [done | |].
  - rewrite Forall_forall in *. intros l' Hl'. destruct (Hall' l' Hl') as (s' & Hs' & Hok').
    exists s'. split; [| done]. rewrite lookup_put_ne by (intros ->; done).
    by destruct (Connected s).
  - simpl in Hroom. destruct (Connected s); [by apply leave_room_departed |].
    eapply leave_room_le; [| exact Hroom]. lia.
Qed.

Lemma kick_step_sessions ls w :
  NoDup ls ->
  forall l, w_sessions (foldl kick_step w ls) !! l =
    if decide (l ∈ ls) then kicked <$> w_sessions w !! l else w_sessions w !! l.
Proof.
  revert w. induction ls as [|l' ls IH]; intros w Hnd l; [done |].
  apply NoDup_cons in Hnd as [Hnin Hnd]. cbn [foldl]. rewrite IH by done. unfold kick_step.
  destruct (w_sessions w !! l') as [s|] eqn:Hs.
  - destruct (decide (l' = l)) as [->|Hne].
    + rewrite lookup_put, decide_False, decide_True by set_solver. by rewrite Hs.
    + rewrite lookup_put_ne by done.
      replace (w_sessions (if Connected s then departed l' w else w)) with (w_sessions w)
        by (by destruct (Connected s)).
      by destruct (decide (l ∈ ls)); [rewrite decide_True by set_solver
                                     | rewrite decide_False by set_solver].
  - destruct (decide (l ∈ ls)); [by rewrite decide_True by set_solver |].
    destruct (decide (l = l')) as [->|]; [| by rewrite decide_False by set_solver].
    rewrite Hs. by destruct (decide _).
Qed.

(** The removals queued for the hub: one for each session that was connected. *)
Definition is_connected w l : bool :=
  match w_sessions w !! l with Some s => Connected s | None => false end.

Definition departures w (ls : list loc) : list HubRegistration :=
  mkHubRegistration "remove" <$> filter (fun l => is_connected w l = true) ls.

Lemma kick_step_hub ls w :
  NoDup ls ->
  w_hub (foldl kick_step w ls) =
  set_register (mkChan (ch_buf (register (w_hub w)) ++ departures w ls)%list
                  (ch_cap (register (w_hub w))) (ch_closed (register (w_hub w)))) (w_hub w).
Proof.
  revert w. induction ls as [|l ls IH]; intros w Hnd.
  { unfold departures. simpl. rewrite app_nil_r. by destruct (w_hub w) as [? ? ? ? ? ? ? [] ]. }
  apply NoDup_cons in Hnd as [Hnin Hnd]. cbn [foldl]. rewrite IH by done.
  unfold departures. rewrite filter_cons. unfold kick_step.
  assert (Hc : is_connected w l = match w_sessions w !! l with Some s => Connected s | None => false end)
    by done.
  rewrite Hc. clear Hc.
  assert (Hf : forall s v, w_sessions v = w_sessions w ->
    filter (fun l0 => is_connected (put_session l s v) l0 = true) ls =
    filter (fun l0 => is_connected w l0 = true) ls).
  { intros s v Hv. apply filter_ext_in. intros l' Hl'. unfold is_connected.
    rewrite lookup_put_ne by (intros ->; done). by rewrite Hv. }
  destruct (w_sessions w !! l) as [s|] eqn:Hs; [| done].
  destruct (Connected s); simpl; rewrite Hf by done; [| done].
  by rewrite <- app_assoc.
Qed.
End kicking.

Section remote.
Context {C : Type} {order : GoRange}.
Implicit Types (l : loc) (w : World C) (s : Session) (h : Hub).

Abbreviation remote_kicked msg := (kicked msg "Closed remotely" CloseNormalClosure).

(** The sessions that go by the given names. *)
Definition named h (ids : list string) : list loc := omap (fun id => sessions h !! id) ids.

Lemma named_NoDup h heap ids : registered_ok h heap -> NoDup ids -> NoDup (named h ids).
Proof.
  intros Hreg. induction ids as [|id ids IH]; intros Hnd; simpl; [constructor |].
  apply NoDup_cons in Hnd as [Hnin Hnd]. destruct (sessions h !! id) as [l|] eqn:Hl; [| auto].
  apply NoDup_cons. split; [| auto]. unfold named. rewrite list_elem_of_omap.
  intros (id' & Hin & Hl'). apply Hnin.
  by rewrite (registered_inj h heap id id' l).
Qed.

(** The loop over the names looks the sessions up one by one; the registry does
    not change while it runs. *)
Lemma run_names msg reason code reg ids w :
  sessions (w_hub w) = reg ->
  let ls := omap (fun id => reg !! id) ids in
  NoDup ls -> Forall (fun l => exists s, w_sessions w !! l = Some s /\ session_ok s) ls ->
  leave_room (length ls) w ->
  each (fun id =>
          let! w := get in
          match sessions (w_hub w) !! id with
          | None => ret tt
          | Some l => Send l (EDisconnect msg) ;; Session_Disconnect l reason code
          end) ids w =
  Ret tt (foldl (kick_step msg reason code) w ls).
Proof.
  simpl. revert w. induction ids as [|id ids IH]; intros w Hreg Hnd Hall Hroom; [done |].
  cbn [each omap list_omap] in *. destruct (reg !! id) as [l|] eqn:Hl.
  2: { erewrite bind_ret_eq by (unfold bind, get; by rewrite Hreg, Hl). by apply IH. }
  apply NoDup_cons in Hnd as [Hnin Hnd]. inversion Hall as [|? ? (s & Hs & Hok) Hall']; subst.
  cbn [foldl]. erewrite bind_ret_eq.
  2: { unfold bind at 1, get. rewrite Hl. fold (kick (C := C) msg reason code l).
       rewrite <- (put_session_id l s w) at 1 by done. apply kick_ok; [done |].
       intros _. by eapply leave_room_can_leave. }
  unfold kick_step at 2. rewrite Hs. apply IH; [by destruct (Connected s) | done | |].
  - rewrite Forall_forall in *. intros l' Hl'. destruct (Hall' l' Hl') as (s' & Hs' & Hok').
    exists s'. split; [| done]. rewrite lookup_put_ne by (intros ->; done).
    by destruct (Connected s).
  - cbn [length] in Hroom. destruct (Connected s); [by apply leave_room_departed |].
    eapply leave_room_le; [| exact Hroom]. lia.
Qed.

(** The sessions of a map object, as the registry knows them. *)
Definition members h (o : nat) : list loc := named h (range_keys (default ∅ (idmaps h !! o))).

Lemma elem_of_members h heap o l s :
  registered_ok h heap -> heap !! l = Some s ->
  l ∈ members h o <->
  sessions h !! UID s = Some l /\ is_Some (default ∅ (idmaps h !! o) !! UID s).
Proof.
  intros Hreg Hs. unfold members, named. rewrite list_elem_of_omap. split.
  - intros (id & Hid & Hl). apply elem_of_range_keys in Hid.
    destruct (Hreg _ _ Hl) as (s' & Hs' & Hu). by simplify_eq.
  - intros [Hl Hid]. exists (UID s). by rewrite elem_of_range_keys.
Qed.

Lemma named_length h ids : length (named h ids) <= length ids.
Proof.
  induction ids as [|id ids IH]; simpl; [done |].
  unfold named in *; simpl. destruct (sessions h !! id); simpl; lia.
Qed.

Lemma members_length h o : length (members h o) <= size (default ∅ (idmaps h !! o)).
Proof.
  unfold members. etransitivity; [apply named_length |].
  unfold range_keys. by rewrite length_fmap, range_perm, length_map_to_list.
Qed.

End remote.

(** ** A concrete remote disconnect *)

Definition sample_identified_node : World unit :=
  set_hub (set_identifiers {[ "user" := 7 ]} (set_idmaps {[ 7 := {[ "sid" := true ]} ]}
    (w_hub sample_hub_node))) sample_hub_node.

