(* ===== verification/HubRace.v ===== *)
(** * The hub against its workers

    The goroutine of [Hub.Run] and the task of a remote disconnect ([src/node/hub.go]) action
    by action. The task holds the lock of the registry for reading while the sessions it
    disconnects queue their removals; the goroutine that takes removals from the queue needs
    that lock for writing. *)

From Stdlib Require Import ZArith Lia Ascii String.
From stdpp Require Import base gmap strings list fin_maps.
From S2P Require Import Prelude Threads Json Common Metrics Encoders World Session SessionSafety Hub HubSpec HubDelivery HubDisconnect SessionRace.

Local Open Scope string_scope.
Local Open Scope proc_scope.

Section operations.
Context {C : Type} {order : GoRange}.
Implicit Types (l : loc) (w : World C).

(** A session of the identifier, by its name. *)
Definition p_kick (msg : DisconnectMessage) (id : string) : proc (World C) unit :=
  do! w := act get in
  match sessions (w_hub w) !! id with
  | None => Pure tt
  | Some l => p_Send l (EDisconnect msg) ;>> p_Disconnect l "Closed remotely" CloseNormalClosure
  end.

Fixpoint p_each {A} (f : A -> proc (World C) unit) (xs : list A) : proc (World C) unit :=
  match xs with
  | [] => Pure tt
  | x :: xs => f x ;>> p_each f xs
  end.

Definition p_run_disconnect (ids : nat) (msg : DisconnectMessage) : proc (World C) unit :=
  act (on_hub (on_sessionsMu rw_rlock)) ;>>
  do! w := act get in
  p_each (p_kick msg) (range_keys (default ∅ (idmaps (w_hub w) !! ids))) ;>>
  act (on_hub (on_sessionsMu rw_runlock)).

(** [removeSession] takes the lock of the registry twice, with the subscriptions dropped in
    between. *)
Definition p_hub_removeSession (uid ids : string) : proc (World C) unit :=
  act (on_hub (on_sessionsMu rw_rlock)) ;>>
  do! h := act (on_hub get) in
  match sessions h !! uid with
  | None => act (on_hub (on_sessionsMu rw_runlock))
  | Some _ =>
      act (on_hub (on_sessionsMu rw_runlock)) ;>>
      act (on_hub (unsubscribeSessionFromAllChannels uid)) ;>>
      act (on_hub (on_sessionsMu rw_lock)) ;>>
      act (on_hub (modify (fun h => set_sessions (delete uid (sessions h)) h))) ;>>
      act (on_hub (modify (fun h =>
        match identifiers h !! ids with
        | None => h
        | Some o => set_idmaps (alter (delete uid) o (idmaps h)) h
        end))) ;>>
      act (on_hub (modify (fun h =>
        match identifiers h !! ids with
        | None => h
        | Some o =>
            if decide (default ∅ (idmaps h !! o) = ∅)
            then set_identifiers (delete ids (identifiers h)) h else h
        end))) ;>>
      act (on_hub (on_sessionsMu rw_unlock))
  end.

Definition p_handle_registration (r : HubRegistration) : proc (World C) unit :=
  if String.eqb (reg_event r) "add" then act (addSession (reg_session r))
  else do! s := act (load (reg_session r)) in p_hub_removeSession (UID s) (Identifiers s).

(** A reception of the loop, and then what is done with it. *)
Definition p_receive {A} (on : M (Chan A) (option A) -> M Hub (option A)) (k : A -> proc (World C) unit)
    : proc (World C) unit :=
  do! m := act (on_hub (on chan_recv)) in
  match m with
  | Some x => k x
  | None => act (panic "receive from a closed channel")
  end.

Definition p_Run (c : hub_case) : proc (World C) unit :=
  do! w := act get in
  if negb (running (w_hub w)) then act (block "Run has returned")
  else
    match c with
    | CaseRegister => p_receive on_register p_handle_registration
    | CaseSubscribe => p_receive on_subscribe (fun s => act (on_hub (handle_subscription s)))
    | CaseBroadcast =>
        p_receive on_broadcast (fun m => act (on_hub (broadcastToStream (Stream m) (Data m))))
    | CaseDisconnect =>
        p_receive on_disconnect (fun c => act (on_hub (disconnectSessions (rd_Identifier c) (rd_Reconnect c))))
    end.

(** ** Alone *)

Lemma erases_each {A} (f : A -> proc (World C) unit) g xs :
  (forall x, erases (f x) (g x)) -> erases (p_each f xs) (each g xs).
Proof. intros Hf. induction xs as [|x xs IH]; [done |]. apply erases_bind; [apply Hf | intros _; apply IH]. Qed.

Lemma erases_kick msg id :
  erases (p_kick msg id)
    (let! w := get in
     match sessions (w_hub w) !! id with
     | None => ret tt
     | Some l => Send l (EDisconnect msg) ;; Session_Disconnect l "Closed remotely" CloseNormalClosure
     end).
Proof.
  apply erases_bind; [apply erases_act | intros w]. destruct (sessions (w_hub w) !! id) as [l|]; [| done].
  intros w'. rewrite run_pbind. unfold bind. rewrite erases_Send. unfold bind.
  destruct (Send l (EDisconnect msg) w'); [| done..]. apply erases_Disconnect.
Qed.

Lemma erases_run_disconnect ids msg : erases (p_run_disconnect ids msg) (run_disconnect ids msg).
Proof.
  apply erases_bind; [apply erases_act | intros _]. apply erases_bind; [apply erases_act | intros w].
  apply erases_bind; [| intros _; apply erases_act]. apply erases_each, erases_kick.
Qed.

Lemma erases_on_hub {A B} (p : proc (World C) A) (m : M Hub A) (f : A -> proc (World C) B) (k : A -> M Hub B) :
  erases p (on_hub m) -> (forall x, erases (f x) (on_hub (k x))) -> erases (pbind p f) (on_hub (bind m k)).
Proof.
  intros Hp Hf w. rewrite run_pbind. unfold bind. rewrite Hp. unfold on_hub, zoom.
  destruct (m (w_hub w)) as [x h| |]; [| done..]. rewrite Hf. unfold on_hub, zoom. simpl. by destruct (k x h).
Qed.

Lemma erases_removeSession uid ids : erases (p_hub_removeSession uid ids) (on_hub (hub_removeSession uid ids)).
Proof.
  unfold p_hub_removeSession, hub_removeSession. do 2 (apply erases_on_hub; [apply erases_act | intros ?]).
  destruct (sessions _ !! uid); [| apply erases_act].
  repeat (apply erases_on_hub; [apply erases_act | intros ?]). apply erases_act.
Qed.

Lemma erases_registration r : erases (p_handle_registration r) (handle_registration r).
Proof.
  unfold p_handle_registration, handle_registration. destruct (String.eqb _ _); [apply erases_act |].
  apply erases_bind; [apply erases_act | intros s; apply erases_removeSession].
Qed.

Lemma erases_receive {A} (on : M (Chan A) (option A) -> M Hub (option A)) f (k : A -> M (World C) unit) :
  (forall x, erases (f x) (k x)) -> erases (p_receive on f) (receive on k).
Proof. intros Hf. apply erases_bind; [apply erases_act |]. intros [x|]; [apply Hf | apply erases_act]. Qed.

(** Running alone, an iteration of the hub's loop and the task of a remote disconnect
    do, action by action, what the definitions of [Hub.v] do in one piece. *)
Theorem hub_alone_as_whole c ids msg w :
  run (p_Run c) w = Run c w /\ run (p_run_disconnect ids msg) w = run_disconnect ids msg w.
Proof.
  split; [| apply erases_run_disconnect].
  assert (He : erases (p_Run c) (Run c)); [| apply He].
  apply erases_bind; [apply erases_act | intros w']. destruct (negb _); [apply erases_act |].
  destruct c; apply erases_receive; intros x; [apply erases_registration | apply erases_act..].
Qed.
End operations.

(** ** A deadlock *)

Section deadlock.
Context {C : Type} {order : GoRange}.
Implicit Types (l : loc) (w : World C) (s : Session).

(** The registration channel is full and the registry is locked for reading. *)
Definition jammed w : Prop :=
  ch_closed (register (w_hub w)) = false /\ chan_full (register (w_hub w)) = true /\
  rw_writer (sessionsMu (w_hub w)) = false /\ 0 < rw_readers (sessionsMu (w_hub w)).

Definition waits_in (p : proc (World C) unit) w : Prop :=
  exists why w', step_thread p w = Some (Block why w').

(** A removal waits for ever, and so does whoever wants to write the registry. *)
Lemma jammed_remove l f w : jammed w -> waits_in (pbind (act (RemoveSession l)) f) w.
Proof.
  intros (H1 & H2 & _). do 2 eexists. simpl. unfold RemoveSession, on_hub, on_register, zoom, chan_send.
  by rewrite H1, H2.
Qed.
Lemma jammed_lock f w : jammed w -> waits_in (pbind (act (on_hub (on_sessionsMu rw_lock))) f) w.
Proof.
  intros (_ & _ & H3 & H4). do 2 eexists. simpl. unfold on_hub, on_sessionsMu, zoom, rw_lock. rewrite H3.
  destruct (rw_readers _); [lia | done].
Qed.

(** A session with room in its queue is sent a message. *)
Lemma Send_room msg l s w :
  session_ok s -> overflows s = false ->
  exists s' r, run (p_Send l (EDisconnect msg)) (put_session l s w) = Ret r (put_session l s' w) /\
    session_ok s' /\ Connected s' = Connected s.
Proof.
  intros Hs Ho. rewrite erases_Send. unfold Send, encodeMessage, bind. rewrite load_put. unfold ret at 1.
  destruct (Encode (encoder s) (EDisconnect msg)) as [[f|]|]; [| by exists s, tt ..].
  rewrite sendFrame_ok by (rewrite ?Ho; done). rewrite Ho. simpl. exists (after_send f s), tt.
  split_and!; [done | by apply after_send_ok |]. unfold after_send, overflows in *.
  destruct (sendCh s), (chan_full (sendQ s)); done.
Qed.

Context (o : nat) (msg : DisconnectMessage) (w : World C).
Context (l0 : loc) (s0 : Session) (buf : list HubRegistration).
Context (a b : string) (rest : list string) (la lb : loc) (sa sb : Session).

(** The hub serves a registration channel that is full; the first in it is the removal of
    a registered session without streams. *)
Record hub_loaded : Prop := {
  hl_running : running (w_hub w) = true;
  hl_sessionsMu : sessionsMu (w_hub w) = rw_free;
  hl_streamsMu : streamsMu (w_hub w) = rw_free;
  hl_register : register (w_hub w) =
    mkChan (mkHubRegistration "remove" l0 :: buf) (S (length buf)) false;
  hl_first : w_sessions w !! l0 = Some s0;
  hl_known : is_Some (sessions (w_hub w) !! UID s0);
  hl_streams : sessionsStreams (w_hub w) !! UID s0 = None;
  hl_disconnector : match w_disconnector w with None => False | Some d => disconnector_room d end
}.

(** The identifier has two connected sessions (or more). *)
Record two_members : Prop := {
  tm_keys : range_keys (default ∅ (idmaps (w_hub w) !! o)) = a :: b :: rest;
  tm_a : sessions (w_hub w) !! a = Some la;
  tm_b : sessions (w_hub w) !! b = Some lb;
  tm_ab : la <> lb;
  tm_sa : w_sessions w !! la = Some sa;
  tm_sb : w_sessions w !! lb = Some sb;
  tm_oka : session_ok sa;
  tm_okb : session_ok sb;
  tm_cona : Connected sa = true;
  tm_conb : Connected sb = true;
  tm_roomb : overflows sb = false
}.

(** What the hub and the task leave as it was while they run into each other. *)
Record same_registry (w' : World C) (q : Chan HubRegistration) : Prop := {
  sr_sessions : sessions (w_hub w') = sessions (w_hub w);
  sr_register : register (w_hub w') = q;
  sr_readers : sessionsMu (w_hub w') = mkRW false 1;
  sr_disconnector : match w_disconnector w' with None => False | Some d => disconnector_room d end
}.

Lemma drop_no_streams w' :
  streamsMu (w_hub w') = rw_free -> sessionsStreams (w_hub w') !! UID s0 = None ->
  on_hub (unsubscribeSessionFromAllChannels (UID s0)) w' =
  Ret tt (set_hub (set_streamsMu rw_free (set_sessionsStreams (delete (UID s0) (sessionsStreams (w_hub w')))
    (set_streamsMu (mkRW true 0) (w_hub w')))) w').
Proof.
  intros Hm Hs. unfold on_hub, zoom, unsubscribeSessionFromAllChannels, bind, on_streamsMu, zoom, rw_lock.
  rewrite Hm. simpl. rewrite Hs. simpl. by rewrite range_keys_empty.
Qed.

(** The hub takes the first removal and waits for the lock. *)
Lemma hub_waits t w1 :
  hub_loaded -> w1 = set_hub (set_sessionsMu (mkRW false 1) (w_hub w)) w ->
  exists f w2, pool_reaches nobody ([p_Run CaseRegister; t], w1)
      ([pbind (act (on_hub (on_sessionsMu rw_lock))) f; t], w2) /\
    w_sessions w2 = w_sessions w /\ same_registry w2 (mkChan buf (S (length buf)) false).
Proof.
  intros [H1 H2 H3 H4 H5 H6 H7 H8] ->. destruct H6 as [k Hk]. do 2 eexists. split.
  - go 0; [reflexivity |]. simpl. rewrite H1. simpl.
    go 0; [unfold on_hub, on_register, zoom, chan_recv; simpl; rewrite H4; reflexivity |].
    go 0; [unfold load; simpl; rewrite H5; reflexivity |].
    go 0; [reflexivity |]. go 0; [reflexivity |]. simpl. rewrite Hk. go 0; [reflexivity |].
    go 0; [apply drop_no_streams; [exact H3 | exact H7] | apply rtc_refl].
  - split; [done |]. by split.
Qed.

(** The task disconnects the first session, which takes the place that has become free,
    and waits with the removal of the second one. *)
Lemma task_waits p w2 q :
  two_members -> w_sessions w2 = w_sessions w -> same_registry w2 q ->
  ch_closed q = false -> S (length (ch_buf q)) = ch_cap q ->
  exists f w3, pool_reaches nobody
      ([p; p_each (p_kick msg) (a :: b :: rest) ;>> act (on_hub (on_sessionsMu rw_runlock))], w2)
      ([p; pbind (act (RemoveSession lb)) f], w3) /\ jammed w3.
Proof.
  intros [_ Ta Tb Tab Tsa Tsb Toka Tokb Tca Tcb Tr] Hw2 [R1 R2 R3 R4] Hc Hq.
  set (g := fun _ : unit => act (on_hub (on_sessionsMu rw_runlock)) : proc (World C) unit).
  assert (Hleave : can_leave w2).
  { unfold can_leave. rewrite R2. split_and!; [done | apply bool_decide_eq_false; lia | done]. }
  set (wa := departed la w2). set (w3 := put_session la (kicked msg "Closed remotely" CloseNormalClosure sa) wa).
  assert (Hb : w_sessions w3 !! lb = Some sb).
  { unfold w3. rewrite lookup_put_ne by done. unfold wa. simpl. by rewrite Hw2. }
  assert (Hkb : sessions (w_hub w3) !! b = Some lb) by (rewrite <- Tb, <- R1; reflexivity).
  destruct (Send_room msg lb sb w3 Tokb Tr) as (sb' & r & Hsend & Hokb & Hcb). rewrite put_session_id in Hsend by done.
  pose proof Hokb as [Hmu _ _ _]. do 2 eexists. split.
  - etransitivity.
    { eapply (alone_reaches _ [p; p] 1 (fun x => pbind (pbind x (fun _ => p_each (p_kick msg) (b :: rest))) g) (p_kick msg a) w2 tt w3);
        [done | simpl; lia |].
      rewrite erases_kick. unfold bind, get. rewrite R1, Ta. rewrite <- (put_session_id la sa w2) at 1 by (by rewrite Hw2).
      fold (kick (C := C) msg "Closed remotely" CloseNormalClosure la). 
      pose proof (kick_ok msg "Closed remotely" CloseNormalClosure la sa w2 Toka (fun _ => Hleave)) as Hk.
      unfold kick, bind in Hk. rewrite Hk. by rewrite Tca. }
    etransitivity.
    { apply (act_reaches _ [p; p] 1 get (fun w => pbind (pbind
        (match sessions (w_hub w) !! b with
         | None => Pure tt
         | Some l => p_Send l (EDisconnect msg) ;>> p_Disconnect l "Closed remotely" CloseNormalClosure
         end) (fun _ => p_each (p_kick msg) rest)) g) w3 w3 w3); [simpl; lia | reflexivity]. }
    cbn beta. rewrite Hkb.
    etransitivity.
    { eapply (alone_reaches _ [p; p] 1 (fun x => pbind (pbind (pbind x (fun _ => p_Disconnect lb "Closed remotely" CloseNormalClosure))
        (fun _ => p_each (p_kick msg) rest)) g) _ w3 r); [done | simpl; lia | exact Hsend]. }
    go 1; [by apply lock_put |]. go 1; [apply load_put |]. go 1; [apply modify_put |]. go 1; [by apply unlock_put |].
    simpl. rewrite Hcb, Tcb. apply rtc_refl.
  - unfold jammed. simpl. rewrite R2, R3. unfold chan_full, chan_push. simpl.
    split_and!; [done | apply bool_decide_eq_true; rewrite length_app; simpl; lia | done | simpl; lia].
Qed.

(** C27. A remote disconnect can stop the hub for good. When the registration channel is
    full while an identifier with two connected sessions is disconnected, the goroutine of
    the hub can take a removal from the channel and wait for the write lock of the registry,
    which the task holds for reading, while the task waits for room in the channel, which
    only the hub makes: neither can go on, in this state and in any other in which the
    channel is full and the registry is locked. *)
Theorem remote_disconnect_can_deadlock :
  hub_loaded -> two_members ->
  exists p q w', pool_reaches nobody ([p_Run CaseRegister; p_run_disconnect o msg], w) ([p; q], w') /\
    jammed w' /\ forall w'', jammed w'' -> waits_in p w'' /\ waits_in q w''.
Proof.
  intros Hh Hm. set (w1 := set_hub (set_sessionsMu (mkRW false 1) (w_hub w)) w).
  set (task := p_each (C := C) (p_kick msg) (a :: b :: rest) ;>> act (on_hub (on_sessionsMu rw_runlock))).
  destruct (hub_waits task w1 Hh eq_refl) as (f & w2 & Hr & Hs & Hreg).
  destruct (task_waits (pbind (act (on_hub (on_sessionsMu rw_lock))) f) w2 _ Hm Hs Hreg eq_refl eq_refl)
    as (g & w3 & Hr' & Hj).
  do 3 eexists. split; [| split; [exact Hj |]].
  - etransitivity; [| etransitivity; [exact Hr | exact Hr']]. unfold p_run_disconnect.
    go 1; [unfold on_hub, on_sessionsMu, zoom, rw_rlock; rewrite (hl_sessionsMu Hh); reflexivity |].
    go 1; [reflexivity |]. simpl. rewrite (tm_keys Hm). apply rtc_refl.
  - intros w'' Hw. split; [by apply jammed_lock | by apply jammed_remove].
Qed.
End deadlock.

(** ** A witness *)

(** A new hub whose registration channel is full of removals, and two sessions of one user
    besides the one whose removal comes first. *)
Definition member (uid : string) : Session :=
  set_Connected true (set_Identifiers "user" (new_session NewNodeConfig sample_conn "/cable" (Some ∅) uid)).
Definition removals_behind : list HubRegistration := mkHubRegistration "remove" <$> seq 3 2047.
Definition loaded_hub : Hub :=
  let h := hub_with_pool (mkPool 16 8 []) in
  set_running true (set_register (mkChan (mkHubRegistration "remove" 2 :: removals_behind) (ch_cap (register h)) false)
    (set_sessions (<["a" := 0]> (<["b" := 1]> {["c" := 2]}))
      (set_identifiers {["user" := 0]} (set_idmaps {[0 := <["a" := true]> {["b" := true]}]} h)))).
Definition loaded_world : World unit :=
  put_session 0 (member "a") (put_session 1 (member "b")
    (put_session 2 (set_Connected false (member "c")) (set_hub loaded_hub sample_node))).

Lemma member_ok uid : session_ok (member uid).
Proof. split; [done | done | done |]. simpl. lia. Qed.

Lemma remote_disconnect_can_deadlock_witness :
  let msg := mkDisconnect "disconnect" "remote" false in
  exists p q w', pool_reaches nobody
      ([p_Run (order := canonical_order) CaseRegister; p_run_disconnect (order := canonical_order) 0 msg], loaded_world)
      ([p; q], w') /\ waits_in p w' /\ waits_in q w'.
Proof.
  destruct (remote_disconnect_can_deadlock (order := canonical_order) 0 (mkDisconnect "disconnect" "remote" false) loaded_world
    2 (set_Connected false (member "c")) removals_behind "a" "b" [] 0 1 (member "a") (member "b"))
    as (p & q & w' & Hr & Hj & Hw).
  - split; [reflexivity.. | by eexists | reflexivity | exact I].
  - split; [vm_compute; reflexivity | reflexivity | reflexivity | discriminate | reflexivity | reflexivity
           | apply member_ok | apply member_ok | reflexivity | reflexivity | vm_compute; reflexivity].
  - exists p, q, w'. split; [exact Hr | exact (Hw w' Hj)].
Defined.
