(* ===== verification/Node.v ===== *)
(** * The node

    The application node ([src/node/node.go]): the commands of clients, their replies,
    pub/sub messages, shutdown and statistics; and the disconnect queue
    ([src/node/disconnect_queue.go]), whose goroutine calls back into the node. The
    controller ([src/node/controller.go]) is an interface: the node is modelled for
    any implementation of it. *)

From Stdlib Require Import ZArith Lia Ascii String.
From stdpp Require Import base gmap strings list fin_maps.
From S2P Require Import Prelude Json Common Metrics Encoders World Session Hub.

Local Open Scope string_scope.

(** ** The controller interface *)

(** An implementation works on the metrics registry it shares with the node and
    on a state of its own. *)
Class Controller (C : Type) : Type := {
  ctl_Authenticate : string -> SessionEnv -> M (Metrics * C) (option ConnectResult * option error);
  ctl_Subscribe : string -> SessionEnv -> string -> string
    -> M (Metrics * C) (option CommandResult * option error);
  ctl_Unsubscribe : string -> SessionEnv -> string -> string
    -> M (Metrics * C) (option CommandResult * option error);
  ctl_Perform : string -> SessionEnv -> string -> string -> string
    -> M (Metrics * C) (option CommandResult * option error);
  ctl_Disconnect : string -> SessionEnv -> string -> list string -> M (Metrics * C) (option error);
  ctl_Shutdown : M (Metrics * C) (option error)
}.

Section node.
Context {C : Type} `{Controller C} {order : GoRange}.
Implicit Types (l : loc) (w : World C).

Definition on_ctl {A} : M (Metrics * C) A -> M (World C) A :=
  zoom (fun w => (w_metrics w, w_ctl w)) (fun v w => set_ctl v.2 (set_metrics v.1 w)).

(** [SetDisconnector]; [Start] makes the hub serve its channels. *)
Definition SetDisconnector (d : Disconnector) : M (World C) unit := modify (set_disconnector (Some d)).
Definition Node_Start : M (World C) (option error) :=
  on_hub (modify (set_running true)) ;; ret None.

(** ** Broadcasts and replies *)

Definition Node_Broadcast (msg : StreamMessage) : M (World C) unit :=
  on_metrics (counter_inc metricsBroadcastMsg) ;;
  on_hub (BroadcastMessage msg).

Definition Node_RemoteDisconnect (msg : RemoteDisconnectMessage) : M (World C) unit :=
  on_metrics (counter_inc metricsBroadcastMsg) ;;
  on_hub (Hub_RemoteDisconnect msg).

Definition transmit l (transmissions : list string) : M (World C) unit :=
  each (SendJSONTransmission l) transmissions.

Definition on_env {A} l (m : M SessionEnv A) : M (World C) A := on_session l (zoom env set_env m).

Definition handleCallReply l (reply : CallResult) : M (World C) unit :=
  match call_CState reply with
  | Some state =>
      on_session l lock_smu ;;
      on_env l (MergeConnectionState state) ;;
      on_session l unlock_smu
  | None => ret tt
  end ;;
  each Node_Broadcast (call_Broadcasts reply) ;;
  transmit l (call_Transmissions reply).

Definition handleCommandReply l (msg : Message) (reply : CommandResult) : M (World C) unit :=
  let! s := load l in
  (if StopAllStreams reply then on_hub (RemoveAllSubscriptions (UID s) (Identifier msg))
   else each (fun stream => on_hub (RemoveSubscription (UID s) (Identifier msg) stream))
          (StoppedStreams reply)) ;;
  each (fun stream => on_hub (subscribeSession (UID s) stream (Identifier msg))) (Streams reply) ;;
  match IState reply with
  | Some state =>
      on_session l lock_smu ;;
      on_env l (MergeChannelState (Identifier msg) state) ;;
      on_session l unlock_smu
  | None => ret tt
  end ;;
  handleCallReply l (CommandResult_ToCallResult reply) ;;
  when (Disconnect reply) (Session_Disconnect l "Command Failed" CloseAbnormalClosure).

(** ** Connecting *)

Definition Authenticate l : M (World C) (option ConnectResult * option error) :=
  let! s := load l in
  let! (res, err) := on_ctl (ctl_Authenticate (UID s) (env s)) in
  match err with
  | Some _ =>
      Session_Disconnect l "Auth Error" CloseInternalServerErr ;;
      ret (res, err)
  | None =>
      match res with
      | None => nil_deref
      | Some r =>
          if (con_Status r =? SUCCESS)%Z then
            on_session l (modify (set_Identifiers (con_Identifier r))) ;;
            on_session l (modify (set_Connected true)) ;;
            addSession l ;;
            handleCallReply l (ConnectResult_ToCallResult r) ;;
            ret (res, None)
          else
            when (con_Status r =? FAILURE)%Z (on_metrics (counter_inc metricsFailedAuths)) ;;
            handleCallReply l (ConnectResult_ToCallResult r) ;;
            Session_Disconnect l "Auth Failed" CloseNormalClosure ;;
            ret (res, None)
      end
  end.

(** ** Commands *)

Definition reply_if_any l msg (res : option CommandResult) : M (World C) unit :=
  match res with
  | Some r => handleCommandReply l msg r
  | None => ret tt
  end.

Definition Subscribe l (msg : Message) : M (World C) (option CommandResult * option error) :=
  on_session l lock_smu ;;
  let! s := load l in
  match subscriptions s !! Identifier msg with
  | Some _ =>
      on_session l unlock_smu ;;
      ret (None, Some (Errorf ("Already subscribed to " ++ Identifier msg)))
  | None =>
      let! (res, err) := on_ctl (ctl_Subscribe (UID s) (env s) (Identifiers s) (Identifier msg)) in
      match err with
      | Some _ => ret tt
      | None =>
          on_session l (modify (fun s =>
            set_subscriptions (<[Identifier msg := true]> (subscriptions s)) s))
      end ;;
      on_session l unlock_smu ;;
      reply_if_any l msg res ;;
      ret (res, err)
  end.

Definition stopping_all (r : CommandResult) : CommandResult :=
  mkCommandResult true (Disconnect r) (Streams r) (StoppedStreams r) (Transmissions r)
    (Broadcasts r) (CState r) (IState r) (Status r).

Definition Unsubscribe l (msg : Message) : M (World C) (option CommandResult * option error) :=
  on_session l lock_smu ;;
  let! s := load l in
  match subscriptions s !! Identifier msg with
  | None =>
      on_session l unlock_smu ;;
      ret (None, Some (Errorf ("Unknown subscription " ++ Identifier msg)))
  | Some _ =>
      let! (res, err) := on_ctl (ctl_Unsubscribe (UID s) (env s) (Identifiers s) (Identifier msg)) in
      let! res :=
        match err with
        | Some _ => ret res
        | None =>
            match res with
            | None => nil_deref
            | Some r =>
                on_session l (modify (fun s =>
                  set_subscriptions (delete (Identifier msg) (subscriptions s)) s)) ;;
                ret (Some (stopping_all r))
            end
        end in
      on_session l unlock_smu ;;
      reply_if_any l msg res ;;
      ret (res, err)
  end.

(** The text of the error for data that is not a string also prints the data. *)
Definition Perform l (msg : Message) : M (World C) (option CommandResult * option error) :=
  on_session l lock_smu ;;
  let! s := load l in
  match subscriptions s !! Identifier msg with
  | None =>
      on_session l unlock_smu ;;
      ret (None, Some (Errorf ("Unknown subscription " ++ Identifier msg)))
  | Some _ =>
      on_session l unlock_smu ;;
      match msg_Data msg with
      | JStr data =>
          let! (res, err) :=
            on_ctl (ctl_Perform (UID s) (env s) (Identifiers s) (Identifier msg) data) in
          reply_if_any l msg res ;;
          ret (res, err)
      | _ => ret (None, Some (Errorf "Perform data must be a string"))
      end
  end.

Definition HandleCommand l (msg : Message) : M (World C) (option error) :=
  if String.eqb (Command msg) "subscribe" then let! (_, err) := Subscribe l msg in ret err
  else if String.eqb (Command msg) "unsubscribe" then let! (_, err) := Unsubscribe l msg in ret err
  else if String.eqb (Command msg) "message" then let! (_, err) := Perform l msg in ret err
  else ret (Some (Errorf ("Unknown command: " ++ Command msg))).

(** ** Pub/sub *)

Definition HandlePubSub (raw : string) : M (World C) unit :=
  match PubSubMessageFromJSON raw with
  | Err _ => on_metrics (counter_inc metricsUnknownBroadcast)
  | Ok (PSStream msg) => Node_Broadcast msg
  | Ok (PSRemoteDisconnect msg) => Node_RemoteDisconnect msg
  end.

Definition LookupSession (id : string) : M (World C) (option loc) := on_hub (findByIdentifier id).

(** ** Disconnecting *)

Definition subscriptionsList (m : gmap string bool) : list string := range_keys m.

Definition DisconnectNow l : M (World C) (option error) :=
  let! s := load l in
  on_ctl (ctl_Disconnect (UID s) (env s) (Identifiers s) (subscriptionsList (subscriptions s))).
End node.
