(* ===== verification/NodeShutdown.v ===== *)
(** * The disconnect queue, statistics and shutdown

    The rate-limited queue of Disconnect calls ([src/node/disconnect_queue.go]), its
    no-op alternative ([src/node/disconnector.go]), the statistics of the node and
    its shutdown ([src/node/node.go]). *)

From Stdlib Require Import ZArith Lia Ascii String.
From stdpp Require Import base gmap strings list fin_maps.
From S2P Require Import Prelude Json Common Metrics Encoders World Session Hub Node.

Local Open Scope string_scope.

(** ** Configuration *)

Record DisconnectQueueConfig : Type := mkDQConfig { Rate : Z; ShutdownTimeout : Z }.

Definition NewDisconnectQueueConfig : DisconnectQueueConfig := mkDQConfig 100 5.

Definition millisecond : Z := 1000000.

(** [NewDisconnectQueue]: the interval between calls is computed in whole
    milliseconds, with integer division. *)
Definition NewDisconnectQueue {W} (config : DisconnectQueueConfig) : M W DisconnectQueue :=
  if (Rate config =? 0)%Z then panic "integer divide by zero"
  else ret {| dq_rate := to_i64 (millisecond * Z.quot 1000 (Rate config));
              dq_timeout := to_i64 (seconds (ShutdownTimeout config));
              dq_disconnect := make_chan 4096;
              dq_shutdown := make_chan 1;
              dq_isStopped := false;
              dq_mu := false |}.

Section queue.
Context {C : Type} `{Controller C} {order : GoRange}.
Implicit Types (l : loc) (w : World C).

(** An operation on the queue the node uses. *)
Definition on_dq {A} (m : M DisconnectQueue A) : M (World C) A := fun w =>
  match w_disconnector w with
  | Some (DQueue q) => zoom (fun _ => q) (fun q => set_disconnector (Some (DQueue q))) m w
  | _ => nil_deref w
  end.

Definition on_dq_mu : M bool unit -> M DisconnectQueue unit :=
  zoom dq_mu (fun v q => mkDQ (dq_rate q) (dq_timeout q) (dq_disconnect q) (dq_shutdown q) (dq_isStopped q) v).
Definition on_dq_disconnect {A} : M (Chan loc) A -> M DisconnectQueue A :=
  zoom dq_disconnect (fun v q => mkDQ (dq_rate q) (dq_timeout q) v (dq_shutdown q) (dq_isStopped q) (dq_mu q)).
Definition on_dq_shutdown {A} : M (Chan unit) A -> M DisconnectQueue A :=
  zoom dq_shutdown (fun v q => mkDQ (dq_rate q) (dq_timeout q) (dq_disconnect q) v (dq_isStopped q) (dq_mu q)).
Definition stop_queue (q : DisconnectQueue) : DisconnectQueue :=
  mkDQ (dq_rate q) (dq_timeout q) (dq_disconnect q) (dq_shutdown q) true (dq_mu q).

(** ** The goroutine of the queue *)

(** The start of [Run]: [time.NewTicker] panics for an interval that is not
    positive. *)
Definition DisconnectQueue_NewTicker : M (World C) unit :=
  let! q := on_dq get in
  if (dq_rate q <=? 0)%Z then panic "non-positive interval for NewTicker" else ret tt.

(** One iteration of the loop of [Run] that takes a session (and waits for the
    ticker), or the shutdown signal. The answer says whether the loop goes on. *)
Definition DisconnectQueue_Run_session : M (World C) bool :=
  let! session := on_dq (on_dq_disconnect chan_recv) in
  match session with
  | Some l => DisconnectNow l ;; ret true
  | None => panic "receive from a closed channel"
  end.

Definition DisconnectQueue_Run_shutdown : M (World C) bool :=
  on_dq (on_dq_shutdown chan_recv) ;; ret false.

(** ** Shutdown of the queue *)

(** The loop of [Shutdown] for [n] more sessions; when none comes within the
    timeout it gives up. *)
Fixpoint DisconnectQueue_drain (n : nat) : M (World C) (option error) :=
  match n with
  | O => ret None
  | S n =>
      let! q := on_dq get in
      match ch_buf (dq_disconnect q) with
      | [] => ret (Some (Errorf "Had no time to invoke Disconnect calls: 0"))
      | _ :: _ =>
          let! session := on_dq (on_dq_disconnect chan_recv) in
          match session with
          | None => ret None
          | Some l =>
              let! err := DisconnectNow l in
              match err with
              | Some e => ret (Some e)
              | None => DisconnectQueue_drain n
              end
          end
      end
  end.

Definition DisconnectQueue_Shutdown : M (World C) (option error) :=
  on_dq (on_dq_mu lock) ;;
  let! q := on_dq get in
  if dq_isStopped q then on_dq (on_dq_mu unlock) ;; ret None
  else
    on_dq (modify stop_queue) ;;
    on_dq (on_dq_shutdown (chan_send tt)) ;;
    on_dq (on_dq_mu unlock) ;;
    let! q := on_dq get in
    DisconnectQueue_drain (length (ch_buf (dq_disconnect q))).

Definition DisconnectQueue_Size (q : DisconnectQueue) : Z := Z.of_nat (length (ch_buf (dq_disconnect q))).

(** [NewNoopDisconnector]; its [Run] returns at once. *)
Definition NewNoopDisconnector : Disconnector := DNoop.
Definition NoopDisconnectQueue_Run : M (World C) (option error) := ret None.

(** The methods of the [Disconnector] interface, for the node's disconnector. *)
Definition Disconnector_Shutdown : M (World C) (option error) := fun w =>
  match w_disconnector w with
  | None => nil_deref w
  | Some DNoop => Ret None w
  | Some (DQueue _) => DisconnectQueue_Shutdown w
  end.

Definition Disconnector_Size : M (World C) Z := fun w =>
  match w_disconnector w with
  | None => nil_deref w
  | Some DNoop => Ret 0%Z w
  | Some (DQueue q) => Ret (DisconnectQueue_Size q) w
  end.

(** ** Statistics *)

(** [collectStatsOnce], given the number of goroutines and the memory obtained
    from the system. *)
Definition collectStatsOnce (goroutines sys : Z) : M (World C) unit :=
  on_metrics (on_gauge (Gauge_Set goroutines) metricsGoroutines) ;;
  on_metrics (on_gauge (Gauge_Set64 sys) metricsMemSys) ;;
  let! n := on_hub Hub_Size in
  on_metrics (on_gauge (Gauge_Set n) metricsClientsNum) ;;
  let! n := on_hub UniqSize in
  on_metrics (on_gauge (Gauge_Set n) metricsUniqClientsNum) ;;
  let! n := on_hub StreamsSize in
  on_metrics (on_gauge (Gauge_Set n) metricsStreamsNum) ;;
  let! n := Disconnector_Size in
  on_metrics (on_gauge (Gauge_Set n) metricsDisconnectQueue).

(** ** Shutdown of the node *)

Definition serverRestartReason : string := "server_restart".

Definition close_session (msg : DisconnectMessage) l : M (World C) unit :=
  Send l (EDisconnect msg) ;;
  Session_Disconnect l "Shutdown" CloseGoingAway.

(** [Node.Shutdown]. The errors of the disconnector and of the controller are
    logged and dropped, so the result is nil unless the node is already down. *)
Definition Node_Shutdown : M (World C) (option error) :=
  let! w := get in
  if negb (w_shutdownCh w) then ret (Some (Errorf "Already shut down"))
  else
    modify (set_shutdownCh false) ;;
    on_hub Hub_Shutdown ;;
    let! active := on_hub Hub_Size in
    when (0 <? active)%Z (
      on_hub (on_sessionsMu rw_rlock) ;;
      let! w := get in
      each (fun kv => close_session (newDisconnectMessage serverRestartReason true) kv.2)
        (range (sessions (w_hub w))) ;;
      on_hub (on_sessionsMu rw_runlock)) ;;
    let! w := get in
    match w_disconnector w with
    | Some _ => Disconnector_Shutdown ;; ret tt
    | None => ret tt
    end ;;
    on_ctl ctl_Shutdown ;;
    ret None.
End queue.
