(* ===== verification/Collector.v ===== *)
(** * The goroutine that collects statistics

    [collectStats] of [src/node/node.go]: a loop that refreshes the gauges of the node until
    the node is shut down, next to the other goroutines of the node. *)

From Stdlib Require Import ZArith Lia Ascii String.
From stdpp Require Import base strings list gmap relations.
From S2P Require Import Prelude Json Common Metrics Encoders World Session SessionSafety Hub Node NodeShutdown.

Local Open Scope string_scope.

Section collector.
Context {C : Type}.
Implicit Types (w : World C).

(** In the select, with the channel that the field held when the select was entered (nil
    or not); collecting; or returned. *)
Inductive stats_phase : Type :=
| SelectOn (ch : bool)
| Collecting
| StatsEnded.

(** The time between two collections, in nanoseconds at 64 bits. *)
Definition statsCollectInterval w : Z := to_i64 (seconds (StatsRefreshInterval (w_config w))).

(** The loop: the channel it selects on has been closed, the timer fires, or a collection
    is over and the field is read again. The numbers are those of the Go runtime. *)
Inductive collectStats : stats_phase * World C -> stats_phase * World C -> Prop :=
| stats_stop w : w_shutdownCh w = false -> collectStats (SelectOn true, w) (StatsEnded, w)
| stats_timer ch w : collectStats (SelectOn ch, w) (Collecting, w)
| stats_collected goroutines sys w w' :
    collectStatsOnce goroutines sys w = Ret tt w' -> collectStats (Collecting, w) (SelectOn (w_shutdownCh w'), w').

(** The other goroutines: one shuts the node down, which closes the channel and sets the
    field to nil; nobody sets it again. *)
Inductive beside : stats_phase * World C -> stats_phase * World C -> Prop :=
| beside_shutdown r w : w_shutdownCh w = true -> beside (r, w) (r, set_shutdownCh false w)
| beside_works r w w' : w_shutdownCh w' = w_shutdownCh w -> beside (r, w) (r, w').

Definition collector_step (c c' : stats_phase * World C) : Prop := collectStats c c' \/ beside c c'.

(** ** A collection leaves the channel alone *)

Lemma gauge_channel f name w w' : on_metrics (on_gauge f name) w = Ret tt w' -> w_shutdownCh w' = w_shutdownCh w.
Proof. unfold on_metrics, zoom. destruct (on_gauge f name _); intros Heq; by simplify_eq/=. Qed.

Lemma hub_channel {A} (m : M Hub A) w a w' : on_hub m w = Ret a w' -> w_shutdownCh w' = w_shutdownCh w.
Proof. unfold on_hub, zoom. destruct (m _); intros Heq; by simplify_eq/=. Qed.

Lemma size_channel w a w' : Disconnector_Size w = Ret a w' -> w_shutdownCh w' = w_shutdownCh w.
Proof. unfold Disconnector_Size. intros Heq. destruct (w_disconnector w) as [[q|]|]; by simplify_eq/=. Qed.

Lemma collectStatsOnce_channel goroutines sys w w' :
  collectStatsOnce goroutines sys w = Ret tt w' -> w_shutdownCh w' = w_shutdownCh w.
Proof.
  unfold collectStatsOnce, bind. intros Hr.
  repeat match type of Hr with
  | match ?m ?v with Ret _ _ => _ | Block _ _ => _ | Panic _ _ => _ end = Ret _ _ =>
      let E := fresh "E" in destruct (m v) as [[]?| |] eqn:E; [| discriminate Hr..]
  | match ?m ?v with Ret _ _ => _ | Block _ _ => _ | Panic _ _ => _ end = Ret _ _ =>
      let E := fresh "E" in destruct (m v) as [? ?| |] eqn:E; [| discriminate Hr..]
  end.
  repeat match goal with
  | H : on_metrics _ _ = Ret _ _ |- _ => apply gauge_channel in H
  | H : on_hub _ _ = Ret _ _ |- _ => apply hub_channel in H
  | H : Disconnector_Size _ = Ret _ _ |- _ => apply size_channel in H
  end. congruence.
Qed.

(** Shutting a node down stops the goroutine that collects its statistics when it is in
    its select at that moment; when it is in the middle of a collection it finds the field
    nil afterwards, and whatever happens it never ends. *)
Theorem collector_stops_only_in_select w :
  w_shutdownCh w = true ->
  collectStats (SelectOn true, set_shutdownCh false w) (StatsEnded, set_shutdownCh false w) /\
  forall r w', rtc collector_step (Collecting, set_shutdownCh false w) (r, w') -> r <> StatsEnded.
Proof.
  intros Hw. split; [by constructor |]. intros r w' Hsteps.
  assert (Hinv : forall c c', rtc collector_step c c' ->
    w_shutdownCh c.2 = false /\ (c.1 = Collecting \/ c.1 = SelectOn false) ->
    w_shutdownCh c'.2 = false /\ (c'.1 = Collecting \/ c'.1 = SelectOn false)).
  { clear. intros c c' Hs. induction Hs as [|c1 c2 c3 Hstep _ IH]; [done |]. intros [Hc Hp]. apply IH.
    destruct Hstep as [Hstep|Hstep]; [destruct Hstep as [| |? ? ? ? Hr] | destruct Hstep as [|? ? ? Hr]]; simpl in *.
    - by destruct Hp.
    - by auto.
    - apply collectStatsOnce_channel in Hr. rewrite Hr, Hc. auto.
    - done.
    - by rewrite Hr. }
  destruct (Hinv _ _ Hsteps ltac:(by auto)) as [_ [Hr|Hr]]; simpl in Hr; by subst.
Qed.
End collector.

Lemma collector_stops_only_in_select_witness :
  exists r w, rtc collector_step (Collecting, set_shutdownCh false sample_node) (r, w) /\ r = SelectOn false /\ r <> StatsEnded.
Proof.
  assert (Hok : came_back (collectStatsOnce 1 2 (set_shutdownCh false sample_node)) = true) by (vm_compute; reflexivity).
  apply came_back_ret in Hok as ([] & w & Hc).
  assert (Hch : w_shutdownCh w = false).
  { rewrite (collectStatsOnce_channel _ _ _ _ Hc). reflexivity. }
  assert (Hsteps : rtc collector_step (Collecting, set_shutdownCh false sample_node) (SelectOn false, w)).
  { apply rtc_once. left. pose proof (stats_collected 1 2 _ _ Hc) as Hs. rewrite Hch in Hs. exact Hs. }
  exists (SelectOn false), w. split; [exact Hsteps |]. split; [reflexivity |].
  exact (proj2 (collector_stops_only_in_select sample_node eq_refl) _ _ Hsteps).
Defined.
