(* ===== verification/NodeProps.v ===== *)
(** * Properties of the node

    What the commands of [src/node/node.go] do, for any controller: to the session
    (subscriptions, state, queued frames), to the hub (streams, queued requests),
    and to the broadcast channel. *)

From Stdlib Require Import ZArith Lia Ascii String.
From stdpp Require Import base gmap strings list fin_maps fin_sets.
From S2P Require Import Prelude Json Common Metrics Encoders World Session SessionSafety.
From S2P Require Import Hub HubSpec HubDelivery Node.

Local Open Scope string_scope.

(** The fields of a session whose state mutex was just taken. *)
Ltac under_smu :=
  change (subscriptions (set_smu true ?x)) with (subscriptions x);
  change (UID (set_smu true ?x)) with (UID x);
  change (env (set_smu true ?x)) with (env x);
  change (Identifiers (set_smu true ?x)) with (Identifiers x).

Section replies.
Context {C : Type} `{Controller C} {order : GoRange}.
Implicit Types (l : loc) (w : World C) (s : Session) (h : Hub).

(** ** Transmissions *)

Lemma transmit_ok l ts s w :
  encoder s = JSON -> has_room (length ts) s ->
  transmit l ts (put_session l s w) = Ret tt (put_session l (pushed (text_frame <$> ts) s) w).
Proof.
  revert s. induction ts as [|t ts IH]; intros s He Hr.
  - simpl. by rewrite pushed_nil.
  - unfold transmit. cbn [each].
    erewrite bind_ret_eq.
    2: { unfold SendJSONTransmission. step. rewrite He. simpl. by eapply sendFrame_room. }
    fold (transmit (C := C) l). unfold transmit in IH. rewrite IH; [| done | by apply pushed_room].
    by rewrite pushed_pushed.
Qed.

(** ** Broadcasts *)

Definition broadcasted (ms : list StreamMessage) w : World C :=
  let h := w_hub w in
  set_hub (set_broadcast (mkChan (ch_buf (broadcast h) ++ ms)%list (ch_cap (broadcast h))
             (ch_closed (broadcast h))) h)
    (foldl (fun w _ => bump (Counter_Add 1) metricsBroadcastMsg w) w ms).

Definition broadcast_room (n : nat) w : Prop :=
  registered metricsBroadcastMsg w /\ ch_closed (broadcast (w_hub w)) = false /\
  length (ch_buf (broadcast (w_hub w))) + n <= ch_cap (broadcast (w_hub w)).

Lemma Node_Broadcast_ok n msg w :
  broadcast_room (S n) w -> Node_Broadcast msg w = Ret tt (broadcasted [msg] w).
Proof.
  intros (Hreg & Hc & Hn). unfold Node_Broadcast.
  erewrite bind_ret_eq by (by apply counter_inc_ok).
  unfold on_hub, BroadcastMessage, on_broadcast, zoom, chan_send; simpl.
  rewrite Hc. unfold chan_full. by rewrite bool_decide_false by lia.
Qed.

Lemma foldl_bump_hub (ms : list StreamMessage) w h :
  foldl (fun w _ => bump (Counter_Add 1) metricsBroadcastMsg w) (set_hub h w) ms =
  set_hub h (foldl (fun w _ => bump (Counter_Add 1) metricsBroadcastMsg w) w ms).
Proof. revert w. induction ms as [|m ms IH]; intros w; simpl; [done | apply (IH (bump _ _ w))]. Qed.

Lemma foldl_bump_put (ms : list StreamMessage) w l s :
  foldl (fun w _ => bump (Counter_Add 1) metricsBroadcastMsg w) (put_session l s w) ms =
  put_session l s (foldl (fun w _ => bump (Counter_Add 1) metricsBroadcastMsg w) w ms).
Proof. revert w. induction ms as [|m ms IH]; intros w; simpl; [done | apply (IH (bump _ _ w))]. Qed.

Lemma foldl_bump_hub_of (ms : list StreamMessage) w :
  w_hub (foldl (fun w _ => bump (Counter_Add 1) metricsBroadcastMsg w) w ms) = w_hub w.
Proof. revert w. induction ms as [|m ms IH]; intros w; simpl; [done | by rewrite IH]. Qed.

Lemma broadcasts_ok ms w :
  broadcast_room (length ms) w -> each Node_Broadcast ms w = Ret tt (broadcasted ms w).
Proof.
  revert w. induction ms as [|m ms IH]; intros w Hr.
  - unfold broadcasted; simpl. rewrite app_nil_r. by destruct w as [? ? [? ? ? ? ? [] ] ].
  - cbn [each]. erewrite bind_ret_eq by (by eapply Node_Broadcast_ok).
    rewrite IH.
    + unfold broadcasted. cbn [foldl]. rewrite foldl_bump_hub. simpl.
      rewrite <- app_assoc. done.
    + destruct Hr as (Hreg & Hc & Hn). simpl in Hn. split; [| split].
      * by apply registered_bump.
      * done.
      * simpl. rewrite length_app. simpl. lia.
Qed.

(** ** State *)

Definition merge_cstate (st : option (gmap string string)) (e : SessionEnv) : SessionEnv :=
  match st, ConnectionState e with
  | Some st, Some m => set_ConnectionState (merged m st) e
  | _, _ => e
  end.

Definition merge_istate (id : string) (st : option (gmap string string)) (e : SessionEnv) : SessionEnv :=
  match st, ChannelStates e with
  | Some st, Some cs => set_ChannelStates (<[id := merged (default ∅ (cs !! id)) st]> cs) e
  | _, _ => e
  end.

Lemma merge_cstate_ok st e : env_ok e -> env_ok (merge_cstate st e).
Proof.
  intros [[m Hm] [cs Hcs]]. unfold merge_cstate. rewrite Hm. destruct st; split; simpl; eauto.
Qed.

Lemma merge_istate_ok id st e : env_ok e -> env_ok (merge_istate id st e).
Proof.
  intros [[m Hm] [cs Hcs]]. unfold merge_istate. rewrite Hcs. destruct st; split; simpl; eauto.
Qed.

Lemma cstate_step l st s w :
  smu s = false -> env_ok (env s) ->
  match st with
  | Some state =>
      on_session l lock_smu ;; on_env l (MergeConnectionState state) ;; on_session l unlock_smu
  | None => ret tt
  end (put_session l s w) = Ret tt (put_session l (set_env (merge_cstate st (env s)) s) w).
Proof.
  intros Hsmu [[m Hm] _]. unfold merge_cstate. rewrite Hm. destruct st as [st|]; [| by destruct s].
  step. erewrite bind_ret_eq.
  2: { unfold on_env. rewrite on_session_put. unfold zoom. simpl env.
       by rewrite (MergeConnectionState_ok _ m). }
  rewrite unlock_smu_put by done. by open_session s.
Qed.

Lemma istate_step l id st s w :
  smu s = false -> env_ok (env s) ->
  match st with
  | Some state =>
      on_session l lock_smu ;; on_env l (MergeChannelState id state) ;; on_session l unlock_smu
  | None => ret tt
  end (put_session l s w) = Ret tt (put_session l (set_env (merge_istate id st (env s)) s) w).
Proof.
  intros Hsmu [_ [cs Hcs]]. unfold merge_istate. rewrite Hcs. destruct st as [st|]; [| by destruct s].
  step. erewrite bind_ret_eq.
  2: { unfold on_env. rewrite on_session_put. unfold zoom. simpl env.
       by rewrite (MergeChannelState_ok _ cs). }
  rewrite unlock_smu_put by done. by open_session s.
Qed.

(** ** Replies *)

(** What a session needs to take a reply. *)
Record takes (n : nat) s : Prop := {
  tk_json : encoder s = JSON;
  tk_room : has_room n s;
  tk_env : env_ok (env s)
}.

Lemma takes_set_env n e s : takes n s -> env_ok e -> takes n (set_env e s).
Proof. intros [H1 [[] H2] H3] He. by split. Qed.

Definition call_replied (r : CallResult) s : Session :=
  pushed (text_frame <$> call_Transmissions r)
    (set_env (merge_cstate (call_CState r) (env s)) s).

Lemma broadcasted_put ms l s w :
  broadcasted ms (put_session l s w) = put_session l s (broadcasted ms w).
Proof. unfold broadcasted. by rewrite foldl_bump_put. Qed.

Lemma handleCallReply_ok l r s w :
  takes (length (call_Transmissions r)) s -> broadcast_room (length (call_Broadcasts r)) w ->
  handleCallReply l r (put_session l s w) =
  Ret tt (put_session l (call_replied r s) (broadcasted (call_Broadcasts r) w)).
Proof.
  intros Ht Hb. unfold handleCallReply. pose proof Ht as [_ [[_ Hsmu _ _] _] Henv].
  erewrite bind_ret_eq by (by apply cstate_step).
  erewrite bind_ret_eq by (by apply broadcasts_ok). rewrite broadcasted_put.
  destruct (takes_set_env _ (merge_cstate (call_CState r) (env s)) s Ht) as [He Hr _];
    [by apply merge_cstate_ok |].
  by rewrite transmit_ok.
Qed.

(** The requests a reply queues for the hub. *)
Definition stop_requests (uid id : string) (r : CommandResult) : list HubSubscription :=
  if StopAllStreams r then [mkHubSubscription "removeAll" uid EmptyString id]
  else (fun stream => mkHubSubscription "remove" uid stream id) <$> StoppedStreams r.

Definition requested (rs : list HubSubscription) h : Hub :=
  set_subscribe (mkChan (ch_buf (subscribe h) ++ rs)%list (ch_cap (subscribe h))
                   (ch_closed (subscribe h))) h.

Definition request_room (n : nat) h : Prop :=
  ch_closed (subscribe h) = false /\ length (ch_buf (subscribe h)) + n <= ch_cap (subscribe h).

Lemma request_one n r h :
  request_room (S n) h ->
  on_subscribe (chan_send r) h = Ret tt (requested [r] h) /\ request_room n (requested [r] h).
Proof.
  intros [Hc Hn]. unfold on_subscribe, zoom, chan_send. rewrite Hc. unfold chan_full.
  rewrite bool_decide_false by lia. split; [done |]. split; [done |].
  simpl. rewrite length_app. simpl. lia.
Qed.

Lemma requested_nil h : requested [] h = h.
Proof. unfold requested. rewrite app_nil_r. by destruct h as [? ? ? ? ? ? ? ? [] ]. Qed.

Lemma requests_each {A} (f : A -> HubSubscription) xs w :
  request_room (length xs) (w_hub w) ->
  each (fun x => on_hub (on_subscribe (chan_send (f x)))) xs w =
  Ret tt (set_hub (requested (f <$> xs) (w_hub w)) w).
Proof.
  revert w. induction xs as [|x xs IH]; intros w Hr.
  - simpl. rewrite requested_nil. by destruct w.
  - cbn [each length] in *. destruct (request_one (length xs) (f x) (w_hub w) Hr) as [Ho Hr'].
    erewrite bind_ret_eq by (unfold on_hub, zoom at 1; by rewrite Ho).
    rewrite IH by done. simpl. unfold requested; simpl. by rewrite <- app_assoc.
Qed.

Lemma stop_step (uid id : string) r w :
  request_room (length (stop_requests uid id r)) (w_hub w) ->
  (if StopAllStreams r then on_hub (RemoveAllSubscriptions uid id)
   else each (fun stream => on_hub (RemoveSubscription uid id stream)) (StoppedStreams r)) w =
  Ret tt (set_hub (requested (stop_requests uid id r) (w_hub w)) w).
Proof.
  unfold stop_requests. destruct (StopAllStreams r); intros Hr.
  - destruct (request_one 0 (mkHubSubscription "removeAll" uid EmptyString id) (w_hub w) Hr)
      as [Ho _].
    unfold on_hub, zoom at 1, RemoveAllSubscriptions. by rewrite Ho.
  - rewrite length_fmap in Hr. by apply requests_each.
Qed.

(** The streams a reply subscribes the session to, at once. *)
Definition streams_added (uid id : string) (ss : list string) h : Hub :=
  foldl (fun h stream => streams_subscribed uid stream id h) h ss.

Lemma streams_step (uid id : string) ss w :
  streamsMu (w_hub w) = rw_free ->
  each (fun stream => on_hub (subscribeSession uid stream id)) ss w =
  Ret tt (set_hub (streams_added uid id ss (w_hub w)) w).
Proof.
  revert w. induction ss as [|x ss IH]; intros w Hmu; [by destruct w |].
  cbn [each]. erewrite bind_ret_eq by
    (unfold on_hub, zoom at 1; by rewrite subscribeSession_ok).
  by rewrite IH.
Qed.

(** The hub and the session after a reply to a command. *)
Definition hub_replied (uid id : string) (r : CommandResult) h : Hub :=
  streams_added uid id (Streams r) (requested (stop_requests uid id r) h).

Definition session_replied (id : string) (r : CommandResult) s : Session :=
  call_replied (CommandResult_ToCallResult r) (set_env (merge_istate id (IState r) (env s)) s).

Record node_takes (uid id : string) (r : CommandResult) w : Prop := {
  nt_requests : request_room (length (stop_requests uid id r)) (w_hub w);
  nt_streamsMu : streamsMu (w_hub w) = rw_free;
  nt_broadcasts : broadcast_room (length (Broadcasts r)) w
}.

Lemma streams_added_broadcast uid id ss h : broadcast (streams_added uid id ss h) = broadcast h.
Proof.
  unfold streams_added. revert h. induction ss as [|x ss IH]; intros h; simpl; [done | by rewrite IH].
Qed.

Lemma handleCommandReply_ok l msg r s w :
  takes (length (Transmissions r)) s -> node_takes (UID s) (Identifier msg) r w ->
  handleCommandReply l msg r (put_session l s w) =
  when (Disconnect r) (Session_Disconnect l "Command Failed" CloseAbnormalClosure)
    (put_session l (session_replied (Identifier msg) r s)
      (broadcasted (Broadcasts r) (set_hub (hub_replied (UID s) (Identifier msg) r (w_hub w)) w))).
Proof.
  intros Ht [Hq Hmu Hb]. unfold handleCommandReply. step.
  pose proof Ht as [_ [[_ Hsmu _ _] _] Henv].
  erewrite bind_ret_eq by (by apply stop_step).
  erewrite bind_ret_eq by (by apply streams_step). simpl w_hub.
  fold (hub_replied (UID s) (Identifier msg) r (w_hub w)).
  change (set_hub ?a (set_hub ?b (put_session l s w))) with (put_session l s (set_hub a w)).
  erewrite bind_ret_eq by (by apply istate_step).
  erewrite bind_ret_eq; [reflexivity |]. apply handleCallReply_ok.
  - apply takes_set_env; [done | by apply merge_istate_ok].
  - destruct Hb as (H1 & H2 & H3). unfold broadcast_room; simpl. unfold hub_replied.
    by rewrite streams_added_broadcast.
Qed.

(** ** Subscribe *)

(** The session after a command that the controller accepted. *)
Definition joined (id : string) (err : option error) s : Session :=
  match err with
  | Some _ => s
  | None => set_subscriptions (<[id := true]> (subscriptions s)) s
  end.

Lemma Subscribe_ok l msg s w res err m' c' :
  subscriptions s !! Identifier msg = None ->
  ctl_Subscribe (UID s) (env s) (Identifiers s) (Identifier msg) (w_metrics w, w_ctl w) =
    Ret (Some res, err) (m', c') ->
  takes (length (Transmissions res)) s ->
  node_takes (UID s) (Identifier msg) res (set_ctl c' (set_metrics m' w)) ->
  Disconnect res = false ->
  Subscribe l msg (put_session l s w) =
  Ret (Some res, err)
    (put_session l (session_replied (Identifier msg) res (joined (Identifier msg) err s))
      (broadcasted (Broadcasts res)
        (set_hub (hub_replied (UID s) (Identifier msg) res (w_hub w))
          (set_ctl c' (set_metrics m' w))))).
Proof.
  intros Hnew Hctl Ht Hn Hd. pose proof Ht as [He [[_ Hsmu _ _] _] Henv]. unfold Subscribe.
  step. step. under_smu. rewrite Hnew.
  erewrite bind_ret_eq.
  2: { unfold on_ctl, zoom; simpl. rewrite Hctl. reflexivity. }
  change (set_ctl ?c (set_metrics ?m (put_session l ?x w)))
    with (put_session l x (set_ctl c (set_metrics m w))).
  cbn [fst snd]. erewrite (bind_ret_eq _ _ _ tt
    (put_session l (set_smu true (joined (Identifier msg) err s)) (set_ctl c' (set_metrics m' w)))).
  2: { destruct err; [done | by rewrite modify_put]. }
  erewrite bind_ret_eq by (by apply unlock_smu_put).
  assert (Hs : set_smu false (set_smu true (joined (Identifier msg) err s)) =
               joined (Identifier msg) err s).
  { destruct err; by open_session s. }
  rewrite Hs. simpl reply_if_any.
  assert (Ht' : takes (length (Transmissions res)) (joined (Identifier msg) err s)).
  { destruct Ht as [T1 [[] T2] T3]. destruct err; by split. }
  erewrite bind_ret_eq.
  2: { rewrite handleCommandReply_ok; [| exact Ht' | by destruct err].
       rewrite Hd. reflexivity. }
  by destruct err.
Qed.

(** ** Unsubscribe *)

Definition left_channel (id : string) s : Session :=
  set_subscriptions (delete id (subscriptions s)) s.

Lemma Unsubscribe_ok l msg s w res m' c' :
  is_Some (subscriptions s !! Identifier msg) ->
  ctl_Unsubscribe (UID s) (env s) (Identifiers s) (Identifier msg) (w_metrics w, w_ctl w) =
    Ret (Some res, None) (m', c') ->
  takes (length (Transmissions res)) s ->
  node_takes (UID s) (Identifier msg) (stopping_all res) (set_ctl c' (set_metrics m' w)) ->
  Disconnect res = false ->
  Unsubscribe l msg (put_session l s w) =
  Ret (Some (stopping_all res), None)
    (put_session l (session_replied (Identifier msg) (stopping_all res) (left_channel (Identifier msg) s))
      (broadcasted (Broadcasts res)
        (set_hub (hub_replied (UID s) (Identifier msg) (stopping_all res) (w_hub w))
          (set_ctl c' (set_metrics m' w))))).
Proof.
  intros [b Hb] Hctl Ht Hn Hd. pose proof Ht as [He [[_ Hsmu _ _] _] Henv]. unfold Unsubscribe.
  step. step. under_smu. rewrite Hb.
  erewrite bind_ret_eq.
  2: { unfold on_ctl, zoom; simpl. rewrite Hctl. reflexivity. }
  change (set_ctl ?c (set_metrics ?m (put_session l ?x w)))
    with (put_session l x (set_ctl c (set_metrics m w))).
  cbn [fst snd]. erewrite (bind_ret_eq _ _ _ (Some (stopping_all res))
    (put_session l (set_smu true (left_channel (Identifier msg) s)) (set_ctl c' (set_metrics m' w)))).
  2: { by erewrite bind_ret_eq by apply modify_put. }
  erewrite bind_ret_eq by (by apply unlock_smu_put).
  assert (Hs : set_smu false (set_smu true (left_channel (Identifier msg) s)) =
               left_channel (Identifier msg) s) by (by open_session s).
  rewrite Hs. simpl reply_if_any.
  assert (Ht' : takes (length (Transmissions res)) (left_channel (Identifier msg) s)).
  { destruct Ht as [T1 [[] T2] T3]. by split. }
  erewrite bind_ret_eq.
  2: { rewrite handleCommandReply_ok; [| exact Ht' | done]. simpl. rewrite Hd. reflexivity. }
  done.
Qed.

(** ** Streams after a reply *)

Lemma entry_streams_added uid id ss h t :
  entry (streams (streams_added uid id ss h)) t =
  if decide (t.1.2 = uid /\ t.2 = id /\ t.1.1 ∈ ss) then Some true else entry (streams h) t.
Proof.
  unfold streams_added. revert h. induction ss as [|x ss IH]; intros h; simpl.
  - case_decide; [set_solver | done].
  - rewrite IH. simpl. rewrite entry_with_entry. destruct t as [[a b] c]; simpl.
    repeat case_decide; naive_solver set_solver.
Qed.

Lemma listed_streams_added uid id ss h sid i x :
  x ∈ listed (streams_added uid id ss h) sid i <->
  x ∈ listed h sid i \/ (sid = uid /\ i = id /\ x ∈ ss).
Proof.
  unfold streams_added. revert h. induction ss as [|y ss IH]; intros h; simpl.
  - split; [tauto |]. intros [? | (_ & _ & ?)]; [done | set_solver].
  - rewrite IH.
    assert (Hl : x ∈ listed (streams_subscribed uid y id h) sid i <->
                 x ∈ listed h sid i \/ (sid = uid /\ i = id /\ x = y)).
    { unfold listed, streams_subscribed; simpl. rewrite lookup_insert. case_decide as Hs.
      - subst. rewrite lookup_insert. case_decide as Hi; simpl.
        + subst. destruct (sessionsStreams h !! sid) as [by_id|]; simpl;
            rewrite ?lookup_empty; simpl; set_solver.
        + destruct (sessionsStreams h !! sid) as [by_id|]; simpl;
            rewrite ?lookup_empty; simpl; set_solver.
      - set_solver. }
    rewrite Hl. set_solver.
Qed.

Lemma streams_added_frame uid id ss h :
  subscribe (streams_added uid id ss h) = subscribe h /\
  streamsMu (streams_added uid id ss h) = streamsMu h /\
  running (streams_added uid id ss h) = running h.
Proof.
  unfold streams_added. revert h. induction ss as [|x ss IH]; intros h; simpl; [done |].
  destruct (IH (streams_subscribed uid x id h)) as (-> & -> & ->). done.
Qed.

(** The hub takes the request at the head of its queue. *)
Lemma Run_subscribe_ok uid id w rest :
  running (w_hub w) = true -> streamsMu (w_hub w) = rw_free ->
  ch_buf (subscribe (w_hub w)) = mkHubSubscription "removeAll" uid EmptyString id :: rest ->
  exists st, Run CaseSubscribe w =
      Ret tt (set_hub (set_streams st (set_subscribe
        (mkChan rest (ch_cap (subscribe (w_hub w))) (ch_closed (subscribe (w_hub w)))) (w_hub w))) w) /\
    forall t, entry st t =
      if decide (t.1.2 = uid /\ t.2 = id /\ t.1.1 ∈ listed (w_hub w) uid id) then None
      else entry (streams (w_hub w)) t.
Proof.
  intros Hrun Hmu Hbuf.
  set (h1 := set_subscribe (mkChan rest (ch_cap (subscribe (w_hub w)))
    (ch_closed (subscribe (w_hub w)))) (w_hub w)).
  destruct (unsubscribe_channel_ok uid id false h1 Hmu) as (st & Hun & Hst).
  exists st. split; [| exact Hst].
  unfold Run. erewrite bind_ret_eq by reflexivity. rewrite Hrun. cbn [negb]. unfold receive.
  erewrite bind_ret_eq.
  2: { unfold on_hub, on_subscribe, zoom, chan_recv. rewrite Hbuf. reflexivity. }
  fold h1. unfold handle_subscription, on_hub, zoom. simpl. by rewrite Hun.
Qed.

(** ** What the commands promise *)

(** C21. Commands are guarded by the session's subscriptions: a second subscription to
    the same channel, and unsubscribing from or performing on a channel the session
    is not subscribed to, are refused without consulting the controller and
    without any effect. *)
Theorem commands_guarded l msg s w :
  smu s = false ->
  (is_Some (subscriptions s !! Identifier msg) ->
   Subscribe l msg (put_session l s w) =
     Ret (None, Some (Errorf ("Already subscribed to " ++ Identifier msg))) (put_session l s w)) /\
  (subscriptions s !! Identifier msg = None ->
   Unsubscribe l msg (put_session l s w) =
     Ret (None, Some (Errorf ("Unknown subscription " ++ Identifier msg))) (put_session l s w) /\
   Perform l msg (put_session l s w) =
     Ret (None, Some (Errorf ("Unknown subscription " ++ Identifier msg))) (put_session l s w)).
Proof.
  intros Hsmu.
  assert (Hs : set_smu false (set_smu true s) = s) by (by open_session s).
  split; [intros [b Hb] | intros Hn; split]; unfold Subscribe, Unsubscribe, Perform;
    step; step; under_smu; rewrite ?Hb, ?Hn;
    (erewrite bind_ret_eq by (by apply unlock_smu_put)); by rewrite Hs.
Qed.

(** C19. A subscription the controller accepts is recorded in the session; the session
    receives exactly the streams of the reply in addition to those it had; the
    transmissions are queued for the client in order, behind what is queued
    already; the broadcasts of the reply are handed to the hub in order; and the
    returned state is merged into the session's environment. *)
Theorem Subscribe_effect l msg s w res m' c' :
  subscriptions s !! Identifier msg = None ->
  ctl_Subscribe (UID s) (env s) (Identifiers s) (Identifier msg) (w_metrics w, w_ctl w) =
    Ret (Some res, None) (m', c') ->
  takes (length (Transmissions res)) s ->
  node_takes (UID s) (Identifier msg) res (set_ctl c' (set_metrics m' w)) ->
  Disconnect res = false ->
  exists s' w', Subscribe l msg (put_session l s w) = Ret (Some res, None) (put_session l s' w') /\
    subscriptions s' = <[Identifier msg := true]> (subscriptions s) /\
    (forall t, entry (streams (w_hub w')) t =
       if decide (t.1.2 = UID s /\ t.2 = Identifier msg /\ t.1.1 ∈ Streams res) then Some true
       else entry (streams (w_hub w)) t) /\
    ch_buf (sendQ s') = (ch_buf (sendQ s) ++ (text_frame <$> Transmissions res))%list /\
    ch_buf (broadcast (w_hub w')) = (ch_buf (broadcast (w_hub w)) ++ Broadcasts res)%list /\
    env s' = merge_cstate (CState res) (merge_istate (Identifier msg) (IState res) (env s)).
Proof.
  intros Hnew Hctl Ht Hn Hd. do 2 eexists. split; [by apply Subscribe_ok |].
  split; [done |]. split.
  { intros t. simpl. unfold hub_replied. by rewrite entry_streams_added. }
  split; [done |]. split.
  { simpl. unfold hub_replied. by rewrite streams_added_broadcast. }
  simpl. by destruct (CState res).
Qed.

(** A subscription the controller rejects without an error (status FAILURE) is
    recorded all the same: the session counts as subscribed, and a new attempt to
    subscribe is refused. *)
Theorem rejected_subscription_recorded l msg s w res m' c' :
  subscriptions s !! Identifier msg = None ->
  ctl_Subscribe (UID s) (env s) (Identifiers s) (Identifier msg) (w_metrics w, w_ctl w) =
    Ret (Some res, None) (m', c') ->
  Status res = FAILURE ->
  takes (length (Transmissions res)) s ->
  node_takes (UID s) (Identifier msg) res (set_ctl c' (set_metrics m' w)) ->
  Disconnect res = false ->
  exists s' w', Subscribe l msg (put_session l s w) = Ret (Some res, None) (put_session l s' w') /\
    subscriptions s' !! Identifier msg = Some true /\
    Subscribe l msg (put_session l s' w') =
      Ret (None, Some (Errorf ("Already subscribed to " ++ Identifier msg))) (put_session l s' w').
Proof.
  intros Hnew Hctl _ Ht Hn Hd. do 2 eexists. split; [by apply Subscribe_ok |].
  match goal with |- subscriptions ?x !! _ = _ /\ _ => set (s' := x) end.
  assert (Hin : subscriptions s' !! Identifier msg = Some true) by apply lookup_insert_eq.
  assert (Hsmu : smu s' = false) by (by destruct Ht as [_ [[_ Hsmu _ _] _] _]).
  split; [exact Hin |]. unfold Subscribe. step. step. under_smu. rewrite Hin.
  erewrite bind_ret_eq by (by apply unlock_smu_put).
  replace (set_smu false (set_smu true s')) with s'; [done |].
  clear Hin. clearbody s'. by open_session s'.
Qed.

Lemma requested_frame rs h :
  streams (requested rs h) = streams h /\ listed (requested rs h) = listed h /\
  streamsMu (requested rs h) = streamsMu h /\ running (requested rs h) = running h.
Proof. done. Qed.

Lemma foldl_bump_sessions (ms : list StreamMessage) w :
  w_sessions (foldl (fun w _ => bump (Counter_Add 1) metricsBroadcastMsg w) w ms) = w_sessions w.
Proof. revert w. induction ms as [|m ms IH]; intros w; simpl; [done | by rewrite IH]. Qed.

(** The hub after a reply, as its loop will find it. *)
Lemma replied_hub uid id r ms w :
  let h := w_hub (broadcasted ms (set_hub (hub_replied uid id r (w_hub w)) w)) in
  running h = running (w_hub w) /\ streamsMu h = streamsMu (w_hub w) /\
  ch_buf (subscribe h) = (ch_buf (subscribe (w_hub w)) ++ stop_requests uid id r)%list /\
  (forall t, entry (streams h) t =
     if decide (t.1.2 = uid /\ t.2 = id /\ t.1.1 ∈ Streams r) then Some true
     else entry (streams (w_hub w)) t) /\
  (forall sid i x, x ∈ listed h sid i <->
     x ∈ listed (w_hub w) sid i \/ (sid = uid /\ i = id /\ x ∈ Streams r)).
Proof.
  cbv zeta. simpl. unfold hub_replied.
  destruct (streams_added_frame uid id (Streams r) (requested (stop_requests uid id r) (w_hub w)))
    as (H1 & H2 & H3). rewrite H1, H2, H3. split_and!; try done.
  - intros t. by rewrite entry_streams_added.
  - intros sid i x. by rewrite <- (listed_streams_added uid id (Streams r)
      (requested (stop_requests uid id r) (w_hub w)) sid i x).
Qed.

(** C20. A successful unsubscription removes the channel from the session, and once the
    hub has handled the request the session receives nothing for that channel any
    more, while every other subscription stays as it was. *)
Theorem Unsubscribe_effect l msg s w res m' c' r :
  implements (w_hub w) r -> running (w_hub w) = true -> ch_buf (subscribe (w_hub w)) = [] ->
  is_Some (subscriptions s !! Identifier msg) ->
  ctl_Unsubscribe (UID s) (env s) (Identifiers s) (Identifier msg) (w_metrics w, w_ctl w) =
    Ret (Some res, None) (m', c') ->
  takes (length (Transmissions res)) s ->
  node_takes (UID s) (Identifier msg) (stopping_all res) (set_ctl c' (set_metrics m' w)) ->
  Disconnect res = false ->
  exists s' w' w'',
    Unsubscribe l msg (put_session l s w) = Ret (Some (stopping_all res), None) (put_session l s' w') /\
    subscriptions s' = delete (Identifier msg) (subscriptions s) /\
    Run CaseSubscribe (put_session l s' w') = Ret tt w'' /\
    forall t, entry (streams (w_hub w'')) t =
      if decide (t.1.2 = UID s /\ t.2 = Identifier msg) then None else entry (streams (w_hub w)) t.
Proof.
  intros Him Hrun Hq Hsub Hctl Ht Hn Hd.
  destruct (replied_hub (UID s) (Identifier msg) (stopping_all res) (Broadcasts res)
    (set_ctl c' (set_metrics m' w))) as (H1 & H2 & H3 & H4 & H5).
  change (w_hub (set_ctl c' (set_metrics m' w))) with (w_hub w) in *.
  set (w' := broadcasted _ _) in *.
  set (s' := session_replied (Identifier msg) (stopping_all res) (left_channel (Identifier msg) s)).
  destruct (Run_subscribe_ok (UID s) (Identifier msg) (put_session l s' w') [])
    as (st & Hr & Hst); [exact (eq_trans H1 Hrun) | exact (eq_trans H2 (im_streamsMu _ _ Him)) |
     etransitivity; [exact H3 | by rewrite Hq] |].
  do 3 eexists. split; [by apply Unsubscribe_ok |]. split; [done |]. split; [exact Hr |].
  intros [[x y] z]. simpl streams. rewrite Hst.
  pose proof (im_listed _ _ Him (x, y, z)) as Hl. cbn [fst snd] in Hl.
  change (w_hub (put_session l s' w')) with (w_hub w'). rewrite H4. cbn [fst snd].
  destruct (H5 (UID s) (Identifier msg) x) as [_ Hin]. clear H3 H4 H5 Hst Hr.
  destruct (decide (y = UID s /\ z = Identifier msg)) as [[-> ->]|Hne].
  2: by rewrite !decide_False by tauto.
  case_decide as H6; [done |]. rewrite decide_False by tauto.
  destruct (entry (streams (w_hub w)) (x, UID s, Identifier msg)) eqn:He; [| done].
  exfalso. apply H6. split; [done |]. split; [done |]. apply Hin. left. apply Hl.
  by eexists.
Qed.

(** Subscribing is immediate but unsubscribing waits in the hub's queue, so a
    pending removal also takes away the streams of a subscription made after it:
    with the removal of the same channel at the head of the queue, an accepted
    [Subscribe] followed by one iteration of the hub leaves the session subscribed
    to the channel but to none of its streams. *)
Theorem pending_removal_wipes_new_streams l msg s w res m' c' rest :
  running (w_hub w) = true ->
  ch_buf (subscribe (w_hub w)) =
    mkHubSubscription "removeAll" (UID s) EmptyString (Identifier msg) :: rest ->
  subscriptions s !! Identifier msg = None ->
  ctl_Subscribe (UID s) (env s) (Identifiers s) (Identifier msg) (w_metrics w, w_ctl w) =
    Ret (Some res, None) (m', c') ->
  takes (length (Transmissions res)) s ->
  node_takes (UID s) (Identifier msg) res (set_ctl c' (set_metrics m' w)) ->
  Disconnect res = false ->
  exists s' w' w'',
    Subscribe l msg (put_session l s w) = Ret (Some res, None) (put_session l s' w') /\
    subscriptions s' !! Identifier msg = Some true /\
    Run CaseSubscribe (put_session l s' w') = Ret tt w'' /\
    forall stream, stream ∈ Streams res ->
      entry (streams (w_hub w')) (stream, UID s, Identifier msg) = Some true /\
      entry (streams (w_hub w'')) (stream, UID s, Identifier msg) = None.
Proof.
  intros Hrun Hq Hsub Hctl Ht Hn Hd.
  destruct (replied_hub (UID s) (Identifier msg) res (Broadcasts res)
    (set_ctl c' (set_metrics m' w))) as (H1 & H2 & H3 & H4 & H5).
  change (w_hub (set_ctl c' (set_metrics m' w))) with (w_hub w) in *.
  set (w' := broadcasted _ _) in *.
  set (s' := session_replied (Identifier msg) res (joined (Identifier msg) None s)).
  destruct (Run_subscribe_ok (UID s) (Identifier msg) (put_session l s' w')
    (rest ++ stop_requests (UID s) (Identifier msg) res)) as (st & Hr & Hst);
    [exact (eq_trans H1 Hrun) | exact (eq_trans H2 (nt_streamsMu _ _ _ _ Hn)) |
     etransitivity; [exact H3 | by rewrite Hq] |].
  do 3 eexists. split; [by apply Subscribe_ok |]. split; [apply lookup_insert_eq |].
  split; [exact Hr |]. intros stream Hin. split.
  - rewrite H4. by rewrite decide_True.
  - simpl streams. rewrite Hst, decide_True; [done |]. split; [done |]. split; [done |].
    apply H5. right. done.
Qed.

(** ** Authenticate *)

Definition identified (r : ConnectResult) s : Session :=
  set_Connected true (set_Identifiers (con_Identifier r) s).

(** C24. A successful authentication connects the session: it takes the identifiers of
    the reply, is registered with the hub under its own name and identifiers, and
    gets the transmissions of the reply; nothing else in the registry changes. *)
Theorem Authenticate_success l s w r m' c' reg :
  ctl_Authenticate (UID s) (env s) (w_metrics w, w_ctl w) = Ret (Some r, None) (m', c') ->
  con_Status r = SUCCESS -> implements (w_hub w) reg ->
  takes (length (con_Transmissions r)) s ->
  broadcast_room (length (con_Broadcasts r)) (set_ctl c' (set_metrics m' w)) ->
  exists s' w', Authenticate l (put_session l s w) = Ret (Some r, None) (put_session l s' w') /\
    Connected s' = true /\ Identifiers s' = con_Identifier r /\ UID s' = UID s /\
    ch_buf (sendQ s') = (ch_buf (sendQ s) ++ (text_frame <$> con_Transmissions r))%list /\
    implements (w_hub w') (spec_cmd reg (CmdAdd l (UID s) (con_Identifier r))).
Proof.
  intros Hctl Hst Him Ht Hb. unfold Authenticate. step.
  destruct (add_refines l (UID s) (con_Identifier r) (w_hub w) reg Him) as (h' & Hadd & Him').
  assert (Hbc : broadcast h' = broadcast (w_hub w)).
  { destruct (hub_addSession_ok l (UID s) (con_Identifier r) (w_hub w) reg Him)
      as (o & m & Heq & _). rewrite Hadd in Heq. by injection Heq as ->. }
  erewrite bind_ret_eq.
  2: { unfold on_ctl, zoom; simpl. rewrite Hctl. reflexivity. }
  cbn [fst snd]. rewrite Hst. cbn [Z.eqb SUCCESS].
  change (set_ctl ?c (set_metrics ?m (put_session l ?x w)))
    with (put_session l x (set_ctl c (set_metrics m w))).
  erewrite bind_ret_eq by apply modify_put. erewrite bind_ret_eq by apply modify_put.
  fold (identified r s).
  erewrite (bind_ret_eq _ _ _ tt
    (put_session l (identified r s) (set_hub h' (set_ctl c' (set_metrics m' w))))).
  2: { unfold addSession. step. unfold on_hub, zoom. simpl. by rewrite Hadd. }
  assert (Ht' : takes (length (con_Transmissions r)) (identified r s)).
  { destruct Ht as [T1 [[] T2] T3]. by split. }
  erewrite bind_ret_eq.
  2: { apply handleCallReply_ok; [exact Ht' |]. destruct Hb as (B1 & B2 & B3).
       unfold broadcast_room; simpl. by rewrite Hbc. }
  do 2 eexists. split; [reflexivity |]. do 4 (split; [done |]). simpl.
  destruct Him'. by split.
Qed.

(** A failed authentication ends the session: it gets the transmissions of the
    reply and then a close frame, is closed and never counts as connected; the
    failure is counted; the registry of the hub and its channels, but for the
    broadcasts of the reply, are left alone. *)
Theorem Authenticate_failure l s w r m' c' :
  ctl_Authenticate (UID s) (env s) (w_metrics w, w_ctl w) = Ret (Some r, None) (m', c') ->
  con_Status r = FAILURE -> Connected s = false ->
  takes (S (length (con_Transmissions r))) s ->
  registered metricsFailedAuths (set_ctl c' (set_metrics m' w)) ->
  broadcast_room (length (con_Broadcasts r)) (set_ctl c' (set_metrics m' w)) ->
  exists s', Authenticate l (put_session l s w) =
      Ret (Some r, None) (put_session l s' (broadcasted (con_Broadcasts r)
        (bump (Counter_Add 1) metricsFailedAuths (set_ctl c' (set_metrics m' w))))) /\
    Connected s' = false /\ closed s' = true /\
    ch_buf (sendQ s') = (ch_buf (sendQ s) ++ (text_frame <$> con_Transmissions r) ++
                         [close_frame "Auth Failed" CloseNormalClosure])%list.
Proof.
  intros Hctl Hst Hcon Ht Hreg Hb. unfold Authenticate. step.
  erewrite bind_ret_eq.
  2: { unfold on_ctl, zoom; simpl. rewrite Hctl. reflexivity. }
  cbn [fst snd]. rewrite Hst. cbn [Z.eqb SUCCESS FAILURE Pos.eqb when].
  change (set_ctl ?c (set_metrics ?m (put_session l ?x w)))
    with (put_session l x (set_ctl c (set_metrics m w))).
  erewrite bind_ret_eq by (by apply counter_inc_ok).
  change (bump ?g ?n (put_session l ?x ?v)) with (put_session l x (bump g n v)).
  destruct Ht as [Hjson ([Hmu Hsmu Hop Hr] & Hch & Hn) Henv].
  assert (Ht1 : takes (length (con_Transmissions r)) s).
  { split; [done | | done]. split; [by split |]. split; [done | lia]. }
  erewrite bind_ret_eq.
  2: { apply handleCallReply_ok; [exact Ht1 |]. destruct Hb as (B1 & B2).
       split; [by apply registered_bump | exact B2]. }
  set (s1 := call_replied (ConnectResult_ToCallResult r) s).
  assert (Hs1 : session_ok s1).
  { split; try done. simpl. rewrite length_app, length_fmap. lia. }
  assert (Hf : chan_full (sendQ s1) = false).
  { apply bool_decide_eq_false. simpl. rewrite length_app, length_fmap. lia. }
  erewrite bind_ret_eq by (apply Session_Disconnect_ok; [done | simpl; by rewrite Hcon]).
  change (Connected s1) with (Connected s). rewrite Hcon.
  eexists. split; [reflexivity |].
  unfold disconnected, after_send. change (sendCh (set_Connected false s1)) with (sendCh s).
  change (sendQ (set_Connected false s1)) with (sendQ s1). rewrite Hch, Hf.
  unfold closing, stop_ping. open_session s.
  destruct is_closed, timer; simpl; rewrite <- ?app_assoc; done.
Qed.
End replies.

(** ** A concrete controller and node *)

(** A controller that always answers alike: a welcome, and the stream "news" with
    the given status. *)
Definition scripted (status : Z) : Controller unit :=
  let command := Some (mkCommandResult false false ["news"] [] ["confirm"] [] None None status) in
  {| ctl_Authenticate := fun _ _ =>
       ret (Some (mkConnectResult "user" ["welcome"] [] None None status), None);
     ctl_Subscribe := fun _ _ _ _ => ret (command, None);
     ctl_Unsubscribe := fun _ _ _ _ => ret (command, None);
     ctl_Perform := fun _ _ _ _ _ => ret (command, None);
     ctl_Disconnect := fun _ _ _ _ => ret None;
     ctl_Shutdown := ret None |}.

Definition sample_res (status : Z) : CommandResult :=
  mkCommandResult false false ["news"] [] ["confirm"] [] None None status.

Definition live_node : World unit := set_hub (set_running true (w_hub sample_node)) sample_node.

(** A session that is not connected yet, one that is, and one that is subscribed. *)
Definition sample_newcomer : Session := set_Connected false (sample_session [] 256).
Definition sample_subscriber : Session :=
  set_subscriptions {[ "chat" := true ]} (sample_session [] 256).

Definition chat_message (command : string) : Message := mkMessage command "chat" JNull.

Lemma sample_takes n s :
  n <= 256 -> In s [sample_newcomer; sample_session [] 256; sample_subscriber] -> takes n s.
Proof.
  intros Hn [<- | [<- | [<- | []]]]; (split; [reflexivity | | apply NewSessionEnv_ok]);
    (split; [by split; simpl; lia |]); split; simpl; done || lia.
Qed.

Lemma sample_node_takes id r :
  length (StoppedStreams r) <= 100 -> Broadcasts r = [] -> node_takes "sid" id r live_node.
Proof.
  intros Hs Hb. split; [| reflexivity |].
  - split; [reflexivity |]. unfold stop_requests. destruct (StopAllStreams r); simpl; [lia |].
    rewrite length_fmap. lia.
  - rewrite Hb. split; [vm_compute; eauto |]. split; [reflexivity | simpl; lia].
Qed.

Lemma commands_guarded_witness :
  @Unsubscribe unit (scripted SUCCESS) canonical_order 1 (chat_message "unsubscribe")
    (put_session 1 (sample_session [] 256) live_node) =
  Ret (None, Some (Errorf "Unknown subscription chat"))
    (put_session 1 (sample_session [] 256) live_node).
Proof.
  apply (@commands_guarded unit (scripted SUCCESS) canonical_order 1 (chat_message "unsubscribe")
    (sample_session [] 256) live_node eq_refl). reflexivity.
Defined.

Lemma Subscribe_effect_witness :
  exists s' w',
    @Subscribe unit (scripted SUCCESS) canonical_order 1 (chat_message "subscribe")
      (put_session 1 (sample_session [] 256) live_node) =
      Ret (Some (sample_res SUCCESS), None) (put_session 1 s' w') /\
    entry (streams (w_hub w')) ("news", "sid", "chat") = Some true /\
    ch_buf (sendQ s') = [text_frame "confirm"].
Proof.
  destruct (@Subscribe_effect unit (scripted SUCCESS) canonical_order 1 (chat_message "subscribe")
    (sample_session [] 256) live_node (sample_res SUCCESS) (w_metrics live_node) tt
    eq_refl eq_refl) as (s' & w' & Hrun & _ & Hst & Hq & _).
  - apply sample_takes; simpl; [lia | auto].
  - apply sample_node_takes; [simpl; lia | reflexivity].
  - reflexivity.
  - exists s', w'. split; [exact Hrun |]. split; [rewrite Hst; reflexivity | exact Hq].
Defined.

Lemma rejected_subscription_witness :
  exists s' w',
    @Subscribe unit (scripted FAILURE) canonical_order 1 (chat_message "subscribe")
      (put_session 1 (sample_session [] 256) live_node) =
      Ret (Some (sample_res FAILURE), None) (put_session 1 s' w') /\
    subscriptions s' !! "chat" = Some true.
Proof.
  destruct (@rejected_subscription_recorded unit (scripted FAILURE) canonical_order 1
    (chat_message "subscribe") (sample_session [] 256) live_node (sample_res FAILURE)
    (w_metrics live_node) tt eq_refl eq_refl eq_refl) as (s' & w' & Hrun & Hs & _).
  - apply sample_takes; simpl; [lia | auto].
  - apply sample_node_takes; [simpl; lia | reflexivity].
  - reflexivity.
  - exists s', w'. split; [exact Hrun | exact Hs].
Defined.

Lemma Unsubscribe_effect_witness :
  exists s' w' w'',
    @Unsubscribe unit (scripted SUCCESS) canonical_order 1 (chat_message "unsubscribe")
      (put_session 1 sample_subscriber live_node) =
      Ret (Some (stopping_all (sample_res SUCCESS)), None) (put_session 1 s' w') /\
    @Run unit canonical_order CaseSubscribe (put_session 1 s' w') = Ret tt w'' /\
    entry (streams (w_hub w'')) ("news", "sid", "chat") = None.
Proof.
  destruct (@Unsubscribe_effect unit (scripted SUCCESS) canonical_order 1
    (chat_message "unsubscribe") sample_subscriber live_node (sample_res SUCCESS)
    (w_metrics live_node) tt empty_registry) as (s' & w' & w'' & Hrun & _ & Hhub & Hst).
  - destruct (new_hub_implements (mkPool 16 8 [])) as [H1 H2 H3 H4 H5 H6 H7 H8]. split; assumption.
  - reflexivity.
  - reflexivity.
  - vm_compute. eauto.
  - reflexivity.
  - apply sample_takes; simpl; [lia | auto].
  - apply sample_node_takes; [simpl; lia | reflexivity].
  - reflexivity.
  - exists s', w', w''. split; [exact Hrun |]. split; [exact Hhub |]. rewrite Hst. reflexivity.
Defined.

Lemma pending_removal_witness :
  exists s' w' w'',
    @Subscribe unit (scripted SUCCESS) canonical_order 1 (chat_message "subscribe")
      (put_session 1 (sample_session [] 256)
        (set_hub (requested [mkHubSubscription "removeAll" "sid" EmptyString "chat"]
                    (w_hub live_node)) live_node)) =
      Ret (Some (sample_res SUCCESS), None) (put_session 1 s' w') /\
    @Run unit canonical_order CaseSubscribe (put_session 1 s' w') = Ret tt w'' /\
    entry (streams (w_hub w'')) ("news", "sid", "chat") = None.
Proof.
  destruct (@pending_removal_wipes_new_streams unit (scripted SUCCESS) canonical_order 1
    (chat_message "subscribe") (sample_session [] 256)
    (set_hub (requested [mkHubSubscription "removeAll" "sid" EmptyString "chat"]
                (w_hub live_node)) live_node)
    (sample_res SUCCESS) (w_metrics live_node) tt [])
    as (s' & w' & w'' & Hrun & _ & Hhub & Hst).
  - reflexivity.
  - reflexivity.
  - reflexivity.
  - reflexivity.
  - apply sample_takes; simpl; [lia | auto].
  - split; [| reflexivity |].
    + split; [reflexivity | simpl; lia].
    + split; [vm_compute; eauto |]. split; [reflexivity | simpl; lia].
  - reflexivity.
  - exists s', w', w''. split; [exact Hrun |]. split; [exact Hhub |].
    apply (Hst "news"). by constructor.
Defined.

Lemma Authenticate_success_witness :
  exists s' w',
    @Authenticate unit (scripted SUCCESS) canonical_order 1 (put_session 1 sample_newcomer live_node) =
      Ret (Some (mkConnectResult "user" ["welcome"] [] None None SUCCESS), None)
        (put_session 1 s' w') /\
    Connected s' = true /\ Identifiers s' = "user".
Proof.
  destruct (@Authenticate_success unit (scripted SUCCESS) canonical_order 1 sample_newcomer live_node
    (mkConnectResult "user" ["welcome"] [] None None SUCCESS) (w_metrics live_node) tt
    empty_registry eq_refl eq_refl) as (s' & w' & Hrun & Hc & Hi & _).
  - destruct (new_hub_implements (mkPool 16 8 [])) as [H1 H2 H3 H4 H5 H6 H7 H8]. split; assumption.
  - apply sample_takes; simpl; [lia | auto].
  - split; [vm_compute; eauto |]. split; [reflexivity | simpl; lia].
  - exists s', w'. split; [exact Hrun |]. split; [exact Hc | exact Hi].
Defined.

Lemma Authenticate_failure_witness :
  exists s' w',
    @Authenticate unit (scripted FAILURE) canonical_order 1 (put_session 1 sample_newcomer live_node) =
      Ret (Some (mkConnectResult "user" ["welcome"] [] None None FAILURE), None)
        (put_session 1 s' w') /\
    ch_buf (sendQ s') = [text_frame "welcome"; close_frame "Auth Failed" CloseNormalClosure].
Proof.
  destruct (@Authenticate_failure unit (scripted FAILURE) canonical_order 1 sample_newcomer live_node
    (mkConnectResult "user" ["welcome"] [] None None FAILURE) (w_metrics live_node) tt
    eq_refl eq_refl eq_refl) as (s' & Hrun & _ & _ & Hq).
  - apply sample_takes; simpl; [lia | auto].
  - vm_compute. eauto.
  - split; [vm_compute; eauto |]. split; [reflexivity | simpl; lia].
  - eexists s', _. split; [exact Hrun | exact Hq].
Defined.
