(* ===== verification/NodeRace.v ===== *)
(** * Commands under concurrency

    The commands of a client and the call that reports its departure ([src/node/node.go]),
    action by action. A command works under the lock [smu] of its session while the
    controller is asked; [DisconnectNow], called by the goroutine of the disconnect queue,
    reads the subscriptions of the session without that lock. *)

From Stdlib Require Import ZArith Lia Ascii String.
From stdpp Require Import base gmap strings list fin_maps.
From S2P Require Import Prelude Threads Json Common Metrics Encoders World Session SessionSafety Hub SessionRace HubRace Node NodeProps.

Local Open Scope string_scope.
Local Open Scope proc_scope.

Section operations.
Context {C : Type} `{Controller C} {order : GoRange}.
Implicit Types (l : loc) (w : World C).

(** ** The operations, action by action *)

Definition p_under_smu l (m : M (World C) unit) : proc (World C) unit :=
  act (on_session l lock_smu) ;>> act m ;>> act (on_session l unlock_smu).

Definition p_Broadcast (msg : StreamMessage) : proc (World C) unit :=
  act (on_metrics (counter_inc metricsBroadcastMsg)) ;>> act (on_hub (BroadcastMessage msg)).

Definition p_handleCallReply l (reply : CallResult) : proc (World C) unit :=
  match call_CState reply with
  | Some state => p_under_smu l (on_env l (MergeConnectionState state))
  | None => Pure tt
  end ;>>
  p_each p_Broadcast (call_Broadcasts reply) ;>>
  p_each (p_SendJSONTransmission l) (call_Transmissions reply).

Definition p_handleCommandReply l (msg : Message) (reply : CommandResult) : proc (World C) unit :=
  do! s := act (load l) in
  (if StopAllStreams reply then act (on_hub (RemoveAllSubscriptions (UID s) (Identifier msg)))
   else p_each (fun stream => act (on_hub (RemoveSubscription (UID s) (Identifier msg) stream)))
          (StoppedStreams reply)) ;>>
  p_each (fun stream => act (on_hub (subscribeSession (UID s) stream (Identifier msg)))) (Streams reply) ;>>
  match IState reply with
  | Some state => p_under_smu l (on_env l (MergeChannelState (Identifier msg) state))
  | None => Pure tt
  end ;>>
  p_handleCallReply l (CommandResult_ToCallResult reply) ;>>
  if Disconnect reply then p_Disconnect l "Command Failed" CloseAbnormalClosure else Pure tt.

Definition p_reply_if_any l msg (res : option CommandResult) : proc (World C) unit :=
  match res with
  | Some r => p_handleCommandReply l msg r
  | None => Pure tt
  end.

Definition p_Subscribe l (msg : Message) : proc (World C) (option CommandResult * option error) :=
  act (on_session l lock_smu) ;>>
  do! s := act (load l) in
  match subscriptions s !! Identifier msg with
  | Some _ =>
      act (on_session l unlock_smu) ;>>
      Pure (None, Some (Errorf ("Already subscribed to " ++ Identifier msg)))
  | None =>
      do! (res, err) := act (on_ctl (ctl_Subscribe (UID s) (env s) (Identifiers s) (Identifier msg))) in
      match err with
      | Some _ => Pure tt
      | None =>
          act (on_session l (modify (fun s =>
            set_subscriptions (<[Identifier msg := true]> (subscriptions s)) s)))
      end ;>>
      act (on_session l unlock_smu) ;>>
      p_reply_if_any l msg res ;>>
      Pure (res, err)
  end.

Definition p_Unsubscribe l (msg : Message) : proc (World C) (option CommandResult * option error) :=
  act (on_session l lock_smu) ;>>
  do! s := act (load l) in
  match subscriptions s !! Identifier msg with
  | None =>
      act (on_session l unlock_smu) ;>>
      Pure (None, Some (Errorf ("Unknown subscription " ++ Identifier msg)))
  | Some _ =>
      do! (res, err) := act (on_ctl (ctl_Unsubscribe (UID s) (env s) (Identifiers s) (Identifier msg))) in
      do! res :=
        match err with
        | Some _ => Pure res
        | None =>
            match res with
            | None => act nil_deref
            | Some r =>
                act (on_session l (modify (fun s =>
                  set_subscriptions (delete (Identifier msg) (subscriptions s)) s))) ;>>
                Pure (Some (stopping_all r))
            end
        end in
      act (on_session l unlock_smu) ;>>
      p_reply_if_any l msg res ;>>
      Pure (res, err)
  end.

Definition p_Perform l (msg : Message) : proc (World C) (option CommandResult * option error) :=
  act (on_session l lock_smu) ;>>
  do! s := act (load l) in
  match subscriptions s !! Identifier msg with
  | None =>
      act (on_session l unlock_smu) ;>>
      Pure (None, Some (Errorf ("Unknown subscription " ++ Identifier msg)))
  | Some _ =>
      act (on_session l unlock_smu) ;>>
      match msg_Data msg with
      | JStr data =>
          do! (res, err) :=
            act (on_ctl (ctl_Perform (UID s) (env s) (Identifiers s) (Identifier msg) data)) in
          p_reply_if_any l msg res ;>>
          Pure (res, err)
      | _ => Pure (None, Some (Errorf "Perform data must be a string"))
      end
  end.

(** [keys[i] = k; i++] for the keys of an iteration. *)
Fixpoint fill_keys {W} (keys : list string) (i : nat) (ks : list string) : M W (list string) :=
  match ks with
  | [] => ret keys
  | k :: ks =>
      if decide (i < length keys) then fill_keys (<[i := k]> keys) (S i) ks
      else panic "index out of range"
  end.

(** The slice is made for the size the map has first; the keys are those the map has when
    the iteration starts (entries made or deleted later may be left out or included, as the
    language allows). *)
Definition p_subscriptionsList l : proc (World C) (list string) :=
  do! s := act (load l) in
  let keys := replicate (size (subscriptions s)) EmptyString in
  do! s := act (load l) in
  act (fill_keys keys 0 (range_keys (subscriptions s))).

Definition p_DisconnectNow l : proc (World C) (option error) :=
  do! subs := p_subscriptionsList l in
  do! s := act (load l) in
  act (on_ctl (ctl_Disconnect (UID s) (env s) (Identifiers s) subs)).

(** ** An operation that runs alone *)

(** Follows the structure of both programs. *)
Ltac alone :=
  repeat first
    [ apply erases_act | apply erases_pure | apply erases_sendFrame | apply erases_Disconnect
    | apply erases_each; intros ? | apply erases_bind; [| intros ?] | progress auto
    | case_match; try (congruence || done) ].

Lemma erases_SendJSONTransmission l msg :
  erases (p_SendJSONTransmission (C := C) l msg) (SendJSONTransmission l msg).
Proof.
  apply erases_bind; [apply erases_act | intros s']. by destruct (EncodeTransmission _ _) as [[f|]|]; alone.
Qed.

Lemma erases_under_smu l (m : M (World C) unit) :
  erases (p_under_smu l m) (on_session l lock_smu ;; m ;; on_session l unlock_smu).
Proof. unfold p_under_smu. alone. Qed.

Lemma erases_handleCallReply l reply : erases (p_handleCallReply l reply) (handleCallReply l reply).
Proof.
  apply erases_bind; [destruct (call_CState reply); [apply erases_under_smu | done] | intros _].
  apply erases_bind; [apply erases_each; intros b | intros _; apply erases_each, erases_SendJSONTransmission].
  unfold p_Broadcast, Node_Broadcast. alone.
Qed.

Lemma erases_handleCommandReply l msg reply :
  erases (p_handleCommandReply l msg reply) (handleCommandReply l msg reply).
Proof.
  apply erases_bind; [apply erases_act | intros s].
  apply erases_bind; [destruct (StopAllStreams reply); alone | intros _].
  apply erases_bind; [alone | intros _].
  apply erases_bind; [destruct (IState reply); [apply erases_under_smu | done] | intros _].
  apply erases_bind; [apply erases_handleCallReply | intros _].
  unfold when. destruct (Disconnect reply); [apply erases_Disconnect | done].
Qed.

Lemma erases_reply_if_any l msg res : erases (p_reply_if_any l msg res) (reply_if_any l msg res).
Proof. destruct res; [apply erases_handleCommandReply | done]. Qed.

Lemma erases_Subscribe l msg : erases (p_Subscribe l msg) (Subscribe l msg).
Proof.
  do 2 (apply erases_bind; [apply erases_act | intros ?]). destruct (subscriptions _ !! _); [alone |].
  apply erases_bind; [apply erases_act | intros [res err]].
  apply erases_bind; [destruct err; alone | intros _]. apply erases_bind; [apply erases_act | intros _].
  apply erases_bind; [apply erases_reply_if_any | done].
Qed.

Lemma erases_Unsubscribe l msg : erases (p_Unsubscribe l msg) (Unsubscribe l msg).
Proof.
  do 2 (apply erases_bind; [apply erases_act | intros ?]). destruct (subscriptions _ !! _); [| alone].
  apply erases_bind; [apply erases_act | intros [res err]].
  apply erases_bind; [destruct err; [done |]; destruct res; alone | intros res'].
  apply erases_bind; [apply erases_act | intros _]. apply erases_bind; [apply erases_reply_if_any | done].
Qed.

Lemma erases_Perform l msg : erases (p_Perform l msg) (Perform l msg).
Proof.
  do 2 (apply erases_bind; [apply erases_act | intros ?]). destruct (subscriptions _ !! _); [| alone].
  apply erases_bind; [apply erases_act | intros _]. destruct (msg_Data msg); try done.
  apply erases_bind; [apply erases_act | intros [res err]]. apply erases_bind; [apply erases_reply_if_any | done].
Qed.

(** Keys that are as many as the places left fill them. *)
Lemma fill_keys_exact {W} ks pre n (w : W) :
  length ks = n -> fill_keys (pre ++ replicate n EmptyString) (length pre) ks w = Ret (pre ++ ks)%list w.
Proof.
  revert pre n. induction ks as [|k ks IH]; intros pre n <-; simpl; [done |].
  rewrite decide_True by (rewrite length_app; simpl; lia).
  rewrite insert_app_r_alt, Nat.sub_diag by lia. simpl.
  specialize (IH (pre ++ [k])%list (length ks) eq_refl). rewrite length_app, Nat.add_1_r, <- !app_assoc in IH. exact IH.
Qed.

(** More keys than places: the index runs out of range. *)
Lemma fill_keys_panics {W} ks keys i (w : W) :
  length keys < i + length ks -> i <= length keys -> fill_keys keys i ks w = Panic "index out of range" w.
Proof.
  revert keys i. induction ks as [|k ks IH]; intros keys i Hlen Hi; simpl in *; [lia |].
  case_decide; [| done]. apply IH; rewrite length_insert; lia.
Qed.

Lemma erases_DisconnectNow l : erases (p_DisconnectNow l) (DisconnectNow l).
Proof.
  intros w. unfold p_DisconnectNow, p_subscriptionsList, DisconnectNow. unfold bind, load.
  rewrite run_pbind. unfold bind. rewrite run_pbind. unfold bind. rewrite erases_act. unfold load.
  destruct (w_sessions w !! l) as [s|] eqn:Hs; [| done]. rewrite run_pbind. unfold bind. rewrite erases_act. rewrite Hs.
  pose proof (fill_keys_exact (range_keys (subscriptions s)) [] _ w (length_range_keys _)) as Hf. simpl in Hf.
  rewrite erases_act, Hf.
  rewrite run_pbind. unfold bind. rewrite erases_act. rewrite Hs. apply erases_act.
Qed.

(** A command of a client, and the report of its departure, do, action by action and
    without interference, exactly what the definitions of [Node.v] do in one piece. *)
Theorem commands_alone_as_whole l msg w :
  run (p_Subscribe l msg) w = Subscribe l msg w /\
  run (p_Unsubscribe l msg) w = Unsubscribe l msg w /\
  run (p_Perform l msg) w = Perform l msg w /\
  run (p_DisconnectNow l) w = DisconnectNow l w.
Proof.
  split_and!; [apply erases_Subscribe | apply erases_Unsubscribe | apply erases_Perform | apply erases_DisconnectNow].
Qed.
End operations.

(** ** A departure during a subscription *)

Section crash.
Context {C : Type} `{Controller C} {order : GoRange}.
Implicit Types (l : loc) (w : World C) (s : Session).

Lemma load_at l s w : w_sessions w !! l = Some s -> load l w = Ret s w.
Proof. intros Hs. unfold load. by rewrite Hs. Qed.

(** C28. A departure that is reported while a subscription of the same session is being
    made can stop the process: the size of the map of subscriptions is read, the
    subscription that the controller has accepted is recorded, and the keys, one more than
    the slice has places for, are then written beyond its end. This holds for every session
    and every controller that accepts the subscription. *)
Theorem departure_can_crash l msg s w res st' :
  w_sessions w !! l = Some s -> smu s = false -> subscriptions s !! Identifier msg = None ->
  ctl_Subscribe (UID s) (env s) (Identifiers s) (Identifier msg) (w_metrics w, w_ctl w) = Ret (res, None) st' ->
  exists ts w' i p w'',
    pool_reaches nobody ([p_Subscribe l msg ;>> Pure tt; p_DisconnectNow l ;>> Pure tt], w) (ts, w') /\
    ts !! i = Some p /\ step_thread p w' = Some (Panic "index out of range" w'').
Proof.
  intros Hs Hsmu Hnone Hctl. do 2 eexists. exists 1. do 2 eexists. split_and!.
  - go 0; [unfold on_session; rewrite Hs; unfold lock_smu, zoom, lock; rewrite Hsmu; reflexivity |].
    go 0; [apply load_at, lookup_put |]. simpl. rewrite Hnone.
    go 0; [unfold on_ctl, zoom; simpl; rewrite Hctl; reflexivity |].
    go 1; [apply load_at, lookup_put |].
    go 0; [unfold on_session; simpl; rewrite lookup_insert_eq; reflexivity |].
    go 1; [apply load_at, lookup_put |]. apply rtc_refl.
  - reflexivity.
  - cbn [step_thread act]. rewrite fill_keys_panics; [reflexivity | | lia].
    rewrite length_replicate, length_range_keys. simpl. rewrite map_size_insert_None by done. lia.
Qed.
End crash.

Lemma departure_can_crash_witness :
  exists ts w' i p w'',
    pool_reaches nobody
      ([pbind (@p_Subscribe unit (scripted SUCCESS) canonical_order 1 (chat_message "subscribe")) (fun _ => Pure tt);
        pbind (@p_DisconnectNow unit (scripted SUCCESS) canonical_order 1) (fun _ => Pure tt)],
       put_session 1 (sample_session [] 256) live_node) (ts, w') /\
    ts !! i = Some p /\ step_thread p w' = Some (Panic "index out of range" w'').
Proof.
  exact (@departure_can_crash unit (scripted SUCCESS) canonical_order 1 (chat_message "subscribe") (sample_session [] 256)
    (put_session 1 (sample_session [] 256) live_node) (Some (sample_res SUCCESS)) _
    (lookup_put _ _ _) eq_refl eq_refl eq_refl).
Defined.
