(* ===== verification/NodeShutdownProps.v ===== *)
(** * Properties of shutdown and of the disconnect queue

    Shutting a node down closes every session when there is room for their
    departures, and waits for ever when there is not; the disconnect queue makes
    the queued calls in order and refuses new ones; and how the configured rate
    becomes an interval. *)

From Stdlib Require Import ZArith Lia Ascii String.
From stdpp Require Import base gmap strings list fin_maps fin_sets.
From S2P Require Import Prelude Json Common Metrics Encoders World Session SessionSafety.
From S2P Require Import Hub HubSpec HubDelivery HubDisconnect Node NodeProps NodeShutdown.

Local Open Scope string_scope.

(** ** The rate *)

Lemma quot_1000_pos r : (1 <= r <= 1000)%Z ->
  (1 <= Z.quot 1000 r <= 1000)%Z /\ (r * Z.quot 1000 r <= 1000)%Z /\
  (r * Z.quot 1000 r = 1000 <-> Z.divide r 1000)%Z.
Proof.
  intros Hr. rewrite Z.quot_div_nonneg by lia.
  pose proof (Z.div_mod 1000 r ltac:(lia)) as Hdm.
  pose proof (Z.mod_pos_bound 1000 r ltac:(lia)) as Hm.
  split; [split; [apply Z.div_le_lower_bound; lia | apply Z.div_le_upper_bound; nia] |].
  split; [lia |]. rewrite <- Z.mod_divide by lia. lia.
Qed.

Lemma quot_1000_nonpos r : (1000 < r \/ r < 0)%Z -> (-1000 <= Z.quot 1000 r <= 0)%Z.
Proof.
  intros [Hr | Hr].
  - rewrite Z.quot_small by lia. lia.
  - replace r with (- (- r))%Z by lia. rewrite Z.quot_opp_r by lia.
    rewrite Z.quot_div_nonneg by lia.
    pose proof (Z.div_pos 1000 (- r)). pose proof (Z.div_le_upper_bound 1000 (- r) 1000). nia.
Qed.

(** The rate is a lower bound of the calls per second that the ticker allows, not
    a limit: for rates from 1 to 1000 the interval is positive and [Rate] intervals
    fit into a second, filling it only when [Rate] divides 1000. Any larger or
    negative rate gives an interval the ticker panics on, and rate 0 panics when
    the queue is built. *)
Theorem disconnect_rate_interval {C W} config (w : W) (v : World C) :
  ((1 <= Rate config <= 1000)%Z ->
   exists q, NewDisconnectQueue config w = Ret q w /\
     (0 < dq_rate q)%Z /\ (Rate config * dq_rate q <= 1000 * millisecond)%Z /\
     ((Rate config * dq_rate q = 1000 * millisecond)%Z <-> Z.divide (Rate config) 1000) /\
     DisconnectQueue_NewTicker (set_disconnector (Some (DQueue q)) v) =
       Ret tt (set_disconnector (Some (DQueue q)) v)) /\
  ((1000 < Rate config \/ Rate config < 0)%Z ->
   exists q, NewDisconnectQueue config w = Ret q w /\
     DisconnectQueue_NewTicker (set_disconnector (Some (DQueue q)) v) =
       Panic "non-positive interval for NewTicker" (set_disconnector (Some (DQueue q)) v)) /\
  (Rate config = 0%Z -> NewDisconnectQueue config w = Panic "integer divide by zero" w).
Proof.
  unfold NewDisconnectQueue, DisconnectQueue_NewTicker, on_dq, bind, get, zoom, ret, panic, millisecond.
  split_and!.
  - intros Hr. destruct (quot_1000_pos _ Hr) as (Hq & Hle & Hdiv).
    rewrite (proj2 (Z.eqb_neq _ _)) by lia. eexists. split; [reflexivity |]. simpl dq_rate.
    rewrite to_i64_small by lia. split; [lia |]. split; [lia |]. split; [rewrite <- Hdiv; split; nia |].
    cbn [w_disconnector set_disconnector dq_rate]. by rewrite (proj2 (Z.leb_gt _ _)) by lia.
  - intros Hr. pose proof (quot_1000_nonpos _ Hr) as Hq.
    rewrite (proj2 (Z.eqb_neq _ _)) by lia. eexists. split; [reflexivity |].
    cbn [w_disconnector set_disconnector dq_rate].
    rewrite (to_i64_small (1000000 * _)) by lia. by rewrite (proj2 (Z.leb_le _ _)) by lia.
  - intros ->. done.
Qed.

Lemma disconnect_rate_interval_witness :
  exists q, @NewDisconnectQueue unit (mkDQConfig 600 5) tt = Ret q tt /\
    (600 * dq_rate q <= 1000 * millisecond)%Z.
Proof.
  destruct (@disconnect_rate_interval unit unit (mkDQConfig 600 5) tt sample_node) as [Hpos _].
  destruct Hpos as (q & Hq & _ & Hle & _); [simpl; lia |]. exists q. split; [exact Hq | exact Hle].
Defined.

Section queue.
Context {C : Type} `{Controller C} {order : GoRange}.
Implicit Types (l : loc) (w : World C) (s : Session) (q : DisconnectQueue).

(** ** Draining the queue *)

(** The calls for the sessions [ls], made one after the other from the state [st],
    all succeed and leave the state [st']. *)
Inductive calls (heap : gmap loc Session) : list loc -> Metrics * C -> Metrics * C -> Prop :=
| calls_nil st : calls heap [] st st
| calls_cons l ls s st st1 st2 :
    heap !! l = Some s ->
    ctl_Disconnect (UID s) (env s) (Identifiers s) (subscriptionsList (subscriptions s)) st =
      Ret None st1 ->
    calls heap ls st1 st2 -> calls heap (l :: ls) st st2.

Definition with_queue (q : DisconnectQueue) (st : Metrics * C) w : World C :=
  set_disconnector (Some (DQueue q)) (set_ctl st.2 (set_metrics st.1 w)).

Definition queue_buf (ls : list loc) q : DisconnectQueue :=
  mkDQ (dq_rate q) (dq_timeout q)
    (mkChan ls (ch_cap (dq_disconnect q)) (ch_closed (dq_disconnect q)))
    (dq_shutdown q) (dq_isStopped q) (dq_mu q).

Lemma recv_queue l ls q st w :
  on_dq (on_dq_disconnect chan_recv) (with_queue (queue_buf (l :: ls) q) st w) =
  Ret (Some l) (with_queue (queue_buf ls q) st w).
Proof. reflexivity. Qed.

Lemma DisconnectNow_ok l s q st st' w e :
  w_sessions w !! l = Some s ->
  ctl_Disconnect (UID s) (env s) (Identifiers s) (subscriptionsList (subscriptions s)) st =
    Ret e st' ->
  DisconnectNow l (with_queue q st w) = Ret e (with_queue q st' w).
Proof.
  intros Hs Hc. unfold DisconnectNow.
  erewrite bind_ret_eq by (unfold load; simpl; by rewrite Hs).
  unfold on_ctl, zoom; simpl. destruct st as [m c]; simpl in *. by rewrite Hc.
Qed.

Lemma drain_ok ls q st st' w rest :
  calls (w_sessions w) ls st st' ->
  DisconnectQueue_drain (length ls) (with_queue (queue_buf (ls ++ rest)%list q) st w) =
  Ret None (with_queue (queue_buf rest q) st' w).
Proof.
  intros Hc. induction Hc as [st | l ls s st st1 st2 Hs Hctl Hcalls IH]; [done |].
  cbn [length DisconnectQueue_drain app]. erewrite bind_ret_eq by reflexivity. cbn [queue_buf dq_disconnect ch_buf].
  erewrite bind_ret_eq by apply recv_queue. cbv iota.
  erewrite bind_ret_eq by (by eapply DisconnectNow_ok). apply IH.
Qed.

(** The first call that fails ends the draining. *)
Lemma drain_error ls l ls' q st st1 st2 s e w :
  calls (w_sessions w) ls st st1 -> w_sessions w !! l = Some s ->
  ctl_Disconnect (UID s) (env s) (Identifiers s) (subscriptionsList (subscriptions s)) st1 =
    Ret (Some e) st2 ->
  DisconnectQueue_drain (length (ls ++ l :: ls'))
    (with_queue (queue_buf (ls ++ l :: ls')%list q) st w) =
  Ret (Some e) (with_queue (queue_buf ls' q) st2 w).
Proof.
  intros Hc Hs He. induction Hc as [st | l1 ls s1 st st1 st3 Hs1 Hctl Hcalls IH].
  - cbn [length DisconnectQueue_drain app]. erewrite bind_ret_eq by reflexivity. cbn [queue_buf dq_disconnect ch_buf].
    erewrite bind_ret_eq by apply recv_queue. cbv iota.
    by erewrite bind_ret_eq by (by eapply DisconnectNow_ok).
  - cbn [length DisconnectQueue_drain app]. erewrite bind_ret_eq by reflexivity. cbn [queue_buf dq_disconnect ch_buf].
    erewrite bind_ret_eq by apply recv_queue. cbv iota.
    erewrite bind_ret_eq by (by eapply DisconnectNow_ok). by apply IH.
Qed.

(** A queue that is running. *)
Definition queue_live q : Prop :=
  dq_mu q = false /\ dq_isStopped q = false /\ ch_closed (dq_shutdown q) = false /\
  length (ch_buf (dq_shutdown q)) < ch_cap (dq_shutdown q).

Definition stopped_queue (ls : list loc) q : DisconnectQueue :=
  mkDQ (dq_rate q) (dq_timeout q)
    (mkChan ls (ch_cap (dq_disconnect q)) (ch_closed (dq_disconnect q)))
    (chan_push tt (dq_shutdown q)) true false.

Lemma queue_shutdown_start q st w :
  queue_live q ->
  DisconnectQueue_Shutdown (with_queue q st w) =
  DisconnectQueue_drain (length (ch_buf (dq_disconnect q)))
    (with_queue (stopped_queue (ch_buf (dq_disconnect q)) q) st w).
Proof.
  intros (Hmu & Hst & Hc & Hn).
  destruct q as [rate timeout [buf cap cl] [sbuf scap scl] stopped locked]; simpl in *; subst.
  unfold DisconnectQueue_Shutdown, bind, on_dq, zoom, on_dq_mu, on_dq_shutdown, zoom,
    chan_send, chan_full; simpl.
  by rewrite bool_decide_false by lia.
Qed.

(** Shutting the disconnect queue down makes the Disconnect call of every queued
    session, in the order they were queued, and then stops: the queue is empty
    and marked as stopped, and a session that is handed to it later is dropped. *)
Theorem queue_shutdown_drains q st st' w :
  queue_live q -> calls (w_sessions w) (ch_buf (dq_disconnect q)) st st' ->
  DisconnectQueue_Shutdown (with_queue q st w) =
    Ret None (with_queue (stopped_queue [] q) st' w) /\
  forall l, Enqueue l (with_queue (stopped_queue [] q) st' w) =
    Ret None (with_queue (stopped_queue [] q) st' w).
Proof.
  intros Hl Hc. split; [| done]. rewrite queue_shutdown_start by done.
  pose proof (drain_ok _ (stopped_queue [] q) st st' w [] Hc) as Hd. rewrite app_nil_r in Hd.
  exact Hd.
Qed.

(** A Disconnect call that fails while the queue is being shut down makes the
    shutdown return that error at once: the sessions behind it are never
    reported to the controller. *)
Theorem queue_shutdown_aborts ls l ls' q st st1 st2 s e w :
  queue_live q -> ch_buf (dq_disconnect q) = (ls ++ l :: ls')%list ->
  calls (w_sessions w) ls st st1 -> w_sessions w !! l = Some s ->
  ctl_Disconnect (UID s) (env s) (Identifiers s) (subscriptionsList (subscriptions s)) st1 =
    Ret (Some e) st2 ->
  DisconnectQueue_Shutdown (with_queue q st w) =
    Ret (Some e) (with_queue (stopped_queue ls' q) st2 w).
Proof.
  intros Hl Hq Hc Hs He. rewrite queue_shutdown_start, Hq by done.
  exact (drain_error ls l ls' (stopped_queue [] q) st st1 st2 s e w Hc Hs He).
Qed.

(** ** Shutting the node down *)

Lemma calls_total heap ls st :
  (forall sid env id subs st, exists st', ctl_Disconnect sid env id subs st = Ret None st') ->
  Forall (fun l => is_Some (heap !! l)) ls -> exists st', calls heap ls st st'.
Proof.
  intros Hans Hall. revert st. induction Hall as [|l ls [s Hs] Hall IH]; intros st; [eexists; constructor |].
  destruct (Hans (UID s) (env s) (Identifiers s) (subscriptionsList (subscriptions s)) st) as [st1 H1].
  destruct (IH st1) as [st2 H2]. exists st2. by econstructor.
Qed.

(** What kicking sessions does to the rest of the node. *)
Lemma kick_steps_frame msg reason code ls w :
  let w' := foldl (kick_step msg reason code) w ls in
  w_metrics w' = w_metrics w /\ w_ctl w' = w_ctl w /\ w_shutdownCh w' = w_shutdownCh w /\
  w_config w' = w_config w /\
  match w_disconnector w with
  | None => w_disconnector w' = None
  | Some DNoop => w_disconnector w' = Some DNoop
  | Some (DQueue q) => exists added, (forall l, l ∈ added -> l ∈ ls) /\
      w_disconnector w' = Some (DQueue (queue_buf (ch_buf (dq_disconnect q) ++ added)%list q))
  end.
Proof.
  revert w. induction ls as [|l ls IH]; intros w; simpl.
  - do 4 (split; [done |]). destruct (w_disconnector w) as [[q|]|]; try done.
    exists []. split; [set_solver |]. rewrite app_nil_r. by destruct q as [? ? [] ].
  - destruct (IH (kick_step msg reason code w l)) as (H1 & H2 & H3 & H4 & H5).
    rewrite H1, H2, H3, H4. clear H1 H2 H3 H4. unfold kick_step in *.
    destruct (w_sessions w !! l) as [s|]; [destruct (Connected s) |]; (do 4 (split; [done |]));
      simpl in H5; destruct (w_disconnector w) as [[q|]|]; simpl in H5; try done.
    2, 3: destruct H5 as (added & Hin & ->); exists added; split; [set_solver | done].
    destruct (dq_isStopped q) eqn:Hst; destruct H5 as (added & Hin & ->).
    + exists added. split; [set_solver | done].
    + exists (l :: added). split; [set_solver |]. unfold queue_buf; simpl.
      rewrite <- app_assoc. by rewrite Hst.
Qed.

Definition restart_message : DisconnectMessage := newDisconnectMessage serverRestartReason true.
Abbreviation shut := (kicked restart_message "Shutdown" CloseGoingAway).

Definition all_sessions h : list loc := (range (sessions h)).*2.

Lemma all_sessions_NoDup h heap : registered_ok h heap -> NoDup (all_sessions h).
Proof.
  intros Hreg. unfold all_sessions.
  assert (Hin : forall kv, kv ∈ range (sessions h) -> sessions h !! kv.1 = Some kv.2).
  { intros [k l] Hk. by apply elem_of_range in Hk. }
  pose proof (range_keys_NoDup (sessions h)) as Hnd. revert Hin Hnd.
  generalize (range (sessions h)) as kvs. induction kvs as [|[k l] kvs IH]; intros Hin Hnd;
    [constructor |].
  apply NoDup_cons in Hnd as [Hk Hnd]. apply NoDup_cons. split.
  - intros Hl. apply list_elem_of_fmap in Hl as ([k' l'] & Heq & Hl). simpl in Heq. subst l'.
    assert (k' = k) as ->.
    { eapply registered_inj; [exact Hreg | apply (Hin (k', l)); set_solver |
        apply (Hin (k, l)); set_solver]. }
    apply Hk, list_elem_of_fmap. by exists (k, l).
  - apply IH; [| done]. intros kv Hkv. apply Hin. set_solver.
Qed.

Lemma elem_of_all_sessions h l : l ∈ all_sessions h <-> exists sid, sessions h !! sid = Some l.
Proof.
  unfold all_sessions. rewrite list_elem_of_fmap. split.
  - intros ([sid l'] & -> & Hin). apply elem_of_range in Hin. eauto.
  - intros [sid Hs]. exists (sid, l). by rewrite elem_of_range.
Qed.

Lemma length_all_sessions h : length (all_sessions h) = size (sessions h).
Proof. unfold all_sessions. by rewrite length_fmap, range_perm, length_map_to_list. Qed.

(** The node with its hub stopped. *)
Definition stopped_node w : World C :=
  set_hub (set_running false (w_hub w)) (set_shutdownCh false w).

(** Kicking sessions does not look at the lock of the registry. *)
Definition with_sessionsMu (m : RWMutex) w : World C := set_hub (set_sessionsMu m (w_hub w)) w.

Lemma kick_steps_mu msg reason code m ls w :
  foldl (kick_step msg reason code) (with_sessionsMu m w) ls =
  with_sessionsMu m (foldl (kick_step msg reason code) w ls).
Proof.
  revert w. induction ls as [|l ls IH]; intros w; [done |]. cbn [foldl]. rewrite <- IH.
  f_equal. unfold kick_step. simpl. destruct (w_sessions w !! l) as [s|]; [| done].
  by destruct (Connected s).
Qed.

(** The part of [Shutdown] that closes the sessions. *)
Lemma close_all_ok w :
  sessionsMu (w_hub w) = rw_free -> registered_ok (w_hub w) (w_sessions w) ->
  map_Forall (fun _ s => session_ok s) (w_sessions w) ->
  leave_room (size (sessions (w_hub w))) w ->
  (let! active := on_hub Hub_Size in
   when (0 <? active)%Z (
     on_hub (on_sessionsMu rw_rlock) ;;
     let! w := get in
     each (fun kv => close_session (newDisconnectMessage serverRestartReason true) kv.2)
       (range (sessions (w_hub w))) ;;
     on_hub (on_sessionsMu rw_runlock))) w =
  Ret tt (foldl (kick_step restart_message "Shutdown" CloseGoingAway) w (all_sessions (w_hub w))).
Proof.
  intros Hmu Hreg Hall Hroom.
  assert (Hsize : on_hub Hub_Size w = Ret (Z.of_nat (size (sessions (w_hub w)))) w).
  { destruct w as [? ? h ? ? ? ?]; simpl in *. by open_hub h. }
  erewrite bind_ret_eq by exact Hsize. rewrite <- length_all_sessions.
  destruct (all_sessions (w_hub w)) as [|l0 ls0] eqn:Hls; [done |]. rewrite <- Hls.
  rewrite (proj2 (Z.ltb_lt _ _)) by (rewrite Hls; simpl; lia). cbn [when].
  set (w1 := with_sessionsMu (mkRW false 1) w).
  erewrite (bind_ret_eq _ _ w tt w1)
    by (unfold on_hub, on_sessionsMu, zoom, rw_rlock; by rewrite Hmu).
  erewrite bind_ret_eq by reflexivity.
  set (wk := foldl (kick_step restart_message "Shutdown" CloseGoingAway) w1 (all_sessions (w_hub w))).
  pose proof (all_sessions_NoDup _ _ Hreg) as Hnd.
  erewrite (bind_ret_eq _ _ w1 tt wk).
  2: { rewrite (each_fmap (close_session restart_message) snd).
       apply (kick_each restart_message "Shutdown" CloseGoingAway); [done | |].
       - apply Forall_forall. intros l Hl. apply elem_of_all_sessions in Hl as [sid Hl].
         destruct (Hreg _ _ Hl) as (s & Hs & _). exists s. split; [done |]. by eapply Hall.
       - change (leave_room (length (all_sessions (w_hub w))) w). by rewrite length_all_sessions. }
  set (w' := foldl _ w _).
  assert (Hwk : wk = with_sessionsMu (mkRW false 1) w') by apply kick_steps_mu.
  assert (Hfree : sessionsMu (w_hub w') = rw_free) by (unfold w'; by rewrite kick_step_hub).
  rewrite Hwk. unfold on_hub, on_sessionsMu, zoom, rw_runlock; simpl.
  clearbody w'. destruct w' as [? ? h ? ? ? ?]; simpl in *. by open_hub h.
Qed.

(** The disconnector of a node that is being shut down. *)
Definition disconnector_live (heap : gmap loc Session) (d : option Disconnector) : Prop :=
  match d with
  | Some (DQueue q) => queue_live q /\ Forall (fun l => is_Some (heap !! l)) (ch_buf (dq_disconnect q))
  | _ => True
  end.

Definition answering : Prop :=
  (forall sid env id subs (st : Metrics * C), exists st',
     ctl_Disconnect sid env id subs st = Ret None st') /\
  (forall st : Metrics * C, exists e st', ctl_Shutdown st = Ret e st').

Lemma with_queue_id q w :
  w_disconnector w = Some (DQueue q) -> with_queue q (w_metrics w, w_ctl w) w = w.
Proof. intros Hd. destruct w; simpl in *. by subst. Qed.

Lemma disconnector_shutdown_ok w :
  answering -> disconnector_live (w_sessions w) (w_disconnector w) ->
  exists w', (match w_disconnector w with
              | Some _ => Disconnector_Shutdown ;; ret tt
              | None => ret tt
              end) w = Ret tt w' /\
    w_sessions w' = w_sessions w /\ w_hub w' = w_hub w /\ w_shutdownCh w' = w_shutdownCh w.
Proof.
  intros [Hans _] Hlive. destruct (w_disconnector w) as [[q|]|] eqn:Hd; simpl in Hlive.
  - destruct Hlive as [Hq Hall].
    destruct (calls_total (w_sessions w) (ch_buf (dq_disconnect q)) (w_metrics w, w_ctl w) Hans Hall)
      as [st' Hc].
    assert (Hrun : DisconnectQueue_Shutdown w = Ret None (with_queue (stopped_queue [] q) st' w)).
    { rewrite <- (with_queue_id q w Hd) at 1. rewrite queue_shutdown_start by done.
      pose proof (drain_ok _ (stopped_queue [] q) _ st' w [] Hc) as Hdr.
      rewrite app_nil_r in Hdr. exact Hdr. }
    exists (with_queue (stopped_queue [] q) st' w). split; [| done].
    unfold bind, Disconnector_Shutdown. rewrite Hd, Hrun. reflexivity.
  - exists w. split; [| done]. unfold bind, Disconnector_Shutdown. by rewrite Hd.
  - by exists w.
Qed.

(** C25. Shutting a node down, when there is room for the departures of its sessions
    and the controller answers: [Shutdown] returns without an error; the hub is
    stopped and its registry unlocked; every registered session is sent the restart
    message and a close frame, is closed and no longer connected; other sessions
    are left alone; and a second [Shutdown] reports that the node is down. *)
Theorem Node_Shutdown_closes_all w :
  w_shutdownCh w = true -> running (w_hub w) = true -> sessionsMu (w_hub w) = rw_free ->
  registered_ok (w_hub w) (w_sessions w) ->
  map_Forall (fun _ s => session_ok s) (w_sessions w) ->
  leave_room (size (sessions (w_hub w))) w ->
  disconnector_live (w_sessions w) (w_disconnector w) -> answering ->
  exists w', Node_Shutdown w = Ret None w' /\
    running (w_hub w') = false /\ sessionsMu (w_hub w') = rw_free /\
    (forall l s, w_sessions w !! l = Some s ->
       w_sessions w' !! l =
       Some (if decide (sessions (w_hub w) !! UID s = Some l) then shut s else s)) /\
    Node_Shutdown w' = Ret (Some (Errorf "Already shut down")) w'.
Proof.
  intros Hch Hrun Hmu Hreg Hall Hroom Hlive Hans.
  set (w1 := stopped_node w).
  set (wk := foldl (kick_step restart_message "Shutdown" CloseGoingAway) w1 (all_sessions (w_hub w))).
  pose proof (all_sessions_NoDup _ _ Hreg) as Hnd.
  destruct (kick_steps_frame restart_message "Shutdown" CloseGoingAway (all_sessions (w_hub w)) w1)
    as (_ & _ & Hsh & _ & Hdk). fold wk in Hsh, Hdk.
  assert (Hsess : forall l, w_sessions wk !! l =
    if decide (l ∈ all_sessions (w_hub w)) then shut <$> w_sessions w !! l else w_sessions w !! l).
  { intros l. unfold wk. by rewrite kick_step_sessions. }
  assert (Hex : forall l, is_Some (w_sessions w !! l) -> is_Some (w_sessions wk !! l)).
  { intros l Hl. rewrite Hsess. case_decide; [by rewrite fmap_is_Some | done]. }
  assert (Hlk : disconnector_live (w_sessions wk) (w_disconnector wk)).
  { simpl in Hdk. destruct (w_disconnector w) as [[q|]|]; [| by rewrite Hdk ..].
    destruct Hdk as (added & Hin & ->). destruct Hlive as [Hq Hf]. split; [done |].
    simpl. apply Forall_app. split; [by eapply Forall_impl; [exact Hf |] |].
    apply Forall_forall. intros l Hl. apply Hin, elem_of_all_sessions in Hl as [sid Hl].
    destruct (Hreg _ _ Hl) as (s & Hs & _). apply Hex. eauto. }
  destruct (disconnector_shutdown_ok wk Hans Hlk) as (wd & Hwd & Hwds & Hwdh & Hwdc).
  destruct Hans as [_ Hans]. destruct (Hans (w_metrics wd, w_ctl wd)) as (e & [m c] & Hctl).
  exists (set_ctl c (set_metrics m wd)). split_and!.
  - unfold Node_Shutdown. erewrite bind_ret_eq by reflexivity. rewrite Hch. cbn [negb].
    erewrite bind_ret_eq by reflexivity.
    erewrite (bind_ret_eq _ _ _ tt w1) by (unfold on_hub, zoom, Hub_Shutdown; simpl; by rewrite Hrun).
    erewrite bind_bind_ret by (exact (close_all_ok w1 Hmu Hreg Hall Hroom)).
    change (foldl _ w1 _) with wk. erewrite bind_ret_eq by reflexivity.
    erewrite bind_ret_eq by exact Hwd.
    erewrite bind_ret_eq by (unfold on_ctl, zoom; by rewrite Hctl). reflexivity.
  - simpl. rewrite Hwdh. unfold wk. by rewrite kick_step_hub.
  - simpl. rewrite Hwdh. unfold wk. by rewrite kick_step_hub.
  - intros l s Hs. simpl. rewrite Hwds, Hsess, Hs. simpl.
    assert (Hin : l ∈ all_sessions (w_hub w) <-> sessions (w_hub w) !! UID s = Some l).
    { rewrite elem_of_all_sessions. split; [| eauto]. intros [sid Hl].
      destruct (Hreg _ _ Hl) as (s' & Hs' & Hu). by simplify_eq. }
    repeat case_decide; tauto.
  - unfold Node_Shutdown. erewrite bind_ret_eq by reflexivity. simpl. rewrite Hwdc, Hsh. reflexivity.
Qed.

(** ** A shutdown that does not end *)

(** Exactly [n] more departures fit into the registration channel. *)
Definition exact_room (n : nat) w : Prop :=
  leave_room n w /\
  length (ch_buf (register (w_hub w))) + n = ch_cap (register (w_hub w)).

Lemma exact_room_departed n l w : exact_room (S n) w -> exact_room n (departed l w).
Proof.
  intros [Hr Hn]. split; [by apply leave_room_departed |]. simpl. rewrite length_app. simpl. lia.
Qed.

Lemma leaving_blocks l s w :
  mu s = false -> Connected s = true -> exact_room 0 w ->
  disconnectFromNode l (put_session l s w) =
  Block "chan send" (put_session l (set_Connected false s) w).
Proof.
  intros Hmu Hc [(Hcl & _ & _) Hn]. rewrite disconnectFromNode_put, Hc by done.
  unfold bind, Node_Disconnect, bind, RemoveSession, on_hub, on_register, zoom, chan_send; simpl.
  rewrite Hcl. unfold chan_full. rewrite bool_decide_true by lia.
  by destruct w as [? ? [? ? ? ? ? ? ? [] ] ? ? ? ?].
Qed.

Lemma kick_blocks msg reason code l s w :
  session_ok s -> overflows s = false -> Connected s = true -> exact_room 0 w ->
  exists s', kick msg reason code l (put_session l s w) = Block "chan send" (put_session l s' w).
Proof.
  intros Hs Ho Hc Hr. unfold kick, Send.
  assert (Hd : forall s1, session_ok s1 -> Connected s1 = true ->
    exists s', Session_Disconnect l reason code (put_session l s1 w) =
               Block "chan send" (put_session l s' w)).
  { intros s1 Hs1 Hc1. eexists. unfold Session_Disconnect, bind.
    rewrite leaving_blocks by (done || apply Hs1). reflexivity. }
  assert (Henc : encodeMessage l (EDisconnect msg) (put_session l s w) =
    Ret (Encode (encoder s) (EDisconnect msg), EDisconnect msg) (put_session l s w)).
  { unfold encodeMessage. by erewrite bind_ret_eq by apply load_put. }
  unfold bind at 1 2. rewrite Henc.
  destruct (Encode (encoder s) (EDisconnect msg)) as [[f|]|]; simpl; [| by apply Hd ..].
  unfold bind. rewrite sendFrame_ok by (rewrite ?Ho; done). rewrite Ho. simpl.
  apply Hd; [by apply after_send_ok |]. unfold after_send, overflows in *.
  destruct (sendCh s); [| done]. simpl in Ho. by rewrite Ho.
Qed.

Definition connected_in w (ls : list loc) : nat := length (filter (fun l => is_connected w l = true) ls).

Lemma connected_in_step msg reason code w l ls :
  l ∉ ls -> connected_in (kick_step msg reason code w l) ls = connected_in w ls.
Proof.
  intros Hnin. unfold connected_in. f_equal. apply filter_ext_in. intros l' Hl'.
  unfold is_connected, kick_step. destruct (w_sessions w !! l) as [s|] eqn:Hs; [| done].
  rewrite lookup_put_ne by (intros ->; done). by destruct (Connected s).
Qed.

Lemma kick_each_blocks msg reason code n ls w :
  NoDup ls ->
  Forall (fun l => exists s, w_sessions w !! l = Some s /\ session_ok s /\ overflows s = false) ls ->
  exact_room n w -> n < connected_in w ls ->
  exists w', each (kick msg reason code) ls w = Block "chan send" w' /\
    running (w_hub w') = running (w_hub w) /\ sessionsMu (w_hub w') = sessionsMu (w_hub w).
Proof.
  revert n w. induction ls as [|l ls IH]; intros n w Hnd Hall Hr Hn; [unfold connected_in in Hn; simpl in Hn; lia |].
  apply NoDup_cons in Hnd as [Hnin Hnd]. inversion Hall as [|? ? (s & Hs & Hok & Ho) Hall']; subst.
  pose proof (connected_in_step msg reason code w l ls Hnin) as Hstep.
  assert (Hic : is_connected w l = Connected s) by (unfold is_connected; by rewrite Hs).
  assert (Hcount : connected_in w (l :: ls) = (if Connected s then 1 else 0) + connected_in w ls).
  { unfold connected_in. rewrite filter_cons, Hic. by destruct (Connected s). }
  rewrite Hcount in Hn. cbn [each].
  destruct (decide (Connected s = true /\ n = 0)) as [[Hc ->]|Hgo].
  { destruct (kick_blocks msg reason code l s w Hok Ho Hc Hr) as [s' Hb].
    rewrite put_session_id in Hb by done. exists (put_session l s' w).
    split; [| done]. unfold bind. by rewrite Hb. }
  assert (Hk : kick msg reason code l w = Ret tt (kick_step msg reason code w l)).
  { unfold kick_step. rewrite Hs. rewrite <- (put_session_id l s w) at 1 by done.
    apply kick_ok; [done |]. intros Hc. destruct n as [|n]; [tauto |]. destruct Hr as [Hr _].
    by eapply leave_room_can_leave. }
  assert (Hw : w_hub (kick_step msg reason code w l) = w_hub (if Connected s then departed l w else w)
    /\ exists n', exact_room n' (kick_step msg reason code w l) /\ n' < connected_in w ls).
  { unfold kick_step. rewrite Hs. split; [done |].
    destruct (Connected s); [| by exists n; split; [exact Hr | lia]].
    destruct n as [|n]; [tauto |]. exists n.
    split; [by apply (exact_room_departed n l w) | simpl in Hn; lia]. }
  destruct Hw as (Hwh & n' & Hr' & Hn'). erewrite bind_ret_eq by exact Hk.
  destruct (IH n' (kick_step msg reason code w l)) as (w' & Hrun & H1 & H2);
    [done | | done | lia |].
  - apply Forall_forall. rewrite Forall_forall in Hall'. intros l' Hl'.
    destruct (Hall' l' Hl') as (s' & Hs' & Hx). exists s'. split; [| done].
    unfold kick_step. rewrite Hs, lookup_put_ne by (intros ->; done). by destruct (Connected s).
  - exists w'. split; [exact Hrun |]. rewrite H1, H2, Hwh. by destruct (Connected s).
Qed.

(** Shutting down stops the hub first, so nothing takes departures from the
    registration channel any more: when more sessions are connected than the
    channel has room for, [Shutdown] waits for ever, with the registry locked, and
    neither the disconnect queue nor the controller is shut down. *)
Theorem Node_Shutdown_blocks n w :
  w_shutdownCh w = true -> running (w_hub w) = true -> sessionsMu (w_hub w) = rw_free ->
  registered_ok (w_hub w) (w_sessions w) ->
  map_Forall (fun _ s => session_ok s /\ overflows s = false) (w_sessions w) ->
  exact_room n w -> n < connected_in w (all_sessions (w_hub w)) ->
  exists w', Node_Shutdown w = Block "chan send" w' /\
    running (w_hub w') = false /\ sessionsMu (w_hub w') = mkRW false 1.
Proof.
  intros Hch Hrun Hmu Hreg Hall Hroom Hn.
  set (w1 := with_sessionsMu (mkRW false 1) (stopped_node w)).
  destruct (kick_each_blocks restart_message "Shutdown" CloseGoingAway n (all_sessions (w_hub w)) w1)
    as (w' & Hblock & H1 & H2); [by eapply all_sessions_NoDup | | exact Hroom | exact Hn |].
  { apply Forall_forall. intros l Hl. apply elem_of_all_sessions in Hl as [sid Hl].
    destruct (Hreg _ _ Hl) as (s & Hs & _). exists s. split; [done |]. by eapply Hall. }
  exists w'. split; [| by split]. unfold Node_Shutdown.
  erewrite bind_ret_eq by reflexivity. rewrite Hch. cbn [negb].
  erewrite bind_ret_eq by reflexivity.
  erewrite (bind_ret_eq _ _ _ tt (stopped_node w))
    by (unfold on_hub, zoom, Hub_Shutdown; simpl; by rewrite Hrun).
  erewrite (bind_ret_eq _ _ _ (Z.of_nat (size (sessions (w_hub w)))) (stopped_node w)).
  2: { destruct w as [? ? h ? ? ? ?]; simpl in *. by open_hub h. }
  rewrite <- length_all_sessions.
  assert (Hpos : connected_in w (all_sessions (w_hub w)) <= length (all_sessions (w_hub w)))
    by apply length_filter.
  rewrite (proj2 (Z.ltb_lt _ _)) by lia. cbn [when]. unfold bind at 1 2.
  assert (Hlock : on_hub (on_sessionsMu rw_rlock) (stopped_node w) = Ret tt w1).
  { unfold on_hub, on_sessionsMu, zoom, rw_rlock; simpl. by rewrite Hmu. }
  rewrite Hlock. unfold bind at 1, get. unfold bind.
  rewrite (each_fmap (close_session restart_message) snd).
  change (each (close_session restart_message) (snd <$> range (sessions (w_hub w1))) w1)
    with (each (kick restart_message "Shutdown" CloseGoingAway) (all_sessions (w_hub w)) w1).
  by rewrite Hblock.
Qed.
End queue.

(** ** Concrete shutdowns *)

Definition sample_queue : DisconnectQueue :=
  mkDQ (10 * millisecond) (seconds 5) (mkChan [1] 4096 false) (make_chan 1) false false.

Definition sample_state : Metrics * unit := (w_metrics sample_node, tt).

Lemma queue_shutdown_drains_witness :
  @DisconnectQueue_Shutdown unit (scripted SUCCESS) canonical_order
    (with_queue sample_queue sample_state
       (put_session 1 (sample_session [] 256) sample_node)) =
  Ret None (with_queue (stopped_queue [] sample_queue) sample_state
       (put_session 1 (sample_session [] 256) sample_node)).
Proof.
  apply (@queue_shutdown_drains unit (scripted SUCCESS) canonical_order sample_queue sample_state
    sample_state (put_session 1 (sample_session [] 256) sample_node)).
  - repeat split; simpl; lia.
  - eapply calls_cons; [reflexivity | reflexivity | constructor].
Defined.

(** A controller whose Disconnect calls fail. *)
Definition failing : Controller unit :=
  {| ctl_Authenticate := fun _ _ => ret (None, Some (Errorf "down"));
     ctl_Subscribe := fun _ _ _ _ => ret (None, Some (Errorf "down"));
     ctl_Unsubscribe := fun _ _ _ _ => ret (None, Some (Errorf "down"));
     ctl_Perform := fun _ _ _ _ _ => ret (None, Some (Errorf "down"));
     ctl_Disconnect := fun _ _ _ _ => ret (Some (Errorf "down"));
     ctl_Shutdown := ret None |}.

Lemma queue_shutdown_aborts_witness :
  @DisconnectQueue_Shutdown unit failing canonical_order
    (with_queue (queue_buf [1; 2] sample_queue) sample_state
       (put_session 1 (sample_session [] 256) sample_node)) =
  Ret (Some (Errorf "down")) (with_queue (stopped_queue [2] sample_queue) sample_state
       (put_session 1 (sample_session [] 256) sample_node)).
Proof.
  apply (@queue_shutdown_aborts unit failing canonical_order [] 1 [2]
    (queue_buf [1; 2] sample_queue) sample_state sample_state sample_state
    (sample_session [] 256) (Errorf "down") (put_session 1 (sample_session [] 256) sample_node)).
  - repeat split; simpl; lia.
  - reflexivity.
  - constructor.
  - reflexivity.
  - reflexivity.
Defined.

(** A running node with one registered session. *)
Definition sample_registered_node : World unit :=
  set_hub (set_running true (w_hub sample_hub_node)) sample_hub_node.

Lemma sample_registered_ok :
  registered_ok (w_hub sample_registered_node) (w_sessions sample_registered_node).
Proof.
  intros sid l Hl. simpl in Hl. apply lookup_singleton_Some in Hl as [<- <-].
  exists (sample_session [] 256). split; reflexivity.
Qed.

Lemma sample_registered_sessions (P : Session -> Prop) :
  P (sample_session [] 256) -> map_Forall (fun _ s => P s) (w_sessions sample_registered_node).
Proof.
  intros Hp l s Hs.
  change (w_sessions sample_registered_node)
    with (<[1 := sample_session [] 256]> (∅ : gmap loc Session)) in Hs.
  apply lookup_insert_Some in Hs as [[_ <-] | [_ Hs]]; done.
Qed.

Lemma Node_Shutdown_closes_all_witness :
  exists w', @Node_Shutdown unit (scripted SUCCESS) canonical_order sample_registered_node =
      Ret None w' /\
    w_sessions w' !! 1 = Some (kicked (newDisconnectMessage "server_restart" true) "Shutdown" CloseGoingAway (sample_session [] 256)).
Proof.
  destruct (@Node_Shutdown_closes_all unit (scripted SUCCESS) canonical_order sample_registered_node)
    as (w' & Hrun & _ & _ & Hs & _).
  - reflexivity.
  - reflexivity.
  - reflexivity.
  - apply sample_registered_ok.
  - apply sample_registered_sessions, sample_session_ok. simpl. lia.
  - vm_compute. repeat split. lia.
  - exact I.
  - split; intros; repeat eexists.
  - exists w'. split; [exact Hrun |].
    rewrite (Hs 1 (sample_session [] 256) eq_refl), decide_True by reflexivity. reflexivity.
Defined.

Lemma Node_Shutdown_blocks_witness :
  exists w', @Node_Shutdown unit (scripted SUCCESS) canonical_order
      (set_hub (set_register (make_chan 0) (w_hub sample_registered_node)) sample_registered_node) =
      Block "chan send" w' /\ sessionsMu (w_hub w') = mkRW false 1.
Proof.
  destruct (@Node_Shutdown_blocks unit (scripted SUCCESS) canonical_order 0
    (set_hub (set_register (make_chan 0) (w_hub sample_registered_node)) sample_registered_node))
    as (w' & Hrun & _ & Hmu).
  - reflexivity.
  - reflexivity.
  - reflexivity.
  - apply sample_registered_ok.
  - apply (sample_registered_sessions (fun s => session_ok s /\ overflows s = false)).
    split; [apply sample_session_ok; simpl; lia | reflexivity].
  - split; [split; [reflexivity |]; split; [simpl; lia | exact I] | reflexivity].
  - vm_compute. lia.
  - exists w'. split; [exact Hrun | exact Hmu].
Defined.
