(* ===== verification/StateFlow.v ===== *)
(** * The state of the application

    An application without sessions of its own keeps state in the server: what it returns
    with a reply is merged into the environment of the session ([src/common/common.go],
    [src/node/node.go]) and sent back with the requests that follow
    ([src/protocol/protocol.go]). *)

From Stdlib Require Import ZArith Lia Ascii String.
From stdpp Require Import base gmap strings list fin_maps.
From S2P Require Import Prelude Json Common Protocol Metrics Encoders World Session SessionSafety.
From S2P Require Import Hub HubSpec HubDelivery Node NodeProps.

Local Open Scope string_scope.

Section requests.
Context {V : Type}.
Implicit Types (e : SessionEnv) (v : V).

Lemma NewCommandMessage_ok e hs m cs command channel ids data v :
  Headers e = Some hs -> ConnectionState e = Some m -> ChannelStates e = Some cs ->
  NewCommandMessage e command channel ids data v =
    Ret (mkCommandMessage command channel ids data (mkEnv (URL e) (Some hs) (Some m) (cs !! channel))) v.
Proof.
  intros Hh Hm Hcs. unfold NewCommandMessage, buildChannelEnv, buildEnv, bind. rewrite Hh, Hm, Hcs. simpl.
  by destruct (cs !! channel).
Qed.

Lemma NewDisconnectMessage_ok e hs m cs ids subs v :
  Headers e = Some hs -> ConnectionState e = Some m -> ChannelStates e = Some cs ->
  NewDisconnectMessage e ids subs v =
    Ret (mkDisconnectRequest ids subs (mkEnv (URL e) (Some hs) (Some m) (Some (marshal_map <$> cs)))) v.
Proof.
  intros Hh Hm Hcs. unfold NewDisconnectMessage, buildDisconnectEnv, buildEnv, bind. by rewrite Hh, Hm, Hcs.
Qed.
End requests.

(** The states of a reply are those of the response. *)
Lemma ParseCommandResponse_states response res err c i :
  ParseCommandResponse response = (Some res, err) -> cmr_Env response = Some (mkEnvResponse c i) ->
  CState res = c /\ IState res = i.
Proof.
  unfold ParseCommandResponse. intros Hp He. rewrite He in Hp.
  destruct (String.eqb _ "SUCCESS"); [by simplify_eq |]. by destruct (String.eqb _ "FAILURE"); simplify_eq.
Qed.

Section flow.
Context {C : Type} `{Controller C} {order : GoRange}.
Implicit Types (l : loc) (w : World C).

(** C23. What the application returns with an accepted subscription comes back to it: every
    request made for the session afterwards carries the connection's state with the
    changes merged in; a command on the channel carries the channel's state with its
    changes, a command on another channel the one it had; and the request that reports
    the end of the session carries the states of all channels. *)
Theorem state_comes_back l msg s w response res m' c' hs m cs c i :
  subscriptions s !! Identifier msg = None ->
  ctl_Subscribe (UID s) (env s) (Identifiers s) (Identifier msg) (w_metrics w, w_ctl w) =
    Ret (Some res, None) (m', c') ->
  ParseCommandResponse response = (Some res, None) ->
  cmr_Env response = Some (mkEnvResponse (Some c) (Some i)) ->
  Headers (env s) = Some hs -> ConnectionState (env s) = Some m -> ChannelStates (env s) = Some cs ->
  takes (length (Transmissions res)) s ->
  node_takes (UID s) (Identifier msg) res (set_ctl c' (set_metrics m' w)) ->
  Disconnect res = false ->
  let changed := merged (default ∅ (cs !! Identifier msg)) i in
  exists s' w', Subscribe l msg (put_session l s w) = Ret (Some res, None) (put_session l s' w') /\
    (forall command channel ids data (v : C),
       NewCommandMessage (env s') command channel ids data v =
         Ret (mkCommandMessage command channel ids data
               (mkEnv (URL (env s)) (Some hs) (Some (merged m c))
                  (if decide (channel = Identifier msg) then Some changed else cs !! channel))) v) /\
    (forall ids subs (v : C),
       NewDisconnectMessage (env s') ids subs v =
         Ret (mkDisconnectRequest ids subs
               (mkEnv (URL (env s)) (Some hs) (Some (merged m c))
                  (Some (<[Identifier msg := marshal_map changed]> (marshal_map <$> cs))))) v).
Proof.
  intros Hnew Hctl Hp He Hh Hm Hcs Ht Hn Hd changed.
  destruct (ParseCommandResponse_states response res None _ _ Hp He) as [Hc Hi].
  do 2 eexists. split; [by apply Subscribe_ok |].
  set (s' := session_replied _ _ _).
  assert (Henv : env s' = mkSessionEnv (URL (env s)) (Some hs) (Some (merged m c)) (Some (<[Identifier msg := changed]> cs))).
  { subst s'. unfold session_replied. simpl. rewrite Hc, Hi. unfold merge_istate, merge_cstate.
    destruct (env s) as [url h st chs]. simpl in Hh, Hm, Hcs |- *. by subst h st chs. }
  rewrite Henv. split.
  - intros command channel ids data v. erewrite NewCommandMessage_ok by reflexivity. simpl.
    destruct (decide (channel = Identifier msg)) as [->|Hne]; [by rewrite lookup_insert_eq |].
    by rewrite lookup_insert_ne.
  - intros ids subs v. erewrite NewDisconnectMessage_ok by reflexivity. simpl. by rewrite fmap_insert.
Qed.
End flow.

(** ** A concrete application *)

(** It answers a subscription with a counter for the connection, and forgets the draft
    of the channel. *)
Definition stateful_response : CommandResponse :=
  mkCommandResponse 1 false false ["news"] ["confirm"] EmptyString
    (Some (mkEnvResponse (Some {[ "count" := "1" ]}) (Some {[ "draft" := EmptyString; "room" := "7" ]}))) [].

Definition stateful : Controller unit :=
  {| ctl_Authenticate := fun _ _ => ret (None, None);
     ctl_Subscribe := fun _ _ _ _ => ret (ParseCommandResponse stateful_response);
     ctl_Unsubscribe := fun _ _ _ _ => ret (None, None);
     ctl_Perform := fun _ _ _ _ _ => ret (None, None);
     ctl_Disconnect := fun _ _ _ _ => ret None;
     ctl_Shutdown := ret None |}.

Lemma state_comes_back_witness :
  exists s' w',
    @Subscribe unit stateful canonical_order 1 (chat_message "subscribe")
      (put_session 1 (sample_session [] 256) live_node) =
      Ret (ParseCommandResponse stateful_response) (put_session 1 s' w') /\
    NewCommandMessage (env s') "message" "chat" "user" "hi" tt =
      Ret (mkCommandMessage "message" "chat" "user" "hi"
            (mkEnv "/cable" (Some ∅) (Some {[ "count" := "1" ]}) (Some {[ "room" := "7" ]}))) tt.
Proof.
  destruct (ParseCommandResponse stateful_response) as [[res|] [e|]] eqn:Hp; try (vm_compute in Hp; discriminate Hp).
  destruct (@state_comes_back unit stateful canonical_order 1 (chat_message "subscribe")
    (sample_session [] 256) live_node stateful_response res (w_metrics live_node) tt ∅ ∅ ∅
    {[ "count" := "1" ]} {[ "draft" := EmptyString; "room" := "7" ]}) as (s' & w' & Hrun & Hcmd & _).
  - reflexivity.
  - simpl. unfold ret. by rewrite Hp.
  - exact Hp.
  - reflexivity.
  - reflexivity.
  - reflexivity.
  - reflexivity.
  - apply sample_takes; [| simpl; auto]. injection Hp as <-. simpl. lia.
  - injection Hp as <-. apply sample_node_takes; [simpl; lia | reflexivity].
  - by injection Hp as <-.
  - exists s', w'. split; [exact Hrun |]. rewrite Hcmd. vm_compute. reflexivity.
Defined.
