(* ===== verification/NodeSafe.v ===== *)
(** * The invariant of a node

    What holds of a node between two handlers, and that every handler maintains it
    without panicking. Handlers may wait: for room in a channel, for a lock, or
    for the controller. The controller is any implementation of its interface that
    keeps the laws of [LawfulController]. *)

From Stdlib Require Import ZArith Lia Ascii String.
From stdpp Require Import base gmap strings list fin_maps.
From S2P Require Import Prelude Json Common Metrics Encoders World Session Hub HubSpec Node NodeShutdown.

Local Open Scope string_scope.

(** ** What the node relies on *)

(** A registry that has at least the counters and gauges of another one. *)
Definition grows (m m' : Metrics) : Prop :=
  (forall n, is_Some (counters m !! n) -> is_Some (counters m' !! n)) /\
  (forall n, is_Some (gauges m !! n) -> is_Some (gauges m' !! n)).

(** A pair [(res, err)] in which [res] is not nil when [err] is. *)
Definition answered {A} (r : option A * option error) : Prop := r.2 = None -> is_Some r.1.

(** The laws of a controller: in a state it considers fit, a call for an environment
    with headers does not panic, leaves a fit state and all metrics registered,
    and comes with a result unless it comes with an error. *)
Definition call_safe {C A} (fit : Metrics -> C -> Prop) (m : M (Metrics * C) A) (Q : A -> Prop) : Prop :=
  forall st, fit st.1 st.2 -> safe m (fun a st' => fit st'.1 st'.2 /\ grows st.1 st'.1 /\ Q a) st.

Class LawfulController (C : Type) `{Controller C} : Type := {
  ctl_fit : Metrics -> C -> Prop;
  ctl_fit_grows : forall m m' c, ctl_fit m c -> grows m m' -> ctl_fit m' c;
  law_Authenticate : forall sid env, is_Some (Headers env) ->
    call_safe ctl_fit (ctl_Authenticate sid env) answered;
  law_Subscribe : forall sid env id channel, is_Some (Headers env) ->
    call_safe ctl_fit (ctl_Subscribe sid env id channel) answered;
  law_Unsubscribe : forall sid env id channel, is_Some (Headers env) ->
    call_safe ctl_fit (ctl_Unsubscribe sid env id channel) answered;
  law_Perform : forall sid env id channel data, is_Some (Headers env) ->
    call_safe ctl_fit (ctl_Perform sid env id channel data) answered;
  law_Disconnect : forall sid env id subs, is_Some (Headers env) ->
    call_safe ctl_fit (ctl_Disconnect sid env id subs) (fun _ => True);
  law_Shutdown : call_safe ctl_fit ctl_Shutdown (fun _ => True)
}.

(** ** The invariant *)

Definition node_counters : list string :=
  [metricsFailedAuths; metricsReceivedMsg; metricsFailedCommandReceived; metricsBroadcastMsg;
   metricsUnknownBroadcast; metricsSentMsg; metricsFailedSent; metricsDataSent; metricsDataReceived].
Definition node_gauges : list string :=
  [metricsGoroutines; metricsMemSys; metricsClientsNum; metricsUniqClientsNum; metricsStreamsNum;
   metricsDisconnectQueue].

Definition metrics_ok (m : Metrics) : Prop :=
  (forall n, n ∈ node_counters -> is_Some (counters m !! n)) /\
  (forall n, n ∈ node_gauges -> is_Some (gauges m !! n)).

Record session_good (s : Session) : Prop := {
  sg_ok : session_ok s;
  sg_env : env_ok (env s);
  sg_headers : is_Some (Headers (env s))
}.

Definition disconnector_ok (live : gset loc) (d : Disconnector) : Prop :=
  match d with
  | DNoop => True
  | DQueue q =>
      dq_mu q = false /\ ch_closed (dq_disconnect q) = false /\ ch_closed (dq_shutdown q) = false /\
      (forall l, l ∈ ch_buf (dq_disconnect q) -> l ∈ live)
  end.

(** [good n D A w]: the registry is locked by [n] readers, the sessions [D] exist,
    and every registered session is among [A]. *)
Record good {C} `{LawfulController C} (n : nat) (D A : gset loc) (w : World C) : Prop := {
  g_live : D ⊆ dom (w_sessions w);
  g_sessions : forall l s, w_sessions w !! l = Some s -> session_good s;
  g_hub : exists r, implements (set_sessionsMu rw_free (w_hub w)) r;
  g_readers : sessionsMu (w_hub w) = mkRW false n;
  g_registered : forall uid l, sessions (w_hub w) !! uid = Some l ->
    l ∈ A /\ exists s, w_sessions w !! l = Some s /\ UID s = uid;
  g_broadcast : ch_closed (broadcast (w_hub w)) = false;
  g_disconnect : ch_closed (disconnect (w_hub w)) = false;
  g_subscribe : ch_closed (subscribe (w_hub w)) = false;
  g_register : ch_closed (register (w_hub w)) = false;
  g_removals : forall r, r ∈ ch_buf (register (w_hub w)) ->
    reg_event r = "remove" /\ reg_session r ∈ dom (w_sessions w);
  g_disconnector : exists d, w_disconnector w = Some d /\ disconnector_ok (dom (w_sessions w)) d;
  g_metrics : metrics_ok (w_metrics w);
  g_ctl : ctl_fit (w_metrics w) (w_ctl w)
}.

Create HintDb node_safe discriminated.
#[export] Hint Constants Opaque : node_safe.

Section sessions_safe.
Context {C : Type} `{LawfulController C} {order : GoRange}.
Implicit Types (l : loc) (w : World C) (s : Session) (D A : gset loc).

(** ** Single steps *)

Lemma good_lookup n D A l w : good n D A w -> l ∈ D -> exists s, w_sessions w !! l = Some s /\ session_good s.
Proof.
  intros Hw Hl. pose proof (g_live _ _ _ _ Hw) as Hd.
  assert (is_Some (w_sessions w !! l)) as [s Hs] by (apply elem_of_dom; set_solver).
  exists s. split; [done |]. by eapply g_sessions.
Qed.

Lemma good_put n D A l s s' w :
  good n D A w -> w_sessions w !! l = Some s -> session_good s' -> UID s' = UID s ->
  good n D A (put_session l s' w).
Proof.
  intros [] Hs Hs' Hu.
  assert (Hdom : dom (w_sessions (put_session l s' w)) = dom (w_sessions w)).
  { unfold put_session; simpl. rewrite dom_insert_L. apply elem_of_dom_2 in Hs. set_solver. }
  split; rewrite ?Hdom; try done.
  - intros k sk. unfold put_session; simpl. rewrite lookup_insert_Some. naive_solver.
  - intros uid k Hk. destruct (g_registered0 uid k Hk) as (Hka & sk & Hsk & Huid).
    split; [done |]. unfold put_session; simpl. rewrite lookup_insert.
    case_decide; [| by exists sk]. simplify_eq. exists s'. split; [done | congruence].
Qed.

Lemma maintains_load {B} n D A l (k : Session -> M (World C) B) :
  l ∈ D -> (forall s, session_good s -> maintains (good n D A) (k s)) ->
  maintains (good n D A) (bind (load l) k).
Proof.
  intros Hl Hk w Hw. destruct (good_lookup n D A l w Hw Hl) as (s & Hs & Hg).
  eapply safe_step; [unfold load; by rewrite Hs |]. by apply Hk.
Qed.

Lemma maintains_on_metrics n D A (f : Counter -> Counter) name :
  name ∈ node_counters -> maintains (good n D A) (on_metrics (C := C) (on_counter f name)).
Proof.
  intros Hn w Hw. pose proof (g_metrics _ _ _ _ Hw) as [Hc _].
  eapply safe_returns; [apply on_counter_ok; by apply Hc |].
  assert (Hgr : grows (w_metrics w) (w_metrics (bump f name w))).
  { split; [| done]. intros k. unfold bump; simpl. rewrite lookup_alter.
    case_decide; subst; [| done]. by rewrite fmap_is_Some. }
  destruct Hw. split; try done.
  - destruct g_metrics0, Hgr. split; auto.
  - by eapply ctl_fit_grows.
Qed.

Lemma maintains_gauge n D A (f : Gauge -> Gauge) name :
  name ∈ node_gauges -> maintains (good n D A) (on_metrics (C := C) (on_gauge f name)).
Proof.
  intros Hn w Hw. pose proof (g_metrics _ _ _ _ Hw) as [_ Hc].
  destruct (Hc name Hn) as [g Hg].
  eapply safe_returns; [unfold on_metrics, zoom, on_gauge; by rewrite Hg |].
  assert (Hgr : grows (w_metrics w) (mkMetrics (counters (w_metrics w))
    (<[name := f g]> (gauges (w_metrics w))))).
  { split; [done |]. intros k Hk. simpl. rewrite lookup_insert. case_decide; [eauto | done]. }
  destruct Hw. split; try done.
  - destruct g_metrics0, Hgr. split; auto.
  - by eapply ctl_fit_grows.
Qed.

(** A part of a session that is rewritten, whatever the outcome. *)
Lemma maintains_modify n D A l (f : Session -> Session) :
  l ∈ D -> (forall s, session_good s -> session_good (f s) /\ UID (f s) = UID s) ->
  maintains (good n D A) (on_session (C := C) l (modify f)).
Proof.
  intros Hl Hf w Hw. destruct (good_lookup n D A l w Hw Hl) as (s & Hs & Hg).
  rewrite <- (put_session_id l s w Hs). eapply safe_returns; [apply modify_put |].
  destruct (Hf s Hg). by eapply good_put.
Qed.

(** ** Operations of a session *)

Lemma closing_good s : session_good s -> session_good (closing s) /\ UID (closing s) = UID s.
Proof.
  intros [Hok He Hh]. pose proof (closing_ok s Hok). unfold closing, stop_ping in *.
  open_session s. destruct is_closed, timer; by split.
Qed.

Lemma Session_close_safe n D A l : l ∈ D -> maintains (good n D A) (Session_close (C := C) l).
Proof.
  intros Hl w Hw. destruct (good_lookup n D A l w Hw Hl) as (s & Hs & Hg).
  rewrite <- (put_session_id l s w Hs).
  eapply safe_returns; [apply Session_close_put; by destruct Hg as [[] _ _] |].
  destruct (closing_good s Hg). by eapply good_put.
Qed.

(** Leaving the node: the removal and the disconnector's entry are queued. *)
Lemma RemoveSession_safe n D A l : l ∈ D -> maintains (good n D A) (RemoveSession (C := C) l).
Proof.
  intros Hl w Hw. pose proof (g_register _ _ _ _ Hw) as Hc.
  unfold safe, RemoveSession, on_hub, on_register, zoom, chan_send. rewrite Hc.
  destruct (chan_full (register (w_hub w))); [done |].
  pose proof (g_live _ _ _ _ Hw) as Hd. destruct Hw. split; try done.
  - destruct g_hub0 as [r []]. exists r. by split.
  - simpl. intros r Hr. apply elem_of_app in Hr as [Hr|Hr]; [by apply g_removals0 |].
    apply list_elem_of_singleton in Hr as ->. simpl. split; [done | set_solver].
Qed.

Lemma Enqueue_safe n D A l : l ∈ D -> maintains (good n D A) (Enqueue (C := C) l).
Proof.
  intros Hl w Hw. destruct (g_disconnector _ _ _ _ Hw) as (d & Hd & Hok).
  unfold safe, Enqueue. rewrite Hd. destruct d as [q|]; [| done].
  destruct Hok as (Hm & Hc & Hs & Hin).
  unfold DisconnectQueue_Enqueue, zoom, bind, lock, get, ret; simpl. rewrite Hm; simpl.
  assert (Hgood : forall q', disconnector_ok (dom (w_sessions w)) (DQueue q') ->
            good n D A (set_disconnector (Some (DQueue q')) w)).
  { intros q' Hq'. destruct Hw. split; try done. by exists (DQueue q'). }
  destruct (dq_isStopped q); simpl; [by apply Hgood |].
  unfold chan_send. rewrite Hc. destruct (chan_full (dq_disconnect q)); [done |].
  apply Hgood. simpl. split_and!; try done. intros k Hk.
  apply elem_of_app in Hk as [Hk|Hk]; [by apply Hin |].
  apply list_elem_of_singleton in Hk as ->. pose proof (g_live _ _ _ _ Hw). set_solver.
Qed.

Lemma Node_Disconnect_safe n D A l : l ∈ D -> maintains (good n D A) (Node_Disconnect (C := C) l).
Proof.
  intros Hl. apply maintains_bind; [by apply RemoveSession_safe | intros _; by apply Enqueue_safe].
Qed.

Lemma disconnectFromNode_safe n D A l : l ∈ D -> maintains (good n D A) (disconnectFromNode (C := C) l).
Proof.
  intros Hl w Hw. destruct (good_lookup n D A l w Hw Hl) as (s & Hs & Hg).
  rewrite <- (put_session_id l s w Hs).
  assert (Hmu : mu s = false) by (by destruct Hg as [[] _ _]).
  unfold safe. rewrite disconnectFromNode_put by done.
  destruct (Connected s) eqn:Hc; [| by rewrite put_session_id].
  change (safe (bind (Node_Disconnect l) (fun _ => ret tt)) (fun _ => good n D A)
    (put_session l (set_Connected false s) w)).
  apply maintains_bind; [by apply Node_Disconnect_safe | intros _; apply maintains_ret |].
  eapply good_put; [done | done | | done]. destruct Hg as [Hok ? ?].
  split; [by apply set_Connected_ok | done | done].
Qed.
#[local] Hint Resolve Session_close_safe disconnectFromNode_safe : node_safe.
#[local] Hint Resolve maintains_ret maintains_when maintains_on_metrics : node_safe.

Lemma push_good f s :
  session_good s -> sendCh s = true -> chan_full (sendQ s) = false ->
  session_good (set_sendQ (chan_push f (sendQ s)) s).
Proof.
  intros [[Hmu Hsmu Hop Hroom] He Hh] Hch Hf. split; [| done | done].
  apply bool_decide_eq_false in Hf. split; try done. simpl. rewrite length_app; simpl. lia.
Qed.

Lemma cut_good s :
  session_good s -> session_good (set_sendCh false (set_sendQ (closed_chan (sendQ s)) s)).
Proof. intros [[Hmu Hsmu Hop Hroom] He Hh]. by split. Qed.

Lemma sendFrame_rec_safe depth n D A l f :
  l ∈ D -> maintains (good n D A) (sendFrame_rec (C := C) depth l f).
Proof.
  intros Hl. revert f. induction depth as [|depth IH]; intros f w Hw; [done |].
  destruct (good_lookup n D A l w Hw Hl) as (s & Hs & Hg).
  rewrite <- (put_session_id l s w Hs). pose proof Hg as [[Hmu Hsmu Hop Hroom] _ _].
  destruct (sendCh s) eqn:Hch.
  2: { eapply safe_returns; [by apply sendFrame_nil_put |]. by rewrite put_session_id. }
  unfold safe. cbn [sendFrame_rec]. step. step.
  change (sendCh (set_mu true s)) with (sendCh s). rewrite Hch. cbn [negb] in *. step.
  change (sendQ (set_mu true s)) with (sendQ s).
  destruct (chan_full (sendQ s)) eqn:Hfull; cbn [negb].
  - step. step. step.
    match goal with |- match ?m ?w0 with _ => _ end =>
      change (safe m (fun _ => good n D A) w0) end.
    apply maintains_bind; [by apply disconnectFromNode_safe | intros _ |].
    + apply maintains_bind; [by apply IH | intros _; by apply Session_close_safe].
    + eapply good_put; [done | done | | by destruct s]. pose proof (cut_good s Hg) as Hcut.
      by destruct s; simpl in *; subst.
  - rewrite unlock_put by done. eapply good_put; [done | done | | by destruct s].
    pose proof (push_good f s Hg Hch Hfull). by destruct s; simpl in *; subst.
Qed.

Lemma sendFrame_safe n D A l f : l ∈ D -> maintains (good n D A) (sendFrame (C := C) l f).
Proof. apply sendFrame_rec_safe. Qed.
#[local] Hint Resolve sendFrame_safe : node_safe.

Lemma Session_Disconnect_safe n D A l reason code :
  l ∈ D -> maintains (good n D A) (Session_Disconnect (C := C) l reason code).
Proof.
  intros Hl. apply maintains_bind; [by apply disconnectFromNode_safe | intros _].
  apply maintains_bind; [by apply sendFrame_safe | intros _; by apply Session_close_safe].
Qed.

Lemma encodeMessage_safe n D A l msg :
  l ∈ D -> maintains (good n D A) (encodeMessage (C := C) l msg).
Proof.
  intros Hl. apply maintains_load; [done |]. intros s Hs.
  destruct msg; try apply maintains_ret. unfold Fetch.
  destruct (_ !! ID (encoder s)) as [[|]|]; apply maintains_ret.
Qed.

Lemma Send_safe n D A l msg : l ∈ D -> maintains (good n D A) (Send (C := C) l msg).
Proof.
  intros Hl. apply maintains_bind; [by apply encodeMessage_safe |].
  intros [[[f|]|e] msg']; try apply maintains_ret.
  apply maintains_bind; [by apply sendFrame_safe | intros _; apply maintains_ret].
Qed.

Lemma SendJSONTransmission_safe n D A l msg :
  l ∈ D -> maintains (good n D A) (SendJSONTransmission (C := C) l msg).
Proof.
  intros Hl. apply maintains_load; [done |]. intros s Hs.
  destruct (EncodeTransmission (encoder s) msg) as [[f|]|e]; try apply maintains_ret.
  by apply sendFrame_safe.
Qed.
End sessions_safe.

#[export] Hint Resolve maintains_ret maintains_when : node_safe.
#[export] Hint Resolve Session_close_safe disconnectFromNode_safe sendFrame_safe
  Session_Disconnect_safe Send_safe SendJSONTransmission_safe maintains_on_metrics
  maintains_gauge : node_safe.

(** Solves that a name is one of the node's. *)
Ltac named := match goal with |- ?P => exact (bool_decide_eq_true_1 P eq_refl) end.

(** Walks through a handler made of operations that maintain the invariant. *)
Ltac walk_safe :=
  repeat first
    [ done
    | solve [eauto 3 with node_safe]
    | apply maintains_on_metrics; named
    | apply maintains_gauge; named
    | apply maintains_load; [done | intros]
    | apply maintains_when
    | apply maintains_each; intros
    | apply maintains_bind; [| intros]
    | apply maintains_ret
    | case_match ].

Section writing.
Context {C : Type} `{LawfulController C} {order : GoRange}.
Implicit Types (l : loc) (w : World C) (s : Session) (D A : gset loc).

(** ** Writing, reading and pings *)

Lemma wrote_good e s : session_good s -> session_good (wrote e s).
Proof. intros [[] ? ?]. by split. Qed.

Lemma locked_write_safe {B} n D A l e (k : option error -> M (World C) B) :
  l ∈ D -> (forall err, maintains (good n D A) (k err)) ->
  maintains (good n D A)
    (on_session l lock_mu ;; let! err := on_session l (on_conn e) in on_session l unlock_mu ;; k err).
Proof.
  intros Hl Hk w Hw. destruct (good_lookup n D A l w Hw Hl) as (s & Hs & Hg).
  rewrite <- (put_session_id l s w Hs). pose proof Hg as [[Hmu Hsmu Hop Hroom] _ _].
  unfold safe. step. erewrite bind_ret_eq by apply on_conn_put. step. apply Hk.
  pose proof (wrote_good e s Hg) as Hwg.
  eapply good_put; [done | done | | by destruct s]. by destruct s; simpl in *; subst.
Qed.

Lemma on_conn_safe n D A l e : l ∈ D -> maintains (good n D A) (on_session (C := C) l (on_conn e)).
Proof.
  intros Hl w Hw. destruct (good_lookup n D A l w Hw Hl) as (s & Hs & Hg).
  rewrite <- (put_session_id l s w Hs). eapply safe_returns; [apply on_conn_put |].
  eapply good_put; [done | done | by apply wrote_good | by destruct s].
Qed.

Lemma writeFrameWithDeadline_safe n D A l f wait :
  l ∈ D -> maintains (good n D A) (writeFrameWithDeadline (C := C) l f wait).
Proof.
  intros Hl. unfold writeFrameWithDeadline. apply maintains_bind.
  { apply (maintains_on_metrics n D A (Counter_Add _)). named. }
  intros _. repeat case_match; try apply maintains_ret;
    try (apply locked_write_safe; [done | intros; apply maintains_ret]).
  apply maintains_bind; [by apply on_conn_safe | intros; apply maintains_ret].
Qed.

(** The channel of a session that is disconnected at once is closed under the
    mutex. *)
Lemma close_channel_safe {B} n D A l (k : M (World C) B) :
  l ∈ D -> maintains (good n D A) k ->
  maintains (good n D A)
    (on_session l lock_mu ;;
     let! s := load l in
     when (sendCh s)
       (on_session l (on_sendQ chan_close) ;; on_session l (modify (set_sendCh false))) ;;
     on_session l unlock_mu ;; k).
Proof.
  intros Hl Hk w Hw. destruct (good_lookup n D A l w Hw Hl) as (s & Hs & Hg).
  rewrite <- (put_session_id l s w Hs). pose proof Hg as [[Hmu Hsmu Hop Hroom] He Hh].
  unfold safe. step. step. change (sendCh (set_mu true s)) with (sendCh s).
  destruct (sendCh s) eqn:Hch; cbn [when negb] in *.
  - erewrite bind_ret_eq by (step; apply modify_put). step. apply Hk.
    pose proof (cut_good s Hg). eapply good_put; [done | done | | by destruct s].
    by destruct s; simpl in *; subst.
  - erewrite bind_ret_eq by reflexivity. step. apply Hk. eapply good_put; [done | done | | by destruct s].
    by destruct s; simpl in *; subst.
Qed.

Lemma disconnectNow_safe n D A l reason code :
  l ∈ D -> maintains (good n D A) (disconnectNow (C := C) l reason code).
Proof.
  intros Hl. apply maintains_bind; [by apply disconnectFromNode_safe | intros _].
  apply maintains_bind; [by apply writeFrameWithDeadline_safe | intros _].
  apply close_channel_safe; [done | by apply Session_close_safe].
Qed.

(** One round of the writing goroutine; the answer says whether it goes on. *)
Definition write_next l : M (World C) bool :=
  let! m := on_session l (on_sendQ chan_recv) in
  match m with
  | None => disconnectNow l "Write Failed" CloseAbnormalClosure ;; ret false
  | Some message =>
      let! err := writeFrame l message in
      match err with
      | Some _ =>
          on_metrics (counter_inc metricsFailedSent) ;;
          disconnectNow l "Write Failed" CloseAbnormalClosure ;; ret false
      | None => on_metrics (counter_inc metricsSentMsg) ;; ret true
      end
  end.

Lemma SendMessages_rounds fuel l w :
  SendMessages (S fuel) l w =
  bind (write_next l) (fun go_on : bool => if go_on then SendMessages fuel l else ret tt) w.
Proof.
  cbn [SendMessages]. unfold write_next, bind.
  destruct (on_session l (on_sendQ chan_recv) w) as [[m|] w1|? ?|? ?]; try done.
  - destruct (writeFrame l m w1) as [[e|] w2|? ?|? ?]; try done.
    + destruct (on_metrics (counter_inc metricsFailedSent) w2) as [? w3|? ?|? ?]; try done.
      by destruct (disconnectNow l "Write Failed" CloseAbnormalClosure w3) as [[] ?|? ?|? ?].
    + by destruct (on_metrics (counter_inc metricsSentMsg) w2) as [? w3|? ?|? ?].
  - by destruct (disconnectNow l "Write Failed" CloseAbnormalClosure w1) as [[] ?|? ?|? ?].
Qed.

Lemma recv_safe n D A l : l ∈ D -> maintains (good n D A) (on_session (C := C) l (on_sendQ chan_recv)).
Proof.
  intros Hl w Hw. destruct (good_lookup n D A l w Hw Hl) as (s & Hs & Hg).
  rewrite <- (put_session_id l s w Hs). unfold safe. rewrite on_session_put.
  pose proof Hg as [[Hmu Hsmu Hop Hroom] He Hh]. unfold on_sendQ, zoom, chan_recv.
  destruct (ch_buf (sendQ s)) as [|f fs] eqn:Hb.
  - destruct (ch_closed (sendQ s)) eqn:Hc; [| done].
    eapply good_put; [done | done | by destruct s | by destruct s].
  - eapply good_put; [done | done | | by destruct s]. split; [| done | done].
    split; try done. simpl in *. lia.
Qed.

Lemma write_next_safe n D A l : l ∈ D -> maintains (good n D A) (write_next l).
Proof.
  intros Hl. apply maintains_bind; [by apply recv_safe |]. intros [m|].
  - apply maintains_bind; [by apply writeFrameWithDeadline_safe |]. intros [e|].
    + apply maintains_bind; [apply maintains_on_metrics; named | intros _].
      apply maintains_bind; [by apply disconnectNow_safe | intros; apply maintains_ret].
    + apply maintains_bind; [apply maintains_on_metrics; named | intros; apply maintains_ret].
  - apply maintains_bind; [by apply disconnectNow_safe | intros; apply maintains_ret].
Qed.

Lemma ReadMessage_safe n D A (HandleCommand : loc -> Message -> M (World C) (option error)) l message :
  l ∈ D -> (forall msg, maintains (good n D A) (HandleCommand l msg)) ->
  maintains (good n D A) (ReadMessage HandleCommand l message).
Proof.
  intros Hl Hh. apply maintains_bind; [apply (maintains_on_metrics n D A (Counter_Add _)); named |].
  intros _. apply maintains_load; [done |]. intros s _.
  destruct (Decode (encoder s) message) as [[command|]|e]; [| apply maintains_ret |].
  - apply maintains_bind; [apply maintains_on_metrics; named | intros _].
    apply maintains_bind; [apply Hh |]. intros [e|]; [| apply maintains_ret].
    apply maintains_bind; [apply maintains_on_metrics; named | intros; apply maintains_ret].
  - apply maintains_bind; [apply maintains_on_metrics; named | intros; apply maintains_ret].
Qed.

Lemma sendPing_safe n D A l now : l ∈ D -> maintains (good n D A) (sendPing (C := C) l now).
Proof.
  intros Hl. apply maintains_load; [done |]. intros s _.
  destruct (closed s); [apply maintains_ret |].
  apply maintains_bind; [by apply encodeMessage_safe |]. intros [b msg'].
  apply maintains_bind.
  { destruct b as [[f|]|e]; try apply maintains_ret. by apply writeFrameWithDeadline_safe. }
  intros [e|]; [by apply Session_Disconnect_safe |].
  apply maintains_modify; [done |]. intros s' [[] ? ?]. by split.
Qed.

(** A session object that did not exist before. *)
Lemma new_session_good cfg c url headers uid :
  is_Some headers -> session_good (new_session cfg c url headers uid).
Proof.
  intros [h ->]. split; [| apply NewSessionEnv_ok | by eexists]. split; simpl; (done || lia).
Qed.

Lemma NewSession_safe n D A l c url headers uid w :
  is_Some headers -> w_sessions w !! l = None -> good n D A w ->
  safe (NewSession l c url headers uid) (fun _ => good n ({[ l ]} ∪ D) A) w.
Proof.
  intros Hh Hl Hw. set (s := new_session (w_config w) c url headers uid).
  change (safe (addPing l) (fun _ => good n ({[ l ]} ∪ D) A) (put_session l s w)).
  assert (Hs : session_good s) by (by apply new_session_good).
  assert (Hnew : good n ({[ l ]} ∪ D) A (put_session l s w)).
  { destruct Hw.
    assert (Hdom : dom (w_sessions (put_session l s w)) = {[ l ]} ∪ dom (w_sessions w))
      by apply dom_insert_L.
    split; rewrite ?Hdom; try done.
    - set_solver.
    - intros k sk. unfold put_session; simpl. rewrite lookup_insert_Some. naive_solver.
    - intros uid' k Hk. destruct (g_registered0 uid' k Hk) as (Hka & sk & Hsk & Hu).
      split; [done |]. exists sk. rewrite lookup_put_ne by congruence. done.
    - intros r Hr. destruct (g_removals0 r Hr). set_solver.
    - destruct g_disconnector0 as (d & Hd & Hok). exists d. split; [done |].
      destruct d as [q|]; [| done]. destruct Hok as (? & ? & ? & Hin). split_and!; try done.
      intros k Hk. apply Hin in Hk. set_solver. }
  eapply safe_mono; [apply maintains_modify; [| | exact Hnew] |]; try done; [set_solver |].
  intros s' [[] ? ?]. by split.
Qed.
End writing.
