(* ===== verification/HandlersSafe.v ===== *)
(** * The handlers of a node maintain its invariant

    The hub's loop and tasks, the commands of clients, pub/sub messages, the
    disconnect queue, statistics and shutdown, each from the invariant of
    [NodeSafe]: none of them panics, and when it returns the invariant holds
    again. *)

From Stdlib Require Import ZArith Lia Ascii String.
From stdpp Require Import base gmap strings list fin_maps.
From S2P Require Import Prelude Json Common Metrics Encoders World Session Hub HubSpec Node.
From S2P Require Import NodeShutdown NodeProps NodeSafe.

Local Open Scope string_scope.

Section hub_safe.
Context {C : Type} `{LawfulController C} {order : GoRange}.
Implicit Types (l : loc) (w : World C) (s : Session) (D A : gset loc) (h : Hub).

(** ** The hub *)

(** A hub that differs only in its channels and its pool. *)
Lemma implements_chans h h' r :
  streamsMu h' = streamsMu h -> sessionsMu h' = sessionsMu h -> sessions h' = sessions h ->
  streams h' = streams h -> identifiers h' = identifiers h -> idmaps h' = idmaps h ->
  sessionsStreams h' = sessionsStreams h -> implements h r -> implements h' r.
Proof.
  intros E1 E2 E3 E4 E5 E6 E7 []. unfold listed, ident_entry in *. split; unfold listed, ident_entry.
  all: rewrite ?E1, ?E2, ?E3, ?E4, ?E5, ?E6, ?E7; done.
Qed.

(** What requests to the registry leave alone. *)
Definition chans h :=
  (broadcast h, disconnect h, register h, subscribe h, running h, pool h).

Lemma keeps_modify_chans f x :
  (forall h, chans (f h) = chans h) -> keeps (modify f) (fun h => chans h = x).
Proof. intros Hf h Hh. simpl. by rewrite Hf. Qed.
Lemma keeps_streamsMu (m : M RWMutex unit) x : keeps (on_streamsMu m) (fun h => chans h = x).
Proof. intros h Hh. unfold on_streamsMu, zoom. by destruct (m (streamsMu h)). Qed.
Lemma keeps_sessionsMu (m : M RWMutex unit) x : keeps (on_sessionsMu m) (fun h => chans h = x).
Proof. intros h Hh. unfold on_sessionsMu, zoom. by destruct (m (sessionsMu h)). Qed.
Lemma keeps_get (P : Hub -> Prop) : keeps get P.
Proof. by intros h Hh. Qed.

Ltac walk_chans :=
  repeat first
    [ done | apply keeps_streamsMu | apply keeps_sessionsMu | apply keeps_get | apply keeps_ret
    | apply keeps_modify_chans; intros ?; repeat case_match; done
    | apply keeps_each; intros | apply keeps_bind; [| intros] | case_match ].

Lemma run_cmd_chans c x : keeps (run_cmd c) (fun h => chans h = x).
Proof.
  assert (Hch : forall sid id locked,
    keeps (unsubscribeSessionFromChannel sid id locked) (fun h => chans h = x)).
  { intros sid id locked. unfold unsubscribeSessionFromChannel, when. walk_chans. }
  destruct c; cbn [run_cmd]; [unfold hub_addSession | unfold hub_removeSession
    | unfold subscribeSession | unfold unsubscribeSession | apply Hch].
  all: unfold unsubscribeSessionFromAllChannels; walk_chans; apply Hch.
Qed.

(** Sessions in the registry after a request. *)
Lemma spec_cmd_sessions r c uid l :
  r_sessions (spec_cmd r c) !! uid = Some l ->
  r_sessions r !! uid = Some l \/ exists ids, c = CmdAdd l uid ids.
Proof.
  destruct c as [l' uid' ids | uid' ids | | |]; simpl; try (by left).
  - rewrite lookup_insert_Some. intros [[-> ->] | [_ Hl]]; [right; eauto | by left].
  - destruct (r_sessions r !! uid') eqn:Hu; [| by left]. simpl. rewrite lookup_delete_Some. tauto.
Qed.

Lemma good_free D A w : good 0 D A w -> exists r, implements (w_hub w) r.
Proof.
  intros Hw. destruct (g_hub _ _ _ _ Hw) as [r Hr]. pose proof (g_readers _ _ _ _ Hw) as Hrd.
  exists r. destruct (w_hub w); simpl in *; by subst.
Qed.

Lemma hub_cmd_good D A c w :
  good 0 D A w ->
  (forall l uid ids, c = CmdAdd l uid ids ->
     l ∈ A /\ exists s, w_sessions w !! l = Some s /\ UID s = uid) ->
  exists h', run_cmd c (w_hub w) = Ret tt h' /\ good 0 D A (set_hub h' w).
Proof.
  intros Hw Hadd. destruct (good_free D A w Hw) as [r Hr].
  destruct (run_cmd_refines c (w_hub w) r Hr) as (h' & Hrun & Hi). exists h'. split; [done |].
  pose proof (run_cmd_chans c (chans (w_hub w)) (w_hub w) eq_refl) as Hch. rewrite Hrun in Hch.
  simpl in Hch. unfold chans in Hch. injection Hch as Hb Hd Hreg Hsub Hrunning Hpool.
  destruct Hw. split; simpl; rewrite ?Hb, ?Hd, ?Hreg, ?Hsub; try done.
  - exists (spec_cmd r c). eapply implements_chans; [.. | exact Hi]; try done. by destruct Hi.
  - by destruct Hi.
  - intros uid l Hl. rewrite (im_sessions _ _ Hi) in Hl.
    destruct (spec_cmd_sessions r c uid l Hl) as [Hold | [ids Hc]].
    + apply g_registered. by rewrite (im_sessions _ _ Hr).
    + by eapply Hadd.
Qed.

Lemma on_hub_cmd_safe D A c :
  (forall l uid ids, c <> CmdAdd l uid ids) -> maintains (good 0 D A) (on_hub (C := C) (run_cmd c)).
Proof.
  intros Hc w Hw. destruct (hub_cmd_good D A c w Hw) as (h' & Hrun & Hg).
  { intros l uid ids ->. by destruct (Hc l uid ids). }
  eapply safe_returns; [unfold on_hub, zoom; by rewrite Hrun | exact Hg].
Qed.

Lemma removeSession_safe D A l : l ∈ D -> maintains (good 0 D A) (removeSession (C := C) l).
Proof.
  intros Hl. apply maintains_load; [done |]. intros s _. by apply (on_hub_cmd_safe D A (CmdRemove _ _)).
Qed.

(** A session that is registered has been let in. *)
Lemma good_admit n D A A' w : A ⊆ A' -> good n D A w -> good n D A' w.
Proof.
  intros Hsub []. split; try done. intros uid l Hl.
  destruct (g_registered uid l Hl). split; [set_solver | done].
Qed.

Lemma addSession_safe D A l : l ∈ D -> l ∈ A -> maintains (good 0 D A) (addSession (C := C) l).
Proof.
  intros Hl Ha w Hw. destruct (good_lookup 0 D A l w Hw Hl) as (s & Hs & Hg).
  eapply safe_step; [unfold load; by rewrite Hs |].
  destruct (hub_cmd_good D A (CmdAdd l (UID s) (Identifiers s)) w Hw) as (h' & Hrun & Hh').
  { intros l' uid ids [= <- <- <-]. eauto. }
  cbn [run_cmd] in Hrun. eapply safe_returns; [unfold on_hub, zoom; by rewrite Hrun | exact Hh'].
Qed.

(** Sessions that may be needed later are among those that exist. *)
Lemma good_dom n D A w : good n D A w -> good n (dom (w_sessions w)) A w.
Proof. intros []. by split. Qed.
Lemma good_sub n D D' A w : D' ⊆ D -> good n D A w -> good n D' A w.
Proof. intros Hsub []. split; try done. set_solver. Qed.

(** *** Requests *)

(** A node whose hub differs only in its queues and its pool. *)
Lemma good_queues n D A w h :
  good n D A w ->
  streamsMu h = streamsMu (w_hub w) -> sessionsMu h = sessionsMu (w_hub w) ->
  sessions h = sessions (w_hub w) -> streams h = streams (w_hub w) ->
  identifiers h = identifiers (w_hub w) -> idmaps h = idmaps (w_hub w) ->
  sessionsStreams h = sessionsStreams (w_hub w) -> register h = register (w_hub w) ->
  ch_closed (broadcast h) = false -> ch_closed (disconnect h) = false ->
  ch_closed (subscribe h) = false -> good n D A (set_hub h w).
Proof.
  intros [] E1 E2 E3 E4 E5 E6 E7 E8 ? ? ?. split; simpl; rewrite ?E2, ?E3, ?E8; try done.
  destruct g_hub as [r Hr]. exists r. by eapply implements_chans; [.. | exact Hr].
Qed.

End hub_safe.

Ltac queues_only Hw :=
  eapply good_queues; [exact Hw | ..]; first [reflexivity | by destruct Hw].

Section tasks_safe.
Context {C : Type} `{LawfulController C} {order : GoRange}.
Implicit Types (l : loc) (w : World C) (s : Session) (D A : gset loc) (h : Hub).

Lemma send_subscription_safe n D A m :
  maintains (good n D A) (on_hub (C := C) (on_subscribe (chan_send m))).
Proof.
  intros w Hw. unfold safe, on_hub, on_subscribe, zoom, chan_send.
  rewrite (g_subscribe _ _ _ _ Hw). destruct (chan_full _); [done |].
  queues_only Hw.
Qed.

Lemma send_broadcast_safe n D A m :
  maintains (good n D A) (on_hub (C := C) (on_broadcast (chan_send m))).
Proof.
  intros w Hw. unfold safe, on_hub, on_broadcast, zoom, chan_send.
  rewrite (g_broadcast _ _ _ _ Hw). destruct (chan_full _); [done |].
  queues_only Hw.
Qed.

Lemma send_disconnect_safe n D A m :
  maintains (good n D A) (on_hub (C := C) (on_disconnect (chan_send m))).
Proof.
  intros w Hw. unfold safe, on_hub, on_disconnect, zoom, chan_send.
  rewrite (g_disconnect _ _ _ _ Hw). destruct (chan_full _); [done |].
  queues_only Hw.
Qed.

Lemma Schedule_safe n D A t : maintains (good n D A) (on_hub (C := C) (Schedule t)).
Proof.
  intros w Hw. unfold safe, on_hub, zoom, Schedule. case_bool_decide; [| done].
  queues_only Hw.
Qed.
(** ** Reading the registry *)

(** Code about sessions that were found in the state. *)
Lemma safe_found {B} n D A (m : M (World C) B) w :
  good n D A w -> maintains (good n (dom (w_sessions w)) A) m -> safe m (fun _ => good n D A) w.
Proof.
  intros Hw Hm. eapply safe_mono; [apply Hm; by eapply good_dom |].
  intros a w'. apply good_sub. by destruct Hw.
Qed.

Lemma registered_live n D A w uid l :
  good n D A w -> sessions (w_hub w) !! uid = Some l -> l ∈ dom (w_sessions w).
Proof.
  intros Hw Hl. destruct (g_registered _ _ _ _ Hw uid l Hl) as (_ & s & Hs & _).
  by eapply elem_of_dom_2.
Qed.

Lemma set_hub_id w h : w_hub w = h -> set_hub h w = w.
Proof. intros <-. by destruct w. Qed.

Lemma read_sessions_run {B} n (f : Hub -> B) h :
  sessionsMu h = mkRW false n ->
  read_sessions f h = Ret (f (set_sessionsMu (mkRW false (S n)) h)) h.
Proof. intros Hmu. destruct h; simpl in *; by subst. Qed.

Lemma read_safe {B} n D A (f : Hub -> B) w :
  good n D A w ->
  safe (on_hub (read_sessions f))
    (fun b v => v = w /\ b = f (set_sessionsMu (mkRW false (S n)) (w_hub w))) w.
Proof.
  intros Hw. eapply safe_returns.
  { unfold on_hub, zoom. by rewrite (read_sessions_run n) by (by destruct Hw). }
  split; [by apply set_hub_id | done].
Qed.

Lemma maintains_read {B} n D A (f : Hub -> B) : maintains (good n D A) (on_hub (C := C) (read_sessions f)).
Proof. intros w Hw. eapply safe_mono; [by eapply read_safe |]. by intros b v [-> _]. Qed.

Lemma rlock_safe n D A w :
  good n D A w -> safe (on_hub (on_sessionsMu rw_rlock)) (fun _ => good (S n) D A) w.
Proof.
  intros Hw. pose proof (g_readers _ _ _ _ Hw) as Hrd.
  unfold safe, on_hub, on_sessionsMu, zoom, rw_rlock. rewrite Hrd. simpl. by destruct Hw.
Qed.

Lemma runlock_safe n D A w :
  good (S n) D A w -> safe (on_hub (on_sessionsMu rw_runlock)) (fun _ => good n D A) w.
Proof.
  intros Hw. pose proof (g_readers _ _ _ _ Hw) as Hrd.
  unfold safe, on_hub, on_sessionsMu, zoom, rw_runlock. rewrite Hrd. simpl. by destruct Hw.
Qed.

(** ** Tasks *)

Lemma send_all_safe n D A data l ids buf :
  l ∈ D -> maintains (good n D A) (send_all (C := C) data l ids buf).
Proof.
  intros Hl. revert buf. induction ids as [|id ids IH]; intros buf; [apply maintains_ret |].
  apply maintains_bind; [by apply Send_safe | intros; apply IH].
Qed.

Lemma broadcast_loop_safe n D A data targets buf :
  maintains (good n D A) (broadcast_loop (C := C) data targets buf).
Proof.
  revert buf. induction targets as [|[sid ids] targets IH]; intros buf; [apply maintains_ret |].
  intros w Hw. cbn [broadcast_loop]. apply safe_bind. eapply safe_mono; [by eapply read_safe |].
  intros session v [-> Hsession]. simpl in Hsession. subst session.
  destruct (sessions (w_hub w) !! sid) as [l|] eqn:Hl; [| by apply IH].
  apply safe_bind. eapply safe_mono; [apply (safe_found n D A _ w Hw), send_all_safe |].
  { by eapply registered_live. }
  intros buf' w' Hw'. by apply IH.
Qed.

(** The streams are locked for reading and released again. *)
Lemma streams_read_run {B} n D A (k : Hub -> M (World C) B) w (Q : B -> World C -> Prop) :
  good n D A w ->
  (forall h, safe (k h) Q w) ->
  safe (on_hub (on_streamsMu rw_rlock) ;;
        let! w := get in on_hub (on_streamsMu rw_runlock) ;; k (w_hub w)) Q w.
Proof.
  intros Hw Hk. destruct (g_hub _ _ _ _ Hw) as [r Hr].
  pose proof (im_streamsMu _ _ Hr) as Hm. simpl in Hm.
  eapply safe_step; [unfold on_hub, on_streamsMu, zoom, rw_rlock; by rewrite Hm |].
  eapply safe_step; [reflexivity |]. eapply safe_step; [reflexivity |].
  match goal with |- safe _ _ ?v => replace v with w; [apply Hk |] end.
  destruct w as [? ? h ? ? ? ?]; simpl in *. by open_hub h.
Qed.

Lemma run_broadcast_safe n D A stream data :
  maintains (good n D A) (run_broadcast (C := C) stream data).
Proof.
  intros w Hw.
  eapply (streams_read_run n D A (fun h => broadcast_loop data
    (range (streamSessionsSnapshot (default ∅ (streams h !! stream)))) ∅)); [done |].
  intros h. by apply broadcast_loop_safe.
Qed.

Lemma run_disconnect_safe n D A ids msg :
  maintains (good n D A) (run_disconnect (C := C) ids msg).
Proof.
  intros w Hw. apply safe_bind. eapply safe_mono; [by apply rlock_safe |]. intros ? w1 Hw1. simpl in Hw1.
  eapply safe_step; [reflexivity |]. apply safe_bind. eapply safe_mono.
  { apply (maintains_each (good (S n) D A)); [| exact Hw1]. intros id _ v Hv.
    eapply safe_step; [reflexivity |].
    destruct (sessions (w_hub v) !! id) as [l|] eqn:Hl; [| done].
    apply safe_found; [done |]. assert (l ∈ dom (w_sessions v)) by (by eapply registered_live).
    apply maintains_bind; [by apply Send_safe | intros _; by apply Session_Disconnect_safe]. }
  intros ? w2 Hw2. by apply runlock_safe.
Qed.

Lemma set_pool_safe n D A p : maintains (good n D A) (on_hub (C := C) (modify (fun h => set_pool (p h) h))).
Proof.
  intros w Hw. unfold safe, on_hub, zoom, modify. queues_only Hw.
Qed.

Lemma worker_safe n D A k : maintains (good n D A) (worker (C := C) k).
Proof.
  intros w Hw. eapply safe_step; [reflexivity |].
  destruct (pool_tasks (pool (w_hub w)) !! k) as [t|]; [| done].
  apply (maintains_bind (good n D A)); [| intros _; apply set_pool_safe | done].
  destruct t; [apply run_broadcast_safe | apply run_disconnect_safe].
Qed.

(** ** The loop *)

Lemma receive_registration_safe D A :
  maintains (good 0 D A) (receive (C := C) on_register handle_registration).
Proof.
  intros w Hw. unfold receive. apply safe_bind. unfold safe at 1, on_hub, on_register, zoom, chan_recv.
  pose proof (g_removals _ _ _ _ Hw) as Hrem.
  destruct (ch_buf (register (w_hub w))) as [|r rs] eqn:Hb; rewrite (g_register _ _ _ _ Hw); [done |].
  destruct (Hrem r) as [Hev Hlive]; [set_solver |].
  unfold handle_registration. rewrite Hev. simpl.
  apply (safe_found 0 D A); [| by apply removeSession_safe].
  destruct Hw. split; try done.
  - destruct g_hub as [rg Hr]. exists rg. by eapply implements_chans; [.. | exact Hr].
  - simpl. intros r' Hr'. apply g_removals. rewrite Hb. set_solver.
Qed.

Lemma handle_subscription_safe D A m :
  maintains (good 0 D A) (on_hub (C := C) (handle_subscription m)).
Proof.
  unfold handle_subscription.
  destruct (String.eqb _ "add"); [by apply (on_hub_cmd_safe D A (CmdSubscribe _ _ _)) |].
  destruct (String.eqb _ "removeAll"); [by apply (on_hub_cmd_safe D A (CmdUnsubscribeAll _ _)) |].
  by apply (on_hub_cmd_safe D A (CmdUnsubscribe _ _ _)).
Qed.

Lemma broadcastToStream_run stream data h :
  streamsMu h = rw_free ->
  broadcastToStream stream data h =
  match streams h !! stream with
  | None => Ret tt h
  | Some _ => Schedule (TaskBroadcast stream data) h
  end.
Proof.
  intros Hmu. open_hub h. unfold broadcastToStream, bind; simpl. by destruct (sts !! stream).
Qed.

Lemma broadcastToStream_safe n D A stream data :
  maintains (good n D A) (on_hub (C := C) (broadcastToStream stream data)).
Proof.
  intros w Hw. destruct (g_hub _ _ _ _ Hw) as [r Hr]. pose proof (im_streamsMu _ _ Hr) as Hm.
  unfold safe, on_hub, zoom. rewrite broadcastToStream_run by done.
  destruct (streams (w_hub w) !! stream); [by apply (Schedule_safe n D A) | by rewrite set_hub_id].
Qed.

Lemma disconnectSessions_safe n D A identifier reconnect :
  maintains (good n D A) (on_hub (C := C) (disconnectSessions identifier reconnect)).
Proof.
  intros w Hw. unfold safe, on_hub, zoom, disconnectSessions, bind.
  rewrite (read_sessions_run n) by (by destruct Hw). simpl.
  destruct (identifiers (w_hub w) !! identifier); [by apply (Schedule_safe n D A) |].
  simpl. by rewrite set_hub_id.
Qed.

Lemma recv_subscription_safe n D A :
  maintains (good n D A) (on_hub (C := C) (on_subscribe chan_recv)).
Proof.
  intros w Hw. unfold safe, on_hub, on_subscribe, zoom, chan_recv.
  destruct (ch_buf (subscribe (w_hub w))) as [|x xs]; rewrite (g_subscribe _ _ _ _ Hw); [done |].
  queues_only Hw.
Qed.

Lemma recv_broadcast_safe n D A :
  maintains (good n D A) (on_hub (C := C) (on_broadcast chan_recv)).
Proof.
  intros w Hw. unfold safe, on_hub, on_broadcast, zoom, chan_recv.
  destruct (ch_buf (broadcast (w_hub w))) as [|x xs]; rewrite (g_broadcast _ _ _ _ Hw); [done |].
  queues_only Hw.
Qed.

Lemma recv_disconnect_safe n D A :
  maintains (good n D A) (on_hub (C := C) (on_disconnect chan_recv)).
Proof.
  intros w Hw. unfold safe, on_hub, on_disconnect, zoom, chan_recv.
  destruct (ch_buf (disconnect (w_hub w))) as [|x xs]; rewrite (g_disconnect _ _ _ _ Hw); [done |].
  queues_only Hw.
Qed.

(** A receive from an open channel never finds it closed. *)
Lemma receive_safe {B} n D A (on : M (Chan B) (option B) -> M Hub (option B))
    (sel : Hub -> Chan B) (k : B -> M (World C) unit) :
  (forall h, ch_closed (sel h) = false -> safe (on chan_recv) (fun o _ => is_Some o) h) ->
  (forall w, good n D A w -> ch_closed (sel (w_hub w)) = false) ->
  maintains (good n D A) (on_hub (C := C) (on chan_recv)) ->
  (forall x, maintains (good n D A) (k x)) ->
  maintains (good n D A) (receive on k).
Proof.
  intros Hsome Hopen Hon Hk w Hw. unfold receive. apply safe_bind.
  specialize (Hon w Hw). specialize (Hsome (w_hub w) (Hopen w Hw)).
  unfold safe in Hon, Hsome |- *. unfold on_hub, zoom in *.
  destruct (on chan_recv (w_hub w)) as [[x|] h|? ?|? ?]; [by apply Hk | by destruct Hsome | done | done].
Qed.

Lemma Run_safe D A c : maintains (good 0 D A) (Run (C := C) c).
Proof.
  intros w Hw. unfold Run. eapply safe_step; [reflexivity |].
  destruct (running (w_hub w)); [| done]. cbn [negb]. revert w Hw. destruct c.
  - apply receive_registration_safe.
  - apply (receive_safe 0 D A on_subscribe subscribe);
      [| by intros w [] | apply recv_subscription_safe | apply handle_subscription_safe].
    intros h Hh. unfold safe, on_subscribe, zoom, chan_recv. rewrite Hh. by destruct (ch_buf _).
  - apply (receive_safe 0 D A on_broadcast broadcast);
      [| by intros w [] | apply recv_broadcast_safe | intros; apply broadcastToStream_safe].
    intros h Hh. unfold safe, on_broadcast, zoom, chan_recv. rewrite Hh. by destruct (ch_buf _).
  - apply (receive_safe 0 D A on_disconnect disconnect);
      [| by intros w [] | apply recv_disconnect_safe | intros; apply disconnectSessions_safe].
    intros h Hh. unfold safe, on_disconnect, zoom, chan_recv. rewrite Hh. by destruct (ch_buf _).
Qed.
End tasks_safe.

Section commands_safe.
Context {C : Type} `{LawfulController C} {order : GoRange}.
Implicit Types (l : loc) (w : World C) (s : Session) (D A : gset loc) (h : Hub).

(** ** Calls of the controller *)

Lemma on_ctl_good {B} n D A (m : M (Metrics * C) B) (Q : B -> Prop) w :
  call_safe ctl_fit m Q -> good n D A w ->
  safe (on_ctl m) (fun b w' => good n D A w' /\ w_sessions w' = w_sessions w /\ Q b) w.
Proof.
  intros Hm Hw. specialize (Hm (w_metrics w, w_ctl w) (g_ctl _ _ _ _ Hw)).
  unfold safe, on_ctl, zoom in *. destruct (m _) as [b [m' c']|? ?|? ?]; [| done | done].
  destruct Hm as (Hfit & Hgr & Hq). split; [| done].
  destruct Hw. split; try done. destruct g_metrics as [Hc Hg], Hgr. split; simpl in *; auto.
Qed.

(** A call made while the session at hand is locked. *)
Lemma on_ctl_put {B} (m : M (Metrics * C) B) l s w :
  on_ctl m (put_session l s w) =
  match on_ctl m w with
  | Ret b w' => Ret b (put_session l s w')
  | Block c w' => Block c (put_session l s w')
  | Panic c w' => Panic c (put_session l s w')
  end.
Proof. unfold on_ctl, zoom. simpl. by destruct (m (w_metrics w, w_ctl w)). Qed.

Lemma on_ctl_locked {B E} n D A (m : M (Metrics * C) B) (Q : B -> Prop) (k : B -> M (World C) E)
    (R : E -> World C -> Prop) l s w :
  call_safe ctl_fit m Q -> good n D A w ->
  (forall b w', good n D A w' -> w_sessions w' = w_sessions w -> Q b ->
     safe (k b) R (put_session l s w')) ->
  safe (bind (on_ctl m) k) R (put_session l s w).
Proof.
  intros Hm Hw Hk. pose proof (on_ctl_good n D A m Q w Hm Hw) as Hc.
  unfold safe, bind in *. rewrite on_ctl_put.
  destruct (on_ctl m w) as [b w'|? ?|? ?]; [| done | done]. destruct Hc as (? & ? & ?). by apply Hk.
Qed.

(** ** Replies *)

Lemma Node_Broadcast_safe n D A msg : maintains (good n D A) (Node_Broadcast (C := C) msg).
Proof.
  apply maintains_bind; [apply maintains_on_metrics; named | intros _; apply send_broadcast_safe].
Qed.

Lemma Node_RemoteDisconnect_safe n D A msg :
  maintains (good n D A) (Node_RemoteDisconnect (C := C) msg).
Proof.
  apply maintains_bind; [apply maintains_on_metrics; named | intros _; apply send_disconnect_safe].
Qed.

Lemma env_good e s :
  session_good s -> env_ok e -> Headers e = Headers (env s) -> session_good (set_env e s).
Proof. intros [[] ? ?] He Hh. split; [by split | done | simpl; by rewrite Hh]. Qed.

Lemma cstate_safe n D A l st :
  l ∈ D ->
  maintains (good n D A)
    (match st with
     | Some state =>
         on_session l lock_smu ;; on_env l (MergeConnectionState state) ;; on_session l unlock_smu
     | None => ret tt
     end).
Proof.
  intros Hl w Hw. destruct (good_lookup n D A l w Hw Hl) as (s & Hs & Hg).
  rewrite <- (put_session_id l s w Hs). pose proof Hg as [[] He Hh].
  eapply safe_returns; [by apply cstate_step |]. eapply good_put; [done | done | | done].
  apply env_good; [done | by apply merge_cstate_ok |]. unfold merge_cstate.
  by destruct st, (ConnectionState (env s)).
Qed.

Lemma istate_safe n D A l id st :
  l ∈ D ->
  maintains (good n D A)
    (match st with
     | Some state =>
         on_session l lock_smu ;; on_env l (MergeChannelState id state) ;; on_session l unlock_smu
     | None => ret tt
     end).
Proof.
  intros Hl w Hw. destruct (good_lookup n D A l w Hw Hl) as (s & Hs & Hg).
  rewrite <- (put_session_id l s w Hs). pose proof Hg as [[] He Hh].
  eapply safe_returns; [by apply istate_step |]. eapply good_put; [done | done | | done].
  apply env_good; [done | by apply merge_istate_ok |]. unfold merge_istate.
  by destruct st, (ChannelStates (env s)).
Qed.

Lemma handleCallReply_safe n D A l r : l ∈ D -> maintains (good n D A) (handleCallReply (C := C) l r).
Proof.
  intros Hl. apply maintains_bind; [by apply cstate_safe | intros _].
  apply maintains_bind; [apply maintains_each; intros; apply Node_Broadcast_safe | intros _].
  apply maintains_each. intros. by apply SendJSONTransmission_safe.
Qed.

Lemma handleCommandReply_safe D A l msg r :
  l ∈ D -> maintains (good 0 D A) (handleCommandReply (C := C) l msg r).
Proof.
  intros Hl. apply maintains_load; [done |]. intros s _.
  apply maintains_bind.
  { destruct (StopAllStreams r); [apply send_subscription_safe |].
    apply maintains_each. intros. apply send_subscription_safe. }
  intros _. apply maintains_bind.
  { apply maintains_each. intros. by apply (on_hub_cmd_safe D A (CmdSubscribe _ _ _)). }
  intros _. apply maintains_bind; [by apply istate_safe | intros _].
  apply maintains_bind; [by apply handleCallReply_safe | intros _].
  apply maintains_when. by apply Session_Disconnect_safe.
Qed.

(** ** Commands *)

Lemma reply_if_any_safe D A l msg r :
  l ∈ D -> maintains (good 0 D A) (reply_if_any (C := C) l msg r).
Proof. intros Hl. destruct r; [by apply handleCommandReply_safe | apply maintains_ret]. Qed.

Lemma finish_safe D A l msg (res : option CommandResult) (err : option error) :
  l ∈ D -> maintains (good 0 D A) (reply_if_any (C := C) l msg res ;; ret (res, err)).
Proof.
  intros Hl. apply maintains_bind; [by apply reply_if_any_safe | intros; apply maintains_ret].
Qed.

Lemma subs_good subs s : session_good s -> session_good (set_subscriptions subs s).
Proof. intros [[] ? ?]. by split. Qed.

Lemma set_smu_back s : smu s = false -> set_smu false (set_smu true s) = s.
Proof. destruct s; simpl. by intros ->. Qed.

Lemma Subscribe_safe D A l msg : l ∈ D -> maintains (good 0 D A) (Subscribe (C := C) l msg).
Proof.
  intros Hl w Hw. destruct (good_lookup 0 D A l w Hw Hl) as (s & Hs & Hg).
  rewrite <- (put_session_id l s w Hs). pose proof Hg as [[Hmu Hsmu Hop Hroom] He Hh].
  unfold safe, Subscribe. step. step.
  change (subscriptions (set_smu true s)) with (subscriptions s).
  destruct (subscriptions s !! Identifier msg).
  { step. by rewrite set_smu_back, put_session_id. }
  eapply (on_ctl_locked 0 D A); [by apply law_Subscribe | done |].
  intros [res err] w' Hw' Hsess _. rewrite <- Hsess in Hs. unfold safe. destruct err as [e|].
  - erewrite bind_ret_eq by reflexivity. step. rewrite set_smu_back, put_session_id by done.
    by apply finish_safe.
  - erewrite bind_ret_eq by apply modify_put. step. apply finish_safe; [done |].
    eapply good_put; [done | done | | by destruct s].
    pose proof (subs_good (<[Identifier msg := true]> (subscriptions s)) s Hg).
    by destruct s; simpl in *; subst.
Qed.

Lemma Unsubscribe_safe D A l msg : l ∈ D -> maintains (good 0 D A) (Unsubscribe (C := C) l msg).
Proof.
  intros Hl w Hw. destruct (good_lookup 0 D A l w Hw Hl) as (s & Hs & Hg).
  rewrite <- (put_session_id l s w Hs). pose proof Hg as [[Hmu Hsmu Hop Hroom] He Hh].
  unfold safe, Unsubscribe. step. step.
  change (subscriptions (set_smu true s)) with (subscriptions s).
  destruct (subscriptions s !! Identifier msg).
  2: { step. by rewrite set_smu_back, put_session_id. }
  eapply (on_ctl_locked 0 D A); [by apply law_Unsubscribe | done |].
  intros [res err] w' Hw' Hsess Hans. rewrite <- Hsess in Hs. unfold safe. destruct err as [e|].
  - erewrite bind_ret_eq by reflexivity. step. rewrite set_smu_back, put_session_id by done.
    by apply finish_safe.
  - destruct (Hans eq_refl) as [r Hr]. simpl in Hr. subst res.
    erewrite bind_ret_eq by (step; reflexivity). step. apply finish_safe; [done |].
    eapply good_put; [done | done | | by destruct s].
    pose proof (subs_good (delete (Identifier msg) (subscriptions s)) s Hg).
    by destruct s; simpl in *; subst.
Qed.

Lemma Perform_safe D A l msg : l ∈ D -> maintains (good 0 D A) (Perform (C := C) l msg).
Proof.
  intros Hl w Hw. destruct (good_lookup 0 D A l w Hw Hl) as (s & Hs & Hg).
  rewrite <- (put_session_id l s w Hs). pose proof Hg as [[Hmu Hsmu Hop Hroom] He Hh].
  unfold safe, Perform. step. step.
  change (subscriptions (set_smu true s)) with (subscriptions s).
  destruct (subscriptions s !! Identifier msg).
  2: { step. by rewrite set_smu_back, put_session_id. }
  step. rewrite set_smu_back, put_session_id by done.
  destruct (msg_Data msg); try done.
  match goal with |- match ?m ?w0 with _ => _ end =>
    change (safe m (fun _ => good 0 D A) w0) end.
  apply safe_bind. eapply safe_mono; [by apply (on_ctl_good 0 D A _ answered), Hw; apply law_Perform |].
  intros [res err] w' (Hw' & _ & _). by apply finish_safe.
Qed.

Lemma HandleCommand_safe D A l msg : l ∈ D -> maintains (good 0 D A) (HandleCommand (C := C) l msg).
Proof.
  intros Hl. unfold HandleCommand. repeat case_match; try apply maintains_ret.
  all: apply maintains_bind; [| intros []; apply maintains_ret].
  - by apply Subscribe_safe.
  - by apply Unsubscribe_safe.
  - by apply Perform_safe.
Qed.
End commands_safe.

Section node_safe.
Context {C : Type} `{LawfulController C} {order : GoRange}.
Implicit Types (l : loc) (w : World C) (s : Session) (D A : gset loc) (h : Hub).

(** ** Connecting *)

(** The controller let the session in. *)
Definition admitted (r : option ConnectResult * option error) : bool :=
  match r with
  | (Some cr, None) => (con_Status cr =? SUCCESS)%Z
  | _ => false
  end.

Lemma Authenticate_safe D A l w :
  l ∈ D -> good 0 D A w ->
  safe (Authenticate l) (fun r => good 0 D (if admitted r then {[ l ]} ∪ A else A)) w.
Proof.
  intros Hl Hw. destruct (good_lookup 0 D A l w Hw Hl) as (s & Hs & Hg).
  eapply safe_step; [unfold load; by rewrite Hs |].
  apply safe_bind. eapply safe_mono.
  { apply (on_ctl_good 0 D A _ answered); [apply law_Authenticate; by destruct Hg | done]. }
  intros [res err] w1 (Hw1 & _ & Hans). destruct err as [e|].
  { apply safe_bind. eapply safe_mono; [by apply (Session_Disconnect_safe 0 D A) |].
    intros ? w' Hw'. by destruct res. }
  destruct (Hans eq_refl) as [r Hr]. simpl in Hr. subst res.
  assert (Hmod : forall B f, (forall s, session_good s -> session_good (f s) /\ UID (f s) = UID s) ->
    maintains (good 0 D B) (on_session (C := C) l (modify f))).
  { intros B f Hf. by apply maintains_modify. }
  destruct (con_Status r =? SUCCESS)%Z eqn:Hst.
  - apply (good_admit 0 D A ({[ l ]} ∪ A)) in Hw1; [| set_solver].
    eapply (safe_then (good 0 D ({[ l ]} ∪ A))); [done | apply Hmod; intros s' [[] ? ?]; by split |].
    intros _ w2 Hw2.
    eapply (safe_then (good 0 D ({[ l ]} ∪ A))); [done | apply Hmod; intros s' [[] ? ?]; by split |].
    intros _ w3 Hw3.
    eapply (safe_then (good 0 D ({[ l ]} ∪ A))); [done | apply addSession_safe; set_solver |].
    intros _ w4 Hw4.
    eapply (safe_then (good 0 D ({[ l ]} ∪ A))); [done | by apply handleCallReply_safe |].
    intros _ w5 Hw5. unfold safe; simpl. by rewrite Hst.
  - eapply (safe_then (good 0 D A)); [done | apply maintains_when, maintains_on_metrics; named |].
    intros _ w2 Hw2. eapply (safe_then (good 0 D A)); [done | by apply handleCallReply_safe |].
    intros _ w3 Hw3. eapply (safe_then (good 0 D A)); [done | by apply Session_Disconnect_safe |].
    intros _ w4 Hw4. unfold safe; simpl. by rewrite Hst.
Qed.

(** ** Pub/sub and the disconnect queue *)

Lemma HandlePubSub_safe n D A raw : maintains (good n D A) (HandlePubSub (C := C) raw).
Proof.
  unfold HandlePubSub. destruct (PubSubMessageFromJSON raw) as [[m|m]|e].
  - apply Node_Broadcast_safe.
  - apply Node_RemoteDisconnect_safe.
  - apply maintains_on_metrics; named.
Qed.

Lemma DisconnectNow_safe n D A l : l ∈ D -> maintains (good n D A) (DisconnectNow (C := C) l).
Proof.
  intros Hl. apply maintains_load; [done |]. intros s Hs w Hw.
  eapply safe_mono; [apply (on_ctl_good n D A _ (fun _ => True)); [| exact Hw] |].
  - apply law_Disconnect. by destruct Hs.
  - by intros b w' (? & _ & _).
Qed.

(** The disconnector is left alone by calls of the controller. *)
Lemma DisconnectNow_safe_at n D A l w :
  good n D A w -> l ∈ dom (w_sessions w) ->
  safe (DisconnectNow l) (fun _ w' => good n D A w' /\ w_disconnector w' = w_disconnector w) w.
Proof.
  intros Hw Hl. pose proof (safe_found n D A (DisconnectNow l) w Hw
    ltac:(by apply DisconnectNow_safe)) as Hs.
  apply elem_of_dom in Hl as [s Hl]. unfold safe, DisconnectNow, bind, load, on_ctl, zoom in *.
  rewrite Hl in *. by destruct (ctl_Disconnect _ _ _ _ _).
Qed.

Lemma good_queue n D A w q :
  good n D A w -> disconnector_ok (dom (w_sessions w)) (DQueue q) ->
  good n D A (set_disconnector (Some (DQueue q)) w).
Proof. intros [] Hq. split; try done. by exists (DQueue q). Qed.

(** The node has a queue, and it is in order. *)
Definition has_queue w : Prop := exists q, w_disconnector w = Some (DQueue q).

Lemma good_has_queue n D A w :
  good n D A w -> has_queue w ->
  exists q, w_disconnector w = Some (DQueue q) /\ disconnector_ok (dom (w_sessions w)) (DQueue q).
Proof.
  intros Hw [q Hq]. destruct (g_disconnector _ _ _ _ Hw) as (d & Hd & Hok). simplify_eq. eauto.
Qed.

Lemma dq_recv n D A w q :
  good n D A w -> w_disconnector w = Some (DQueue q) ->
  safe (on_dq (on_dq_disconnect chan_recv))
    (fun o w' => good n D A w' /\ w_sessions w' = w_sessions w /\ has_queue w' /\
       exists l, o = Some l /\ l ∈ dom (w_sessions w)) w.
Proof.
  intros Hw Hq. destruct (good_has_queue n D A w Hw) as (q' & Hq' & Hm & Hc & Hs & Hin); [by exists q |].
  simplify_eq. unfold safe, on_dq. rewrite Hq. unfold on_dq_disconnect, zoom, chan_recv.
  destruct (ch_buf (dq_disconnect q)) as [|l ls] eqn:Hb; rewrite Hc; [done |].
  split_and!; [| done | by eexists | exists l; split; [done | apply Hin; set_solver]].
  apply good_queue; [done |]. simpl. split_and!; try done. intros k Hk. apply Hin. set_solver.
Qed.

Lemma DisconnectQueue_Run_session_safe n D A w :
  good n D A w -> has_queue w ->
  safe DisconnectQueue_Run_session (fun _ => good n D A) w.
Proof.
  intros Hw [q Hq]. apply safe_bind. eapply safe_mono; [by apply (dq_recv n D A w q) |].
  intros o w' (Hw' & Hsess & _ & l & -> & Hl). apply (safe_found n D A); [done |].
  apply maintains_bind; [apply DisconnectNow_safe; by rewrite Hsess | intros; apply maintains_ret].
Qed.

Lemma DisconnectQueue_Run_shutdown_safe n D A w :
  good n D A w -> has_queue w ->
  safe DisconnectQueue_Run_shutdown (fun _ => good n D A) w.
Proof.
  intros Hw Hq. destruct (good_has_queue n D A w Hw Hq) as (q & Hd & Hm & Hc & Hs & Hin).
  apply safe_bind. unfold safe, on_dq. rewrite Hd. unfold on_dq_shutdown, zoom, chan_recv.
  destruct (ch_buf (dq_shutdown q)) as [|u us]; rewrite Hs; [done |].
  apply good_queue; [done |]. done.
Qed.

Lemma set_disconnector_id w d : w_disconnector w = d -> set_disconnector d w = w.
Proof. intros <-. by destruct w. Qed.

Lemma DisconnectQueue_drain_safe n D A k w :
  good n D A w -> has_queue w -> safe (DisconnectQueue_drain k) (fun _ => good n D A) w.
Proof.
  revert w. induction k as [|k IH]; intros w Hw [q Hq]; [done |]. cbn [DisconnectQueue_drain].
  eapply safe_step; [unfold on_dq; rewrite Hq; reflexivity |].
  rewrite set_disconnector_id by done.
  destruct (ch_buf (dq_disconnect q)) as [|l0 ls]; [done |].
  apply safe_bind. eapply safe_mono; [by apply (dq_recv n D A w q) |].
  intros o w' (Hw' & Hsess & Hq' & l & -> & Hl).
  apply safe_bind. eapply safe_mono; [apply (DisconnectNow_safe_at n D A l w' Hw'); by rewrite Hsess |].
  intros [e|] w2 [Hw2 Hq2]; [done |]. apply IH; [done |]. unfold has_queue. by rewrite Hq2.
Qed.

Lemma DisconnectQueue_Shutdown_safe n D A w :
  good n D A w -> has_queue w -> safe DisconnectQueue_Shutdown (fun _ => good n D A) w.
Proof.
  intros Hw Hq. destruct (good_has_queue n D A w Hw Hq) as (q & Hd & Hm & Hc & Hs & Hin).
  unfold DisconnectQueue_Shutdown.
  eapply safe_step; [unfold on_dq, on_dq_mu, zoom, lock; rewrite Hd, Hm; reflexivity |].
  eapply safe_step; [reflexivity |]. cbn [dq_isStopped].
  destruct (dq_isStopped q) eqn:Hst.
  { eapply safe_step; [reflexivity |]. by apply (good_queue n D A w). }
  eapply safe_step; [reflexivity |]. unfold bind at 1, safe, on_dq at 1; simpl.
  unfold on_dq_shutdown, zoom, chan_send; simpl. rewrite Hs.
  destruct (chan_full (dq_shutdown q)); [done |]. simpl.
  match goal with |- match ?m ?w0 with _ => _ end => change (safe m (fun _ => good n D A) w0) end.
  eapply safe_step; [reflexivity |]. eapply safe_step; [reflexivity |].
  apply DisconnectQueue_drain_safe; [| by eexists].
  by apply (good_queue n D A w).
Qed.

(** ** Statistics and shutdown *)

Lemma StreamsSize_safe n D A : maintains (good n D A) (on_hub (C := C) StreamsSize).
Proof.
  intros w Hw. destruct (g_hub _ _ _ _ Hw) as [r Hr]. pose proof (im_streamsMu _ _ Hr) as Hm.
  apply (safe_returns _ _ _ (Z.of_nat (size (streams (w_hub w)))) w); [| exact Hw].
  clear Hw Hr. unfold on_hub, zoom. destruct w as [? ? h ? ? ? ?]; simpl in *. by open_hub h.
Qed.

Lemma Disconnector_Size_safe n D A : maintains (good n D A) (Disconnector_Size (C := C)).
Proof.
  intros w Hw. destruct (g_disconnector _ _ _ _ Hw) as (d & Hd & _).
  unfold safe, Disconnector_Size. rewrite Hd. by destruct d.
Qed.

Lemma collectStatsOnce_safe n D A goroutines sys :
  maintains (good n D A) (collectStatsOnce (C := C) goroutines sys).
Proof.
  unfold collectStatsOnce.
  repeat (apply maintains_bind; [| intros];
    first [apply maintains_gauge; named | apply maintains_read | apply StreamsSize_safe
          | apply Disconnector_Size_safe | idtac]).
Qed.

Lemma Hub_Shutdown_safe n D A : maintains (good n D A) (on_hub (C := C) Hub_Shutdown).
Proof.
  intros w Hw. unfold safe, on_hub, zoom, Hub_Shutdown. destruct (running (w_hub w)); [| done].
  queues_only Hw.
Qed.

Lemma close_all_safe n D A msg w :
  good n D A w ->
  safe (on_hub (on_sessionsMu rw_rlock) ;;
        let! w := get in
        each (fun kv => close_session msg kv.2) (range (sessions (w_hub w))) ;;
        on_hub (on_sessionsMu rw_runlock)) (fun _ => good n D A) w.
Proof.
  intros Hw. apply safe_bind. eapply safe_mono; [by apply rlock_safe |]. intros ? w1 Hw1. simpl in Hw1.
  eapply safe_step; [reflexivity |]. apply safe_bind. eapply safe_mono.
  { apply (safe_found (S n) D A _ w1 Hw1), maintains_each. intros [uid l] Hin.
    assert (l ∈ dom (w_sessions w1)) by (apply elem_of_range in Hin; by eapply registered_live).
    apply maintains_bind; [by apply Send_safe | intros _; by apply Session_Disconnect_safe]. }
  intros ? w2 Hw2. by apply runlock_safe.
Qed.

Lemma Disconnector_Shutdown_safe n D A : maintains (good n D A) (Disconnector_Shutdown (C := C)).
Proof.
  intros w Hw. destruct (g_disconnector _ _ _ _ Hw) as (d & Hd & _).
  unfold safe, Disconnector_Shutdown. rewrite Hd. destruct d as [q|]; [| done].
  apply DisconnectQueue_Shutdown_safe; [done | by exists q].
Qed.

Lemma Node_Shutdown_safe n D A : maintains (good n D A) (Node_Shutdown (C := C)).
Proof.
  intros w Hw. unfold Node_Shutdown. eapply safe_step; [reflexivity |].
  destruct (w_shutdownCh w); cbn [negb]; [| done].
  eapply safe_step; [reflexivity |].
  apply (maintains_bind (good n D A)); [apply Hub_Shutdown_safe | intros _ | by destruct Hw].
  apply maintains_bind; [apply maintains_read | intros active].
  apply maintains_bind; [apply maintains_when; intros v Hv; by apply close_all_safe | intros _].
  apply maintains_get. intros v Hv. apply maintains_bind.
  { destruct (w_disconnector v); [| apply maintains_ret].
    apply maintains_bind; [apply Disconnector_Shutdown_safe | intros; apply maintains_ret]. }
  intros _. apply maintains_bind; [| intros; apply maintains_ret].
  intros u Hu. eapply safe_mono; [by apply (on_ctl_good n D A _ (fun _ => True)), Hu; apply law_Shutdown |].
  by intros b w' (? & _ & _).
Qed.
End node_safe.
