(* ===== verification/RpcLaws.v ===== *)
(** * The RPC controller keeps the laws of a controller

    [src/rpc/rpc.go] implements the controller interface of the node. A controller
    that has its metrics registered, and a client once it has a semaphore, never
    panics for a session with headers, whatever the remote side answers. *)

From Stdlib Require Import ZArith Lia Ascii String.
From stdpp Require Import base gmap strings list fin_maps.
From S2P Require Import Prelude Json Common Protocol Metrics Rpc RpcProps.
From S2P Require Import Encoders World Session Hub HubSpec Node NodeShutdown NodeSafe.

Local Open Scope string_scope.

#[export] Instance rpc_controller {R} `{Remote R} : Controller (RpcController R) := {|
  ctl_Authenticate := rpc_Authenticate;
  ctl_Subscribe := rpc_Subscribe;
  ctl_Unsubscribe := rpc_Unsubscribe;
  ctl_Perform := rpc_Perform;
  ctl_Disconnect := rpc_Disconnect;
  ctl_Shutdown := rpc_Shutdown
|}.

Section laws.
Context {R : Type} `{Remote R}.
Implicit Types (m : Metrics) (c : RpcController R) (st : Metrics * RpcController R).

Definition rpc_counters : list string := [metricsRPCCalls; metricsRPCRetries; metricsRPCFailures].

(** A controller before [Start] has no semaphore: calls wait for ever. *)
Record rpc_fit m c : Prop := {
  rf_counters : forall n, n ∈ rpc_counters -> is_Some (counters m !! n);
  rf_gauge : is_Some (gauges m !! metricsRPCPending);
  rf_helper : forall h, rc_clientState c = Some h -> helper_mu h = false;
  rf_sem : forall ch, rc_sem c = Some ch -> ch_closed ch = false /\ is_Some (rc_clientState c)
}.

(** The state of a call, for the metrics it started with; and when it holds a
    ticket. *)
Definition in_call m0 st : Prop := rpc_fit st.1 st.2 /\ grows m0 st.1.
Definition ticketed_call m0 st : Prop := in_call m0 st /\ helper_ok st.2.

Lemma grows_refl m : grows m m.
Proof. by split. Qed.

Lemma grows_trans m1 m2 m3 : grows m1 m2 -> grows m2 m3 -> grows m1 m3.
Proof. intros [] []. split; auto. Qed.

Lemma rpc_fit_grows m m' c : rpc_fit m c -> grows m m' -> rpc_fit m' c.
Proof. intros [] [Hc Hg]. split; auto. Qed.

Lemma in_call_metrics m0 m m' c : in_call m0 (m, c) -> grows m m' -> in_call m0 (m', c).
Proof.
  intros [Hf Hg] Hgr. split; [by eapply rpc_fit_grows | by eapply grows_trans].
Qed.

(** ** Steps *)

Lemma counter_grows f name m x :
  counters m !! name = Some x ->
  grows m (mkMetrics (<[name := f x]> (counters m)) (gauges m)).
Proof. intros Hc. split; [| done]. intros n Hn. simpl. rewrite lookup_insert. case_decide; eauto. Qed.

Lemma gauge_grows f name m g :
  gauges m !! name = Some g ->
  grows m (mkMetrics (counters m) (<[name := f g]> (gauges m))).
Proof. intros Hc. split; [done |]. intros n Hn. simpl. rewrite lookup_insert. case_decide; eauto. Qed.

Lemma count_safe m0 name :
  name ∈ rpc_counters ->
  maintains (ticketed_call m0) (on_rpc_metrics (R := R) (counter_inc name)).
Proof.
  intros Hn [m c] [Hc Hh]. destruct (rf_counters _ _ (proj1 Hc) name Hn) as [x Hx]. simpl in Hx.
  unfold safe, on_rpc_metrics, zoom, counter_inc, on_counter; simpl. rewrite Hx.
  split; [| done]. by eapply in_call_metrics, counter_grows.
Qed.

Lemma pending_safe m0 f :
  maintains (in_call m0) (on_rpc_metrics (R := R) (on_gauge f metricsRPCPending)).
Proof.
  intros [m c] Hc. destruct (rf_gauge _ _ (proj1 Hc)) as [g Hg]. simpl in Hg.
  unfold safe, on_rpc_metrics, zoom, on_gauge; simpl. rewrite Hg.
  by eapply in_call_metrics, gauge_grows.
Qed.

Lemma fit_helper m c : rpc_fit m c -> is_Some (rc_clientState c) -> helper_ok c.
Proof.
  intros Hf [[b mu] Hh]. exists b. rewrite Hh. by rewrite <- (rf_helper _ _ Hf _ Hh).
Qed.

(** A ticket is only handed out by a controller that has been started. *)
Lemma ticket_safe m0 st :
  in_call m0 st ->
  safe (on_rpc (R := R) (on_sem chan_recv)) (fun _ st' => ticketed_call m0 st') st.
Proof.
  destruct st as [m c]. intros [Hf Hg]. unfold safe, on_rpc, zoom, on_sem; simpl in *.
  destruct (rc_sem c) as [ch|] eqn:Hs; [| done].
  destruct (rf_sem _ _ Hf ch Hs) as [Hopen Hcl]. pose proof (fit_helper _ _ Hf Hcl) as Hh.
  unfold zoom, chan_recv. destruct (ch_buf ch) as [|u us]; rewrite Hopen; [done |].
  split; [| exact Hh]. split; [| done]. destruct Hf. split; try done; simpl.
  by intros ch' [= <-].
Qed.

Lemma give_back_safe m0 st :
  in_call m0 st ->
  safe (on_rpc (R := R) (on_sem (chan_send tt))) (fun _ st' => in_call m0 st') st.
Proof.
  destruct st as [m c]. intros [Hf Hg]. unfold safe, on_rpc, zoom, on_sem; simpl in *.
  destruct (rc_sem c) as [ch|] eqn:Hs; [| done].
  destruct (rf_sem _ _ Hf ch Hs) as [Hopen Hcl]. unfold zoom, chan_send. rewrite Hopen.
  destruct (chan_full ch); [done |]. split; [| done]. destruct Hf. split; try done; simpl.
  by intros ch' [= <-].
Qed.

Lemma with_ticket_safe {A} m0 (body : M (Metrics * RpcController R) A) (Q : A -> Prop) st :
  in_call m0 st ->
  (forall st, ticketed_call m0 st -> safe body (fun a st' => ticketed_call m0 st' /\ Q a) st) ->
  safe (with_ticket body) (fun a st' => in_call m0 st' /\ Q a) st.
Proof.
  intros Hst Hbody. eapply (safe_then (in_call m0)); [done | apply pending_safe |]. intros ?u st1 H1.
  apply safe_bind. eapply safe_mono; [by apply (ticket_safe m0) |]. intros ?u st2 H2.
  eapply (safe_then (ticketed_call m0)); [done | |].
  { intros st' [Hc Hh]. pose proof (pending_safe m0 Gauge_Dec st' Hc) as Hp. destruct st' as [m c].
    unfold safe, on_rpc_metrics, zoom in *. destruct (on_gauge _ _ _); done. }
  intros ?u st3 H3. apply safe_bind. eapply safe_mono; [by apply Hbody |].
  intros x st4 [[H4 _] Hq]. apply safe_bind. eapply safe_mono; [by apply (give_back_safe m0) |].
  by intros ?u st5 H5.
Qed.

(** A retried call. *)
Lemma retry_safe {A} m0 (callback : M (RpcController R) (result A)) :
  well_behaved callback -> maintains (ticketed_call m0) (retry callback).
Proof.
  intros Hcb [m c] [[Hf Hg] Hh]. simpl in *.
  destruct (retry_ok callback m c Hcb Hh) as (r & m' & c' & Hrun & [F1 F2 F3 F4] & [O1 O2 O3] & _).
  { apply (rf_counters _ _ Hf). set_solver. }
  eapply safe_returns; [exact Hrun |]. simpl in *.
  assert (Hgr : grows m m').
  { split; [| by rewrite O1]. intros n Hn. destruct (decide (n = metricsRPCRetries)) as [->|Hne];
      [done | by rewrite O2]. }
  split; [| done]. split; [| by eapply grows_trans]. destruct Hf, Hgr. split; simpl; auto.
  - intros h Hcs. destruct F4 as [b Hb]. by simplify_eq.
  - intros ch Hs. rewrite F2 in Hs. destruct (rf_sem0 ch Hs). split; [done |]. destruct F4 as [b ->]. eauto.
Qed.

Ltac named_rpc := match goal with |- ?P => exact (bool_decide_eq_true_1 P eq_refl) end.

(** ** The calls *)

Lemma call_starts m c : rpc_fit m c -> in_call m (m, c).
Proof. split; [done | apply grows_refl]. Qed.

Lemma Authenticate_lawful sid env :
  is_Some (Headers env) -> call_safe rpc_fit (rpc_Authenticate sid env) answered.
Proof.
  intros Hh [m c] Hf. destruct (requests_build (W := RpcController R) env Hh) as ([b Hb] & _ & _).
  eapply safe_mono; [apply (with_ticket_safe m _ answered); [by apply call_starts |] |].
  2: { intros a st' [[? ?] ?]. done. }
  intros st Hst. eapply (safe_then (ticketed_call m)); [done | apply count_safe; named_rpc |].
  intros _ st1 H1. eapply (safe_then (ticketed_call m)); [done | |].
  { apply retry_safe. by eapply call_well_behaved. }
  intros [r|err] st2 H2.
  - unfold safe; simpl. split; [done |]. unfold ParseConnectResponse, answered.
    repeat case_match; simpl; eauto.
  - eapply (safe_then (ticketed_call m)); [done | apply count_safe; named_rpc |]. by intros _ st3 H3.
Qed.

Lemma command_lawful sid env command id channel data :
  is_Some (Headers env) -> call_safe rpc_fit (command_call sid env command id channel data) answered.
Proof.
  intros Hh [m c] Hf. destruct (requests_build (W := RpcController R) env Hh) as (_ & Hb & _).
  destruct (Hb command channel id data) as [b Hb']. clear Hb.
  eapply safe_mono; [apply (with_ticket_safe m _ answered); [by apply call_starts |] |].
  2: { intros a st' [[? ?] ?]. done. }
  intros st Hst. eapply (safe_then (ticketed_call m)); [done | |].
  { apply retry_safe. by eapply call_well_behaved. }
  intros r st1 H1.
  eapply (safe_then (ticketed_call m)); [done | apply count_safe; named_rpc |]. intros _ st2 H2.
  destruct r as [r|err].
  - unfold safe; simpl. split; [done |]. unfold ParseCommandResponse, answered.
    repeat case_match; simpl; eauto.
  - eapply (safe_then (ticketed_call m)); [done | apply count_safe; named_rpc |]. by intros _ st3 H3.
Qed.

Lemma Disconnect_lawful sid env id subs :
  is_Some (Headers env) -> call_safe rpc_fit (rpc_Disconnect sid env id subs) (fun _ => True).
Proof.
  intros Hh [m c] Hf. destruct (requests_build (W := RpcController R) env Hh) as (_ & _ & Hb).
  destruct (Hb id subs) as [b Hb']. clear Hb.
  eapply safe_mono; [apply (with_ticket_safe m _ (fun _ => True)); [by apply call_starts |] |].
  2: { intros a st' [[? ?] ?]. done. }
  intros st Hst. eapply (safe_then (ticketed_call m)); [done | apply count_safe; named_rpc |].
  intros _ st1 H1. eapply (safe_then (ticketed_call m)); [done | |].
  { apply retry_safe. by eapply call_well_behaved. }
  intros [r|err] st2 H2; [destruct (ParseDisconnectResponse r); [| done] |].
  all: eapply (safe_then (ticketed_call m)); [done | apply count_safe; named_rpc |]; by intros _ st3 H3.
Qed.

Lemma Shutdown_lawful : call_safe rpc_fit (rpc_Shutdown (R := R)) (fun _ => True).
Proof.
  intros [m c] Hf. unfold rpc_Shutdown. eapply safe_step; [reflexivity |]. simpl in *.
  destruct (rc_clientState c) as [h|] eqn:Hc; [| split; [done | split; [apply grows_refl | done]]].
  assert (Ht : ticketed_call m (m, c)).
  { split; [by apply call_starts | apply (fit_helper m c Hf); eauto]. }
  eapply (safe_then (ticketed_call m)); [done | apply retry_safe |].
  { intros c' Hc'. unfold bind, get. destruct (0 <? busy c')%Z; do 2 eexists; (split; [reflexivity |]);
      by split. }
  intros res [m' c'] [[Hf' Hg'] Hh']. unfold safe, bind, on_rpc, zoom, call; simpl in *.
  split; [| done]. by destruct Hf'.
Qed.

#[export] Instance rpc_lawful : LawfulController (RpcController R) := {|
  ctl_fit := rpc_fit;
  ctl_fit_grows := rpc_fit_grows;
  law_Authenticate := Authenticate_lawful;
  law_Subscribe := fun sid env id channel => command_lawful sid env "subscribe" id channel EmptyString;
  law_Unsubscribe := fun sid env id channel => command_lawful sid env "unsubscribe" id channel EmptyString;
  law_Perform := fun sid env id channel data => command_lawful sid env "message" id channel data;
  law_Disconnect := Disconnect_lawful;
  law_Shutdown := Shutdown_lawful
|}.

(** A controller as [NewController] makes it, and as [Start] leaves it when the
    dialer succeeds, is fit for the node. *)
Lemma NewController_fit concurrency (r : R) m :
  let '(m', c) := NewController concurrency r m in rpc_fit m' c.
Proof.
  split; try done; simpl.
  - intros n Hn. unfold rpc_counters in Hn. rewrite !elem_of_cons, elem_of_nil in Hn.
    destruct Hn as [-> | [-> | [-> | []]]]; simplify_map_eq; eauto.
  - rewrite lookup_insert_eq. eauto.
Qed.

(** A ready controller returns from Disconnect, whatever the remote side answers, and is
    ready again. *)
Lemma ready_fit m c free : rpc_ready m c free -> rpc_fit m c.
Proof.
  intros [[b Hh] H1 H2 H3 (g & Hg & _) (cap & Hsem & _)]. split.
  - intros n Hn. unfold rpc_counters in Hn. rewrite !elem_of_cons, elem_of_nil in Hn.
    by destruct Hn as [->|[->|[->|[]]]].
  - by exists g.
  - intros h Heq. rewrite Hh in Heq. by injection Heq as <-.
  - intros ch Heq. rewrite Hsem in Heq. injection Heq as <-. split; [done | by rewrite Hh].
Qed.

Lemma rpc_Disconnect_returns sid env id subs m c :
  is_Some (Headers env) -> (exists free, rpc_ready m c free) ->
  exists e m' c', ctl_Disconnect sid env id subs (m, c) = Ret e (m', c') /\ exists free, rpc_ready m' c' free.
Proof.
  intros Hh [free Hr]. destruct (Disconnect_done sid env id subs m c free Hr Hh) as (e & m' & c' & Hrun & [D1 D2 [D3 D4 _] _]).
  pose proof (Disconnect_lawful sid env id subs Hh (m, c) (ready_fit m c free Hr)) as Hlaw. unfold safe in Hlaw.
  simpl in Hlaw. rewrite Hrun in Hlaw. destruct Hlaw as (_ & [Hgc _] & _). simpl in Hgc.
  exists e, m', c'. split; [exact Hrun |]. exists free. destruct Hr as [H1 H2 H3 H4 H5 H6].
  split; [done | auto | auto | auto | by rewrite D3 | by rewrite D1].
Qed.
End laws.
