(* ===== verification/QueueRace.v ===== *)
(** * The disconnect queue under concurrency

    The disconnect queue ([src/node/disconnect_queue.go]) is used by the goroutines of the
    sessions, which enqueue, by its own goroutine, which reports one session per tick, and by
    the one that shuts the node down. Here these are sequences of atomic actions, and the
    theorems hold for every interleaving: a session that was accepted is reported at most
    once and never lost, and nobody waits for ever. *)

From Stdlib Require Import ZArith Lia Ascii String.
From stdpp Require Import base gmap strings list fin_maps.
From S2P Require Import Prelude Threads Json Common Metrics Encoders World Session SessionSafety Hub Node NodeShutdown NodeProps.
From S2P Require Import Protocol Rpc RpcProps NodeSafe RpcLaws.

Local Open Scope string_scope.
Local Open Scope proc_scope.

(** What has happened so far: the sessions the queue accepted, those that were reported to
    the controller, what the calls of [Shutdown] returned, and whether the goroutine of the
    queue has made all the iterations that are looked at. *)
Record QLog : Type := mkQLog {
  ql_accepted : list loc;
  ql_reported : list loc;
  ql_outcomes : list (option error);
  ql_tired : bool
}.
Definition no_log : QLog := mkQLog [] [] [] false.
Definition log_accepted (l : loc) (g : QLog) : QLog :=
  mkQLog (l :: ql_accepted g) (ql_reported g) (ql_outcomes g) (ql_tired g).
Definition log_reported (l : loc) (g : QLog) : QLog :=
  mkQLog (ql_accepted g) (l :: ql_reported g) (ql_outcomes g) (ql_tired g).
Definition log_outcome (e : option error) (g : QLog) : QLog :=
  mkQLog (ql_accepted g) (ql_reported g) (e :: ql_outcomes g) (ql_tired g).
Definition log_tired (g : QLog) : QLog :=
  mkQLog (ql_accepted g) (ql_reported g) (ql_outcomes g) true.

Section operations.
Context {C : Type} `{Controller C} {order : GoRange}.
Abbreviation QState := (World C * QLog)%type.

Definition on_world {A} : M (World C) A -> M QState A := zoom fst (fun w st => (w, st.2)).
Definition log (f : QLog -> QLog) : M QState unit := modify (fun st => (st.1, f st.2)).
Definition p_dq {A} (m : M DisconnectQueue A) : proc QState A := act (on_world (on_dq m)).

(** ** The operations, action by action *)

Definition accept (l : loc) : M QState unit :=
  on_world (on_dq (on_dq_disconnect (chan_send l))) ;; log (log_accepted l).

Definition p_Enqueue (l : loc) : proc QState (option error) :=
  p_dq (on_dq_mu lock) ;>>
  do! q := p_dq get in
  if dq_isStopped q then p_dq (on_dq_mu unlock) ;>> Pure None
  else act (accept l) ;>> p_dq (on_dq_mu unlock) ;>> Pure None.

(** A call of [DisconnectNow]. *)
Definition report (l : loc) : M QState (option error) :=
  let! err := on_world (DisconnectNow l) in
  log (log_reported l) ;;
  ret err.

(** The select of [Run]: a session, or the signal to stop; [prefer] decides when both are
    there. *)
Definition queue_select (prefer : bool) : M QState (option loc) :=
  let! q := on_world (on_dq get) in
  match ch_buf (dq_disconnect q), ch_buf (dq_shutdown q) with
  | [], [] => block "select"
  | _ :: _, [] => on_world (on_dq (on_dq_disconnect chan_recv))
  | [], _ :: _ => on_world (on_dq (on_dq_shutdown chan_recv)) ;; ret None
  | _ :: _, _ :: _ =>
      if prefer then on_world (on_dq (on_dq_disconnect chan_recv))
      else on_world (on_dq (on_dq_shutdown chan_recv)) ;; ret None
  end.

(** The loop of [Run], for as many iterations as there are choices. *)
Fixpoint p_queue_loop (choices : list bool) : proc QState unit :=
  match choices with
  | [] => act (log log_tired)
  | prefer :: choices =>
      do! m := act (queue_select prefer) in
      match m with
      | None => Pure tt
      | Some l => do! _ := act (report l) in p_queue_loop choices
      end
  end.

Definition p_queue_Run (choices : list bool) : proc QState unit :=
  act (on_world DisconnectQueue_NewTicker) ;>> p_queue_loop choices.

(** The select of [Shutdown]: the next session, or the timeout when there is none (nobody
    enqueues any more, so that none comes later). *)
Definition drain_select : M QState (option loc) :=
  let! q := on_world (on_dq get) in
  match ch_buf (dq_disconnect q) with
  | [] => ret None
  | _ :: _ => on_world (on_dq (on_dq_disconnect chan_recv))
  end.

Fixpoint p_drain (n : nat) : proc QState (option error) :=
  match n with
  | O => Pure None
  | S n =>
      do! m := act drain_select in
      match m with
      | None => Pure (Some (Errorf "Had no time to invoke Disconnect calls: 0"))
      | Some l =>
          do! err := act (report l) in
          match err with
          | Some e => Pure (Some e)
          | None => p_drain n
          end
      end
  end.

Definition p_queue_Shutdown : proc QState (option error) :=
  p_dq (on_dq_mu lock) ;>>
  do! q := p_dq get in
  if dq_isStopped q then p_dq (on_dq_mu unlock) ;>> Pure None
  else
    p_dq (modify stop_queue) ;>>
    p_dq (on_dq_shutdown (chan_send tt)) ;>>
    p_dq (on_dq_mu unlock) ;>>
    do! q := p_dq get in
    p_drain (length (ch_buf (dq_disconnect q))).

(** The goroutines that come and go: those that enqueue one of the given sessions, and those
    that shut the queue down. *)
Inductive queue_thread (known : loc -> Prop) : proc QState unit -> Prop :=
| thread_enqueue l : known l -> queue_thread known (p_Enqueue l ;>> Pure tt)
| thread_stop : queue_thread known (do! err := p_queue_Shutdown in act (log (log_outcome err))).
End operations.

(** ** An operation that runs alone *)

Section alone.
Context {C : Type} `{Controller C} {order : GoRange}.
Abbreviation QState := (World C * QLog)%type.

(** Does, action by action, what a definition of [NodeShutdown.v] does in one piece; the log
    grows meanwhile. *)
Definition as_in_world {A} (p : proc QState A) (m : M (World C) A) : Prop := forall w g, exists g',
  run p (w, g) = match m w with
                 | Ret a w' => Ret a (w', g')
                 | Block why w' => Block why (w', g')
                 | Panic why w' => Panic why (w', g')
                 end.

Lemma in_world_bind {A B} (p : proc QState A) m (f : A -> proc QState B) k :
  as_in_world p m -> (forall a, as_in_world (f a) (k a)) -> as_in_world (pbind p f) (bind m k).
Proof.
  intros Hp Hf w g. destruct (Hp w g) as [g1 H1]. rewrite run_pbind. unfold bind. rewrite H1.
  destruct (m w) as [a w'| |]; [apply Hf | by exists g1 ..].
Qed.

Lemma in_world_act {A} (m : M (World C) A) : as_in_world (act (on_world m)) m.
Proof. intros w g. exists g. rewrite erases_act. unfold on_world, zoom. simpl. by destruct (m w). Qed.

Lemma in_world_pure {A} (a : A) : as_in_world (Pure a) (ret a).
Proof. intros w g. by exists g. Qed.

Lemma on_dq_at {A} (m : M DisconnectQueue A) (w : World C) q g :
  w_disconnector w = Some (DQueue q) ->
  on_world (on_dq m) (w, g) =
  match m q with
  | Ret a q' => Ret a (set_disconnector (Some (DQueue q')) w, g)
  | Block why q' => Block why (set_disconnector (Some (DQueue q')) w, g)
  | Panic why q' => Panic why (set_disconnector (Some (DQueue q')) w, g)
  end.
Proof. intros Hq. unfold on_world, on_dq, zoom. simpl. rewrite Hq. by destruct (m q). Qed.

Lemma keep_disconnector (w : World C) d : w_disconnector w = Some d -> set_disconnector (Some d) w = w.
Proof. intros Hd. destruct w. simpl in *. by subst. Qed.

(** [Enqueue], as operations on the queue of the node. *)
Lemma Enqueue_steps l (w : World C) q :
  w_disconnector w = Some (DQueue q) ->
  Enqueue l w =
  (on_dq (on_dq_mu lock) ;;
   let! q := on_dq get in
   if dq_isStopped q then on_dq (on_dq_mu unlock) ;; ret None
   else on_dq (on_dq_disconnect (chan_send l)) ;; on_dq (on_dq_mu unlock) ;; ret None) w.
Proof.
  intros Hq. unfold Enqueue, zoom. rewrite Hq.
  unfold DisconnectQueue_Enqueue, on_dq_mu, on_dq_disconnect, bind, on_dq, zoom, lock, unlock, get, ret. rewrite Hq.
  destruct (dq_mu q); [done |]. simpl. destruct (dq_isStopped q); [done |]. unfold chan_send. simpl.
  destruct (ch_closed _); [done |]. by destruct (chan_full _).
Qed.

Lemma accept_in_world l : as_in_world (act (accept l)) (on_dq (on_dq_disconnect (chan_send l))).
Proof.
  intros w g. rewrite erases_act. unfold accept, bind, on_world, zoom. simpl.
  destruct (on_dq _ w) as [[]| |]; by eexists.
Qed.

Lemma Enqueue_in_world l :
  as_in_world (p_Enqueue l)
    (on_dq (on_dq_mu lock) ;;
     let! q := on_dq get in
     if dq_isStopped q then on_dq (on_dq_mu unlock) ;; ret None
     else on_dq (on_dq_disconnect (chan_send l)) ;; on_dq (on_dq_mu unlock) ;; ret None).
Proof.
  do 2 (apply in_world_bind; [apply in_world_act | intros ?]). case_match.
  - apply in_world_bind; [apply in_world_act | intros _; apply in_world_pure].
  - apply in_world_bind; [apply accept_in_world | intros _].
    apply in_world_bind; [apply in_world_act | intros _; apply in_world_pure].
Qed.

Lemma report_in_world l : as_in_world (act (report l)) (DisconnectNow l).
Proof.
  intros w g. rewrite erases_act. unfold report, bind, on_world, zoom. simpl. destruct (DisconnectNow l w); by eexists.
Qed.

(** One more session of the drain. *)
Definition drain_take : M (World C) (option loc) :=
  let! q := on_dq get in
  match ch_buf (dq_disconnect q) with
  | [] => ret None
  | _ :: _ => on_dq (on_dq_disconnect chan_recv)
  end.

Lemma drain_select_in_world : as_in_world (act drain_select) drain_take.
Proof.
  intros w g. exists g. rewrite erases_act. unfold drain_select, drain_take, bind, on_world, zoom. simpl.
  destruct (on_dq get w) as [q w'| |]; [| done..]. simpl. destruct (ch_buf (dq_disconnect q)); [done |].
  simpl. by destruct (on_dq (on_dq_disconnect chan_recv) w').
Qed.

Lemma drain_steps n w :
  DisconnectQueue_drain (S n) w =
  (let! m := drain_take in
   match m with
   | None => ret (Some (Errorf "Had no time to invoke Disconnect calls: 0"))
   | Some l =>
       let! err := DisconnectNow l in
       match err with Some e => ret (Some e) | None => DisconnectQueue_drain n end
   end) w.
Proof.
  cbn [DisconnectQueue_drain]. unfold drain_take, bind. unfold on_dq at 1 3.
  destruct (w_disconnector w) as [[q|]|] eqn:Hq; [| done..]. unfold zoom, get.
  destruct (ch_buf (dq_disconnect q)) as [|l b] eqn:Hb; [done |].
  unfold on_dq, set_disconnector, on_dq_disconnect, zoom, chan_recv. simpl. by rewrite Hb.
Qed.

Lemma drain_in_world n : as_in_world (p_drain n) (DisconnectQueue_drain n).
Proof.
  induction n as [|n IH]; [apply in_world_pure |]. intros w g. rewrite drain_steps. revert w g. cbn [p_drain].
  apply in_world_bind; [apply drain_select_in_world | intros [l|]]; [| apply in_world_pure].
  apply in_world_bind; [apply report_in_world | intros [e|]]; [apply in_world_pure | apply IH].
Qed.

Lemma Shutdown_in_world : as_in_world p_queue_Shutdown DisconnectQueue_Shutdown.
Proof.
  apply in_world_bind; [apply in_world_act | intros _]. apply in_world_bind; [apply in_world_act | intros q].
  destruct (dq_isStopped q); [apply in_world_bind; [apply in_world_act | intros _; apply in_world_pure] |].
  do 3 (apply in_world_bind; [apply in_world_act | intros _]).
  apply in_world_bind; [apply in_world_act | intros q']. apply drain_in_world.
Qed.

(** Running alone, an [Enqueue] and a [Shutdown] of the queue do, action by action, what the
    definitions in one piece do. *)
Theorem queue_alone_as_whole l (w : World C) q g :
  w_disconnector w = Some (DQueue q) ->
  (exists g', run (p_Enqueue l) (w, g) =
     match Enqueue l w with
     | Ret a w' => Ret a (w', g')
     | Block why w' => Block why (w', g')
     | Panic why w' => Panic why (w', g')
     end) /\
  (exists g', run p_queue_Shutdown (w, g) =
     match DisconnectQueue_Shutdown w with
     | Ret a w' => Ret a (w', g')
     | Block why w' => Block why (w', g')
     | Panic why w' => Panic why (w', g')
     end).
Proof. intros Hq. rewrite (Enqueue_steps l w q Hq). split; [apply Enqueue_in_world | apply Shutdown_in_world]. Qed.
End alone.

(** ** What a goroutine knows *)

Inductive qview : Type :=
| QIdle
| QLocked                         (* has the lock *)
| QOpen                           (* has the lock, and the queue is not stopped *)
| QStopping                       (* has the lock, has stopped the queue, and will say so *)
| QSignalled                      (* has the lock and has said so *)
| QStopped                        (* has stopped the queue *)
| QDrain (n : nat)                (* there are at most [n] sessions left *)
| QDrainHand (n : nat) (l : loc)  (* the same, and has taken another one *)
| QFailed                         (* gives up and will say so *)
| QRun                            (* the goroutine of the queue *)
| QRunHand (l : loc)              (* that one, with a session *)
| QTired.                         (* that one, after its last iteration *)

Definition q_locks (v : qview) : nat :=
  match v with QLocked | QOpen | QStopping | QSignalled => 1 | _ => 0 end.
Definition q_due (v : qview) : nat := match v with QStopping => 1 | _ => 0 end.
Definition q_run (v : qview) : nat := match v with QRun | QRunHand _ | QTired => 1 | _ => 0 end.
(** Is shutting the queue down. *)
Definition q_busy (v : qview) : nat :=
  match v with QStopping | QSignalled | QStopped | QDrain _ | QDrainHand _ _ | QFailed => 1 | _ => 0 end.
Definition in_hand (v : qview) : list loc := match v with QDrainHand _ l | QRunHand l => [l] | _ => [] end.
Definition times (l : loc) (ls : list loc) : nat := count_occ Nat.eq_dec ls l.
Definition q_hand (l : loc) (v : qview) : nat := times l (in_hand v).

Definition q_agrees (v : qview) (q : DisconnectQueue) (g : QLog) : Prop :=
  match v with
  | QOpen => dq_isStopped q = false
  | QDrain n | QDrainHand n _ => length (ch_buf (dq_disconnect q)) <= n /\ dq_isStopped q = true
  | QStopping | QSignalled | QStopped | QFailed => dq_isStopped q = true
  | QTired => ql_tired g = true
  | _ => True
  end.

Section interleaving.
Context {C : Type} `{Controller C} {order : GoRange}.
Abbreviation QState := (World C * QLog)%type.

(** The sessions that may be enqueued exist and have headers, and a controller that is fit
    returns from Disconnect and stays fit. *)
Context (known : loc -> Prop) (ss : gmap loc Session) (fit : Metrics -> C -> Prop).
Context (known_ok : forall l, known l -> exists s, ss !! l = Some s /\ is_Some (Headers (env s))).
Context (ctl_returns : forall uid env id subs m c, is_Some (Headers env) -> fit m c ->
  exists e m' c', ctl_Disconnect uid env id subs (m, c) = Ret e (m', c') /\ fit m' c').

Record queue_fit (q : DisconnectQueue) : Prop := {
  qf_rate : (0 < dq_rate q)%Z;
  qf_disconnect : ch_closed (dq_disconnect q) = false;
  qf_shutdown : ch_closed (dq_shutdown q) = false;
  qf_room : 0 < ch_cap (dq_disconnect q);
  qf_signal : 0 < ch_cap (dq_shutdown q)
}.

(** The lock is held by one goroutine or free. Exactly one signal is sent, consumed by the
    goroutine of the queue (the first one), which ends then. Accepted sessions are reported,
    queued, or in the hands of a goroutine; when the queue is stopped, somebody drains it, has
    drained it, or has failed to. *)
Record QG (vs : list qview) (q : DisconnectQueue) (g : QLog) : Prop := {
  qg_fit : queue_fit q;
  qg_lock : total q_locks vs = Nat.b2n (dq_mu q);
  qg_token : length (ch_buf (dq_shutdown q)) + total q_due vs + 1 = Nat.b2n (dq_isStopped q) + total q_run vs;
  qg_agree : forall i v, vs !! i = Some v -> q_agrees v q g;
  qg_first : forall i v, vs !! i = Some v -> 0 < q_run v -> i = 0;
  qg_queued : forall l, l ∈ ch_buf (dq_disconnect q) -> known l;
  qg_hands : forall i v l, vs !! i = Some v -> l ∈ in_hand v -> known l;
  qg_count : forall l, times l (ql_accepted g) =
    times l (ql_reported g) + times l (ch_buf (dq_disconnect q)) + total (q_hand l) vs;
  qg_left : dq_isStopped q = true ->
    ch_buf (dq_disconnect q) = [] \/ 0 < total q_busy vs \/ exists e, Some e ∈ ql_outcomes g
}.
Definition G (vs : list qview) (st : QState) : Prop :=
  w_sessions st.1 = ss /\ fit (w_metrics st.1) (w_ctl st.1) /\
  exists q, w_disconnector st.1 = Some (DQueue q) /\ QG vs q st.2.

Definition waits_for (v : qview) (q : DisconnectQueue) : Prop :=
  match v with
  | QIdle => dq_mu q = true
  | QOpen => chan_full (dq_disconnect q) = true
  | QRun => ch_buf (dq_disconnect q) = [] /\ ch_buf (dq_shutdown q) = []
  | _ => False
  end.
Definition may_wait (v : qview) (st : QState) : Prop :=
  exists q, w_disconnector st.1 = Some (DQueue q) /\ waits_for v q.
Definition at_rest (v : qview) : Prop := v = QIdle \/ v = QTired.

Abbreviation safe_from := (wpp G may_wait).

(** *** One action *)

(** What an action of a goroutine with view [v] must see to. *)
Record q_moves (v v' : qview) (q q' : DisconnectQueue) (g g' : QLog) : Prop := {
  qm_fit : queue_fit q';
  qm_lock : Nat.b2n (dq_mu q') + q_locks v = Nat.b2n (dq_mu q) + q_locks v';
  qm_token : length (ch_buf (dq_shutdown q')) + q_due v' + Nat.b2n (dq_isStopped q) + q_run v =
             length (ch_buf (dq_shutdown q)) + q_due v + Nat.b2n (dq_isStopped q') + q_run v';
  qm_agree : q_agrees v' q' g';
  qm_others : dq_isStopped q' = dq_isStopped q /\
      length (ch_buf (dq_disconnect q')) <= length (ch_buf (dq_disconnect q)) \/
    q_locks v = 1 /\ dq_isStopped q = false;
  qm_tired : ql_tired g = true -> ql_tired g' = true;
  qm_run : q_run v' <= q_run v;
  qm_known : forall l, l ∈ ch_buf (dq_disconnect q') \/ l ∈ in_hand v' ->
    l ∈ ch_buf (dq_disconnect q) \/ l ∈ in_hand v \/ known l;
  qm_count : forall l,
    times l (ql_accepted g') + times l (ql_reported g) + times l (ch_buf (dq_disconnect q)) + q_hand l v =
    times l (ql_accepted g) + times l (ql_reported g') + times l (ch_buf (dq_disconnect q')) + q_hand l v';
  qm_outcomes : forall e, e ∈ ql_outcomes g -> e ∈ ql_outcomes g';
  qm_left : dq_isStopped q' = true ->
    0 < q_busy v' \/ ch_buf (dq_disconnect q') = [] \/ (exists e, Some e ∈ ql_outcomes g') \/
    dq_isStopped q = true /\ q_busy v = 0 /\ (ch_buf (dq_disconnect q) = [] -> ch_buf (dq_disconnect q') = [])
}.

Lemma one_run vs : (forall i v, vs !! i = Some v -> 0 < q_run v -> i = 0) -> total q_run vs <= 1.
Proof.
  intros Hf. destruct vs as [|u vs]; simpl; [lia |]. rewrite (total_none q_run vs); [destruct u; simpl; lia |].
  intros i v Hi. destruct (q_run v) eqn:Hv; [done |]. by pose proof (Hf (S i) v Hi ltac:(lia)).
Qed.

Lemma others_agree vs i j v u q q' g g' v' :
  QG vs q g -> vs !! i = Some v -> vs !! j = Some u -> i <> j -> q_moves v v' q q' g g' -> q_agrees u q' g'.
Proof.
  intros HG Hi Hj Hij Hm. pose proof (qg_agree _ _ _ HG j u Hj) as Hu.
  pose proof (total_two q_locks vs i j v u Hi Hj Hij) as H2. rewrite (qg_lock _ _ _ HG) in H2.
  assert (Nat.b2n (dq_mu q) <= 1) by (by destruct (dq_mu q); simpl; lia).
  destruct (qm_others _ _ _ _ _ _ Hm) as [[H1 Hlen]|[Hl Hs]]; destruct u; simpl in *; try done; try lia.
  all: try (rewrite H1; first [done | by split; [lia | tauto]]).
  all: try (by apply (qm_tired _ _ _ _ _ _ Hm)).
  all: destruct Hu; congruence.
Qed.

Lemma QG_moves vs i v v' q q' g g' :
  QG vs q g -> vs !! i = Some v -> q_moves v v' q q' g g' -> QG (<[i := v']> vs) q' g'.
Proof.
  intros HG Hi Hm. pose proof HG as [F1 F2 F3 F4 F5 F6 F7 F8 F9]. pose proof Hm as [M1 M2 M3 M4 M5 M6 M7 M8 M9 M10 M11].
  pose proof (total_insert q_locks vs i v v' Hi). pose proof (total_insert q_due vs i v v' Hi).
  pose proof (total_insert q_run vs i v v' Hi).
  assert (Hcase : forall j u, <[i := v']> vs !! j = Some u -> j = i /\ u = v' \/ j <> i /\ vs !! j = Some u).
  { intros j u. destruct (decide (i = j)) as [<-|Hij].
    - rewrite list_lookup_insert_eq by (by eapply lookup_lt_Some). intros [= <-]. by left.
    - rewrite list_lookup_insert_ne by done. by right. }
  split; [done | lia | lia | | | | | |].
  - intros j u Hj. destruct (Hcase j u Hj) as [[-> ->]|[Hne Hju]]; [done |].
    by apply (others_agree vs i j v u q q' g g' v').
  - intros j u Hj Hu. destruct (Hcase j u Hj) as [[-> ->]|[Hne Hju]]; [apply (F5 i v Hi); lia | by apply (F5 j u)].
  - intros l Hl. destruct (M8 l (or_introl Hl)) as [?|[?|?]]; eauto.
  - intros j u l Hj Hl. destruct (Hcase j u Hj) as [[-> ->]|[Hne Hju]]; [| by eapply F7].
    destruct (M8 l (or_intror Hl)) as [?|[?|?]]; eauto.
  - intros l. pose proof (total_insert (q_hand l) vs i v v' Hi). specialize (M9 l). specialize (F8 l). lia.
  - intros Hs. pose proof (total_insert q_busy vs i v v' Hi) as Hb. pose proof (total_lookup q_busy vs i v Hi).
    destruct (M11 Hs) as [Hv|[?|[?|(Hs' & Hv & He)]]]; [right; left; lia | by left | by right; right |].
    destruct (F9 Hs') as [?|[?|(e & ?)]]; [left; auto | right; left; lia | right; right; eauto].
Qed.

(** How an action on the queue and the log may turn out. *)
Definition q_step_ok {X A} v (k : X -> proc QState A) Q (w : World C) q g (o : outcome QState X) : Prop :=
  match o with
  | Ret x st => exists v' q', st.1 = set_disconnector (Some (DQueue q')) w /\
      q_moves v v' q q' g st.2 /\ safe_from (k x) Q v'
  | Block _ _ => waits_for v q
  | Panic _ _ => False
  end.

Lemma safe_queue {X A} (m : M QState X) (k : X -> proc QState A) Q v :
  (forall w q g, w_disconnector w = Some (DQueue q) -> queue_fit q -> q_agrees v q g ->
     q_locks v <= Nat.b2n (dq_mu q) -> length (ch_buf (dq_shutdown q)) + q_due v <= 1 ->
     q_step_ok v k Q w q g (m (w, g))) ->
  safe_from (pbind (act m) k) Q v.
Proof.
  intros Hm. change (safe_from (Act m k) Q v). intros vs i [w g] Hi (Hss & Hfit & q & Hq & HG). simpl in Hss, Hfit, Hq, HG.
  pose proof (total_lookup q_locks vs i v Hi) as Hl. rewrite (qg_lock _ _ _ HG) in Hl.
  pose proof (total_lookup q_due vs i v Hi) as Hd. pose proof (qg_token _ _ _ HG) as Ht.
  pose proof (one_run vs (qg_first _ _ _ HG)) as Hr.
  assert (Nat.b2n (dq_isStopped q) <= 1) by (by destruct (dq_isStopped q); simpl; lia).
  unfold q_step_ok in Hm.
  specialize (Hm w q g Hq (qg_fit _ _ _ HG) (qg_agree _ _ _ HG i v Hi) Hl ltac:(lia)).
  destruct (m (w, g)) as [x [w' g']| |]; [| by exists q | done].
  destruct Hm as (v' & q' & Hw' & Hmv & Hk). exists v'. split; [| done]. simpl in *. subst w'.
  split_and!; [done | done |]. exists q'. split; [done |]. by eapply QG_moves.
Qed.

(** Solves what is left of an action once the queue is at hand. *)
Ltac settle_move :=
  split; unfold q_hand, times in *; simpl in *; try done; try lia; try tauto; try naive_solver.

Lemma safe_q_lock {A} (k : unit -> proc QState A) Q :
  safe_from (k tt) Q QLocked -> safe_from (pbind (p_dq (on_dq_mu lock)) k) Q QIdle.
Proof.
  intros Hk. apply safe_queue. intros w q g Hq Hf Ha Hl Hd. rewrite (on_dq_at _ _ _ _ Hq).
  unfold on_dq_mu, zoom, lock. destruct (dq_mu q) eqn:Hmu; [done |].
  do 2 eexists. split_and!; [reflexivity | | exact Hk]. destruct Hf. settle_move.
Qed.

Lemma safe_q_look {A} (k : DisconnectQueue -> proc QState A) Q v :
  (forall q g, queue_fit q -> q_agrees v q g -> exists v', q_moves v v' q q g g /\ safe_from (k q) Q v') ->
  safe_from (pbind (p_dq get) k) Q v.
Proof.
  intros Hk. apply safe_queue. intros w q g Hq Hf Ha Hl Hd. rewrite (on_dq_at _ _ _ _ Hq). simpl.
  destruct (Hk q g Hf Ha) as (v' & Hm & Hs). exists v', q. by split_and!.
Qed.

Lemma safe_q_check {A} (k : DisconnectQueue -> proc QState A) Q :
  (forall q, safe_from (k q) Q (if dq_isStopped q then QLocked else QOpen)) ->
  safe_from (pbind (p_dq get) k) Q QLocked.
Proof.
  intros Hk. apply safe_q_look. intros q g Hf Ha. eexists. split; [| apply Hk].
  destruct (dq_isStopped q) eqn:Hs; settle_move.
Qed.

Lemma safe_q_unlock {A} (k : unit -> proc QState A) Q v v' :
  (v = QLocked \/ v = QOpen) /\ v' = QIdle \/ v = QSignalled /\ v' = QStopped ->
  safe_from (k tt) Q v' -> safe_from (pbind (p_dq (on_dq_mu unlock)) k) Q v.
Proof.
  intros Hv Hk. apply safe_queue. intros w q g Hq Hf Ha Hl Hd. rewrite (on_dq_at _ _ _ _ Hq).
  unfold on_dq_mu, zoom, unlock. assert (Hmu : dq_mu q = true).
  { destruct (dq_mu q); [done |]. naive_solver (simpl in *; lia). }
  rewrite Hmu. exists v'. eexists. split_and!; [reflexivity | | exact Hk]. destruct Hf.
  destruct Hv as [[[->| ->] ->]|[-> ->]]; settle_move; rewrite Hmu; done.
Qed.

Lemma safe_q_stop {A} (k : unit -> proc QState A) Q :
  safe_from (k tt) Q QStopping -> safe_from (pbind (p_dq (modify stop_queue)) k) Q QOpen.
Proof.
  intros Hk. apply safe_queue. intros w q g Hq Hf Ha Hl Hd. rewrite (on_dq_at _ _ _ _ Hq). simpl.
  exists QStopping. eexists. split_and!; [reflexivity | | exact Hk]. destruct Hf. simpl in Ha. settle_move.
Qed.

Lemma safe_q_signal {A} (k : unit -> proc QState A) Q :
  safe_from (k tt) Q QSignalled -> safe_from (pbind (p_dq (on_dq_shutdown (chan_send tt))) k) Q QStopping.
Proof.
  intros Hk. apply safe_queue. intros w q g Hq Hf Ha Hl Hd. rewrite (on_dq_at _ _ _ _ Hq). destruct Hf. simpl in Hd.
  unfold on_dq_shutdown, zoom, chan_send, chan_full. rewrite qf_shutdown0, bool_decide_false by lia.
  exists QSignalled. eexists. split_and!; [reflexivity | | exact Hk]. settle_move. rewrite length_app. simpl. lia.
Qed.

Lemma safe_q_left {A} (k : DisconnectQueue -> proc QState A) Q :
  (forall q, safe_from (k q) Q (QDrain (length (ch_buf (dq_disconnect q))))) ->
  safe_from (pbind (p_dq get) k) Q QStopped.
Proof. intros Hk. apply safe_q_look. intros q g Hf Ha. eexists. split; [| apply Hk]. settle_move. Qed.

Lemma times_snoc l x ls : times l (ls ++ [x]) = times l ls + times l [x].
Proof. apply count_occ_app. Qed.

(** The same for an action that moves a session. *)
Ltac settle_list :=
  first
    [ done | simpl in *; lia | simpl in *; tauto
    | left; split; [done | simpl; lia]
    | simpl in *; split; [lia | tauto]
    | intros ?l; set_solver
    | intros ?l; unfold q_hand; rewrite ?times_snoc; unfold times; simpl; repeat destruct (Nat.eq_dec _ _); lia ].

Lemma safe_accept {A} l (k : unit -> proc QState A) Q :
  known l -> safe_from (k tt) Q QOpen -> safe_from (pbind (act (accept l)) k) Q QOpen.
Proof.
  intros Hknown Hk. apply safe_queue. intros w q g Hq Hf Ha Hl Hd. unfold accept, bind. rewrite (on_dq_at _ _ _ _ Hq).
  destruct Hf. simpl in Ha. unfold on_dq_disconnect, zoom, chan_send. rewrite qf_disconnect0.
  destruct (chan_full (dq_disconnect q)) eqn:Hfull; [done |]. unfold log, modify.
  exists QOpen. eexists. split_and!; [reflexivity | | exact Hk]. split; simpl; settle_list.
Qed.

Lemma safe_select {A} prefer (k : option loc -> proc QState A) Q :
  (forall l, safe_from (k (Some l)) Q (QRunHand l)) -> safe_from (k None) Q QIdle ->
  safe_from (pbind (act (queue_select prefer)) k) Q QRun.
Proof.
  intros Hsome Hnone. apply safe_queue. intros w q g Hq Hf Ha Hl Hd. unfold queue_select, bind. rewrite (on_dq_at _ _ _ _ Hq). simpl.
  pose proof (keep_disconnector w _ Hq) as Hkeep. rewrite Hkeep. destruct Hf. simpl in Hd.
  assert (Htake : forall l b, ch_buf (dq_disconnect q) = l :: b ->
    q_step_ok QRun k Q w q g (on_world (C := C) (on_dq (on_dq_disconnect chan_recv)) (w, g))).
  { intros l b Hb. rewrite (on_dq_at _ _ _ _ Hq). unfold on_dq_disconnect, zoom, chan_recv. rewrite Hb.
    exists (QRunHand l). eexists. split_and!; [reflexivity | | apply Hsome]. split; simpl; rewrite ?Hb; settle_list. }
  assert (Hstop : forall u b, ch_buf (dq_shutdown q) = u :: b ->
    q_step_ok QRun k Q w q g (bind (on_world (C := C) (on_dq (on_dq_shutdown chan_recv))) (fun _ => ret None) (w, g))).
  { intros u b Hb. unfold bind. rewrite (on_dq_at _ _ _ _ Hq). unfold on_dq_shutdown, zoom, chan_recv. rewrite Hb.
    exists QIdle. eexists. split_and!; [reflexivity | | apply Hnone]. split; simpl; rewrite ?Hb; settle_list. }
  destruct (ch_buf (dq_disconnect q)) as [|l b] eqn:Hb, (ch_buf (dq_shutdown q)) as [|u c] eqn:Hc; [done | | |].
  - by eapply Hstop.
  - by eapply Htake.
  - destruct prefer; [by eapply Htake | by eapply Hstop].
Qed.

Lemma safe_drain_select {A} n (k : option loc -> proc QState A) Q :
  (forall l, safe_from (k (Some l)) Q (QDrainHand n l)) -> safe_from (k None) Q QFailed ->
  safe_from (pbind (act drain_select) k) Q (QDrain (S n)).
Proof.
  intros Hsome Hnone. apply safe_queue. intros w q g Hq Hf Ha Hl Hd. unfold drain_select, bind. rewrite (on_dq_at _ _ _ _ Hq). simpl.
  rewrite (keep_disconnector w _ Hq). destruct Hf. simpl in Ha. destruct (ch_buf (dq_disconnect q)) as [|l b] eqn:Hb.
  - exists QFailed, q. split_and!; [by rewrite (keep_disconnector w _ Hq) | | exact Hnone]. split; simpl; rewrite ?Hb; settle_list.
  - rewrite (on_dq_at _ _ _ _ Hq). unfold on_dq_disconnect, zoom, chan_recv. rewrite Hb. simpl in Ha.
    exists (QDrainHand n l). eexists. split_and!; [reflexivity | | apply Hsome]. split; simpl; rewrite ?Hb; settle_list.
Qed.

(** A call of [DisconnectNow] reports the session in hand. *)
Lemma safe_report {A} v l (after : option error -> qview) (k : option error -> proc QState A) Q :
  v = QRunHand l /\ (forall err, after err = QRun) \/
  (exists n, v = QDrainHand n l /\ forall err, after err = match err with Some _ => QFailed | None => QDrain n end) ->
  (forall err, safe_from (k err) Q (after err)) ->
  safe_from (pbind (act (report l)) k) Q v.
Proof.
  intros Hv Hk. change (safe_from (Act (report l) k) Q v). intros vs i [w g] Hi (Hss & Hfit & q & Hq & HG). simpl in Hss, Hfit, Hq, HG.
  assert (Hl : known l) by (apply (qg_hands _ _ _ HG i v l Hi); destruct Hv as [[-> _]|(n & -> & _)]; set_solver).
  destruct (known_ok l Hl) as (s & Hs & Hh).
  destruct (ctl_returns (UID s) (env s) (Identifiers s) (subscriptionsList (subscriptions s)) _ _ Hh Hfit)
    as (e & m' & c' & Hctl & Hfit').
  unfold report, bind, on_world, zoom, DisconnectNow, bind, load. simpl. rewrite Hss, Hs. unfold on_ctl, zoom. rewrite Hctl.
  exists (after e). split; [| apply Hk]. split_and!; [done | done |]. exists q. split; [done |]. simpl.
  apply (QG_moves vs i v (after e) q q g); [done | done |]. pose proof (qg_fit _ _ _ HG) as Hf.
  pose proof (qg_agree _ _ _ HG i v Hi) as Ha. clear - Hv Ha Hf.
  destruct Hv as [[-> ->]|(n & -> & ->)]; [| destruct e]; split; simpl in *; settle_list.
Qed.

Lemma safe_q_log {A} f (k : unit -> proc QState A) Q v v' :
  (forall q g, queue_fit q -> q_agrees v q g -> q_moves v v' q q g (f g)) -> safe_from (k tt) Q v' ->
  safe_from (pbind (act (log f)) k) Q v.
Proof.
  intros Hm Hk. apply safe_queue. intros w q g Hq Hf Ha Hl Hd. exists v', q. simpl.
  split_and!; [by rewrite keep_disconnector | by apply Hm | done].
Qed.

Lemma safe_ticker {A} (k : unit -> proc QState A) Q v :
  safe_from (k tt) Q v -> safe_from (pbind (act (on_world DisconnectQueue_NewTicker)) k) Q v.
Proof.
  intros Hk. change (safe_from (Act (on_world DisconnectQueue_NewTicker) k) Q v).
  intros vs i [w g] Hi Hw. pose proof Hw as (Hss & Hfit & q & Hq & HG). simpl in Hq, HG.
  destruct (qg_fit _ _ _ HG) as [Hr _ _ _ _].
  unfold on_world, zoom, DisconnectQueue_NewTicker, bind, on_dq, zoom. simpl. rewrite Hq. simpl.
  rewrite (proj2 (Z.leb_gt _ _) Hr). exists v. split; [| done]. rewrite list_insert_id by done.
  simpl. by rewrite keep_disconnector.
Qed.

(** ** The operations *)

Lemma safe_last {A} (m : M QState A) Q v : safe_from (pbind (act m) Pure) Q v -> safe_from (act m) Q v.
Proof. done. Qed.

Lemma p_Enqueue_safe l : known l -> safe_from (p_Enqueue l) (fun _ => at_rest) QIdle.
Proof.
  intros Hl. apply safe_q_lock, safe_q_check. intros q. destruct (dq_isStopped q).
  - eapply safe_q_unlock; [eauto | by left].
  - apply safe_accept; [done |]. eapply safe_q_unlock; [eauto | by left].
Qed.

Lemma queue_loop_safe choices : safe_from (p_queue_loop choices) (fun _ => at_rest) QRun.
Proof.
  induction choices as [|prefer choices IH]; cbn [p_queue_loop].
  - apply safe_last. apply (safe_q_log _ _ _ _ QTired); [| by right]. intros q g Hf Ha. split; simpl in *; settle_list.
  - apply safe_select; [| by left]. intros l. apply (safe_report _ _ (fun _ => QRun)); [by left |]. done.
Qed.

Lemma queue_Run_safe choices : safe_from (p_queue_Run choices) (fun _ => at_rest) QRun.
Proof. apply safe_ticker, queue_loop_safe. Qed.

(** What [Shutdown] returns says whether the queue is empty. *)
Definition shut (err : option error) (v : qview) : Prop :=
  match err with None => v = QIdle \/ v = QDrain 0 | Some _ => v = QFailed end.

Lemma drain_safe n : safe_from (p_drain n) shut (QDrain n).
Proof.
  induction n as [|n IH]; cbn [p_drain]; [by right |]. apply safe_drain_select; [| done]. intros l.
  apply (safe_report _ _ (fun err => match err with Some _ => QFailed | None => QDrain n end)); [right; by exists n |].
  by intros [e|].
Qed.

Lemma Shutdown_safe : safe_from p_queue_Shutdown shut QIdle.
Proof.
  apply safe_q_lock, safe_q_check. intros q. destruct (dq_isStopped q).
  - eapply safe_q_unlock; [eauto | by left].
  - apply safe_q_stop, safe_q_signal. eapply safe_q_unlock; [eauto |]. apply safe_q_left. intros q'. apply drain_safe.
Qed.

Lemma queue_thread_safe p : queue_thread known p -> safe_from p (fun _ => at_rest) QIdle.
Proof.
  intros [l Hl|]; [eapply wpp_seq; [by apply p_Enqueue_safe | by intros err v Hv] |]. eapply wpp_seq; [apply Shutdown_safe |].
  intros err v Hv. apply safe_last, (safe_q_log _ _ _ _ QIdle); [| by left]. intros q g Hf Ha.
  destruct err as [e|]; [simpl in Hv; subst v | destruct Hv; subst v]; split; simpl in *; try settle_list.
  intros _. right; left. destruct Ha as [Ha _]. destruct (ch_buf (dq_disconnect q)); [done | simpl in Ha; lia].
Qed.

(** ** Any number of goroutines *)

(** The queue of a node, as it is when its goroutine is started. *)
Definition fresh_queue (w : World C) : Prop :=
  w_sessions w = ss /\ fit (w_metrics w) (w_ctl w) /\
  exists q, w_disconnector w = Some (DQueue q) /\ queue_fit q /\ dq_mu q = false /\ dq_isStopped q = false /\
    ch_buf (dq_disconnect q) = [] /\ ch_buf (dq_shutdown q) = [].

Definition queue_reaches (choices : list bool) (w : World C) : list (proc QState unit) * QState -> Prop :=
  pool_reaches (queue_thread known) ([p_queue_Run choices], (w, no_log)).

Lemma queue_reaches_ok choices w c :
  fresh_queue w -> queue_reaches choices w c -> pool_ok G may_wait at_rest c.
Proof.
  intros (Hss & Hfit & q & Hq & Hf & H1 & H2 & H3 & H4) Hr. eapply pool_reaches_ok; [| | exact Hr].
  - intros p vs st Hp (Gs & Gf & q' & Gq & [F1 F2 F3 F4 F5 F6 F7 F8 F9]). exists QIdle.
    split; [by apply queue_thread_safe |]. split_and!; [done | done |]. exists q'. split; [done |].
    assert (Hcase : forall i v, (vs ++ [QIdle])%list !! i = Some v -> vs !! i = Some v \/ v = QIdle).
    { intros i v Hi. apply lookup_app_Some in Hi as [?|[_ Hi]]; [by left |]. right.
      apply list_lookup_singleton_Some in Hi. by destruct Hi. }
    split; rewrite ?total_app; simpl; try done; try lia.
    + intros i v Hi. destruct (Hcase i v Hi) as [?| ->]; [by eapply F4 | done].
    + intros i v Hi Hv. destruct (Hcase i v Hi) as [?| ->]; [by eapply F5 | simpl in Hv; lia].
    + intros i v l Hi Hv. destruct (Hcase i v Hi) as [?| ->]; [by eapply F7 | simpl in Hv; set_solver].
    + intros l. rewrite total_app, F8. cbn. lia.
    + intros Hs. destruct (F9 Hs) as [?|[?|?]]; [by left | right; left; lia | by right; right].
  - exists [QRun]. split; [constructor; [apply queue_Run_safe | constructor] |]. split_and!; [done | done |].
    exists q. split; [done |]. split; simpl; rewrite ?H1, ?H2, ?H3, ?H4; try done.
    + intros [|i] v Hi; simplify_eq/=. done.
    + intros [|i] v Hi; simplify_eq/=. done.
    + set_solver.
    + intros [|i] v l Hi; simplify_eq/=. set_solver.
Qed.


(** Nobody waits for somebody who waits. *)
Lemma queue_waits vs q g :
  QG vs q g -> ql_tired g = false -> (forall i v, vs !! i = Some v -> at_rest v \/ waits_for v q) ->
  forall i v, vs !! i = Some v -> v = QIdle \/ v = QRun /\ waits_for QRun q.
Proof.
  intros HG Htired Hall. destruct (qg_fit _ _ _ HG) as [_ _ _ Hroom _].
  assert (Hkind : forall i v, vs !! i = Some v ->
    v = QIdle \/ v = QRun /\ waits_for QRun q \/ v = QOpen /\ waits_for QOpen q).
  { intros i v Hi. destruct (Hall i v Hi) as [[->| ->]|Hv]; [by left | |].
    - pose proof (qg_agree _ _ _ HG i QTired Hi). simpl in *. congruence.
    - destruct v; simpl in *; try done; tauto. }
  intros i v Hi. destruct (Hkind i v Hi) as [?|[?|[-> Hfull]]]; [by left | by right |]. exfalso.
  pose proof (qg_agree _ _ _ HG i QOpen Hi) as Hs. simpl in Hs, Hfull. pose proof (qg_token _ _ _ HG) as Ht.
  rewrite Hs in Ht. destruct (total_pos q_run vs) as (j & u & Hj & Hu); [simpl in Ht; lia |].
  destruct (Hkind j u Hj) as [->|[[-> [He _]]|[-> _]]]; simpl in Hu; [lia | | lia].
  unfold chan_full in Hfull. rewrite He in Hfull. apply bool_decide_eq_true in Hfull. simpl in Hfull. lia.
Qed.

Lemma queue_settles choices w ts w' g :
  fresh_queue w -> queue_reaches choices w (ts, (w', g)) -> ql_tired g = false ->
  (exists i p, ts !! i = Some p /\ can_step p (w', g)) \/
  (forall i p, ts !! i = Some p -> i <> 0 -> p = Pure tt) /\
  exists q, w_disconnector w' = Some (DQueue q) /\ dq_mu q = false /\
    (forall l, times l (ql_accepted g) = times l (ql_reported g) + times l (ch_buf (dq_disconnect q))) /\
    (ch_buf (dq_disconnect q) = [] \/ dq_isStopped q = true /\ exists e, Some e ∈ ql_outcomes g).
Proof.
  intros Hw Hr Htired. destruct (queue_reaches_ok _ _ _ Hw Hr) as (vs & Hts & Hg). simpl in Hts, Hg.
  destruct (pool_steps_or_stuck ts (w', g)) as [Hstep|Hstuck]; [by left | right].
  assert (Hends : forall i p v, ts !! i = Some p -> vs !! i = Some v ->
    (exists a, p = Pure a) /\ at_rest v \/ may_wait v (w', g)).
  { intros i p v Hi Hv. eapply pool_ok_stuck; [exact Hts | exact Hg | done | done |].
    intros p' st Hp. apply (Hstuck i p Hi). by exists p', st. }
  destruct Hg as (_ & _ & q & Hq & HG). simpl in Hq, HG.
  assert (Hrest : forall i v, vs !! i = Some v -> v = QIdle \/ v = QRun /\ waits_for QRun q).
  { apply (queue_waits vs q g HG Htired). intros i v Hi. destruct (Forall2_lookup_r _ _ _ _ _ Hts Hi) as (p & Hp & _).
    destruct (Hends i p v Hp Hi) as [[_ ?]|(q' & Hq' & Hv)]; [by left |]. simpl in Hq'. rewrite Hq in Hq'.
    injection Hq' as <-. by right. }
  assert (Hmu : dq_mu q = false).
  { pose proof (qg_lock _ _ _ HG) as Hl. rewrite total_none in Hl; [by destruct (dq_mu q) |].
    intros i v Hi. by destruct (Hrest i v Hi) as [->|[-> _]]. }
  split; [| exists q; split_and!; [done | done | |]].
  - intros i p Hi Hi0. destruct (Forall2_lookup_l _ _ _ _ _ Hts Hi) as (v & Hv & _).
    destruct (Hrest i v Hv) as [->|[-> _]]; [| by destruct Hi0; eapply (qg_first _ _ _ HG i QRun Hv); simpl; lia].
    destruct (Hends i p QIdle Hi Hv) as [[[[] ->] _]|(q' & Hq' & Hwt)]; [done |]. simpl in *. congruence.
  - intros l. rewrite (qg_count _ _ _ HG l), (total_none (q_hand l)); [lia |].
    intros i v Hi. by destruct (Hrest i v Hi) as [->|[-> _]].
  - destruct (dq_isStopped q) eqn:Hs.
    + destruct (qg_left _ _ _ HG Hs) as [?|[Hb|He]]; [by left | | by right].
      rewrite total_none in Hb; [lia |]. intros i v Hi. by destruct (Hrest i v Hi) as [->|[-> _]].
    + left. pose proof (qg_token _ _ _ HG) as Ht. rewrite Hs in Ht. destruct (total_pos q_run vs) as (j & u & Hj & Hu); [simpl in Ht; lia |].
      destruct (Hrest j u Hj) as [->|[-> [He _]]]; [simpl in Hu; lia | done].
Qed.

(** C12. The goroutines of the queue never wait for each other in a circle. When none of them
    can take a step, and the list of choices that the goroutine of the queue makes at its
    selects has not run out, all but that one have ended, the lock is free, and an accepted
    session is reported or still queued: the queue is empty, or it was stopped and a
    [Shutdown] has returned an error. *)
Theorem queue_never_stuck choices w ts w' g :
  fresh_queue w -> queue_reaches choices w (ts, (w', g)) -> ql_tired g = false ->
  (exists i p, ts !! i = Some p /\ can_step p (w', g)) \/
  (forall i p, ts !! i = Some p -> i <> 0 -> p = Pure tt) /\
  exists q, w_disconnector w' = Some (DQueue q) /\ dq_mu q = false /\
    (forall l, times l (ql_accepted g) = times l (ql_reported g) + times l (ch_buf (dq_disconnect q))) /\
    (ch_buf (dq_disconnect q) = [] \/ dq_isStopped q = true /\ exists e, Some e ∈ ql_outcomes g).
Proof. apply queue_settles. Qed.
End interleaving.

(** ** The queue in front of the RPC controller *)

(** The same with the controller of [Rpc.v]: with a free ticket and whatever the remote side
    answers, the goroutines of the queue do not wait for each other. *)
Theorem rpc_queue_never_stuck {R} `{Remote R} {order : GoRange} (known : loc -> Prop) (ss : gmap loc Session)
    choices (w w' : World (RpcController R)) ts g :
  (forall l, known l -> exists s, ss !! l = Some s /\ is_Some (Headers (env s))) ->
  fresh_queue ss (fun m c => exists free, rpc_ready m c free) w ->
  queue_reaches known choices w (ts, (w', g)) -> ql_tired g = false ->
  (exists i p, ts !! i = Some p /\ can_step p (w', g)) \/
  (forall i p, ts !! i = Some p -> i <> 0 -> p = Pure tt) /\
  exists q, w_disconnector w' = Some (DQueue q) /\ dq_mu q = false /\
    (forall l, times l (ql_accepted g) = times l (ql_reported g) + times l (ch_buf (dq_disconnect q))) /\
    (ch_buf (dq_disconnect q) = [] \/ dq_isStopped q = true /\ exists e, Some e ∈ ql_outcomes g).
Proof.
  intros Hknown Hw Hr Ht. eapply queue_settles; [exact Hknown | | exact Hw | exact Hr | exact Ht].
  intros uid env id subs m c Hh Hc. by apply rpc_Disconnect_returns.
Qed.

(** ** A concrete queue *)

Definition queue_node : World unit :=
  set_disconnector (Some (DQueue (mkDQ 10000000 5000000000 (make_chan 4096) (make_chan 1) false false)))
    (put_session 1 (sample_session [] 256) live_node).
Definition queue_known (l : loc) : Prop := l = 1.
Definition always_fit (m : Metrics) (c : unit) : Prop := True.

Lemma queue_known_ok l :
  queue_known l -> exists s, w_sessions queue_node !! l = Some s /\ is_Some (Headers (env s)).
Proof. intros ->. exists (sample_session [] 256). split; [reflexivity | by eexists]. Qed.

Lemma scripted_returns uid env id subs m c :
  is_Some (Headers env) -> always_fit m c ->
  exists e m' c', @ctl_Disconnect unit (scripted SUCCESS) uid env id subs (m, c) = Ret e (m', c') /\ always_fit m' c'.
Proof. by exists None, m, c. Qed.

Lemma queue_node_fresh : fresh_queue (w_sessions queue_node) always_fit queue_node.
Proof. split_and!; [done | done |]. eexists. split; [reflexivity |]. by split_and!; [split; simpl; lia | ..]. Qed.

(** The goroutine of the queue, one session that leaves, and the shutdown. *)
Definition queue_pool : list (proc (World unit * QLog) unit) :=
  [@p_queue_Run unit (scripted SUCCESS) canonical_order [true; true];
   pbind (p_Enqueue 1) (fun _ => Pure tt);
   pbind (@p_queue_Shutdown unit (scripted SUCCESS) canonical_order) (fun err => act (log (log_outcome err)))].
Definition run_queue (order : list nat) : option (list (proc (World unit * QLog) unit) * (World unit * QLog)) :=
  run_schedule order queue_pool (queue_node, no_log).

Lemma run_queue_reaches order c :
  run_queue order = Some c ->
  @queue_reaches unit (scripted SUCCESS) canonical_order queue_known [true; true] queue_node c.
Proof.
  intros Hc. eapply rtc_l; [eapply step_starts; by apply thread_enqueue |].
  eapply rtc_l; [eapply step_starts; apply thread_stop |]. by eapply run_schedule_reaches.
Qed.

(** A session that leaves, is accepted, and is reported. *)
Definition leave_and_report : list nat := [1; 1; 1; 1; 0; 0; 0].


(** After that, the shutdown can go on. *)
Lemma queue_never_stuck_witness :
  match run_queue leave_and_report with
  | Some (ts, st) =>
      (exists i p, ts !! i = Some p /\ can_step p st) \/ (forall i p, ts !! i = Some p -> i <> 0 -> p = Pure tt)
  | None => False
  end.
Proof.
  assert (Hrun : match run_queue leave_and_report with Some (_, (_, g)) => ql_tired g | None => true end = false)
    by (vm_compute; reflexivity).
  destruct (run_queue leave_and_report) as [[ts [w' g]]|] eqn:Hc; [| discriminate Hrun].
  destruct (@queue_never_stuck unit (scripted SUCCESS) canonical_order queue_known (w_sessions queue_node) always_fit
    queue_known_ok scripted_returns [true; true] queue_node ts w' g queue_node_fresh (run_queue_reaches _ _ Hc) Hrun)
    as [Hstep|[Hend _]]; [by left | by right].
Defined.

(** [Shutdown] counts the sessions that are left while the goroutine of the queue still
    takes them: it can wait for a session that the other one has taken, and give up with an
    error that says that none is left, although every session is reported. *)
Theorem shutdown_waits_for_nothing :
  exists c, @queue_reaches unit (scripted SUCCESS) canonical_order queue_known [true; true] queue_node c /\
    c.2.2 = mkQLog [1] [1] [Some (Errorf "Had no time to invoke Disconnect calls: 0")] false.
Proof.
  assert (Hrun : option_map (fun c => c.2.2) (run_queue [1; 1; 1; 1; 2; 2; 2; 2; 2; 2; 0; 0; 2; 2; 0]) =
    Some (mkQLog [1] [1] [Some (Errorf "Had no time to invoke Disconnect calls: 0")] false)) by (vm_compute; reflexivity).
  destruct (run_queue _) as [c|] eqn:Hc; [| discriminate Hrun]. exists c. split; [by eapply run_queue_reaches |].
  simpl in Hrun. by injection Hrun.
Qed.
