(* ===== verification/Mocks.v ===== *)
(** * The mock controller

    [src/mocks/controller.go] and [src/mocks/common.go]: the controller that answers without
    a server. It implements the controller interface of the node and keeps its laws, so that
    the theorems about the node hold with it as well. *)

From Stdlib Require Import ZArith Lia Ascii String.
From stdpp Require Import base gmap strings list fin_maps.
From S2P Require Import Prelude Json Common Protocol Metrics Rpc RpcProps.
From S2P Require Import Encoders World Session Hub HubSpec Node NodeShutdown NodeSafe RpcLaws.

Local Open Scope string_scope.

(** ** The mock *)

Record MockController : Type := mkMock { Started : bool }.

Definition NewMockController : MockController := mkMock true.

Definition NewMockResult (sid : string) : CommandResult :=
  mkCommandResult false false [] [] [sid] [] None None SUCCESS.

(** Operations work on the metrics registry and the mock. *)
Abbreviation Mock := (M (Metrics * MockController)%type).

Definition mock_Start : Mock (option error) := ret None.

(** A header; the map is held through a pointer. *)
Definition mock_header (env : SessionEnv) (name : string) : Mock string :=
  match Headers env with
  | None => nil_deref
  | Some h => ret (default EmptyString (h !! name))
  end.

Definition mock_Authenticate (sid : string) (env : SessionEnv) : Mock (option ConnectResult * option error) :=
  if String.eqb (URL env) "/failure" then
    ret (Some (mkConnectResult EmptyString ["unauthorized"] [] None None FAILURE), None)
  else if String.eqb (URL env) "/error" then
    ret (Some (mkConnectResult EmptyString [] [] None None ERROR), Some (Errorf "Unknown"))
  else
    let! id := mock_header env "id" in
    let! test := mock_header env "x-session-test" in
    let cstate := if String.eqb test EmptyString then None else Some {[ "_s_" := test ]} in
    ret (Some (mkConnectResult id ["welcome"] [] cstate None SUCCESS), None).

Definition mock_Subscribe (sid : string) (env : SessionEnv) (id channel : string)
    : Mock (option CommandResult * option error) :=
  if String.eqb channel "error" then ret (None, Some (Errorf "Subscription Failure"))
  else if String.eqb channel "failure" then
    ret (Some (mkCommandResult false false [] [] [sid] [] None None FAILURE), None)
  else if String.eqb channel "disconnect" then
    ret (Some (mkCommandResult false true [] [] [sid] [] None None SUCCESS), None)
  else if String.eqb channel "with_stream" then
    ret (Some (mkCommandResult false false ["stream"] [] [sid] [] None None SUCCESS), None)
  else ret (Some (NewMockResult sid), None).

Definition mock_Unsubscribe (sid : string) (env : SessionEnv) (id channel : string)
    : Mock (option CommandResult * option error) :=
  if String.eqb channel "failure" then ret (None, Some (Errorf "Unsubscription Failure"))
  else ret (Some (NewMockResult sid), None).

Definition mock_Perform (sid : string) (env : SessionEnv) (id channel data : string)
    : Mock (option CommandResult * option error) :=
  if String.eqb channel "failure" then ret (None, Some (Errorf "Perform Failure"))
  else
    let cstate := if String.eqb data "session" then Some {[ "_s_" := "performed" ]} else None in
    let stopped := if String.eqb data "stop_stream" then [data] else [] in
    let istate := if String.eqb data "channel_state" then Some {[ "_c_" := "performed" ]} else None in
    ret (Some (mkCommandResult false false [] stopped [data] [] cstate istate SUCCESS), None).

Definition mock_Disconnect (sid : string) (env : SessionEnv) (id : string) (subscriptions : list string)
    : Mock (option error) := ret None.

Definition mock_Shutdown : Mock (option error) :=
  modify (fun st => (st.1, mkMock false)) ;; ret None.

#[export] Instance mock_controller : Controller MockController := {|
  ctl_Authenticate := mock_Authenticate;
  ctl_Subscribe := mock_Subscribe;
  ctl_Unsubscribe := mock_Unsubscribe;
  ctl_Perform := mock_Perform;
  ctl_Disconnect := mock_Disconnect;
  ctl_Shutdown := mock_Shutdown
|}.

(** ** The laws *)

Definition mock_fit (m : Metrics) (c : MockController) : Prop := True.

(** A call that only looks at its arguments. *)
Lemma mock_answers {A} (r : A) (Q : A -> Prop) : Q r -> call_safe mock_fit (ret r) Q.
Proof. intros Hr st _. by split_and!; [| apply grows_refl |]. Qed.

Lemma mock_Authenticate_lawful sid env :
  is_Some (Headers env) -> call_safe mock_fit (mock_Authenticate sid env) answered.
Proof.
  intros [h Hh]. unfold mock_Authenticate, mock_header. rewrite Hh.
  destruct (String.eqb _ _); [by apply mock_answers; eexists |].
  destruct (String.eqb _ _); [by apply mock_answers |]. by apply (mock_answers (Some _, None)); eexists.
Qed.

Lemma mock_Subscribe_lawful sid env id channel : call_safe mock_fit (mock_Subscribe sid env id channel) answered.
Proof. unfold mock_Subscribe. repeat case_match; apply mock_answers; first [done | by eexists]. Qed.

Lemma mock_Unsubscribe_lawful sid env id channel :
  call_safe mock_fit (mock_Unsubscribe sid env id channel) answered.
Proof. unfold mock_Unsubscribe. case_match; apply mock_answers; first [done | by eexists]. Qed.

Lemma mock_Perform_lawful sid env id channel data :
  call_safe mock_fit (mock_Perform sid env id channel data) answered.
Proof. unfold mock_Perform. case_match; apply mock_answers; first [done | by eexists]. Qed.

(** The theorems about a node with a lawful controller hold for a node with the mock. *)
#[export] Instance mock_lawful : LawfulController MockController := {|
  ctl_fit := mock_fit;
  ctl_fit_grows := fun _ _ _ _ _ => I;
  law_Authenticate := mock_Authenticate_lawful;
  law_Subscribe := fun sid env id channel _ => mock_Subscribe_lawful sid env id channel;
  law_Unsubscribe := fun sid env id channel _ => mock_Unsubscribe_lawful sid env id channel;
  law_Perform := fun sid env id channel data _ => mock_Perform_lawful sid env id channel data;
  law_Disconnect := fun sid env id subs _ => mock_answers None (fun _ => True) I;
  law_Shutdown := fun st _ => conj I (conj (grows_refl st.1) I)
|}.

(** The mock rejects the path "/failure" and no other path of a session, and its answer to a
    command names the session or echoes the data, once. *)
Theorem mock_behaviour sid env id channel data st :
  is_Some (Headers env) ->
  (exists r, mock_Authenticate sid env st = Ret r st /\
     ((exists c, r.1 = Some c /\ con_Status c = FAILURE) <-> URL env = "/failure") /\
     (r.2 <> None <-> URL env = "/error")) /\
  (exists r, mock_Perform sid env id channel data st = Ret r st /\
     (r.2 <> None <-> channel = "failure") /\
     (channel <> "failure" -> exists c, r.1 = Some c /\ Transmissions c = [data])).
Proof.
  intros [h Hh]. unfold mock_Authenticate, mock_Perform, mock_header. rewrite Hh. split.
  - destruct (String.eqb_spec (URL env) "/failure") as [Hu|Hu]; [| destruct (String.eqb_spec (URL env) "/error") as [He|He]];
      eexists; (split; [reflexivity |]); simpl.
    + rewrite Hu. split; [split; [done | intros _; by eexists] | done].
    + rewrite He. split; [| done]. split; [| done]. intros (c & [= <-] & Hc). done.
    + split; [split; [| done] | done]. intros (c & [= <-] & Hc). done.
  - destruct (String.eqb_spec channel "failure"); eexists; (split; [reflexivity |]); simpl; [done |].
    split; [done |]. intros _. by eexists.
Qed.
