(* ===== verification/System.v ===== *)
(** * The running node

    The goroutines of a node as a step relation: connections that are accepted
    ([src/cli/cli.go], the handler of WebSocket connections), the reading and writing
    goroutines and the ping timer of each session ([src/node/session.go]), the loop
    of the hub and the workers of its pool ([src/node/hub.go]), pub/sub messages, the
    goroutine of the disconnect queue ([src/node/disconnect_queue.go]), statistics and
    shutdown ([src/node/node.go]). A step is one round of one of them that runs to its
    end; steps of different goroutines interleave in any order. *)

From Stdlib Require Import ZArith Lia Ascii String.
From stdpp Require Import base gmap strings list fin_maps.
From S2P Require Import Prelude Json Common Protocol Metrics Rpc RpcProps Encoders World Session.
From S2P Require Import Hub HubSpec Node NodeShutdown NodeProps NodeSafe HandlersSafe RpcLaws.

Local Open Scope string_scope.

(** ** Steps *)

Inductive action : Type :=
| ActConnect (l : loc) (c : Conn) (url : string) (headers : gmap string string) (uid : string)
| ActAuthenticate (l : loc)
| ActRead (l : loc) (message : string)
| ActReadError (l : loc) (err : read_error)
| ActWrite (l : loc)
| ActPing (l : loc) (now : Z)
| ActHub (c : hub_case)
| ActWorker (n : nat)
| ActPubSub (raw : string)
| ActQueueSession
| ActQueueShutdown
| ActStats (goroutines sys : Z)
| ActShutdown.

(** The node, the sessions whose authentication is still to come, and those whose
    authentication succeeded. *)
Record Sys (C : Type) : Type := mkSys {
  sys_node : World C;
  sys_pending : gset loc;
  sys_admitted : gset loc
}.
Arguments mkSys {C}.
Arguments sys_node {C}.
Arguments sys_pending {C}.
Arguments sys_admitted {C}.

Section system.
Context {C : Type} `{LawfulController C} {order : GoRange}.
Implicit Types (w : World C) (σ : Sys C) (a : action).

Definition then_false {B} (m : M (World C) B) : M (World C) bool := m ;; ret false.

(** One round of a goroutine. The answer is whether a session was let in. *)
Definition run_action a : M (World C) bool :=
  match a with
  | ActConnect l c url headers uid => then_false (NewSession l c url (Some headers) uid)
  | ActAuthenticate l => let! r := Authenticate l in ret (admitted r)
  | ActRead l message => then_false (ReadMessage HandleCommand l message)
  | ActReadError l err => then_false (Serve HandleCommand (ret tt) l [inr err])
  | ActWrite l => then_false (write_next l)
  | ActPing l now => then_false (sendPing l now)
  | ActHub c => then_false (Run c)
  | ActWorker n => then_false (worker n)
  | ActPubSub raw => then_false (HandlePubSub raw)
  | ActQueueSession => then_false DisconnectQueue_Run_session
  | ActQueueShutdown => then_false DisconnectQueue_Run_shutdown
  | ActStats goroutines sys => then_false (collectStatsOnce goroutines sys)
  | ActShutdown => then_false Node_Shutdown
  end.

(** Sessions are new when they connect and are authenticated once, by the handler
    that created them. The queue's goroutine exists when there is a queue. *)
Definition enabled a σ : Prop :=
  match a with
  | ActConnect l _ _ _ _ => w_sessions (sys_node σ) !! l = None
  | ActAuthenticate l => l ∈ sys_pending σ
  | ActRead l _ | ActReadError l _ | ActWrite l | ActPing l _ => l ∈ dom (w_sessions (sys_node σ))
  | ActQueueSession | ActQueueShutdown => has_queue (sys_node σ)
  | _ => True
  end.

Definition after a (ok : bool) w σ : Sys C :=
  match a with
  | ActConnect l _ _ _ _ => mkSys w ({[ l ]} ∪ sys_pending σ) (sys_admitted σ)
  | ActAuthenticate l =>
      mkSys w (sys_pending σ ∖ {[ l ]})
        (if ok then {[ l ]} ∪ sys_admitted σ else sys_admitted σ)
  | _ => mkSys w (sys_pending σ) (sys_admitted σ)
  end.

Inductive sys_step : Sys C -> Sys C -> Prop :=
| do_action a ok w σ :
    enabled a σ -> run_action a (sys_node σ) = Ret ok w -> sys_step σ (after a ok w σ).

(** How the runner starts a node: it is built, the hub is started, and the
    disconnector is set ([Runner.Run] in [src/cli/cli.go]). *)
Definition fresh_disconnector (d : Disconnector) : Prop :=
  d = DNoop \/ exists config q, NewDisconnectQueue config tt = Ret q tt /\ d = DQueue q.

Inductive boots (c : C) (m : Metrics) (config : NodeConfig) : Sys C -> Prop :=
| boots_node d w0 w :
    NewNode c m config tt = Ret w0 tt -> fresh_disconnector d ->
    (Node_Start ;; SetDisconnector d) w0 = Ret tt w -> boots c m config (mkSys w ∅ ∅).

Inductive reachable (c : C) (m : Metrics) (config : NodeConfig) : Sys C -> Prop :=
| reach_boot σ : boots c m config σ -> reachable c m config σ
| reach_step σ σ' : reachable c m config σ -> sys_step σ σ' -> reachable c m config σ'.

(** ** The invariant of the system *)

Definition sys_ok σ : Prop := good 0 (sys_pending σ) (sys_admitted σ) (sys_node σ).

Lemma then_false_safe {B} (m : M (World C) B) (Q : World C -> Prop) w :
  safe m (fun _ => Q) w -> safe (then_false m) (fun _ => Q) w.
Proof. intros Hm. apply safe_bind. eapply safe_mono; [exact Hm |]. by intros b w' Hw'. Qed.

Lemma RegisterCounter_names n k desc m :
  (n = k \/ is_Some (counters m !! n) -> is_Some (counters (RegisterCounter k desc m) !! n)) /\
  (is_Some (gauges m !! n) -> is_Some (gauges (RegisterCounter k desc m) !! n)).
Proof.
  split; [| done]. simpl. rewrite lookup_insert. case_decide; [eauto |].
  intros [-> | Hn]; [done | exact Hn].
Qed.
Lemma RegisterGauge_names n k desc m :
  (n = k \/ is_Some (gauges m !! n) -> is_Some (gauges (RegisterGauge k desc m) !! n)) /\
  (is_Some (counters m !! n) -> is_Some (counters (RegisterGauge k desc m) !! n)).
Proof.
  split; [| done]. simpl. rewrite lookup_insert. case_decide; [eauto |].
  intros [-> | Hn]; [done | exact Hn].
Qed.

Lemma registerMetrics_ok m : metrics_ok (registerMetrics m).
Proof.
  unfold metrics_ok, node_counters, node_gauges, registerMetrics.
  split; intros n Hn; rewrite !elem_of_cons, elem_of_nil in Hn;
    (repeat destruct Hn as [-> | Hn]); try done.
  all: repeat first
    [ apply RegisterCounter_names; left; reflexivity | apply RegisterGauge_names; left; reflexivity
    | apply RegisterCounter_names; right | apply RegisterGauge_names; right
    | apply RegisterCounter_names | apply RegisterGauge_names ].
Qed.

Lemma NewNode_shape (c : C) m config w0 :
  NewNode c m config tt = Ret w0 tt ->
  exists p, w0 = node_with_hub c m config (hub_with_pool p).
Proof.
  unfold NewNode, NewHub, NewGoPool. unfold bind, panic, block, ret.
  destruct (HubGopoolSize config <? 0)%Z; [done |].
  destruct (HubGopoolSize config =? 0)%Z; [done |]. intros [= <-]. by eexists.
Qed.

Lemma fresh_disconnector_ok d live : fresh_disconnector d -> disconnector_ok live d.
Proof.
  intros [-> | (cfg & q & Hq & ->)]; [done |].
  unfold NewDisconnectQueue in Hq. destruct (Rate cfg =? 0)%Z; [done |].
  injection Hq as <-. simpl. split_and!; try done. set_solver.
Qed.

Lemma boots_ok c m config σ : ctl_fit (registerMetrics m) c -> boots c m config σ -> sys_ok σ.
Proof.
  intros Hc [d w0 w Hnew Hd Hstart]. destruct (NewNode_shape c m config w0 Hnew) as [p ->].
  unfold Node_Start, SetDisconnector, bind, on_hub, zoom, modify, ret in Hstart. simpl in Hstart.
  injection Hstart as <-. split; simpl; try done.
  - eexists. by eapply (implements_chans (hub_with_pool p)); [.. | apply new_hub_implements].
  - intros r Hr. set_solver.
  - exists d. split; [done |]. by apply fresh_disconnector_ok.
  - apply registerMetrics_ok.
Qed.

(** What holds after a step that asks for nothing but the invariant, or for a
    session that exists. *)
Lemma action_safe a σ :
  sys_ok σ -> enabled a σ ->
  safe (run_action a) (fun ok w => sys_ok (after a ok w σ)) (sys_node σ).
Proof.
  intros Hok Hen. unfold sys_ok in *. destruct σ as [w P A].
  destruct a; cbn [run_action after enabled sys_node sys_pending sys_admitted] in *.
  - apply then_false_safe. by apply NewSession_safe.
  - apply safe_bind. eapply safe_mono; [by apply Authenticate_safe |].
    intros r w' Hw'. apply good_sub with P; [set_solver | done].
  - apply then_false_safe, safe_found; [done |]. apply ReadMessage_safe; [done |].
    intros msg. by apply HandleCommand_safe.
  - apply then_false_safe, safe_found; [done |]. cbn [Serve].
    apply maintains_bind; [case_match; by apply disconnectNow_safe | intros; apply maintains_ret].
  - apply then_false_safe, safe_found; [done |]. by apply write_next_safe.
  - apply then_false_safe, safe_found; [done |]. by apply sendPing_safe.
  - apply then_false_safe. by apply Run_safe.
  - apply then_false_safe. by apply worker_safe.
  - apply then_false_safe. by apply HandlePubSub_safe.
  - apply then_false_safe. by apply DisconnectQueue_Run_session_safe.
  - apply then_false_safe. by apply DisconnectQueue_Run_shutdown_safe.
  - apply then_false_safe. by apply collectStatsOnce_safe.
  - apply then_false_safe. by apply Node_Shutdown_safe.
Qed.

Lemma reachable_ok c m config σ :
  ctl_fit (registerMetrics m) c -> reachable c m config σ -> sys_ok σ.
Proof.
  intros Hc. induction 1 as [σ Hb | σ σ' _ IH Hstep]; [by eapply boots_ok |].
  destruct Hstep as [a ok w σ Hen Hrun]. pose proof (action_safe a σ IH Hen) as Hs.
  unfold safe in Hs. by rewrite Hrun in Hs.
Qed.


End system.

(** ** A concrete run *)

(** A node with the RPC controller of [RpcProps], to which one client connects. *)
#[local] Existing Instance flaky_server.
#[local] Existing Instance canonical_order.

Definition run_metrics : Metrics := (sample_rpc 0).1.
Definition run_start : Sys (RpcController nat) :=
  mkSys (set_disconnector (Some DNoop)
           (node_with_hub (sample_rpc 0).2 run_metrics NewNodeConfig
              (set_running true (hub_with_pool (mkPool 16 8 []))))) ∅ ∅.
Definition run_next (a : action) (ok : bool) (σ : Sys (RpcController nat)) : Sys (RpcController nat) :=
  after a ok (final (run_action a (sys_node σ))) σ.
Definition connect_client : action := ActConnect 0 (mkConn [] (fun _ _ => true)) "/cable" ∅ "client".
Definition run_connected : Sys (RpcController nat) := run_next connect_client false run_start.
Definition run_admitted : Sys (RpcController nat) := run_next (ActAuthenticate 0) true run_connected.

Lemma run_fit : ctl_fit (registerMetrics run_metrics) (sample_rpc 0).2.
Proof.
  split.
  - intros n Hn. unfold rpc_counters in Hn. rewrite !elem_of_cons, elem_of_nil in Hn.
    destruct Hn as [-> | [-> | [-> | []]]]; vm_compute; eauto.
  - vm_compute. eauto.
  - by intros h [= <-].
  - intros ch [= <-]. split; [done | by eexists].
Qed.

(** Whether a round returned, with which answer. *)
Definition returned (ok : bool) (o : outcome (World (RpcController nat)) bool) : bool :=
  match o with Ret b _ => Bool.eqb b ok | _ => false end.

Lemma returned_ret ok o : returned ok o = true -> o = Ret ok (final o).
Proof. destruct o as [b w|? ?|? ?]; simpl; [| done | done]. intros Hb. apply eqb_prop in Hb. by subst. Qed.

Lemma run_connected_step :
  returned false (run_action connect_client (sys_node run_start)) = true.
Proof. vm_compute. reflexivity. Qed.

Lemma run_admitted_step :
  returned true (run_action (ActAuthenticate 0) (sys_node run_connected)) = true.
Proof. vm_compute. reflexivity. Qed.

Lemma run_reachable : reachable (sample_rpc 0).2 run_metrics NewNodeConfig run_admitted.
Proof.
  pose proof (returned_ret _ _ run_connected_step) as H1.
  pose proof (returned_ret _ _ run_admitted_step) as H2.
  refine (reach_step _ _ _ run_connected _ _ (do_action (ActAuthenticate 0) true _ run_connected _ H2)).
  - refine (reach_step _ _ _ run_start _ _ (do_action connect_client false _ run_start _ H1)); [| reflexivity].
    apply reach_boot. refine (boots_node _ _ _ DNoop _ _ _ _ _); [reflexivity | by left | reflexivity].
  - apply (bool_decide_eq_true_1 (0 ∈ sys_pending run_connected)). vm_compute. reflexivity.
Qed.


