(* ===== verification/Publish.v ===== *)
(** * From a published message to the wire

    The path of a message through the node: the pub/sub adapter hands its text to the
    node ([HandlePubSub]), the hub takes it from its channel and schedules a task
    ([Run]), a worker queues a frame for every subscriber, and the writing goroutine
    of each session passes it to the connection. *)

From Stdlib Require Import ZArith Lia Ascii String.
From stdpp Require Import base gmap strings list fin_maps.
From S2P Require Import Prelude Json Common Metrics Encoders World Session SessionSafety.
From S2P Require Import Hub HubSpec HubDelivery Node.

Local Open Scope string_scope.

Section publish.
Context {C : Type} `{Controller C} {order : GoRange}.
Implicit Types (l : loc) (w : World C) (s : Session) (m : StreamMessage).

(** The message is received, taken by the hub, and broadcast by a worker. *)
Definition publish (raw : string) : M (World C) unit :=
  HandlePubSub raw ;; Run CaseBroadcast ;; worker 0.

(** A node with nothing else to do. *)
Record idle w : Prop := {
  id_running : running (w_hub w) = true;
  id_streamsMu : streamsMu (w_hub w) = rw_free;
  id_sessionsMu : sessionsMu (w_hub w) = rw_free;
  id_queue : exists cap, broadcast (w_hub w) = mkChan [] (S cap) false;
  id_pool : exists size queue, pool (w_hub w) = mkPool (S size) queue [];
  id_metrics : registered metricsBroadcastMsg w;
  id_writer : writer_ready w;
  id_leave : can_leave w
}.

Definition counted_broadcast w : World C := bump (Counter_Add 1) metricsBroadcastMsg w.

Definition with_task (t : task) h : Hub :=
  set_pool (mkPool (pool_size (pool h)) (pool_queue (pool h)) (pool_tasks (pool h) ++ [t])%list) h.

(** The three steps, up to the broadcast itself. *)
Lemma publish_runs m w :
  idle w -> Stream m <> EmptyString -> valid_utf8 (Stream m) -> valid_utf8 (Data m) ->
  is_Some (streams (w_hub w) !! Stream m) ->
  publish (marshal (stream_document m)) w =
  worker 0 (set_hub (with_task (TaskBroadcast (Stream m) (Data m)) (w_hub w)) (counted_broadcast w)).
Proof.
  intros [Hrun Hm1 Hm2 [cap Hq] (size & queue & Hp) Hmet _ _] Hne Hs Hd [by_sid Hst].
  unfold publish, HandlePubSub. rewrite parse_stream_document by done. unfold Node_Broadcast.
  erewrite bind_ret_eq.
  2: { erewrite bind_ret_eq by (by apply counter_inc_ok).
       unfold on_hub, BroadcastMessage, on_broadcast, zoom; simpl. rewrite Hq. reflexivity. }
  erewrite bind_ret_eq; [reflexivity |].
  unfold Run, receive, bind, get, on_hub, on_broadcast, zoom; simpl. rewrite Hrun; simpl.
  destruct w as [cfg met h d sh ctl heap]; simpl in *. open_hub h.
  unfold broadcastToStream, bind; simpl. by rewrite Hst.
Qed.

(** The frames of a broadcast, and the writes they become. *)
Definition wire_frame (data id : string) : SentFrame :=
  text_frame (marshal (message_document (reply_of data id))).
Definition wire_event (data id : string) : ConnEvent :=
  EvWrite (marshal (message_document (reply_of data id))) writeWait.

Lemma wire_frames data (ids : list string) past ok :
  (forall past e, ok past e = true) ->
  written ok past (wire_frame data <$> ids) = (wire_event data <$> ids, length ids, false).
Proof.
  intros Hok. rewrite written_all; [| done |].
  - rewrite length_fmap. do 2 f_equal. induction ids; simpl; [done |]. by f_equal.
  - apply Forall_fmap, Forall_forall. intros id _. by left.
Qed.

Lemma json_frames data s (ids : list string) :
  encoder s = JSON -> omap (frame_for data s) ids = wire_frame data <$> ids.
Proof.
  intros Hj. induction ids as [|id ids IH]; [done |]. rewrite fmap_cons, <- IH.
  unfold frame_for. simpl. by rewrite Hj.
Qed.

(** What a session is ready for. *)
Definition listens w (stream : string) : Prop :=
  forall l s, sessions (w_hub w) !! UID s = Some l -> w_sessions w !! l = Some s ->
    has_room (size (subscribed_ids (w_hub w) stream (UID s))) s /\ encoder s = JSON.

Lemma publish_delivers m w :
  idle w -> Stream m <> EmptyString -> valid_utf8 (Stream m) -> valid_utf8 (Data m) ->
  is_Some (streams (w_hub w) !! Stream m) ->
  registered_ok (w_hub w) (w_sessions w) -> listens w (Stream m) ->
  exists heap,
    publish (marshal (stream_document m)) w = Ret tt (set_heap heap (counted_broadcast w)) /\
    forall l s, w_sessions w !! l = Some s -> sessions (w_hub w) !! UID s = Some l ->
      heap !! l = Some (pushed (wire_frame (Data m) <$>
                          range_keys (subscribed_ids (w_hub w) (Stream m) (UID s))) s).
Proof.
  intros Hidle Hne Hvs Hvd Hst Hreg Hready. rewrite publish_runs by done.
  set (w0 := set_hub _ _).
  destruct (run_broadcast_ok (fun _ => JSON_Encode) (Stream m) (Data m) w0)
    as (targets & Hrun & Hnd & Hmap); [apply Hidle | apply Hidle | done | |].
  { intros l s Hl Hs. destruct (Hready l s Hl Hs) as [Hroom Hj]. split; [exact Hroom |]. by rewrite Hj. }
  set (heap := delivered (Data m) (w_hub w0) targets (w_sessions w0)) in *.
  exists heap. split.
  - unfold worker, bind, get. destruct Hidle as [_ _ _ _ (size & queue & Hp) _ _ _].
    change (pool_tasks (pool (w_hub w0))) with (pool_tasks (pool (w_hub w)) ++
      [TaskBroadcast (Stream m) (Data m)])%list. rewrite Hp. cbn [pool_tasks app lookup list_lookup run_task].
    rewrite Hrun. unfold on_hub, zoom, modify; simpl. rewrite Hp. simpl.
    destruct w as [cfg met h d sh ctl hp]; simpl in *. unfold w0, counted_broadcast, bump; simpl.
    by open_hub h.
  - intros l s Hs Hl.
    pose proof (delivered_lookup (Data m) (w_hub w0) targets (w_sessions w0) l s Hreg Hnd Hs) as Hd.
    rewrite Hmap in Hd. change (streams (w_hub w0)) with (streams (w_hub w)) in Hd.
    change (sessions (w_hub w0)) with (sessions (w_hub w)) in Hd.
    rewrite snapshot_lookup, decide_True in Hd by done.
    rewrite json_frames in Hd by (by destruct (Hready l s Hl Hs)). exact Hd.
Qed.

Lemma writes_pushed data (ids : list string) l s w :
  has_room (length ids) s -> ch_buf (sendQ s) = [] ->
  (forall past e, conn_ok (conn s) past e = true) -> writer_ready w -> can_leave w ->
  w_sessions w !! l = Some (pushed (wire_frame data <$> ids) s) ->
  exists s2 w2, SendMessages (S (length ids)) l w = Block "chan receive" w2 /\
    w_sessions w2 !! l = Some s2 /\
    conn_trace (conn s2) = (conn_trace (conn s) ++ (wire_event data <$> ids))%list.
Proof.
  intros ([Hmu Hsmu Hop Hcap] & Hch & Hn) Hempty Hconn Hw Hl Hs.
  set (s1 := pushed (wire_frame data <$> ids) s) in *.
  assert (Hq : ch_buf (sendQ s1) = wire_frame data <$> ids) by (simpl; by rewrite Hempty).
  pose proof (SendMessages_ok (S (length ids)) l s1 w) as Hd.
  rewrite put_session_id in Hd by done. unfold drained in Hd. rewrite Hq in Hd.
  change (conn s1) with (conn s) in Hd. rewrite wire_frames in Hd by done.
  change (ch_closed (sendQ s1)) with (ch_closed (sendQ s)) in Hd. rewrite Hop, Hch in Hd.
  destruct Hd as (s' & w' & Hrun & Htrace & _); [| done | done | rewrite length_fmap; lia |].
  { split; try done. rewrite Hq, length_fmap. simpl. rewrite Hempty in Hn. simpl in Hn. lia. }
  exists s', (put_session l s' w'). split; [exact Hrun |]. split; [apply lookup_put |].
  rewrite Htrace. simpl. by rewrite app_nil_r.
Qed.

End publish.

(** ** A concrete publication *)

Definition sample_running_node : World unit :=
  put_session 1 (sample_session [] 256)
    (set_hub (set_running true (set_sessions {[ "sid" := 1 ]}
       (set_streams {[ "news" := {[ "sid" := {[ "chat" := true ]} ]} ]}
          (hub_with_pool (mkPool 16 8 []))))) sample_node).

