(* ===== verification/Gopool.v ===== *)
(** * The pool of goroutines

    Package utils' [GoPool] ([src/utils/gopool.go]): a bounded set of workers that are
    started on demand, share a queue, and end after a fixed number of tasks. The
    rounds of the workers and the calls of [Schedule] interleave in any order. *)

From Stdlib Require Import ZArith Lia Ascii String.
From stdpp Require Import base gmap strings list fin_maps.
From S2P Require Import Prelude Json Common Metrics Encoders World Hub.

Local Open Scope string_scope.

(** [1 << 16] *)
Definition workerRespawnThreshold : Z := Z.shiftl 1 16.

Definition ErrScheduleTimeout : error := Errorf "schedule error: timed out".

(** ** State *)

(** A worker: about to run the task it was started with, waiting for the next one
    after [counter] tasks, or about to run a task it took from the queue. The
    workers that a new pool starts with are given a task that does nothing. *)
Inductive worker_state (T : Type) : Type :=
| Starting (t : option T)
| Waiting (counter : Z)
| Busy (t : T) (counter : Z).
Arguments Starting {T} _.
Arguments Waiting {T} _.
Arguments Busy {T} _ _.

(** [p_executed] records the tasks that were run, in the order in which they ended. *)
Record GoPool (T : Type) : Type := mkGoPool {
  p_name : string;
  p_size : Z;
  p_sem : Chan unit;
  p_work : Chan T;
  p_workers : list (worker_state T);
  p_executed : list T
}.
Arguments mkGoPool {T}.
Arguments p_name {T}.
Arguments p_size {T}.
Arguments p_sem {T}.
Arguments p_work {T}.
Arguments p_workers {T}.
Arguments p_executed {T}.

Section gopool.
Context {T : Type}.
Implicit Types (p : GoPool T) (t : T).

Definition set_p_sem v p := mkGoPool (p_name p) (p_size p) v (p_work p) (p_workers p) (p_executed p).
Definition set_p_work v p := mkGoPool (p_name p) (p_size p) (p_sem p) v (p_workers p) (p_executed p).
Definition set_p_workers v p := mkGoPool (p_name p) (p_size p) (p_sem p) (p_work p) v (p_executed p).
Definition set_p_executed v p := mkGoPool (p_name p) (p_size p) (p_sem p) (p_work p) (p_workers p) v.

Definition on_p_sem {A} : M (Chan unit) A -> M (GoPool T) A := zoom p_sem set_p_sem.
Definition on_p_work {A} : M (Chan T) A -> M (GoPool T) A := zoom p_work set_p_work.

(** [go p.worker(task)] *)
Definition go_worker (t : option T) : M (GoPool T) unit :=
  modify (fun p => set_p_workers (p_workers p ++ [Starting t])%list p).

(** ** Creation *)

Definition spawn_of (size : Z) : Z :=
  let spawn := Z.quot size 5 in
  let spawn := (if spawn <=? 0 then 1 else spawn)%Z in
  (if 1024 <? spawn then 1024 else spawn)%Z.

Definition queue_of (size : Z) : Z :=
  let queue := Z.quot size 2 in
  (if queue <=? 0 then 1 else queue)%Z.

(** The pool before its first workers are started. *)
Definition empty_pool (name : string) (size : Z) : GoPool T :=
  mkGoPool name size (make_chan (Z.to_nat size)) (make_chan (Z.to_nat (queue_of size))) [] [].

Definition NewGoPool (name : string) (size : Z) : outcome (GoPool T) unit :=
  let p := empty_pool name size in
  if (size <? 0)%Z then Panic "makechan: size out of range" p
  else each (fun _ => on_p_sem (chan_send tt) ;; go_worker None)
         (seq 0 (Z.to_nat (spawn_of size))) p.

Definition GoPool_Name p : string := p_name p.
Definition GoPool_Size p : Z := p_size p.

(** ** Scheduling *)

(** The cases of the select in [schedule]; Go picks any that is ready. *)
Inductive schedule_case : Type :=
| CaseTimeout
| CaseWork
| CaseSem.

(** [schedule], for the case that is taken; [timeout] says whether the timeout
    channel has something to receive (it is nil for [Schedule]). *)
Definition schedule (c : schedule_case) (timeout : bool) t : M (GoPool T) (option error) :=
  match c with
  | CaseTimeout => if timeout then ret (Some ErrScheduleTimeout) else block "select"
  | CaseWork => on_p_work (chan_send t) ;; ret None
  | CaseSem => on_p_sem (chan_send tt) ;; go_worker (Some t) ;; ret None
  end.

Definition GoPool_Schedule (c : schedule_case) t : M (GoPool T) unit :=
  schedule c false t ;; ret tt.
Definition ScheduleTimeout (c : schedule_case) (expired : bool) t : M (GoPool T) (option error) :=
  schedule c expired t.

(** ** Workers *)

Definition executing (t : option T) p : GoPool T :=
  set_p_executed (p_executed p ++ option_list t)%list p.

(** The end of a worker: its deferred receive from the semaphore. *)
Definition worker_exit (i : nat) : M (GoPool T) unit :=
  on_p_sem chan_recv ;; modify (fun p => set_p_workers (delete i (p_workers p)) p).

(** The next round of worker [i]: run the task at hand, or take one. *)
Definition worker_round (i : nat) : M (GoPool T) unit :=
  let! p := get in
  match p_workers p !! i with
  | None => block "no such goroutine"
  | Some (Starting t) =>
      modify (fun p => set_p_workers (<[i := Waiting 1]> (p_workers p)) (executing t p))
  | Some (Waiting counter) =>
      let! task := on_p_work chan_recv in
      match task with
      | Some t => modify (fun p => set_p_workers (<[i := Busy t counter]> (p_workers p)) p)
      | None => worker_exit i
      end
  | Some (Busy t counter) =>
      modify (executing (Some t)) ;;
      let counter := (counter + 1)%Z in
      if (workerRespawnThreshold <=? counter)%Z then worker_exit i
      else modify (fun p => set_p_workers (<[i := Waiting counter]> (p_workers p)) p)
  end.

(** ** Steps *)

Inductive pool_act : Type :=
| PoolSchedule (c : schedule_case) (t : T)
| PoolWorker (i : nat).

Definition run_pool_act (a : pool_act) : M (GoPool T) unit :=
  match a with
  | PoolSchedule c t => GoPool_Schedule c t
  | PoolWorker i => worker_round i
  end.

(** The pools that can be reached from a new one, with the tasks that were accepted
    so far. *)
Definition accepts (a : pool_act) : list T :=
  match a with PoolSchedule _ t => [t] | PoolWorker _ => [] end.

Inductive pool_reach (name : string) (size : Z) : list T -> GoPool T -> Prop :=
| pool_new p : NewGoPool name size = Ret tt p -> pool_reach name size [] p
| pool_step a acc p p' :
    pool_reach name size acc p -> run_pool_act a p = Ret tt p' ->
    pool_reach name size (acc ++ accepts a) p'.

(** ** The invariant *)

Definition held (s : worker_state T) : option T :=
  match s with Starting t => t | Waiting _ => None | Busy t _ => Some t end.

(** The tasks that were accepted and have not ended. *)
Definition pending p : list T := (ch_buf (p_work p) ++ omap held (p_workers p))%list.

Record pool_ok (acc : list T) p : Prop := {
  po_sem : p_sem p = mkChan (replicate (length (p_workers p)) tt) (Z.to_nat (p_size p)) false;
  po_size : length (p_workers p) <= Z.to_nat (p_size p);
  po_open : ch_closed (p_work p) = false;
  po_cap : ch_cap (p_work p) = Z.to_nat (queue_of (p_size p));
  po_queue : length (ch_buf (p_work p)) <= ch_cap (p_work p);
  po_tasks : acc ≡ₚ (p_executed p ++ pending p)%list
}.

Lemma spawn_bounds size : (0 < size)%Z -> (1 <= spawn_of size <= size)%Z /\ (spawn_of size <= 1024)%Z.
Proof.
  intros Hs. unfold spawn_of. rewrite Z.quot_div_nonneg by lia.
  pose proof (Z.div_pos size 5 ltac:(lia) ltac:(lia)).
  pose proof (Z.div_le_upper_bound size 5 size ltac:(lia) ltac:(lia)).
  destruct (Z.leb_spec (size / 5) 0); [| destruct (Z.ltb_spec 1024 (size / 5))]; simpl; lia.
Qed.

Lemma omap_starting k : omap held (replicate k (@Starting T None)) = [].
Proof. by induction k. Qed.

(** The workers of a new pool. *)
Definition spawned (name : string) (size : Z) (k : nat) : GoPool T :=
  mkGoPool name size (mkChan (replicate k tt) (Z.to_nat size) false)
    (make_chan (Z.to_nat (queue_of size))) (replicate k (Starting None)) [].

Lemma spawn_one name size k :
  S k <= Z.to_nat size ->
  (on_p_sem (chan_send tt) ;; go_worker None) (spawned name size k) = Ret tt (spawned name size (S k)).
Proof.
  intros Hk. unfold bind, on_p_sem, zoom, chan_send, chan_full, spawned; simpl.
  rewrite length_replicate, bool_decide_false by lia. simpl.
  unfold go_worker, modify, set_p_sem, set_p_workers, chan_push; simpl.
  by rewrite <- !replicate_cons_app.
Qed.

Lemma spawn_loop name size n a k :
  k + n <= Z.to_nat size ->
  each (fun _ => on_p_sem (chan_send tt) ;; go_worker None) (seq a n) (spawned name size k) =
  Ret tt (spawned name size (k + n)).
Proof.
  revert a k. induction n as [|n IH]; intros a k Hk; simpl; [by rewrite Nat.add_0_r |].
  erewrite bind_ret_eq by (apply spawn_one; lia). rewrite IH by lia. do 2 f_equal. lia.
Qed.

Lemma NewGoPool_ok name size :
  (0 < size)%Z -> NewGoPool name size = Ret tt (spawned name size (Z.to_nat (spawn_of size))).
Proof.
  intros Hs. unfold NewGoPool. destruct (Z.ltb_spec size 0); [lia |].
  pose proof (spawn_bounds size Hs). apply (spawn_loop name size _ 0 0). lia.
Qed.

(** A worker that changes what it does. *)
Lemma insert_as_cons {A} (l : list A) i x y :
  l !! i = Some x -> <[i := y]> l ≡ₚ y :: delete i l.
Proof.
  intros Hi. assert (Hlt : i < length l) by (by eapply lookup_lt_Some).
  rewrite (delete_Permutation (<[i := y]> l) i y) by (by apply list_lookup_insert_eq).
  constructor. rewrite !delete_take_drop, take_insert_ge, drop_insert_lt by lia. done.
Qed.

Lemma held_insert ws i s s' :
  ws !! i = Some s ->
  omap held (<[i := s']> ws) ≡ₚ (option_list (held s') ++ omap held (delete i ws))%list.
Proof. intros Hi. rewrite (insert_as_cons ws i s s') by done. simpl. by destruct (held s'). Qed.

Lemma held_at ws i s :
  ws !! i = Some s -> omap held ws ≡ₚ (option_list (held s) ++ omap held (delete i ws))%list.
Proof. intros Hi. rewrite (delete_Permutation ws i s) at 1 by done. simpl. by destruct (held s). Qed.

Lemma length_held ws : length (omap held ws) <= length ws.
Proof.
  induction ws as [|s ws IH]; [done |].
  change (omap held (s :: ws)) with
    (match held s with Some t => t :: omap held ws | None => omap held ws end).
  destruct (held s); simpl; lia.
Qed.

Lemma delete_length {A} (l : list A) i x : l !! i = Some x -> length l = S (length (delete i l)).
Proof. intros Hi. by rewrite (delete_Permutation l i x) at 1. Qed.

Lemma new_pool_ok name size p : NewGoPool name size = Ret tt p -> (0 < size)%Z /\ pool_ok [] p.
Proof.
  intros Hnew. destruct (Z.ltb_spec size 0) as [Hneg|Hpos].
  { unfold NewGoPool in Hnew. by rewrite (proj2 (Z.ltb_lt _ _)) in Hnew. }
  destruct (decide (size = 0%Z)) as [->|Hne]; [done |].
  assert (Hs : (0 < size)%Z) by lia. split; [done |]. rewrite NewGoPool_ok in Hnew by done.
  injection Hnew as <-. pose proof (spawn_bounds size Hs). split; simpl; try done.
  - by rewrite length_replicate.
  - rewrite length_replicate. lia.
  - lia.
  - unfold pending; simpl. by rewrite omap_starting.
Qed.

(** Accepting a task. *)
Lemma schedule_ok c t acc p p' :
  pool_ok acc p -> GoPool_Schedule c t p = Ret tt p' ->
  pool_ok (acc ++ [t]) p' /\ pending p' ≡ₚ t :: pending p /\ p_executed p' = p_executed p /\
  p_size p' = p_size p /\
  length (pending p) < Z.to_nat (p_size p) + Z.to_nat (queue_of (p_size p)).
Proof.
  intros [Hsem Hsize Hopen Hcap Hq Ht] Hrun.
  assert (Hlen : length (omap held (p_workers p)) <= length (p_workers p)) by apply length_held.
  unfold GoPool_Schedule, schedule, bind, on_p_work, on_p_sem, go_worker, zoom, chan_send in Hrun.
  destruct c; simpl in Hrun; [done | |].
  - rewrite Hopen in Hrun. destruct (chan_full (p_work p)) eqn:Hf; [done |].
    apply bool_decide_eq_false in Hf. injection Hrun as <-.
    assert (Hp : pending (set_p_work (chan_push t (p_work p)) p) ≡ₚ t :: pending p).
    { unfold pending; simpl. rewrite <- app_assoc. symmetry. apply Permutation_middle. }
    split_and!; try done.
    + split; simpl; try done; [rewrite length_app; simpl; lia |].
      rewrite Hp, Ht. rewrite <- app_assoc. f_equiv. by rewrite Permutation_app_comm.
    + unfold pending. rewrite length_app. lia.
  - rewrite Hsem in Hrun. unfold chan_full in Hrun; simpl in Hrun. rewrite length_replicate in Hrun.
    case_bool_decide as Hf; [done |]. injection Hrun as <-.
    set (p' := set_p_workers _ _).
    assert (Hp : pending p' ≡ₚ t :: pending p).
    { unfold pending, p'; simpl. rewrite omap_app. simpl.
      rewrite app_assoc. symmetry. apply Permutation_cons_append. }
    split_and!; try done.
    + split; unfold p'; simpl; try done.
      * unfold chan_push; simpl. by rewrite length_app, <- replicate_cons_app, Nat.add_1_r.
      * rewrite length_app; simpl. lia.
      * fold p'. rewrite Hp, Ht. rewrite <- app_assoc. f_equiv. by rewrite Permutation_app_comm.
    + unfold pending. rewrite length_app. lia.
Qed.

(** A worker that ends gives its place back. *)
Lemma worker_exit_ok i s p :
  p_sem p = mkChan (replicate (length (p_workers p)) tt) (Z.to_nat (p_size p)) false ->
  p_workers p !! i = Some s ->
  worker_exit i p =
  Ret tt (set_p_workers (delete i (p_workers p))
    (set_p_sem (mkChan (replicate (length (delete i (p_workers p))) tt) (Z.to_nat (p_size p)) false) p)).
Proof.
  intros Hsem Hi. unfold worker_exit, bind, on_p_sem, zoom, chan_recv. rewrite Hsem.
  by rewrite (delete_length _ _ _ Hi).
Qed.

(** What a round does to the tasks: some end, none is lost. *)
Definition round_done (acc : list T) p p' : Prop :=
  pool_ok acc p' /\ p_size p' = p_size p /\
  exists ts, p_executed p' = (p_executed p ++ ts)%list /\ pending p ≡ₚ (ts ++ pending p')%list.

Lemma round_tasks acc ex ts (pend pend' : list T) :
  acc ≡ₚ (ex ++ pend)%list -> pend ≡ₚ (ts ++ pend')%list -> acc ≡ₚ ((ex ++ ts) ++ pend')%list.
Proof. intros -> ->. by rewrite app_assoc. Qed.

Lemma worker_round_ok i acc p p' :
  pool_ok acc p -> worker_round i p = Ret tt p' -> round_done acc p p'.
Proof.
  intros [Hsem Hsize Hopen Hcap Hq Ht] Hrun. unfold worker_round, bind, get in Hrun.
  destruct (p_workers p !! i) as [s|] eqn:Hi; [| done].
  pose proof (held_at _ _ _ Hi) as Hheld. destruct s as [t|counter|t counter].
  - injection Hrun as <-.
    assert (Hpend : pending p ≡ₚ (option_list t ++
      (ch_buf (p_work p) ++ omap held (<[i := Waiting 1]> (p_workers p))))%list).
    { unfold pending. rewrite Hheld, (held_insert _ i _ (Waiting 1) Hi). simpl. solve_Permutation. }
    split; [| split; [done | by exists (option_list t)]].
    split; simpl; rewrite ?length_insert; try done. by eapply round_tasks.
  - unfold on_p_work, zoom, chan_recv in Hrun.
    destruct (ch_buf (p_work p)) as [|t b] eqn:Hb; rewrite Hopen in Hrun; [done |].
    injection Hrun as <-.
    assert (Hpend : pending p ≡ₚ (b ++ omap held (<[i := Busy t counter]> (p_workers p)))%list).
    { unfold pending. rewrite Hb, Hheld, (held_insert _ i _ (Busy t counter) Hi). simpl. solve_Permutation. }
    split; [| split; [done | exists []; by rewrite app_nil_r]].
    split; simpl; rewrite ?length_insert; try done; [simpl in Hq; lia |].
    unfold pending; simpl. by rewrite Ht, Hpend.
  - assert (Hpend : forall rest, (omap held rest) ≡ₚ omap held (delete i (p_workers p)) ->
      pending p ≡ₚ ([t] ++ (ch_buf (p_work p) ++ omap held rest))%list).
    { intros rest Hrest. unfold pending. rewrite Hheld, Hrest. simpl. solve_Permutation. }
    simpl in Hrun. destruct (workerRespawnThreshold <=? counter + 1)%Z.
    + rewrite (worker_exit_ok i (Busy t counter)) in Hrun by done. injection Hrun as <-.
      pose proof (delete_length _ _ _ Hi) as Hlen.
      split; [| split; [done | exists [t]; split; [done | by apply Hpend]]].
      split; simpl; try done; [lia |]. by eapply round_tasks, Hpend.
    + injection Hrun as <-.
      assert (Hins : omap held (<[i := Waiting (counter + 1)]> (p_workers p)) ≡ₚ
        omap held (delete i (p_workers p))) by (by rewrite (held_insert _ i _ _ Hi)).
      split; [| split; [done | exists [t]; split; [done | by apply Hpend]]].
      split; simpl; rewrite ?length_insert; try done. by eapply round_tasks, Hpend.
Qed.

Lemma pool_reach_ok name size acc p : pool_reach name size acc p -> p_size p = size /\ pool_ok acc p.
Proof.
  induction 1 as [p Hnew | a acc p p' _ [IHs IH] Hrun].
  - split; [| by eapply new_pool_ok]. destruct (new_pool_ok _ _ _ Hnew) as [Hs _].
    rewrite NewGoPool_ok in Hnew by done. by injection Hnew as <-.
  - destruct a as [c t|i]; simpl in *.
    + destruct (schedule_ok c t acc p p' IH Hrun) as (Hok & _ & _ & Hs & _). by rewrite Hs.
    + rewrite app_nil_r. destruct (worker_round_ok i acc p p' IH Hrun) as (Hok & Hs & _). by rewrite Hs.
Qed.

(** C29. However calls of [Schedule] and rounds of workers interleave, every accepted task
    is in exactly one place: run, in the queue, or in the hands of a worker. There
    are never more workers than the size of the pool, nor more unfinished tasks than
    workers and places in the queue. *)
Theorem pool_runs_each_once name size acc p :
  pool_reach name size acc p ->
  acc ≡ₚ (p_executed p ++ ch_buf (p_work p) ++ omap held (p_workers p))%list /\
  length (p_workers p) <= Z.to_nat size /\
  length (pending p) <= Z.to_nat size + Z.to_nat (queue_of size).
Proof.
  intros Hr. destruct (pool_reach_ok _ _ _ _ Hr) as [<- [Hsem Hsize Hopen Hcap Hq Ht]].
  split; [exact Ht |]. split; [done |]. unfold pending. rewrite length_app.
  pose proof (length_held (p_workers p)). lia.
Qed.

(** ** Workers that end *)

(** The one worker of a pool of size 1, with nothing queued. *)
Definition lone_worker name (c : Z) (ex : list T) : GoPool T :=
  mkGoPool name 1 (mkChan [tt] 1 false) (make_chan 1) [Waiting c] ex.

Lemma lone_step name t c acc ex :
  (c + 1 < workerRespawnThreshold)%Z ->
  pool_reach name 1 acc (lone_worker name c ex) ->
  pool_reach name 1 (acc ++ [t]) (lone_worker name (c + 1) (ex ++ [t])).
Proof.
  intros Hc Hr.
  pose proof (pool_step name 1 (PoolSchedule CaseWork t) _ _ _ Hr eq_refl) as H1.
  pose proof (pool_step name 1 (PoolWorker 0) _ _ _ H1 eq_refl) as H2.
  eapply (pool_step name 1 (PoolWorker 0)) in H2.
  2: { unfold run_pool_act, worker_round, bind, get; simpl.
       destruct (Z.leb_spec workerRespawnThreshold (c + 1)); [lia |]. reflexivity. }
  simpl in H2. by rewrite !app_nil_r in H2.
Qed.

Lemma lone_steps name t c n :
  (c + Z.of_nat n < workerRespawnThreshold)%Z ->
  (exists acc ex, pool_reach name 1 acc (lone_worker name c ex)) ->
  exists acc ex, pool_reach name 1 acc (lone_worker name (c + Z.of_nat n) ex).
Proof.
  revert c. induction n as [|n IH]; intros c Hc (acc & ex & Hr).
  - exists acc, ex. by rewrite Z.add_0_r.
  - replace (c + Z.of_nat (S n))%Z with ((c + 1) + Z.of_nat n)%Z by lia. apply IH; [lia |].
    do 2 eexists. apply (lone_step name t); [lia | exact Hr].
Qed.

(** When a worker has run its share of tasks it ends even if more are queued: a pool
    can be left without workers and with a task that nothing runs, until another
    task is scheduled. *)
Theorem pool_strands_tasks name t :
  exists acc p, pool_reach name 1 acc p /\
    p_workers p = [] /\ ch_buf (p_work p) = [t] /\
    forall i p', worker_round i p <> Ret tt p'.
Proof.
  destruct (lone_steps name t 1 (Z.to_nat (workerRespawnThreshold - 2)%Z)) as (acc & ex & Hr).
  { unfold workerRespawnThreshold. change (Z.shiftl 1 16) with 65536%Z. lia. }
  { exists [], []. pose proof (pool_new name 1 _ (NewGoPool_ok name 1 eq_refl)) as H0.
    exact (pool_step name 1 (PoolWorker 0) _ _ _ H0 eq_refl). }
  replace (1 + Z.of_nat _)%Z with (workerRespawnThreshold - 1)%Z in Hr.
  2: { unfold workerRespawnThreshold. change (Z.shiftl 1 16) with 65536%Z. lia. }
  pose proof (pool_step name 1 (PoolSchedule CaseWork t) _ _ _ Hr eq_refl) as H1.
  pose proof (pool_step name 1 (PoolWorker 0) _ _ _ H1 eq_refl) as H2.
  pose proof (pool_step name 1 (PoolSchedule CaseWork t) _ _ _ H2 eq_refl) as H3.
  eapply (pool_step name 1 (PoolWorker 0)) in H3.
  2: { unfold run_pool_act, worker_round, bind, get; simpl.
       destruct (Z.leb_spec workerRespawnThreshold (workerRespawnThreshold - 1 + 1)); [reflexivity | lia]. }
  do 2 eexists. split; [exact H3 |]. split; [done |]. split; [done |]. by intros i p'.
Qed.
End gopool.

(** ** The pool of the hub *)

(** The pool that [World] gives the hub is an abstraction of this one: the tasks it
    holds are the unfinished ones, in some order. *)
Definition abstracts (p : GoPool task) (h : HubPool) : Prop :=
  pool_size h = Z.to_nat (p_size p) /\ pool_queue h = Z.to_nat (queue_of (p_size p)) /\
  pool_tasks h ≡ₚ pending p.

Lemma new_pool_abstracts name size q (h : HubPool) :
  NewGoPool name size = Ret tt q -> World.NewGoPool size tt = Ret h tt -> abstracts q h.
Proof.
  intros Hnew Hw. destruct (new_pool_ok _ _ _ Hnew) as [Hpos _].
  rewrite NewGoPool_ok in Hnew by done. injection Hnew as <-.
  unfold World.NewGoPool in Hw. destruct (Z.ltb_spec size 0); [lia |].
  destruct (Z.eqb_spec size 0); [lia |]. injection Hw as <-.
  unfold abstracts, pending; simpl. by rewrite omap_starting.
Qed.

(** C30. Every step of the goroutine pool is one the hub's pool allows: a task that is
    accepted is accepted by [Schedule] of the hub, and a round of a worker takes
    away only tasks that were there. *)
Theorem gopool_refines_hub_pool name size acc p a p' h :
  pool_reach name size acc p -> run_pool_act a p = Ret tt p' -> abstracts p (pool h) ->
  exists ts, p_executed p' = (p_executed p ++ ts)%list /\
  match a with
  | PoolSchedule _ t =>
      ts = [] /\ exists h', Schedule t h = Ret tt h' /\ abstracts p' (pool h')
  | PoolWorker _ => exists rest, pool_tasks (pool h) ≡ₚ (ts ++ rest)%list /\
      abstracts p' (mkPool (pool_size (pool h)) (pool_queue (pool h)) rest)
  end.
Proof.
  intros Hr Hrun (Hs & Hq & Hts). destruct (pool_reach_ok _ _ _ _ Hr) as [Hsize Hok].
  destruct a as [c t|i]; simpl in Hrun.
  - destruct (schedule_ok c t acc p p' Hok Hrun) as (_ & Hp & He & Hsz & Hlen).
    exists []. rewrite app_nil_r. split; [done |]. split; [done |]. unfold Schedule.
    rewrite bool_decide_true by (rewrite Hs, Hq, Hts; lia). eexists. split; [reflexivity |].
    unfold abstracts; simpl. rewrite Hsz. split_and!; [done | done |].
    rewrite Hts, Hp. symmetry. apply Permutation_cons_append.
  - destruct (worker_round_ok i acc p p' Hok Hrun) as (_ & Hsz & ts & He & Hp).
    exists ts. split; [done |]. exists (pending p'). split; [by rewrite Hts, Hp |].
    unfold abstracts; simpl. by rewrite Hsz.
Qed.

Lemma pool_runs_each_once_witness :
  length (p_workers (spawned (T := task) "hub" 16 3)) <= 16.
Proof.
  destruct (pool_runs_each_once "hub" 16 [] (spawned (T := task) "hub" 16 3)) as (_ & Hw & _).
  - apply pool_new. reflexivity.
  - exact Hw.
Defined.

Lemma gopool_refines_witness :
  exists (ts : list task) h', ts = [] /\
    Schedule (TaskBroadcast "s" "d") (hub_with_pool (mkPool 16 8 [])) = Ret tt h'.
Proof.
  destruct (gopool_refines_hub_pool "hub" 16 [] (spawned "hub" 16 3)
    (PoolSchedule CaseWork (TaskBroadcast "s" "d"))
    (set_p_work (mkChan [TaskBroadcast "s" "d"] 8 false) (spawned "hub" 16 3))
    (hub_with_pool (mkPool 16 8 []))) as (ts & He & Hts & h' & Hh & _).
  - apply pool_new. reflexivity.
  - reflexivity.
  - split_and!; reflexivity.
  - exists ts, h'. split; [exact Hts | exact Hh].
Defined.
