(* ===== verification/Stats.v ===== *)
(** * Package stats

    The aggregate of duration samples that the benchmarks report
    ([src/stats/stats.go]). Durations are [int64] nanoseconds. *)

From Stdlib Require Import ZArith Lia Ascii String.
From stdpp Require Import base strings list sorting sets.
From S2P Require Import Prelude.

Local Open Scope string_scope.

(** ** Rounding *)

Definition Microsecond : Z := 1000.
Definition Millisecond : Z := 1000000.

(** Go's division truncates toward zero, and the sum wraps around. *)
Definition RoundToMS (d : Z) : Z := Z.quot (to_i64 (d + 500 * Microsecond)) Millisecond.

(** ** The aggregate *)

Record ResAggregate : Type := mkAgg { samples : list Z; sorted : bool }.

Definition new_aggregate : ResAggregate := mkAgg [] false.

(** [append] may share the backing array, but the aggregate owns it. *)
Definition Add (rtt : Z) : M ResAggregate unit :=
  modify (fun agg => mkAgg (samples agg ++ [rtt])%list false).

Definition Count (agg : ResAggregate) : Z := Z.of_nat (length (samples agg)).

(** [sort.Sort(byAsc(agg.samples))]: the samples in ascending order. There is only
    one such order of integers, so it does not matter that the sort is not stable. *)
Definition byAsc (l : list Z) : list Z := merge_sort Z.le l.

Definition agg_sort : M ResAggregate unit :=
  let! agg := get in
  if sorted agg then ret tt else modify (fun agg => mkAgg (byAsc (samples agg)) true).

(** An index out of range panics. *)
Definition sample_at (i : Z) : M ResAggregate Z :=
  let! agg := get in
  match (if (i <? 0)%Z then None else samples agg !! Z.to_nat i) with
  | Some v => ret v
  | None => panic "index out of range"
  end.

Definition Min : M ResAggregate Z :=
  let! agg := get in
  if (Count agg =? 0)%Z then ret 0%Z else agg_sort ;; sample_at 0.

Definition Max : M ResAggregate Z :=
  let! agg := get in
  if (Count agg =? 0)%Z then ret 0%Z
  else
    agg_sort ;;
    let! agg := get in
    sample_at (Count agg - 1).

Definition Percentile (p : Z) : M ResAggregate Z :=
  if (p <=? 0)%Z then panic "p must be greater than 0"
  else if (100 <=? p)%Z then panic "p must be less 100"
  else
    agg_sort ;;
    let! agg := get in
    let rank := Z.quot (p * Count agg) 100 in
    if (Count agg =? 0)%Z then ret 0%Z else sample_at rank.

(** ** The invariant *)

(** The flag is not set unless the samples are in order. *)
Definition agg_ok (agg : ResAggregate) : Prop := sorted agg = true -> StronglySorted Z.le (samples agg).

Lemma byAsc_sorted l : StronglySorted Z.le (byAsc l).
Proof. apply (StronglySorted_merge_sort _). Qed.

Lemma byAsc_perm l : byAsc l ≡ₚ l.
Proof. apply merge_sort_Permutation. Qed.

Lemma byAsc_id l : StronglySorted Z.le l -> byAsc l = l.
Proof.
  intros Hl. apply (StronglySorted_unique Z.le); [apply byAsc_sorted | done | apply byAsc_perm].
Qed.

(** Adding a sample, and asking, keep the samples. *)
Lemma agg_sort_ok agg :
  agg_ok agg -> agg_sort agg = Ret tt (mkAgg (byAsc (samples agg)) true).
Proof.
  intros Hok. unfold agg_sort, bind, get. destruct agg as [l b]; simpl. destruct b; [| done].
  simpl in Hok. rewrite byAsc_id by (by apply Hok). done.
Qed.

Lemma filter_none (P : Z -> Prop) `{forall x, Decision (P x)} (l : list Z) :
  Forall (fun x => ~ P x) l -> filter P l = [].
Proof. induction 1; [done |]. by rewrite filter_cons, decide_False. Qed.

Lemma sorted_rank (l : list Z) r v :
  StronglySorted Z.le l -> l !! r = Some v ->
  length (filter (fun x => x < v)%Z l) <= r < length (filter (fun x => x <= v)%Z l).
Proof.
  intros Hl. revert r. induction Hl as [|x l Hl IH Hx]; intros r Hr; [done |].
  rewrite !filter_cons. destruct r as [|r]; simpl in Hr.
  - injection Hr as ->. rewrite decide_False, decide_True by lia. simpl. split; [| lia].
    rewrite (filter_none (fun x => x < v)%Z); [done |].
    eapply Forall_impl; [exact Hx |]. simpl. lia.
  - specialize (IH r Hr). assert (x <= v)%Z.
    { rewrite Forall_forall in Hx. apply Hx. by eapply list_elem_of_lookup_2. }
    rewrite (decide_True (P := (x <= v)%Z)) by done. simpl. case_decide; simpl; lia.
Qed.

Lemma filter_length_perm (P : Z -> Prop) `{forall x, Decision (P x)} (l k : list Z) :
  l ≡ₚ k -> length (filter P l) = length (filter P k).
Proof. by intros ->. Qed.

Lemma sample_at_ok i l b v :
  (0 <= i)%Z -> l !! Z.to_nat i = Some v -> sample_at i (mkAgg l b) = Ret v (mkAgg l b).
Proof.
  intros Hi Hl. unfold sample_at, bind, get. simpl.
  destruct (Z.ltb_spec i 0); [lia |]. by rewrite Hl.
Qed.

(** The p-th percentile of a set of samples is one of them, and about p percent of
    the samples are below it: at most p percent are smaller, more than p percent are
    not larger. Asking sorts the samples and changes nothing else; of no samples it
    is 0, and p outside 1..99 panics. *)
Theorem percentile_spec agg p :
  agg_ok agg ->
  ((0 < p < 100)%Z -> samples agg = [] -> exists agg', Percentile p agg = Ret 0%Z agg') /\
  ((0 < p < 100)%Z -> samples agg <> [] ->
   exists v agg', Percentile p agg = Ret v agg' /\ agg_ok agg' /\ samples agg' ≡ₚ samples agg /\
     v ∈ samples agg /\
     (100 * Z.of_nat (length (filter (fun x => x < v)%Z (samples agg))) <= p * Count agg)%Z /\
     (p * Count agg < 100 * Z.of_nat (length (filter (fun x => x <= v)%Z (samples agg))))%Z) /\
  ((p <= 0 \/ 100 <= p)%Z -> exists why, Percentile p agg = Panic why agg).
Proof.
  intros Hok. unfold Percentile. split_and!.
  - intros Hp Hnil. destruct (Z.leb_spec p 0), (Z.leb_spec 100 p); try lia.
    erewrite bind_ret_eq by (by apply agg_sort_ok). rewrite Hnil. eexists. reflexivity.
  - intros Hp Hne. destruct (Z.leb_spec p 0), (Z.leb_spec 100 p); try lia.
    erewrite bind_ret_eq by (by apply agg_sort_ok).
    assert (Hlen : length (byAsc (samples agg)) = length (samples agg)) by (by rewrite byAsc_perm).
    assert (Hpos : 0 < length (samples agg)) by (destruct (samples agg); simpl; [done | lia]).
    unfold Count. set (n := Z.of_nat (length (samples agg))).
    assert (Hn : (0 < p * n)%Z) by lia. pose proof (Z.div_pos (p * n) 100 ltac:(lia) ltac:(lia)).
    set (r := Z.to_nat (p * n / 100)). assert (Hr : (Z.of_nat r = p * n / 100)%Z) by lia.
    assert (Hrn : r < length (byAsc (samples agg))).
    { rewrite Hlen. pose proof (Z.div_lt_upper_bound (p * n) 100 n). nia. }
    destruct (lookup_lt_is_Some_2 _ _ Hrn) as [v Hv].
    exists v, (mkAgg (byAsc (samples agg)) true). split.
    { erewrite bind_ret_eq by reflexivity. cbv zeta. unfold Count. cbn [samples]. rewrite Hlen. fold n.
      destruct (Z.eqb_spec n 0); [lia |]. apply sample_at_ok.
      - apply Z.quot_pos; lia.
      - rewrite Z.quot_div_nonneg by lia. exact Hv. }
    split; [intros _; apply byAsc_sorted |]. split; [apply byAsc_perm |].
    split; [rewrite <- byAsc_perm; by eapply list_elem_of_lookup_2 |].
    pose proof (sorted_rank _ r v (byAsc_sorted _) Hv) as Hrank.
    rewrite !(filter_length_perm _ _ _ (byAsc_perm (samples agg))) in Hrank.
    pose proof (Z.div_mod (p * n) 100). pose proof (Z.mod_pos_bound (p * n) 100). lia.
  - intros Hp. destruct (Z.leb_spec p 0); [by eexists |]. destruct (Z.leb_spec 100 p); [by eexists | lia].
Qed.

(** The smallest and the largest sample. *)
Lemma extremes_spec agg :
  agg_ok agg -> samples agg <> [] ->
  exists lo hi agg1 agg2,
    Min agg = Ret lo agg1 /\ Max agg = Ret hi agg2 /\ lo ∈ samples agg /\ hi ∈ samples agg /\
    forall x, x ∈ samples agg -> (lo <= x <= hi)%Z.
Proof.
  intros Hok Hne. pose proof (byAsc_perm (samples agg)) as Hp. pose proof (byAsc_sorted (samples agg)) as Hs.
  assert (Hc : (Count agg =? 0)%Z = false).
  { unfold Count. destruct (samples agg); [done |]. simpl. lia. }
  set (l := byAsc (samples agg)) in *.
  assert (Hl : l <> []) by (intros El; rewrite El in Hp; by apply Permutation_nil_l in Hp).
  destruct (exists_last Hl) as (front & hi & Hlast). destruct l as [|lo rest] eqn:Hcons; [done |].
  exists lo, hi, (mkAgg l true), (mkAgg l true). subst l. rewrite Hcons.
  unfold Min, Max. split_and!.
  - erewrite bind_ret_eq by reflexivity. rewrite Hc. erewrite bind_ret_eq by (by apply agg_sort_ok).
    rewrite Hcons. by apply sample_at_ok.
  - erewrite bind_ret_eq by reflexivity. rewrite Hc. erewrite bind_ret_eq by (by apply agg_sort_ok).
    erewrite bind_ret_eq by reflexivity. rewrite Hcons, Hlast. unfold Count. simpl.
    rewrite length_app. simpl. apply sample_at_ok; [lia |].
    rewrite lookup_app_r by lia. replace (_ - _) with 0 by lia. done.
  - rewrite <- Hp. set_solver.
  - rewrite <- Hp, Hlast. set_solver.
  - intros x. rewrite <- Hp. intros Hx. split.
    + apply StronglySorted_inv in Hs as [_ Hs]. rewrite Forall_forall in Hs.
      apply elem_of_cons in Hx as [-> | Hx]; [lia | by apply Hs].
    + rewrite Hlast in Hs, Hx. apply StronglySorted_app in Hs as (Hle & _ & _).
      apply elem_of_app in Hx as [Hx | Hx]; [apply Hle; set_solver | set_solver].
Qed.

(** Rounding to milliseconds is to the nearest one, for durations that do not
    overflow when half a millisecond is added. *)
Lemma RoundToMS_nearest d :
  (0 <= d < 2 ^ 63 - 500000)%Z -> (Z.abs (Millisecond * RoundToMS d - d) <= 500000)%Z.
Proof.
  intros Hd. unfold RoundToMS, Millisecond, Microsecond. rewrite to_i64_small by lia.
  rewrite Z.quot_div_nonneg by lia.
  pose proof (Z.div_mod (d + 500 * 1000) 1000000). pose proof (Z.mod_pos_bound (d + 500 * 1000) 1000000).
  lia.
Qed.

Lemma percentile_witness :
  exists v agg', Percentile 50 (mkAgg [30; 10; 20]%Z false) = Ret v agg' /\ v ∈ [30; 10; 20]%Z.
Proof.
  destruct (percentile_spec (mkAgg [30; 10; 20]%Z false) 50) as (_ & H & _); [done |].
  destruct H as (v & agg' & Hrun & _ & _ & Hin & _); [lia | discriminate |].
  exists v, agg'. split; [exact Hrun | exact Hin].
Defined.
