(* ===== verification/ConnPool.v ===== *)
(** * The pool of gRPC connections

    Package pool ([src/pool/pool.go]): a pool of client connections kept in a channel.
    The factory that dials a connection is an argument of the pool, and closing a
    connection is an operation of the gRPC library: both are parameters here. *)

From Stdlib Require Import ZArith Lia Ascii String.
From stdpp Require Import base strings list sets.
From S2P Require Import Prelude.

Local Open Scope string_scope.

(** A pointer to a connection; nil is [None]. *)
Abbreviation conn_ptr := (option nat).

Definition errClosed : error := Errorf "pool is closed".

(** [cp_conns] and [cp_factory] say whether the fields [conns] and [factory] are not
    nil; the channel outlives the field, because [Get] and [Close] hold on to it.
    [cp_made] records the connections the factory made and [cp_closed] those that
    were closed. *)
Record channelPool (F : Type) : Type := mkChannelPool {
  cp_mu : bool;
  cp_conns : bool;
  cp_chan : Chan conn_ptr;
  cp_activeCount : Z;
  cp_factory : bool;
  cp_ext : F;
  cp_made : list nat;
  cp_closed : list nat
}.
Arguments mkChannelPool {F}.
Arguments cp_mu {F}.
Arguments cp_conns {F}.
Arguments cp_chan {F}.
Arguments cp_activeCount {F}.
Arguments cp_factory {F}.
Arguments cp_ext {F}.
Arguments cp_made {F}.
Arguments cp_closed {F}.

Section pool.
Context {F : Type}.
(** The factory, and the error that closing a connection returns. *)
Context (factory : F -> result conn_ptr * F) (close_conn : nat -> option error).
Implicit Types c : channelPool F.

Definition set_cp_mu v c := mkChannelPool v (cp_conns c) (cp_chan c) (cp_activeCount c) (cp_factory c) (cp_ext c) (cp_made c) (cp_closed c).
Definition set_cp_chan v c := mkChannelPool (cp_mu c) (cp_conns c) v (cp_activeCount c) (cp_factory c) (cp_ext c) (cp_made c) (cp_closed c).
Definition set_cp_active v c := mkChannelPool (cp_mu c) (cp_conns c) (cp_chan c) v (cp_factory c) (cp_ext c) (cp_made c) (cp_closed c).
Definition add_cp_closed n c := mkChannelPool (cp_mu c) (cp_conns c) (cp_chan c) (cp_activeCount c) (cp_factory c) (cp_ext c) (cp_made c) (cp_closed c ++ [n])%list.

Definition on_cp_mu : M bool unit -> M (channelPool F) unit := zoom cp_mu set_cp_mu.
Definition on_cp_chan {A} : M (Chan conn_ptr) A -> M (channelPool F) A := zoom cp_chan set_cp_chan.

(** [c.factory()] *)
Definition call_factory : M (channelPool F) (result conn_ptr) := fun c =>
  if negb (cp_factory c) then nil_deref c
  else
    let '(r, f) := factory (cp_ext c) in
    let made := match r with Ok (Some n) => [n] | _ => [] end in
    Ret r (mkChannelPool (cp_mu c) (cp_conns c) (cp_chan c) (cp_activeCount c) (cp_factory c) f
             (cp_made c ++ made)%list (cp_closed c)).

(** [conn.Close()] *)
Definition close_ptr (p : conn_ptr) : M (channelPool F) (option error) :=
  match p with
  | None => nil_deref
  | Some n => modify (add_cp_closed n) ;; ret (close_conn n)
  end.

Definition wrapConn (conn : conn_ptr) : M (channelPool F) conn_ptr :=
  on_cp_mu lock ;;
  modify (fun c => set_cp_active (cp_activeCount c + 1)%Z c) ;;
  on_cp_mu unlock ;;
  ret conn.

(** ** Closing the pool *)

(** The first half of [Close], under the mutex: the fields are set to nil. *)
Definition Close_detach : M (channelPool F) bool :=
  on_cp_mu lock ;;
  let! c := get in
  modify (fun c => mkChannelPool (cp_mu c) false (cp_chan c) (cp_activeCount c) false (cp_ext c)
                     (cp_made c) (cp_closed c)) ;;
  on_cp_mu unlock ;;
  ret (cp_conns c).

(** [for conn := range conns { conn.Close() }], over a closed channel. *)
Fixpoint close_all (fuel : nat) : M (channelPool F) unit :=
  match fuel with
  | O => block "fuel"
  | S fuel =>
      let! conn := on_cp_chan chan_recv in
      match conn with
      | None => ret tt
      | Some p => close_ptr p ;; close_all fuel
      end
  end.

(** The fuel is one more than what the channel holds. *)
Definition Close_drain : M (channelPool F) unit :=
  on_cp_chan chan_close ;;
  let! c := get in
  close_all (S (length (ch_buf (cp_chan c)))).

Definition Pool_Close : M (channelPool F) unit :=
  let! conns := Close_detach in
  if conns then Close_drain else ret tt.

(** ** Creation *)

Fixpoint fill (n : nat) : M (channelPool F) (option error) :=
  match n with
  | O => ret None
  | S n =>
      let! r := call_factory in
      match r with
      | Err e => Pool_Close ;; ret (Some (Errorf "factory is not able to fill the pool"))
      | Ok conn => on_cp_chan (chan_send conn) ;; fill n
      end
  end.

Definition empty_channelPool (maxCap : Z) (f : F) : channelPool F :=
  mkChannelPool false true (make_chan (Z.to_nat maxCap)) 0 true f [] [].

(** The error, if there is one, and the pool; the caller gets no pool with an
    error. The error of the factory is part of the message. *)
Definition NewChannelPool (initialCap maxCap : Z) (f : F) : outcome (channelPool F) (option error) :=
  let c := empty_channelPool maxCap f in
  if ((initialCap <? 0) || (maxCap <=? 0) || (maxCap <? initialCap))%Z
  then Ret (Some (Errorf "invalid capacity settings")) c
  else fill (Z.to_nat initialCap) c.

(** ** Getting and giving back *)

Definition getConns : M (channelPool F) bool :=
  on_cp_mu lock ;;
  let! c := get in
  on_cp_mu unlock ;;
  ret (cp_conns c).

(** The select of [Get], with the channel at hand. *)
Definition Get_select : M (channelPool F) (result conn_ptr) := fun c =>
  match ch_buf (cp_chan c), ch_closed (cp_chan c) with
  | [], false =>
      (let! r := call_factory in
       match r with
       | Err e => ret (Err e)
       | Ok conn => let! w := wrapConn conn in ret (Ok w)
       end) c
  | _, _ =>
      (let! r := on_cp_chan chan_recv in
       match r with
       | Some (Some n) => let! w := wrapConn (Some n) in ret (Ok w)
       | _ => ret (Err errClosed)
       end) c
  end.

Definition Pool_Get : M (channelPool F) (result conn_ptr) :=
  let! conns := getConns in
  if negb conns then ret (Err errClosed) else Get_select.

Definition put (conn : conn_ptr) : M (channelPool F) (option error) :=
  match conn with
  | None => ret (Some (Errorf "connection is nil. rejecting"))
  | Some n =>
      on_cp_mu lock ;;
      modify (fun c => set_cp_active (cp_activeCount c - 1)%Z c) ;;
      let! c := get in
      let! err :=
        if negb (cp_conns c) then close_ptr conn
        else
          let! sent := on_cp_chan (chan_try_send conn) in
          if sent then ret None else close_ptr conn in
      on_cp_mu unlock ;;
      ret err
  end.

(** [Conn.Close] *)
Definition Conn_Close (conn : conn_ptr) : M (channelPool F) (option error) := put conn.

Definition Busy c : Z := cp_activeCount c.
Definition Available : M (channelPool F) Z :=
  let! conns := getConns in
  let! c := get in
  ret (if conns then Z.of_nat (length (ch_buf (cp_chan c))) else 0%Z).

(** ** Using the pool *)

(** What the users of a pool do, with the connections they hold. *)
Inductive pool_op : Type :=
| UseGet
| UsePut (i : nat)
| UseClose.

Definition use (op : pool_op) (out : list nat) : M (channelPool F) (list nat) :=
  match op with
  | UseGet =>
      let! r := Pool_Get in
      ret (match r with Ok (Some n) => n :: out | _ => out end)
  | UsePut i =>
      match out !! i with
      | None => ret out
      | Some n => Conn_Close (Some n) ;; ret (delete i out)
      end
  | UseClose => Pool_Close ;; ret out
  end.

Fixpoint use_all (ops : list pool_op) (out : list nat) : M (channelPool F) (list nat) :=
  match ops with
  | [] => ret out
  | op :: ops => let! out := use op out in use_all ops out
  end.

(** ** The books *)

Record books (cap : nat) (out : list nat) c : Prop := {
  bk_mu : cp_mu c = false;
  bk_closed : ch_closed (cp_chan c) = negb (cp_conns c);
  bk_factory : cp_factory c = cp_conns c;
  bk_cap : ch_cap (cp_chan c) = cap;
  bk_room : length (ch_buf (cp_chan c)) <= cap;
  bk_empty : cp_conns c = false -> ch_buf (cp_chan c) = [];
  bk_active : cp_activeCount c = Z.of_nat (length out);
  bk_idle : exists idle, ch_buf (cp_chan c) = Some <$> idle /\
    cp_made c ≡ₚ (idle ++ out ++ cp_closed c)%list
}.

Context (factory_ok : forall f, (factory f).1 <> Ok None).

Lemma close_idle_ok idle fuel c :
  ch_buf (cp_chan c) = Some <$> idle -> ch_closed (cp_chan c) = true -> length idle < fuel ->
  close_all fuel c =
  Ret tt (mkChannelPool (cp_mu c) (cp_conns c) (mkChan [] (ch_cap (cp_chan c)) true) (cp_activeCount c)
            (cp_factory c) (cp_ext c) (cp_made c) (cp_closed c ++ idle)%list).
Proof.
  revert c idle. induction fuel as [|fuel IH]; intros c idle Hb Hc Hf; [lia |].
  cbn [close_all]. destruct idle as [|n idle].
  - unfold bind, on_cp_chan, zoom, chan_recv. rewrite Hb, Hc. simpl. rewrite app_nil_r.
    destruct c as [? ? [] ? ? ? ? ?]; simpl in *; by subst.
  - erewrite bind_ret_eq by (unfold on_cp_chan, zoom, chan_recv; rewrite Hb; reflexivity).
    cbv beta iota. unfold close_ptr, bind, modify, ret. simpl.
    erewrite (IH _ idle); [| done | done | simpl in Hf; lia].
    simpl. by rewrite <- app_assoc.
Qed.

Ltac keep_books :=
  split; simpl; repeat match goal with H : cp_conns _ = _ |- _ => rewrite ?H; revert H end; intros;
  try done; try (rewrite ?length_app; simpl; lia); auto.

#[local] Arguments close_all : simpl never.

Lemma Pool_Close_ok cap out c :
  books cap out c ->
  exists c', Pool_Close c = Ret tt c' /\ books cap out c' /\ cp_conns c' = false /\
    cp_made c' = cp_made c.
Proof.
  intros [Hmu Hcl Hfac Hcap Hroom Hempty Hact (idle & Hidle & Hmade)].
  unfold Pool_Close, Close_detach, bind, on_cp_mu, zoom, lock, get. rewrite Hmu; simpl.
  destruct (cp_conns c) eqn:Hc.
  - unfold Close_drain, bind, on_cp_chan, zoom, chan_close; simpl. rewrite Hcl. simpl.
    erewrite close_idle_ok; [| exact Hidle | done | simpl; rewrite Hidle, length_fmap; lia].
    eexists. split; [reflexivity |]. split; [| done]. split; simpl; try done; [lia |].
    exists []. split; [done |]. rewrite Hmade. simpl. solve_Permutation.
  - eexists. split; [reflexivity |]. split; [| done]. split; simpl; try done. by exists idle.
Qed.

Lemma wrapConn_ok n c :
  cp_mu c = false ->
  wrapConn (Some n) c = Ret (Some n) (set_cp_active (cp_activeCount c + 1)%Z c).
Proof.
  intros Hmu. unfold wrapConn, bind, on_cp_mu, zoom, lock, unlock. rewrite Hmu.
  destruct c; simpl in *; by subst.
Qed.

Lemma getConns_ok c : cp_mu c = false -> getConns c = Ret (cp_conns c) c.
Proof.
  intros Hmu. unfold getConns, bind, on_cp_mu, zoom, lock, unlock. rewrite Hmu.
  destruct c; simpl in *; by subst.
Qed.

(** A connection that is handed out was idle or is new. *)
Lemma Pool_Get_ok cap out c :
  books cap out c ->
  exists r c', Pool_Get c = Ret r c' /\
    books cap (match r with Ok (Some n) => n :: out | _ => out end) c' /\
    cp_conns c' = cp_conns c /\
    (cp_conns c = false -> r = Err errClosed /\ c' = c).
Proof.
  intros Hb. pose proof Hb as [Hmu Hcl Hfac Hcap Hroom Hempty Hact (idle & Hidle & Hmade)].
  unfold Pool_Get. erewrite bind_ret_eq by (by apply getConns_ok).
  destruct (cp_conns c) eqn:Hc; cbn [negb]; [| by do 2 eexists].
  unfold Get_select. rewrite Hidle, Hcl. destruct idle as [|n idle]; simpl.
  - unfold call_factory, bind. rewrite Hfac. simpl. pose proof (factory_ok (cp_ext c)) as Hnil.
    destruct (factory (cp_ext c)) as [[[n|]|e] f]; simpl in Hnil; [| done |].
    + rewrite wrapConn_ok by done. do 2 eexists. split; [reflexivity |].
      split; [| done]. keep_books.
      exists []. split; [done |]. rewrite Hmade. simpl. solve_Permutation.
    + do 2 eexists. split; [reflexivity |]. split; [| done]. keep_books.
      exists []. by rewrite app_nil_r.
  - unfold bind, on_cp_chan, zoom, chan_recv. rewrite Hidle. simpl.
    rewrite wrapConn_ok by done. do 2 eexists. split; [reflexivity |]. split; [| done].
    rewrite Hidle in Hroom. simpl in Hroom. keep_books.
    exists idle. split; [done |]. rewrite Hmade. simpl. solve_Permutation.
Qed.

(** A connection that comes back is kept, or closed. *)
Lemma put_ok cap out i n c :
  books cap out c -> out !! i = Some n ->
  exists e c', put (Some n) c = Ret e c' /\ books cap (delete i out) c' /\ cp_conns c' = cp_conns c.
Proof.
  intros [Hmu Hcl Hfac Hcap Hroom Hempty Hact (idle & Hidle & Hmade)] Hi.
  pose proof (delete_Permutation out i n Hi) as Hout.
  generalize dependent (delete i out). intros out' Hout.
  assert (Hlen : length out = S (length out')) by by rewrite Hout.
  unfold put, bind, on_cp_mu, zoom, lock, get. rewrite Hmu; simpl.
  destruct (cp_conns c) eqn:Hc; simpl.
  - unfold on_cp_chan, zoom, chan_try_send; simpl. rewrite Hcl. simpl.
    destruct (chan_full (cp_chan c)) eqn:Hf; simpl.
    + do 2 eexists. split; [reflexivity |]. split; [| done]. keep_books.
      exists idle. split; [done |]. rewrite Hmade, Hout. simpl. solve_Permutation.
    + apply bool_decide_eq_false in Hf. do 2 eexists. split; [reflexivity |]. split; [| done].
      keep_books.
      exists (idle ++ [n])%list. rewrite Hidle, fmap_app. split; [done |].
      rewrite Hmade, Hout. simpl. solve_Permutation.
  - do 2 eexists. split; [reflexivity |]. split; [| done]. keep_books.
    exists idle. split; [done |]. rewrite Hmade, Hout. simpl. solve_Permutation.
Qed.

Lemma fill_ok cap n c :
  books cap [] c -> cp_conns c = true -> length (ch_buf (cp_chan c)) + n <= cap ->
  exists e c', fill n c = Ret e c' /\ books cap [] c' /\ (e = None <-> cp_conns c' = true).
Proof.
  revert c. induction n as [|n IH]; intros c Hb Hc Hn.
  { do 2 eexists. split; [reflexivity |]. by split. }
  pose proof Hb as [Hmu Hcl Hfac Hcap Hroom Hempty Hact (idle & Hidle & Hmade)].
  cbn [fill]. pose proof (factory_ok (cp_ext c)) as Hnil.
  assert (Hf : exists r f, factory (cp_ext c) = (r, f)) by (destruct (factory (cp_ext c)); eauto).
  destruct Hf as (r & f & Hf). rewrite Hf in Hnil. simpl in Hnil.
  unfold bind at 1. unfold call_factory. rewrite Hfac, Hc, Hf. simpl.
  destruct r as [[m|]|e]; [| done |].
  - unfold bind, on_cp_chan, zoom, chan_send; simpl. rewrite Hcl, Hc. simpl.
    unfold chan_full. rewrite bool_decide_false by lia. simpl. rewrite Hc in Hcl. apply IH; simpl; try done.
    2: { rewrite length_app; simpl; lia. }
    keep_books.
    exists (idle ++ [m])%list. rewrite Hidle, fmap_app. split; [done |]. rewrite Hmade. simpl.
    solve_Permutation.
  - edestruct (Pool_Close_ok cap []) as (c' & Hrun & Hb' & Hc' & _);
      [| erewrite bind_ret_eq by exact Hrun].
    { rewrite Hc in Hcl. keep_books. exists idle. by rewrite app_nil_r. }
    do 2 eexists. split; [reflexivity |]. split; [done |]. by rewrite Hc'.
Qed.

Lemma use_ok op cap out c :
  books cap out c -> exists out' c', use op out c = Ret out' c' /\ books cap out' c' /\
    (cp_conns c = false \/ op = UseClose -> cp_conns c' = false).
Proof.
  intros Hb. destruct op as [|i|]; simpl.
  - destruct (Pool_Get_ok cap out c Hb) as (r & c' & Hrun & Hb' & Hc & _).
    erewrite bind_ret_eq by exact Hrun. do 2 eexists. split; [reflexivity |]. split; [done |].
    rewrite Hc. naive_solver.
  - destruct (out !! i) as [n|] eqn:Hi; [| do 2 eexists; split; [reflexivity |]; naive_solver].
    destruct (put_ok cap out i n c Hb Hi) as (e & c' & Hrun & Hb' & Hc).
    unfold Conn_Close. erewrite bind_ret_eq by exact Hrun. do 2 eexists. split; [reflexivity |].
    split; [done |]. rewrite Hc. naive_solver.
  - destruct (Pool_Close_ok cap out c Hb) as (c' & Hrun & Hb' & Hc & _).
    erewrite bind_ret_eq by exact Hrun. do 2 eexists. split; [reflexivity |]. done.
Qed.

Lemma use_all_ok ops cap out c :
  books cap out c -> exists out' c', use_all ops out c = Ret out' c' /\ books cap out' c' /\
    (cp_conns c = false \/ UseClose ∈ ops -> cp_conns c' = false).
Proof.
  revert out c. induction ops as [|op ops IH]; intros out c Hb; simpl.
  { do 2 eexists. split; [reflexivity |]. split; [done |]. set_solver. }
  destruct (use_ok op cap out c Hb) as (out1 & c1 & Hrun & Hb1 & Hc1).
  erewrite bind_ret_eq by exact Hrun. destruct (IH out1 c1 Hb1) as (out2 & c2 & Hrun2 & Hb2 & Hc2).
  exists out2, c2. split; [done |]. split; [done |]. rewrite elem_of_cons. naive_solver.
Qed.


(** A [Get] that has looked at the channel before [Close] took it away, and goes on
    before the channel is closed, calls a factory that is nil when nothing is idle. *)
Theorem Get_races_Close cap out c :
  books cap out c -> cp_conns c = true -> ch_buf (cp_chan c) = [] ->
  exists c1, getConns c = Ret true c /\ Close_detach c = Ret true c1 /\
    exists why, Get_select c1 = Panic why c1.
Proof.
  intros [Hmu Hcl Hfac Hcap Hroom Hempty Hact Hidle] Hc Hb.
  eexists. split; [rewrite getConns_ok by done; by rewrite Hc |].
  unfold Close_detach, bind, on_cp_mu, zoom, lock, get. rewrite Hmu; simpl. rewrite Hc.
  split; [reflexivity |]. unfold Get_select; simpl. rewrite Hb, Hcl, Hc. simpl. by eexists.
Qed.
End pool.

(** ** A concrete pool *)

(** A factory that makes connections 0, 1, 2, ... *)
Definition counting_factory (n : nat) : result conn_ptr * nat := (Ok (Some n), S n).

Lemma counting_factory_ok f : (counting_factory f).1 <> Ok None.
Proof. done. Qed.


Lemma Get_races_Close_witness :
  exists c1 why, Close_detach (empty_channelPool 2 0) = Ret true c1 /\
    Get_select counting_factory c1 = Panic why c1.
Proof.
  destruct (Get_races_Close counting_factory 2 [] (empty_channelPool 2 0))
    as (c1 & _ & H1 & why & H2).
  - split; try reflexivity; [simpl; lia | exists []; split; reflexivity].
  - reflexivity.
  - reflexivity.
  - exists c1, why. split; [exact H1 | exact H2].
Defined.
