(* ===== verification/Net.v ===== *)
(** * The parts of the Go standard library that the servers use

    Packages strings, net, net/url and net/textproto: splitting and folding strings,
    host and port pairs, header keys, and [url.Parse] as far as the host of a URL.
    Case folding is that of ASCII letters. *)

From Stdlib Require Import ZArith NArith Lia Ascii String.
From stdpp Require Import base strings list gmap.
From S2P Require Import Prelude Json Common.

Local Open Scope string_scope.

(** ** Package strings *)

Fixpoint ToLower (s : string) : string :=
  match s with
  | EmptyString => EmptyString
  | String c s => String (lower_ascii c) (ToLower s)
  end.

(** [strings.Split(s, sep)] for a separator of one byte. *)
Fixpoint Split (sep : ascii) (s : string) : list string :=
  match s with
  | EmptyString => [EmptyString]
  | String c s =>
      if Ascii.eqb c sep then EmptyString :: Split sep s
      else
        match Split sep s with
        | p :: ps => String c p :: ps
        | [] => [str1 c]
        end
  end.

(** [strings.Join(ps, sep)] *)
Fixpoint Join (sep : string) (ps : list string) : string :=
  match ps with
  | [] => EmptyString
  | [p] => p
  | p :: ps => p ++ sep ++ Join sep ps
  end.

Fixpoint HasSuffix (s suffix : string) : bool :=
  String.eqb s suffix ||
  match s with
  | EmptyString => false
  | String _ s => HasSuffix s suffix
  end.

(** [strings.IndexByte(s, c) >= 0] *)
Fixpoint has_byte (c : ascii) (s : string) : bool :=
  match s with
  | EmptyString => false
  | String d s => Ascii.eqb d c || has_byte c s
  end.

(** The text before and after the first, or the last, occurrence of a byte. *)
Fixpoint cut (c : ascii) (s : string) : option (string * string) :=
  match s with
  | EmptyString => None
  | String d s =>
      if Ascii.eqb d c then Some (EmptyString, s)
      else
        match cut c s with
        | Some (a, b) => Some (String d a, b)
        | None => None
        end
  end.

Fixpoint cut_last (c : ascii) (s : string) : option (string * string) :=
  match s with
  | EmptyString => None
  | String d s =>
      match cut_last c s with
      | Some (a, b) => Some (String d a, b)
      | None => if Ascii.eqb d c then Some (EmptyString, s) else None
      end
  end.

Fixpoint all_bytes (P : ascii -> bool) (s : string) : bool :=
  match s with
  | EmptyString => true
  | String c s => P c && all_bytes P s
  end.

Definition one_of (bytes : string) (c : ascii) : bool := has_byte c bytes.

Definition is_alpha (c : ascii) : bool := byte_in 65 90 c || byte_in 97 122 c.
Definition is_alnum (c : ascii) : bool := is_alpha c || is_digit c.

(** The double quote, which a string literal cannot hold. *)
Definition dquote : string := str1 (ascii_of_N 34).

(** ** Package strconv *)

(** [strconv.Itoa] *)
Definition Itoa (z : Z) : string := Z_to_string z.

(** [strconv.Atoi]: an optional sign and decimal digits, within 64 bits. *)
Definition Atoi (s : string) : option Z :=
  let '(neg, digits) :=
    match s with
    | String "-" s => (true, s)
    | String "+" s => (false, s)
    | _ => (false, s)
    end in
  if String.eqb digits EmptyString || negb (all_bytes is_digit digits) then None
  else
    let n := digits_value 0 digits in
    let z := if neg : bool then (- n)%Z else n in
    if ((- 2 ^ 63 <=? z) && (z <? 2 ^ 63))%Z then Some z else None.

(** ** Package net *)

Definition JoinHostPort (host port : string) : string :=
  if has_byte ":" host then "[" ++ host ++ "]:" ++ port else host ++ ":" ++ port.

(** The host and the port, or [None] for an error. *)
Definition SplitHostPort (hostport : string) : option (string * string) :=
  match cut_last ":" hostport with
  | None => None
  | Some (before, port) =>
      match hostport with
      | String "[" rest =>
          match cut "]" rest with
          | Some (host, String ":" port') =>
              if has_byte ":" port' || has_byte "[" rest || has_byte "]" port' then None
              else Some (host, port')
          | _ => None
          end
      | _ =>
          if has_byte ":" before || has_byte "[" hostport || has_byte "]" hostport then None
          else Some (before, port)
      end
  end.

(** ** Package net/textproto *)

Definition upper_ascii (c : ascii) : ascii :=
  if byte_in 97 122 c then ascii_of_N (N_of_ascii c - 32) else c.

Definition validHeaderFieldByte (c : ascii) : bool := is_alnum c || one_of "!#$%&'*+-.^_`|~" c.

Fixpoint canonical (upper : bool) (s : string) : string :=
  match s with
  | EmptyString => EmptyString
  | String c s =>
      let c := if upper then upper_ascii c else lower_ascii c in
      String c (canonical (Ascii.eqb c "-") s)
  end.

Definition CanonicalMIMEHeaderKey (s : string) : string :=
  if all_bytes validHeaderFieldByte s then canonical true s else s.

Abbreviation Header := (gmap string (list string)).

(** [h.Get(key)] *)
Definition Header_Get (h : Header) (key : string) : string :=
  match h !! CanonicalMIMEHeaderKey key with
  | Some (v :: _) => v
  | _ => EmptyString
  end.

(** ** Package net/url *)

(** What [url.Parse] finds out about a URL, as far as it is used. *)
Record URL : Type := mkURL { Scheme : string; url_Host : string }.

Inductive encoding : Type :=
| encodePath
| encodeUserPassword
| encodeHost
| encodeZone
| encodeFragment.

(** [shouldEscape(c, encodeHost)], which is also that of [encodeZone]. *)
Definition shouldEscape_host (c : ascii) : bool :=
  negb (is_alnum c || one_of ("!$&'()*+,;=:[]<>-_.~" ++ dquote) c).

Definition bad_escape (mode : encoding) (high v : N) : bool :=
  match mode with
  | encodeHost => (high <? 8)%N && negb (v =? 37)%N
  | encodeZone => negb (v =? 37)%N && negb (v =? 32)%N && shouldEscape_host (ascii_of_N v)
  | _ => false
  end.

Definition in_host (mode : encoding) : bool :=
  match mode with encodeHost | encodeZone => true | _ => false end.

Fixpoint unescape (mode : encoding) (s : string) : option string :=
  match s with
  | EmptyString => Some EmptyString
  | String c rest =>
      if Ascii.eqb c "%" then
        match rest with
        | String h (String l rest') =>
            match hex_value h, hex_value l with
            | Some a, Some b =>
                let v := (a * 16 + b)%N in
                if bad_escape mode a v then None
                else option_map (String (ascii_of_N v)) (unescape mode rest')
            | _, _ => None
            end
        | _ => None
        end
      else if in_host mode && (N_of_ascii c <? 128)%N && shouldEscape_host c then None
      else option_map (String c) (unescape mode rest)
  end.

Definition validOptionalPort (port : string) : bool :=
  match port with
  | EmptyString => true
  | String c digits => Ascii.eqb c ":" && all_bytes is_digit digits
  end.

Definition parseHost (host : string) : option string :=
  match host with
  | String "[" _ =>
      match cut_last "]" host with
      | None => None
      | Some (before, colonPort) =>
          if negb (validOptionalPort colonPort) then None
          else
            match String.index 0 "%25" before with
            | Some zone =>
                match unescape encodeHost (String.substring 0 zone before),
                      unescape encodeZone (String.substring zone (String.length before - zone) before),
                      unescape encodeHost ("]" ++ colonPort) with
                | Some host1, Some host2, Some host3 => Some (host1 ++ host2 ++ host3)
                | _, _, _ => None
                end
            | None => unescape encodeHost host
            end
      end
  | _ =>
      match cut_last ":" host with
      | Some (_, port) => if all_bytes is_digit port then unescape encodeHost host else None
      | None => unescape encodeHost host
      end
  end.

Definition validUserinfo (s : string) : bool :=
  all_bytes (fun c => is_alnum c || one_of "-._:~!$&'()*+,;=%@" c) s.

(** The host of an authority; the user information must be well-formed. *)
Definition parseAuthority (authority : string) : option string :=
  match cut_last "@" authority with
  | None => parseHost authority
  | Some (userinfo, rest) =>
      match parseHost rest with
      | None => None
      | Some host =>
          if negb (validUserinfo userinfo) then None
          else
            let '(username, password) :=
              match cut ":" userinfo with
              | Some (u, p) => (u, p)
              | None => (userinfo, EmptyString)
              end in
            match unescape encodeUserPassword username, unescape encodeUserPassword password with
            | Some _, Some _ => Some host
            | _, _ => None
            end
      end
  end.

Fixpoint scan_scheme (s : string) : option (string * string) :=
  match s with
  | EmptyString => None
  | String c s =>
      if Ascii.eqb c ":" then Some (EmptyString, s)
      else if is_alnum c || one_of "+-." c then
        match scan_scheme s with
        | Some (scheme, rest) => Some (String c scheme, rest)
        | None => None
        end
      else None
  end.

(** The scheme, empty when there is none, and the rest; [None] for an error. *)
Definition getScheme (rawURL : string) : option (string * string) :=
  match rawURL with
  | EmptyString => Some (EmptyString, rawURL)
  | String c _ =>
      if Ascii.eqb c ":" then None
      else if is_alpha c then
        match scan_scheme rawURL with
        | Some found => Some found
        | None => Some (EmptyString, rawURL)
        end
      else Some (EmptyString, rawURL)
  end.

(** The text before the first occurrence of a byte, or all of it. *)
Definition before (c : ascii) (s : string) : string :=
  match cut c s with Some (a, _) => a | None => s end.

(** A colon in the first segment of a path without a scheme. *)
Definition colon_first (rest : string) : bool := has_byte ":" (before "/" rest).

Definition parse_rest (scheme rest : string) : option URL :=
  if String.prefix "//" rest && (negb (String.eqb scheme EmptyString) || negb (String.prefix "///" rest))
  then
    let authority_path := String.substring 2 (String.length rest - 2) rest in
    match parseAuthority (before "/" authority_path) with
    | None => None
    | Some host =>
        let path := match cut "/" authority_path with Some (_, p) => "/" ++ p | None => EmptyString end in
        match unescape encodePath path with
        | Some _ => Some (mkURL scheme host)
        | None => None
        end
    end
  else
    match unescape encodePath rest with
    | Some _ => Some (mkURL scheme EmptyString)
    | None => None
    end.

Definition is_control (c : ascii) : bool := (N_of_ascii c <? 32)%N || (N_of_ascii c =? 127)%N.

Definition parse_url (rawURL : string) : option URL :=
  if negb (all_bytes (fun c => negb (is_control c)) rawURL) then None
  else if String.eqb rawURL "*" then Some (mkURL EmptyString EmptyString)
  else
    match getScheme rawURL with
    | None => None
    | Some (scheme, rest) =>
        let scheme := ToLower scheme in
        let rest := before "?" rest in
        match rest with
        | String "/" _ => parse_rest scheme rest
        | _ =>
            if negb (String.eqb scheme EmptyString) then Some (mkURL scheme EmptyString)
            else if colon_first rest then None
            else parse_rest scheme rest
        end
    end.

(** [url.Parse]; [None] for an error. *)
Definition url_Parse (rawURL : string) : option URL :=
  match parse_url (before "#" rawURL) with
  | None => None
  | Some u =>
      match cut "#" rawURL with
      | Some (_, frag) =>
          match unescape encodeFragment frag with
          | Some _ => Some u
          | None => None
          end
      | None => Some u
      end
  end.

(** [u.Hostname()] *)
Definition Hostname (u : URL) : string :=
  let host :=
    match cut_last ":" (url_Host u) with
    | Some (h, port) => if all_bytes is_digit port then h else url_Host u
    | None => url_Host u
    end in
  match host with
  | String "[" inner =>
      match cut_last "]" inner with
      | Some (name, EmptyString) => name
      | _ => host
      end
  | _ => host
  end.

(** ** Package net/http *)

(** A request, as the handlers see it. [r_URL] is the text of its URL and
    [r_URL_scheme] the scheme in it; the body is read whole, or fails. *)
Record Request : Type := mkRequest {
  r_Method : string;
  r_Header : Header;
  r_Host : string;
  r_RemoteAddr : string;
  r_TLS : bool;
  r_URL : string;
  r_URL_scheme : string;
  r_Body : result string
}.

(** [r.Header.Get(key)] *)
Definition Get (r : Request) (key : string) : string := Header_Get (r_Header r) key.

(** ** Facts *)

Lemma string_app_nil_r (s : string) : s ++ EmptyString = s.
Proof. induction s as [|c s IH]; [done |]. by rewrite string_app_cons, IH. Qed.

Lemma ToLower_app a b : ToLower (a ++ b) = ToLower a ++ ToLower b.
Proof. induction a as [|c a IH]; simpl; [done | by rewrite IH]. Qed.

Lemma HasSuffix_spec s suffix :
  HasSuffix s suffix = true <-> exists p, s = p ++ suffix.
Proof.
  induction s as [|c s IH].
  - cbn [HasSuffix]. rewrite orb_false_r, String.eqb_eq. split; [intros <-; by exists EmptyString |].
    intros (p & Hp). by destruct p.
  - change (String.eqb (String c s) suffix || HasSuffix s suffix = true <->
            exists p, String c s = p ++ suffix).
    rewrite orb_true_iff, String.eqb_eq, IH. split.
    + intros [<- | (p & ->)]; [by exists EmptyString | by exists (String c p)].
    + intros ([|d p] & Hp); [by left |]. right. injection Hp as _ ->. by exists p.
Qed.

Lemma has_byte_app c a b : has_byte c (a ++ b) = has_byte c a || has_byte c b.
Proof. induction a as [|d a IH]; simpl; [done |]. by rewrite IH, orb_assoc. Qed.

Lemma cut_app c a b : has_byte c a = false -> cut c (a ++ String c b) = Some (a, b).
Proof.
  induction a as [|d a IH]; simpl; [by rewrite Ascii.eqb_refl |].
  intros [-> Ha]%orb_false_iff. by rewrite IH.
Qed.

Lemma cut_none c s : has_byte c s = false -> cut c s = None.
Proof.
  induction s as [|d s IH]; simpl; [done |]. intros [-> Hs]%orb_false_iff. by rewrite IH.
Qed.

Lemma cut_last_none c s : has_byte c s = false -> cut_last c s = None.
Proof.
  induction s as [|d s IH]; simpl; [done |]. intros [-> Hs]%orb_false_iff. by rewrite IH.
Qed.

Lemma cut_last_app c a b : has_byte c b = false -> cut_last c (a ++ String c b) = Some (a, b).
Proof.
  intros Hb. induction a as [|d a IH]; simpl.
  - by rewrite (cut_last_none c b Hb), Ascii.eqb_refl.
  - by rewrite IH.
Qed.

Lemma before_none c s : has_byte c s = false -> before c s = s.
Proof. intros Hs. unfold before. by rewrite cut_none. Qed.

Lemma all_bytes_app P a b : all_bytes P (a ++ b) = all_bytes P a && all_bytes P b.
Proof. induction a as [|c a IH]; simpl; [done |]. by rewrite IH, andb_assoc. Qed.

Lemma all_bytes_no P c s : all_bytes P s = true -> P c = false -> has_byte c s = false.
Proof.
  intros Hs Hc. induction s as [|d s IH]; simpl in *; [done |].
  apply andb_true_iff in Hs as [Hd Hs]. rewrite (IH Hs), orb_false_r.
  destruct (Ascii.eqb_spec d c) as [->|]; [congruence | done].
Qed.

Lemma all_bytes_mono (P Q : ascii -> bool) s :
  (forall c, P c = true -> Q c = true) -> all_bytes P s = true -> all_bytes Q s = true.
Proof.
  intros HPQ. induction s as [|c s IH]; simpl; [done |].
  intros [Hc Hs]%andb_true_iff. by rewrite (HPQ c Hc), IH.
Qed.

(** A host and a port that are joined come apart again. *)
Lemma SplitHostPort_Join host port :
  has_byte "[" host = false -> has_byte "]" host = false ->
  has_byte ":" port = false -> has_byte "[" port = false -> has_byte "]" port = false ->
  SplitHostPort (JoinHostPort host port) = Some (host, port).
Proof.
  intros Ho Hc Pc Pl Pr. unfold SplitHostPort, JoinHostPort. destruct (has_byte ":" host) eqn:Hh.
  - assert (E : cut_last ":" ("[" ++ host ++ "]:" ++ port) = Some ("[" ++ host ++ "]", port)).
    { rewrite <- (cut_last_app ":" ("[" ++ host ++ "]") port) by done.
      by rewrite !string_app_assoc. }
    rewrite E. change ("[" ++ host ++ "]:" ++ port)
      with (String "[" (host ++ String "]" (String ":" port))). cbv iota. rewrite (cut_app "]" host (String ":" port)) by done.
    rewrite Pc, Pr, has_byte_app, Ho. simpl. by rewrite Pl.
  - change (host ++ ":" ++ port) with (host ++ String ":" port). rewrite cut_last_app by done.
    rewrite Hh, !has_byte_app, Ho, Hc. simpl. rewrite Pl, Pr. simpl.
    destruct host as [|c host]; [done |]. simpl in Ho. apply orb_false_iff in Ho as [Ho _].
    by destruct c as [[] [] [] [] [] [] [] []].
Qed.

(** ** The URL of an origin *)

(** The bytes of a host name, and those of a host name with a port. *)
Definition name_byte (c : ascii) : bool := is_alnum c || one_of "-." c.
Definition origin_byte (c : ascii) : bool := name_byte c || Ascii.eqb c ":".

Ltac each_byte := intros [[] [] [] [] [] [] [] []]; vm_compute; done.

Lemma name_origin_byte : forall c, name_byte c = true -> origin_byte c = true.
Proof. each_byte. Qed.
Lemma digit_origin_byte : forall c, is_digit c = true -> origin_byte c = true.
Proof. each_byte. Qed.
Lemma digit_not_colon : forall c, is_digit c = true -> Ascii.eqb c ":" = false.
Proof. each_byte. Qed.
Lemma origin_byte_literal : forall c, origin_byte c = true ->
  Ascii.eqb c "%" = false /\ shouldEscape_host c = false.
Proof. intros [[] [] [] [] [] [] [] []]; vm_compute; split; done. Qed.
Lemma origin_byte_no_bracket : forall c s, origin_byte c = true ->
  match String c s with String "[" _ => False | _ => True end.
Proof. intros [[] [] [] [] [] [] [] []] s; vm_compute; done. Qed.
Lemma alpha_not_colon : forall c, is_alpha c = true -> Ascii.eqb c ":" = false.
Proof. each_byte. Qed.
Lemma alpha_origin_byte : forall c, is_alpha c = true -> origin_byte c = true.
Proof. each_byte. Qed.

Lemma unescape_literal mode s : all_bytes origin_byte s = true -> unescape mode s = Some s.
Proof.
  induction s as [|c s IH]; simpl; [done |]. intros [Hc Hs]%andb_true_iff.
  destruct (origin_byte_literal c Hc) as [-> ->]. by rewrite andb_false_r, IH.
Qed.

Definition origin_host (h port : string) : Prop :=
  all_bytes name_byte h = true /\ validOptionalPort port = true.

Lemma origin_host_bytes h port : origin_host h port -> all_bytes origin_byte (h ++ port) = true.
Proof.
  intros [Hh Hp]. rewrite all_bytes_app.
  rewrite (all_bytes_mono name_byte origin_byte) by auto using name_origin_byte. simpl.
  destruct port as [|c port]; [done |]. apply andb_true_iff in Hp as [->%Ascii.eqb_eq Hp]. simpl.
  by apply (all_bytes_mono is_digit _ _ digit_origin_byte).
Qed.

Lemma parseHost_origin h port : origin_host h port -> parseHost (h ++ port) = Some (h ++ port).
Proof.
  intros Hhp. pose proof (origin_host_bytes h port Hhp) as Hb.
  assert (E : match cut_last ":" (h ++ port) with
              | Some (_, p) => all_bytes is_digit p = true
              | None => True
              end).
  { destruct Hhp as [Hh Hp]. destruct port as [|c port].
    - rewrite string_app_nil_r, cut_last_none; [done |]. by eapply all_bytes_no.
    - apply andb_true_iff in Hp as [->%Ascii.eqb_eq Hp].
      rewrite cut_last_app; [done |]. by eapply all_bytes_no. }
  pose proof (unescape_literal encodeHost _ Hb) as Hu. revert Hb E Hu.
  generalize (h ++ port) as s. intros s Hb E Hu.
  assert (parseHost s = match cut_last ":" s with
    | Some (_, port) => if all_bytes is_digit port then unescape encodeHost s else None
    | None => unescape encodeHost s
    end) as ->.
  { destruct s as [|c s]; [done |]. simpl in Hb. apply andb_true_iff in Hb as [Hc _].
    pose proof (origin_byte_no_bracket c s Hc). clear -H.
    by destruct c as [[] [] [] [] [] [] [] []]. }
  destruct (cut_last ":" s) as [[? p]|]; [by rewrite E | done].
Qed.

Lemma scan_scheme_app scheme rest :
  all_bytes is_alpha scheme = true -> scan_scheme (scheme ++ String ":" rest) = Some (scheme, rest).
Proof.
  induction scheme as [|c s IH]; simpl; [done |]. intros [Hc Hs]%andb_true_iff.
  rewrite (alpha_not_colon c Hc). unfold is_alnum. rewrite Hc. simpl. by rewrite IH.
Qed.

(** The bytes of an authority: a host with a port, and user information without escapes. *)
Definition authority_byte (c : ascii) : bool := origin_byte c || Ascii.eqb c "@".

Lemma alpha_authority_byte : forall c, is_alpha c = true -> authority_byte c = true.
Proof. each_byte. Qed.
Lemma origin_authority_byte : forall c, origin_byte c = true -> authority_byte c = true.
Proof. intros c Hc. unfold authority_byte. by rewrite Hc. Qed.
Lemma authority_byte_no_control : forall c, authority_byte c = true -> negb (is_control c) = true.
Proof. each_byte. Qed.

(** [url.Parse] of a scheme and an authority goes by the authority. *)
Lemma url_Parse_authority scheme host name :
  scheme <> EmptyString -> all_bytes is_alpha scheme = true -> all_bytes authority_byte host = true ->
  parseAuthority host = Some name ->
  url_Parse (scheme ++ "://" ++ host) = Some (mkURL (ToLower scheme) name).
Proof.
  intros Hne Hs Hb Hparse. pose proof (all_bytes_mono _ _ _ alpha_authority_byte Hs) as Hsb.
  assert (Hno : forall c, authority_byte c = false -> c <> "/"%char ->
    has_byte c (scheme ++ "://" ++ host) = false).
  { intros c Hc Hsl. rewrite has_byte_app. rewrite (all_bytes_no _ _ _ Hsb Hc).
    rewrite has_byte_app, (all_bytes_no _ _ _ Hb Hc). cbn [has_byte].
    destruct (Ascii.eqb_spec "/" c); [congruence |].
    by destruct (Ascii.eqb_spec ":" c) as [<-|]. }
  unfold url_Parse. rewrite before_none, cut_none by (by apply Hno).
  unfold parse_url. rewrite !all_bytes_app.
  rewrite (all_bytes_mono authority_byte _ scheme authority_byte_no_control Hsb).
  rewrite (all_bytes_mono authority_byte _ host authority_byte_no_control Hb). simpl.
  destruct scheme as [|c scheme]; [done |].
  assert (String.eqb (String c scheme ++ "://" ++ host) "*" = false) as ->.
  { apply String.eqb_neq. intros Heq. simpl in Heq. by destruct scheme. }
  assert (getScheme (String c scheme ++ "://" ++ host) = Some (String c scheme, "//" ++ host)) as ->.
  { pose proof (scan_scheme_app (String c scheme) ("//" ++ host) Hs) as Hscan.
    simpl in Hs. apply andb_true_iff in Hs as [Hc _]. revert Hscan. rewrite !string_app_cons.
    intros Hscan. unfold getScheme. rewrite (alpha_not_colon c Hc), Hc. 
    change ("://" ++ host) with (String ":" ("//" ++ host)). by rewrite Hscan. }
  assert (has_byte "?" ("//" ++ host) = false) as Hq.
  { simpl. by eapply all_bytes_no. }
  rewrite (before_none _ _ Hq). simpl. unfold parse_rest. simpl.
  rewrite Nat.sub_0_r, substring_all. unfold before. rewrite cut_none by (by eapply all_bytes_no).
  rewrite !string_app_nil. assert (String.prefix EmptyString host = true) as -> by (by destruct host).
  by rewrite Hparse.
Qed.

(** It reads the host back from the text of an origin. *)
Lemma url_Parse_origin scheme h port :
  scheme <> EmptyString -> all_bytes is_alpha scheme = true -> origin_host h port ->
  url_Parse (scheme ++ "://" ++ h ++ port) = Some (mkURL (ToLower scheme) (h ++ port)).
Proof.
  intros Hne Hs Hhp. pose proof (origin_host_bytes h port Hhp) as Hb. apply url_Parse_authority; [done | done | |].
  - exact (all_bytes_mono _ _ _ origin_authority_byte Hb).
  - unfold parseAuthority. rewrite cut_last_none by (by eapply all_bytes_no). by apply parseHost_origin.
Qed.
