(* ===== verification/Server.v ===== *)
(** * HTTP servers

    Package server ([src/server]): the servers of the process, one per port, that the
    WebSocket endpoint, the metrics endpoint and the HTTP broadcast endpoint share. The
    state is the package variables and the servers; [net/http]'s own server is the part
    [http_server] of a server, with its listener. Opening a listener and loading a key
    pair depend on the machine: they are parameters. *)

From Stdlib Require Import ZArith Lia Ascii String.
From stdpp Require Import base strings list gmap.
From S2P Require Import Prelude Json Common Net.

Local Open Scope string_scope.

(** ** Configuration of TLS *)

Record SSLConfig : Type := mkSSLConfig { CertPath : string; KeyPath : string }.

Definition NewSSLConfig : SSLConfig := mkSSLConfig EmptyString EmptyString.

Definition Available (opts : SSLConfig) : bool :=
  negb (String.eqb (CertPath opts) EmptyString) && negb (String.eqb (KeyPath opts) EmptyString).

(** ** [http.Server] *)

Definition ErrServerClosed : error := Errorf "http: Server closed".

(** A listener is bound when [net.Listen] returns and accepts connections while
    [Serve] runs. [ln_limit] is the bound of [netutil.LimitListener]. *)
Inductive ln_phase : Type := Bound | Accepting | Closed.

Record listener : Type := mkListener { ln_state : ln_phase; ln_limit : option Z; ln_tls : bool }.

(** [hs_inShutdown] is set by [Shutdown]; [hs_active] counts the connections that are
    not idle, which [Shutdown] waits for. *)
Record http_server : Type := mkHttp {
  hs_inShutdown : bool;
  hs_active : nat;
  hs_ln : option listener
}.

(** The handlers that the program registers. *)
Inductive http_handler : Type := PrometheusHandler | BroadcastHandler | WebSocketHandler | HealthHandler.

#[export] Instance http_handler_eq_dec : EqDecision http_handler.
Proof. solve_decision. Defined.

(** [http.ServeMux], as the patterns registered. *)
Abbreviation ServeMux := (gmap string http_handler).

(** [mux.Handle(pattern, handler)] *)
Definition mux_Handle (pattern : string) (h : http_handler) : M ServeMux unit := fun mux =>
  if String.eqb pattern EmptyString then Panic "http: invalid pattern" mux
  else
    match mux !! pattern with
    | Some _ => Panic "http: multiple registrations" mux
    | None => Ret tt (<[pattern := h]> mux)
    end.

(** ** Servers *)

(** [listens] counts the calls of [net.Listen]. *)
Record HTTPServer : Type := mkHTTPServer {
  server : http_server;
  addr : string;
  secured : bool;
  shutdown : bool;
  started : bool;
  maxConn : Z;
  mu : bool;
  Mux : ServeMux;
  listens : nat
}.

(** The package variables, and the servers that were made. *)
Record Servers : Type := mkServers {
  allServers : gmap string nat;
  Host : string;
  SSL : option SSLConfig;
  MaxConn : Z;
  servers : list HTTPServer
}.

Definition set_server v (s : HTTPServer) := mkHTTPServer v (addr s) (secured s) (shutdown s) (started s) (maxConn s) (mu s) (Mux s) (listens s).
Definition set_shutdown v (s : HTTPServer) := mkHTTPServer (server s) (addr s) (secured s) v (started s) (maxConn s) (mu s) (Mux s) (listens s).
Definition set_started v (s : HTTPServer) := mkHTTPServer (server s) (addr s) (secured s) (shutdown s) v (maxConn s) (mu s) (Mux s) (listens s).
Definition set_mu v (s : HTTPServer) := mkHTTPServer (server s) (addr s) (secured s) (shutdown s) (started s) (maxConn s) v (Mux s) (listens s).
Definition set_Mux v (s : HTTPServer) := mkHTTPServer (server s) (addr s) (secured s) (shutdown s) (started s) (maxConn s) (mu s) v (listens s).
Definition set_listens v (s : HTTPServer) := mkHTTPServer (server s) (addr s) (secured s) (shutdown s) (started s) (maxConn s) (mu s) (Mux s) v.

Definition set_servers v (w : Servers) := mkServers (allServers w) (Host w) (SSL w) (MaxConn w) v.
Definition set_allServers v (w : Servers) := mkServers v (Host w) (SSL w) (MaxConn w) (servers w).

Definition set_ln (l : option listener) (h : http_server) : http_server :=
  mkHttp (hs_inShutdown h) (hs_active h) l.

(** Code that works on the server a pointer leads to. *)
Definition on_server {A} (i : nat) (m : M HTTPServer A) : M Servers A := fun w =>
  match servers w !! i with
  | None => nil_deref w
  | Some s =>
      match m s with
      | Ret a s' => Ret a (set_servers (<[i := s']> (servers w)) w)
      | Block c s' => Block c (set_servers (<[i := s']> (servers w)) w)
      | Panic c s' => Panic c (set_servers (<[i := s']> (servers w)) w)
      end
  end.

Definition locked : M HTTPServer unit := zoom mu set_mu lock.
Definition unlocked : M HTTPServer unit := zoom mu set_mu unlock.

Section machine.
(** What the machine answers when a key pair is loaded, and when a listener is opened
    at an address that no server of the process listens at. *)
Context (load_key_pair : string -> string -> option error) (net_refuses : string -> option error).

Definition NewServer (host port : string) (ssl : option SSLConfig) (maxConn : Z)
    : M Servers (result nat) := fun w =>
  let addr := JoinHostPort host port in
  let secured := match ssl with Some opts => Available opts | None => false end in
  let failed :=
    match ssl with
    | Some opts => if secured then load_key_pair (CertPath opts) (KeyPath opts) else None
    | None => None
    end in
  match failed with
  | Some _ => Ret (Err (Errorf "Failed to load SSL certificate")) w
  | None =>
      let s := mkHTTPServer (mkHttp false 0 None) addr secured false false maxConn false ∅ 0 in
      Ret (Ok (length (servers w))) (set_servers (servers w ++ [s])%list w)
  end.

(** [ForPort] reads the map, makes a server and stores it: another goroutine can run
    in between. *)
Definition ForPort_look (port : string) : M Servers (option nat) := fun w =>
  Ret (allServers w !! port) w.

Definition ForPort_make (port : string) : M Servers (result nat) :=
  let! w := get in
  NewServer (Host w) port (SSL w) (MaxConn w).

Definition ForPort_store (port : string) (i : nat) : M Servers (result nat) :=
  modify (fun w => set_allServers (<[port := i]> (allServers w)) w) ;;
  ret (Ok i).

Definition ForPort (port : string) : M Servers (result nat) :=
  let! found := ForPort_look port in
  match found with
  | Some i => ret (Ok i)
  | None =>
      let! r := ForPort_make port in
      match r with
      | Err e => ret (Err e)
      | Ok i => ForPort_store port i
      end
  end.

Definition Running (s : HTTPServer) : bool := started s.

(** [Start]: whether this call is the one that starts the server. *)
Definition Start_claim : M HTTPServer bool :=
  locked ;;
  let! s := get in
  if Running s then unlocked ;; ret false
  else modify (set_started true) ;; unlocked ;; ret true.

Definition in_use (a : string) (s : HTTPServer) : bool :=
  String.eqb (addr s) a &&
  match hs_ln (server s) with
  | Some l => match ln_state l with Closed => false | _ => true end
  | None => false
  end.

(** [net.Listen("tcp", s.addr)], with the limit of connections. *)
Definition Start_listen (i : nat) : M Servers (option error) :=
  let! w := get in
  on_server i (
    let! s := get in
    modify (set_listens (S (listens s))) ;;
    if existsb (in_use (addr s)) (servers w) then ret (Some (Errorf "address already in use"))
    else
      match net_refuses (addr s) with
      | Some e => ret (Some e)
      | None =>
          let limit := if (0 <? maxConn s)%Z then Some (maxConn s) else None in
          modify (fun s => set_server (set_ln (Some (mkListener Bound limit (secured s))) (server s)) s) ;;
          ret None
      end).

Definition close_ln (h : http_server) : http_server :=
  set_ln (match hs_ln h with
          | Some l => Some (mkListener Closed (ln_limit l) (ln_tls l))
          | None => None
          end) h.

(** [s.server.Serve(ln)] and [ServeTLS]: it accepts connections until the server is
    shut down. The listener is closed when [Start] returns. *)
Definition Start_serve : M HTTPServer (option error) := fun s =>
  if hs_inShutdown (server s) then Ret (Some ErrServerClosed) (set_server (close_ln (server s)) s)
  else
    let accept l := mkListener Accepting (ln_limit l) (ln_tls l) in
    Block "http.Server.Serve" (set_server (set_ln (option_map accept (hs_ln (server s))) (server s)) s).

(** [Serve] also returns when accepting a connection fails. *)
Definition Serve_fails (e : error) : M HTTPServer (option error) :=
  modify (fun s => set_server (close_ln (server s)) s) ;; ret (Some e).

Definition Start (i : nat) : M Servers (option error) :=
  let! claimed := on_server i Start_claim in
  if negb claimed then ret None
  else
    let! err := Start_listen i in
    match err with
    | Some e => ret (Some e)
    | None => on_server i Start_serve
    end.

(** The check of [StartAndAnnounce]: whether it goes on to [Start]. *)
Definition Announce : M HTTPServer bool :=
  locked ;;
  let! s := get in
  unlocked ;;
  ret (negb (Running s)).

Definition StartAndAnnounce (i : nat) : M Servers (option error) :=
  let! go := on_server i Announce in
  if negb go then ret None else Start i.

(** [s.server.Shutdown(context.Background())]: the listener that [Serve] uses is
    closed, then the connections that are not idle are waited for. *)
Definition http_Shutdown : M http_server (option error) := fun h =>
  let h' :=
    match hs_ln h with
    | Some l =>
        match ln_state l with
        | Accepting => close_ln (mkHttp true (hs_active h) (hs_ln h))
        | _ => mkHttp true (hs_active h) (hs_ln h)
        end
    | None => mkHttp true (hs_active h) None
    end in
  match hs_active h with
  | O => Ret None h'
  | S _ => Block "http.Server.Shutdown" h'
  end.

Definition Server_Shutdown : M HTTPServer (option error) :=
  locked ;;
  let! s := get in
  if shutdown s then unlocked ;; ret None
  else
    modify (set_shutdown true) ;;
    unlocked ;;
    zoom server set_server http_Shutdown.

Definition Stopped : M HTTPServer bool :=
  locked ;;
  let! s := get in
  unlocked ;;
  ret (shutdown s).

Definition Address (s : HTTPServer) : string :=
  (if secured s then "https://" else "http://") ++ addr s.

(** [s.Mux.Handle(path, handler)] *)
Definition Handle (path : string) (h : http_handler) : M HTTPServer unit :=
  zoom Mux set_Mux (mux_Handle path h).

(** [HealthHandler]: the status and the body. *)
Definition health : Z * string := (200%Z, "Ah, ha, ha, ha, stayin' alive, stayin' alive.").

(** How a server is run, in cli.go, metrics.go and pubsub/http.go: an error is reported
    unless the server was stopped by the user. *)
Definition report_error (i : nat) (err : option error) : M Servers (option error) :=
  match err with
  | None => ret None
  | Some e =>
      let! stopped := on_server i Stopped in
      ret (if stopped then None else Some e)
  end.

(** ** Goroutines that start servers *)

(** Where a goroutine is in [StartAndAnnounce]; [Finished] has what it reports and
    whether it was the one that started the server. *)
Inductive starter : Type :=
| Announcing
| Starting
| Listening
| Serving
| Finished (claimed : bool) (report : option error).

Definition claimed (t : starter) : bool :=
  match t with
  | Announcing | Starting => false
  | Listening | Serving => true
  | Finished c _ => c
  end.

(** One step of a goroutine, up to the next place where another one can run. *)
Definition starter_step (i : nat) (t : starter) : M Servers starter :=
  match t with
  | Announcing =>
      let! go := on_server i Announce in
      ret (if go then Starting else Finished false None)
  | Starting =>
      let! c := on_server i Start_claim in
      ret (if c then Listening else Finished false None)
  | Listening =>
      let! err := Start_listen i in
      match err with
      | None => ret Serving
      | Some _ => let! r := report_error i err in ret (Finished true r)
      end
  | Serving =>
      let! err := on_server i Start_serve in
      let! r := report_error i err in
      ret (Finished true r)
  | Finished c r => ret (Finished c r)
  end.

(** The servers and the goroutines that start them, each with its server. *)
Record ServerSys : Type := mkServerSys { sy_servers : Servers; sy_starters : list (nat * starter) }.

Inductive srv_action : Type :=
| SrvForPort (port : string)
| SrvNew (host port : string) (ssl : option SSLConfig) (maxConn : Z)
| SrvSpawn (i : nat)
| SrvRun (j : nat)
| SrvFail (j : nat) (e : error)
| SrvShutdown (i : nat)
| SrvBusy (i n : nat).

(** What an action does; a server can also be made without [ForPort], the accept loop
    can fail, and the number of busy connections changes. *)
Definition srv_act (a : srv_action) (y : ServerSys) : ServerSys :=
  let w := sy_servers y in
  let ts := sy_starters y in
  match a with
  | SrvForPort port => mkServerSys (final (ForPort port w)) ts
  | SrvNew host port ssl maxConn => mkServerSys (final (NewServer host port ssl maxConn w)) ts
  | SrvSpawn i => mkServerSys w (ts ++ [(i, Announcing)])%list
  | SrvRun j =>
      match ts !! j with
      | Some (i, t) =>
          match starter_step i t w with
          | Ret t' w' => mkServerSys w' (<[j := (i, t')]> ts)
          | Block _ w' | Panic _ w' => mkServerSys w' ts
          end
      | None => y
      end
  | SrvFail j e =>
      match ts !! j with
      | Some (i, Serving) =>
          match (let! err := on_server i (Serve_fails e) in report_error i err) w with
          | Ret r w' => mkServerSys w' (<[j := (i, Finished true r)]> ts)
          | Block _ w' | Panic _ w' => mkServerSys w' ts
          end
      | _ => y
      end
  | SrvShutdown i => mkServerSys (final (on_server i Server_Shutdown w)) ts
  | SrvBusy i n =>
      mkServerSys (final (on_server i (modify (fun s =>
        set_server (mkHttp (hs_inShutdown (server s)) n (hs_ln (server s))) s)) w)) ts
  end.

Definition srv_reach (y0 : ServerSys) (acts : list srv_action) : ServerSys :=
  foldl (fun y a => srv_act a y) y0 acts.

Definition no_servers (host : string) (ssl : option SSLConfig) (maxConn : Z) : ServerSys :=
  mkServerSys (mkServers ∅ host ssl maxConn []) [].
End machine.

(** ** Every server listens once *)

Definition listened (t : starter) : bool :=
  match t with
  | Serving | Finished true _ => true
  | _ => false
  end.

(** How many of the goroutines of server [i] are in a state. *)
Definition tally (P : starter -> bool) (i : nat) (ts : list (nat * starter)) : nat :=
  length (filter (fun it => it.1 = i /\ P it.2 = true) ts).

Definition server_ok (ts : list (nat * starter)) (i : nat) (s : HTTPServer) : Prop :=
  mu s = false /\
  (hs_inShutdown (server s) = true -> shutdown s = true) /\
  tally claimed i ts = (if started s then 1 else 0) /\
  tally listened i ts = listens s.

Record servers_ok (y : ServerSys) : Prop := {
  so_server : forall i s, servers (sy_servers y) !! i = Some s -> server_ok (sy_starters y) i s;
  so_known : forall j i t, sy_starters y !! j = Some (i, t) -> claimed t = true ->
    is_Some (servers (sy_servers y) !! i);
  so_reports : forall j i c e, sy_starters y !! j = Some (i, Finished c (Some e)) -> e <> ErrServerClosed
}.

Lemma tally_app P i ts us : tally P i (ts ++ us) = tally P i ts + tally P i us.
Proof. unfold tally. by rewrite filter_app, length_app. Qed.

Lemma tally_cons P i k t ts :
  tally P i ((k, t) :: ts) = (if bool_decide (k = i) && P t then 1 else 0) + tally P i ts.
Proof.
  unfold tally. rewrite filter_cons. simpl. case_decide as H; simpl.
  - destruct H as [-> ->]. by rewrite bool_decide_true.
  - destruct (bool_decide_reflect (k = i)), (P t); simpl; naive_solver.
Qed.

Lemma tally_insert P i j k t t' ts :
  ts !! j = Some (k, t) ->
  tally P i (<[j := (k, t')]> ts) + (if bool_decide (k = i) && P t then 1 else 0) =
  tally P i ts + (if bool_decide (k = i) && P t' then 1 else 0).
Proof.
  intros Hj. rewrite insert_take_drop by (by eapply lookup_lt_Some).
  rewrite <- (take_drop_middle ts j (k, t) Hj) at 3.
  rewrite !tally_app, !tally_cons. lia.
Qed.

Lemma claimed_listened t : listened t = true -> claimed t = true.
Proof. by destruct t as [| | | |[] ?]. Qed.

Lemma tally_listened_le i ts : tally listened i ts <= tally claimed i ts.
Proof.
  induction ts as [|[k t] ts IH]; [done |]. rewrite !tally_cons.
  destruct (bool_decide (k = i)); simpl; [| lia].
  pose proof (claimed_listened t) as H. destruct (listened t); [rewrite H by done | case_match]; lia.
Qed.

Lemma tally_none P i ts :
  (forall j t, ts !! j = Some (i, t) -> P t = false) -> tally P i ts = 0.
Proof.
  induction ts as [|[k t] ts IH]; intros H; [done |]. rewrite tally_cons.
  rewrite IH by (intros j u Hu; by apply (H (S j))).
  destruct (bool_decide_reflect (k = i)) as [->|]; [| done]. simpl. by rewrite (H 0 t).
Qed.

(** A goroutine of server [i] moves, and the server with it. *)
Lemma servers_ok_move w ts i j s s' t t' :
  servers_ok (mkServerSys w ts) -> servers w !! i = Some s -> ts !! j = Some (i, t) ->
  mu s' = false -> (hs_inShutdown (server s') = true -> shutdown s' = true) ->
  Nat.b2n (claimed t') + (if started s then 1 else 0) = Nat.b2n (claimed t) + (if started s' then 1 else 0) ->
  Nat.b2n (listened t') + listens s = Nat.b2n (listened t) + listens s' ->
  (forall c e, t' = Finished c (Some e) -> e <> ErrServerClosed) ->
  servers_ok (mkServerSys (set_servers (<[i := s']> (servers w)) w) (<[j := (i, t')]> ts)).
Proof.
  intros [Hs Hk Hr] Hi Hj Hmu Hsh Hcl Hli Hrep. split; simpl in *.
  - intros k u Hu. destruct (decide (k = i)) as [->|Hne].
    + rewrite list_lookup_insert_eq in Hu by (by eapply lookup_lt_Some). injection Hu as <-.
      destruct (Hs i s Hi) as (_ & _ & Hc & Hl). split; [done |]. split; [done |].
      pose proof (tally_insert claimed i j i t t' ts Hj) as Ec.
      pose proof (tally_insert listened i j i t t' ts Hj) as El.
      rewrite bool_decide_true in Ec, El by done. simpl in Ec, El.
      unfold Nat.b2n in *. split; destruct (claimed t), (claimed t'), (listened t), (listened t'); lia.
    + rewrite list_lookup_insert_ne in Hu by done. destruct (Hs k u Hu) as (? & ? & Hc & Hl).
      split; [done |]. split; [done |].
      pose proof (tally_insert claimed k j i t t' ts Hj) as Ec.
      pose proof (tally_insert listened k j i t t' ts Hj) as El.
      rewrite bool_decide_false in Ec, El by done. simpl in Ec, El.
      rewrite !Nat.add_0_r in Ec, El. split; congruence.
  - intros j' k u Hu Hcu. destruct (decide (k = i)) as [->|Hne].
    + rewrite list_lookup_insert_eq by (by eapply lookup_lt_Some). done.
    + rewrite list_lookup_insert_ne by done. apply list_lookup_insert_Some in Hu as [(_ & ? & _) | [_ Hu]];
        [congruence | by eapply Hk].
  - intros j' k c e Hu. apply list_lookup_insert_Some in Hu as [(_ & Heq & _) | [_ Hu]]; [| by eapply Hr].
    injection Heq as _ ->. by eapply Hrep.
Qed.

(** A server changes in a way that the goroutines do not see. *)
Lemma servers_ok_server w ts i s s' :
  servers_ok (mkServerSys w ts) -> servers w !! i = Some s ->
  mu s' = false -> (hs_inShutdown (server s') = true -> shutdown s' = true) ->
  started s' = started s -> listens s' = listens s ->
  servers_ok (mkServerSys (set_servers (<[i := s']> (servers w)) w) ts).
Proof.
  intros [Hs Hk Hr] Hi Hmu Hsh Hst Hli. split; simpl in *; [| | done].
  - intros k u Hu. destruct (decide (k = i)) as [->|Hne].
    + rewrite list_lookup_insert_eq in Hu by (by eapply lookup_lt_Some). injection Hu as <-.
      destruct (Hs i s Hi) as (_ & _ & Hc & Hl). rewrite <- Hst in Hc. rewrite <- Hli in Hl. done.
    + rewrite list_lookup_insert_ne in Hu by done. by apply Hs.
  - intros j k t Ht Hc. destruct (Hk j k t Ht Hc) as [u Hu]. destruct (decide (k = i)) as [->|Hne].
    + rewrite list_lookup_insert_eq by (by eapply lookup_lt_Some). done.
    + by rewrite list_lookup_insert_ne.
Qed.

Lemma on_server_ret {A} i (m : M HTTPServer A) w s a s' :
  servers w !! i = Some s -> m s = Ret a s' ->
  on_server i m w = Ret a (set_servers (<[i := s']> (servers w)) w).
Proof. intros Hi Hm. unfold on_server. by rewrite Hi, Hm. Qed.

Lemma on_server_read {A} i (m : M HTTPServer A) w s a :
  servers w !! i = Some s -> m s = Ret a s -> on_server i m w = Ret a w.
Proof.
  intros Hi Hm. rewrite (on_server_ret i m w s a s Hi Hm), list_insert_id by done. by destruct w.
Qed.

Lemma Announce_ok s : mu s = false -> Announce s = Ret (negb (started s)) s.
Proof. destruct s; simpl. by intros ->. Qed.

Lemma Start_claim_ok s : mu s = false -> Start_claim s = Ret (negb (started s)) (set_started true s).
Proof. destruct s as [? ? ? ? [] ? ? ? ?]; simpl; by intros ->. Qed.

Lemma Stopped_ok s : mu s = false -> Stopped s = Ret (shutdown s) s.
Proof. destruct s; simpl. by intros ->. Qed.

Lemma Server_Shutdown_final s :
  mu s = false ->
  final (Server_Shutdown s) =
  if shutdown s then s else set_server (final (http_Shutdown (server s))) (set_shutdown true s).
Proof.
  destruct s as [h ? ? [] ? ? ? ? ?]; simpl; intros ->; [done |].
  unfold Server_Shutdown, bind, locked, unlocked, zoom; simpl. by destruct (http_Shutdown h).
Qed.

Lemma report_error_ok i w s err :
  servers w !! i = Some s -> mu s = false ->
  report_error i err w = Ret (if shutdown s then None else err) w.
Proof.
  intros Hi Hmu. unfold report_error. destruct err as [e|]; [| by destruct (shutdown s)].
  unfold bind. by rewrite (on_server_read i Stopped w s (shutdown s) Hi (Stopped_ok s Hmu)).
Qed.

Section once.
Context (load_key_pair : string -> string -> option error) (net_refuses : string -> option error).
Context (refusals : forall a, net_refuses a <> Some ErrServerClosed).

Definition honest (a : srv_action) : Prop :=
  match a with SrvFail _ e => e <> ErrServerClosed | _ => True end.

Lemma NewServer_keeps host port ssl n w ts :
  servers_ok (mkServerSys w ts) -> servers_ok (mkServerSys (final (NewServer load_key_pair host port ssl n w)) ts).
Proof.
  intros Hok. unfold NewServer. case_match; [done |]. simpl. destruct Hok as [Hs Hk Hr].
  split; simpl in *; [| | done].
  - intros i s Hi. apply lookup_app_Some in Hi as [Hi | [Hge Hi]]; [by apply Hs |].
    apply list_lookup_singleton_Some in Hi as [Hlen <-]. split; [done |]. split; [done |].
    assert (Hz : tally claimed i ts = 0).
    { apply tally_none. intros j t Ht. destruct (claimed t) eqn:Hc; [| done].
      destruct (Hk j i t Ht Hc) as [u Hu%lookup_lt_Some]. lia. }
    pose proof (tally_listened_le i ts). simpl. lia.
  - intros j i t Ht Hc. destruct (Hk j i t Ht Hc) as [u Hu]. exists u. by apply lookup_app_l_Some.
Qed.

Lemma ForPort_keeps port w ts :
  servers_ok (mkServerSys w ts) -> servers_ok (mkServerSys (final (ForPort load_key_pair port w)) ts).
Proof.
  intros Hok. unfold ForPort, ForPort_look, bind, get, ret. destruct (allServers w !! port); [done |].
  unfold ForPort_make, bind, get.
  pose proof (NewServer_keeps (Host w) port (SSL w) (MaxConn w) w ts Hok) as Hnew.
  destruct (NewServer load_key_pair (Host w) port (SSL w) (MaxConn w) w) as [[i|e] w'| |]; try done.
  destruct Hnew as [Hs Hk Hr]. by split.
Qed.

Lemma Start_listen_ok i s w :
  servers w !! i = Some s ->
  exists err s', Start_listen net_refuses i w = Ret err (set_servers (<[i := s']> (servers w)) w) /\
    mu s' = mu s /\ hs_inShutdown (server s') = hs_inShutdown (server s) /\ shutdown s' = shutdown s /\
    started s' = started s /\ listens s' = S (listens s) /\ err <> Some ErrServerClosed.
Proof.
  intros Hi. unfold Start_listen, bind, get. unfold on_server. rewrite Hi.
  unfold bind, modify, ret. simpl. destruct (existsb _ _); [by do 2 eexists |].
  pose proof (refusals (addr s)). destruct (net_refuses (addr s)) as [e|]; by do 2 eexists.
Qed.

Lemma Start_serve_ok s :
  match Start_serve s with
  | Ret err s' => err = Some ErrServerClosed /\ hs_inShutdown (server s) = true /\
      mu s' = mu s /\ hs_inShutdown (server s') = true /\ shutdown s' = shutdown s /\
      started s' = started s /\ listens s' = listens s
  | Block _ s' => mu s' = mu s /\ hs_inShutdown (server s') = hs_inShutdown (server s) /\
      shutdown s' = shutdown s /\ started s' = started s /\ listens s' = listens s
  | Panic _ _ => False
  end.
Proof. unfold Start_serve. by destruct (hs_inShutdown (server s)) eqn:H. Qed.

(** A step of a goroutine keeps the books. *)
Lemma starter_keeps w ts i j s t :
  servers_ok (mkServerSys w ts) -> servers w !! i = Some s -> ts !! j = Some (i, t) ->
  servers_ok (srv_act load_key_pair net_refuses (SrvRun j) (mkServerSys w ts)).
Proof.
  intros Hok Hi Hj. destruct (so_server _ Hok i s Hi) as (Hmu & Hsh & _ & _). simpl. rewrite Hj.
  destruct t as [| | | |c r]; simpl starter_step; unfold bind.
  - rewrite (on_server_read i _ w s _ Hi (Announce_ok s Hmu)). simpl.
    replace w with (set_servers (<[i := s]> (servers w)) w) by (rewrite list_insert_id by done; by destruct w).
    eapply servers_ok_move; try done; destruct (started s); done.
  - rewrite (on_server_ret i _ w s _ _ Hi (Start_claim_ok s Hmu)). simpl.
    eapply servers_ok_move; try done; simpl; by destruct (started s).
  - destruct (Start_listen_ok i s w Hi) as (err & s' & -> & Em & Eh & Es & Est & El & Hne).
    assert (Hi' : servers (set_servers (<[i := s']> (servers w)) w) !! i = Some s').
    { apply list_lookup_insert_eq. by eapply lookup_lt_Some. }
    destruct err as [e|].
    + rewrite (report_error_ok i _ s' (Some e) Hi') by congruence. simpl.
      eapply servers_ok_move; try done; simpl; try congruence; try lia.
      intros c e' Heq. destruct (shutdown s'); naive_solver.
    + eapply servers_ok_move; try done; simpl; try congruence; lia.
  - unfold on_server. rewrite Hi. pose proof (Start_serve_ok s) as Hserve.
    destruct (Start_serve s) as [err s'|why s'|]; [| | done].
    + destruct Hserve as (-> & Hin & Em & Eh & Es & Est & El).
      rewrite (report_error_ok i _ s' (Some ErrServerClosed));
        [| apply list_lookup_insert_eq; by eapply lookup_lt_Some | congruence].
      simpl. rewrite Es, (Hsh Hin).
      eapply servers_ok_move; try done; simpl; try congruence; [by rewrite Es, Hsh | lia].
    + destruct Hserve as (Em & Eh & Es & Est & El). rewrite <- Eh, <- Es in Hsh.
      eapply servers_ok_server; try done; congruence.
  - simpl. by rewrite (list_insert_id ts j (i, Finished c r) Hj).
Qed.

Lemma srv_act_keeps a y :
  servers_ok y -> honest a -> servers_ok (srv_act load_key_pair net_refuses a y).
Proof.
  destruct y as [w ts]. intros Hok Ha. destruct a as [port|host port ssl n|i|j|j e|i|i n].
  - by apply ForPort_keeps.
  - by apply NewServer_keeps.
  - destruct Hok as [Hs Hk Hr]. split; simpl in *.
    + intros k s Hi. unfold server_ok. rewrite !tally_app, !tally_cons. simpl.
      rewrite !andb_false_r, !Nat.add_0_r. by apply Hs.
    + intros j k t Ht Hc. apply lookup_app_Some in Ht as [Ht | [_ Ht]]; [by eapply Hk |].
      apply list_lookup_singleton_Some in Ht as [_ Heq]. by injection Heq as _ <-.
    + intros j k c e Ht. apply lookup_app_Some in Ht as [Ht | [_ Ht]]; [by eapply Hr |].
      by apply list_lookup_singleton_Some in Ht as [_ Heq].
  - simpl. destruct (ts !! j) as [[i t]|] eqn:Hj; [| done].
    destruct (servers w !! i) as [s|] eqn:Hi.
    + pose proof (starter_keeps w ts i j s t Hok Hi Hj) as H. simpl in H. by rewrite Hj in H.
    + destruct (claimed t) eqn:Hc; [by destruct (so_known _ Hok j i t Hj Hc) as [? ?]; simplify_eq/= |].
      destruct t as [| | | |[] r]; try done; simpl;
        try (unfold bind, on_server; rewrite Hi; done).
      by rewrite (list_insert_id ts j _ Hj).
  - simpl. destruct (ts !! j) as [[i t]|] eqn:Hj; [| done]. destruct t; try done.
    destruct (so_known _ Hok j i Serving Hj eq_refl) as [s Hi]. simpl in Hi.
    destruct (so_server _ Hok i s Hi) as (Hmu & Hsh & _ & _).
    unfold bind. erewrite (on_server_ret i (Serve_fails e)) by done.
    erewrite report_error_ok;
      [| apply list_lookup_insert_eq; by eapply lookup_lt_Some | done].
    eapply servers_ok_move; try done. intros c e' Heq. simpl in Heq. destruct (shutdown s); naive_solver.
  - simpl. unfold on_server. destruct (servers w !! i) as [s|] eqn:Hi; [| done].
    destruct (so_server _ Hok i s Hi) as (Hmu & Hsh & _ & _).
    pose proof (Server_Shutdown_final s Hmu) as Hf.
    assert (Hgo : servers_ok (mkServerSys (set_servers (<[i := final (Server_Shutdown s)]> (servers w)) w) ts)).
    { rewrite Hf. destruct (shutdown s) eqn:Es; eapply servers_ok_server; try done; by rewrite ?Es. }
    by destruct (Server_Shutdown s).
  - simpl. unfold on_server. destruct (servers w !! i) as [s|] eqn:Hi; [| done].
    destruct (so_server _ Hok i s Hi) as (Hmu & Hsh & _ & _). simpl.
    eapply servers_ok_server; done.
Qed.

Lemma srv_reach_keeps acts y :
  servers_ok y -> Forall honest acts -> servers_ok (srv_reach load_key_pair net_refuses y acts).
Proof.
  revert y. induction acts as [|a acts IH]; intros y Hy Ha; [done |].
  apply Forall_cons in Ha as [Ha Hacts]. apply IH; [by apply srv_act_keeps | done].
Qed.

Lemma no_servers_ok host ssl n : servers_ok (no_servers host ssl n).
Proof. by split. Qed.

(** C32. However the goroutines that start the servers interleave, with one another and with
    the shutdown of servers, every server calls [net.Listen] at most once: at most one
    goroutine gets past the check of [Start], the others return without an error. What
    is reported is a failure to listen or to accept: never that the server was closed,
    because only [Shutdown] closes it, and then nothing is reported. *)
Theorem server_listens_once acts host ssl n :
  Forall honest acts ->
  let y := srv_reach load_key_pair net_refuses (no_servers host ssl n) acts in
  (forall i s, servers (sy_servers y) !! i = Some s ->
     listens s <= tally claimed i (sy_starters y) <= 1 /\ mu s = false) /\
  (forall j i c e, sy_starters y !! j = Some (i, Finished c (Some e)) -> e <> ErrServerClosed).
Proof.
  intros Ha y. assert (Hok : servers_ok y) by (apply srv_reach_keeps; [apply no_servers_ok | done]).
  destruct Hok as [Hs _ Hr]. split; [| exact Hr]. intros i s Hi. destruct (Hs i s Hi) as (Hmu & _ & Hc & Hl).
  rewrite <- Hl. split; [| done]. pose proof (tally_listened_le i (sy_starters y)).
  destruct (started s); lia.
Qed.
End once.

(** ** One server for a port *)

(** Two servers are never registered for one port, and a port is asked for twice with
    the same answer. *)
Lemma ForPort_stable load port w i w' :
  ForPort load port w = Ret (Ok i) w' -> ForPort load port w' = Ret (Ok i) w'.
Proof.
  unfold ForPort, ForPort_look, bind, get, ret. destruct (allServers w !! port) as [j|] eqn:Hp.
  - intros [= -> <-]. by rewrite Hp.
  - unfold ForPort_make, bind, get. destruct (NewServer _ _ _ _ _ _) as [[j|e]| |]; try done.
    unfold ForPort_store, bind, modify, ret. intros [= -> <-]. simpl. by rewrite lookup_insert_eq.
Qed.

Lemma NewServer_made host port ssl n w :
  exists s, addr s = JoinHostPort host port /\
    NewServer (fun _ _ => None) host port ssl n w =
    Ret (Ok (length (servers w))) (set_servers (servers w ++ [s])%list w).
Proof.
  unfold NewServer. destruct ssl as [opts|]; [destruct (Available opts) |];
    (eexists; split; [| reflexivity]; reflexivity).
Qed.

(** [ForPort] in two goroutines, one step of each in turn. *)
Definition both_for_port (port : string) : M Servers (nat * nat) :=
  let! f1 := ForPort_look port in
  let! f2 := ForPort_look port in
  match f1, f2 with
  | None, None =>
      let! r1 := ForPort_make (fun _ _ => None) port in
      let! r2 := ForPort_make (fun _ _ => None) port in
      match r1, r2 with
      | Ok i, Ok j => ForPort_store port i ;; ForPort_store port j ;; ret (i, j)
      | _, _ => nil_deref
      end
  | _, _ => nil_deref
  end.

(** Two goroutines that ask for a port at the same time, the program's main goroutine
    and the one that starts the HTTP broadcast endpoint, get two servers: the map is not
    locked. One of the two is not the server of the port. *)
Theorem ForPort_race port w :
  allServers w !! port = None ->
  exists i j w', both_for_port port w = Ret (i, j) w' /\ i <> j /\ allServers w' !! port = Some j /\
    addr <$> servers w' !! i = addr <$> servers w' !! j.
Proof.
  intros Hnew. destruct (NewServer_made (Host w) port (SSL w) (MaxConn w) w) as (s1 & Ha1 & H1).
  destruct (NewServer_made (Host w) port (SSL w) (MaxConn w) (set_servers (servers w ++ [s1]) w))
    as (s2 & Ha2 & H2).
  unfold both_for_port, ForPort_look, ForPort_make, bind, get. rewrite Hnew, H1.
  cbn [Host SSL MaxConn set_servers] in *. rewrite H2.
  do 3 eexists. split; [reflexivity |]. simpl. rewrite length_app. simpl.
  split; [lia |]. split; [by rewrite lookup_insert_eq |].
  rewrite (lookup_app_l (servers w ++ _)%list) by (rewrite length_app; simpl; lia).
  rewrite !lookup_app_r by (rewrite ?length_app; simpl; lia).
  rewrite length_app, !Nat.sub_diag. simpl. by rewrite Ha1, Ha2.
Qed.

Lemma server_listens_once_witness :
  let acts := [SrvForPort "8080"; SrvSpawn 0; SrvSpawn 0; SrvRun 0; SrvRun 1; SrvRun 0; SrvRun 1;
               SrvRun 0; SrvRun 0; SrvShutdown 0; SrvRun 0] in
  Forall honest acts /\
  let y := srv_reach (fun _ _ => None) (fun _ => None) (no_servers "localhost" None 0) acts in
  sy_starters y = [(0, Finished true None); (0, Finished false None)] /\
  forall i s, servers (sy_servers y) !! i = Some s -> listens s <= 1.
Proof.
  intros acts. assert (Ha : Forall honest acts) by (repeat constructor).
  split; [exact Ha |]. intros y. split; [vm_compute; reflexivity |].
  intros i s Hi.
  destruct (server_listens_once (fun _ _ => None) (fun _ => None) (fun _ => ltac:(discriminate))
              acts "localhost" None 0 Ha) as [H _].
  destruct (H i s Hi). lia.
Defined.

Lemma ForPort_race_witness :
  let w := mkServers ∅ "localhost" None 0 [] in
  exists i j w', both_for_port "8080" w = Ret (i, j) w' /\ i <> j.
Proof.
  intros w. destruct (ForPort_race "8080" w) as (i & j & w' & H1 & H2 & _).
  - reflexivity.
  - exists i, j, w'. split; [exact H1 | exact H2].
Defined.
