(* ===== verification/Ws.v ===== *)
(** * WebSocket connections

    Package ws ([src/ws]): the handler that turns an HTTP request into a session, what
    it takes from the request, the check of the origin, and the connection that
    sessions write to. The WebSocket library is a parameter: its [Upgrade] with what
    its documentation says about the origin, and the calls on a connection. *)

From Stdlib Require Import ZArith NArith Lia Ascii String.
From stdpp Require Import base strings list gmap.
From S2P Require Import Prelude Json Common Net Encoders World.

Local Open Scope string_scope.

(** ** Configuration *)

Record WSConfig : Type := mkWSConfig {
  ReadBufferSize : Z;
  WriteBufferSize : Z;
  MaxMessageSize : Z;
  EnableCompression : bool;
  AllowedOrigins : string
}.

Definition NewWSConfig : WSConfig := mkWSConfig 0 0 0 false EmptyString.

(** ** What is taken from a request *)

Definition remoteAddrHeader : string := "REMOTE_ADDR".

Record RequestInfo : Type := mkRequestInfo {
  info_UID : string;
  info_Url : string;
  info_Headers : gmap string string
}.

Definition fetch_header (r : Request) (res : gmap string string) (header : string)
    : gmap string string := <[header := Get r header]> res.

Definition FetchHeaders (r : Request) (list : list string) : gmap string string :=
  let res := foldl (fetch_header r) ∅ list in
  let host := match SplitHostPort (r_RemoteAddr r) with Some (h, _) => h | None => EmptyString end in
  <[remoteAddrHeader := host]> res.

(** The generator of identifiers may fail. *)
Definition FetchUID (nanoid : result string) (r : Request) : result string :=
  let requestID := Get r "X-Request-ID" in
  if String.eqb requestID EmptyString then nanoid else Ok requestID.

Definition NewRequestInfo (nanoid : result string) (r : Request) (headersToFetch : list string)
    : result RequestInfo :=
  let headers := FetchHeaders r headersToFetch in
  match FetchUID nanoid r with
  | Err _ => Err (Errorf "Failed to retrieve connection uid")
  | Ok uid => Ok (mkRequestInfo uid EmptyString headers)
  end.

(** ** The origin *)

(** The loop over the allowed hosts. *)
Fixpoint match_hosts {W} (uhost : string) (hosts : list string) : M W bool :=
  match hosts with
  | [] => ret false
  | host :: hosts =>
      match host with
      | EmptyString => panic "index out of range [0] with length 0"
      | String c suffix =>
          if Ascii.eqb c "*" && HasSuffix uhost suffix then ret true
          else if String.eqb uhost host then ret true
          else match_hosts uhost hosts
      end
  end.

Definition CheckOrigin {W} (origins : string) (r : Request) : M W bool :=
  if String.eqb origins EmptyString then ret true
  else
    let hosts := Split "," (ToLower origins) in
    let origin := ToLower (Get r "Origin") in
    match url_Parse origin with
    | None => ret false
    | Some u => match_hosts (url_Host u) hosts
    end.

(** ** The handler *)

(** What the handler asks of the WebSocket library, and of the session handler. *)
Inductive ws_event : Type :=
| WsReadLimit (n : Z)
| WsWriteCompression
| WsCloseWithReason (code : Z) (reason : string)
| WsSession (info : RequestInfo).

Record Upgrader : Type := mkUpgrader {
  u_CheckOrigin : Request -> M (list ws_event) bool;
  u_Subprotocols : list string;
  u_ReadBufferSize : Z;
  u_WriteBufferSize : Z;
  u_EnableCompression : bool
}.

Definition emit (e : ws_event) : M (list ws_event) unit := modify (fun t => t ++ [e])%list.

(** The upgrader of a configuration. *)
Definition upgrader_of (config : WSConfig) : Upgrader :=
  mkUpgrader (CheckOrigin (AllowedOrigins config)) ["actioncable-v1-json"]
    (ReadBufferSize config) (WriteBufferSize config) (EnableCompression config).

(** The header that tells the client which server it talks to. *)
Definition rheader (version : string) : list (string * list string) := [("X-AnyCable-Version", [version])].

(** The handler of connections: the session itself is served by another goroutine. *)
Definition WebsocketHandler
    (Upgrade : Upgrader -> Request -> list (string * list string) -> M (list ws_event) (option error))
    (version : string) (nanoid : result string) (headersToFetch : list string) (config : WSConfig)
    (r : Request) : M (list ws_event) unit :=
  let! err := Upgrade (upgrader_of config) r (rheader version) in
  match err with
  | Some _ => ret tt
  | None =>
      let url :=
        if negb (String.eqb (r_URL_scheme r) EmptyString) then r_URL r
        else (if r_TLS r then "https://" else "http://") ++ r_Host r ++ r_URL r in
      match NewRequestInfo nanoid r headersToFetch with
      | Err e => emit (WsCloseWithReason CloseAbnormalClosure "Failed to retrieve connection uid")
      | Ok info =>
          let info := mkRequestInfo (info_UID info) url (info_Headers info) in
          emit (WsReadLimit (MaxMessageSize config)) ;;
          when (EnableCompression config) (emit WsWriteCompression) ;;
          emit (WsSession info)
      end
  end.

(** ** The connection of a session *)

(** The calls that a connection makes on the one of the WebSocket library; a message is
    written through a writer that is opened and closed. *)
Class GorillaConn (G : Type) : Type := {
  SetWriteDeadline : Z -> M G (option error);
  NextWriter : Z -> M G (option error);
  writer_Write : string -> M G (option error);
  writer_Close : M G (option error);
  gorilla_ReadMessage : M G (result string);
  FormatCloseMessage : Z -> string -> string;
  WriteControl : Z -> string -> Z -> M G (option error);
  gorilla_Close : M G (option error)
}.

Definition TextMessage : Z := 1.
Definition BinaryMessage : Z := 2.
Definition CloseMessage : Z := 8.

Section connection.
Context {G : Type} `{GorillaConn G}.

(** [if err := m; err != nil { return err }; k] *)
Definition or_return (m k : M G (option error)) : M G (option error) :=
  let! err := m in
  match err with
  | Some e => ret (Some e)
  | None => k
  end.

Definition Connection_Write (msg : string) (deadline : Z) : M G (option error) :=
  or_return (SetWriteDeadline deadline)
    (or_return (NextWriter TextMessage)
      (or_return (writer_Write msg) writer_Close)).

Definition Connection_WriteBinary (msg : string) (deadline : Z) : M G (option error) :=
  or_return (SetWriteDeadline deadline)
    (or_return (NextWriter BinaryMessage)
      (or_return (writer_Write msg) writer_Close)).

Definition Connection_Read : M G (result string) := gorilla_ReadMessage.

Definition second : Z := 1000000000.

Definition CloseWithReason (now : Z) (code : Z) (reason : string) : M G unit :=
  WriteControl CloseMessage (FormatCloseMessage code reason) (now + second)%Z ;;
  gorilla_Close ;;
  ret tt.

Definition Connection_Close (now : Z) (code : Z) (reason : string) : M G unit :=
  CloseWithReason now code reason.
End connection.

(** ** Which origins are allowed *)

(** A pattern allows a host when it is the host, or a star and a suffix of it. *)
Definition allows (pattern host : string) : Prop :=
  pattern = host \/ exists suffix, pattern = String "*" suffix /\ exists p, host = p ++ suffix.

Definition allowed_by (uhost : string) (c : ascii) (suffix : string) : bool :=
  Ascii.eqb c "*" && HasSuffix uhost suffix || String.eqb uhost (String c suffix).

Lemma allowed_by_spec uhost c suffix :
  allowed_by uhost c suffix = true <-> allows (String c suffix) uhost.
Proof.
  unfold allowed_by, allows. rewrite orb_true_iff, andb_true_iff, Ascii.eqb_eq, String.eqb_eq, HasSuffix_spec.
  split.
  - intros [[-> Hs] | ->]; [| by left]. right. by exists suffix.
  - intros [-> | (s & [= -> ->] & Hs)]; [by right | by left].
Qed.

Lemma match_hosts_cons {W} uhost c suffix hosts (w : W) :
  match_hosts uhost (String c suffix :: hosts) w =
  if allowed_by uhost c suffix then Ret true w else match_hosts uhost hosts w.
Proof.
  unfold allowed_by. cbn [match_hosts]. destruct (Ascii.eqb c "*" && HasSuffix uhost suffix); [done |].
  by destruct (String.eqb uhost (String c suffix)).
Qed.

Lemma match_hosts_spec {W} uhost hosts (w : W) :
  EmptyString ∉ hosts ->
  exists b, match_hosts uhost hosts w = Ret b w /\ (b = true <-> exists p, p ∈ hosts /\ allows p uhost).
Proof.
  induction hosts as [|host hosts IH]; intros Hne.
  { exists false. split; [done |]. split; [done |]. intros (p & Hp & _). by apply elem_of_nil in Hp. }
  apply not_elem_of_cons in Hne as [Hhost Hne]. destruct host as [|c suffix]; [done |].
  rewrite match_hosts_cons. pose proof (allowed_by_spec uhost c suffix) as Hal.
  destruct (allowed_by uhost c suffix).
  - exists true. split; [done |]. split; [| done]. intros _. exists (String c suffix).
    split; [by left | by apply Hal].
  - destruct (IH Hne) as (b & -> & Hb). exists b. split; [done |]. rewrite Hb. split.
    + intros (p & Hp & Hpa). exists p. split; [by right | done].
    + intros (p & Hp & Hpa). apply elem_of_cons in Hp as [-> | Hp]; [by apply Hal in Hpa | by exists p].
Qed.

Lemma match_hosts_true {W} uhost hosts (w w' : W) :
  match_hosts uhost hosts w = Ret true w' -> exists p, p ∈ hosts /\ allows p uhost.
Proof.
  induction hosts as [|[|c suffix] hosts IH]; [done | done |]. rewrite match_hosts_cons.
  destruct (allowed_by uhost c suffix) eqn:E.
  - intros _. eexists. split; [by left | by apply allowed_by_spec].
  - intros H. destruct (IH H) as (p & Hp & Hal). exists p. split; [by right | done].
Qed.

Lemma CheckOrigin_true {W} origins r (w w' : W) :
  CheckOrigin origins r w = Ret true w' ->
  origins = EmptyString \/
  exists u, url_Parse (ToLower (Get r "Origin")) = Some u /\
    exists p, p ∈ Split "," (ToLower origins) /\ allows p (url_Host u).
Proof.
  unfold CheckOrigin. destruct (String.eqb_spec origins EmptyString) as [->|]; [by left |].
  destruct (url_Parse _) as [u|]; [| done]. intros H. right. exists u. split; [done |].
  by eapply match_hosts_true.
Qed.

Lemma lower_name_byte : forall c, name_byte c = true -> name_byte (lower_ascii c) = true.
Proof. each_byte. Qed.
Lemma lower_alpha : forall c, is_alpha c = true -> is_alpha (lower_ascii c) = true.
Proof. each_byte. Qed.
Lemma lower_digit : forall c, is_digit c = true -> lower_ascii c = c.
Proof. each_byte. Qed.

Lemma all_bytes_lower P s :
  (forall c, P c = true -> P (lower_ascii c) = true) -> all_bytes P s = true -> all_bytes P (ToLower s) = true.
Proof.
  intros HP. induction s as [|c s IH]; simpl; [done |]. intros [Hc Hs]%andb_true_iff.
  by rewrite (HP c Hc), (IH Hs).
Qed.

Lemma ToLower_port port : validOptionalPort port = true -> ToLower port = port.
Proof.
  destruct port as [|c port]; [done |]. intros [->%Ascii.eqb_eq Hp]%andb_true_iff. simpl. f_equal.
  induction port as [|d port IH]; [done |]. apply andb_true_iff in Hp as [Hd Hp]. simpl.
  by rewrite lower_digit, IH.
Qed.

Lemma origin_host_lower h port : origin_host h port -> origin_host (ToLower h) port.
Proof. intros [Hh Hp]. split; [by apply all_bytes_lower; [apply lower_name_byte |] | done]. Qed.

(** C34. A request from [scheme://host:port] is allowed when one of the patterns, up to
    case, allows the host with its port; when the list has no empty entry the check
    always gives an answer. *)
Theorem CheckOrigin_spec origins scheme h port r (w : unit) :
  origins <> EmptyString -> EmptyString ∉ Split "," (ToLower origins) ->
  Get r "Origin" = scheme ++ "://" ++ h ++ port ->
  scheme <> EmptyString -> all_bytes is_alpha scheme = true -> origin_host h port ->
  exists b, CheckOrigin origins r w = Ret b w /\
    (b = true <-> exists p, p ∈ Split "," (ToLower origins) /\ allows p (ToLower h ++ port)).
Proof.
  intros Hne Hhosts Hget Hs Ha Hh. unfold CheckOrigin.
  rewrite (proj2 (String.eqb_neq _ _) Hne), Hget, !ToLower_app.
  rewrite (ToLower_port port) by apply Hh.
  change (ToLower "://") with "://". rewrite url_Parse_origin.
  - by apply match_hosts_spec.
  - by destruct scheme.
  - by apply all_bytes_lower; [apply lower_alpha |].
  - by apply origin_host_lower.
Qed.

(** An empty entry in the list, as a trailing comma makes, stops the handler with a
    panic for every origin that no earlier entry allows. *)
Theorem CheckOrigin_panics origins r u pre post (w : unit) :
  Split "," (ToLower origins) = (pre ++ EmptyString :: post)%list -> EmptyString ∉ pre ->
  url_Parse (ToLower (Get r "Origin")) = Some u ->
  (forall p, p ∈ pre -> ~ allows p (url_Host u)) -> origins <> EmptyString ->
  exists why, CheckOrigin origins r w = Panic why w.
Proof.
  intros Hsp Hpre Hu Hno Hne. unfold CheckOrigin.
  rewrite (proj2 (String.eqb_neq _ _) Hne), Hu, Hsp. clear Hsp.
  eexists. induction pre as [|host pre IH]; [reflexivity |].
  apply not_elem_of_cons in Hpre as [Hh Hpre]. destruct host as [|c suffix]; [done |]. simpl app.
  rewrite match_hosts_cons. destruct (allowed_by (url_Host u) c suffix) eqn:E.
  - apply allowed_by_spec in E. destruct (Hno (String c suffix)); [by left | done].
  - apply IH; [done |]. intros p Hp. apply Hno. by right.
Qed.

(** ** Which requests become sessions *)

Section handler.
Context (Upgrade : Upgrader -> Request -> list (string * list string) -> M (list ws_event) (option error)).
(** [Upgrade] succeeds only if the origin function says so, and does none of the
    handler's own work. *)
Context (upgrade_checks : forall u r h t t', Upgrade u r h t = Ret None t' ->
  exists t1, u_CheckOrigin u r t = Ret true t1).
Context (upgrade_quiet : forall u r h t err t', Upgrade u r h t = Ret err t' -> t' = t).

(** C33. A session is served exactly for a request that is upgraded and has an identifier.
    Its origin is allowed; the session carries the identifier, an absolute URL, the headers
    asked for and the address of the client; and the limit of the message size is set
    before it starts. *)
Theorem session_from_request version nanoid headers config r :
  (forall t info,
     WebsocketHandler Upgrade version nanoid headers config r [] = Ret tt t -> WsSession info ∈ t ->
     (AllowedOrigins config = EmptyString \/
      exists u, url_Parse (ToLower (Get r "Origin")) = Some u /\
        exists p, p ∈ Split "," (ToLower (AllowedOrigins config)) /\ allows p (url_Host u)) /\
     FetchUID nanoid r = Ok (info_UID info) /\
     info_Headers info = FetchHeaders r headers /\
     (r_URL_scheme r = EmptyString ->
        info_Url info = (if r_TLS r then "https://" else "http://") ++ r_Host r ++ r_URL r) /\
     t = (WsReadLimit (MaxMessageSize config) ::
          (if EnableCompression config then [WsWriteCompression] else []) ++ [WsSession info])%list) /\
  (forall t0 uid,
     Upgrade (upgrader_of config) r (rheader version) [] = Ret None t0 -> FetchUID nanoid r = Ok uid ->
     exists t info, WebsocketHandler Upgrade version nanoid headers config r [] = Ret tt t /\
       WsSession info ∈ t /\ info_UID info = uid).
Proof.
  split.
  - unfold WebsocketHandler, bind at 1. intros t info.
    destruct (Upgrade _ r _ []) as [[e|] t0| |] eqn:Hup; [| | done | done].
    { pose proof (upgrade_quiet _ _ _ _ _ _ Hup) as ->. intros [= <-] Hin. by apply elem_of_nil in Hin. }
    pose proof (upgrade_quiet _ _ _ _ _ _ Hup) as ->.
    apply upgrade_checks in Hup as [t1 Hup%CheckOrigin_true]. intros Hrun Hin. split; [exact Hup |].
    unfold NewRequestInfo in Hrun. destruct (FetchUID nanoid r) as [uid|e].
    + destruct (EnableCompression config); injection Hrun as <-; simpl in Hin;
        (repeat (apply elem_of_cons in Hin as [[=] | Hin])); subst;
        (try by apply elem_of_nil in Hin);
        (split; [done |]; split; [done |]; split; [| done]; simpl; by intros ->).
    + injection Hrun as <-. simpl in Hin.
      repeat (apply elem_of_cons in Hin as [[=] | Hin]). by apply elem_of_nil in Hin.
  - intros t0 uid Hup Hid. pose proof (upgrade_quiet _ _ _ _ _ _ Hup) as ->.
    unfold WebsocketHandler, NewRequestInfo, bind at 1. rewrite Hup, Hid.
    destruct (EnableCompression config); do 2 eexists; (split; [reflexivity |]);
      (split; [apply list_elem_of_In; simpl; eauto | done]).
Qed.
End handler.

(** The headers of a session: those asked for, and the host of the client's address. *)
Lemma FetchHeaders_spec r list host port :
  r_RemoteAddr r = JoinHostPort host port ->
  has_byte "[" host = false -> has_byte "]" host = false ->
  has_byte ":" port = false -> has_byte "[" port = false -> has_byte "]" port = false ->
  FetchHeaders r list !! remoteAddrHeader = Some host /\
  forall h, h ∈ list -> h <> remoteAddrHeader -> FetchHeaders r list !! h = Some (Get r h).
Proof.
  intros Hr H1 H2 H3 H4 H5. unfold FetchHeaders. rewrite Hr, SplitHostPort_Join by done.
  split; [by rewrite lookup_insert_eq |]. intros h Hh Hne. rewrite lookup_insert_ne by done.
  clear -Hh. induction list as [|k list IH] using rev_ind; [by apply elem_of_nil in Hh |].
  rewrite foldl_app. simpl. unfold fetch_header at 1. rewrite lookup_insert.
  case_decide as Hk; [by subst |]. apply IH. apply elem_of_app in Hh as [? | Hh%list_elem_of_singleton]; done.
Qed.

(** ** The connection that sessions write to *)

Section refinement.
Context {G : Type} `{GorillaConn G}.
Context (now : G -> Z).
(** Every call comes back: writes have a deadline. *)
Context (deadline_back : forall d g, exists err g', SetWriteDeadline d g = Ret err g')
        (next_back : forall k g, exists err g', NextWriter k g = Ret err g')
        (write_back : forall m g, exists err g', writer_Write m g = Ret err g')
        (wclose_back : forall g, exists err g', writer_Close g = Ret err g')
        (control_back : forall k m d g, exists err g', WriteControl k m d g = Ret err g')
        (close_back : forall g, exists err g', gorilla_Close g = Ret err g').

(** A call of a session on its connection. *)
Definition perform (e : ConnEvent) : M G (option error) := fun g =>
  match e with
  | EvWrite msg wait => Connection_Write msg (now g + wait)%Z g
  | EvWriteBinary msg wait => Connection_WriteBinary msg (now g + wait)%Z g
  | EvClose code reason => (Connection_Close (now g) code reason ;; ret None) g
  end.

(** The successes and failures that a session sees, call by call. *)
Fixpoint outcomes {W} (op : ConnEvent -> M W (option error)) (es : list ConnEvent) : M W (list bool) :=
  match es with
  | [] => ret []
  | e :: es =>
      let! r := op e in
      let! rs := outcomes op es in
      ret ((match r with None => true | Some _ => false end) :: rs)
  end.

Lemma or_return_back (m k : M G (option error)) g :
  (forall g, exists err g', m g = Ret err g') -> (forall g, exists err g', k g = Ret err g') ->
  exists err g', or_return m k g = Ret err g'.
Proof.
  intros Hm Hk. unfold or_return, bind. destruct (Hm g) as ([e|] & g' & ->); [by do 2 eexists | apply Hk].
Qed.

Lemma perform_back e g : exists err g', perform e g = Ret err g'.
Proof.
  destruct e as [msg wait|msg wait|code reason]; simpl.
  1,2: repeat (apply or_return_back; intros; try solve [eauto]); eauto.
  unfold Connection_Close, CloseWithReason, bind.
  destruct (control_back CloseMessage (FormatCloseMessage code reason) (now g + second) g) as (? & g1 & ->).
  destruct (close_back g1) as (? & g2 & ->). by do 2 eexists.
Qed.

(** Where the connection is after the calls of a trace. *)
Definition after_calls (es : list ConnEvent) (g : G) : G := final (outcomes perform es g).

Definition succeeds (g0 : G) (past : list ConnEvent) (e : ConnEvent) : bool :=
  match perform e (after_calls past g0) with Ret None _ => true | _ => false end.

Lemma outcomes_snoc es e g :
  after_calls (es ++ [e]) g = final (perform e (after_calls es g)).
Proof.
  unfold after_calls. revert g. induction es as [|d es IH]; intros g; simpl; unfold bind.
  - destruct (perform_back e g) as (? & ? & ->). done.
  - destruct (perform_back d g) as (? & g1 & ->). specialize (IH g1).
    destruct (outcomes perform (es ++ [e]) g1), (outcomes perform es g1); exact IH.
Qed.

End refinement.

(** ** Concrete requests *)

Definition sample_request (origin : string) : Request :=
  mkRequest "GET" {[ "Origin" := [origin] ]} "cable.example" "192.0.2.1:1234" false "/cable" EmptyString (Ok EmptyString).

Lemma CheckOrigin_spec_witness :
  exists b, CheckOrigin "secure.origin,*.LOCALHOST:8080" (sample_request "http://My.localhost:8080") tt = Ret b tt /\
    b = true.
Proof.
  destruct (CheckOrigin_spec "secure.origin,*.LOCALHOST:8080" "http" "My.localhost" ":8080"
              (sample_request "http://My.localhost:8080") tt) as (b & Hrun & Hb).
  - discriminate.
  - apply (bool_decide_eq_true_1 _). vm_compute. reflexivity.
  - vm_compute. reflexivity.
  - discriminate.
  - vm_compute. reflexivity.
  - split; vm_compute; reflexivity.
  - exists b. split; [exact Hrun |]. apply Hb. exists "*.localhost:8080". split.
    + apply (bool_decide_eq_true_1 _). vm_compute. reflexivity.
    + right. exists ".localhost:8080". split; [reflexivity |]. exists "my". vm_compute. reflexivity.
Defined.

Lemma CheckOrigin_panics_witness :
  exists why, CheckOrigin "secure.origin," (sample_request "http://other.host") tt = Panic why tt.
Proof.
  apply (CheckOrigin_panics "secure.origin," (sample_request "http://other.host")
           (mkURL "http" "other.host") ["secure.origin"] []).
  - vm_compute. reflexivity.
  - apply (bool_decide_eq_true_1 _). vm_compute. reflexivity.
  - vm_compute. reflexivity.
  - intros p Hp. apply list_elem_of_singleton in Hp as ->. intros [Heq | (s & Heq & _)]; discriminate.
  - discriminate.
Defined.

(** An upgrade that only checks the origin. *)
Definition plain_upgrade (u : Upgrader) (r : Request) (h : list (string * list string)) : M (list ws_event) (option error) := fun t =>
  match u_CheckOrigin u r t with
  | Ret true _ => Ret None t
  | _ => Ret (Some (Errorf "bad handshake")) t
  end.

Definition plain_config : WSConfig := mkWSConfig 1024 1024 65536 false "*.localhost:8080".

Lemma plain_upgrade_checks u r h t t' :
  plain_upgrade u r h t = Ret None t' -> exists t1, u_CheckOrigin u r t = Ret true t1.
Proof. unfold plain_upgrade. destruct (u_CheckOrigin u r t) as [[] t1| |]; [by exists t1 | done..]. Qed.

Lemma plain_upgrade_quiet u r h t err t' : plain_upgrade u r h t = Ret err t' -> t' = t.
Proof. unfold plain_upgrade. destruct (u_CheckOrigin u r t) as [[]| |]; by intros [= _ <-]. Qed.

Definition sample_info : RequestInfo :=
  mkRequestInfo "id1" "http://cable.example/cable"
    (FetchHeaders (sample_request "http://my.localhost:8080") ["cookie"]).

Lemma session_from_request_witness :
  let t := [WsReadLimit 65536; WsSession sample_info] in
  WebsocketHandler plain_upgrade "1.1.4" (Ok "id1") ["cookie"] plain_config
    (sample_request "http://my.localhost:8080") [] = Ret tt t /\
  exists u p, url_Parse (ToLower "http://my.localhost:8080") = Some u /\ allows p (url_Host u).
Proof.
  intros t.
  assert (Hrun : WebsocketHandler plain_upgrade "1.1.4" (Ok "id1") ["cookie"] plain_config
    (sample_request "http://my.localhost:8080") [] = Ret tt t) by (vm_compute; reflexivity).
  split; [exact Hrun |].
  destruct (session_from_request plain_upgrade plain_upgrade_checks plain_upgrade_quiet "1.1.4" (Ok "id1")
              ["cookie"] plain_config (sample_request "http://my.localhost:8080"))
    as [Hserved _].
  destruct (Hserved t sample_info Hrun) as ([Hne | (u & Hu & p & _ & Hp)] & _).
  - apply list_elem_of_In. right. left. reflexivity.
  - discriminate.
  - exists u, p. split; [exact Hu | exact Hp].
Defined.

(** A connection that records its calls and whose writer fails after three messages. *)
#[local] Instance counting_conn : GorillaConn nat := {
  SetWriteDeadline := fun _ g => Ret None g;
  NextWriter := fun _ g => Ret (if (3 <=? g)%nat then Some (Errorf "broken pipe") else None) (S g);
  writer_Write := fun _ g => Ret None g;
  writer_Close := fun g => Ret None g;
  gorilla_ReadMessage := fun g => Ret (Err (Errorf "EOF")) g;
  FormatCloseMessage := fun _ reason => reason;
  WriteControl := fun _ _ _ g => Ret None g;
  gorilla_Close := fun g => Ret None g
}.

