(* ===== verification/PubSub.v ===== *)
(** * Pub/sub adapters

    Package pubsub ([src/pubsub]): the HTTP endpoint that accepts broadcasts, and the
    subscriber that receives them from Redis and reconnects when the connection is
    lost. What Redis and the sentinels answer is an argument of the definitions; both
    adapters hand messages to the node's [HandlePubSub], which is a parameter. *)

From Stdlib Require Import ZArith Lia Ascii String.
From stdpp Require Import base strings list gmap.
From S2P Require Import Prelude Json Common Net Server.

Local Open Scope string_scope.

(** ** The HTTP adapter *)

Record HTTPConfig : Type := mkHTTPConfig { hc_Port : Z; hc_Path : string; hc_Secret : string }.

Definition NewHTTPConfig : HTTPConfig := mkHTTPConfig 0 EmptyString EmptyString.

(** [hs_server] is a pointer to the server, nil until [Start]. *)
Record HTTPSubscriber : Type := mkHTTPSubscriber {
  hs_port : Z;
  hs_path : string;
  hs_authHeader : string;
  hs_server : option nat
}.

Definition NewHTTPSubscriber (config : HTTPConfig) : HTTPSubscriber :=
  let authHeader :=
    if negb (String.eqb (hc_Secret config) EmptyString) then "Bearer " ++ hc_Secret config
    else EmptyString in
  mkHTTPSubscriber (hc_Port config) (hc_Path config) authHeader None.

(** The status that [Handler] answers with. *)
Definition Handler {W} (HandlePubSub : string -> M W unit) (s : HTTPSubscriber) (r : Request) : M W Z :=
  if negb (String.eqb (r_Method r) "POST") then ret 422%Z
  else if negb (String.eqb (hs_authHeader s) EmptyString) &&
          negb (String.eqb (Get r "Authorization") (hs_authHeader s)) then ret 401%Z
  else
    match r_Body r with
    | Err _ => ret 422%Z
    | Ok body => HandlePubSub body ;; ret 201%Z
    end.

(** The subscriber with the servers of the process. *)
Abbreviation HTTPWorld := (Servers * HTTPSubscriber)%type.

Definition on_servers {A} : M Servers A -> M HTTPWorld A := zoom fst (fun v w => (v, w.2)).

Section http.
Context (load_key_pair : string -> string -> option error) (net_refuses : string -> option error).

Definition HTTP_Start : M HTTPWorld (option error) :=
  let! w := get in
  let! r := on_servers (ForPort load_key_pair (Itoa (hs_port w.2))) in
  match r with
  | Err e => ret (Some e)
  | Ok i =>
      modify (fun w => (w.1, mkHTTPSubscriber (hs_port w.2) (hs_path w.2) (hs_authHeader w.2) (Some i))) ;;
      on_servers (on_server i (Handle (hs_path w.2) BroadcastHandler)) ;;
      let! err := on_servers (StartAndAnnounce net_refuses i) in
      on_servers (report_error i err)
  end.

Definition HTTP_Shutdown : M HTTPWorld (option error) :=
  let! w := get in
  match hs_server w.2 with
  | Some i => on_servers (on_server i Server_Shutdown) ;; ret None
  | None => ret None
  end.
End http.

(** ** The Redis adapter *)

Definition maxReconnectAttempts : Z := 5.
Definition defaultKeepaliveInterval : Z := 30.

Record RedisConfig : Type := mkRedisConfig {
  rc_URL : string;
  rc_Channel : string;
  rc_Sentinels : string;
  rc_SentinelDiscoveryInterval : Z;
  rc_KeepalivePingInterval : Z
}.

Definition NewRedisConfig : RedisConfig :=
  mkRedisConfig EmptyString EmptyString EmptyString 0 defaultKeepaliveInterval.

(** [rd_host] is the address that the sentinels gave, which replaces the host of the
    URL. *)
Record RedisSubscriber : Type := mkRedisSubscriber {
  rd_url : string;
  rd_host : option string;
  rd_sentinels : string;
  rd_sentinelDiscoveryInterval : Z;
  rd_pingInterval : Z;
  rd_channel : string;
  rd_reconnectAttempt : Z
}.

Definition NewRedisSubscriber (config : RedisConfig) : RedisSubscriber :=
  mkRedisSubscriber (rc_URL config) None (rc_Sentinels config) (rc_SentinelDiscoveryInterval config)
    (rc_KeepalivePingInterval config) (rc_Channel config) 0.

(** The adapter with the node it feeds, and the delays it slept (seconds). *)
Record RedisWorld (W : Type) : Type := mkRedisWorld {
  rw_sub : RedisSubscriber;
  rw_node : W;
  rw_sleeps : list Z
}.
Arguments mkRedisWorld {W}.
Arguments rw_sub {W}.
Arguments rw_node {W}.
Arguments rw_sleeps {W}.

(** What [psc.Receive()] returns. *)
Inductive redis_reply : Type :=
| RMessage (data : string)
| RSubscription (channel : string)
| RError (e : error).

(** What the outside world answers during one round of [Start]: the sentinels, the
    dialling, the role of the server, the subscription, what is received, and the
    random number of the delay. *)
Record attempt : Type := mkAttempt {
  at_masterAddr : result string;
  at_dial : option error;
  at_isMaster : bool;
  at_subscribe : option error;
  at_replies : list redis_reply;
  at_random : Z
}.

(** [rand.Intn(n)] *)
Definition Intn {W} (random n : Z) : M W Z :=
  if (n <=? 0)%Z then panic "invalid argument to Intn" else ret (random mod n)%Z.

(** The delay in seconds. *)
Definition nextRetry {W} (random step : Z) : M W Z :=
  let! r := Intn random (step * 4) in
  ret (step * step + r * (step + 1))%Z.

Section redis.
Context {W : Type} (HandlePubSub : string -> M W unit).
Implicit Types w : RedisWorld W.

Definition set_sub (s : RedisSubscriber) w := mkRedisWorld s (rw_node w) (rw_sleeps w).
Definition set_attempts (n : Z) (s : RedisSubscriber) :=
  mkRedisSubscriber (rd_url s) (rd_host s) (rd_sentinels s) (rd_sentinelDiscoveryInterval s)
    (rd_pingInterval s) (rd_channel s) n.
Definition set_host (h : string) (s : RedisSubscriber) :=
  mkRedisSubscriber (rd_url s) (Some h) (rd_sentinels s) (rd_sentinelDiscoveryInterval s)
    (rd_pingInterval s) (rd_channel s) (rd_reconnectAttempt s).
Definition on_rw_node {A} : M W A -> M (RedisWorld W) A :=
  zoom rw_node (fun v w => mkRedisWorld (rw_sub w) v (rw_sleeps w)).

(** The receiving goroutine of [listen], up to the first error: the error goes through
    the channel [done] and is what [listen] returns, also when it has left the loop
    because a ping failed. While there is none the adapter keeps listening. *)
Fixpoint receive_until (replies : list redis_reply) : M (RedisWorld W) (option error) :=
  match replies with
  | [] => block "psc.Receive"
  | RMessage data :: replies => on_rw_node (HandlePubSub data) ;; receive_until replies
  | RSubscription _ :: replies => receive_until replies
  | RError e :: _ => ret (Some e)
  end.

Definition listen (a : attempt) : M (RedisWorld W) (option error) :=
  match at_dial a with
  | Some e => ret (Some e)
  | None =>
      let! w := get in
      if negb (String.eqb (rd_sentinels (rw_sub w)) EmptyString) && negb (at_isMaster a)
      then ret (Some (Errorf "Failed master role check"))
      else
        match at_subscribe a with
        | Some e => ret (Some e)
        | None =>
            modify (fun w => set_sub (set_attempts 0 (rw_sub w)) w) ;;
            if (rd_pingInterval (rw_sub w) <=? 0)%Z then panic "non-positive interval for NewTicker"
            else receive_until (at_replies a)
        end
  end.

(** One round of the loop of [Start]: an error ends it. *)
Definition Start_round (a : attempt) : M (RedisWorld W) (option error) :=
  let! w := get in
  let! failed :=
    if negb (String.eqb (rd_sentinels (rw_sub w)) EmptyString) then
      match at_masterAddr a with
      | Err e => ret (Some e)
      | Ok addr => modify (fun w => set_sub (set_host addr (rw_sub w)) w) ;; ret None
      end
    else ret None in
  match failed with
  | Some e => ret (Some e)
  | None =>
      listen a ;;
      modify (fun w => set_sub (set_attempts (rd_reconnectAttempt (rw_sub w) + 1) (rw_sub w)) w) ;;
      let! w := get in
      if (maxReconnectAttempts <=? rd_reconnectAttempt (rw_sub w))%Z
      then ret (Some (Errorf "Redis reconnect attempts exceeded"))
      else
        let! delay := nextRetry (at_random a) (rd_reconnectAttempt (rw_sub w)) in
        modify (fun w => mkRedisWorld (rw_sub w) (rw_node w) (rw_sleeps w ++ [delay])%list) ;;
        ret None
  end.

(** The loop, over what the world answers round after round; when the answers end it is
    still running. *)
Fixpoint Start_loop (attempts : list attempt) : M (RedisWorld W) (option error) :=
  match attempts with
  | [] => block "sleeping"
  | a :: attempts =>
      let! failed := Start_round a in
      match failed with
      | Some e => ret (Some e)
      | None => Start_loop attempts
      end
  end.

Definition Redis_Start (attempts : list attempt) : M (RedisWorld W) (option error) :=
  let! w := get in
  match url_Parse (rd_url (rw_sub w)) with
  | None => ret (Some (Errorf "parse"))
  | Some _ => Start_loop attempts
  end.

Definition Redis_Shutdown : M (RedisWorld W) (option error) := ret None.
End redis.

(** ** Choosing an adapter *)

Inductive Subscriber : Type :=
| SubRedis (s : RedisSubscriber)
| SubHTTP (s : HTTPSubscriber).

Definition NewSubscriber (adapter : string) (redis : RedisConfig) (http : HTTPConfig) : result Subscriber :=
  if String.eqb adapter "redis" then Ok (SubRedis (NewRedisSubscriber redis))
  else if String.eqb adapter "http" then Ok (SubHTTP (NewHTTPSubscriber http))
  else Err (Errorf ("Unknown adapter type: " ++ adapter)).

(** ** The goroutines of [listen] *)

(** The loop of [listen] and its receiving goroutine, which share the channel [done]. *)
Inductive listen_phase : Type := InLoop | Unsubscribed | Returned (e : error).
Inductive recv_phase : Type := Receiving | Sending (e : error).

Record Listening : Type := mkListening {
  li_main : listen_phase;
  li_recv : recv_phase;
  li_done : Chan error;
  li_handled : list string
}.

Definition listening : Listening := mkListening InLoop Receiving (make_chan 1) [].

Inductive listen_step : Listening -> Listening -> Prop :=
| recv_message d m c h :
    listen_step (mkListening m Receiving c h) (mkListening m Receiving c (h ++ [d])%list)
| recv_subscription m c h :
    listen_step (mkListening m Receiving c h) (mkListening m Receiving c h)
| recv_error e m c h :
    listen_step (mkListening m Receiving c h) (mkListening m (Sending e) c h)
| send_done e m c c' h :
    chan_send e c = Ret tt c' ->
    listen_step (mkListening m (Sending e) c h) (mkListening m Receiving c' h)
| ping_ok r c h :
    listen_step (mkListening InLoop r c h) (mkListening InLoop r c h)
| ping_fails r c h :
    listen_step (mkListening InLoop r c h) (mkListening Unsubscribed r c h)
| take_done m r e c c' h :
    m = InLoop \/ m = Unsubscribed -> chan_recv c = Ret (Some e) c' ->
    listen_step (mkListening m r c h) (mkListening (Returned e) r c' h).

(** ** The HTTP adapter lets in only what is authorised *)

Definition authorised (config : HTTPConfig) (r : Request) : Prop :=
  r_Method r = "POST" /\
  (hc_Secret config = EmptyString \/ Get r "Authorization" = "Bearer " ++ hc_Secret config).

(** A broadcast over HTTP reaches the node exactly when the request is a POST with the
    configured secret and its body can be read; the answer is then 201. In every other
    case the node does not see the request, and the answer is an error. *)
Theorem http_broadcast_guarded {W} (HandlePubSub : string -> M W unit) config r (w : W) :
  (authorised config r -> forall body, r_Body r = Ok body ->
     Handler HandlePubSub (NewHTTPSubscriber config) r w = (HandlePubSub body ;; ret 201%Z) w) /\
  ((~ authorised config r \/ exists e, r_Body r = Err e) ->
     exists status, Handler HandlePubSub (NewHTTPSubscriber config) r w = Ret status w /\
       (status = 401%Z \/ status = 422%Z)).
Proof.
  unfold Handler, NewHTTPSubscriber, authorised. simpl.
  destruct (String.eqb_spec (r_Method r) "POST") as [->|Hm]; simpl.
  2: { split; [by intros [? _] |]. intros _. exists 422%Z. auto. }
  destruct (String.eqb_spec (hc_Secret config) EmptyString) as [->|Hs]; simpl.
  { split; [by intros _ body -> |]. intros [Hno | [e ->]]; [destruct Hno; auto | exists 422%Z; auto]. }
  destruct (String.eqb_spec (Get r "Authorization") ("Bearer " ++ hc_Secret config)) as [->|Ha]; simpl.
  - split; [by intros _ body -> |]. intros [Hno | [e ->]]; [destruct Hno; auto | exists 422%Z; auto].
  - split; [by intros [_ [? | ?]] |]. intros _. exists 401%Z. auto.
Qed.

(** ** The Redis adapter gives up after enough failures, and not before *)

Section reconnect.
Context {W : Type} (HandlePubSub : string -> M W unit) (handle : W -> string -> W).
Context (node_ok : forall d (v : W), HandlePubSub d v = Ret tt (handle v d)).
Context (sentinels : string).

(** A round in which the subscription succeeds. *)
Definition subscribes (a : attempt) : bool :=
  match at_dial a, at_subscribe a with
  | None, None => String.eqb sentinels EmptyString || at_isMaster a
  | _, _ => false
  end.

Definition is_error (r : redis_reply) : bool := match r with RError _ => true | _ => false end.

(** What is received before the connection is lost. *)
Fixpoint received (replies : list redis_reply) : list string :=
  match replies with
  | [] | RError _ :: _ => []
  | RMessage data :: replies => data :: received replies
  | RSubscription _ :: replies => received replies
  end.

Definition messages (attempts : list attempt) : list string :=
  attempts ≫= (fun a => if subscribes a then received (at_replies a) else []).

(** The first [n] rounds all fail. *)
Fixpoint streak (n : nat) (l : list attempt) : bool :=
  match n, l with
  | O, _ => true
  | S n, a :: l => negb (subscribes a) && streak n l
  | S _, [] => false
  end.

(** A lost connection that is followed by four failed rounds. *)
Fixpoint lost_for_good (l : list attempt) : bool :=
  match l with
  | [] => false
  | a :: l => subscribes a && streak 4 l || lost_for_good l
  end.

(** The sentinels answer, and every connection is lost in the end. *)
Definition eventful (a : attempt) : Prop :=
  (sentinels = EmptyString \/ exists addr, at_masterAddr a = Ok addr) /\
  (subscribes a = true -> existsb is_error (at_replies a) = true).

Definition delay_ok (d : Z) : Prop := (1 <= d <= 91)%Z.

Definition waiting_world (k : Z) (w : RedisWorld W) : Prop :=
  rd_reconnectAttempt (rw_sub w) = k /\ rd_sentinels (rw_sub w) = sentinels /\
  (0 < rd_pingInterval (rw_sub w))%Z /\ Forall delay_ok (rw_sleeps w).

Lemma receive_until_ok replies (w : RedisWorld W) :
  existsb is_error replies = true ->
  exists e, receive_until HandlePubSub replies w =
    Ret (Some e) (mkRedisWorld (rw_sub w) (foldl handle (rw_node w) (received replies)) (rw_sleeps w)).
Proof.
  revert w. induction replies as [|r replies IH]; intros w Hr; [done |].
  destruct r as [data|channel|e]; simpl in *.
  - unfold bind, on_rw_node, zoom. rewrite node_ok. destruct (IH (mkRedisWorld (rw_sub w) (handle (rw_node w) data) (rw_sleeps w)) Hr) as [e ->].
    by exists e.
  - by apply IH.
  - exists e. by destruct w.
Qed.

(** A round: what [listen] leaves behind. *)
Lemma listen_ok a (w : RedisWorld W) k :
  waiting_world k w -> eventful a ->
  exists e, listen HandlePubSub a w =
    Ret (Some e) (if subscribes a
      then mkRedisWorld (set_attempts 0 (rw_sub w)) (foldl handle (rw_node w) (received (at_replies a))) (rw_sleeps w)
      else w).
Proof.
  intros (_ & Hs & Hp & _) [_ He]. unfold listen, subscribes in *.
  destruct (at_dial a) as [e|]; [by exists e |]. unfold bind, get. rewrite Hs.
  destruct (String.eqb sentinels EmptyString); simpl in *.
  - destruct (at_subscribe a) as [e|]; [by exists e |]. unfold modify. rewrite (proj2 (Z.leb_gt _ _) Hp).
    destruct (receive_until_ok (at_replies a) (set_sub (set_attempts 0 (rw_sub w)) w)) as [e ->]; [auto |].
    by exists e.
  - destruct (at_isMaster a); simpl in *; [| destruct (at_subscribe a); by eexists].
    destruct (at_subscribe a) as [e|]; [by exists e |]. unfold modify. rewrite (proj2 (Z.leb_gt _ _) Hp).
    destruct (receive_until_ok (at_replies a) (set_sub (set_attempts 0 (rw_sub w)) w)) as [e ->]; [auto |].
    by exists e.
Qed.

Lemma nextRetry_ok random k (w : RedisWorld W) :
  (1 <= k <= 4)%Z -> exists d, nextRetry random k w = Ret d w /\ delay_ok d.
Proof.
  intros Hk. unfold nextRetry, Intn, bind. rewrite (proj2 (Z.leb_gt _ _)) by lia. eexists.
  split; [reflexivity |]. unfold delay_ok. pose proof (Z.mod_pos_bound random (k * 4)). nia.
Qed.

Definition exceeded : error := Errorf "Redis reconnect attempts exceeded".

(** A round up to the count of the attempts. *)
Lemma Start_round_counts a (w : RedisWorld W) k :
  waiting_world k w -> eventful a ->
  let k' := if subscribes a then 1%Z else (k + 1)%Z in
  exists w', waiting_world k' w' /\
    rw_node w' = foldl handle (rw_node w) (if subscribes a then received (at_replies a) else []) /\
    Start_round HandlePubSub a w =
    (if (5 <=? k')%Z then ret (Some exceeded)
     else
       let! delay := nextRetry (at_random a) k' in
       modify (fun w => mkRedisWorld (rw_sub w) (rw_node w) (rw_sleeps w ++ [delay])%list) ;;
       ret None) w'.
Proof.
  intros Hw Ha k'. unfold Start_round. unfold bind at 1. unfold get at 1.
  assert (Haddr : exists w1, (if negb (String.eqb (rd_sentinels (rw_sub w)) EmptyString) then
      match at_masterAddr a with
      | Err e => ret (Some e)
      | Ok addr => modify (fun w => set_sub (set_host addr (rw_sub w)) w) ;; ret None
      end
    else ret None) w = Ret None w1 /\ waiting_world k w1 /\ rw_node w1 = rw_node w).
  { destruct Hw as (Hc & Hs & Hp & Hd). rewrite Hs. destruct (String.eqb_spec sentinels EmptyString) as [He|He].
    - by exists w.
    - destruct Ha as [[?|[addr ->]] _]; [done |]. simpl. eexists. by split. }
  destruct Haddr as (w1 & Hrun & Hw1 & Hn1). unfold bind at 1. rewrite Hrun.
  destruct (listen_ok a w1 k Hw1 Ha) as [e Hl]. unfold bind at 1. rewrite Hl.
  unfold bind at 1, modify at 1. unfold bind at 1. unfold get at 1.
  destruct Hw1 as (Hc & Hs & Hp & Hd). subst k'. rewrite <- Hn1.
  destruct (subscribes a); (eexists; split; [| split; [| simpl; rewrite ?Hc; reflexivity]]);
    done.
Qed.

Lemma Start_round_ok a (w : RedisWorld W) k :
  waiting_world k w -> (0 <= k <= 4)%Z -> eventful a ->
  let k' := if subscribes a then 1%Z else (k + 1)%Z in
  if (5 <=? k')%Z then exists w', Start_round HandlePubSub a w = Ret (Some exceeded) w'
  else exists w', Start_round HandlePubSub a w = Ret None w' /\ waiting_world k' w' /\
    rw_node w' = foldl handle (rw_node w) (if subscribes a then received (at_replies a) else []).
Proof.
  intros Hw Hk Ha k'. destruct (Start_round_counts a w k Hw Ha) as (w1 & Hw1 & Hn & ->). fold k' in Hw1 |- *.
  assert (Hk' : (1 <= k' <= 5)%Z) by (subst k'; destruct (subscribes a); lia).
  destruct (5 <=? k')%Z eqn:E; [by eexists |]. apply Z.leb_gt in E.
  destruct (nextRetry_ok (at_random a) k' w1) as (d & Hr & Hdok); [lia |].
  unfold bind at 1. rewrite Hr. eexists. split; [reflexivity |]. split; [| exact Hn].
  destruct Hw1 as (Hc & Hs & Hp & Hd). split; [done |]. split; [done |]. split; [done |].
  simpl. by apply Forall_app_2; [| constructor].
Qed.

Lemma Start_loop_ok l k (w : RedisWorld W) :
  waiting_world k w -> (0 <= k <= 4)%Z -> Forall eventful l ->
  if streak (Z.to_nat (5 - k)) l || lost_for_good l
  then exists w', Start_loop HandlePubSub l w = Ret (Some exceeded) w'
  else exists why w', Start_loop HandlePubSub l w = Block why w' /\ Forall delay_ok (rw_sleeps w') /\
    rw_node w' = foldl handle (rw_node w) (messages l).
Proof.
  revert k w. induction l as [|a l IH]; intros k w Hw Hk Hl.
  { destruct (Z.to_nat (5 - k)) eqn:E; [lia |]. simpl. do 2 eexists. split; [reflexivity |].
    split; [apply Hw | done]. }
  apply Forall_cons in Hl as [Ha Hl]. pose proof (Start_round_ok a w k Hw Hk Ha) as Hround. simpl in Hround.
  assert (Hn : Z.to_nat (5 - k) = S (Z.to_nat (5 - (k + 1)))) by lia. rewrite Hn.
  cbn [streak lost_for_good Start_loop]. unfold messages. rewrite bind_cons. fold (messages l).
  rewrite foldl_app. destruct (subscribes a); simpl in Hround |- *.
  - destruct Hround as (w1 & Hrun & Hw1 & Hn1). unfold bind. rewrite Hrun, <- Hn1.
    by apply (IH 1%Z).
  - destruct (5 <=? k + 1)%Z eqn:E.
    + destruct Hround as (w1 & Hrun). unfold bind. rewrite Hrun. apply Z.leb_le in E.
      replace (Z.to_nat (5 - (k + 1))) with 0%nat by lia. by eexists.
    + destruct Hround as (w1 & Hrun & Hw1 & Hn1). unfold bind. rewrite Hrun. simpl in Hn1. rewrite <- Hn1.
      apply Z.leb_gt in E. apply (IH (k + 1)%Z); [done | lia | done].
Qed.

End reconnect.

(** ** A receiving goroutine that is left behind *)

(** Once [listen] has returned, nothing takes errors from [done] any more. *)
Definition left_behind (l : Listening) : Prop :=
  (exists e, li_main l = Returned e) /\ (exists e, li_recv l = Sending e) /\ chan_full (li_done l) = true /\
  ch_closed (li_done l) = false.

(** After [listen] has returned, two more errors of the closed connection leave the
    receiving goroutine blocked: it can make no further step, ever. *)
Theorem receiver_leaks e h e1 e2 :
  exists l, rtc listen_step (mkListening (Returned e) Receiving (make_chan 1) h) l /\ left_behind l /\
    li_recv l = Sending e2 /\ ch_buf (li_done l) = [e1] /\ forall l', ~ listen_step l l'.
Proof.
  eexists. split.
  { eapply rtc_l; [apply (recv_error e1) |]. eapply rtc_l; [apply send_done; reflexivity |].
    eapply rtc_l; [apply (recv_error e2) |]. apply rtc_refl. }
  split; [repeat split; simpl; eauto |]. split; [done |]. split; [done |].
  intros l' Hstep. inversion Hstep as [| | | | | |? ? ? ? ? ? [? | ?]]; by simplify_eq/=.
Qed.

(** ** A concrete run of the Redis adapter *)

Definition keep_message (d : string) : M (list string) unit := modify (fun l => l ++ [d])%list.

Definition lost_after (ms : list string) (random : Z) : attempt :=
  mkAttempt (Err (Errorf "no sentinels")) None true None ((RMessage <$> ms) ++ [RError (Errorf "EOF")])%list random.
Definition refused : attempt :=
  mkAttempt (Err (Errorf "no sentinels")) (Some (Errorf "connection refused")) true None [] 7.

Definition sample_redis : RedisWorld (list string) :=
  mkRedisWorld (NewRedisSubscriber (mkRedisConfig "redis://localhost:6379/5" "__anycable__" EmptyString 30 30)) [] [].

