(* ===== verification/Sentinel.v ===== *)
(** * Redis sentinels

    How the Redis adapter talks to its sentinels ([Start] of [src/pubsub/redis.go]): the
    function it gives to the sentinel library for dialling one of them, and the goroutine
    that looks for new sentinels until [Start] returns. The Redis library is a parameter:
    it dials a host with a list of options. *)

From Stdlib Require Import ZArith Lia Ascii String.
From stdpp Require Import base strings list gmap relations.
From S2P Require Import Prelude Json Common Net PubSub.

Local Open Scope string_scope.

(** ** Dialling a sentinel *)

(** The options of the Redis library that are used; durations are in nanoseconds. *)
Inductive dial_option : Type :=
| DialConnectTimeout (d : Z)
| DialReadTimeout (d : Z)
| DialWriteTimeout (d : Z)
| DialTLSSkipVerify (skip : bool)
| DialPassword (password : string).

(** [sentinelURI.User.Password()] for the URL [redis://addr], when it can be parsed: the
    part after the colon of the user information, if there is one. *)
Definition sentinel_password (addr : string) : option string :=
  match cut_last "@" (before "/" (before "?" (before "#" addr))) with
  | None => None
  | Some (userinfo, _) =>
      match cut ":" userinfo with
      | None => None
      | Some (_, p) => unescape encodeUserPassword p
      end
  end.

Definition sentinel_timeout : Z := 500000000.

(** The host and the options that are dialled for an address; an address that cannot be
    parsed is taken as it is. *)
Definition sentinel_dial_args (addr : string) : string * list dial_option :=
  let dialOptions :=
    [DialConnectTimeout sentinel_timeout; DialReadTimeout sentinel_timeout;
     DialReadTimeout sentinel_timeout; DialTLSSkipVerify true] in
  match url_Parse ("redis://" ++ addr) with
  | None => (addr, dialOptions)
  | Some sentinelURI =>
      (url_Host sentinelURI,
       match sentinel_password addr with
       | Some password => dialOptions ++ [DialPassword password]
       | None => dialOptions
       end)%list
  end.

(** The sentinels and the name of the master, from the configuration. *)
Definition sentinel_addrs (s : RedisSubscriber) : list string := Split "," (rd_sentinels s).
Definition sentinel_master (s : RedisSubscriber) : option string := Hostname <$> url_Parse (rd_url s).

Section dial.
Context {conn : Type} (redis_Dial : string -> string -> list dial_option -> result conn).

Definition sentinel_Dial (addr : string) : result conn :=
  let '(host, options) := sentinel_dial_args addr in
  redis_Dial "tcp" host options.
End dial.

(** ** The discovery *)

(** Where the goroutine is: in a call of [Discover], waiting in its [select], or gone. *)
Inductive discovery_phase : Type := Discovering | Selecting | Gone.

(** [cancelled] says whether [Start] has returned, which cancels the context; [discoveries]
    counts the calls of [Discover] that have returned, [failed_discoveries] those that
    returned an error. *)
Record Discovery : Type := mkDiscovery {
  dy_phase : discovery_phase;
  dy_cancelled : bool;
  discoveries : nat;
  failed_discoveries : nat
}.

Definition discovery_started : Discovery := mkDiscovery Discovering false 0 0.

(** The time between two discoveries: the interval of the configuration times a second, at
    64 bits. *)
Definition discovery_pause (s : RedisSubscriber) : Z :=
  to_i64 (rd_sentinelDiscoveryInterval s * 1000000000).

(** [Discover] returns; the timer fires; the goroutine sees the cancelled context; and
    [Start] returns. *)
Inductive discovery_step : Discovery -> Discovery -> Prop :=
| discover_returns ok c n f :
    discovery_step (mkDiscovery Discovering c n f)
      (mkDiscovery Selecting c (S n) (if ok : bool then f else S f))
| timer_fires c n f :
    discovery_step (mkDiscovery Selecting c n f) (mkDiscovery Discovering c n f)
| context_done n f :
    discovery_step (mkDiscovery Selecting true n f) (mkDiscovery Gone true n f)
| start_returns p n f :
    discovery_step (mkDiscovery p false n f) (mkDiscovery p true n f).

(** ** Dialling goes to the host of the address, with its password *)

(** The bytes of user names and passwords that need no escaping. *)
Definition plain_byte (c : ascii) : bool := is_alnum c || one_of "-." c.

Lemma plain_name_byte : forall c, plain_byte c = true -> name_byte c = true.
Proof. done. Qed.
Lemma plain_userinfo : forall c, plain_byte c = true -> (is_alnum c || one_of "-._:~!$&'()*+,;=%@" c) = true.
Proof. each_byte. Qed.
Lemma plain_authority : forall c, plain_byte c = true -> authority_byte c = true.
Proof. each_byte. Qed.
Lemma plain_origin : forall c, plain_byte c = true -> origin_byte c = true.
Proof. each_byte. Qed.

Lemma authority_text addr :
  all_bytes authority_byte addr = true -> before "/" (before "?" (before "#" addr)) = addr.
Proof.
  intros H. rewrite (before_none "#" addr), (before_none "?" addr), (before_none "/" addr); [done | ..];
    by eapply all_bytes_no.
Qed.

Lemma parseAuthority_user user password h port :
  all_bytes plain_byte user = true -> all_bytes plain_byte password = true -> origin_host h port ->
  parseAuthority ((user ++ String ":" password) ++ String "@" (h ++ port)) = Some (h ++ port).
Proof.
  intros Hu Hp Hh. pose proof (origin_host_bytes h port Hh) as Hb. unfold parseAuthority.
  rewrite cut_last_app by (by eapply all_bytes_no). rewrite parseHost_origin by done.
  assert (validUserinfo (user ++ String ":" password) = true) as ->.
  { unfold validUserinfo. rewrite all_bytes_app, (all_bytes_mono plain_byte _ user plain_userinfo Hu). simpl.
    exact (all_bytes_mono plain_byte _ password plain_userinfo Hp). }
  cbn [negb]. rewrite cut_app by (by eapply all_bytes_no).
  by rewrite !unescape_literal by (by apply (all_bytes_mono plain_byte _ _ plain_origin)).
Qed.

(** An address of a sentinel is dialled at its host and port. User information before
    the host is not part of what is dialled: its password becomes an option of the
    connection, and without a password there is none. Connecting and reading time out
    after half a second. *)
Theorem sentinel_dial_spec user password h port :
  all_bytes plain_byte user = true -> all_bytes plain_byte password = true -> origin_host h port ->
  sentinel_dial_args (h ++ port) =
    (h ++ port, [DialConnectTimeout 500000000; DialReadTimeout 500000000;
                 DialReadTimeout 500000000; DialTLSSkipVerify true]) /\
  sentinel_dial_args ((user ++ String ":" password) ++ String "@" (h ++ port)) =
    (h ++ port, [DialConnectTimeout 500000000; DialReadTimeout 500000000;
                 DialReadTimeout 500000000; DialTLSSkipVerify true; DialPassword password]).
Proof.
  intros Hu Hp Hh. pose proof (origin_host_bytes h port Hh) as Hb.
  pose proof (all_bytes_mono _ _ _ origin_authority_byte Hb) as Ha.
  assert (Hau : all_bytes authority_byte ((user ++ String ":" password) ++ String "@" (h ++ port)) = true).
  { rewrite !all_bytes_app. rewrite (all_bytes_mono plain_byte _ user plain_authority Hu). simpl.
    by rewrite (all_bytes_mono plain_byte _ password plain_authority Hp). }
  unfold sentinel_dial_args, sentinel_password. rewrite !authority_text by done. split.
  - change ("redis://" ++ h ++ port) with ("redis" ++ "://" ++ h ++ port). rewrite url_Parse_origin by done.
    by rewrite cut_last_none by (by apply (all_bytes_no origin_byte)).
  - rewrite (url_Parse_authority "redis" _ (h ++ port) ltac:(done) eq_refl Hau (parseAuthority_user _ _ _ _ Hu Hp Hh) :
      url_Parse ("redis://" ++ _) = _).
    rewrite cut_last_app by (by apply (all_bytes_no origin_byte)).
    rewrite cut_app by (by apply (all_bytes_no plain_byte)).
    by rewrite unescape_literal by (by apply (all_bytes_mono plain_byte _ _ plain_origin)).
Qed.

(** No address is dialled with a limit for writing: the limit for reading is given
    twice. *)
Lemma sentinel_never_limits_writes addr d : DialWriteTimeout d ∉ (sentinel_dial_args addr).2.
Proof.
  unfold sentinel_dial_args. destruct (url_Parse _); [destruct (sentinel_password addr) |]; simpl; set_solver.
Qed.

(** ** The goroutine of the discovery *)

(** What holds of it at any time: it has left only after [Start] has returned. *)
Lemma discovery_invariant d :
  rtc discovery_step discovery_started d ->
  (dy_phase d = Gone -> dy_cancelled d = true) /\ failed_discoveries d <= discoveries d.
Proof.
  intros Hr. remember discovery_started as d0 eqn:H0.
  assert (Hi : (dy_phase d0 = Gone -> dy_cancelled d0 = true) /\ failed_discoveries d0 <= discoveries d0)
    by (subst; simpl; split; [done | lia]).
  clear H0. induction Hr as [|d1 d2 d3 Hs _ IH]; [done |]. apply IH. clear IH. destruct Hi as [H1 H2].
  destruct Hs as [[] c n f|c n f|n f|p n f]; simpl in *; split; try done; try lia; by intros.
Qed.

(** The goroutine never stops looking while the adapter runs, and once [Start] has returned
    it can end from wherever it is, after at most one more discovery. *)
Lemma discovery_ends d :
  rtc discovery_step discovery_started d -> dy_cancelled d = true ->
  exists d', rtc discovery_step d d' /\ dy_phase d' = Gone /\ discoveries d' <= S (discoveries d).
Proof.
  intros _ Hc. destruct d as [p c n f]. simpl in Hc. subst c. destruct p.
  - exists (mkDiscovery Gone true (S n) f). split_and!; [| done | simpl; lia].
    eapply rtc_l; [apply (discover_returns true) |]. apply rtc_once, context_done.
  - exists (mkDiscovery Gone true n f). split_and!; [apply rtc_once, context_done | done | simpl; lia].
  - exists (mkDiscovery Gone true n f). split_and!; [apply rtc_refl | done | simpl; lia].
Qed.

Lemma sentinel_dial_spec_witness :
  sentinel_dial_args "admin:secret@10.0.0.1:26379" =
    ("10.0.0.1:26379", [DialConnectTimeout 500000000; DialReadTimeout 500000000;
                        DialReadTimeout 500000000; DialTLSSkipVerify true; DialPassword "secret"]).
Proof.
  apply (sentinel_dial_spec "admin" "secret" "10.0.0.1" ":26379"); [reflexivity | reflexivity | split; reflexivity].
Defined.
