(* ===== verification/MetricsRun.v ===== *)
(** * The metrics goroutine

    Package metrics ([src/metrics/metrics.go], [src/metrics/printer.go]): building the
    registry from the configuration, the loop that rotates the counters and flushes
    them to the writers, and its shutdown. The registry itself is [Metrics.v]. *)

From Stdlib Require Import ZArith Lia Ascii String.
From stdpp Require Import base strings list gmap.
From S2P Require Import Prelude Json Common Net Server Metrics.

Local Open Scope string_scope.

Definition DefaultRotateInterval : Z := 15.
Definition time_Second : Z := 1000000000.

(** ** Writers *)

(** [IntervalWriter]: what its methods answer; [Run] gets the interval and [Write] the
    registry. *)
Record IntervalWriter : Type := mkWriter {
  iw_Run : Z -> option error;
  iw_Write : Metrics -> option error
}.

(** What the writers were asked to do. *)
Inductive writer_call : Type :=
| CallRun (interval : Z)
| CallWrite (snapshot : gmap string Z)
| CallStop.

(** A value of a log entry. *)
Inductive field : Type := FText (s : string) | FNumber (z : Z).

(** What [Run] says when it is told the interval; it does not fail. *)
Definition BasePrinter_Run (interval : Z) : option error * string :=
  (None, "Log metrics every " ++ Z_to_string interval ++ "s").

Definition NewBasePrinter : IntervalWriter :=
  mkWriter (fun interval => (BasePrinter_Run interval).1) (fun _ => None).

(** The fields that [Print] logs. *)
Definition BasePrinter_Print (snapshot : gmap string Z) : gmap string field :=
  (FNumber <$> snapshot) ∪ {[ "context" := FText "metrics" ]}.

Definition BasePrinter_Write (m : Metrics) : gmap string field := BasePrinter_Print (IntervalSnapshot m).

(** Without mruby there is no custom printer. *)
Definition NewCustomPrinter (path : string) : result IntervalWriter := Err (Errorf "Not supported").

(** ** The state *)

(** [mp_shutdownCh] says whether the field is not nil and [mp_shutdown] whether the
    channel was closed. [mp_rotateInterval] is in nanoseconds. *)
Record MetricsProc : Type := mkMetricsProc {
  mp_registry : Metrics;
  mp_mu : RWMutex;
  mp_writers : list IntervalWriter;
  mp_server : option nat;
  mp_httpPath : string;
  mp_rotateInterval : Z;
  mp_shutdownCh : bool;
  mp_shutdown : bool;
  mp_servers : Servers;
  mp_calls : list writer_call
}.

Implicit Types p : MetricsProc.

Definition NewMetricsProc (writers : list IntervalWriter) (rotateIntervalSeconds : Z) (w : Servers)
    : MetricsProc :=
  mkMetricsProc NewMetrics rw_free writers None EmptyString (to_i64 (rotateIntervalSeconds * time_Second))
    true false w [].

Definition set_registry v p := mkMetricsProc v (mp_mu p) (mp_writers p) (mp_server p) (mp_httpPath p) (mp_rotateInterval p) (mp_shutdownCh p) (mp_shutdown p) (mp_servers p) (mp_calls p).
Definition set_mp_mu v p := mkMetricsProc (mp_registry p) v (mp_writers p) (mp_server p) (mp_httpPath p) (mp_rotateInterval p) (mp_shutdownCh p) (mp_shutdown p) (mp_servers p) (mp_calls p).
Definition set_writers v p := mkMetricsProc (mp_registry p) (mp_mu p) v (mp_server p) (mp_httpPath p) (mp_rotateInterval p) (mp_shutdownCh p) (mp_shutdown p) (mp_servers p) (mp_calls p).
Definition set_endpoint i path p := mkMetricsProc (mp_registry p) (mp_mu p) (mp_writers p) (Some i) path (mp_rotateInterval p) (mp_shutdownCh p) (mp_shutdown p) (mp_servers p) (mp_calls p).
Definition set_interval v p := mkMetricsProc (mp_registry p) (mp_mu p) (mp_writers p) (mp_server p) (mp_httpPath p) v (mp_shutdownCh p) (mp_shutdown p) (mp_servers p) (mp_calls p).
Definition close_shutdown p := mkMetricsProc (mp_registry p) (mp_mu p) (mp_writers p) (mp_server p) (mp_httpPath p) (mp_rotateInterval p) false true (mp_servers p) (mp_calls p).
Definition set_mp_servers v p := mkMetricsProc (mp_registry p) (mp_mu p) (mp_writers p) (mp_server p) (mp_httpPath p) (mp_rotateInterval p) (mp_shutdownCh p) (mp_shutdown p) v (mp_calls p).
Definition add_call c p := mkMetricsProc (mp_registry p) (mp_mu p) (mp_writers p) (mp_server p) (mp_httpPath p) (mp_rotateInterval p) (mp_shutdownCh p) (mp_shutdown p) (mp_servers p) (mp_calls p ++ [c])%list.

Definition on_mp_mu : M RWMutex unit -> M MetricsProc unit := zoom mp_mu set_mp_mu.
Definition on_mp_servers {A} : M Servers A -> M MetricsProc A := zoom mp_servers set_mp_servers.

Definition RegisterWriter (w : IntervalWriter) : M MetricsProc unit :=
  modify (fun p => set_writers (mp_writers p ++ [w])%list p).

Section run.
Context (load_key_pair : string -> string -> option error) (net_refuses : string -> option error).

(** ** Creation *)

Definition mount (i : nat) (path : string) : M MetricsProc (option error) :=
  modify (set_endpoint i path) ;;
  on_mp_servers (on_server i (Handle path PrometheusHandler)) ;;
  ret None.

(** The writers, or the error of the custom printer. *)
Definition config_writers (config : Config) : result (list IntervalWriter) :=
  if LogEnabled config then
    if LogFormatterEnabled config then
      match NewCustomPrinter (LogFormatter config) with
      | Ok printer => Ok [printer]
      | Err e => Err e
      end
    else Ok [NewBasePrinter]
  else Ok [].

(** The endpoint, on a server of its own when the host differs. *)
Definition config_endpoint (config : Config) : M MetricsProc (option error) :=
  if HTTPEnabled config then
    let! p := get in
    let! r :=
      on_mp_servers (
        if negb (String.eqb (Metrics.Host config) EmptyString) &&
           negb (String.eqb (Metrics.Host config) (Server.Host (mp_servers p)))
        then NewServer load_key_pair (Metrics.Host config) (Itoa (Port config)) (SSL (mp_servers p)) 0
        else ForPort load_key_pair (Itoa (Port config))) in
    match r with
    | Err e => ret (Some e)
    | Ok i => mount i (HTTP config)
    end
  else ret None.

(** The instance, or an error. *)
Definition FromConfig (config : Config) (w : Servers) : outcome MetricsProc (option error) :=
  match config_writers config with
  | Err e => Ret (Some e) (NewMetricsProc [] (RotateInterval config) w)
  | Ok writers => config_endpoint config (NewMetricsProc writers (RotateInterval config) w)
  end.

(** ** The loop *)

(** [int(m.rotateInterval.Seconds())] *)
Definition interval_seconds p : Z := (mp_rotateInterval p ÷ time_Second)%Z.

Fixpoint run_writers (ws : list IntervalWriter) : M MetricsProc (option error) :=
  match ws with
  | [] => ret None
  | w :: ws =>
      let! p := get in
      modify (add_call (CallRun (interval_seconds p))) ;;
      match iw_Run w (interval_seconds p) with
      | Some e => ret (Some e)
      | None => run_writers ws
      end
  end.

(** [Run] before its loop: the result when it returns, [None] when the loop follows. *)
Definition Run_begin : M MetricsProc (option (option error)) :=
  let! p := get in
  let! failed :=
    match mp_server p with
    | Some i =>
        let! err := on_mp_servers (StartAndAnnounce net_refuses i) in
        on_mp_servers (report_error i err)
    | None => ret None
    end in
  match failed with
  | Some e => ret (Some (Some (Errorf "Metrics HTTP server stopped")))
  | None =>
      match mp_writers p with
      | [] => ret (Some None)
      | _ :: _ =>
          when (mp_rotateInterval p =? 0)%Z (modify (set_interval (DefaultRotateInterval * time_Second)%Z)) ;;
          let! err := run_writers (mp_writers p) in
          match err with
          | Some e => ret (Some (Some e))
          | None => ret None
          end
      end
  end.

Definition Metrics_rotate : M MetricsProc unit :=
  on_mp_mu rw_lock ;;
  modify (fun p => set_registry (rotate (mp_registry p)) p) ;;
  on_mp_mu rw_unlock.

(** [m.IntervalSnapshot()], under the read lock. *)
Definition Metrics_IntervalSnapshot : M MetricsProc (gmap string Z) :=
  on_mp_mu rw_rlock ;;
  let! p := get in
  on_mp_mu rw_runlock ;;
  ret (IntervalSnapshot (mp_registry p)).

(** ** The endpoint *)

(** [EachCounter] and [EachGauge], with what the function works on. *)
Definition on_proc {B A} : M MetricsProc A -> M (MetricsProc * B) A := zoom fst (fun p st => (p, st.2)).
Definition on_arg {B A} : M B A -> M (MetricsProc * B) A := zoom snd (fun b st => (st.1, b)).

Definition EachCounter `{GoRange} {B} (f : Counter -> M B unit) : M (MetricsProc * B) unit :=
  on_proc (on_mp_mu rw_rlock) ;;
  let! st := get in
  each (fun kc => on_arg (f kc.2)) (range (counters (mp_registry st.1))) ;;
  on_proc (on_mp_mu rw_runlock).
Definition EachGauge `{GoRange} {B} (f : Gauge -> M B unit) : M (MetricsProc * B) unit :=
  on_proc (on_mp_mu rw_rlock) ;;
  let! st := get in
  each (fun kg => on_arg (f kg.2)) (range (gauges (mp_registry st.1))) ;;
  on_proc (on_mp_mu rw_runlock).

Definition write_block (kind name desc : string) (value : Z) : M string unit :=
  modify (fun buf => buf ++ prometheus_block kind name desc value).

(** [PrometheusHandler]: the body of the response. *)
Definition serve_prometheus `{GoRange} : M MetricsProc string := fun p =>
  match (EachCounter (fun c => write_block "counter" (c_name c) (c_desc c) (Counter_Value c)) ;;
         EachGauge (fun g => write_block "gauge" (g_name g) (g_desc g) (Gauge_Value g))) (p, EmptyString) with
  | Ret _ st => Ret st.2 st.1
  | Block why st => Block why st.1
  | Panic why st => Panic why st.1
  end.

(** An error of a writer is only logged. *)
Definition write_to (w : IntervalWriter) : M MetricsProc unit :=
  let! snapshot := Metrics_IntervalSnapshot in
  modify (add_call (CallWrite snapshot)).

(** What [Run] does when the timer fires. *)
Definition Run_tick : M MetricsProc unit :=
  Metrics_rotate ;;
  let! p := get in
  each write_to (mp_writers p).

(** ** Shutdown *)

Definition stop_writer (w : IntervalWriter) : M MetricsProc unit := modify (add_call CallStop).

Definition Metrics_Shutdown : M MetricsProc (option error) :=
  on_mp_mu rw_lock ;;
  let! p := get in
  if negb (mp_shutdownCh p) then on_mp_mu rw_unlock ;; ret None
  else
    modify close_shutdown ;;
    match mp_server p with
    | Some i => on_mp_servers (on_server i Server_Shutdown) ;; ret tt
    | None => ret tt
    end ;;
    each stop_writer (mp_writers p) ;;
    on_mp_mu rw_unlock ;;
    ret None.

(** ** The goroutine *)

(** In the select of the loop, with the channel that was in the field when the select
    was entered; writing; or returned. *)
Inductive run_phase : Type :=
| Waiting (ch : bool)
| Writing
| Ended.

(** The select is entered. *)
Definition enter p : run_phase := Waiting (mp_shutdownCh p).

(** A step of the goroutine: the channel is closed, or the timer fires and the counters
    are flushed. *)
Inductive run_step : run_phase * MetricsProc -> run_phase * MetricsProc -> Prop :=
| run_stop p : mp_shutdown p = true -> run_step (Waiting true, p) (Ended, p)
| run_timer ch p : run_step (Waiting ch, p) (Writing, p)
| run_tick p p' : Run_tick p = Ret tt p' -> run_step (Writing, p) (enter p', p').

(** The other goroutines: they count, and one shuts the metrics down. *)
Inductive other_step : run_phase * MetricsProc -> run_phase * MetricsProc -> Prop :=
| other_counts f (name : string) r p m :
    on_counter f name (mp_registry p) = Ret tt m -> other_step (r, p) (r, set_registry m p)
| other_shutdown e r p p' : Metrics_Shutdown p = Ret e p' -> other_step (r, p) (r, p').

Definition proc_step (s s' : run_phase * MetricsProc) : Prop := run_step s s' \/ other_step s s'.
End run.

(** ** What the endpoint serves *)

Lemma concat_nosep_cons x xs : String.concat EmptyString (x :: xs) = x ++ String.concat EmptyString xs.
Proof. destruct xs; simpl; [by rewrite string_app_nil_r | done]. Qed.

Lemma concat_app xs ys :
  String.concat EmptyString (xs ++ ys)%list = String.concat EmptyString xs ++ String.concat EmptyString ys.
Proof.
  induction xs as [|x xs IH]; [done |]. change ((x :: xs) ++ ys)%list with (x :: (xs ++ ys))%list.
  by rewrite !concat_nosep_cons, IH, string_app_assoc.
Qed.

Lemma each_writes {X} (block : X -> string) xs p buf :
  each (fun kx : string * X => on_arg (modify (fun b => b ++ block kx.2))) xs (p, buf) =
  Ret tt (p, buf ++ String.concat EmptyString (map (fun kx => block kx.2) xs)).
Proof.
  revert buf. induction xs as [|x xs IH]; intros buf; [simpl; by rewrite string_app_nil_r |].
  cbn [each map]. rewrite concat_nosep_cons. unfold bind, on_arg, zoom, modify in *. simpl. rewrite IH.
  by rewrite string_app_assoc.
Qed.

(** The page of the metrics endpoint is the text of all counters and gauges, whoever else is
    reading the registry, and serving it leaves the registry and its lock as they were; while
    the counters are being rotated it waits. *)
Theorem prometheus_served `{GoRange} p :
  (rw_writer (mp_mu p) = false -> serve_prometheus p = Ret (Prometheus (mp_registry p)) p) /\
  (rw_writer (mp_mu p) = true -> exists why p', serve_prometheus p = Block why p').
Proof.
  split; intros Hw.
  - destruct p as [reg [wr rd] ws srv path iv ch sd ss calls]. simpl in Hw. subst wr.
    unfold serve_prometheus, EachCounter, EachGauge, write_block, bind, on_proc, on_mp_mu, zoom, get. simpl.
    rewrite (each_writes (fun c => prometheus_block "counter" (c_name c) (c_desc c) (Counter_Value c))). simpl.
    rewrite (each_writes (fun g => prometheus_block "gauge" (g_name g) (g_desc g) (Gauge_Value g))). simpl.
    unfold Prometheus. by rewrite concat_app.
  - unfold serve_prometheus, EachCounter, bind, on_proc, on_mp_mu, zoom, rw_rlock. simpl. rewrite Hw. by do 2 eexists.
Qed.

(** ** What a tick writes *)

Lemma Run_tick_ok p :
  mp_mu p = rw_free ->
  Run_tick p = Ret tt (mkMetricsProc (rotate (mp_registry p)) rw_free (mp_writers p) (mp_server p) (mp_httpPath p)
    (mp_rotateInterval p) (mp_shutdownCh p) (mp_shutdown p) (mp_servers p)
    (mp_calls p ++ replicate (length (mp_writers p)) (CallWrite (IntervalSnapshot (rotate (mp_registry p)))))%list).
Proof.
  intros Hmu. unfold Run_tick, Metrics_rotate, bind, on_mp_mu, zoom, get. rewrite Hmu. simpl.
  assert (Hgen : forall ws calls q, mp_mu q = rw_free -> mp_calls q = calls ->
    each write_to ws q = Ret tt (mkMetricsProc (mp_registry q) rw_free (mp_writers q) (mp_server q) (mp_httpPath q)
      (mp_rotateInterval q) (mp_shutdownCh q) (mp_shutdown q) (mp_servers q)
      (calls ++ replicate (length ws) (CallWrite (IntervalSnapshot (mp_registry q))))%list)).
  { induction ws as [|v ws IH]; intros calls q Hq Hc.
    - destruct q; simpl in *; subst. by rewrite app_nil_r.
    - simpl. unfold write_to, Metrics_IntervalSnapshot, bind, on_mp_mu, zoom, get, modify. rewrite Hq. simpl.
      rewrite (IH (calls ++ [CallWrite (IntervalSnapshot (mp_registry q))])%list); [| done | by simpl; rewrite Hc].
      simpl. by rewrite <- app_assoc. }
  by rewrite (Hgen _ (mp_calls p)).
Qed.

Lemma each_stop ws p :
  each stop_writer ws p = Ret tt (mkMetricsProc (mp_registry p) (mp_mu p) (mp_writers p) (mp_server p)
    (mp_httpPath p) (mp_rotateInterval p) (mp_shutdownCh p) (mp_shutdown p) (mp_servers p)
    (mp_calls p ++ replicate (length ws) CallStop)%list).
Proof.
  revert p. induction ws as [|v ws IH]; intros p; simpl.
  - destruct p; simpl. by rewrite app_nil_r.
  - unfold bind, stop_writer, modify. rewrite IH. simpl. by rewrite <- app_assoc.
Qed.

Lemma Run_tick_channel p p' :
  Run_tick p = Ret tt p' -> mp_shutdownCh p' = mp_shutdownCh p /\ mp_shutdown p' = mp_shutdown p.
Proof.
  intros Hrun. destruct (mp_mu p) as [wr rd] eqn:Hmu.
  assert (Hfree : mp_mu p = rw_free).
  { revert Hrun. unfold Run_tick, Metrics_rotate, bind, on_mp_mu, zoom. rewrite Hmu.
    destruct wr, rd; simpl; done. }
  rewrite (Run_tick_ok p Hfree) in Hrun. by injection Hrun as <-.
Qed.

Definition same_channel p p' : Prop :=
  mp_shutdownCh p' = mp_shutdownCh p /\ mp_shutdown p' = mp_shutdown p.

Lemma on_mp_servers_channel {A} (m : M Servers A) p a p' : on_mp_servers m p = Ret a p' -> same_channel p p'.
Proof. unfold on_mp_servers, zoom. destruct (m _); intros Heq; by simplify_eq/=. Qed.

Lemma on_mp_mu_channel m p a p' : on_mp_mu m p = Ret a p' -> same_channel p p'.
Proof. unfold on_mp_mu, zoom. destruct (m _); intros Heq; by simplify_eq/=. Qed.

(** The server's part of [Shutdown]. *)
Lemma shutdown_server_channel p (s : option nat) p' :
  match s with
  | Some i => on_mp_servers (on_server i Server_Shutdown) ;; ret tt
  | None => ret tt
  end p = Ret tt p' -> same_channel p p'.
Proof.
  destruct s as [i|]; [| intros Heq; by injection Heq as <-]. unfold bind.
  destruct (on_mp_servers _ p) as [e p1| |] eqn:H; try done. intros Heq. injection Heq as <-.
  by eapply on_mp_servers_channel.
Qed.

(** Shutdown closes the channel and sets the field to nil, once. *)
Lemma Metrics_Shutdown_channel p e p' :
  Metrics_Shutdown p = Ret e p' ->
  mp_shutdownCh p' = false /\ (mp_shutdownCh p = true -> mp_shutdown p' = true) /\
  (mp_shutdownCh p = false -> mp_shutdown p' = mp_shutdown p).
Proof.
  unfold Metrics_Shutdown, bind at 1. destruct (on_mp_mu rw_lock p) as [[] p1| |] eqn:Hl; try done.
  apply on_mp_mu_channel in Hl as [<- <-]. unfold bind at 1. unfold get at 1.
  destruct (mp_shutdownCh p1) eqn:Hch; cbn [negb].
  - unfold bind at 1, modify at 1. unfold bind at 1.
    destruct (_ (close_shutdown p1)) as [[] p2| |] eqn:Hs; try done.
    apply shutdown_server_channel in Hs as [H1 H2]. unfold bind at 1. rewrite each_stop. unfold bind.
    destruct (on_mp_mu rw_unlock _) as [[] p3| |] eqn:Hu; try done.
    apply on_mp_mu_channel in Hu as [H3 H4]. intros Heq. injection Heq as _ <-.
    rewrite H3, H4. simpl. by rewrite H1, H2.
  - unfold bind. destruct (on_mp_mu rw_unlock p1) as [[] p3| |] eqn:Hu; try done.
    apply on_mp_mu_channel in Hu as [H3 H4]. intros Heq. injection Heq as _ <-. by rewrite H3, H4.
Qed.

(** Shutdown stops the goroutine when it waits for the timer. *)
Lemma shutdown_stops_waiting p e p' :
  mp_shutdownCh p = true -> Metrics_Shutdown p = Ret e p' -> run_step (Waiting true, p') (Ended, p').
Proof.
  intros Hch Hrun. apply Metrics_Shutdown_channel in Hrun as (_ & H & _). by apply run_stop, H.
Qed.

(** Shutdown while the goroutine is flushing does not stop it: the field is nil when the
    loop comes back to its select, and the goroutine goes on for ever, whatever happens
    later. *)
Theorem shutdown_while_writing p e p' r q :
  Metrics_Shutdown p = Ret e p' -> rtc proc_step (Writing, p') (r, q) -> r <> Ended.
Proof.
  intros Hrun Hsteps. apply Metrics_Shutdown_channel in Hrun as (Hch & _ & _).
  assert (Hinv : forall s s', rtc proc_step s s' ->
    mp_shutdownCh s.2 = false /\ (s.1 = Writing \/ s.1 = Waiting false) ->
    mp_shutdownCh s'.2 = false /\ (s'.1 = Writing \/ s'.1 = Waiting false)).
  { clear. intros s s' Hsteps. induction Hsteps as [|s1 s2 s3 Hstep _ IH]; [done |].
    intros [Hc Hph]. apply IH. destruct Hstep as [Hstep | Hstep];
      [destruct Hstep as [| |? ? Ht] | destruct Hstep as [|? ? ? ? Ht]]; simpl in *.
    - by destruct Hph.
    - split; [done | by left].
    - apply Run_tick_channel in Ht as [Ht _]. rewrite Ht. split; [done |]. right. unfold enter. by rewrite Ht, Hc.
    - done.
    - apply Metrics_Shutdown_channel in Ht as (Ht & _). done. }
  destruct (Hinv _ _ Hsteps) as [_ [Hr | Hr]]; [by split; [| left] | simpl in Hr; by subst | simpl in Hr; by subst].
Qed.

(** ** A server of its own *)

Lemma StartAndAnnounce_serves refuses i s w :
  servers w !! i = Some s -> mu s = false -> started s = false -> hs_inShutdown (server s) = false ->
  existsb (in_use (addr s)) (servers w) = false -> refuses (addr s) = None ->
  exists why w', StartAndAnnounce refuses i w = Block why w'.
Proof.
  intros Hi Hmu Hst Hsd Huse Hok. unfold StartAndAnnounce, bind at 1.
  rewrite (on_server_read i _ w s _ Hi (Announce_ok s Hmu)), Hst. cbn [negb].
  unfold Start, bind at 1. rewrite (on_server_ret i _ w s _ _ Hi (Start_claim_ok s Hmu)), Hst. cbn [negb].
  set (w1 := set_servers _ w).
  assert (Hi1 : servers w1 !! i = Some (set_started true s)).
  { apply list_lookup_insert_eq. by eapply lookup_lt_Some. }
  assert (Huse1 : existsb (in_use (addr s)) (servers w1) = false).
  { apply not_true_iff_false. intros Hex. apply existsb_exists in Hex as (u & Hu & Hin).
    apply list_elem_of_In, list_elem_of_lookup in Hu as [j Hj]. simpl in Hj.
    apply list_lookup_insert_Some in Hj as [(-> & <- & _) | [Hne Hj]];
      apply not_true_iff_false in Huse; apply Huse, existsb_exists.
    - exists s. split; [by eapply list_elem_of_In, list_elem_of_lookup_2 | exact Hin].
    - exists u. split; [by eapply list_elem_of_In, list_elem_of_lookup_2 | exact Hin]. }
  clearbody w1. unfold bind, Start_listen, bind, get. unfold on_server at 1. rewrite Hi1. simpl.
  rewrite Huse1, Hok. unfold on_server, ret. simpl. rewrite list_lookup_insert_eq by (by eapply lookup_lt_Some).
  unfold Start_serve. simpl. rewrite Hsd. by do 2 eexists.
Qed.

(** When the metrics have a server that nobody started yet, [Run] serves it and does not
    reach its loop: the counters are not rotated and the writers not run. *)
Theorem metrics_server_stops_rotation refuses p i s :
  mp_server p = Some i -> servers (mp_servers p) !! i = Some s ->
  mu s = false -> started s = false -> hs_inShutdown (server s) = false ->
  existsb (in_use (addr s)) (servers (mp_servers p)) = false -> refuses (addr s) = None ->
  exists why p', Run_begin refuses p = Block why p' /\ mp_calls p' = mp_calls p /\ mp_registry p' = mp_registry p.
Proof.
  intros Hs Hi Hmu Hst Hsd Huse Hok. unfold Run_begin, bind at 1, get at 1. rewrite Hs.
  destruct (StartAndAnnounce_serves refuses i s (mp_servers p) Hi Hmu Hst Hsd Huse Hok) as (why & w' & Hrun).
  unfold bind, on_mp_servers, zoom. rewrite Hrun. by do 2 eexists.
Qed.

(** ** Concrete metrics *)

Definition sample_proc : MetricsProc :=
  NewMetricsProc [NewBasePrinter] 15 (mkServers ∅ "localhost" None 0 []).

Lemma shutdown_while_writing_witness :
  exists e p' q, Metrics_Shutdown sample_proc = Ret e p' /\
    rtc proc_step (Writing, p') (Waiting false, q) /\ Waiting false <> Ended.
Proof.
  destruct (Metrics_Shutdown sample_proc) as [e p'| |] eqn:Hs; [| discriminate | discriminate].
  assert (Htick : exists q, Run_tick p' = Ret tt q /\ mp_shutdownCh q = false).
  { vm_compute in Hs. injection Hs as _ <-. eexists. split; reflexivity. }
  destruct Htick as (q & Hq & Hch).
  assert (Hsteps : rtc proc_step (Writing, p') (Waiting false, q)).
  { eapply rtc_l; [left; apply run_tick; exact Hq |]. unfold enter. rewrite Hch. apply rtc_refl. }
  exists e, p', q. split; [reflexivity |]. split; [exact Hsteps |].
  exact (shutdown_while_writing sample_proc e p' (Waiting false) q Hs Hsteps).
Defined.

Lemma metrics_server_stops_rotation_witness :
  exists p why p', FromConfig (fun _ _ => None) (mkConfig true 0 15 EmptyString "/metrics" EmptyString 9090)
      (mkServers ∅ "localhost" None 0 []) = Ret None p /\
    Run_begin (fun _ => None) p = Block why p' /\ mp_calls p' = [].
Proof.
  destruct (FromConfig (fun _ _ => None) (mkConfig true 0 15 EmptyString "/metrics" EmptyString 9090)
      (mkServers ∅ "localhost" None 0 [])) as [e p| |] eqn:Hf; [| discriminate | discriminate].
  vm_compute in Hf. injection Hf as <- <-. eexists.
  destruct (metrics_server_stops_rotation (fun _ => None)
    (mkMetricsProc NewMetrics rw_free [NewBasePrinter] (Some 0) "/metrics" 15000000000 true false
       (mkServers {[ "9090" := 0 ]} "localhost" None 0
          [mkHTTPServer (mkHttp false 0 None) "localhost:9090" false false false 0 false
             {[ "/metrics" := PrometheusHandler ]} 0]) []) 0
    (mkHTTPServer (mkHttp false 0 None) "localhost:9090" false false false 0 false
             {[ "/metrics" := PrometheusHandler ]} 0)) as (why & p' & Hrun & Hcalls & _);
    try reflexivity.
  exists why, p'. split; [reflexivity |]. split; [exact Hrun | exact Hcalls].
Defined.
