(* ===== verification/Mruby.v ===== *)
(** * Custom metrics printers in Ruby

    Builds with mruby ([src/mrb/mrb.go], [src/metrics/custom_printer.go]): the engine that
    the process shares, loading a script under its lock, and the printer that calls it. The
    mruby library is a parameter: an interface of operations on a virtual machine. *)

From Stdlib Require Import ZArith Lia Ascii String.
From stdpp Require Import base strings list gmap relations.
From S2P Require Import Prelude Threads Json Metrics MetricsRun.

Local Open Scope string_scope.

(** ** The library *)

(** The calls of the mruby library that are used. A call may change the machine; values
    and parsers belong to it. *)
Class GoMruby (VM Value Parser : Type) : Type := {
  NewMrb : VM;
  vm_LoadString : string -> VM -> result Value * VM;
  parser_Parse : string -> string -> VM -> result Parser * VM;
  GenerateCode : Parser -> VM -> Value * VM;
  vm_Run : Value -> VM -> result Value * VM;
  vm_Module : string -> VM -> Value * VM;
  hash_Set : Value -> string -> Z -> VM -> VM;
  value_Call : Value -> string -> Value -> VM -> result Value * VM;
  value_String : Value -> VM -> string
}.

(** [strings.TrimSpace], for the white space of ASCII. *)
Definition trim_byte (c : ascii) : bool := ((9 <=? N_of_ascii c) && (N_of_ascii c <=? 13) || (N_of_ascii c =? 32))%N.
Fixpoint trim_left (s : string) : string :=
  match s with
  | String c s' => if trim_byte c then trim_left s' else s
  | EmptyString => EmptyString
  end.
Fixpoint trim_right (s : string) : string :=
  match s with
  | EmptyString => EmptyString
  | String c s =>
      match trim_right s with
      | EmptyString => if trim_byte c then EmptyString else str1 c
      | s' => String c s'
      end
  end.
Definition TrimSpace (s : string) : string := trim_right (trim_left s).

Section engines.
Context {VM Value Parser : Type} `{GoMruby VM Value Parser}.

(** ** Engines *)

(** [Engine]; [e_open] counts the compile contexts and parsers that are not closed yet. *)
Record Engine : Type := mkEngine { e_VM : VM; e_mu : bool; e_open : nat }.

(** The engines of the process and its package variables. *)
Record Ruby : Type := mkRuby {
  engines : list Engine;
  defaultEngine : option nat;
  defaultEngineSync : bool
}.

Definition ruby_started : Ruby := mkRuby [] None false.

Definition on_sync : M bool unit -> M Ruby unit :=
  zoom defaultEngineSync (fun v r => mkRuby (engines r) (defaultEngine r) v).

Definition on_engine {A} (i : nat) (m : M Engine A) : M Ruby A := fun r =>
  match engines r !! i with
  | None => nil_deref r
  | Some e =>
      zoom (fun _ => e) (fun e r => mkRuby (<[i := e]> (engines r)) (defaultEngine r) (defaultEngineSync r)) m r
  end.

Definition on_vm {A} (f : VM -> A * VM) : M Engine A := fun e =>
  let '(a, vm) := f (e_VM e) in Ret a (mkEngine vm (e_mu e) (e_open e)).
Definition on_engine_mu : M bool unit -> M Engine unit :=
  zoom e_mu (fun v e => mkEngine (e_VM e) v (e_open e)).
Definition open_one : M Engine unit := modify (fun e => mkEngine (e_VM e) (e_mu e) (S (e_open e))).
Definition close_one : M Engine unit := modify (fun e => mkEngine (e_VM e) (e_mu e) (pred (e_open e))).

Definition mrb_Supported : bool := true.

Definition NewEngine : M Ruby nat := fun r =>
  Ret (length (engines r)) (mkRuby (engines r ++ [mkEngine NewMrb false 0])%list (defaultEngine r) (defaultEngineSync r)).

Definition set_default (i : nat) : M Ruby unit :=
  modify (fun r => mkRuby (engines r) (Some i) (defaultEngineSync r)).

Definition DefaultEngine : M Ruby nat :=
  on_sync lock ;;
  let! r := get in
  let! i :=
    match defaultEngine r with
    | None => let! i := NewEngine in set_default i ;; ret i
    | Some i => ret i
    end in
  on_sync unlock ;;
  ret i.

(** [Eval] does not take the lock of the engine. *)
Definition Engine_Eval (i : nat) (code : string) : M Ruby (result Value) :=
  on_engine i (on_vm (vm_LoadString code)).

Definition mrb_Version : M Ruby (result string) :=
  let! i := DefaultEngine in
  let! v := Engine_Eval i "MRUBY_DESCRIPTION" in
  match v with
  | Err e => ret (Err e)
  | Ok mrbv => on_engine i (fun e => Ret (Ok (TrimSpace (value_String mrbv (e_VM e)))) e)
  end.

(** What is done with the parser, which is closed afterwards. *)
Definition parse_and_run (name contents : string) : M Engine (option error) :=
  let! p := on_vm (parser_Parse (name ++ ".rb") contents) in
  match p with
  | Err e => ret (Some e)
  | Ok parser =>
      let! parsed := on_vm (GenerateCode parser) in
      let! v := on_vm (vm_Run parsed) in
      match v with
      | Err e => ret (Some e)
      | Ok _ => ret None
      end
  end.

(** [filename] is what the generator of names answers. *)
Definition Engine_LoadString (filename : result string) (contents : string) : M Engine (option error) :=
  on_engine_mu lock ;;
  open_one ;;
  let! err :=
    match filename with
    | Err e => ret (Some e)
    | Ok name =>
        open_one ;;
        let! err := parse_and_run name contents in
        close_one ;;
        ret err
    end in
  close_one ;;
  on_engine_mu unlock ;;
  ret err.

(** [file] is what reading the file answers. *)
Definition Engine_LoadFile (file filename : result string) : M Engine (option error) :=
  match file with
  | Err e => ret (Some e)
  | Ok contents => Engine_LoadString filename contents
  end.

(** ** The printer *)

(** [RubyPrinter]: the module and the engine are nil until [Run]. *)
Record RubyPrinter : Type := mkPrinter {
  pr_path : string;
  mrbModule : option Value;
  pr_engine : option nat
}.

Definition NewRubyPrinter (path : string) : result RubyPrinter := Ok (mkPrinter path None None).

(** The printer and the process. *)
Definition on_ruby {A} : M Ruby A -> M (RubyPrinter * Ruby) A := zoom snd (fun v w => (w.1, v)).

Definition RubyPrinter_Run (file filename : result string) : M (RubyPrinter * Ruby) (option error) :=
  let! i := on_ruby DefaultEngine in
  modify (fun w => (mkPrinter (pr_path w.1) (mrbModule w.1) (Some i), w.2)) ;;
  let! err := on_ruby (on_engine i (Engine_LoadFile file filename)) in
  match err with
  | Some e => ret (Some e)
  | None =>
      let! md := on_ruby (on_engine i (on_vm (vm_Module "MetricsFormatter"))) in
      modify (fun w => (mkPrinter (pr_path w.1) (Some md) (pr_engine w.1), w.2)) ;;
      ret None
  end.

Definition RubyPrinter_Stop : M (RubyPrinter * Ruby) unit := ret tt.

(** What is logged: the text of the script, or an error. *)
Inductive ruby_log : Type := LogInfo (s : string) | LogError (e : error).

(** A value is passed as an [int]. *)
Definition set_entry (rhash : Value) (kv : string * Z) : M Engine unit :=
  modify (fun e => mkEngine (hash_Set rhash kv.1 (to_i64 kv.2) (e_VM e)) (e_mu e) (e_open e)).

Definition RubyPrinter_Print `{GoRange} (snapshot : gmap string Z) : M (RubyPrinter * Ruby) ruby_log :=
  let! w := get in
  match pr_engine w.1 with
  | None => nil_deref
  | Some i =>
      let! r := on_ruby (on_engine i (on_vm (vm_LoadString "{}"))) in
      match r with
      | Err _ => nil_deref
      | Ok rhash =>
          on_ruby (on_engine i (each (set_entry rhash) (range snapshot))) ;;
          match mrbModule w.1 with
          | None => nil_deref
          | Some md =>
              let! result := on_ruby (on_engine i (on_vm (value_Call md "call" rhash))) in
              match result with
              | Err e => ret (LogError e)
              | Ok v => on_ruby (on_engine i (fun e => Ret (LogInfo (value_String v (e_VM e))) e))
              end
          end
      end
  end.

Definition RubyPrinter_Write `{GoRange} (m : Metrics) : M (RubyPrinter * Ruby) (ruby_log * option error) :=
  let! logged := RubyPrinter_Print (IntervalSnapshot m) in
  ret (logged, None).
End engines.

Arguments Engine VM : clear implicits.
Arguments Ruby VM : clear implicits.
Arguments RubyPrinter Value : clear implicits.

(** ** The default engine *)

Section sharing.
Context {VM Value Parser : Type} {lib : GoMruby VM Value Parser}.
Implicit Types (r : Ruby VM).
Local Open Scope proc_scope.

(** [DefaultEngine] action by action, in a goroutine that goes on with the engine. *)
Definition p_DefaultEngine : proc (Ruby VM) nat :=
  act (on_sync lock) ;>>
  do! r := act get in
  do! i :=
    match defaultEngine r with
    | None => do! i := act NewEngine in act (set_default i) ;>> Pure i
    | Some i => Pure i
    end in
  act (on_sync unlock) ;>>
  Pure i.

(** What a goroutine knows: nothing, that it holds the lock, that it holds the lock and no
    engine is set, or that it holds the lock and has made the first engine. *)
Inductive sharing_view : Type := Outside | Inside | InsideNone | InsideMade.
Definition inside (v : sharing_view) : nat := match v with Outside => 0 | _ => 1 end.
Definition made (v : sharing_view) : nat := match v with InsideMade => 1 | _ => 0 end.

(** The lock is held by one goroutine or free; there is an engine exactly when it is set,
    or when the goroutine with the lock is about to set it; and it is the first one. *)
Definition shared (vs : list sharing_view) r : Prop :=
  total inside vs = (if defaultEngineSync r then 1 else 0) /\
  length (engines r) = (if defaultEngine r then 1 else 0) + total made vs /\
  (defaultEngine r = None \/ defaultEngine r = Some 0) /\
  (forall v, v ∈ vs -> v = InsideNone \/ v = InsideMade -> defaultEngine r = None).

Definition outside_waits (v : sharing_view) r : Prop := v = Outside.

Lemma only_inside vs i v r u :
  shared vs r -> vs !! i = Some v -> inside v = 1 -> u ∈ vs -> u = v \/ u = Outside.
Proof.
  intros (Hl & _) Hi Hv Hu. apply list_elem_of_lookup in Hu as [j Hj].
  destruct (decide (i = j)) as [<-|Hij]; [left; congruence |]. right.
  pose proof (total_two inside vs i j v u Hi Hj Hij) as H2. rewrite Hl, Hv in H2.
  destruct u; [done | ..]; simpl in H2; destruct (defaultEngineSync r); lia.
Qed.

(** A step of a goroutine inside, or into, the lock. *)
Lemma shared_step vs i v v' r r' :
  shared vs r -> vs !! i = Some v -> inside v = 1 \/ defaultEngineSync r = false ->
  (if defaultEngineSync r' then 1 else 0) + inside v = (if defaultEngineSync r then 1 else 0) + inside v' ->
  length (engines r') + (if defaultEngine r then 1 else 0) + made v =
    length (engines r) + (if defaultEngine r' then 1 else 0) + made v' ->
  (defaultEngine r' = None \/ defaultEngine r' = Some 0) ->
  (v' = InsideNone \/ v' = InsideMade -> defaultEngine r' = None) ->
  shared (<[i := v']> vs) r'.
Proof.
  intros Hs Hi Hin Hlock Hlen Hdef Hv'. pose proof Hs as (H1 & H2 & H3 & H4).
  pose proof (total_insert inside vs i v v' Hi) as I1. pose proof (total_insert made vs i v v' Hi) as I2.
  split_and!; [lia | lia | done |]. intros u Hu Hk.
  apply list_elem_of_lookup in Hu as [j Hj]. destruct (decide (i = j)) as [<-|Hij].
  - rewrite list_lookup_insert_eq in Hj by (by eapply lookup_lt_Some). injection Hj as <-. auto.
  - rewrite list_lookup_insert_ne in Hj by done. exfalso.
    pose proof (total_two inside vs i j v u Hi Hj Hij) as T2. pose proof (total_lookup inside vs j u Hj) as T1.
    assert (inside u = 1) by (by destruct Hk; subst). rewrite H1 in T1, T2.
    destruct Hin as [Hin|Hin]; [destruct (defaultEngineSync r); lia | rewrite Hin in T1; lia].
Qed.

Abbreviation sharing_safe := (wpp shared outside_waits).

Lemma sharing_lock {A} (k : unit -> proc (Ruby VM) A) Q :
  sharing_safe (k tt) Q Inside -> sharing_safe (Act (on_sync lock) k) Q Outside.
Proof.
  intros Hk vs i r Hi Hs. unfold on_sync, zoom, lock. destruct (defaultEngineSync r) eqn:Hd; [done |].
  exists Inside. split; [| done]. pose proof Hs as (_ & _ & H3 & _).
  eapply shared_step; [done | done | by right | simpl; rewrite Hd; lia | simpl; lia | done | intros [?|?]; done].
Qed.

Lemma sharing_unlock {A} (k : unit -> proc (Ruby VM) A) Q :
  sharing_safe (k tt) Q Outside -> sharing_safe (Act (on_sync unlock) k) Q Inside.
Proof.
  intros Hk vs i r Hi Hs. pose proof Hs as (H1 & _ & H3 & _). pose proof (total_lookup inside vs i Inside Hi) as T.
  unfold on_sync, zoom, unlock. destruct (defaultEngineSync r) eqn:Hd; [| simpl in T; lia].
  exists Outside. split; [| done].
  eapply shared_step; [done | done | by left | simpl; rewrite Hd; lia | simpl; lia | done | intros [?|?]; done].
Qed.

Lemma sharing_get {A} (k : Ruby VM -> proc (Ruby VM) A) Q :
  (forall r, match defaultEngine r with
             | None => sharing_safe (k r) Q InsideNone
             | Some i => i = 0 -> sharing_safe (k r) Q Inside
             end) ->
  sharing_safe (Act get k) Q Inside.
Proof.
  intros Hk vs i r Hi Hs. specialize (Hk r). pose proof Hs as (H1 & H2 & H3 & H4). simpl.
  destruct (defaultEngine r) as [d|] eqn:Hd.
  - exists Inside. split; [by rewrite list_insert_id |]. apply Hk. by destruct H3 as [?|[= ->]].
  - exists InsideNone. split; [| done]. eapply shared_step; [done | done | by left | simpl; lia
      | rewrite Hd; simpl; lia | by left | done].
Qed.

Lemma sharing_new {A} (k : nat -> proc (Ruby VM) A) Q :
  sharing_safe (k 0) Q InsideMade -> sharing_safe (Act NewEngine k) Q InsideNone.
Proof.
  intros Hk vs i r Hi Hs. pose proof Hs as (H1 & H2 & H3 & H4).
  assert (Hd : defaultEngine r = None) by (eapply H4; [by eapply list_elem_of_lookup_2 | by left]).
  assert (Hm : total made vs = 0).
  { destruct (decide (total made vs = 0)) as [|Hne]; [done |]. exfalso.
    destruct (total_pos made vs) as (j & u & Hj & Hu); [lia |].
    destruct (only_inside vs i InsideNone r u Hs Hi eq_refl ltac:(by eapply list_elem_of_lookup_2)) as [->| ->]; simpl in Hu; lia. }
  rewrite Hd, Hm in H2. unfold NewEngine. rewrite H2. exists InsideMade. split; [| exact Hk].
  eapply shared_step; [done | done | by left | simpl; lia | simpl; rewrite Hd, length_app; simpl; lia | by left | done].
Qed.

Lemma sharing_set {A} (k : unit -> proc (Ruby VM) A) Q :
  sharing_safe (k tt) Q Inside -> sharing_safe (Act (set_default 0) k) Q InsideMade.
Proof.
  intros Hk vs i r Hi Hs. pose proof Hs as (H1 & H2 & H3 & H4).
  assert (Hd : defaultEngine r = None) by (eapply H4; [by eapply list_elem_of_lookup_2 | by right]).
  exists Inside. split; [| exact Hk].
  eapply shared_step; [done | done | by left | simpl; lia | simpl; rewrite Hd; simpl; lia | by right | intros [?|?]; done].
Qed.

(** A goroutine gets the first engine, whatever the others do. *)
Lemma default_engine_safe (Q : nat -> sharing_view -> Prop) :
  Q 0 Outside -> sharing_safe p_DefaultEngine Q Outside.
Proof.
  intros HQ. unfold p_DefaultEngine. apply sharing_lock. apply sharing_get. intros r.
  destruct (defaultEngine r) as [d|].
  - intros ->. by apply sharing_unlock.
  - apply sharing_new, sharing_set. by apply sharing_unlock.
Qed.

(** Goroutines that ask for the engine and keep the answer. *)
Inductive asks : proc (Ruby VM) unit -> Prop :=
| asks_engine : asks (do! i := p_DefaultEngine in if Nat.eqb i 0 then Pure tt else act (panic "another engine")).

Lemma asks_start p vs r :
  asks p -> shared vs r ->
  exists v, wpp shared outside_waits p (fun _ v => v = Outside) v /\ shared (vs ++ [v]) r.
Proof.
  intros [] (H1 & H2 & H3 & H4). exists Outside. split.
  - apply wpp_bind. apply default_engine_safe. done.
  - split_and!; rewrite ?total_app; simpl; [lia | lia | done |]. intros v [Hv|Hv%list_elem_of_singleton]%elem_of_app; [by apply H4 |].
    subst. by intros [?|?].
Qed.

(** However many goroutines ask for the default engine at the same time, at most one
    virtual machine is made, all of them get that one, and none of them panics. *)
Theorem default_engine_shared ts r :
  pool_reaches asks ([], ruby_started) (ts, r) ->
  length (engines r) <= 1 /\
  forall i p why r', ts !! i = Some p -> step_thread p r <> Some (Panic why r').
Proof.
  intros Hr. assert (Hok : pool_ok shared outside_waits (fun v => v = Outside) (ts, r)).
  { eapply pool_reaches_ok; [| | exact Hr].
    - intros p vs r'. apply asks_start.
    - exists []. split; [constructor |]. split_and!; [done | done | by left |]. intros v Hv. by apply elem_of_nil in Hv. }
  split; [| intros; by eapply pool_ok_no_panic]. destruct Hok as (vs & _ & H1 & H2 & H3 & H4). simpl in *.
  destruct (defaultEngine r) as [d|] eqn:Hd; simpl in H2.
  - assert (total made vs = 0); [| lia]. destruct (decide (total made vs = 0)) as [|Hne]; [done |].
    destruct (total_pos made vs) as (j & u & Hj & Hu); [lia |].
    destruct u; simpl in Hu; try lia. specialize (H4 InsideMade ltac:(by eapply list_elem_of_lookup_2) (or_intror eq_refl)). done.
  - rewrite H2. assert (total made vs <= total inside vs).
    { clear. induction vs as [|[] vs IH]; simpl; lia. }
    destruct (defaultEngineSync r); lia.
Qed.
End sharing.

(** ** Loading a script *)

Section loading.
Context {VM Value Parser : Type} {lib : GoMruby VM Value Parser} {order : GoRange}.
Implicit Types (e : Engine VM) (r : Ruby VM).

Lemma erases_DefaultEngine : erases p_DefaultEngine DefaultEngine.
Proof.
  apply erases_bind; [apply erases_act | intros _]. apply erases_bind; [apply erases_act | intros r].
  apply erases_bind; [| intros i; apply erases_bind; [apply erases_act | by intros _]].
  destruct (defaultEngine r); [done |]. apply erases_bind; [apply erases_act | intros i].
  apply erases_bind; [apply erases_act | by intros _].
Qed.

(** The error and the machine after a script has been loaded. *)
Definition load_outcome (filename : result string) (contents : string) (vm : VM) : option error * VM :=
  match filename with
  | Err e => (Some e, vm)
  | Ok name =>
      match parser_Parse (name ++ ".rb") contents vm with
      | (Err e, vm) => (Some e, vm)
      | (Ok parser, vm) =>
          let '(parsed, vm) := GenerateCode parser vm in
          match vm_Run parsed vm with
          | (Err e, vm) => (Some e, vm)
          | (Ok _, vm) => (None, vm)
          end
      end
  end.

(** Loading a script runs it in the machine of the engine, and whether naming, parsing
    or running it fails, the lock of the engine is released and every context and parser
    that was opened is closed again. *)
Theorem LoadString_spec filename contents e :
  e_mu e = false ->
  let '(err, vm) := load_outcome filename contents (e_VM e) in
  Engine_LoadString filename contents e = Ret err (mkEngine vm false (e_open e)).
Proof.
  intros Hmu. destruct e as [vm m n]. simpl in Hmu. subst m.
  unfold load_outcome, Engine_LoadString, parse_and_run, on_engine_mu, zoom, lock, unlock, open_one, close_one,
    on_vm, modify, ret, bind. simpl. destruct filename as [name|e]; simpl; [| done].
  destruct (parser_Parse _ _ vm) as [[p|e] vm1]; simpl; [| done].
  destruct (GenerateCode p vm1) as [c vm2]; simpl. by destruct (vm_Run c vm2) as [[v|e] vm3].
Qed.

(** ** Printing *)

(** Without a value for an empty hash the printer would dereference nil. *)
Context (braces : VM -> Value * VM).
Context (braces_load : forall vm, vm_LoadString "{}" vm = (Ok (braces vm).1, (braces vm).2)).

Lemma set_entries_ok rhash entries e :
  each (set_entry rhash) entries e =
  Ret tt (mkEngine (foldl (fun vm kv => hash_Set rhash kv.1 (to_i64 kv.2) vm) (e_VM e) entries) (e_mu e) (e_open e)).
Proof. revert e. induction entries as [|kv entries IH]; intros e; simpl; [by destruct e |]. unfold bind. simpl. by rewrite IH. Qed.

(** What is logged for a snapshot: what the module of the script answers when it is called
    with a hash of the values. *)
Definition printed (md : Value) (snapshot : gmap string Z) (vm : VM) : ruby_log * VM :=
  let '(rhash, vm) := braces vm in
  let vm := foldl (fun vm kv => hash_Set rhash kv.1 (to_i64 kv.2) vm) vm (range snapshot) in
  match value_Call md "call" rhash vm with
  | (Err e, vm) => (LogError e, vm)
  | (Ok v, vm) => (LogInfo (value_String v vm), vm)
  end.

(** A printer whose script has been loaded logs, at every interval, what the script
    answers for the snapshot of the metrics or the error it raises; it does not panic and
    never makes the metrics goroutine fail. Values go to the script as signed 64 bit
    integers. *)
Theorem ruby_printer_prints file filename m path r e :
  engines r = [e] -> defaultEngine r = Some 0 -> defaultEngineSync r = false -> e_mu e = false ->
  exists err w, RubyPrinter_Run file filename (mkPrinter path None None, r) = Ret err w /\
    (err = None -> exists md e', mrbModule w.1 = Some md /\ engines w.2 = [e'] /\ e_mu e' = false /\
       exists w', RubyPrinter_Write m w = Ret ((printed md (IntervalSnapshot m) (e_VM e')).1, None) w').
Proof.
  destruct r as [es d s]. simpl. intros -> -> -> Hmu.
  assert (Hload : exists err vm, Engine_LoadFile file filename e = Ret err (mkEngine vm (e_mu e) (e_open e))).
  { destruct file as [contents|x]; [| exists (Some x), (e_VM e); by destruct e].
    pose proof (LoadString_spec filename contents e Hmu) as Hl. destruct (load_outcome _ _ _) as [err vm].
    exists err, vm. by rewrite Hmu. }
  destruct Hload as (err & vm & Hload). exists err.
  unfold RubyPrinter_Run, DefaultEngine, on_ruby, on_sync, zoom, lock, unlock, bind, get, ret, modify. simpl.
  unfold on_engine, zoom. simpl. rewrite Hload. simpl. destruct err as [x|]; [eexists; by split |].
  unfold on_vm. simpl. destruct (vm_Module "MetricsFormatter" vm) as [md vm'] eqn:Hmod. simpl.
  eexists. split; [reflexivity |]. intros _. exists md. eexists. simpl. split_and!; [done | done | done |].
  unfold RubyPrinter_Write, RubyPrinter_Print, on_ruby, on_engine, on_vm, zoom, bind, get, ret. simpl.
  rewrite braces_load. unfold printed. destruct (braces vm') as [rhash vm1]. simpl.
  rewrite set_entries_ok. simpl. destruct (value_Call _ _ _ _) as [[v|x] vm2]; simpl; by eexists.
Qed.
End loading.

(** ** A machine that remembers what it was given *)

(** Values are texts; a hash is the text of its entries, kept in the machine. *)
#[local] Instance toy_mruby : GoMruby string string string := {|
  NewMrb := EmptyString;
  vm_LoadString := fun code vm => (Ok code, EmptyString);
  parser_Parse := fun name code vm => (if String.eqb code "(" then Err (Errorf "syntax error") else Ok code, vm);
  GenerateCode := fun p vm => (p, vm);
  vm_Run := fun c vm => (if String.eqb c "raise" then Err (Errorf "raised") else Ok c, vm);
  vm_Module := fun name vm => (name, vm);
  hash_Set := fun h k z vm => (vm ++ k ++ "=" ++ Z_to_string z ++ ";")%string;
  value_Call := fun v name arg vm => (Ok vm, vm);
  value_String := fun v vm => v
|}.

Lemma LoadString_spec_witness :
  Engine_LoadString (Ok "x") "raise" (mkEngine EmptyString false 0) =
  Ret (Some (Errorf "raised")) (mkEngine (EmptyString : string) false 0).
Proof. exact (LoadString_spec (Ok "x") "raise" (mkEngine (EmptyString : string) false 0) eq_refl). Defined.

(** Two goroutines ask; the second one comes while the first one holds the lock. *)
Definition asker : proc (Ruby string) unit :=
  pbind p_DefaultEngine (fun i => if Nat.eqb i 0 then Pure tt else act (panic "another engine")).
Definition asked : option (list (proc (Ruby string) unit) * Ruby string) :=
  run_schedule [0; 0; 0; 0; 0; 1; 1; 1] [asker; asker] ruby_started.

Lemma asked_reached c : asked = Some c -> pool_reaches asks ([], ruby_started) c.
Proof.
  intros Hr. do 2 (eapply rtc_l; [apply (step_starts _ _ _ asker); constructor |]).
  exact (run_schedule_reaches asks _ [asker; asker] ruby_started c Hr).
Qed.

Lemma default_engine_shared_witness :
  exists ts r, asked = Some (ts, r) /\ length (engines r) <= 1.
Proof.
  destruct asked as [[ts r]|] eqn:Ha; [| vm_compute in Ha; discriminate Ha]. exists ts, r. split; [reflexivity |].
  exact (proj1 (default_engine_shared ts r (asked_reached _ Ha))).
Defined.

Definition toy_ruby : Ruby string := mkRuby [mkEngine EmptyString false 0] (Some 0) false.

Lemma ruby_printer_prints_witness :
  exists w w', RubyPrinter_Run (Ok "module MetricsFormatter") (Ok "x") (mkPrinter "p.rb" None None, toy_ruby) = Ret None w /\
    RubyPrinter_Write (H0 := canonical_order) NewMetrics w = Ret (LogInfo EmptyString, None) w'.
Proof.
  destruct (ruby_printer_prints (lib := toy_mruby) (order := canonical_order) (fun vm => ("{}", EmptyString)) (fun vm => eq_refl)
    (Ok "module MetricsFormatter") (Ok "x") NewMetrics "p.rb" toy_ruby (mkEngine EmptyString false 0)
    eq_refl eq_refl eq_refl eq_refl) as (err & w & Hrun & Hprint).
  vm_compute in Hrun. injection Hrun as <- <-. destruct (Hprint eq_refl) as (md & e' & Hmd & He & _ & w' & Hw).
  do 2 eexists. split; [reflexivity | exact Hw].
Defined.
