(* ===== verification/Gobench.v ===== *)
(** * The benchmark controller

    Package gobench ([src/gobench/gobench.go]): a controller that answers without a
    remote side, as the channel of the benchmark application would. Its state is the
    number of identifiers drawn; the generator of identifiers is a parameter. *)

From Stdlib Require Import ZArith Lia Ascii String.
From stdpp Require Import base strings list gmap.
From S2P Require Import Prelude Json Common Metrics Encoders World Session Hub Node NodeSafe.

Local Open Scope string_scope.

Definition gobench_metricsCalls : string := "gochannels_call_total".

(** Text with its single quotes turned into double quotes. *)
Fixpoint dquotes (s : string) : string :=
  match s with
  | EmptyString => EmptyString
  | String c s => String (if Ascii.eqb c "'" then "034"%char else c) (dquotes s)
  end.

Definition gobench_identifier : string := dquotes "{'channel':'BenchmarkChannel'}".
Definition welcomeMessage : string := dquotes "{'type':'welcome'}".
Definition confirmationMessage : string :=
  dquotes "{'type':'confirm_subscription','identifier':'{\'channel\':\'BenchmarkChannel\'}'}".

(** [Identifiers], marshalled. *)
Definition Identifiers_document (id : string) : json := JObj [("id", JStr id)].

Section gobench.
Context (nanoid : nat -> result string).

Abbreviation GB := (M (Metrics * nat)).

(** [NewController] registers the counter. *)
Definition gobench_NewController (m : Metrics) : Metrics * nat :=
  (RegisterCounter gobench_metricsCalls "The total number of Go channels calls" m, 0%nat).

Definition gobench_Start : GB (option error) := ret None.
Definition gobench_Shutdown : GB (option error) := ret None.

Definition count_call : GB unit := zoom fst (fun m st => (m, st.2)) (counter_inc gobench_metricsCalls).

(** [nanoid.Nanoid()] *)
Definition draw : GB (result string) := fun st => Ret (nanoid st.2) (st.1, S st.2).

Definition gobench_Authenticate (sid : string) (env : SessionEnv)
    : GB (option ConnectResult * option error) :=
  count_call ;;
  let! r := draw in
  match r with
  | Err e => ret (None, Some e)
  | Ok id =>
      ret (Some {| con_Identifier := marshal (Identifiers_document id);
                   con_Transmissions := [welcomeMessage];
                   con_Broadcasts := [];
                   con_CState := None;
                   con_IState := None;
                   con_Status := 0 |}, None)
  end.

Definition command_result (stop_all : bool) (streams transmissions : list string)
    (broadcasts : list StreamMessage) : CommandResult :=
  mkCommandResult stop_all false streams [] transmissions broadcasts None None 0.

Definition gobench_Subscribe (sid : string) (env : SessionEnv) (id channel : string)
    : GB (option CommandResult * option error) :=
  count_call ;;
  ret (Some (command_result false ["all"] [confirmationMessage] []), None).

Definition gobench_Unsubscribe (sid : string) (env : SessionEnv) (id channel : string)
    : GB (option CommandResult * option error) :=
  count_call ;;
  ret (Some (command_result true [] [] []), None).

(** [json.Unmarshal(data, &payload)] into a map: its members in the order of their keys;
    the document null leaves the map nil. *)
Definition decode_payload (data : string) : option (list (string * json)) :=
  match scan data with
  | Some JNull => Some []
  | Some (JObj ms) =>
      if has_bad_number (JObj ms) then None
      else match to_interface (JObj ms) with JObj payload => Some payload | _ => None end
  | _ => None
  end.

Definition member (k : string) (payload : list (string * json)) : option json :=
  match find (fun kv => String.eqb kv.1 k) payload with
  | Some kv => Some kv.2
  | None => None
  end.

(** The map of the answers, marshalled with its keys in order. *)
Definition gobench_response (payload : list (string * json)) : string :=
  marshal (JObj [("identifier", JStr gobench_identifier); ("message", JObj payload)]).

Definition gobench_Perform (sid : string) (env : SessionEnv) (id channel data : string)
    : GB (option CommandResult * option error) :=
  count_call ;;
  match decode_payload data with
  | None => ret (None, Some (Errorf "json: cannot unmarshal"))
  | Some payload =>
      match member "action" payload with
      | Some (JStr action) =>
          if String.eqb action "echo" then
            ret (Some (command_result false [] [gobench_response payload] []), None)
          else if String.eqb action "broadcast" then
            let broadcastMsg := marshal (JObj payload) in
            let payload := insert_member "action" (JStr "broadcastResult") payload in
            ret (Some (command_result false [] [gobench_response payload]
                         [mkStreamMessage "all" broadcastMsg]), None)
          else ret (Some (command_result false [] [] []), None)
      | _ => panic "interface conversion: interface {} is not string"
      end
  end.

Definition gobench_Disconnect (sid : string) (env : SessionEnv) (id : string) (subscriptions : list string)
    : GB (option error) :=
  count_call ;;
  ret None.
End gobench.

#[export] Instance gobench_controller (nanoid : nat -> result string) : Controller nat := {|
  ctl_Authenticate := gobench_Authenticate nanoid;
  ctl_Subscribe := gobench_Subscribe;
  ctl_Unsubscribe := gobench_Unsubscribe;
  ctl_Perform := gobench_Perform;
  ctl_Disconnect := gobench_Disconnect;
  ctl_Shutdown := gobench_Shutdown
|}.

(** ** Properties *)

Definition gobench_fit (m : Metrics) : Prop := is_Some (counters m !! gobench_metricsCalls).

Lemma count_call_ok (st : Metrics * nat) :
  gobench_fit st.1 -> exists m, count_call st = Ret tt (m, st.2) /\ grows st.1 m /\ gobench_fit m.
Proof.
  intros [c Hc]. unfold count_call, zoom, counter_inc, on_counter. rewrite Hc.
  eexists. split; [reflexivity |]. unfold gobench_fit, grows. simpl.
  split; [| by rewrite lookup_insert_eq].
  split; [| done]. intros n [x Hn]. rewrite lookup_insert. case_decide; eauto.
Qed.

Lemma gobench_fit_new m : gobench_fit (gobench_NewController m).1.
Proof. unfold gobench_fit. simpl. by rewrite lookup_insert_eq. Qed.

(** A payload without an action that is a string. *)
Definition no_action (data : string) : Prop :=
  exists payload, decode_payload data = Some payload /\ forall a, member "action" payload <> Some (JStr a).

(** Every call other than Perform is answered, whatever its arguments; Perform is
    answered too unless the payload decodes to a map whose action is missing or is not a
    string, and then it panics. The panic is in the goroutine of the session, so that one
    message of a client stops the server. *)
Theorem gobench_answers nanoid st sid env id channel data subs :
  gobench_fit st.1 ->
  safe (gobench_Authenticate nanoid sid env) (fun r _ => answered r) st /\
  safe (gobench_Subscribe sid env id channel) (fun r _ => answered r) st /\
  safe (gobench_Unsubscribe sid env id channel) (fun r _ => answered r) st /\
  safe (gobench_Disconnect sid env id subs) (fun _ _ => True) st /\
  (no_action data -> exists why st', gobench_Perform sid env id channel data st = Panic why st') /\
  (~ no_action data -> safe (gobench_Perform sid env id channel data) (fun r _ => answered r) st).
Proof.
  intros Hfit. destruct (count_call_ok st Hfit) as (m & Hcount & _).
  unfold gobench_Authenticate, gobench_Subscribe, gobench_Unsubscribe, gobench_Disconnect.
  split; [| split; [| split; [| split]]];
    try (eapply safe_step; [exact Hcount |]; unfold safe, bind, draw, ret, answered; simpl; eauto).
  { destruct (nanoid st.2); simpl; eauto; discriminate. }
  unfold gobench_Perform, no_action. destruct (decode_payload data) as [payload|].
  2: { split; [by intros (? & ? & _) |]. intros _. eapply safe_step; [exact Hcount |]. by unfold safe, answered. }
  destruct (member "action" payload) as [[| | |a| |]|] eqn:Ha.
  4: { split; [by intros (p & [= <-] & Hp); destruct (Hp a) |]. intros _. eapply safe_step; [exact Hcount |].
       unfold safe, answered. destruct (String.eqb a "echo"); [by simpl; eauto |].
       destruct (String.eqb a "broadcast"); by simpl; eauto. }
  all: split; [intros _; unfold bind; rewrite Hcount; by do 2 eexists
              | intros Hno; destruct Hno; exists payload; split; [done |]; rewrite Ha; discriminate].
Qed.

Lemma gobench_answers_witness :
  let st := gobench_NewController NewMetrics in
  exists why st', gobench_Perform "sid" (NewSessionEnv "/cable" None) "id" "channel" "{}" st = Panic why st'.
Proof.
  intros st.
  destruct (gobench_answers (fun _ => Ok "id1") st "sid" (NewSessionEnv "/cable" None) "id" "channel" "{}" []
              (gobench_fit_new NewMetrics)) as (_ & _ & _ & _ & Hpanic & _).
  apply Hpanic. exists []. split; [vm_compute; reflexivity | discriminate].
Defined.
