(* ===== verification/Options.v ===== *)
(** * Command-line options and configuration

    The configuration of the program ([src/config/config.go], [src/rpc/config.go]) and
    how it is read from flags and environment ([src/cli/options.go]). Reading the command
    line is the flag library's: it is a parameter that gives a value to some of the
    flags. *)

From Stdlib Require Import ZArith Lia Ascii String.
From stdpp Require Import base strings list gmap.
From S2P Require Import Prelude Json Common Net Metrics World NodeShutdown Server Ws PubSub.

Local Open Scope string_scope.

(** ** The configuration *)

(** Of package rpc; the alternative dialer is nil. *)
Record RPCConfig : Type := mkRPCConfig {
  rpc_Host : string;
  rpc_Concurrency : Z;
  rpc_EnableTLS : bool;
  rpc_MaxRecvSize : Z;
  rpc_MaxSendSize : Z
}.

Definition NewRPCConfig : RPCConfig := mkRPCConfig EmptyString 28 false 0 0.

Record AppConfig : Type := mkAppConfig {
  cfg_App : NodeConfig;
  cfg_RPC : RPCConfig;
  cfg_Redis : RedisConfig;
  cfg_HTTPPubSub : HTTPConfig;
  cfg_Host : string;
  cfg_Port : Z;
  cfg_MaxConn : Z;
  cfg_BroadcastAdapter : string;
  cfg_Path : string;
  cfg_HealthPath : string;
  cfg_Headers : list string;
  cfg_SSL : SSLConfig;
  cfg_WS : WSConfig;
  cfg_MaxMessageSize : Z;
  cfg_DisconnectorDisabled : bool;
  cfg_DisconnectQueue : DisconnectQueueConfig;
  cfg_LogLevel : string;
  cfg_LogFormat : string;
  cfg_Metrics : Metrics.Config
}.

(** [config.New()] *)
Definition config_New : AppConfig :=
  mkAppConfig NewNodeConfig NewRPCConfig NewRedisConfig NewHTTPConfig EmptyString 0 0 EmptyString
    EmptyString EmptyString [] NewSSLConfig NewWSConfig 0 false NewDisconnectQueueConfig
    EmptyString EmptyString Metrics.NewConfig.

(** ** Flags *)

Inductive flag_value : Type :=
| FString (s : string)
| FInt (z : Z)
| FBool (b : bool).

(** The defaults that the environment gives: [PORT] and [REDIS_URL]. *)
Definition port_default (port : string) : Z :=
  if String.eqb port EmptyString then 8080
  else match Atoi port with Some i => i | None => 8080 end.

Definition redis_default (redis : string) : string :=
  if String.eqb redis EmptyString then "redis://localhost:6379/5" else redis.

(** The flags that [init] registers, with their defaults. *)
Definition flags (portDefault : Z) (redisDefault : string) : list (string * flag_value) :=
  [
   ("host", FString "localhost");
   ("port", FInt portDefault);
   ("max-conn", FInt 0);
   ("path", FString "/cable");
   ("health-path", FString "/health");
   ("ssl_cert", FString EmptyString);
   ("ssl_key", FString EmptyString);
   ("broadcast_adapter", FString "redis");
   ("redis_url", FString redisDefault);
   ("redis_channel", FString "__anycable__");
   ("redis_sentinels", FString EmptyString);
   ("redis_sentinel_discovery_interval", FInt 30);
   ("redis_keepalive_interval", FInt 30);
   ("http_broadcast_port", FInt 8090);
   ("http_broadcast_path", FString "/_broadcast");
   ("http_broadcast_secret", FString EmptyString);
   ("rpc_host", FString "localhost:50051");
   ("rpc_concurrency", FInt 28);
   ("rpc_enable_tls", FBool false);
   ("rpc_max_call_recv_size", FInt 0);
   ("rpc_max_call_send_size", FInt 0);
   ("headers", FString "cookie");
   ("read_buffer_size", FInt 1024);
   ("write_buffer_size", FInt 1024);
   ("max_message_size", FInt 65536);
   ("enable_ws_compression", FBool false);
   ("allowed_origins", FString EmptyString);
   ("disconnect_rate", FInt 100);
   ("disconnect_timeout", FInt 5);
   ("disable_disconnect", FBool false);
   ("log_level", FString "info");
   ("log_format", FString "text");
   ("debug", FBool false);
   ("metrics_log", FBool false);
   ("metrics_rotate_interval", FInt 0);
   ("metrics_log_interval", FInt (-1));
   ("metrics_log_formatter", FString EmptyString);
   ("metrics_http", FString EmptyString);
   ("metrics_host", FString EmptyString);
   ("metrics_port", FInt 0);
   ("ping_interval", FInt 3);
   ("ping_timestamp_precision", FString "s");
   ("stats_refresh_interval", FInt 5);
   ("hub_gopool_size", FInt 16);
   ("h", FBool false);
   ("v", FBool false)
  ].

(** The values of the variables: what was assigned, or the default. *)
Abbreviation values := (gmap string flag_value).

Definition str (v : values) (name : string) : string :=
  match v !! name with Some (FString s) => s | _ => EmptyString end.
Definition int (v : values) (name : string) : Z :=
  match v !! name with Some (FInt z) => z | _ => 0%Z end.
Definition flag (v : values) (name : string) : bool :=
  match v !! name with Some (FBool b) => b | _ => false end.

(** The variables of package cli. *)
Record Options : Type := mkOptions {
  defaults : AppConfig;
  headers : string;
  showVersion : bool;
  showHelp : bool;
  debugMode : bool
}.

(** Every flag is bound to one variable. *)
Definition bind_flags (v : values) : Options :=
  mkOptions
    (mkAppConfig
       (mkNodeConfig (int v "ping_interval") (int v "stats_refresh_interval") (int v "hub_gopool_size")
          (str v "ping_timestamp_precision"))
       (mkRPCConfig (str v "rpc_host") (int v "rpc_concurrency") (flag v "rpc_enable_tls")
          (int v "rpc_max_call_recv_size") (int v "rpc_max_call_send_size"))
       (mkRedisConfig (str v "redis_url") (str v "redis_channel") (str v "redis_sentinels")
          (int v "redis_sentinel_discovery_interval") (int v "redis_keepalive_interval"))
       (mkHTTPConfig (int v "http_broadcast_port") (str v "http_broadcast_path") (str v "http_broadcast_secret"))
       (str v "host") (int v "port") (int v "max-conn") (str v "broadcast_adapter") (str v "path")
       (str v "health-path") (cfg_Headers config_New)
       (mkSSLConfig (str v "ssl_cert") (str v "ssl_key"))
       (mkWSConfig (int v "read_buffer_size") (int v "write_buffer_size") (int v "max_message_size")
          (flag v "enable_ws_compression") (str v "allowed_origins"))
       (cfg_MaxMessageSize config_New) (flag v "disable_disconnect")
       (mkDQConfig (int v "disconnect_rate") (int v "disconnect_timeout"))
       (str v "log_level") (str v "log_format")
       (mkConfig (flag v "metrics_log") (int v "metrics_log_interval") (int v "metrics_rotate_interval")
          (str v "metrics_log_formatter") (str v "metrics_http") (str v "metrics_host") (int v "metrics_port")))
    (str v "headers") (flag v "v") (flag v "h") (flag v "debug").

(** ** Reading the configuration *)

Definition parseHeaders (s : string) : list string := ToLower <$> Split "," s.

Definition resolve_metrics (port : Z) (m : Metrics.Config) : Metrics.Config :=
  let p := if (Metrics.Port m =? 0)%Z then port else Metrics.Port m in
  let rotate :=
    if (0 <? LogInterval m)%Z && (RotateInterval m =? 0)%Z then LogInterval m else RotateInterval m in
  mkConfig (Log m) (LogInterval m) rotate (LogFormatter m) (HTTP m) (Metrics.Host m) p.

Definition prepareComplexDefaults (o : Options) : Options :=
  let d := defaults o in
  mkOptions
    (mkAppConfig (cfg_App d) (cfg_RPC d) (cfg_Redis d) (cfg_HTTPPubSub d) (cfg_Host d) (cfg_Port d)
       (cfg_MaxConn d) (cfg_BroadcastAdapter d) (cfg_Path d) (cfg_HealthPath d) (parseHeaders (headers o))
       (cfg_SSL d) (cfg_WS d) (cfg_MaxMessageSize d) (cfg_DisconnectorDisabled d) (cfg_DisconnectQueue d)
       (if debugMode o then "debug" else cfg_LogLevel d)
       (if debugMode o then "text" else cfg_LogFormat d)
       (resolve_metrics (cfg_Port d) (cfg_Metrics d)))
    (headers o) (showVersion o) (showHelp o) (debugMode o).

(** [init] and [Config], for the environment variables [PORT] and [REDIS_URL] and what
    the flag library makes of the arguments; the configuration or an error. *)
Definition table (port redis : string) : values :=
  list_to_map (flags (port_default port) (redis_default redis)).

Definition Config (fs_Parse : values -> list string -> result values) (port redis : string)
    (args : list string) : result Options :=
  match fs_Parse (table port redis) args with
  | Err e => Err e
  | Ok assigned => Ok (prepareComplexDefaults (bind_flags (assigned ∪ table port redis)))
  end.

(** ** The help screen *)

(** The options that the help screen lists, with the default it gives, as the value of
    a flag is printed; [None] where it gives none. *)
Definition usage : list (string * option string) :=
  [
   ("host", Some "localhost");
   ("port", Some "8080");
   ("max-conn", Some "0");
   ("path", Some "/cable");
   ("health-path", Some "/health");
   ("ssl_cert", None);
   ("ssl_key", None);
   ("broadcast_adapter", Some "redis");
   ("redis_url", Some "redis://localhost:6379/5");
   ("redis_channel", Some "__anycable__");
   ("redis_sentinels", None);
   ("redis_sentinel_discovery_interval", Some "30");
   ("redis_keeepalive_interval", Some "30");
   ("http_broadcast_port", Some "8090");
   ("http_broadcast_path", Some "/_broadcast");
   ("http_broadcast_secret", Some EmptyString);
   ("rpc_host", Some "localhost:50051");
   ("rpc_concurrency", Some "28");
   ("rpc_enable_tls", Some "false");
   ("rpc_max_call_recv_size", None);
   ("rpc_max_call_send_size", None);
   ("headers", Some "cookie");
   ("disconnect_rate", Some "100");
   ("disconnect_timeout", Some "5");
   ("disable_disconnect", Some "false");
   ("log_level", Some "info");
   ("log_format", Some "text");
   ("debug", Some "false");
   ("metrics_log", Some "false");
   ("metrics_rotate_interval", Some "15");
   ("metrics_log_interval", Some "15");
   ("metrics_log_formatter", Some EmptyString);
   ("metrics_http", Some EmptyString);
   ("metrics_host", None);
   ("metrics_port", None);
   ("read_buffer_size", Some "1024");
   ("write_buffer_size", Some "1024");
   ("max_message_size", Some "65536");
   ("enable_ws_compression", Some "false");
   ("hub_gopool_size", Some "16");
   ("allowed_origins", Some EmptyString);
   ("ping_interval", Some "3");
   ("ping_timestamp_precision", Some "s");
   ("stats_refresh_interval", Some "5")
  ].

(** How a default is printed. *)
Definition show_value (v : flag_value) : string :=
  match v with
  | FString s => s
  | FInt z => Z_to_string z
  | FBool true => "true"
  | FBool false => "false"
  end.

(** The options of the help screen that are not flags, and those whose default is not
    the one given there. *)
Definition unknown_options (t : values) : list string :=
  (List.filter (fun u => match t !! u.1 with None => true | Some _ => false end) usage).*1.

Definition wrong_defaults (t : values) : list string :=
  (List.filter (fun u => match t !! u.1, u.2 with
                         | Some v, Some d => negb (String.eqb (show_value v) d)
                         | _, _ => false
                         end) usage).*1.

(** ** Headers *)

Lemma Split_nonempty c s : Split c s <> [].
Proof. destruct s as [|d s]; simpl; [done |]. destruct (Ascii.eqb d c); [done |]. by destruct (Split c s). Qed.

Lemma Join_cons sep p ps : ps <> [] -> Join sep (p :: ps) = p ++ sep ++ Join sep ps.
Proof. by destruct ps. Qed.

Lemma Join_Split c s : Join (str1 c) (Split c s) = s.
Proof.
  induction s as [|d s IH]; [done |]. simpl. pose proof (Split_nonempty c s) as Hne.
  destruct (Ascii.eqb_spec d c) as [->|Hd].
  - rewrite Join_cons, IH by done. done.
  - destruct (Split c s) as [|p ps]; [done |]. rewrite <- IH.
    destruct ps as [|p' ps]; [done |]. by rewrite !Join_cons by done.
Qed.

Lemma Split_no_sep c s : Forall (fun p => has_byte c p = false) (Split c s).
Proof.
  induction s as [|d s IH]; simpl; [by constructor |].
  destruct (Ascii.eqb d c) eqn:E; [by constructor |].
  destruct (Split c s) as [|p ps]; [by constructor; [simpl; rewrite E |] |].
  apply Forall_cons in IH as [Hp Hps]. constructor; [| done]. simpl. by rewrite E.
Qed.

Lemma lower_comma : forall c, Ascii.eqb (lower_ascii c) "," = Ascii.eqb c ",".
Proof. each_byte. Qed.

Lemma lower_idem : forall c, lower_ascii (lower_ascii c) = lower_ascii c.
Proof. each_byte. Qed.

Lemma Split_lower s : ToLower <$> Split "," s = Split "," (ToLower s).
Proof.
  induction s as [|d s IH]; [done |]. simpl. rewrite lower_comma, <- IH.
  destruct (Ascii.eqb d ","); [done |]. by destruct (Split "," s).
Qed.

(** ** Types of the variables *)

Definition same_type (v d : flag_value) : bool :=
  match v, d with
  | FString _, FString _ | FInt _, FInt _ | FBool _, FBool _ => true
  | _, _ => false
  end.

(** What the flag library assigns: values of the registered flags, of their types. *)
Definition well_typed (t assigned : values) : Prop :=
  forall n v, assigned !! n = Some v -> exists d, t !! n = Some d /\ same_type v d = true.

(** The variable of a flag holds a value of the flag's type. *)
Definition typed_variable (vs : values) (n : string) (d : flag_value) : Prop :=
  match d with
  | FString _ => vs !! n = Some (FString (str vs n))
  | FInt _ => vs !! n = Some (FInt (int vs n))
  | FBool _ => vs !! n = Some (FBool (flag vs n))
  end.

Lemma flags_names port redis : NoDup (flags port redis).*1.
Proof. apply (bool_decide_eq_true_1 _). vm_compute. reflexivity. Qed.

Lemma table_lookup port redis n d :
  (n, d) ∈ flags (port_default port) (redis_default redis) -> table port redis !! n = Some d.
Proof. intros Hin. apply elem_of_list_to_map; [apply flags_names | done]. Qed.

Lemma typed_lookup (vs : values) n v d : vs !! n = Some v -> same_type v d = true -> typed_variable vs n d.
Proof.
  intros Hv Ht. unfold typed_variable, str, int, flag. destruct v, d; try done; by rewrite Hv.
Qed.


(** ** What the configuration settles *)

(** The list of headers is the option's text split at its commas, in lower case; debug
    mode means debug logging as text; the metrics have the port of the main server
    unless they have their own; the deprecated interval counts only without a new one. *)
Theorem Config_resolves fs_Parse port redis args o :
  Config fs_Parse port redis args = Ok o ->
  let c := defaults o in
  Join "," (cfg_Headers c) = ToLower (headers o) /\
  Forall (fun h => has_byte "," h = false) (cfg_Headers c) /\
  (debugMode o = true -> cfg_LogLevel c = "debug" /\ cfg_LogFormat c = "text") /\
  (Metrics.Port (cfg_Metrics c) = 0%Z -> cfg_Port c = 0%Z) /\
  ((0 < LogInterval (cfg_Metrics c))%Z -> (RotateInterval (cfg_Metrics c) <> 0)%Z).
Proof.
  unfold Config. destruct (fs_Parse _ args) as [assigned|e]; [| done]. intros [= <-].
  generalize (bind_flags (assigned ∪ table port redis)) as o. clear. intros o. simpl.
  unfold parseHeaders. rewrite Split_lower. split; [apply (Join_Split ",") |].
  split; [apply Split_no_sep |]. split; [by intros -> |]. unfold resolve_metrics; simpl.
  destruct (Metrics.Port (cfg_Metrics (defaults o)) =? 0)%Z eqn:E; apply Z.eqb_eq in E || apply Z.eqb_neq in E.
  all: split; [done |]; intros HL; rewrite (proj2 (Z.ltb_lt _ _) HL); simpl;
    destruct (RotateInterval (cfg_Metrics (defaults o)) =? 0)%Z eqn:E2;
    apply Z.eqb_eq in E2 || apply Z.eqb_neq in E2; lia.
Qed.

(** The help screen lists the flags with their defaults, except that one of them is
    misspelt and that the intervals of the metrics are those in effect, not those of the
    flags. *)
Theorem usage_against_flags :
  unknown_options (table EmptyString EmptyString) = ["redis_keeepalive_interval"] /\
  wrong_defaults (table EmptyString EmptyString) = ["metrics_rotate_interval"; "metrics_log_interval"] /\
  str (table EmptyString EmptyString) "redis_keepalive_interval" = EmptyString /\
  int (table EmptyString EmptyString) "redis_keepalive_interval" = 30%Z.
Proof. vm_compute. repeat split. Qed.

(** ** Concrete options *)

(** A command line that sets the port and nothing else. *)
Definition parse_port (t : values) (args : list string) : result values :=
  match args with
  | [String "-" (String "p" s)] => Ok {[ "port" := FInt 3334 ]}
  | _ => Ok ∅
  end.


Lemma Config_resolves_witness :
  exists o, Config parse_port EmptyString EmptyString ["-p"] = Ok o /\ cfg_Port (defaults o) = 3334%Z /\
    Join "," (cfg_Headers (defaults o)) = "cookie".
Proof.
  destruct (Config parse_port EmptyString EmptyString ["-p"]) as [o|e] eqn:Hc; [| discriminate].
  exists o. split; [reflexivity |].
  destruct (Config_resolves parse_port EmptyString EmptyString ["-p"] o Hc) as (Hj & _).
  vm_compute in Hc. injection Hc as <-. split; [reflexivity | exact Hj].
Defined.
