(* ===== verification/Dialer.v ===== *)
(** * Starting the RPC controller

    How [src/rpc/rpc.go] dials the application: the options of the default dialer, the
    metadata of a call, and that [Start] makes the controller one that serves calls.
    Dialling itself belongs to the gRPC library: it is a parameter. *)

From Stdlib Require Import ZArith Lia Ascii String.
From stdpp Require Import base gmap strings list fin_maps.
From S2P Require Import Prelude Json Common Protocol Metrics Rpc RpcProps Options.

Local Open Scope string_scope.

(** ** The default dialer *)

Inductive CallOption : Type :=
| MaxCallRecvMsgSize (bytes : Z)
| MaxCallSendMsgSize (bytes : Z).

(** [WithKeepaliveParams] with the time in seconds, [WithTransportCredentials] with the
    two fields of the TLS configuration that are set. *)
Inductive DialOption : Type :=
| WithKeepaliveParams (time : Z) (permitWithoutStream : bool)
| WithBalancerName (name : string)
| WithTransportCredentials (insecureSkipVerify : bool) (minVersion : Z)
| WithInsecure
| WithDefaultCallOptions (opts : list CallOption).

Definition VersionTLS12 : Z := 771.

Definition call_options (conf : RPCConfig) : list CallOption :=
  (if (rpc_MaxRecvSize conf =? 0)%Z then [] else [MaxCallRecvMsgSize (rpc_MaxRecvSize conf)]) ++
  (if (rpc_MaxSendSize conf =? 0)%Z then [] else [MaxCallSendMsgSize (rpc_MaxSendSize conf)]).

Definition dial_options (conf : RPCConfig) : list DialOption :=
  [WithKeepaliveParams 10 true; WithBalancerName "round_robin"] ++
  (if rpc_EnableTLS conf then [WithTransportCredentials false VersionTLS12] else [WithInsecure]) ++
  match call_options conf with
  | [] => []
  | opts => [WithDefaultCallOptions opts]
  end.

Definition defaultDialer {R} (grpc_Dial : string -> list DialOption -> R -> option error * R)
    (conf : RPCConfig) : R -> option error * R :=
  grpc_Dial (rpc_Host conf) (dial_options conf).

(** The metadata sent along with every call. *)
Definition newContext (sessionID : string) : list (string * string) :=
  [("sid", sessionID); ("protov", ProtoVersions)].

(** ** Starting *)

Section starting.
Context {R : Type} `{Remote R}.
Context (grpc_Dial : string -> list DialOption -> R -> option error * R).
Implicit Types (c : RpcController R) (m : Metrics).

Lemma fill_semaphore n k (l : list nat) c :
  rc_sem c = Some (mkChan (replicate k tt) (n + k) false) -> length l = n ->
  each (fun _ => on_sem (chan_send tt)) l c = Ret tt (set_sem (Some (mkChan (replicate (n + k) tt) (n + k) false)) c).
Proof.
  revert k l c. induction n as [|n IH]; intros k l c Hs Hl; (destruct l as [|x l]; [| try done]); try done.
  - destruct c. simpl in *. by subst.
  - assert (Hsend : on_sem (chan_send tt) c = Ret tt (set_sem (Some (mkChan (replicate (S k) tt) (S n + k) false)) c)).
    { unfold on_sem, zoom. rewrite Hs. unfold chan_send, chan_full. cbn [ch_closed].
      rewrite bool_decide_false by (simpl; rewrite length_replicate; lia).
      unfold chan_push. simpl ch_buf. by rewrite <- replicate_cons_app. }
    cbn [each]. erewrite bind_ret_eq by exact Hsend. injection Hl as Hl.
    erewrite (IH (S k)) by (done || (simpl; by rewrite Nat.add_succ_r)).
    simpl. by rewrite Nat.add_succ_r.
Qed.

Lemma initSemaphore_ok capacity c :
  (0 <= capacity)%Z ->
  initSemaphore capacity c =
    Ret tt (set_sem (Some (mkChan (replicate (Z.to_nat capacity) tt) (Z.to_nat capacity) false)) c).
Proof.
  intros Hc. unfold initSemaphore. rewrite (proj2 (Z.ltb_ge _ _) Hc). erewrite bind_ret_eq by reflexivity.
  rewrite (fill_semaphore (Z.to_nat capacity) 0); [by rewrite Nat.add_0_r | | by rewrite length_seq].
  by rewrite Nat.add_0_r.
Qed.

Lemma gauge_moves f name m c g :
  gauges m !! name = Some g ->
  on_rpc_metrics (R := R) (on_gauge f name) (m, c) = Ret tt (mkMetrics (counters m) (<[name := f g]> (gauges m)), c).
Proof. intros Hg. unfold on_rpc_metrics, zoom, on_gauge. simpl. by rewrite Hg. Qed.

Lemma counter_moves f name m c x :
  counters m !! name = Some x ->
  on_rpc_metrics (R := R) (on_counter f name) (m, c) = Ret tt (mkMetrics (<[name := f x]> (counters m)) (gauges m), c).
Proof. intros Hx. unfold on_rpc_metrics, zoom, on_counter. simpl. by rewrite Hx. Qed.

(** A controller that is started with the default dialer serves calls when the dial
    succeeds: it is ready, with as many tickets as the configuration allows calls at a
    time, and none is taken. When the dial fails its error is returned, and the controller
    is left with tickets but without a client: the first call that takes one panics. *)
Theorem controller_starts conf remote m sid env :
  (0 < rpc_Concurrency conf)%Z -> is_Some (Headers env) ->
  let st := NewController (rpc_Concurrency conf) remote m in
  exists c', rpc_Start (defaultDialer grpc_Dial conf) st.2 =
      Ret (defaultDialer grpc_Dial conf remote).1 c' /\
    rc_remote c' = (defaultDialer grpc_Dial conf remote).2 /\ busy c' = 0%Z /\
    ((defaultDialer grpc_Dial conf remote).1 = None ->
       rpc_ready st.1 c' (Z.to_nat (rpc_Concurrency conf) - 1)) /\
    ((defaultDialer grpc_Dial conf remote).1 <> None ->
       exists why st', rpc_Authenticate sid env (st.1, c') = Panic why st').
Proof.
  intros Hpos [hs Hh] st. unfold rpc_Start.
  destruct (defaultDialer grpc_Dial conf remote) as [err r] eqn:Hd.
  erewrite bind_ret_eq by (unfold call, st; simpl; rewrite Hd; reflexivity).
  erewrite bind_ret_eq by reflexivity.
  erewrite bind_ret_eq by (apply initSemaphore_ok; simpl; lia).
  erewrite bind_ret_eq by reflexivity. eexists. split; [reflexivity |]. simpl. split; [done |].
  split; [unfold busy; simpl; rewrite length_replicate; lia |]. split.
  - intros ->. split; simpl; try (rewrite !lookup_insert; by eauto).
    + by exists false.
    + exists (NewGauge metricsRPCPending "The number of pending RPC calls").
      by rewrite lookup_insert_eq.
    + exists (Z.to_nat (rpc_Concurrency conf)).
      destruct (Z.to_nat (rpc_Concurrency conf)) as [|n] eqn:Hn; [lia |]. simpl. rewrite Nat.sub_0_r.
      split; [done | lia].
  - destruct err as [e|]; [| done]. intros _. destruct (Z.to_nat (rpc_Concurrency conf)) as [|n] eqn:Hn; [lia |].
    unfold rpc_Authenticate, with_ticket.
    erewrite bind_ret_eq by (apply gauge_moves; simpl; rewrite lookup_insert_eq; reflexivity).
    erewrite bind_ret_eq by reflexivity.
    erewrite bind_ret_eq by (apply gauge_moves; simpl; rewrite lookup_insert_eq; reflexivity).
    unfold bind at 1. erewrite bind_ret_eq by (apply counter_moves; simpl; rewrite !lookup_insert; reflexivity).
    by do 2 eexists.
Qed.
End starting.

(** ** A concrete start *)

Definition accepting (host : string) (opts : list DialOption) (n : nat) : option error * nat := (None, n).

Lemma controller_starts_witness :
  exists c', @rpc_Start nat (defaultDialer accepting NewRPCConfig) (NewController 28 0 NewMetrics).2 = Ret None c' /\
    @rpc_ready nat (NewController 28 0 NewMetrics).1 c' 27.
Proof.
  destruct (@controller_starts nat flaky_server accepting NewRPCConfig 0 NewMetrics "sid" sample_env0)
    as (c' & Hrun & _ & _ & Hok & _).
  - simpl. lia.
  - by eexists.
  - exists c'. split; [exact Hrun | exact (Hok eq_refl)].
Defined.
