(* ===== verification/RpcRace.v ===== *)
(** * RPC calls under concurrency

    The calls of [src/rpc/rpc.go] are made by many goroutines at once: one per session, the
    disconnect queue, and the goroutine that shuts the process down. Here they are sequences
    of atomic actions (one operation on the semaphore, on a metric, on the lock of the client
    helper, on the connection), a request is under way between the action that sends it and
    the action that brings its answer, and the theorems hold for every interleaving of any
    number of calls. *)

From Stdlib Require Import ZArith Lia Ascii String.
From stdpp Require Import base gmap strings list fin_maps.
From S2P Require Import Prelude Threads Json Common Protocol Metrics Rpc RpcProps Options Dialer.

Local Open Scope string_scope.
Local Open Scope proc_scope.

Section operations.
Context {R : Type} `{Remote R}.

(** The controller with its metrics, and the number of requests that have been sent and
    are not answered yet. *)
Abbreviation RpcState := ((Metrics * RpcController R) * nat)%type.

Definition on_state {A} : M (Metrics * RpcController R) A -> M RpcState A :=
  zoom fst (fun st w => (st, w.2)).
Definition p_rpc {A} (m : M (RpcController R) A) : proc RpcState A := act (on_state (on_rpc m)).
Definition p_metrics (m : M Metrics unit) : proc RpcState unit := act (on_state (on_rpc_metrics m)).

(** ** The calls, action by action *)

Definition p_tryRecover : proc RpcState (option error) :=
  p_rpc (on_helper (on_helper_mu lock)) ;>>
  do! h := p_rpc (on_helper get) in
  if recovering h then
    p_rpc (on_helper (on_helper_mu unlock)) ;>>
    Pure (Some (Errorf "grpc connection is not ready"))
  else
    p_rpc (on_helper (modify (fun h => mkHelper true (helper_mu h)))) ;>>
    p_rpc (call (fun r => (tt, conn_ResetConnectBackoff r))) ;>>
    p_rpc (on_helper (on_helper_mu unlock)) ;>>
    Pure None.

Definition p_reset : proc RpcState unit :=
  p_rpc (on_helper (on_helper_mu lock)) ;>>
  do! h := p_rpc (on_helper get) in
  (if recovering h then p_rpc (on_helper (modify (fun h => mkHelper false (helper_mu h))))
   else Pure tt) ;>>
  p_rpc (on_helper (on_helper_mu unlock)).

(** [Ready] reads [recovering] without the lock, after the state of the connection. *)
Definition p_Ready : proc RpcState (option error) :=
  do! s := p_rpc (on_helper (ret tt) ;; call conn_GetState) in
  match s with
  | Shutdown => Pure (Some (Errorf "grpc connection is closed"))
  | TransientFailure => p_tryRecover
  | _ =>
      do! h := p_rpc (on_helper get) in
      (if recovering h then p_reset else Pure tt) ;>> Pure None
  end.

(** The rounds of [retry], as in [retry_loop]. *)
Fixpoint p_retry_loop {A} (callback : proc RpcState (result A)) (fuel : nat)
    (retryAge : Z) (attempt : nat) (wasExhausted : bool) : proc RpcState (result A) :=
  match fuel with
  | O => act (block "fuel")
  | S fuel =>
      do! stErr := p_Ready in
      match stErr with
      | Some e => Pure (Err e)
      | None =>
          do! res := callback in
          match res with
          | Ok a => Pure (Ok a)
          | Err err =>
              if (invokeTimeout <? retryAge)%Z then Pure (Err err)
              else
                match status_FromError err with
                | None => Pure (Err err)
                | Some code =>
                    if negb ((code =? ResourceExhausted) || (code =? Unavailable))%Z then Pure (Err err)
                    else
                      let exhausted := (code =? ResourceExhausted)%Z in
                      let interval :=
                        if exhausted then retryExhaustedInterval else retryUnavailableInterval in
                      let attempt := if eqb exhausted wasExhausted then attempt else O in
                      let delayMS := (2 ^ Z.of_nat attempt * interval)%Z in
                      p_metrics (counter_inc metricsRPCRetries) ;>>
                      p_rpc (modify (fun c => set_slept (rc_slept c + delayMS)%Z c)) ;>>
                      p_retry_loop callback fuel (retryAge + delayMS) (S attempt) exhausted
                end
          end
      end
  end.

Definition p_retry {A} (callback : proc RpcState (result A)) : proc RpcState (result A) :=
  p_retry_loop callback retry_fuel 0 0 false.

(** One attempt: the message is built and sent, and at some later time answered. *)
Definition send_request : M RpcState unit := modify (fun w => (w.1, S w.2)).
Definition receive_answer {A} (f : R -> A * R) : M RpcState A := fun w =>
  let '(a, r) := f (rc_remote w.1.2) in Ret a ((w.1.1, set_remote r w.1.2), w.2 - 1).
Definition p_attempt {A B} (build : M (RpcController R) B) (f : B -> R -> result A * R)
    : proc RpcState (result A) :=
  do! req := p_rpc build in
  act send_request ;>>
  act (receive_answer (f req)).

Definition p_with_ticket {A} (body : proc RpcState A) : proc RpcState A :=
  p_metrics (on_gauge Gauge_Inc metricsRPCPending) ;>>
  p_rpc (on_sem chan_recv) ;>>
  p_metrics (on_gauge Gauge_Dec metricsRPCPending) ;>>
  do! a := body in
  p_rpc (on_sem (chan_send tt)) ;>>
  Pure a.

Definition p_Authenticate (sid : string) (env : SessionEnv)
    : proc RpcState (option ConnectResult * option error) :=
  p_with_ticket (
    p_metrics (counter_inc metricsRPCCalls) ;>>
    do! response := p_retry (p_attempt (NewConnectMessage env) (client_Connect sid)) in
    match response with
    | Err err => p_metrics (counter_inc metricsRPCFailures) ;>> Pure (None, Some err)
    | Ok r => Pure (ParseConnectResponse r)
    end).

Definition p_command (sid : string) (env : SessionEnv) (command id channel data : string)
    : proc RpcState (option CommandResult * option error) :=
  p_with_ticket (
    do! response :=
      p_retry (p_attempt (NewCommandMessage env command channel id data) (client_Command sid)) in
    p_metrics (counter_inc metricsRPCCalls) ;>>
    match response with
    | Err err => p_metrics (counter_inc metricsRPCFailures) ;>> Pure (None, Some err)
    | Ok r => Pure (ParseCommandResponse r)
    end).

Definition p_Disconnect_rpc (sid : string) (env : SessionEnv) (id : string)
    (subscriptions : list string) : proc RpcState (option error) :=
  p_with_ticket (
    p_metrics (counter_inc metricsRPCCalls) ;>>
    do! response :=
      p_retry (p_attempt (NewDisconnectMessage env id subscriptions) (client_Disconnect sid)) in
    match response with
    | Err err => p_metrics (counter_inc metricsRPCFailures) ;>> Pure (Some err)
    | Ok r =>
        match ParseDisconnectResponse r with
        | Some err => p_metrics (counter_inc metricsRPCFailures) ;>> Pure (Some err)
        | None => Pure None
        end
    end).

Definition p_call (sid : string) (env : SessionEnv) (k : rpc_call) : proc RpcState (option error) :=
  match k with
  | CallAuthenticate => do! r := p_Authenticate sid env in Pure r.2
  | CallSubscribe id channel => do! r := p_command sid env "subscribe" id channel EmptyString in Pure r.2
  | CallUnsubscribe id channel => do! r := p_command sid env "unsubscribe" id channel EmptyString in Pure r.2
  | CallPerform id channel data => do! r := p_command sid env "message" id channel data in Pure r.2
  | CallDisconnect id subs => p_Disconnect_rpc sid env id subs
  end.

Definition p_busy_check : proc RpcState (result unit) :=
  do! c := p_rpc get in
  if (0 <? busy c)%Z then Pure (Err (busy_error (busy c))) else Pure (Ok tt).

Definition p_rpc_Shutdown : proc RpcState (option error) :=
  do! st := act (on_state get) in
  match rc_clientState st.2 with
  | None => Pure None
  | Some _ =>
      do! res := p_retry p_busy_check in
      p_rpc helper_Close ;>>
      Pure (match res with Ok _ => None | Err e => Some e end)
  end.

(** The goroutines that use a controller: calls for sessions that have headers, and the
    shutdown. *)
Inductive rpc_thread : proc RpcState unit -> Prop :=
| thread_call sid env k : is_Some (Headers env) -> rpc_thread (p_call sid env k ;>> Pure tt)
| thread_shutdown : rpc_thread (p_rpc_Shutdown ;>> Pure tt).
End operations.

(** ** A call that runs alone *)

Section alone.
Context {R : Type} `{Remote R}.
Abbreviation RpcState := ((Metrics * RpcController R) * nat)%type.
Abbreviation Rpc := (M (Metrics * RpcController R)).

(** Does, action by action, what a definition of [Rpc.v] does in one piece; the number of
    requests under way is what it was. *)
Definition as_whole {A} (p : proc RpcState A) (m : Rpc A) : Prop := erases p (on_state m).

Lemma whole_bind {A B} (p : proc RpcState A) m (f : A -> proc RpcState B) g :
  as_whole p m -> (forall a, as_whole (f a) (g a)) -> as_whole (pbind p f) (bind m g).
Proof.
  intros Hp Hf [st n]. rewrite run_pbind. unfold bind at 1. rewrite Hp. unfold on_state, zoom, bind.
  simpl. destruct (m st) as [a st'| |]; [| done..]. rewrite Hf. reflexivity.
Qed.

Lemma whole_rpc {A} (m : M (RpcController R) A) : as_whole (p_rpc m) (on_rpc m).
Proof. apply erases_act. Qed.
Lemma whole_metrics (m : M Metrics unit) : as_whole (p_metrics m) (on_rpc_metrics m).
Proof. apply erases_act. Qed.
Lemma whole_pure {A} (a : A) : as_whole (Pure a) (ret a).
Proof. by intros [[m c] n]. Qed.

Lemma whole_rpc_pure {A} (a : A) : as_whole (Pure a) (on_rpc (ret a)).
Proof. by intros [[m c] n]. Qed.

(** The same for an operation on the controller alone. *)
Lemma whole_rpc_bind {A B} (p : proc RpcState B) (m : M (RpcController R) A) g :
  as_whole p (bind (on_rpc m) (fun a => on_rpc (g a))) -> as_whole p (on_rpc (bind m g)).
Proof.
  intros Hp [[mm c] n]. rewrite (Hp ((mm, c), n)). unfold on_state, on_rpc, zoom, bind. simpl.
  by destruct (m c).
Qed.

Ltac whole :=
  repeat first
    [ apply whole_rpc | apply whole_metrics | apply whole_pure | assumption
    | apply whole_bind; [| intros ?] | case_match ].

Lemma whole_tryRecover : as_whole p_tryRecover (on_rpc tryRecover).
Proof.
  unfold p_tryRecover, tryRecover. do 2 (apply whole_rpc_bind, whole_bind; [apply whole_rpc | intros ?]).
  case_match; repeat (apply whole_rpc_bind, whole_bind; [apply whole_rpc | intros ?]); apply whole_rpc_pure.
Qed.

Lemma whole_reset : as_whole p_reset (on_rpc reset).
Proof.
  unfold p_reset, reset. do 2 (apply whole_rpc_bind, whole_bind; [apply whole_rpc | intros ?]).
  apply whole_rpc_bind, whole_bind; [| intros _; apply whole_rpc]. unfold when.
  case_match; [apply whole_rpc | apply whole_rpc_pure].
Qed.

Lemma whole_Ready : as_whole p_Ready (on_rpc helper_Ready).
Proof.
  intros [[m c] n]. unfold p_Ready. rewrite run_pbind. unfold bind at 1. unfold p_rpc at 1. rewrite erases_act.
  unfold helper_Ready, on_state, on_rpc, on_helper, zoom, bind, call, get, ret. simpl.
  destruct (rc_clientState c) as [[b mu]|] eqn:Hc; [| done]. simpl.
  destruct (conn_GetState (rc_remote c)) as [s r]; simpl. unfold set_clientState, set_remote. simpl.
  assert (Hsame : mkRpc (rc_Concurrency c) (rc_sem c) (Some (mkHelper b mu)) (rc_slept c) r = set_remote r c)
    by (unfold set_remote; by rewrite Hc).
  assert (Hread : forall (f : ClientHelper -> proc RpcState (option error)),
    run (pbind (p_rpc (on_helper get)) f) ((m, set_remote r c), n) = run (f (mkHelper b mu)) ((m, set_remote r c), n)).
  { intros f. rewrite run_pbind. unfold bind at 1. unfold p_rpc. rewrite erases_act. unfold on_state, on_rpc, on_helper, zoom. simpl.
    rewrite Hc. simpl. unfold set_clientState, set_remote. simpl. by rewrite Hc. }
  destruct s; try done; rewrite Hsame.
  1-3: rewrite Hread; destruct b; [| done]; cbn [recovering]; rewrite run_pbind; unfold bind; rewrite whole_reset;
       unfold on_state, on_rpc, zoom; simpl; by destruct (reset _).
  rewrite whole_tryRecover. unfold on_state, on_rpc, zoom. simpl. by destruct (tryRecover _).
Qed.

Lemma whole_retry_loop {A} (p : proc RpcState (result A)) callback fuel retryAge attempt was :
  as_whole p (on_rpc callback) ->
  as_whole (p_retry_loop p fuel retryAge attempt was) (retry_loop callback fuel retryAge attempt was).
Proof.
  intros Hp. revert retryAge attempt was.
  induction fuel as [|fuel IH]; intros retryAge attempt was; [by intros [[m c] n] |]. cbn [p_retry_loop retry_loop].
  apply whole_bind; [apply whole_Ready | intros [e|]]; [apply whole_pure |].
  apply whole_bind; [done | intros [a|err]]; [apply whole_pure |].
  destruct (invokeTimeout <? retryAge)%Z; [apply whole_pure |].
  destruct (status_FromError err) as [code|]; [| apply whole_pure]. destruct (negb _); [apply whole_pure |].
  apply whole_bind; [apply whole_metrics | intros _]. apply whole_bind; [apply whole_rpc | intros _]. apply IH.
Qed.

Lemma whole_attempt {A B} (build : M (RpcController R) B) (f : B -> R -> result A * R) :
  as_whole (p_attempt build f) (on_rpc (bind build (fun req => call (f req)))).
Proof.
  apply whole_rpc_bind, whole_bind; [apply whole_rpc |]. intros req [[m c] n]. simpl.
  unfold bind, modify, receive_answer, on_state, on_rpc, zoom, call. simpl.
  destruct (f req (rc_remote c)). by rewrite Nat.sub_0_r.
Qed.

Lemma whole_with_ticket {A} (p : proc RpcState A) m : as_whole p m -> as_whole (p_with_ticket p) (with_ticket m).
Proof. intros Hp. unfold p_with_ticket, with_ticket. whole. Qed.

Lemma whole_Authenticate sid env : as_whole (p_Authenticate sid env) (rpc_Authenticate sid env).
Proof.
  apply whole_with_ticket, whole_bind; [apply whole_metrics | intros _].
  apply whole_bind; [apply whole_retry_loop, whole_attempt | intros [r|err]; whole].
Qed.

Lemma whole_command sid env command id channel data :
  as_whole (p_command sid env command id channel data) (command_call sid env command id channel data).
Proof.
  apply whole_with_ticket, whole_bind; [apply whole_retry_loop, whole_attempt |].
  intros [r|err]; unfold parseCommandResponse; whole.
Qed.

Lemma whole_Disconnect sid env id subs : as_whole (p_Disconnect_rpc sid env id subs) (rpc_Disconnect sid env id subs).
Proof.
  apply whole_with_ticket, whole_bind; [apply whole_metrics | intros _].
  apply whole_bind; [apply whole_retry_loop, whole_attempt |]. intros [r|err]; whole.
Qed.

Lemma whole_Shutdown : as_whole p_rpc_Shutdown rpc_Shutdown.
Proof.
  apply whole_bind; [apply erases_act | intros st]. destruct (rc_clientState st.2); [| apply whole_pure].
  apply whole_bind; [| intros res; whole]. apply whole_retry_loop, whole_rpc_bind, whole_bind; [apply whole_rpc |].
  intros c'. destruct (0 <? busy c')%Z; apply whole_rpc_pure.
Qed.

End alone.

(** ** What a goroutine holds *)

(** A ticket of the semaphore, an entry in the gauge of pending calls, the lock of the client
    helper, and a request that is not answered, which only a goroutine with a ticket has. *)
Record hold : Type := mkHold { with_tkt : bool; is_pending : bool; with_lock : bool; has_sent : bool }.

Definition calm : hold := mkHold false false false false.
Definition working : hold := mkHold true false false false.

Definition tickets (v : hold) : nat := Nat.b2n (with_tkt v).
Definition pendings (v : hold) : nat := Nat.b2n (is_pending v).
Definition locks (v : hold) : nat := Nat.b2n (with_lock v).
Definition requests (v : hold) : nat := Nat.b2n (with_tkt v && has_sent v).

Section interleaving.
Context {R : Type} `{Remote R} (n : nat).
Abbreviation RpcState := ((Metrics * RpcController R) * nat)%type.
Implicit Types (c : RpcController R) (w : RpcState) (v : hold) (vs : list hold).

(** The metrics of the controller are registered, and the gauge says how many calls wait. *)
Definition metrics_ok vs (m : Metrics) : Prop :=
  is_Some (counters m !! metricsRPCCalls) /\ is_Some (counters m !! metricsRPCRetries) /\
  is_Some (counters m !! metricsRPCFailures) /\
  exists g, gauges m !! metricsRPCPending = Some g /\ g_value g = to_u64 (Z.of_nat (total pendings vs)).

(** The controller with [free] tickets left. *)
Definition has_free (free : nat) c : Prop :=
  rc_sem c = Some (mkChan (replicate free tt) n false).

(** Tickets are conserved: those in the semaphore and those of the goroutines make [n];
    the lock of the helper is held by one goroutine or free. *)
Record controller_ok vs c : Prop := {
  co_concurrency : rc_Concurrency c = Z.of_nat n;
  co_sem : exists free, has_free free c /\ free + total tickets vs = n;
  co_helper : exists b mu, rc_clientState c = Some (mkHelper b mu) /\ total locks vs = Nat.b2n mu
}.
Definition G vs w : Prop :=
  metrics_ok vs w.1.1 /\ controller_ok vs w.1.2 /\ total requests vs = w.2.

(** A goroutine without the lock of the helper may wait: for a ticket when there is none
    left, or for the lock when another goroutine has it. *)
Definition may_wait v w : Prop :=
  with_lock v = false /\
  (is_pending v = true /\ with_tkt v = false /\ has_free 0 w.1.2 \/
   exists b, rc_clientState w.1.2 = Some (mkHelper b true)).
Definition at_rest v : Prop := v = calm.

Abbreviation safe_from := (wpp G may_wait).

(** *** One action *)

Lemma metrics_ok_keep vs i v v' m :
  vs !! i = Some v -> pendings v' = pendings v -> metrics_ok vs m -> metrics_ok (<[i := v']> vs) m.
Proof.
  intros Hi Hv (H1 & H2 & H3 & g & Hg & Hn). pose proof (total_insert pendings vs i v v' Hi).
  split_and!; try done. exists g. split; [done |]. rewrite Hn. do 2 f_equal. lia.
Qed.

Lemma controller_ok_keep vs i v v' c c' :
  vs !! i = Some v -> tickets v' = tickets v -> locks v' = locks v -> rc_Concurrency c' = rc_Concurrency c ->
  rc_sem c' = rc_sem c -> rc_clientState c' = rc_clientState c ->
  controller_ok vs c -> controller_ok (<[i := v']> vs) c'.
Proof.
  intros Hi E1 E2 E3 E4 E5 [H1 (free & H2 & Ht) (b & mu & H3 & Hl)].
  pose proof (total_insert tickets vs i v v' Hi). pose proof (total_insert locks vs i v v' Hi).
  split; [by rewrite E3 | exists free | exists b, mu]; unfold has_free in *; rewrite ?E4, ?E5; (split; [done | lia]).
Qed.

(** An action on the controller. *)
Lemma safe_rpc {X A} (m : M (RpcController R) X) (k : X -> proc RpcState A) Q v :
  (forall c b mu free,
     rc_Concurrency c = Z.of_nat n -> has_free free c -> free + tickets v <= n ->
     rc_clientState c = Some (mkHelper b mu) -> locks v <= Nat.b2n mu ->
     match m c with
     | Ret x c' => exists v' b' mu' free',
         rc_Concurrency c' = Z.of_nat n /\ has_free free' c' /\ free' + tickets v' = free + tickets v /\
         rc_clientState c' = Some (mkHelper b' mu') /\ Nat.b2n mu' + locks v = Nat.b2n mu + locks v' /\
         requests v' = requests v /\ pendings v' = pendings v /\ safe_from (k x) Q v'
     | Block _ _ => with_lock v = false /\
         (is_pending v = true /\ with_tkt v = false /\ has_free 0 c \/ mu = true)
     | Panic _ _ => False
     end) ->
  safe_from (pbind (p_rpc m) k) Q v.
Proof.
  intros Hm. change (safe_from (Act (on_state (on_rpc m)) k) Q v).
  intros vs i [[ms c] sent] Hi (Hms & [H1 (free & Hf & Htot) (b & mu & Hh & Hl)] & Hreq). simpl in *.
  pose proof (total_lookup tickets vs i v Hi). pose proof (total_lookup locks vs i v Hi).
  specialize (Hm c b mu free H1 Hf ltac:(lia) Hh ltac:(lia)).
  unfold on_state, on_rpc, zoom. simpl. destruct (m c) as [x c'| |]; [| | done].
  - destruct Hm as (v' & b' & mu' & free' & G1 & G2 & G3 & G4 & G5 & G6 & G7 & Hk). exists v'. split; [| done].
    pose proof (total_insert tickets vs i v v' Hi). pose proof (total_insert locks vs i v v' Hi).
    pose proof (total_insert requests vs i v v' Hi).
    split_and!; simpl; [by eapply metrics_ok_keep | | lia].
    split; [done | exists free'; split; [done | lia] | exists b', mu'; split; [done | lia]].
  - destruct Hm as [Hv Hw]. split; [done |]. destruct Hw as [Hw| ->]; [by left | right; by exists b].
Qed.

(** An action on a counter of the controller. *)
Lemma safe_counter {A} f name (k : unit -> proc RpcState A) Q v :
  name ∈ [metricsRPCCalls; metricsRPCRetries; metricsRPCFailures] ->
  safe_from (k tt) Q v -> safe_from (pbind (p_metrics (on_counter f name)) k) Q v.
Proof.
  intros Hn Hk. change (safe_from (Act (on_state (on_rpc_metrics (on_counter f name))) k) Q v).
  intros vs i [[m c] sent] Hi ((M1 & M2 & M3 & M4) & Hc & Hreq). simpl in *.
  assert (Hx : is_Some (counters m !! name)) by (set_unfold in Hn; naive_solver). destruct Hx as [x Hx].
  unfold on_state, on_rpc_metrics, zoom, on_counter. simpl. rewrite Hx. exists v. split; [| done].
  rewrite list_insert_id by done. split_and!; simpl; [split_and! | done..]; try done.
  all: simpl; rewrite lookup_insert; case_decide; [by eexists | done].
Qed.

(** Entering and leaving the gauge of pending calls. *)
Lemma safe_gauge {A} f (k : unit -> proc RpcState A) Q v v' :
  tickets v' = tickets v -> locks v' = locks v -> requests v' = requests v ->
  (forall g t, pendings v <= t -> g_value g = to_u64 (Z.of_nat t) ->
     g_value (f g) = to_u64 (Z.of_nat (t + pendings v' - pendings v))) ->
  safe_from (k tt) Q v' -> safe_from (pbind (p_metrics (on_gauge f metricsRPCPending)) k) Q v.
Proof.
  intros E1 E2 E3 Hf Hk. change (safe_from (Act (on_state (on_rpc_metrics (on_gauge f metricsRPCPending))) k) Q v).
  intros vs i [[m c] sent] Hi ((M1 & M2 & M3 & g & Hg & Hv) & Hc & Hreq). simpl in *.
  unfold on_state, on_rpc_metrics, zoom, on_gauge. simpl. rewrite Hg. exists v'. split; [| done].
  pose proof (total_insert requests vs i v v' Hi). pose proof (total_insert pendings vs i v v' Hi).
  pose proof (total_lookup pendings vs i v Hi) as Hle.
  split_and!; simpl; [| by eapply controller_ok_keep | lia].
  split_and!; try done. exists (f g). split; [by apply lookup_insert_eq |].
  rewrite (Hf g _ Hle Hv). do 2 f_equal. lia.
Qed.

Lemma safe_pending_inc {A} (k : unit -> proc RpcState A) Q tk :
  safe_from (k tt) Q (mkHold tk true false false) ->
  safe_from (pbind (p_metrics (on_gauge Gauge_Inc metricsRPCPending)) k) Q (mkHold tk false false false).
Proof.
  apply safe_gauge; [done | done | unfold requests; simpl; by rewrite andb_false_r |].
  unfold pendings. intros g t _ Hg. simpl. rewrite Hg, to_u64_add_l. f_equal. lia.
Qed.

Lemma safe_pending_dec {A} (k : unit -> proc RpcState A) Q tk :
  safe_from (k tt) Q (mkHold tk false false false) ->
  safe_from (pbind (p_metrics (on_gauge Gauge_Dec metricsRPCPending)) k) Q (mkHold tk true false false).
Proof.
  apply safe_gauge; [done | done | unfold requests; simpl; by rewrite andb_false_r |].
  unfold pendings. intros g t Hle Hg. simpl in *. rewrite Hg, to_u64_add_l.
  replace (Z.of_nat t + (u64_modulus - 1))%Z with (Z.of_nat (t + 0 - 1) + 1 * u64_modulus)%Z by lia.
  unfold to_u64. by rewrite Z.mod_add by (unfold u64_modulus; lia).
Qed.

(** *** The semaphore and the client helper *)

Lemma safe_take {A} (k : option unit -> proc RpcState A) Q :
  (forall t, safe_from (k t) Q (mkHold true true false false)) ->
  safe_from (pbind (p_rpc (on_sem chan_recv)) k) Q (mkHold false true false false).
Proof.
  intros Hk. apply safe_rpc. intros c b mu free H1 H2 H3 H4 H5. unfold on_sem. rewrite H2. unfold zoom, chan_recv. simpl.
  destruct free as [|free]; simpl; [by split; [| left] |].
  exists (mkHold true true false false), b, mu, free. unfold tickets. simpl. by split_and!.
Qed.

(** A goroutine with a ticket finds room for it. *)
Lemma safe_give_back {A} (k : unit -> proc RpcState A) Q :
  safe_from (k tt) Q calm -> safe_from (pbind (p_rpc (on_sem (chan_send tt))) k) Q working.
Proof.
  intros Hk. apply safe_rpc. intros c b mu free H1 H2 H3 H4 H5. unfold on_sem. rewrite H2. unfold zoom, chan_send, chan_full. simpl.
  unfold tickets in H3. simpl in H3. rewrite length_replicate, bool_decide_false by lia.
  exists calm, b, mu, (S free). unfold has_free, chan_push, tickets. simpl. rewrite <- replicate_cons_app. by split_and!.
Qed.

(** An action that changes neither the semaphore nor the helper. *)
Lemma safe_remote {X A} (m : M (RpcController R) X) (k : X -> proc RpcState A) Q v :
  (forall c b mu, rc_clientState c = Some (mkHelper b mu) ->
     exists x c', m c = Ret x c' /\ rc_Concurrency c' = rc_Concurrency c /\ rc_sem c' = rc_sem c /\
       rc_clientState c' = rc_clientState c /\ safe_from (k x) Q v) ->
  safe_from (pbind (p_rpc m) k) Q v.
Proof.
  intros Hm. apply safe_rpc. intros c b mu free H1 H2 H3 H4 H5.
  destruct (Hm c b mu H4) as (x & c' & -> & E1 & E2 & E3 & Hk).
  exists v, b, mu, free. unfold has_free. rewrite E1, E2, E3. by split_and!.
Qed.

Lemma safe_call {X A} (f : R -> X * R) (k : X -> proc RpcState A) Q v :
  (forall x, safe_from (k x) Q v) -> safe_from (pbind (p_rpc (call f)) k) Q v.
Proof.
  intros Hk. apply safe_remote. intros c b mu _. unfold call. destruct (f (rc_remote c)) as [x r].
  exists x, (set_remote r c). by split_and!.
Qed.

Lemma safe_helper_get {A} (k : ClientHelper -> proc RpcState A) Q v :
  (forall h, safe_from (k h) Q v) -> safe_from (pbind (p_rpc (on_helper get)) k) Q v.
Proof.
  intros Hk. apply safe_remote. intros c b mu Hc. unfold on_helper, zoom. rewrite Hc. simpl.
  do 2 eexists. split_and!; [reflexivity | done | done | done | apply Hk].
Qed.

Definition locked v : hold := mkHold (with_tkt v) (is_pending v) true (has_sent v).

Lemma safe_helper_lock {A} (k : unit -> proc RpcState A) Q v :
  with_lock v = false -> safe_from (k tt) Q (locked v) ->
  safe_from (pbind (p_rpc (on_helper (on_helper_mu lock))) k) Q v.
Proof.
  intros Hv Hk. apply safe_rpc. intros c b mu free H1 H2 H3 H4 H5. unfold on_helper, on_helper_mu, zoom, lock. rewrite H4. simpl.
  destruct mu; [by split; [| right] |]. exists (locked v), b, true, free. unfold locks. rewrite Hv. by split_and!.
Qed.

Lemma safe_helper_unlock {A} (k : unit -> proc RpcState A) Q v :
  with_lock v = false -> safe_from (k tt) Q v ->
  safe_from (pbind (p_rpc (on_helper (on_helper_mu unlock))) k) Q (locked v).
Proof.
  intros Hv Hk. apply safe_rpc. intros c b mu free H1 H2 H3 H4 H5. unfold on_helper, on_helper_mu, zoom, unlock. rewrite H4. simpl.
  unfold locks in H5. simpl in H5. destruct mu; [| simpl in H5; lia].
  exists v, b, false, free. unfold locks. rewrite Hv. by split_and!.
Qed.

Lemma safe_helper_set {A} r (k : unit -> proc RpcState A) Q v :
  safe_from (k tt) Q v ->
  safe_from (pbind (p_rpc (on_helper (modify (fun h => mkHelper r (helper_mu h))))) k) Q v.
Proof.
  intros Hk. apply safe_rpc. intros c b mu free H1 H2 H3 H4 H5. unfold on_helper, zoom. rewrite H4. simpl.
  exists v, r, mu, free. by split_and!.
Qed.

(** *** Requests *)

Definition flying : hold := mkHold true false false true.

Lemma safe_request {X A} (m : M RpcState X) (k : X -> proc RpcState A) Q v v' :
  tickets v' = tickets v -> locks v' = locks v -> pendings v' = pendings v ->
  (forall w, exists x c', m w = Ret x ((w.1.1, c'), w.2 + requests v' - requests v) /\
     rc_Concurrency c' = rc_Concurrency w.1.2 /\ rc_sem c' = rc_sem w.1.2 /\
     rc_clientState c' = rc_clientState w.1.2 /\ safe_from (k x) Q v') ->
  safe_from (pbind (act m) k) Q v.
Proof.
  intros E1 E2 E3 Hm vs i w Hi (Hms & Hc & Hreq). simpl in *.
  destruct (Hm w) as (x & c' & -> & F1 & F2 & F3 & Hk). exists v'. split; [| done].
  pose proof (total_insert requests vs i v v' Hi). pose proof (total_lookup requests vs i v Hi).
  split_and!; simpl; [by eapply metrics_ok_keep | by eapply controller_ok_keep | lia].
Qed.

Lemma safe_send {A} (k : unit -> proc RpcState A) Q :
  safe_from (k tt) Q flying -> safe_from (pbind (act send_request) k) Q working.
Proof.
  intros Hk. apply (safe_request _ _ _ _ flying); [done..|]. intros [[m c] sent]. exists tt, c.
  unfold requests. simpl. rewrite Nat.add_1_r, Nat.sub_0_r. by split_and!.
Qed.

Lemma safe_answer {X A} (f : R -> X * R) (k : X -> proc RpcState A) Q :
  (forall x, safe_from (k x) Q working) -> safe_from (pbind (act (receive_answer f)) k) Q flying.
Proof.
  intros Hk. apply (safe_request _ _ _ _ working); [done..|]. intros [[m c] sent]. unfold receive_answer. simpl.
  destruct (f (rc_remote c)) as [x r]. exists x, (set_remote r c). unfold requests. simpl. rewrite Nat.add_0_r. by split_and!.
Qed.

(** ** The calls *)

(** Safe for a goroutine that holds [v], which it holds again when done. *)
Definition rests {A} v (p : proc RpcState A) : Prop := safe_from p (fun _ u => u = v) v.

Lemma rests_then {A B} v (p : proc RpcState A) (f : A -> proc RpcState B) :
  rests v p -> (forall x, rests v (f x)) -> rests v (pbind p f).
Proof. intros Hp Hf. eapply wpp_seq; [exact Hp |]. intros x u ->. apply Hf. Qed.

Lemma rests_act {A} v (m : M (RpcController R) A) :
  (forall X (k : A -> proc RpcState X) Q, (forall x, safe_from (k x) Q v) -> safe_from (pbind (p_rpc m) k) Q v) ->
  rests v (p_rpc m).
Proof. intros Hm. apply (Hm A Pure). by intros x. Qed.

Lemma rests_tryRecover v : with_lock v = false -> rests v p_tryRecover.
Proof.
  intros Hv. unfold rests, p_tryRecover. apply safe_helper_lock; [done |]. apply safe_helper_get. intros h.
  destruct (recovering h); [by apply safe_helper_unlock |].
  apply safe_helper_set, safe_call. intros _. by apply safe_helper_unlock.
Qed.

Lemma rests_reset v : with_lock v = false -> rests v p_reset.
Proof.
  intros Hv. unfold rests, p_reset. apply safe_helper_lock; [done |]. apply safe_helper_get. intros h. apply wpp_bind.
  assert (Hu : safe_from (p_rpc (on_helper (on_helper_mu unlock))) (fun _ u => u = v) (locked v))
    by (by apply (safe_helper_unlock Pure)).
  destruct (recovering h); [by apply (safe_helper_set _ Pure) | exact Hu].
Qed.

Lemma rests_Ready v : with_lock v = false -> rests v p_Ready.
Proof.
  intros Hv. unfold p_Ready, rests. apply safe_remote. intros c b mu Hc. unfold bind, on_helper, zoom. rewrite Hc.
  unfold ret, call. simpl. destruct (conn_GetState (rc_remote c)) as [s r].
  do 2 eexists. split_and!; [reflexivity | done | done | done |].
  destruct s; try done; try by apply rests_tryRecover.
  all: apply safe_helper_get; intros h; apply (rests_then v); [| done]; destruct (recovering h); [by apply rests_reset | done].
Qed.

(** The loop of [retry] never comes to the end of its fuel. *)
Lemma rests_retry_loop {A} v (callback : proc RpcState (result A)) fuel retryAge attempt was :
  with_lock v = false -> rests v callback -> (0 <= retryAge)%Z -> age_ok retryAge attempt was ->
  (invokeTimeout < retryAge + 10 * Z.of_nat fuel)%Z ->
  rests v (p_retry_loop callback (S fuel) retryAge attempt was).
Proof.
  intros Hv Hc. revert retryAge attempt was. induction fuel as [|fuel IH]; intros age attempt was Hage Hok Hfuel.
  all: cbn [p_retry_loop]; apply rests_then; [by apply rests_Ready | intros [e|]]; [done |].
  all: apply rests_then; [done | intros [a|err]]; [done |].
  all: destruct (Z.ltb_spec invokeTimeout age); [done |]. 1: lia.
  destruct (status_FromError err) as [code|]; [| done]. destruct (negb _); [done |].
  destruct (age_step age attempt was (code =? ResourceExhausted)%Z Hage Hok) as [Hd Hok'].
  apply safe_counter; [set_solver |]. apply safe_remote. intros c b mu _.
  do 2 eexists. split_and!; [reflexivity | done | done | done |]. apply IH; [| done |]; unfold interval_of in Hd; lia.
Qed.

Lemma rests_retry {A} v (callback : proc RpcState (result A)) :
  with_lock v = false -> rests v callback -> rests v (p_retry callback).
Proof. intros Hv Hc. apply (rests_retry_loop v callback 302); [exact Hv | exact Hc | lia | done | done]. Qed.

#[local] Opaque p_retry.

Lemma rests_attempt {A B} (build : M (RpcController R) B) (f : B -> R -> result A * R) req :
  (forall c, build c = Ret req c) -> rests working (p_attempt build f).
Proof.
  intros Hb. apply safe_remote. intros c b mu _. exists req, c. split_and!; [apply Hb | done..|].
  apply safe_send. by apply (safe_answer _ Pure).
Qed.

Lemma rests_with_ticket {A} (body : proc RpcState A) : rests working body -> rests calm (p_with_ticket body).
Proof.
  intros Hb. apply safe_pending_inc, safe_take. intros _. apply safe_pending_dec.
  eapply wpp_seq; [exact Hb |]. intros a u ->. by apply safe_give_back.
Qed.

Lemma rests_count {A} v (p : proc RpcState A) name :
  name ∈ [metricsRPCCalls; metricsRPCRetries; metricsRPCFailures] -> rests v p ->
  rests v (p_metrics (counter_inc name) ;>> p).
Proof. intros Hn Hp. by apply safe_counter. Qed.

Ltac settle := repeat first [apply rests_count; [set_solver |] | done | case_match].

Lemma rests_call sid env k : is_Some (Headers env) -> rests calm (p_call sid env k).
Proof.
  intros Hh. destruct (requests_build (W := RpcController R) env Hh) as ([b1 H1] & H2 & H3).
  destruct k; cbn [p_call]; [apply rests_then; [| done].. |]; apply rests_with_ticket.
  1, 5: apply rests_count; [set_solver |].
  2: destruct (H3 id subscriptions) as [b2 Hb2].
  3: destruct (H2 "subscribe" channel id EmptyString) as [b2 Hb2].
  4: destruct (H2 "unsubscribe" channel id EmptyString) as [b2 Hb2].
  5: destruct (H2 "message" channel id data) as [b2 Hb2].
  all: apply rests_then; [apply rests_retry; [done |]; by eapply rests_attempt | intros [r|err]; settle].
Qed.

Lemma safe_look {A} (k : Metrics * RpcController R -> proc RpcState A) Q v :
  (forall st, safe_from (k st) Q v) -> safe_from (pbind (act (on_state get)) k) Q v.
Proof.
  intros Hk vs i [st sent] Hi Hw. exists v. rewrite list_insert_id by done. split; [exact Hw | apply Hk].
Qed.

Lemma rests_busy_check v : rests v p_busy_check.
Proof.
  unfold rests, p_busy_check. apply safe_remote. intros c b mu _. exists c, c. split_and!; [done..|].
  by destruct (0 <? busy c)%Z.
Qed.

Lemma rests_Shutdown : rests calm p_rpc_Shutdown.
Proof.
  unfold rests, p_rpc_Shutdown. apply safe_look. intros st. destruct (rc_clientState _); [| done].
  eapply wpp_seq; [apply (rests_retry calm p_busy_check); [done | apply rests_busy_check] |].
  intros res u ->. unfold helper_Close. by apply safe_call.
Qed.

(** Every goroutine that uses the controller is safe, and starts with nothing. *)
Lemma rpc_thread_ok p vs w :
  rpc_thread p -> G vs w -> exists v, safe_from p (fun _ => at_rest) v /\ G (vs ++ [v]) w.
Proof.
  intros Hp (Hm & [H1 (free & H2 & Ht) (b & mu & H3 & Hl)] & Hreq). exists calm. split.
  - destruct Hp as [sid env k Hh|]; (eapply wpp_seq; [by first [apply rests_call | apply rests_Shutdown] | by intros x u ->]).
  - destruct Hm as (? & ? & ? & g & Hg & Hv). split_and!; simpl.
    + split_and!; try done. exists g. split; [done |]. rewrite Hv, total_app. do 2 f_equal. cbn. lia.
    + split; [done | exists free | exists b, mu]; rewrite total_app; (split; [done |]); cbn; lia.
    + rewrite total_app. cbn. lia.
Qed.
End interleaving.

(** ** Any number of calls *)

Section pools.
Context {R : Type} `{Remote R}.
Abbreviation RpcState := ((Metrics * RpcController R) * nat)%type.

(** What goroutines that use a controller, added at any time, get to by any interleaving. *)
Definition calls_reach (st : Metrics * RpcController R) : list (proc RpcState unit) * RpcState -> Prop :=
  pool_reaches rpc_thread ([], (st, 0)).

(** A controller that has been started. *)
Definition rpc_started (concurrency : Z) (st : Metrics * RpcController R) : Prop :=
  exists dialer remote m, (NewController concurrency remote m).1 = st.1 /\
    rpc_Start dialer (NewController concurrency remote m).2 = Ret None st.2.

Lemma rpc_started_ok concurrency st :
  rpc_started concurrency st -> (0 <= concurrency)%Z /\ G (Z.to_nat concurrency) [] (st, 0).
Proof.
  intros (dialer & remote & m & Hm & Hs). destruct st as [ms c]. simpl in *. subst ms. revert Hs. unfold rpc_Start.
  destruct (dialer remote) as [err r] eqn:Hd.
  erewrite bind_ret_eq by (unfold call; simpl; rewrite Hd; reflexivity). erewrite bind_ret_eq by reflexivity. simpl.
  destruct (Z.ltb_spec concurrency 0).
  { unfold initSemaphore, bind. rewrite (proj2 (Z.ltb_lt _ _)) by done. done. }
  erewrite bind_ret_eq by (by apply initSemaphore_ok). erewrite bind_ret_eq by reflexivity.
  intros Hs. injection Hs as -> <-. split; [done |]. split_and!; simpl; [| split; simpl | done].
  - split_and!; simpl; rewrite !lookup_insert; by eauto.
  - by rewrite Z2Nat.id.
  - exists (Z.to_nat concurrency). split; [done | by rewrite Nat.add_0_r].
  - by exists false, false.
Qed.

Lemma calls_reach_ok concurrency st ts w :
  rpc_started concurrency st -> calls_reach st (ts, w) ->
  pool_ok (G (Z.to_nat concurrency)) (may_wait (Z.to_nat concurrency)) at_rest (ts, w).
Proof.
  intros Hs Hr. destruct (rpc_started_ok _ _ Hs) as [_ Hg].
  eapply pool_reaches_ok; [| | exact Hr]; [intros p vs w'; apply rpc_thread_ok |].
  exists []. by split; [constructor |].
Qed.

Lemma busy_of n vs (c : RpcController R) : controller_ok n vs c -> busy c = Z.of_nat (total tickets vs).
Proof.
  intros [H1 (free & H2 & Ht) _]. unfold busy. rewrite H1, H2. simpl. rewrite length_replicate. lia.
Qed.

(** C9. However the calls and the shutdown of a started controller interleave, there are at
    any time at most [Concurrency] requests that were sent and not answered, [busy] is
    between their number and [Concurrency], the gauge of pending calls is never more than
    the number of goroutines, and no goroutine panics. *)
Theorem calls_bounded concurrency st ts m c sent :
  rpc_started concurrency st -> calls_reach st (ts, ((m, c), sent)) ->
  (Z.of_nat sent <= busy c <= concurrency)%Z /\
  (exists g, gauges m !! metricsRPCPending = Some g /\ (0 <= g_value g <= Z.of_nat (length ts))%Z) /\
  (forall i p why w', ts !! i = Some p -> step_thread p ((m, c), sent) <> Some (Panic why w')).
Proof.
  intros Hs Hr. pose proof (calls_reach_ok _ _ _ _ Hs Hr) as Hok. destruct (rpc_started_ok _ _ Hs) as [Hpos _].
  split; [| split; [| intros i p why w' Hi; by eapply pool_ok_no_panic]].
  all: destruct Hok as (vs & Hts & (_ & _ & _ & g & Hg & Hv) & Hc & Hreq); simpl in *.
  - rewrite (busy_of _ _ _ Hc). destruct Hc as [_ (free & _ & Ht) _].
    pose proof (total_le requests tickets vs) as Hle. rewrite Hreq in Hle. split; [| lia].
    apply inj_le, Hle. intros v. unfold requests, tickets. destruct (with_tkt v), (has_sent v); simpl; lia.
  - exists g. split; [done |]. pose proof (total_length pendings vs) as Hle.
    rewrite <- (Forall2_length _ _ _ Hts) in Hle. rewrite Hv. unfold to_u64.
    pose proof (Z.mod_pos_bound (Z.of_nat (total pendings vs)) u64_modulus ltac:(unfold u64_modulus; lia)).
    pose proof (Z.mod_le (Z.of_nat (total pendings vs)) u64_modulus ltac:(lia) ltac:(unfold u64_modulus; lia)).
    assert (total pendings vs <= length ts) by (apply Hle; intros v; unfold pendings; destruct (is_pending v); simpl; lia). lia.
Qed.

(** A goroutine that waits waits for one that does not. *)
Lemma nobody_waits n vs (w : RpcState) :
  0 < n -> G n vs w -> (forall i v, vs !! i = Some v -> at_rest v \/ may_wait n v w) ->
  forall i v, vs !! i = Some v -> at_rest v.
Proof.
  intros Hn (_ & [_ (free & Hf & Ht) (b & mu & Hh & Hl)] & _) Hall i v Hi.
  assert (Hmu : mu = false).
  { destruct mu; [| done]. destruct (total_pos locks vs) as (j & u & Hj & Hu); [simpl in Hl; lia |].
    unfold locks in Hu. destruct (Hall j u Hj) as [->|[Hw _]]; [simpl in Hu; lia | rewrite Hw in Hu; simpl in Hu; lia]. }
  subst mu. assert (Hfree : free <> 0).
  { intros ->. destruct (total_pos tickets vs) as (j & u & Hj & Hu); [lia |]. unfold tickets in Hu.
    destruct (Hall j u Hj) as [->|[_ [(_ & Hw & _)|[b' Hb]]]]; [simpl in Hu; lia | rewrite Hw in Hu; simpl in Hu; lia | congruence]. }
  destruct (Hall i v Hi) as [Hv|[_ [(_ & _ & H0)|[b' Hb]]]]; [done | | congruence].
  unfold has_free in *. rewrite Hf in H0. injection H0 as H0. apply (f_equal length) in H0.
  rewrite !length_replicate in H0. done.
Qed.

(** C10. The calls and the shutdown of a started controller never wait for each other in a
    circle: in every state they get to, some goroutine can take a step, or all of them have
    ended; then every ticket is back, no request is under way, and the gauge of pending
    calls is zero. *)
Theorem calls_never_deadlock concurrency st ts m c sent :
  (0 < concurrency)%Z -> rpc_started concurrency st -> calls_reach st (ts, ((m, c), sent)) ->
  (exists i p, ts !! i = Some p /\ can_step p ((m, c), sent)) \/
  (Forall (fun p => p = Pure tt) ts /\ busy c = 0%Z /\ sent = 0 /\
   exists g, gauges m !! metricsRPCPending = Some g /\ g_value g = 0%Z).
Proof.
  intros Hpos Hs Hr. destruct (calls_reach_ok _ _ _ _ Hs Hr) as (vs & Hts & Hg). simpl in *.
  destruct (pool_steps_or_stuck ts ((m, c), sent)) as [Hstep|Hstuck]; [by left | right].
  assert (Hends : forall i p v, ts !! i = Some p -> vs !! i = Some v ->
    (exists a, p = Pure a) /\ at_rest v \/ may_wait (Z.to_nat concurrency) v ((m, c), sent)).
  { intros i p v Hi Hv. eapply pool_ok_stuck; [exact Hts | exact Hg | done | done |].
    intros p' w' Hp. apply (Hstuck i p Hi). by exists p', w'. }
  assert (Hrest : forall i v, vs !! i = Some v -> at_rest v).
  { apply (nobody_waits (Z.to_nat concurrency) vs ((m, c), sent)); [lia | done |]. intros i v Hi.
    destruct (Forall2_lookup_r _ _ _ _ _ Hts Hi) as (p & Hp & _). destruct (Hends i p v Hp Hi) as [[_ ?]|?]; auto. }
  assert (Hnone : forall f, f calm = 0 -> total f vs = 0)
    by (intros f Hf; apply total_none; intros i v Hi; by rewrite (Hrest i v Hi)).
  destruct Hg as ((_ & _ & _ & g & Hg & Hv) & Hc & Hreq). simpl in *.
  rewrite (busy_of _ _ _ Hc), <- Hreq, !Hnone by done. split_and!; [| done | done |].
  - apply Forall_lookup. intros i p Hi. destruct (Forall2_lookup_l _ _ _ _ _ Hts Hi) as (v & Hvi & Hsafe).
    destruct (Hends i p v Hi Hvi) as [[[[] ->] _]|Hw]; [done |]. rewrite (Hrest i v Hvi) in Hw.
    destruct Hc as [_ _ (b & mu & Hh & Hl)]. rewrite Hnone in Hl by done. destruct mu; [done |].
    destruct Hw as [_ [(Hw & _)|[b' Hb]]]; [done | simpl in Hb; congruence].
  - exists g. split; [done |]. by rewrite Hv, Hnone.
Qed.
End pools.

(** ** Two calls and one ticket *)

(** A controller for one call at a time, and two goroutines that make calls. *)
Definition race_start : Metrics * RpcController nat :=
  let st := NewController 1 0 NewMetrics in
  (st.1, match @rpc_Start nat (defaultDialer accepting NewRPCConfig) st.2 with
         | Ret _ c | Block _ c | Panic _ c => c
         end).
Definition first_call : proc ((Metrics * RpcController nat) * nat) unit :=
  @p_call nat flaky_server "s1" sample_env0 (CallSubscribe "user" "chat") ;>> Pure tt.
Definition second_call : proc ((Metrics * RpcController nat) * nat) unit :=
  @p_call nat flaky_server "s2" sample_env0 (CallPerform "user" "chat" "data") ;>> Pure tt.

(** The first call takes the ticket and sends its request, the second one is pending. *)
Definition first_sends : list nat := [0; 1; 0; 0; 0; 0; 0; 0].
Definition after_first := run_schedule first_sends [first_call; second_call] (race_start, 0).

Lemma race_started : @rpc_started nat 1 race_start.
Proof. by exists (defaultDialer accepting NewRPCConfig), 0, NewMetrics. Qed.

Lemma two_calls_reach c : after_first = Some c -> @calls_reach nat flaky_server race_start c.
Proof.
  intros Hc. eapply rtc_l; [apply (step_starts _ [] _ first_call); by constructor |].
  eapply rtc_l; [apply (step_starts _ [first_call] _ second_call); by constructor |].
  by apply (run_schedule_reaches _ first_sends).
Qed.

Lemma calls_bounded_witness :
  match after_first with
  | Some (ts, ((m, c), sent)) => sent = 1 /\ (Z.of_nat sent <= busy c <= 1)%Z
  | None => False
  end.
Proof.
  assert (Hrun : match after_first with Some (_, (_, sent)) => Nat.eqb sent 1 | None => false end = true)
    by (vm_compute; reflexivity).
  destruct after_first as [[ts [[m c] sent]]|] eqn:Hc; [| discriminate Hrun].
  split; [by apply Nat.eqb_eq |].
  exact (proj1 (@calls_bounded nat flaky_server 1 race_start ts m c sent race_started (two_calls_reach _ Hc))).
Defined.

Lemma calls_never_deadlock_witness :
  match after_first with
  | Some (ts, ((m, c), sent)) => exists i p, ts !! i = Some p /\ can_step p ((m, c), sent)
  | None => False
  end.
Proof.
  assert (Hrun : match after_first with Some (_, (_, sent)) => Nat.eqb sent 1 | None => false end = true)
    by (vm_compute; reflexivity).
  destruct after_first as [[ts [[m c] sent]]|] eqn:Hc; [| discriminate Hrun].
  destruct (@calls_never_deadlock nat flaky_server 1 race_start ts m c sent ltac:(lia) race_started (two_calls_reach _ Hc))
    as [Hstep|(_ & _ & Hsent & _)]; [exact Hstep |]. rewrite Hsent in Hrun. discriminate Hrun.
Defined.
