(* ===== verification/Grpc.v ===== *)
(** * The generated RPC service

    The client and server sides of the service in [src/protos/rpc.pb.go]: the stubs the
    controller calls, the handlers of the service and its description. Encoding and the
    transport belong to the protobuf and gRPC libraries: they are parameters. What is
    known of the encoding is that a decoded message is the encoded one, but for maps: an
    empty map is not sent and comes back nil. *)

From Stdlib Require Import ZArith Lia Ascii String.
From stdpp Require Import base gmap strings list fin_maps.
From S2P Require Import Prelude Json Common Protocol Metrics Rpc RpcProps Options Dialer.

Local Open Scope string_scope.

(** ** Messages on the wire *)

Definition wire_map (m : option (gmap string string)) : option (gmap string string) :=
  match m with
  | Some m => if decide (m = ∅) then None else Some m
  | None => None
  end.
Definition wire_Env (e : Env) : Env :=
  mkEnv (Url e) (wire_map (pb_Headers e)) (wire_map (Cstate e)) (wire_map (Istate e)).
Definition wire_EnvResponse (e : EnvResponse) : EnvResponse :=
  mkEnvResponse (wire_map (er_Cstate e)) (wire_map (er_Istate e)).

(** A type of messages, with what is left of a message on the wire, and its encoding. *)
Class PbMessage (T : Type) : Type := { wire : T -> T }.
#[export] Instance pb_ConnectionRequest : PbMessage ConnectionRequest :=
  {| wire m := mkConnectionRequest (wire_Env (cq_Env m)) |}.
#[export] Instance pb_ConnectionResponse : PbMessage ConnectionResponse :=
  {| wire m := mkConnectionResponse (cr_Status m) (cr_Identifiers m) (cr_Transmissions m) (cr_ErrorMsg m)
                 (wire_EnvResponse <$> cr_Env m) |}.
#[export] Instance pb_CommandMessage : PbMessage CommandMessage :=
  {| wire m := mkCommandMessage (cm_Command m) (cm_Identifier m) (cm_ConnectionIdentifiers m) (cm_Data m)
                 (wire_Env (cm_Env m)) |}.
#[export] Instance pb_CommandResponse : PbMessage CommandResponse :=
  {| wire m := mkCommandResponse (cmr_Status m) (cmr_Disconnect m) (cmr_StopStreams m) (cmr_Streams m)
                 (cmr_Transmissions m) (cmr_ErrorMsg m) (wire_EnvResponse <$> cmr_Env m) (cmr_StoppedStreams m) |}.
#[export] Instance pb_DisconnectRequest : PbMessage DisconnectRequest :=
  {| wire m := mkDisconnectRequest (dr_Identifiers m) (dr_Subscriptions m) (wire_Env (dr_Env m)) |}.
#[export] Instance pb_DisconnectResponse : PbMessage DisconnectResponse := {| wire m := m |}.

(** An encoding of a type of messages as [B]; what [proto.Marshal] and [proto.Unmarshal]
    promise. *)
Class Codec (B T : Type) `{PbMessage T} : Type := {
  encode : T -> B;
  decode : B -> result T;
  decode_encode : forall m, decode (encode m) = Ok (wire m)
}.

(** ** The client *)

(** The metadata of a call. *)
Abbreviation context := (list (string * string)).

Definition rpc_Connect : string := "/anycable.RPC/Connect".
Definition rpc_Command : string := "/anycable.RPC/Command".
Definition rpc_Disconnect_method : string := "/anycable.RPC/Disconnect".

Section service.
Context {B S : Type}.
Context `{Codec B ConnectionRequest} `{Codec B ConnectionResponse} `{Codec B CommandMessage}.
Context `{Codec B CommandResponse} `{Codec B DisconnectRequest} `{Codec B DisconnectResponse}.

(** What the connection does with an encoded request for a method: an encoded answer or an
    error, and a new state of the other side. *)
Abbreviation transport := (context -> string -> B -> S -> result B * S).

(** [ClientConn.Invoke] *)
Definition Invoke {I O} `{Codec B I} `{Codec B O} (send : transport) (ctx : context) (method : string)
    (in_ : I) (s : S) : result O * S :=
  let '(r, s) := send ctx method (encode in_) s in
  match r with
  | Ok b => (decode b, s)
  | Err e => (Err e, s)
  end.

Definition rPCClient_Connect (send : transport) (ctx : context) (in_ : ConnectionRequest) (s : S)
    : result ConnectionResponse * S := Invoke send ctx rpc_Connect in_ s.
Definition rPCClient_Command (send : transport) (ctx : context) (in_ : CommandMessage) (s : S)
    : result CommandResponse * S := Invoke send ctx rpc_Command in_ s.
Definition rPCClient_Disconnect (send : transport) (ctx : context) (in_ : DisconnectRequest) (s : S)
    : result DisconnectResponse * S := Invoke send ctx rpc_Disconnect_method in_ s.

(** ** The server *)

Record RPCServer : Type := mkRPCServer {
  srv_Connect : context -> ConnectionRequest -> S -> result ConnectionResponse * S;
  srv_Command : context -> CommandMessage -> S -> result CommandResponse * S;
  srv_Disconnect : context -> DisconnectRequest -> S -> result DisconnectResponse * S
}.

Definition Unimplemented : Z := 12.
Definition UnimplementedRPCServer : RPCServer := {|
  srv_Connect := fun _ _ s => (Err (StatusError Unimplemented "method Connect not implemented"), s);
  srv_Command := fun _ _ s => (Err (StatusError Unimplemented "method Command not implemented"), s);
  srv_Disconnect := fun _ _ s => (Err (StatusError Unimplemented "method Disconnect not implemented"), s)
|}.

(** A handler gets the encoded request and answers with an encoded response. An interceptor
    is given the method, the request and the rest of the handler. *)
Abbreviation handler := (context -> B -> S -> result B * S).
Definition interceptor (I O : Type) : Type :=
  context -> I -> string -> (context -> I -> S -> result O * S) -> S -> result O * S.

(** The common form of the generated handlers, for the method of the server they call. *)
Definition handle {I O} `{Codec B I} `{Codec B O} (method : string) (call : context -> I -> S -> result O * S)
    (i : option (interceptor I O)) : handler := fun ctx b s =>
  match decode b with
  | Err e => (Err e, s)
  | Ok in_ =>
      let '(r, s) :=
        match i with
        | None => call ctx in_ s
        | Some i => i ctx in_ method call s
        end in
      (match r with Ok out => Ok (encode out) | Err e => Err e end, s)
  end.

Definition RPC_Connect_Handler (srv : RPCServer) := handle rpc_Connect (srv_Connect srv).
Definition RPC_Command_Handler (srv : RPCServer) := handle rpc_Command (srv_Command srv).
Definition RPC_Disconnect_Handler (srv : RPCServer) := handle rpc_Disconnect_method (srv_Disconnect srv).

(** The description of the service: its name and its methods, here without interceptors. *)
Definition RPC_ServiceName : string := "anycable.RPC".
Definition RPC_serviceDesc (srv : RPCServer) : list (string * handler) :=
  [("Connect", RPC_Connect_Handler srv None);
   ("Command", RPC_Command_Handler srv None);
   ("Disconnect", RPC_Disconnect_Handler srv None)].

(** A connection to a server on which the service is registered: a request for a method of
    the service is given to the handler of the description. *)
Definition serves (send : transport) (srv : RPCServer) : Prop :=
  forall ctx name h b s, (name, h) ∈ RPC_serviceDesc srv ->
    send ctx ("/" ++ RPC_ServiceName ++ "/" ++ name) b s = h ctx b s.

(** ** Requests arrive *)

(** What a client gets to see of an answer. *)
Definition seen {O} `{PbMessage O} (r : result O * S) : result O * S :=
  (match r.1 with Ok out => Ok (wire out) | Err e => Err e end, r.2).

Lemma Invoke_served {I O} `{Codec B I} `{Codec B O} (send : transport) call method ctx (in_ : I) s :
  (forall b s, send ctx method b s = handle method call None ctx b s) ->
  Invoke (O := O) send ctx method in_ s = seen (call ctx (wire in_) s).
Proof.
  intros Hsend. unfold Invoke. rewrite Hsend. unfold handle. rewrite decode_encode.
  unfold seen. destruct (call ctx (wire in_) s) as [[out|e] s']; simpl; [by rewrite decode_encode | done].
Qed.

(** A call of a client stub is the call of the method of the same name of the server,
    with the same metadata: the request arrives as it was sent and the answer (or the error)
    comes back as it was given, but for empty maps, which become nil. No method is answered
    by another one. *)
Theorem stubs_reach_server send srv ctx s :
  serves send srv ->
  (forall in_, rPCClient_Connect send ctx in_ s = seen (srv_Connect srv ctx (wire in_) s)) /\
  (forall in_, rPCClient_Command send ctx in_ s = seen (srv_Command srv ctx (wire in_) s)) /\
  (forall in_, rPCClient_Disconnect send ctx in_ s = seen (srv_Disconnect srv ctx (wire in_) s)).
Proof.
  intros Hs. split_and!; intros in_; apply Invoke_served; intros b s'.
  - apply (Hs ctx "Connect" (RPC_Connect_Handler srv None)). set_solver.
  - apply (Hs ctx "Command" (RPC_Command_Handler srv None)). set_solver.
  - apply (Hs ctx "Disconnect" (RPC_Disconnect_Handler srv None)). set_solver.
Qed.
End service.

(** ** The remote side of the controller *)

(** The client of a connection, as the controller uses it: with the metadata of the session.
    The connection itself is the gRPC library's. *)
Definition stub_remote {B S} `{Codec B ConnectionRequest} `{Codec B ConnectionResponse}
    `{Codec B CommandMessage} `{Codec B CommandResponse} `{Codec B DisconnectRequest} `{Codec B DisconnectResponse}
    (send : context -> string -> B -> S -> result B * S)
    (get_state : S -> connectivity * S) (reset_backoff close : S -> S) : Remote S := {|
  client_Connect := fun sid m s => rPCClient_Connect send (newContext sid) m s;
  client_Command := fun sid m s => rPCClient_Command send (newContext sid) m s;
  client_Disconnect := fun sid m s => rPCClient_Disconnect send (newContext sid) m s;
  conn_GetState := get_state;
  conn_ResetConnectBackoff := reset_backoff;
  conn_Close := close
|}.

Section calls.
Context {B S : Type}.
Context `{Codec B ConnectionRequest} `{Codec B ConnectionResponse} `{Codec B CommandMessage}.
Context `{Codec B CommandResponse} `{Codec B DisconnectRequest} `{Codec B DisconnectResponse}.
Context (send : context -> string -> B -> S -> result B * S).
Context (get_state : S -> connectivity * S) (reset_backoff close : S -> S).
Implicit Types (m : Metrics) (c : RpcController S).

Abbreviation remote := (stub_remote send get_state reset_backoff close).

(** A ready controller whose connection is up and has not been lost. *)
Definition connected c : Prop :=
  rc_clientState c = Some (mkHelper false false) /\ get_state (rc_remote c) = (Ready, rc_remote c).

(** An attempt that succeeds is the only one. *)
Lemma retry_first_try {A} (callback : M (RpcController S) (result A)) m c a c' :
  connected c -> callback c = Ret (Ok a) c' -> @retry S remote A callback (m, c) = Ret (Ok a) (m, c').
Proof.
  intros [Hh Hs] Hc. unfold retry. change retry_fuel with (Datatypes.S 302). generalize 302 as n; intros n. cbn [retry_loop].
  assert (Hready : @helper_Ready S remote c = Ret None c).
  { unfold helper_Ready, bind, on_helper, zoom, get, call. rewrite Hh. simpl. rewrite Hs. simpl.
    unfold set_clientState, set_remote. simpl. destruct c; simpl in *. by subst. }
  erewrite bind_ret_eq by (unfold on_rpc, zoom; simpl; by rewrite Hready).
  cbv iota beta. by erewrite bind_ret_eq by (unfold on_rpc, zoom; simpl; by rewrite Hc).
Qed.

(** C18. From the controller to the server and back: when the connection is up, one call of
    the controller for a session is one call of the server's [Connect], with the identifier
    of the session in its metadata and the environment of the session in its message, and
    what the controller returns is its parse of the server's answer. *)
Theorem Authenticate_end_to_end srv sid env m c free req resp s' :
  serves send srv -> @rpc_ready S m c free -> connected c ->
  NewConnectMessage env c = Ret req c ->
  srv_Connect srv [("sid", sid); ("protov", "v1")] (wire req) (rc_remote c) = (Ok resp, s') ->
  exists m' c', @rpc_Authenticate S remote sid env (m, c) = Ret (ParseConnectResponse (wire resp)) (m', c') /\
    rc_remote c' = s' /\ rc_sem c' = rc_sem c /\ gauges m' = gauges m.
Proof.
  intros Hserve Hready Hcon Hreq Hsrv. destruct Hready as [_ [x Hx] _ _ Hp (cap & Hsem & Hcap)].
  destruct (stubs_reach_server send srv (newContext sid) (rc_remote c) Hserve) as (Hstub & _ & _).
  exists (bumped metricsRPCCalls m), (set_sem (rc_sem c) (set_remote s' (taken free cap c))).
  split; [| by split_and!].
  apply (with_ticket_ok (R := S) _ m c free cap); [done | done | done | | done].
  erewrite bind_ret_eq by (apply counter_inc_rpc; by eexists).
  assert (Hreq' : NewConnectMessage env (taken free cap c) = Ret req (taken free cap c)).
  { revert Hreq. unfold NewConnectMessage, buildEnv, bind. destruct (Headers env); [| done]. simpl. by intros [= ->]. }
  assert (Htry : (let! req := NewConnectMessage env in call (@client_Connect S remote sid req)) (taken free cap c) =
    Ret (Ok (wire resp)) (set_remote s' (taken free cap c))).
  { erewrite bind_ret_eq by exact Hreq'. unfold call. simpl. unfold newContext in Hstub. rewrite Hstub.
    change ProtoVersions with "v1". rewrite Hsrv. reflexivity. }
  erewrite bind_ret_eq by (apply retry_first_try; [exact Hcon | exact Htry]). reflexivity.
Qed.
End calls.

(** ** A concrete connection *)

(** Messages that are handed over as they are, and a server in the same process. *)
Inductive parcel : Type :=
| ParcelConnectionRequest (m : ConnectionRequest)
| ParcelConnectionResponse (m : ConnectionResponse)
| ParcelCommandMessage (m : CommandMessage)
| ParcelCommandResponse (m : CommandResponse)
| ParcelDisconnectRequest (m : DisconnectRequest)
| ParcelDisconnectResponse (m : DisconnectResponse).

Definition bad_parcel : error := StatusError 13 "unexpected message".

#[export] Instance codec_ConnectionRequest : Codec parcel ConnectionRequest :=
  {| encode := ParcelConnectionRequest;
     decode p := match p with ParcelConnectionRequest m => Ok (wire m) | _ => Err bad_parcel end;
     decode_encode m := eq_refl |}.
#[export] Instance codec_ConnectionResponse : Codec parcel ConnectionResponse :=
  {| encode := ParcelConnectionResponse;
     decode p := match p with ParcelConnectionResponse m => Ok (wire m) | _ => Err bad_parcel end;
     decode_encode m := eq_refl |}.
#[export] Instance codec_CommandMessage : Codec parcel CommandMessage :=
  {| encode := ParcelCommandMessage;
     decode p := match p with ParcelCommandMessage m => Ok (wire m) | _ => Err bad_parcel end;
     decode_encode m := eq_refl |}.
#[export] Instance codec_CommandResponse : Codec parcel CommandResponse :=
  {| encode := ParcelCommandResponse;
     decode p := match p with ParcelCommandResponse m => Ok (wire m) | _ => Err bad_parcel end;
     decode_encode m := eq_refl |}.
#[export] Instance codec_DisconnectRequest : Codec parcel DisconnectRequest :=
  {| encode := ParcelDisconnectRequest;
     decode p := match p with ParcelDisconnectRequest m => Ok (wire m) | _ => Err bad_parcel end;
     decode_encode m := eq_refl |}.
#[export] Instance codec_DisconnectResponse : Codec parcel DisconnectResponse :=
  {| encode := ParcelDisconnectResponse;
     decode p := match p with ParcelDisconnectResponse m => Ok (wire m) | _ => Err bad_parcel end;
     decode_encode m := eq_refl |}.

(** A server that admits everybody, and counts its calls. *)
Definition counting_server : RPCServer (S := nat) := {|
  srv_Connect := fun ctx _ n =>
    (Ok (mkConnectionResponse 1 (default EmptyString (snd <$> ctx !! 0)) ["welcome"] EmptyString None), Datatypes.S n);
  srv_Command := fun _ _ n => (Ok (mkCommandResponse 1 false false [] [] EmptyString None []), Datatypes.S n);
  srv_Disconnect := fun _ _ n => (Ok (mkDisconnectResponse 1 EmptyString), Datatypes.S n)
|}.

Definition in_process (ctx : context) (method : string) (b : parcel) (n : nat) : result parcel * nat :=
  match find (fun mh => String.eqb method ("/" ++ RPC_ServiceName ++ "/" ++ mh.1)) (RPC_serviceDesc counting_server) with
  | Some mh => mh.2 ctx b n
  | None => (Err (StatusError Unimplemented "unknown method"), n)
  end.

Lemma in_process_serves : serves in_process counting_server.
Proof.
  intros ctx name h b n Hin. unfold RPC_serviceDesc in Hin. rewrite !elem_of_cons, elem_of_nil in Hin.
  destruct Hin as [[= -> ->]|[[= -> ->]|[[= -> ->]|[]]]]; reflexivity.
Qed.

Lemma stubs_reach_server_witness :
  rPCClient_Connect in_process (newContext "s1") (mkConnectionRequest (mkEnv "/cable" (Some ∅) None None)) 0 =
  seen (srv_Connect counting_server (newContext "s1") (mkConnectionRequest (mkEnv "/cable" None None None)) 0).
Proof.
  exact (proj1 (stubs_reach_server in_process counting_server (newContext "s1") 0 in_process_serves)
    (mkConnectionRequest (mkEnv "/cable" (Some ∅) None None))).
Defined.

Lemma Authenticate_end_to_end_witness :
  exists m' c',
    @rpc_Authenticate nat (stub_remote in_process (fun n => (Ready, n)) id id) "s1" sample_env0
      ((sample_rpc 0).1, (sample_rpc 0).2) =
      Ret (ParseConnectResponse (mkConnectionResponse 1 "s1" ["welcome"] EmptyString None)) (m', c') /\
    rc_remote c' = 1.
Proof.
  destruct (Authenticate_end_to_end in_process (fun n => (Ready, n)) id id counting_server "s1" sample_env0
    (sample_rpc 0).1 (sample_rpc 0).2 1 (mkConnectionRequest (mkEnv "/cable" (Some ∅) (Some ∅) None))
    (mkConnectionResponse 1 "s1" ["welcome"] EmptyString None) 1) as (m' & c' & Hrun & Hs & _).
  - exact in_process_serves.
  - split; [by exists false | vm_compute; eauto | vm_compute; eauto | vm_compute; eauto | |].
    + exists (NewGauge metricsRPCPending "The number of pending RPC calls"). split; [reflexivity |].
      unfold is_u64, u64_modulus; simpl; lia.
    + exists 2. split; [reflexivity | lia].
  - by split.
  - reflexivity.
  - reflexivity.
  - exists m', c'. split; [exact Hrun | exact Hs].
Defined.
