(* ===== verification/Logging.v ===== *)
(** * Logging

    Package utils: the level and the format of the log ([src/utils/logging.go]) and the
    handler that writes an entry as a line of text ([src/utils/log_handler.go]). The
    logging library itself is a parameter: [ParseLevel] reads the name of a level, and
    [Names] lists the names of the fields of an entry. *)

From Stdlib Require Import ZArith NArith Lia Ascii String.
From stdpp Require Import base strings list gmap.
From S2P Require Import Prelude Json Common Net Metrics.

Local Open Scope string_scope.

(** ** Levels *)

(** The levels of the library that the code names. *)
Inductive Level : Type := DebugLevel | InfoLevel | WarnLevel | ErrorLevel | FatalLevel.

Inductive log_handler : Type := TextLog (tty : bool) | JSONLog.

Record Logger : Type := mkLogger { lg_level : Level; lg_handler : option log_handler }.

Definition InitLogger (ParseLevel : string -> option Level) (isTTY : bool) (format level : string) : M Logger (option error) :=
  match ParseLevel level with
  | None => ret (Some (Errorf ("Unknown log level: " ++ level)))
  | Some l =>
      modify (fun g => mkLogger l (lg_handler g)) ;;
      if String.eqb format "text" then modify (fun g => mkLogger (lg_level g) (Some (TextLog isTTY))) ;; ret None
      else if String.eqb format "json" then modify (fun g => mkLogger (lg_level g) (Some JSONLog)) ;; ret None
      else ret (Some (Errorf ("Unknown log format: " ++ format)))
  end.

(** ** Lines *)

Definition red : Z := 31.
Definition yellow : Z := 33.
Definition blue : Z := 34.
Definition gray : Z := 37.

(** The tables, by level. *)
Definition Colors (l : Level) : Z :=
  match l with
  | DebugLevel => gray
  | InfoLevel => blue
  | WarnLevel => yellow
  | ErrorLevel => red
  | FatalLevel => red
  end.

Definition Strings (l : Level) : string :=
  match l with
  | DebugLevel => "DEBUG"
  | InfoLevel => "INFO"
  | WarnLevel => "WARN"
  | ErrorLevel => "ERROR"
  | FatalLevel => "FATAL"
  end.

Definition Chars (l : Level) : string :=
  match l with
  | DebugLevel => "D"
  | InfoLevel => "I"
  | WarnLevel => "W"
  | ErrorLevel => "E"
  | FatalLevel => "F"
  end.

(** An entry; the values of its fields as [%v] prints them. *)
Record Entry : Type := mkEntry { e_Level : Level; e_Fields : gmap string string; e_Message : string }.

Fixpoint spaces (n : nat) : string :=
  match n with O => EmptyString | S n => String " " (spaces n) end.

(** [%6s] and [%-25s]: padded on the left, and on the right. *)
Definition pad_left (n : nat) (s : string) : string := spaces (n - String.length s) ++ s.
Definition pad_right (n : nat) (s : string) : string := s ++ spaces (n - String.length s).

Definition escape : string := str1 (ascii_of_N 27).
Definition color_on (color : Z) : string := escape ++ "[" ++ Z_to_string color ++ "m".
Definition color_off : string := escape ++ "[0m".

Definition tty_field (color : Z) (fields : gmap string string) (name : string) : string :=
  " " ++ color_on color ++ name ++ color_off ++ "=" ++ default EmptyString (fields !! name).
Definition plain_field (fields : gmap string string) (name : string) : string :=
  " " ++ name ++ "=" ++ default EmptyString (fields !! name).

Section handler.
Context (Names : gmap string string -> list string).

(** [HandleLog]: what is appended to the writer, for the time [ts]. *)
Definition HandleLog (tty : bool) (ts : string) (e : Entry) : M string unit :=
  let names := Names (e_Fields e) in
  if tty then
    let color := Colors (e_Level e) in
    let level := Strings (e_Level e) in
    modify (fun out => out ++ color_on color ++ pad_left 6 level ++ color_off ++ " " ++ ts) ;;
    each (fun name => modify (fun out => out ++ tty_field color (e_Fields e) name)) names ;;
    modify (fun out => out ++ " " ++ color_on color ++ pad_right 25 (e_Message e) ++ color_off ++ newline)
  else
    let level := Chars (e_Level e) in
    modify (fun out => out ++ level ++ " " ++ ts) ;;
    each (fun name => modify (fun out => out ++ plain_field (e_Fields e) name)) names ;;
    modify (fun out => out ++ " " ++ pad_right 25 (e_Message e) ++ newline).
End handler.

(** ** One entry is one line *)

Definition one_line (s : string) : Prop := has_byte "010" s = false.

Lemma one_line_app a b : one_line (a ++ b) <-> one_line a /\ one_line b.
Proof. unfold one_line. rewrite has_byte_app. apply orb_false_iff. Qed.

Lemma one_line_spaces n : one_line (spaces n).
Proof. unfold one_line. induction n; [done |]. simpl. done. Qed.

Lemma each_append (f : string -> string) names out :
  each (fun name => modify (fun out => out ++ f name)) names out =
  Ret tt (foldl (fun out name => out ++ f name) out names).
Proof. revert out. induction names as [|n names IH]; intros out; [done |]. apply IH. Qed.

Lemma foldl_append (f : string -> string) names out :
  (forall n, n ∈ names -> one_line (f n)) ->
  exists rest, foldl (fun out name => out ++ f name) out names = out ++ rest /\ one_line rest.
Proof.
  revert out. induction names as [|n names IH]; intros out Hf; simpl.
  { exists EmptyString. by rewrite string_app_nil_r. }
  destruct (IH (out ++ f n)) as (rest & -> & Hr); [intros k Hk; apply Hf; by right |].
  exists (f n ++ rest). rewrite string_app_assoc. split; [done |]. apply one_line_app.
  split; [apply Hf; by left | done].
Qed.

Section lines.
Context (Names : gmap string string -> list string).
Context (names_of_fields : forall fields n, n ∈ Names fields -> is_Some (fields !! n)).

(** An entry whose texts have no line breaks is written as one line: the line is appended
    to what the writer holds, and only its last byte is a line break. *)
Theorem log_entry_one_line tty ts e out :
  one_line ts -> one_line (e_Message e) ->
  (forall k v, e_Fields e !! k = Some v -> one_line k /\ one_line v) ->
  exists line, HandleLog Names tty ts e out = Ret tt (out ++ line ++ newline) /\ one_line line.
Proof.
  intros Hts Hmsg Hf.
  assert (Hpr : one_line (pad_right 25 (e_Message e))) by (apply one_line_app; split; [done | apply one_line_spaces]).
  assert (Hoff : one_line color_off) by done.
  assert (Hcol : one_line (color_on (Colors (e_Level e)))) by (destruct (e_Level e); vm_compute; done).
  assert (Hstr : one_line (pad_left 6 (Strings (e_Level e)))) by (destruct (e_Level e); vm_compute; done).
  assert (Hchr : one_line (Chars (e_Level e))) by (destruct (e_Level e); vm_compute; done).
  unfold HandleLog. destruct tty; unfold bind at 1, modify at 1; unfold bind at 1; rewrite each_append.
  - destruct (foldl_append (tty_field (Colors (e_Level e)) (e_Fields e)) (Names (e_Fields e))
      (out ++ color_on (Colors (e_Level e)) ++ pad_left 6 (Strings (e_Level e)) ++ color_off ++ " " ++ ts))
      as (rest & -> & Hr).
    { intros n [v Hv]%names_of_fields. unfold tty_field. rewrite Hv. simpl default.
      destruct (Hf n v Hv). rewrite !one_line_app. repeat split; done. }
    exists (color_on (Colors (e_Level e)) ++ pad_left 6 (Strings (e_Level e)) ++ color_off ++ " " ++ ts ++ rest ++
      " " ++ color_on (Colors (e_Level e)) ++ pad_right 25 (e_Message e) ++ color_off).
    split; [unfold modify; by rewrite !string_app_assoc |].
    rewrite !one_line_app. repeat split; done.
  - destruct (foldl_append (plain_field (e_Fields e)) (Names (e_Fields e))
      (out ++ Chars (e_Level e) ++ " " ++ ts)) as (rest & -> & Hr).
    { intros n [v Hv]%names_of_fields. unfold plain_field. rewrite Hv. simpl default.
      destruct (Hf n v Hv). rewrite !one_line_app. repeat split; done. }
    exists (Chars (e_Level e) ++ " " ++ ts ++ rest ++ " " ++ pad_right 25 (e_Message e)).
    split; [unfold modify; by rewrite !string_app_assoc |].
    rewrite !one_line_app. repeat split; done.
Qed.
End lines.
