(* ===== verification/Cli.v ===== *)
(** * The runner

    How the program is put together ([src/cli/cli.go], [src/cmd]): the runner that
    builds the components in order, the goroutines it starts, and what happens on a
    signal. The state of the process holds
    the components; a component that several others share is held once: the servers by
    the process, and the registry of the metrics by the node. *)

From Stdlib Require Import ZArith Lia Ascii String.
From stdpp Require Import base strings list gmap.
From S2P Require Import Prelude Json Common Net Metrics Rpc Encoders World Session Hub Node NodeShutdown.
From S2P Require Import Server Ws PubSub MetricsRun Gobench Options Logging.

Local Open Scope string_scope.

(** ** The version *)

(** The version is set when the program is built; [modifier] and [sha] may be empty. *)
Definition Version (version modifier sha : string) : string :=
  let v := if String.eqb version EmptyString then "1.1.4" else version in
  let v := if String.eqb modifier EmptyString then v else v ++ "-" ++ modifier in
  if String.eqb sha EmptyString then v else v ++ "-" ++ sha.

(** ** The process *)

Inductive shutdownable : Type := ShMetrics | ShSubscriber | ShServer (i : nat) | ShNode.

#[export] Instance shutdownable_eq_dec : EqDecision shutdownable.
Proof. solve_decision. Defined.

Inductive goroutine : Type := GoDisconnector | GoSubscriber | GoController | GoServer (i : nat) | GoMetrics.

#[export] Instance goroutine_eq_dec : EqDecision goroutine.
Proof. solve_decision. Defined.

Record Process (C : Type) : Type := mkProcess {
  pr_servers : Servers;
  pr_logger : Logger;
  pr_metrics : option MetricsProc;
  pr_node : option (World C);
  pr_subscriber : option Subscriber;
  pr_shutdownables : list shutdownable;
  pr_goroutines : list goroutine
}.
Arguments mkProcess {C}.
Arguments pr_servers {C}.
Arguments pr_logger {C}.
Arguments pr_metrics {C}.
Arguments pr_node {C}.
Arguments pr_subscriber {C}.
Arguments pr_shutdownables {C}.
Arguments pr_goroutines {C}.

(** [Runner]; a factory that is not set is nil. *)
Record Runner (C : Type) : Type := mkRunner {
  ru_name : string;
  ru_options : Options;
  controllerFactory : option (Metrics -> AppConfig -> result (Metrics * C));
  disconnectorFactory : option (AppConfig -> result Disconnector);
  subscriberFactory : option (AppConfig -> result Subscriber);
  websocketHandler : option (AppConfig -> option error)
}.
Arguments mkRunner {C}.
Arguments ru_name {C}.
Arguments ru_options {C}.
Arguments controllerFactory {C}.
Arguments disconnectorFactory {C}.
Arguments subscriberFactory {C}.
Arguments websocketHandler {C}.

Definition ru_config {C} (r : Runner C) : AppConfig := defaults (ru_options r).

(** [NewRunner] sets the package variables of package server. *)
Definition NewRunner {C} (name : string) (o : Options) : Runner C :=
  mkRunner (if String.eqb name EmptyString then "AnyCable" else name) o None None None None.

(** The factories are set one by one. *)
Definition ControllerFactory {C} fn (r : Runner C) : Runner C :=
  mkRunner (ru_name r) (ru_options r) (Some fn) (disconnectorFactory r) (subscriberFactory r) (websocketHandler r).
Definition DisconnectorFactory {C} fn (r : Runner C) : Runner C :=
  mkRunner (ru_name r) (ru_options r) (controllerFactory r) (Some fn) (subscriberFactory r) (websocketHandler r).
Definition SubscriberFactory {C} fn (r : Runner C) : Runner C :=
  mkRunner (ru_name r) (ru_options r) (controllerFactory r) (disconnectorFactory r) (Some fn) (websocketHandler r).
Definition Runner_WebsocketHandler {C} fn (r : Runner C) : Runner C :=
  mkRunner (ru_name r) (ru_options r) (controllerFactory r) (disconnectorFactory r) (subscriberFactory r) (Some fn).

Definition new_servers (c : AppConfig) : Servers := mkServers ∅ (cfg_Host c) (Some (cfg_SSL c)) (cfg_MaxConn c) [].

Definition new_process {C} (o : Options) : Process C :=
  mkProcess (new_servers (defaults o)) (mkLogger InfoLevel None) None None None [] [].

Section runner.
Context {C : Type} `{Controller C} {order : GoRange}.
Context (load_key_pair : string -> string -> option error) (ParseLevel : string -> option Level) (isTTY : bool).
Implicit Types (p : Process C) (r : Runner C).

Definition set_pr_servers v p := mkProcess v (pr_logger p) (pr_metrics p) (pr_node p) (pr_subscriber p) (pr_shutdownables p) (pr_goroutines p).
Definition set_pr_logger v p := mkProcess (pr_servers p) v (pr_metrics p) (pr_node p) (pr_subscriber p) (pr_shutdownables p) (pr_goroutines p).
Definition set_pr_metrics v p := mkProcess (pr_servers p) (pr_logger p) v (pr_node p) (pr_subscriber p) (pr_shutdownables p) (pr_goroutines p).
Definition set_pr_node (v : option (World C)) p := mkProcess (pr_servers p) (pr_logger p) (pr_metrics p) v (pr_subscriber p) (pr_shutdownables p) (pr_goroutines p).
Definition set_pr_subscriber v p := mkProcess (pr_servers p) (pr_logger p) (pr_metrics p) (pr_node p) v (pr_shutdownables p) (pr_goroutines p).
Definition add_shutdownable s p := mkProcess (pr_servers p) (pr_logger p) (pr_metrics p) (pr_node p) (pr_subscriber p) (pr_shutdownables p ++ [s])%list (pr_goroutines p).
Definition add_goroutine g p := mkProcess (pr_servers p) (pr_logger p) (pr_metrics p) (pr_node p) (pr_subscriber p) (pr_shutdownables p) (pr_goroutines p ++ [g])%list.

Definition on_pr_servers {A} : M Servers A -> M (Process C) A := zoom pr_servers set_pr_servers.
Definition go (g : goroutine) : M (Process C) unit := modify (add_goroutine g).

(** Code on the metrics, which work on the servers of the process. *)
Definition on_pr_metrics {A} (m : M MetricsProc A) : M (Process C) A := fun p =>
  match pr_metrics p with
  | None => nil_deref p
  | Some mp =>
      zoom (fun p => set_mp_servers (pr_servers p) mp)
           (fun mp p => set_pr_metrics (Some mp) (set_pr_servers (mp_servers mp) p)) m p
  end.

Definition on_pr_node {A} (m : M (World C) A) : M (Process C) A := fun p =>
  match pr_node p with
  | None => nil_deref p
  | Some w => zoom (fun _ => w) (fun w => set_pr_node (Some w)) m p
  end.

(** ** Building the components *)

Definition initMetrics (c : Metrics.Config) : M (Process C) (option error) := fun p =>
  match FromConfig load_key_pair c (pr_servers p) with
  | Ret err mp =>
      Ret err (set_pr_metrics (if err then None else Some mp) (set_pr_servers (mp_servers mp) p))
  | Block why mp => Block why (set_pr_servers (mp_servers mp) p)
  | Panic why mp => Panic why (set_pr_servers (mp_servers mp) p)
  end.

Definition initController r (m : Metrics) : result (Metrics * C) :=
  match controllerFactory r with
  | None => Err (Errorf "Controller factory is not specified")
  | Some fn => fn m (ru_config r)
  end.

Definition defaultDisconnector (c : AppConfig) : M (Process C) (result Disconnector) :=
  if cfg_DisconnectorDisabled c then ret (Ok NewNoopDisconnector)
  else
    let! q := NewDisconnectQueue (cfg_DisconnectQueue c) in
    ret (Ok (DQueue q)).

Definition initDisconnector r : M (Process C) (result Disconnector) :=
  match disconnectorFactory r with
  | None => defaultDisconnector (ru_config r)
  | Some fn => ret (fn (ru_config r))
  end.

Definition initSubscriber r : result Subscriber :=
  match subscriberFactory r with
  | None => Err (Errorf "Subscriber factory is not specified")
  | Some fn => fn (ru_config r)
  end.

(** The default handler cannot fail. *)
Definition initWebSocketHandler r : option error :=
  match websocketHandler r with
  | None => None
  | Some fn => fn (ru_config r)
  end.

(** The registry that the controller and the node register their metrics in. *)
Definition pr_registry p : Metrics :=
  match pr_metrics p with Some mp => mp_registry mp | None => NewMetrics end.

(** The node with its disconnector. *)
Definition start_node r (m : Metrics) (controller : C) : M (Process C) (option error) :=
  let! w := NewNode controller m (cfg_App (ru_config r)) in
  modify (set_pr_node (Some w)) ;;
  on_pr_node Node_Start ;;
  let! d := initDisconnector r in
  match d with
  | Err e => ret (Some (Errorf "!!! Failed to initialize disconnector !!!"))
  | Ok disconnector =>
      go GoDisconnector ;;
      on_pr_node (SetDisconnector disconnector) ;;
      ret None
  end.

(** The server of WebSocket connections and its handlers. *)
Definition start_server r : M (Process C) (option error) :=
  let! srv := on_pr_servers (ForPort load_key_pair (Itoa (cfg_Port (ru_config r)))) in
  match srv with
  | Err e => ret (Some (Errorf "!!! Failed to initialize WebSocket server !!!"))
  | Ok wsServer =>
      modify (add_shutdownable (ShServer wsServer)) ;;
      match initWebSocketHandler r with
      | Some e => ret (Some (Errorf "!!! Failed to initialize WebSocket handler !!!"))
      | None =>
          on_pr_servers (on_server wsServer (Handle (cfg_Path (ru_config r)) WebSocketHandler)) ;;
          on_pr_servers (on_server wsServer (Handle (cfg_HealthPath (ru_config r)) HealthHandler)) ;;
          go (GoServer wsServer) ;;
          ret None
      end
  end.

(** [if err != nil { return err }] *)
Definition or_fail (m k : M (Process C) (option error)) : M (Process C) (option error) :=
  let! err := m in
  match err with
  | Some e => ret (Some e)
  | None => k
  end.

Definition failed_as (msg : string) (m : M (Process C) (option error)) : M (Process C) (option error) :=
  let! err := m in
  ret (match err with Some _ => Some (Errorf msg) | None => None end).

(** [Run], up to the wait for an error on the channel. *)
Definition Runner_Run r : M (Process C) (option error) :=
  if showVersion (ru_options r) then ret None
  else if showHelp (ru_options r) then ret None
  else
    let c := ru_config r in
    or_fail (failed_as "!!! Failed to initialize logger !!!"
               (zoom pr_logger set_pr_logger (InitLogger ParseLevel isTTY (cfg_LogFormat c) (cfg_LogLevel c))))
    (or_fail (failed_as "!!! Failed to initialize metrics writer !!!" (initMetrics (cfg_Metrics c)))
    (modify (add_shutdownable ShMetrics) ;;
     let! p := get in
     match initController r (pr_registry p) with
     | Err e => ret (Some (Errorf "!!! Failed to initialize controller !!!"))
     | Ok (m, controller) =>
         or_fail (start_node r m controller)
         match initSubscriber r with
         | Err e => ret (Some (Errorf "Couldn't configure pub/sub"))
         | Ok subscriber =>
             modify (set_pr_subscriber (Some subscriber)) ;;
             modify (add_shutdownable ShSubscriber) ;;
             go GoSubscriber ;;
             go GoController ;;
             or_fail (start_server r)
             (go GoMetrics ;;
              modify (add_shutdownable ShNode) ;;
              block "errChan")
         end
     end)).

(** ** Shutting down *)

Definition shutdown_subscriber : M (Process C) unit := fun p =>
  match pr_subscriber p with
  | Some (SubHTTP s) =>
      match HTTP_Shutdown (pr_servers p, s) with
      | Ret _ (v, s) => Ret tt (set_pr_subscriber (Some (SubHTTP s)) (set_pr_servers v p))
      | Block why (v, s) => Block why (set_pr_servers v p)
      | Panic why (v, s) => Panic why (set_pr_servers v p)
      end
  | _ => Ret tt p
  end.

Definition shutdown_one (s : shutdownable) : M (Process C) unit :=
  match s with
  | ShMetrics => on_pr_metrics Metrics_Shutdown ;; ret tt
  | ShSubscriber => shutdown_subscriber
  | ShServer i => on_pr_servers (on_server i Server_Shutdown) ;; ret tt
  | ShNode => on_pr_node Node_Shutdown ;; ret tt
  end.

(** What [setupSignalHandlers] reserves for a signal: the shutdown of each component,
    in the order they were registered. *)
Definition reserved p : list (M (Process C) unit) := map shutdown_one (pr_shutdownables p).

(** What happens on a signal, given how the library of the signals runs what is reserved;
    the last function reserved ends the wait of [Run], which then returns nil. *)
Definition on_signal (run_reserved : list (M (Process C) unit) -> M (Process C) unit)
    : M (Process C) (option error) :=
  let! p := get in
  run_reserved (reserved p) ;;
  ret None.
End runner.

(** ** The programs *)

(** [main] of anycable-go, for a remote side still to be dialled, and of gobench-cable. *)
Definition adapter_factory (c : AppConfig) : result Subscriber :=
  NewSubscriber (cfg_BroadcastAdapter c) (cfg_Redis c) (cfg_HTTPPubSub c).

Definition anycable_runner {R} `{Remote R} (remote : R) (o : Options) : Runner (RpcController R) :=
  let runner := NewRunner EmptyString o in
  let runner := ControllerFactory (fun m c => Ok (NewController (rpc_Concurrency (cfg_RPC c)) remote m)) runner in
  SubscriberFactory adapter_factory runner.

Definition gobench_runner (o : Options) : Runner nat :=
  let runner := NewRunner "GoBenchCable" o in
  let runner := ControllerFactory (fun m c => Ok (gobench_NewController m)) runner in
  SubscriberFactory adapter_factory runner.

(** ** Paths that are free *)

(** Every port of the map has its server, and no server handles a path yet that [P]
    holds of. *)
Record servers_ready (P : string -> Prop) (w : Servers) : Prop := {
  sr_ports : forall port i, allServers w !! port = Some i -> is_Some (servers w !! i);
  sr_free : forall i s path, servers w !! i = Some s -> P path -> Mux s !! path = None
}.

Section boot.
Context (load_key_pair : string -> string -> option error).
Context (keys_load : forall cert key, load_key_pair cert key = None).

Lemma NewServer_ready P host port ssl n w :
  servers_ready P w ->
  exists s, NewServer load_key_pair host port ssl n w =
      Ret (Ok (length (servers w))) (set_servers (servers w ++ [s])%list w) /\
    servers_ready P (set_servers (servers w ++ [s])%list w).
Proof.
  intros [Hports Hfree].
  assert (Hnew : exists s, Mux s = ∅ /\ NewServer load_key_pair host port ssl n w =
      Ret (Ok (length (servers w))) (set_servers (servers w ++ [s])%list w)).
  { unfold NewServer. destruct ssl as [opts|]; [rewrite keys_load; destruct (Available opts) |];
      (eexists; split; [| reflexivity]; reflexivity). }
  destruct Hnew as (s & Hm & Hrun). exists s. split; [exact Hrun |]. split; simpl.
  - intros port' i Hi. destruct (Hports port' i Hi) as [u Hu]. exists u. by apply lookup_app_l_Some.
  - intros i u path Hu HP. apply lookup_app_Some in Hu as [Hu | [_ Hu]]; [by eapply Hfree |].
    apply list_lookup_singleton_Some in Hu as [_ <-]. by rewrite Hm.
Qed.

Lemma ForPort_ready P port w :
  servers_ready P w ->
  exists i w', ForPort load_key_pair port w = Ret (Ok i) w' /\ is_Some (servers w' !! i) /\
    allServers w' !! port = Some i /\ servers_ready P w' /\
    (forall q j, q <> port -> allServers w !! q = Some j -> allServers w' !! q = Some j).
Proof.
  intros Hw. unfold ForPort, ForPort_look, bind. destruct (allServers w !! port) as [i|] eqn:Hp.
  { exists i, w. split; [done |]. split; [by eapply sr_ports |]. done. }
  unfold ForPort_make, bind, get.
  destruct (NewServer_ready P (Host w) port (SSL w) (MaxConn w) w Hw) as (s & -> & [Hports Hfree]).
  unfold ForPort_store, bind, modify, ret. do 2 eexists. split; [reflexivity |]. simpl.
  split; [by rewrite lookup_app_r, Nat.sub_diag by lia |]. split; [by rewrite lookup_insert_eq |].
  split; [| intros q j Hq Hj; by rewrite lookup_insert_ne].
  split; simpl; [| exact Hfree].
  intros q j Hq. apply lookup_insert_Some in Hq as [[-> <-] | [_ Hq]]; [| by eapply Hports].
  by rewrite lookup_app_r, Nat.sub_diag by lia.
Qed.

Lemma Handle_ok path h s :
  path <> EmptyString -> Mux s !! path = None -> Handle path h s = Ret tt (set_Mux (<[path := h]> (Mux s)) s).
Proof.
  intros Hne Hfree. unfold Handle, zoom, mux_Handle. by rewrite (proj2 (String.eqb_neq _ _) Hne), Hfree.
Qed.

(** Registering a path leaves the others free. *)
Lemma Handle_ready (P Q : string -> Prop) i path h w :
  servers_ready P w -> is_Some (servers w !! i) -> path <> EmptyString -> P path ->
  (forall q, Q q -> P q /\ q <> path) ->
  exists s, on_server i (Handle path h) w = Ret tt (set_servers (<[i := s]> (servers w)) w) /\
    Mux s !! path = Some h /\
    (forall q g u, servers w !! i = Some u -> Mux u !! q = Some g -> Mux s !! q = Some g) /\
    servers_ready Q (set_servers (<[i := s]> (servers w)) w).
Proof.
  intros [Hports Hfree] [u Hu] Hne HP HQ. pose proof (Hfree i u path Hu HP) as Hn.
  exists (set_Mux (<[path := h]> (Mux u)) u). split; [by apply on_server_ret with u; [| apply Handle_ok] |].
  split; [simpl; by rewrite lookup_insert_eq |]. split.
  - intros q g u' Hu' Hg. rewrite Hu in Hu'. injection Hu' as <-. simpl.
    rewrite lookup_insert_ne; [done | congruence].
  - split; simpl.
    + intros port j Hj. destruct (Hports port j Hj) as [v Hv]. destruct (decide (i = j)) as [->|Hij].
      * rewrite list_lookup_insert_eq by (by eapply lookup_lt_Some). done.
      * by rewrite list_lookup_insert_ne.
    + intros j v q Hv Hq. destruct (HQ q Hq) as [HPq Hqp].
      apply list_lookup_insert_Some in Hv as [(-> & <- & _) | [_ Hv]]; [| by eapply Hfree].
      simpl. rewrite lookup_insert_ne by done. by eapply Hfree.
Qed.

Lemma servers_ready_mono (P Q : string -> Prop) w :
  servers_ready P w -> (forall q, Q q -> P q) -> servers_ready Q w.
Proof. intros [Hp Hf] HQ. split; [done |]. intros i s q Hi Hq. eapply Hf; eauto. Qed.

(** The metrics are built, and their path is the only one taken. *)
Lemma FromConfig_ready c w (Q : string -> Prop) :
  LogFormatter c = EmptyString -> servers_ready (fun _ => True) w ->
  (HTTPEnabled c = true -> forall q, Q q -> q <> HTTP c) ->
  exists mp, FromConfig load_key_pair c w = Ret None mp /\ servers_ready Q (mp_servers mp).
Proof.
  intros Hlf Hw HQ. unfold FromConfig.
  assert (Hwr : exists ws, config_writers c = Ok ws).
  { unfold config_writers, LogFormatterEnabled. rewrite Hlf. simpl. destruct (LogEnabled c); by eexists. }
  destruct Hwr as [ws ->]. unfold config_endpoint. destruct (HTTPEnabled c) eqn:Hh.
  2: { eexists. split; [reflexivity |]. by eapply servers_ready_mono. }
  unfold bind at 1, get at 1.
  assert (Hsrv : exists i w', (if negb (String.eqb (Metrics.Host c) EmptyString) &&
           negb (String.eqb (Metrics.Host c) (Server.Host w))
        then NewServer load_key_pair (Metrics.Host c) (Itoa (Port c)) (SSL w) 0
        else ForPort load_key_pair (Itoa (Port c))) w = Ret (Ok i) w' /\
      is_Some (servers w' !! i) /\ servers_ready (fun _ => True) w').
  { destruct (_ && _).
    - destruct (NewServer_ready _ (Metrics.Host c) (Itoa (Port c)) (SSL w) 0 w Hw) as (s & -> & Hw').
      do 2 eexists. split; [reflexivity |]. split; [| exact Hw']. simpl.
      by rewrite lookup_app_r, Nat.sub_diag by lia.
    - destruct (ForPort_ready _ (Itoa (Port c)) w Hw) as (i & w' & -> & Hi & _ & Hw' & _). by exists i, w'. }
  destruct Hsrv as (i & w' & Hrun & Hi & Hw'). unfold bind at 1, on_mp_servers at 1, zoom at 1.
  cbn [mp_servers NewMetricsProc]. rewrite Hrun.
  destruct (Handle_ready _ Q i (HTTP c) PrometheusHandler w' Hw' Hi) as (s & Hhandle & _ & _ & Hs); [| done | auto |].
  { unfold HTTPEnabled in Hh. intros Heq. by rewrite Heq in Hh. }
  unfold mount, bind, modify, on_mp_servers, zoom. simpl. rewrite Hhandle.
  eexists. split; [reflexivity | exact Hs].
Qed.
End boot.

(** ** The program starts *)

(** A configuration with which the program starts. *)
Record bootable (ParseLevel : string -> option Level) (c : AppConfig) : Prop := {
  bt_level : is_Some (ParseLevel (cfg_LogLevel c));
  bt_format : cfg_LogFormat c = "text" \/ cfg_LogFormat c = "json";
  bt_formatter : LogFormatter (cfg_Metrics c) = EmptyString;
  bt_metrics : HTTPEnabled (cfg_Metrics c) = true ->
    HTTP (cfg_Metrics c) <> cfg_Path c /\ HTTP (cfg_Metrics c) <> cfg_HealthPath c;
  bt_pool : (0 < HubGopoolSize (cfg_App c))%Z;
  bt_rate : cfg_DisconnectorDisabled c = true \/ Rate (cfg_DisconnectQueue c) <> 0%Z;
  bt_path : cfg_Path c <> EmptyString;
  bt_health : cfg_HealthPath c <> EmptyString;
  bt_paths : cfg_Path c <> cfg_HealthPath c
}.

Section starts.
Context {C : Type} `{Controller C}.
Context (load_key_pair : string -> string -> option error) (ParseLevel : string -> option Level) (isTTY : bool).
Context (keys_load : forall cert key, load_key_pair cert key = None).
Implicit Types (p : Process C) (r : Runner C).

Lemma InitLogger_ok c g :
  bootable ParseLevel c -> exists g', InitLogger ParseLevel isTTY (cfg_LogFormat c) (cfg_LogLevel c) g = Ret None g'.
Proof.
  intros Hc. unfold InitLogger. destruct (bt_level _ c Hc) as [l ->].
  destruct (bt_format _ c Hc) as [-> | ->]; by eexists.
Qed.

Lemma initDisconnector_ok r p :
  bootable ParseLevel (ru_config r) -> disconnectorFactory r = None -> exists d, initDisconnector r p = Ret (Ok d) p.
Proof.
  intros Hc Hd. unfold initDisconnector, defaultDisconnector. rewrite Hd.
  destruct (cfg_DisconnectorDisabled (ru_config r)) eqn:E; [by eexists |].
  destruct (bt_rate _ _ Hc) as [? | Hr]; [congruence |].
  unfold NewDisconnectQueue, bind. rewrite (proj2 (Z.eqb_neq _ _) Hr). by eexists.
Qed.

(** The node is built, started, and has its disconnector. *)
Lemma start_node_ok r m c p :
  bootable ParseLevel (ru_config r) -> disconnectorFactory r = None ->
  exists w, start_node r m c p = Ret None (add_goroutine GoDisconnector (set_pr_node (Some w) p)) /\
    running (w_hub w) = true /\ is_Some (w_disconnector w) /\ w_ctl w = c /\ w_shutdownCh w = true.
Proof.
  intros Hc Hd. unfold start_node, NewNode, NewHub, NewGoPool.
  pose proof (bt_pool _ _ Hc) as Hpool.
  rewrite (proj2 (Z.ltb_ge _ _)), (proj2 (Z.eqb_neq _ _)) by lia. unfold bind at 1. simpl.
  unfold bind at 1, modify at 1. unfold bind at 1. unfold on_pr_node at 1. simpl. unfold bind at 1.
  edestruct (initDisconnector_ok r) as [d ->]; [done | done |].
  unfold bind, go, modify, on_pr_node. simpl. eexists. split; [reflexivity |]. by repeat split.
Qed.

(** The server listens for WebSocket connections and for health checks. *)
Lemma start_server_ok r p :
  bootable ParseLevel (ru_config r) -> websocketHandler r = None ->
  servers_ready (fun q => q = cfg_Path (ru_config r) \/ q = cfg_HealthPath (ru_config r)) (pr_servers p) ->
  exists i s w, start_server load_key_pair r p =
      Ret None (add_goroutine (GoServer i) (set_pr_servers w (add_shutdownable (ShServer i) p))) /\
    servers w !! i = Some s /\ allServers w !! Itoa (cfg_Port (ru_config r)) = Some i /\
    Mux s !! cfg_Path (ru_config r) = Some WebSocketHandler /\
    Mux s !! cfg_HealthPath (ru_config r) = Some HealthHandler.
Proof.
  intros Hc Hws Hready. unfold start_server.
  destruct (ForPort_ready load_key_pair keys_load _ (Itoa (cfg_Port (ru_config r))) _ Hready)
    as (i & w1 & Hport & Hi & Hall & Hready1 & _).
  unfold bind at 1, on_pr_servers at 1, zoom at 1. rewrite Hport. unfold bind at 1, modify at 1.
  unfold initWebSocketHandler. rewrite Hws.
  destruct (Handle_ready _ (fun q => q = cfg_HealthPath (ru_config r)) i (cfg_Path (ru_config r)) WebSocketHandler
    w1 Hready1 Hi) as (s1 & Hh1 & Hp1 & _ & Hready2); [apply Hc | by left | |].
  { intros q ->. split; [by right |]. intros Heq. by apply (bt_paths _ _ Hc). }
  unfold bind at 1, on_pr_servers at 1, zoom at 1. simpl. rewrite Hh1.
  assert (Hi1 : servers (set_servers (<[i:=s1]> (servers w1)) w1) !! i = Some s1).
  { destruct Hi as [u Hu]. simpl. apply list_lookup_insert_eq. by eapply lookup_lt_Some. }
  destruct (Handle_ready _ (fun _ => False) i (cfg_HealthPath (ru_config r)) HealthHandler
    _ Hready2 (ex_intro _ s1 Hi1)) as (s2 & Hh2 & Hp2 & Hkeep & _); [apply Hc | done | done |].
  unfold bind at 1, on_pr_servers at 1, zoom at 1. simpl. rewrite Hh2.
  exists i, s2. eexists. split; [reflexivity |]. simpl.
  split; [apply list_lookup_insert_eq; rewrite length_insert; destruct Hi as [u Hu]; by eapply lookup_lt_Some |].
  split; [exact Hall |]. split; [by apply (Hkeep _ _ s1) | done].
Qed.

Lemma or_fail_ok m k p p' : m p = Ret None p' -> or_fail m k p = k p'.
Proof. intros Hm. unfold or_fail, bind. by rewrite Hm. Qed.

Lemma failed_as_ok msg m p p' : m p = Ret None p' -> failed_as msg m p = Ret None p'.
Proof. intros Hm. unfold failed_as, bind. by rewrite Hm. Qed.


End starts.

(** ** The program does not start *)

Section fails.
Context {C : Type} `{Controller C}.
Context (load_key_pair : string -> string -> option error) (ParseLevel : string -> option Level) (isTTY : bool).
Implicit Types (p : Process C) (r : Runner C).

(** Goroutines that are not running while the components are built. *)
Definition not_serving p : Prop := (forall i, GoServer i ∉ pr_goroutines p) /\ GoMetrics ∉ pr_goroutines p.

Definition fails_closed (m : M (Process C) (option error)) p : Prop :=
  forall res p', m p = Ret res p' -> is_Some res /\ not_serving p'.

Lemma fails_closed_ret e p : not_serving p -> fails_closed (ret (Some e)) p.
Proof. intros Hp res p' [= <- <-]. by split; [eexists |]. Qed.

Lemma fails_closed_or_fail m k p :
  (forall e p', m p = Ret (Some e) p' -> not_serving p') ->
  (forall p', m p = Ret None p' -> fails_closed k p') -> fails_closed (or_fail m k) p.
Proof.
  intros He Hk res p'. unfold or_fail, bind. destruct (m p) as [[e|] p1| |]; [| | done | done].
  - intros [= <- <-]. split; [by eexists | by apply (He e)].
  - intros Hrun. by apply (Hk p1).
Qed.

Lemma failed_as_ret msg m p err p' :
  failed_as msg m p = Ret err p' -> exists err', m p = Ret err' p'.
Proof. unfold failed_as, bind. destruct (m p); [| done..]. intros [= _ <-]. by eexists. Qed.

Lemma logger_goroutines c p err p' :
  zoom pr_logger set_pr_logger (InitLogger ParseLevel isTTY (cfg_LogFormat c) (cfg_LogLevel c)) p = Ret err p' ->
  pr_goroutines p' = pr_goroutines p.
Proof. unfold zoom. destruct (InitLogger _ _ _ _); [| done..]. by intros [= _ <-]. Qed.

Lemma initMetrics_goroutines c p err p' :
  initMetrics load_key_pair c p = Ret err p' -> pr_goroutines p' = pr_goroutines p.
Proof. unfold initMetrics. destruct (FromConfig _ _ _); [| done..]. by intros [= _ <-]. Qed.

Lemma initDisconnector_goroutines r p d p' : initDisconnector r p = Ret d p' -> p' = p.
Proof.
  unfold initDisconnector, defaultDisconnector, NewDisconnectQueue, bind.
  destruct (disconnectorFactory r); [by intros [= _ <-] |].
  destruct (cfg_DisconnectorDisabled _); [by intros [= _ <-] |].
  destruct (_ =? 0)%Z; [done |]. by intros [= _ <-].
Qed.

Lemma start_node_goroutines r m c p err p' :
  start_node r m c p = Ret err p' -> not_serving p -> not_serving p'.
Proof.
  unfold start_node, bind at 1. destruct (NewNode c m _ p) as [w p1| |] eqn:Hn; [| done..].
  assert (p1 = p) as ->.
  { revert Hn. unfold NewNode, NewHub, NewGoPool, bind. destruct (_ <? 0)%Z; [done |].
    destruct (_ =? 0)%Z; [done |]. by intros [= _ <-]. }
  unfold bind at 1, modify at 1. unfold bind at 1, on_pr_node at 1. simpl. unfold bind at 1.
  destruct (initDisconnector r _) as [[d|e] p2| |] eqn:Hd; [| | done..];
    apply initDisconnector_goroutines in Hd as ->.
  - unfold bind, go, modify, on_pr_node. simpl. intros [= _ <-] [Hs Hm]. unfold not_serving. simpl.
    split; [intros i |]; rewrite elem_of_app, list_elem_of_singleton; naive_solver.
  - by intros [= _ <-].
Qed.

Lemma start_server_fails r p e p' :
  start_server load_key_pair r p = Ret (Some e) p' -> not_serving p -> not_serving p'.
Proof.
  unfold start_server, bind at 1, on_pr_servers at 1, zoom at 1.
  destruct (ForPort load_key_pair _ _) as [[i|e'] w| |]; [| by intros [= _ <-] | done..].
  unfold bind at 1, modify at 1. destruct (initWebSocketHandler r); [by intros [= _ <-] |].
  unfold bind, on_pr_servers, zoom, go, modify, ret. simpl.
  destruct (on_server i _ w) as [[] w1| |]; [| done..]. simpl.
  by destruct (on_server i _ w1) as [[] w2| |].
Qed.

(** Whatever the configuration, [Run] does not return before it waits unless it shows the
    version or the help, or reports an error; and then no server was started. *)
Theorem Run_fails_closed r res p :
  showVersion (ru_options r) = false -> showHelp (ru_options r) = false ->
  Runner_Run load_key_pair ParseLevel isTTY r (new_process (ru_options r)) = Ret res p ->
  is_Some res /\ (forall i, GoServer i ∉ pr_goroutines p) /\ GoMetrics ∉ pr_goroutines p.
Proof.
  intros Hv Hh. revert res p. change (fails_closed (Runner_Run load_key_pair ParseLevel isTTY r) (new_process (ru_options r))).
  assert (Hnew : not_serving (new_process (C := C) (ru_options r))) by (split; simpl; set_solver).
  revert Hnew. generalize (new_process (C := C) (ru_options r)) as p. intros p Hp.
  unfold Runner_Run. rewrite Hv, Hh. apply fails_closed_or_fail.
  { intros e p' [err' Hrun]%failed_as_ret. apply logger_goroutines in Hrun. unfold not_serving. by rewrite Hrun. }
  intros p1 [err1 H1]%failed_as_ret. apply logger_goroutines in H1.
  assert (Hp1 : not_serving p1) by (unfold not_serving; by rewrite H1). clear H1.
  apply fails_closed_or_fail.
  { intros e p' [err' Hrun]%failed_as_ret. apply initMetrics_goroutines in Hrun. unfold not_serving. by rewrite Hrun. }
  intros p2 [err2 H2]%failed_as_ret. apply initMetrics_goroutines in H2.
  assert (Hp2 : not_serving (add_shutdownable ShMetrics p2)) by (unfold not_serving; simpl; by rewrite H2).
  unfold fails_closed, bind at 1, modify at 1. unfold bind at 1, get at 1.
  destruct (initController r _) as [[m c]|e]; [| by apply fails_closed_ret].
  apply fails_closed_or_fail; [intros e p' Hrun; by eapply start_node_goroutines |].
  intros p3 H3. apply start_node_goroutines in H3; [| done].
  destruct (initSubscriber r) as [sub|e]; [| by apply fails_closed_ret].
  intros res p'. unfold bind at 1, modify at 1. unfold bind at 1, modify at 1. unfold bind at 1, go at 1, modify at 1.
  unfold bind at 1, go at 1, modify at 1. revert res p'.
  apply fails_closed_or_fail; [| done].
  intros e p' Hrun. eapply start_server_fails; [exact Hrun |]. destruct H3 as [Hs Hm]. unfold not_serving. simpl.
  split; [intros i |]; rewrite !elem_of_app, !list_elem_of_singleton; naive_solver.
Qed.
End fails.

(** ** The program stops *)

(** No server is locked, and none has a request in progress. *)
Definition quiet (w : Servers) : Prop :=
  forall i s, servers w !! i = Some s -> mu s = false /\ hs_active (server s) = 0.

(** The servers stay, and those that were stopped stay so. *)
Definition settles (w w' : Servers) : Prop :=
  forall i s, servers w !! i = Some s ->
    exists s', servers w' !! i = Some s' /\ (shutdown s = true -> shutdown s' = true).

#[export] Instance settles_preorder : PreOrder settles.
Proof.
  split; [intros w i s Hs; by exists s |]. intros w1 w2 w3 H12 H23 i s Hs.
  destruct (H12 i s Hs) as (s2 & Hs2 & Himp). destruct (H23 i s2 Hs2) as (s3 & Hs3 & Himp').
  exists s3. split; [done | auto].
Qed.

Lemma settles_some w w' i : settles w w' -> is_Some (servers w !! i) -> is_Some (servers w' !! i).
Proof. intros Hw [s Hs]. destruct (Hw i s Hs) as (s' & Hs' & _). by exists s'. Qed.

Lemma settles_shut w w' i :
  settles w w' -> (exists s, servers w !! i = Some s /\ shutdown s = true) ->
  exists s, servers w' !! i = Some s /\ shutdown s = true.
Proof. intros Hw (s & Hs & Hd). destruct (Hw i s Hs) as (s' & Hs' & Himp). exists s'. auto. Qed.

Lemma Server_Shutdown_stops s :
  mu s = false -> hs_active (server s) = 0 ->
  exists s', Server_Shutdown s = Ret None s' /\ shutdown s' = true /\ mu s' = false /\ hs_active (server s') = 0.
Proof.
  destruct s as [[inS active ln] a sec sh st mc m mux ls]. simpl. intros -> ->.
  destruct sh; unfold Server_Shutdown, bind, locked, unlocked, zoom; simpl.
  - eexists. split; [reflexivity |]. done.
  - destruct ln as [[[] lim tls]|]; (eexists; split; [reflexivity |]); done.
Qed.

Lemma server_stops i w :
  quiet w -> is_Some (servers w !! i) ->
  exists w', on_server i Server_Shutdown w = Ret None w' /\ quiet w' /\ settles w w' /\
    exists s, servers w' !! i = Some s /\ shutdown s = true.
Proof.
  intros Hq [s Hs]. destruct (Hq i s Hs) as [Hm Ha].
  destruct (Server_Shutdown_stops s Hm Ha) as (s' & Hrun & Hd & Hm' & Ha').
  eexists. split; [by eapply on_server_ret |].
  assert (Hi : (<[i := s']> (servers w)) !! i = Some s')
    by (apply list_lookup_insert_eq; by eapply lookup_lt_Some).
  split; [| split; [| by exists s']].
  - intros j u Hu. simpl in Hu. destruct (decide (i = j)) as [<-|Hij];
      [rewrite Hi in Hu; by injection Hu as <- |].
    rewrite list_lookup_insert_ne in Hu by done. by apply (Hq j).
  - intros j u Hu. simpl. destruct (decide (i = j)) as [<-|Hij]; [by exists s' |].
    exists u. by rewrite list_lookup_insert_ne.
Qed.

Lemma metrics_stop mp :
  mp_mu mp = rw_free -> quiet (mp_servers mp) ->
  (forall i, mp_server mp = Some i -> is_Some (servers (mp_servers mp) !! i)) ->
  exists mp', Metrics_Shutdown mp = Ret None mp' /\ mp_shutdownCh mp' = false /\
    quiet (mp_servers mp') /\ settles (mp_servers mp) (mp_servers mp').
Proof.
  intros Hmu Hq Hsrv.
  assert (Hrun : exists mp', Metrics_Shutdown mp = Ret None mp' /\
      quiet (mp_servers mp') /\ settles (mp_servers mp) (mp_servers mp')).
  { destruct mp as [reg m ws srv path iv ch sd w calls]. cbn in Hmu, Hq, Hsrv. subst m.
    unfold Metrics_Shutdown. erewrite bind_ret_eq by reflexivity. erewrite bind_ret_eq by reflexivity.
    destruct ch; cbn [negb mp_shutdownCh set_mp_mu]; [| by eexists].
    erewrite bind_ret_eq by reflexivity. destruct srv as [i|]; cbn [mp_server set_mp_mu].
    - destruct (server_stops i w Hq (Hsrv i eq_refl)) as (w' & Hrun & Hq' & Hset & _).
      erewrite bind_ret_eq.
      2: { erewrite bind_ret_eq; [reflexivity |]. unfold on_mp_servers, zoom. cbn. rewrite Hrun. reflexivity. }
      erewrite bind_ret_eq by apply each_stop. eexists. split; [reflexivity |]. done.
    - erewrite bind_ret_eq by reflexivity. erewrite bind_ret_eq by apply each_stop.
      eexists. split; [reflexivity |]. done. }
  destruct Hrun as (mp' & Hrun & Hq' & Hset). exists mp'. split; [done |].
  apply Metrics_Shutdown_channel in Hrun as (Hch & _). done.
Qed.

Section stops.
Context {C : Type} `{Controller C} {order : GoRange}.
Context (run_reserved : list (M (Process C) unit) -> M (Process C) unit).
Context (reserved_in_order : forall fs p, run_reserved fs p = each (fun f => f) fs p).
Implicit Types (p : Process C).

(** A program as [Run] leaves it: with its components, whose pointers to servers lead
    to one, no lock held and no request in progress. *)
Record stoppable p (mp : MetricsProc) (i : nat) : Prop := {
  st_order : pr_shutdownables p = [ShMetrics; ShSubscriber; ShServer i; ShNode];
  st_metrics : pr_metrics p = Some mp;
  st_mu : mp_mu mp = rw_free;
  st_quiet : quiet (pr_servers p);
  st_server : is_Some (servers (pr_servers p) !! i);
  st_endpoint : forall j, mp_server mp = Some j -> is_Some (servers (pr_servers p) !! j);
  st_subscriber : forall s j, pr_subscriber p = Some (SubHTTP s) -> hs_server s = Some j ->
    is_Some (servers (pr_servers p) !! j)
}.

Lemma shutdown_metrics_ok p mp i :
  stoppable p mp i ->
  exists mp' w, shutdown_one ShMetrics p = Ret tt (set_pr_metrics (Some mp') (set_pr_servers w p)) /\
    mp_shutdownCh mp' = false /\ quiet w /\ settles (pr_servers p) w.
Proof.
  intros Hp. destruct (metrics_stop (set_mp_servers (pr_servers p) mp)) as (mp' & Hrun & Hch & Hq & Hset).
  - apply Hp.
  - apply Hp.
  - apply Hp.
  - exists mp', (mp_servers mp'). split; [| done].
    unfold shutdown_one, bind, on_pr_metrics. rewrite (st_metrics _ _ _ Hp). unfold zoom. by rewrite Hrun.
Qed.

Lemma shutdown_subscriber_ok p :
  quiet (pr_servers p) ->
  (forall s j, pr_subscriber p = Some (SubHTTP s) -> hs_server s = Some j -> is_Some (servers (pr_servers p) !! j)) ->
  exists w, shutdown_one ShSubscriber p = Ret tt (set_pr_servers w p) /\ quiet w /\ settles (pr_servers p) w.
Proof.
  intros Hq Hsrv. destruct p as [w g mp n sub l gs]. cbn in Hq, Hsrv. cbn [shutdown_one].
  unfold shutdown_subscriber. cbn [pr_subscriber pr_servers].
  assert (Hnone : exists w', Ret (tt) (mkProcess (C := C) w g mp n sub l gs) = Ret tt (mkProcess w' g mp n sub l gs) /\
    quiet w' /\ settles w w') by (exists w; done).
  destruct sub as [[|s]|]; [exact Hnone | | exact Hnone].
  destruct (hs_server s) as [j|] eqn:Hj.
  2: { unfold HTTP_Shutdown, bind, get. cbn. rewrite Hj. exists w. done. }
  destruct (server_stops j w Hq (Hsrv s j eq_refl Hj)) as (w' & Hrun & Hq' & Hset & _).
  assert (HTTP_Shutdown (w, s) = Ret None (w', s)) as ->.
  { unfold HTTP_Shutdown, bind, get, on_servers, zoom. cbn [fst snd]. rewrite Hj. cbn [fst]. rewrite Hrun. done. }
  exists w'. done.
Qed.

End stops.

(** ** A concrete program *)

(** A reading of the names of levels, to run the program with. *)
Definition level_named (s : string) : option Level := if String.eqb s "info" then Some InfoLevel else None.

Definition default_options : Options := prepareComplexDefaults (bind_flags (table EmptyString EmptyString)).

Lemma default_bootable : bootable level_named (defaults default_options).
Proof.
  split; try (vm_compute; done); [by eexists | by left | by right].
Qed.


Definition unknown_adapter : Options :=
  prepareComplexDefaults (bind_flags ({[ "broadcast_adapter" := FString "kafka" ]} ∪ table EmptyString EmptyString)).

Lemma Run_fails_closed_witness :
  exists e p,
    Runner_Run (fun _ _ => None) level_named false (gobench_runner unknown_adapter) (new_process (ru_options (gobench_runner unknown_adapter)))
    = Ret (Some e) p /\ GoMetrics ∉ pr_goroutines p.
Proof.
  assert (Hok : came_back (Runner_Run (fun _ _ => None) level_named false (gobench_runner unknown_adapter) (new_process (ru_options (gobench_runner unknown_adapter)))) = true) by (vm_compute; reflexivity).
  apply came_back_ret in Hok as (res & p & Hrun).
  destruct (Run_fails_closed (C := nat) (fun _ _ => None) level_named false (gobench_runner unknown_adapter) res p)
    as ([e ->] & _ & Hm).
  - vm_compute. reflexivity.
  - vm_compute. reflexivity.
  - exact Hrun.
  - exists e, p. split; [exact Hrun | exact Hm].
Defined.

(** The started benchmark program, and whether a signal stops it. *)
Definition started_gobench : Process nat :=
  final (Runner_Run (fun _ _ => None) level_named false (gobench_runner default_options) (new_process default_options)).

