(* ===== verification/Startup.v ===== *)
(** * What the program says and prepares when it starts

    The parts of the start that only inform the operator or prepare the process: support for
    mruby ([initMRuby] of [src/cli/cli.go], [src/mrb/mrb_unsupported.go]), the goroutine
    pools ([announceGoPools], [AllPools] of [src/utils/gopool.go]), the limit of open files
    ([src/utils/os_limits.go]) and the diagnostics of builds that have them
    ([src/diagnostics/diagnostics_gops.go]). Answers of the operating system and of the gops
    agent are parameters. *)

From Stdlib Require Import ZArith Lia Ascii String.
From stdpp Require Import base strings list gmap.
From S2P Require Import Prelude Json Net Gopool Mruby.

Local Open Scope string_scope.

(** ** Goroutine pools *)

(** The pools of the process, in the order of their creation: a pool joins them when it has
    been made. *)
Definition AllPools {T} (initializedPools : list (GoPool T)) : list (GoPool T) := initializedPools.

Definition make_pool {T} (name : string) (size : Z) : M (list (GoPool T)) unit := fun pools =>
  match NewGoPool name size with
  | Ret _ p => Ret tt (pools ++ [p])%list
  | Block why _ => Block why pools
  | Panic why _ => Panic why pools
  end.

Definition announceGoPools {T} (pools : list (GoPool T)) : string :=
  "Go pools initialized (" ++
  Join ", " (map (fun p => GoPool_Name p ++ ": " ++ Itoa (GoPool_Size p)) (AllPools pools)) ++ ")".

(** ** mruby *)

(** Builds without mruby. *)
Definition unsupported_Supported : bool := false.
Definition unsupported_Version : result string := Ok "unknown".

(** The text that follows the version; an engine that fails is logged and left out. *)
Definition mruby_suffix (supported : bool) (version : result string) : string :=
  if supported then
    match version with
    | Err _ => EmptyString
    | Ok mrbv => " (with " ++ mrbv ++ ")"
    end
  else EmptyString.

Definition initMRuby {VM Value Parser} `{GoMruby VM Value Parser} : M (Ruby VM) string :=
  if mrb_Supported then
    let! version := mrb_Version in
    ret (mruby_suffix true version)
  else ret EmptyString.

Definition initMRuby_unsupported : string := mruby_suffix unsupported_Supported unsupported_Version.

(** ** Open files *)

(** [rlimit] is what the system call answers. *)
Definition OpenFileLimit (rlimit : result Z) : string :=
  match rlimit with
  | Err _ => "unknown"
  | Ok cur => Itoa cur
  end.

(** The line that announces the program. *)
Definition starting_line (name version mrubySupport : string) (pid : Z) (rlimit : result Z) : string :=
  "Starting " ++ name ++ " " ++ version ++ mrubySupport ++ " (pid: " ++ Itoa pid ++
  ", open file limit: " ++ OpenFileLimit rlimit ++ ")".

(** ** Diagnostics *)

(** What the initialisation of the package does to the process. *)
Record Diagnostics : Type := mkDiagnostics {
  block_rate : option Z;
  mutex_fraction : option Z;
  printed_lines : list string;
  pprof_served : bool
}.
Definition no_diagnostics : Diagnostics := mkDiagnostics None None [] false.

(** A variable that is set must be a number; [log.Fatal] ends the process. *)
Definition profile_variable (value what : string) (apply : Z -> Diagnostics -> Diagnostics) (enabled : string)
    : M Diagnostics bool :=
  if String.eqb value EmptyString then ret false
  else
    match Atoi value with
    | None => panic ("Invalid value for " ++ what ++ ": " ++ value)
    | Some val =>
        modify (apply val) ;;
        modify (fun d => mkDiagnostics (block_rate d) (mutex_fraction d) (printed_lines d ++ [enabled])%list (pprof_served d)) ;;
        ret true
    end.

Definition diagnostics_init (listen : option error) (getenv : string -> string) : M Diagnostics unit :=
  match listen with
  | Some (Errorf e) | Some (StatusError _ e) => panic e
  | None =>
      let! blocks := profile_variable (getenv "BLOCK_PROFILE_RATE") "block profile rate"
        (fun val d => mkDiagnostics (Some val) (mutex_fraction d) (printed_lines d) (pprof_served d))
        "[PPROF] Block profiling enabled" in
      let! mutexes := profile_variable (getenv "MUTEX_PROFILE_FRACTION") "mutex profile fraction"
        (fun val d => mkDiagnostics (block_rate d) (Some val) (printed_lines d) (pprof_served d))
        "[PPROF] Mutex profiling enabled" in
      when (blocks || mutexes)
        (modify (fun d => mkDiagnostics (block_rate d) (mutex_fraction d) (printed_lines d) true))
  end.

(** ** Theorems *)

(** The setting of a variable: none, or its number. *)
Definition setting (value : string) : option Z := if String.eqb value EmptyString then None else Atoi value.
Definition bad_setting (value : string) : bool :=
  negb (String.eqb value EmptyString) && match Atoi value with None => true | Some _ => false end.

(** A program with diagnostics starts unless its agent fails or one of the variables is set
    to something that is not a number; each profile is on exactly when its variable is set,
    and the profiling endpoint is served exactly when one of them is. *)
Lemma diagnostics_init_spec getenv :
  let b := getenv "BLOCK_PROFILE_RATE" in
  let m := getenv "MUTEX_PROFILE_FRACTION" in
  if bad_setting b || bad_setting m then
    exists why d, diagnostics_init None getenv no_diagnostics = Panic why d
  else
    exists lines, diagnostics_init None getenv no_diagnostics =
      Ret tt (mkDiagnostics (setting b) (setting m) lines
                (negb (String.eqb b EmptyString) || negb (String.eqb m EmptyString))).
Proof.
  intros b m. unfold diagnostics_init, profile_variable, bad_setting, setting, bind. fold b m.
  destruct (String.eqb b EmptyString); simpl.
  - destruct (String.eqb m EmptyString); simpl; [by eexists |]. destruct (Atoi m); simpl; by repeat eexists.
  - destruct (Atoi b) as [x|]; simpl; [| by do 2 eexists].
    destruct (String.eqb m EmptyString); simpl; [by eexists |]. destruct (Atoi m); simpl; by repeat eexists.
Qed.
