(* ===== verification/Bench.v ===== *)
(** * The RPC benchmarks

    The commands that measure an RPC server: [src/cmd/rpcbench/main.go] through the
    controller, and [src/cmd/rpcbench/pool/main.go] through a pool of connections or one
    connection with a semaphore. The remote side, the clock, the generator of identifiers
    and the ring buffer that holds the requests are parameters. *)

From Stdlib Require Import ZArith Lia Ascii String.
From stdpp Require Import base strings list gmap.
From S2P Require Import Prelude Json Common Metrics Rpc RpcProps Stats ConnPool.

Local Open Scope string_scope.

(** ** The benchmark of the controller *)

Record BenchOptions : Type := mkBenchOptions {
  bo_host : string;
  bo_capacity : Z;
  bo_concurrency : Z;
  bo_total : Z;
  bo_channel : string;
  bo_action : string;
  bo_mode : string;
  bo_debug : bool
}.

(** What [parseOptions] leaves when no flag is given. *)
Definition default_bench : BenchOptions :=
  mkBenchOptions "localhost:50051" 30 10 1000 "BenchmarkChannel" "echo" "perform" false.

(** The ring buffer of the requests ([queue.RingBuffer]). *)
Class RingBuffer (Q : Type) : Type := {
  NewRingBuffer : Z -> Q;
  buffer_Put : M Q (option error);
  buffer_Get : M Q (option error)
}.

Record Benchmark (R Q : Type) : Type := mkBenchmark {
  bm_rpc : Metrics * RpcController R;
  bm_perform : bool;
  bm_channel : string;
  bm_action : string;
  bm_buffer : Q;
  bm_resChan : Chan Z;
  bm_errChan : Chan error
}.
Arguments mkBenchmark {R Q}.
Arguments bm_rpc {R Q}.
Arguments bm_perform {R Q}.
Arguments bm_channel {R Q}.
Arguments bm_action {R Q}.
Arguments bm_buffer {R Q}.
Arguments bm_resChan {R Q}.
Arguments bm_errChan {R Q}.

Section bench.
Context {R Q : Type} `{Remote R} `{RingBuffer Q}.
Implicit Types b : Benchmark R Q.

(** [main] up to the start of the controller. *)
Definition new_benchmark (o : BenchOptions) (remote : R) : Benchmark R Q :=
  mkBenchmark (NewController (bo_capacity o) remote NewMetrics) (String.eqb (bo_mode o) "perform")
    (marshal (JObj [("channel", JStr (bo_channel o))])) (marshal (JObj [("action", JStr (bo_action o))]))
    (NewRingBuffer (to_u64 (bo_total o))) (make_chan 1000) (make_chan 1000).

Definition set_bm_rpc (v : Metrics * RpcController R) b : Benchmark R Q := mkBenchmark v (bm_perform b) (bm_channel b) (bm_action b) (bm_buffer b) (bm_resChan b) (bm_errChan b).
Definition set_bm_buffer (v : Q) b := mkBenchmark (bm_rpc b) (bm_perform b) (bm_channel b) (bm_action b) v (bm_resChan b) (bm_errChan b).
Definition set_bm_resChan v b := mkBenchmark (bm_rpc b) (bm_perform b) (bm_channel b) (bm_action b) (bm_buffer b) v (bm_errChan b).
Definition set_bm_errChan v b := mkBenchmark (bm_rpc b) (bm_perform b) (bm_channel b) (bm_action b) (bm_buffer b) (bm_resChan b) v.

Definition on_bm_rpc {A} : M (Metrics * RpcController R) A -> M (Benchmark R Q) A := zoom bm_rpc set_bm_rpc.

Definition on_bm_buffer {A} : M Q A -> M (Benchmark R Q) A := zoom bm_buffer set_bm_buffer.

(** [main] from the start of the controller to the workers: a controller that does not
    start, or a request that the buffer does not take, ends the program. *)
Definition bench_boot (dialer : R -> option error * R) (o : BenchOptions) : M (Benchmark R Q) unit :=
  let! err := on_bm_rpc (on_rpc (rpc_Start dialer)) in
  match err with
  | Some _ => panic "Failed to initialize RPC"
  | None =>
      each (fun _ =>
        let! err := on_bm_buffer buffer_Put in
        match err with
        | Some _ => panic "Put"
        | None => ret tt
        end) (seq 0 (Z.to_nat (bo_total o)))
  end.

Definition bench_env : SessionEnv := NewSessionEnv "/cable" (Some {[ "cookie" := "test_id=rpc-bench" ]}).

(** The beginning of [startWorker]: the identifier of the session it warms up and the
    identifiers it is given; [None] when the worker returns. *)
Definition startWorker_begin (nanoid : result string) : M (Benchmark R Q) (option (string * string)) :=
  match nanoid with
  | Err _ => panic "Nanoid failed"
  | Ok uuid =>
      let! r := on_bm_rpc (rpc_Authenticate uuid bench_env) in
      match r.1 with
      | None => nil_deref
      | Some res =>
          match r.2 with
          | Some err => ret None
          | None => ret (Some (uuid, con_Identifier res))
          end
      end
  end.

(** One round of the loop of [startWorker], that takes [elapsed]. *)
Definition startWorker_round (uuid ids : string) (elapsed : Z) : M (Benchmark R Q) unit :=
  let! err := on_bm_buffer buffer_Get in
  match err with
  | Some _ => panic "Failed to read from buffer"
  | None =>
      let! b := get in
      let! err :=
        if bm_perform b then
          let! r := on_bm_rpc (rpc_Perform uuid bench_env ids (bm_channel b) (bm_action b)) in ret r.2
        else
          let! r := on_bm_rpc (rpc_Authenticate uuid bench_env) in ret r.2 in
      match err with
      | Some e => zoom bm_errChan set_bm_errChan (chan_send e)
      | None => zoom bm_resChan set_bm_resChan (chan_send elapsed)
      end
  end.

(** The loop of [main] that collects the results, as they arrive. *)
Record Tally : Type := mkTally { ta_agg : ResAggregate; ta_completed : nat; ta_failures : nat }.

Definition collect_one (r : Z + error) (t : Tally) : Tally :=
  match r with
  | inl result => mkTally (mkAgg (samples (ta_agg t) ++ [result])%list false) (S (ta_completed t)) (ta_failures t)
  | inr _ => mkTally (ta_agg t) (S (ta_completed t)) (S (ta_failures t))
  end.

Fixpoint collect (total : nat) (arriving : list (Z + error)) (t : Tally) : option Tally :=
  if (ta_completed t <? total)%nat then
    match arriving with
    | [] => None
    | r :: arriving => collect total arriving (collect_one r t)
    end
  else Some t.

(** What [printMetrics] warns about. *)
Definition printMetrics (m : Metrics) : option Z :=
  match IntervalSnapshot m !! "rpc_retries_total" with
  | Some n => if (0 <? n)%Z then Some n else None
  | None => None
  end.
End bench.

(** The figures of [printResults]: the 95th percentile, the minimum, the median and the
    maximum, in milliseconds. *)
Definition printResults : M ResAggregate (Z * Z * Z * Z) :=
  let! p95 := Percentile 95 in
  let! min := Min in
  let! p50 := Percentile 50 in
  let! max := Max in
  ret (RoundToMS p95, RoundToMS min, RoundToMS p50, RoundToMS max).

(** ** The benchmark of the connection pool *)

(** The client, and the counters of the retries. *)
Record PoolBench (R F : Type) : Type := mkPoolBench {
  pb_remote : R;
  pb_retryCount : Z;
  pb_retryTime : Z;
  pb_sem : Chan unit;
  pb_pool : channelPool F
}.
Arguments mkPoolBench {R F}.
Arguments pb_remote {R F}.
Arguments pb_retryCount {R F}.
Arguments pb_retryTime {R F}.
Arguments pb_sem {R F}.
Arguments pb_pool {R F}.

Section poolbench.
Context {R F : Type} (Connect : R -> result unit * R).
Context (factory : F -> result conn_ptr * F) (close_conn : nat -> option error).
Implicit Types b : PoolBench R F.

Definition on_pb_sem {A} : M (Chan unit) A -> M (PoolBench R F) A :=
  zoom pb_sem (fun v b => mkPoolBench (pb_remote b) (pb_retryCount b) (pb_retryTime b) v (pb_pool b)).
Definition on_pb_pool {A} : M (channelPool F) A -> M (PoolBench R F) A :=
  zoom pb_pool (fun v b => mkPoolBench (pb_remote b) (pb_retryCount b) (pb_retryTime b) (pb_sem b) v).

Definition bench_call : M (PoolBench R F) (result unit) := fun b =>
  let '(r, remote) := Connect (pb_remote b) in
  Ret r (mkPoolBench remote (pb_retryCount b) (pb_retryTime b) (pb_sem b) (pb_pool b)).

(** The counters are unsigned 64-bit integers. *)
Definition count_retry (delayMS : Z) : M (PoolBench R F) unit :=
  modify (fun b => mkPoolBench (pb_remote b) (to_u64 (pb_retryCount b + 1))
                     (to_u64 (pb_retryTime b + delayMS)) (pb_sem b) (pb_pool b)).

(** [retry]: every error with a status is tried again. *)
Fixpoint bench_retry_loop (fuel : nat) (retryAge : Z) (attempt : nat) (wasExhausted : bool)
    : M (PoolBench R F) (result unit) :=
  match fuel with
  | O => block "fuel"
  | S fuel =>
      let! res := bench_call in
      match res with
      | Ok a => ret (Ok a)
      | Err err =>
          if (invokeTimeout <? retryAge)%Z then ret (Err err)
          else
            match status_FromError err with
            | None => ret (Err err)
            | Some code =>
                let exhausted := (code =? ResourceExhausted)%Z in
                let interval := if exhausted then retryExhaustedInterval else retryUnavailableInterval in
                let attempt := if eqb exhausted wasExhausted then attempt else O in
                let delayMS := (2 ^ Z.of_nat attempt * interval)%Z in
                count_retry delayMS ;;
                bench_retry_loop fuel (retryAge + delayMS) (S attempt) exhausted
            end
      end
  end.

Definition bench_retry : M (PoolBench R F) (result unit) := bench_retry_loop retry_fuel 0 0 false.

Definition error_of (r : result unit) : option error := match r with Ok _ => None | Err e => Some e end.

Definition performRequest : M (PoolBench R F) (option error) :=
  on_pb_sem chan_recv ;;
  let! r := bench_retry in
  on_pb_sem (chan_send tt) ;;
  ret (error_of r).

Definition performPoolRequest : M (PoolBench R F) (option error) :=
  let! got := on_pb_pool (Pool_Get factory) in
  match got with
  | Err e => ret (Some e)
  | Ok conn =>
      let! r := bench_retry in
      on_pb_pool (Conn_Close close_conn conn) ;;
      ret (error_of r)
  end.

(** The command has its own copy of the aggregate of package stats. *)
Definition roundToMS : Z -> Z := RoundToMS.
Definition resAggregate_Add : Z -> M ResAggregate unit := Add.
Definition resAggregate_Count : ResAggregate -> Z := Count.
Definition resAggregate_Min : M ResAggregate Z := Min.
Definition resAggregate_Max : M ResAggregate Z := Max.
Definition resAggregate_Percentile : Z -> M ResAggregate Z := Percentile.
Definition resAggregate_Sort : M ResAggregate unit := agg_sort.

(** ** Requests of the pool benchmark end *)

(** How a retried request may end: it leaves the semaphore and the pool alone, and what
    it slept is counted. *)
Definition retried_for (slept : Z) b b' : Prop :=
  pb_sem b' = pb_sem b /\ pb_pool b' = pb_pool b /\
  exists D, (0 <= D <= slept)%Z /\ to_u64 (pb_retryTime b') = to_u64 (pb_retryTime b + D).

Lemma retried_for_stop slept remote b :
  (0 <= slept)%Z -> retried_for slept b (mkPoolBench remote (pb_retryCount b) (pb_retryTime b) (pb_sem b) (pb_pool b)).
Proof. intros Hs. split; [done |]. split; [done |]. exists 0%Z. split; [lia |]. by rewrite Z.add_0_r. Qed.

Lemma bench_retry_loop_ok fuel retryAge attempt was b :
  (0 <= retryAge <= 6100)%Z -> age_ok retryAge attempt was ->
  (invokeTimeout < retryAge + 10 * Z.of_nat fuel)%Z ->
  exists r b', bench_retry_loop (S fuel) retryAge attempt was b = Ret r b' /\ retried_for (6100 - retryAge) b b'.
Proof.
  revert retryAge attempt was b. induction fuel as [|fuel IH]; intros age attempt was b Hage Hok Hfuel.
  all: cbn [bench_retry_loop]; unfold bind at 1, bench_call at 1; destruct (Connect (pb_remote b)) as [[[]|e] remote];
    [do 2 eexists; split; [reflexivity |]; apply retried_for_stop; lia |].
  all: destruct (invokeTimeout <? age)%Z eqn:Ht;
    [do 2 eexists; split; [reflexivity |]; apply retried_for_stop; lia |];
    apply Z.ltb_ge in Ht.
  { lia. }
  destruct (status_FromError e) as [code|];
    [| do 2 eexists; split; [reflexivity |]; apply retried_for_stop; lia].
  pose proof (age_step age attempt was (code =? ResourceExhausted)%Z) as Hstep.
  cbv zeta in Hstep |- *. unfold interval_of in Hstep. destruct Hstep as [Hd Hok']; [lia | done |].
  unfold bind at 1, count_retry at 1, modify at 1. cbv beta iota.
  edestruct IH as (r & b' & Hrun & Hs & Hp & D & HD & Ht');
    [| exact Hok' | | do 2 eexists; split; [exact Hrun |]].
  - unfold invokeTimeout in *. lia.
  - lia.
  - split; [exact Hs |]. split; [exact Hp |]. eexists. split; [| rewrite Ht'; simpl].
    2: { rewrite to_u64_add_l, <- Z.add_assoc. reflexivity. }
    lia.
Qed.

Lemma bench_retry_ok b : exists r b', bench_retry b = Ret r b' /\ retried_for 6100 b b'.
Proof. apply (bench_retry_loop_ok 302 0 0 false); by vm_compute. Qed.

Context (factory_ok : forall f, (factory f).1 <> Ok None).

Lemma performRequest_ok n b :
  pb_sem b = mkChan (replicate (S n) tt) (ch_cap (pb_sem b)) false -> n < ch_cap (pb_sem b) ->
  exists err b', performRequest b = Ret err b' /\ pb_sem b' = pb_sem b.
Proof.
  intros Hsem Hn. unfold performRequest, bind at 1, on_pb_sem at 1, zoom at 1, chan_recv.
  rewrite Hsem. simpl. unfold bind at 1.
  edestruct bench_retry_ok as (r & b' & -> & Hs & _).
  unfold bind, on_pb_sem, zoom, chan_send. rewrite Hs. simpl. unfold chan_full.
  rewrite bool_decide_false by (simpl; rewrite length_replicate; lia).
  do 2 eexists. split; [reflexivity |]. simpl. unfold chan_push. simpl.
  by rewrite <- replicate_cons_app.
Qed.

Lemma performPoolRequest_ok cap out b :
  books cap out (pb_pool b) ->
  exists err b', performPoolRequest b = Ret err b' /\ books cap out (pb_pool b').
Proof.
  intros Hb. unfold performPoolRequest, bind at 1, on_pb_pool at 1, zoom at 1.
  destruct (Pool_Get_ok factory factory_ok cap out (pb_pool b) Hb) as (r & c' & -> & Hb' & _).
  destruct r as [[n|]|e].
  - unfold bind at 1. edestruct bench_retry_ok as (res & b' & -> & _ & Hp & _).
    unfold bind, on_pb_pool, zoom, Conn_Close. simpl in Hp. rewrite Hp.
    edestruct (put_ok close_conn cap (n :: out) 0 n c' Hb' eq_refl) as (e & c2 & -> & Hb2 & _).
    by do 2 eexists.
  - unfold bind at 1. edestruct bench_retry_ok as (res & b' & -> & _ & Hp & _).
    unfold bind, on_pb_pool, zoom, Conn_Close, put. rewrite Hp. simpl. by do 2 eexists.
  - by do 2 eexists.
Qed.

(** A request comes back whatever the server answers. Without the pool the semaphore is
    as it was, and with the pool the connection is given back: its books agree with the
    connections in use, before and after. Between attempts a request sleeps at most 6.1
    seconds. *)
Theorem bench_requests_balanced n cap out b :
  pb_sem b = mkChan (replicate (S n) tt) (ch_cap (pb_sem b)) false -> n < ch_cap (pb_sem b) ->
  books cap out (pb_pool b) ->
  (exists err b', performRequest b = Ret err b' /\ pb_sem b' = pb_sem b) /\
  (exists err b', performPoolRequest b = Ret err b' /\ books cap out (pb_pool b')) /\
  (exists r b', bench_retry b = Ret r b' /\ exists D, (0 <= D <= 6100)%Z /\
     to_u64 (pb_retryTime b') = to_u64 (pb_retryTime b + D)).
Proof.
  intros Hs Hn Hb. split; [by apply (performRequest_ok n) |]. split; [by apply performPoolRequest_ok |].
  destruct (bench_retry_ok b) as (r & b' & Hrun & _ & _ & HD). by exists r, b'.
Qed.
End poolbench.

(** ** The command of the pool benchmark *)

Record PoolOptions : Type := mkPoolOptions {
  po_host : string;
  po_capacity : Z;
  po_initialCapacity : Z;
  po_concurrency : Z;
  po_total : Z;
  po_pool : bool;
  po_debug : bool
}.

(** What its [parseOptions] leaves when no flag is given. *)
Definition default_pool_bench : PoolOptions := mkPoolOptions "localhost:50051" 30 10 10 1000 false false.

(** [pm_pooled] is whether the pointer to the pool is set. *)
Record PoolMain (R F Q : Type) : Type := mkPoolMain {
  pm_requests : PoolBench R F;
  pm_pooled : bool;
  pm_buffer : Q;
  pm_resChan : Chan Z;
  pm_errChan : Chan error
}.
Arguments mkPoolMain {R F Q}.
Arguments pm_requests {R F Q}.
Arguments pm_pooled {R F Q}.
Arguments pm_buffer {R F Q}.
Arguments pm_resChan {R F Q}.
Arguments pm_errChan {R F Q}.

Section poolmain.
Context {R F Q : Type} `{RingBuffer Q} (Connect : R -> result unit * R).
Context (factory : F -> result conn_ptr * F) (close_conn : nat -> option error).
Implicit Types b : PoolMain R F Q.

Definition on_requests {A} : M (PoolBench R F) A -> M (PoolMain R F Q) A :=
  zoom pm_requests (fun v b => mkPoolMain v (pm_pooled b) (pm_buffer b) (pm_resChan b) (pm_errChan b)).
Definition on_pm_buffer {A} : M Q A -> M (PoolMain R F Q) A :=
  zoom pm_buffer (fun v b => mkPoolMain (pm_requests b) (pm_pooled b) v (pm_resChan b) (pm_errChan b)).
Definition on_pm_resChan {A} : M (Chan Z) A -> M (PoolMain R F Q) A :=
  zoom pm_resChan (fun v b => mkPoolMain (pm_requests b) (pm_pooled b) (pm_buffer b) v (pm_errChan b)).
Definition on_pm_errChan {A} : M (Chan error) A -> M (PoolMain R F Q) A :=
  zoom pm_errChan (fun v b => mkPoolMain (pm_requests b) (pm_pooled b) (pm_buffer b) (pm_resChan b) v).

(** The variable [b] of [main], before anything is set; a pool that is not used is
    empty. *)
Definition new_pool_main (o : PoolOptions) (remote : R) (f : F) : PoolMain R F Q :=
  mkPoolMain (mkPoolBench remote 0 0 (make_chan 0) (empty_channelPool (po_capacity o) f)) false
    (NewRingBuffer (to_u64 (po_total o))) (make_chan 1000) (make_chan 1000).

Definition set_pool (pool : channelPool F) b : PoolMain R F Q :=
  let q := pm_requests b in
  mkPoolMain (mkPoolBench (pb_remote q) (pb_retryCount q) (pb_retryTime q) (pb_sem q) pool) true
    (pm_buffer b) (pm_resChan b) (pm_errChan b).

(** The pool, or one connection with a semaphore; with an error the program exits.
    [dial] is what dialling the one connection gives. *)
Definition pool_connect (dial : option error) (o : PoolOptions) : M (PoolMain R F Q) (option error) :=
  if po_pool o then
    fun b =>
      match NewChannelPool factory close_conn (po_initialCapacity o) (po_capacity o)
              (cp_ext (pb_pool (pm_requests b))) with
      | Ret None pool => Ret None (set_pool pool b)
      | Ret (Some e) _ => Ret (Some e) b
      | Block why _ => Block why b
      | Panic why _ => Panic why b
      end
  else
    match dial with
    | Some e => ret (Some e)
    | None =>
        if (po_capacity o <? 0)%Z then panic "makechan: size out of range"
        else
          on_requests (on_pb_sem (modify (fun _ => make_chan (Z.to_nat (po_capacity o))))) ;;
          each (fun _ => on_requests (on_pb_sem (chan_send tt))) (seq 0 (Z.to_nat (po_capacity o))) ;;
          ret None
    end.

(** The requests are put into the buffer. *)
Definition pool_fill (o : PoolOptions) : M (PoolMain R F Q) unit :=
  each (fun _ =>
    let! err := on_pm_buffer buffer_Put in
    match err with
    | Some _ => panic "Put"
    | None => ret tt
    end) (seq 0 (Z.to_nat (po_total o))).

(** One round of its [startWorker]. *)
Definition pool_worker_round (elapsed : Z) : M (PoolMain R F Q) unit :=
  let! err := on_pm_buffer buffer_Get in
  match err with
  | Some _ => panic "Failed to read from buffer"
  | None =>
      let! b := get in
      let! err :=
        if pm_pooled b then on_requests (performPoolRequest Connect factory close_conn)
        else on_requests (performRequest Connect) in
      match err with
      | Some e => on_pm_errChan (chan_send e)
      | None => on_pm_resChan (chan_send elapsed)
      end
  end.

(** One more entry in a channel, or none. *)
Definition one_more {A} (c c' : Chan A) : Prop := exists x, c' = chan_push x c.

Context (factory_ok : forall f, (factory f).1 <> Ok None).

(** A round that gets a request from the buffer comes back, whatever the server answers,
    and reports exactly one result: a duration or an error. The semaphore, or the pool's
    books, are as they were. *)
Theorem pool_worker_reports elapsed n cap out b q :
  buffer_Get (pm_buffer b) = Ret None q ->
  pb_sem (pm_requests b) = mkChan (replicate (S n) tt) (ch_cap (pb_sem (pm_requests b))) false ->
  n < ch_cap (pb_sem (pm_requests b)) -> books cap out (pb_pool (pm_requests b)) ->
  ch_closed (pm_resChan b) = false -> chan_full (pm_resChan b) = false ->
  ch_closed (pm_errChan b) = false -> chan_full (pm_errChan b) = false ->
  exists b', pool_worker_round elapsed b = Ret tt b' /\ pm_buffer b' = q /\
    ((one_more (pm_resChan b) (pm_resChan b') /\ pm_errChan b' = pm_errChan b) \/
     (pm_resChan b' = pm_resChan b /\ one_more (pm_errChan b) (pm_errChan b'))) /\
    (if pm_pooled b then books cap out (pb_pool (pm_requests b'))
     else pb_sem (pm_requests b') = pb_sem (pm_requests b)).
Proof.
  destruct b as [p pooled buf rc ec]. simpl. intros Hget Hsem Hn Hbooks Hr Hrf He Hef.
  unfold pool_worker_round. erewrite bind_ret_eq by (unfold on_pm_buffer, zoom; simpl; rewrite Hget; reflexivity).
  cbv beta iota. unfold bind at 1, get at 1. cbn [pm_pooled].
  assert (Hreq : exists err p', (if pooled then performPoolRequest Connect factory close_conn
        else performRequest Connect) p = Ret err p' /\
      if pooled then books cap out (pb_pool p') else pb_sem p' = pb_sem p).
  { destruct pooled.
    - by apply performPoolRequest_ok.
    - apply (performRequest_ok (F := F)) with (n := n); try done. }
  destruct Hreq as (err & p' & Hrun & Hkept).
  erewrite bind_ret_eq.
  2: { instantiate (1 := mkPoolMain p' pooled q rc ec). instantiate (1 := err).
       destruct pooled; unfold on_requests, zoom; simpl; by rewrite Hrun. }
  destruct err as [e|]; unfold on_pm_errChan, on_pm_resChan, zoom, chan_send; simpl;
    rewrite ?He, ?Hef, ?Hr, ?Hrf; (eexists; split; [reflexivity |]); simpl; (split; [done |]).
  - split; [right; split; [done | by exists e] | done].
  - split; [left; split; [by exists elapsed | done] | done].
Qed.
End poolmain.

(** ** A worker whose session is not let in *)

Section worker.
Context {R Q : Type} `{Remote R} `{RingBuffer Q}.
Implicit Types b : Benchmark R Q.

(** The worker reads the result before it looks at the error: an authentication that
    fails stops the whole benchmark with a nil dereference. *)
Theorem worker_panics_without_session uuid b e rpc :
  rpc_Authenticate uuid bench_env (bm_rpc b) = Ret (None, Some e) rpc ->
  exists why b', startWorker_begin (Ok uuid) b = Panic why b'.
Proof.
  intros Hauth. unfold startWorker_begin, bind, on_bm_rpc, zoom. rewrite Hauth. by do 2 eexists.
Qed.

End worker.

(** The loop of [main] ends when as many results have arrived as requests were made, and
    every request is either a sample or a failure. *)
Lemma collect_counts total arriving t t' :
  ta_completed t = length (samples (ta_agg t)) + ta_failures t -> ta_completed t <= total ->
  collect total arriving t = Some t' ->
  ta_completed t' = total /\ length (samples (ta_agg t')) + ta_failures t' = total.
Proof.
  revert t. induction arriving as [|r arriving IH]; intros t Ht Hle; simpl;
    destruct (Nat.ltb_spec (ta_completed t) total) as [Hlt|Hge]; try done.
  1, 3: intros [= <-]; lia.
  intros Hc. apply (IH (collect_one r t)); [| | exact Hc]; destruct r; simpl; rewrite ?length_app; simpl; lia.
Qed.

(** ** A concrete benchmark *)

(** A server that is unavailable twice and then answers. *)
Definition slow_start (n : nat) : result unit * nat :=
  if (n <? 2)%nat then (Err (StatusError 14 "unavailable"), S n) else (Ok tt, S n).

Lemma bench_requests_balanced_witness :
  let b := mkPoolBench 0 0 0 (mkChan [tt] 1 false) (empty_channelPool (F := nat) 2 0) in
  exists err b', performPoolRequest slow_start counting_factory (fun _ => None) b = Ret err b' /\
    books 2 [] (pb_pool b').
Proof.
  intros b.
  destruct (bench_requests_balanced slow_start counting_factory (fun _ => None) counting_factory_ok 0 2 [] b)
    as (_ & Hpool & _).
  - reflexivity.
  - simpl. lia.
  - split; try reflexivity; [simpl; lia | exists []; split; reflexivity].
  - exact Hpool.
Defined.
