(* ===== verification/BenchMain.v ===== *)
(** * The benchmark commands from beginning to end

    [main] of [src/cmd/rpcbench/main.go] and of [src/cmd/rpcbench/pool/main.go] around what
    is in [Bench.v]: the logger it sets up, the results it waits for and the lines it logs
    at the end. *)

From Stdlib Require Import ZArith Lia Ascii String Sorted.
From stdpp Require Import base strings list gmap sorting.
From S2P Require Import Prelude Json Common Metrics Rpc Stats ConnPool Logging Bench.

Local Open Scope string_scope.

(** ** The beginning *)

(** Both commands log text at level info, or debug when asked to; they exit with status 1
    when the logger cannot be set up. *)
Definition bench_logger (ParseLevel : string -> option Level) (isTTY : bool) (debug : bool)
    : M Logger (option Z) :=
  let logLevel := if debug then "debug" else "info" in
  let! err := InitLogger ParseLevel isTTY "text" logLevel in
  match err with
  | Some _ => ret (Some 1%Z)
  | None => ret None
  end.

Definition pool_logger : (string -> option Level) -> bool -> bool -> M Logger (option Z) := bench_logger.

(** ** The end *)

(** What is logged: the figures of the durations, the warning about retries with its
    numbers, and the error about failures, out of how many. *)
Record Report (A : Type) : Type := mkReport {
  rp_figures : Z * Z * Z * Z;
  rp_retries : option A;
  rp_failures : option (nat * nat)
}.
Arguments mkReport {A}.
Arguments rp_figures {A}.
Arguments rp_retries {A}.
Arguments rp_failures {A}.

Definition failures_line (t : Tally) : option (nat * nat) :=
  if (0 <? ta_failures t)%nat then Some (ta_failures t, ta_completed t) else None.

(** The benchmark of the controller warns about the retries that its metrics counted. *)
Definition bench_finish (m : Metrics) (t : Tally) : outcome ResAggregate (Report Z) :=
  (let! figures := printResults in
   ret (mkReport figures (printMetrics m) (failures_line t))) (ta_agg t).

(** The benchmark of the pool has its own counters, and its own copy of the aggregate. *)
Definition pool_printResults : M ResAggregate (Z * Z * Z * Z) :=
  let! p95 := resAggregate_Percentile 95 in
  let! min := resAggregate_Min in
  let! p50 := resAggregate_Percentile 50 in
  let! max := resAggregate_Max in
  ret (roundToMS p95, roundToMS min, roundToMS p50, roundToMS max).

Definition pool_finish (retryCount retryTime : Z) (t : Tally) : outcome ResAggregate (Report (Z * Z)) :=
  (let! figures := pool_printResults in
   ret (mkReport figures (if (0 <? retryCount)%Z then Some (retryCount, retryTime) else None) (failures_line t)))
    (ta_agg t).

Definition no_results : Tally := mkTally new_aggregate 0 0.

(** [main] from the workers on: the results arrive in some order, and after as many as were
    asked for the figures are logged; until then it waits. *)
Definition bench_main (o : BenchOptions) (m : Metrics) (arriving : list (Z + error))
    : option (outcome ResAggregate (Report Z)) :=
  bench_finish m <$> collect (Z.to_nat (bo_total o)) arriving no_results.
Definition pool_main (o : PoolOptions) (retryCount retryTime : Z) (arriving : list (Z + error))
    : option (outcome ResAggregate (Report (Z * Z))) :=
  pool_finish retryCount retryTime <$> collect (Z.to_nat (po_total o)) arriving no_results.

(** ** The figures *)

(** The sample of a rank in ascending order, 0 when there is none. *)
Definition ranked (l : list Z) (r : nat) : Z := default 0%Z (byAsc l !! r).
Definition rank_of (p : Z) (l : list Z) : nat := Z.to_nat (p * Z.of_nat (length l) / 100).

Lemma byAsc_length l : length (byAsc l) = length l.
Proof. by rewrite byAsc_perm. Qed.

Lemma rank_of_lt p l : (0 <= p < 100)%Z -> l <> [] -> rank_of p l < length l.
Proof.
  intros Hp Hl. assert (0 < length l) by (destruct l; simpl; [done | lia]). unfold rank_of.
  pose proof (Z.div_lt_upper_bound (p * Z.of_nat (length l)) 100 (Z.of_nat (length l))).
  pose proof (Z.div_pos (p * Z.of_nat (length l)) 100). nia.
Qed.

Lemma sample_ranked l r :
  r < length l -> sample_at (Z.of_nat r) (mkAgg (byAsc l) true) = Ret (ranked l r) (mkAgg (byAsc l) true).
Proof.
  intros Hr. unfold ranked. destruct (lookup_lt_is_Some_2 (byAsc l) r) as [v Hv]; [by rewrite byAsc_length |].
  rewrite Hv. apply sample_at_ok; [lia | by rewrite Nat2Z.id].
Qed.

Lemma Percentile_ranked p agg :
  (0 < p < 100)%Z -> agg_ok agg -> samples agg <> [] ->
  Percentile p agg = Ret (ranked (samples agg) (rank_of p (samples agg))) (mkAgg (byAsc (samples agg)) true).
Proof.
  intros Hp Hok Hne. unfold Percentile. destruct (Z.leb_spec p 0), (Z.leb_spec 100 p); try lia.
  erewrite bind_ret_eq by (by apply agg_sort_ok). erewrite bind_ret_eq by reflexivity. cbv zeta.
  assert (0 < length (samples agg)) by (destruct (samples agg); simpl; [done | lia]).
  unfold Count. cbn [samples]. rewrite byAsc_length. destruct (Z.eqb_spec (Z.of_nat (length (samples agg))) 0); [lia |].
  rewrite Z.quot_div_nonneg by lia.
  replace (p * Z.of_nat (length (samples agg)) / 100)%Z with (Z.of_nat (rank_of p (samples agg))).
  - apply sample_ranked, rank_of_lt; [lia | done].
  - unfold rank_of. pose proof (Z.div_pos (p * Z.of_nat (length (samples agg))) 100). lia.
Qed.

Lemma extremes_ranked agg :
  sorted agg = true -> samples agg = byAsc (samples agg) -> samples agg <> [] ->
  Min agg = Ret (ranked (samples agg) 0) agg /\ Max agg = Ret (ranked (samples agg) (pred (length (samples agg)))) agg.
Proof.
  destruct agg as [l b]. simpl. intros -> Hl Hne. assert (Hlen : 0 < length l) by (destruct l; simpl; [done | lia]).
  assert (Hs : forall r, r < length l -> sample_at (Z.of_nat r) (mkAgg l true) = Ret (ranked l r) (mkAgg l true)).
  { intros r Hr. pose proof (sample_ranked l r Hr) as Hx. by rewrite <- Hl in Hx. }
  unfold Min, Max, bind, get, agg_sort, Count, ret. simpl. destruct (Z.eqb_spec (Z.of_nat (length l)) 0); [lia |]. simpl.
  split; [apply (Hs 0 Hlen) |].
  replace (Z.of_nat (length l) - 1)%Z with (Z.of_nat (pred (length l))) by lia. apply Hs. lia.
Qed.

Lemma ranked_byAsc l r : ranked (byAsc l) r = ranked l r.
Proof. unfold ranked. by rewrite (byAsc_id (byAsc l)) by apply byAsc_sorted. Qed.

(** The four figures of a set of samples. *)
Definition figures (l : list Z) : Z * Z * Z * Z :=
  (RoundToMS (ranked l (rank_of 95 l)), RoundToMS (ranked l 0), RoundToMS (ranked l (rank_of 50 l)),
   RoundToMS (ranked l (pred (length l)))).

Lemma printResults_ok agg :
  agg_ok agg -> samples agg <> [] ->
  printResults agg = Ret (figures (samples agg)) (mkAgg (byAsc (samples agg)) true).
Proof.
  intros Hok Hne. set (l := samples agg). unfold printResults.
  assert (Hne' : byAsc l <> []) by (intros E; apply Hne; apply length_zero_iff_nil; unfold l in E; by rewrite <- byAsc_length, E).
  assert (Hok' : agg_ok (mkAgg (byAsc l) true)) by (intros _; apply byAsc_sorted).
  assert (Hid : byAsc (byAsc l) = byAsc l) by apply byAsc_id, byAsc_sorted.
  assert (Hr : forall p, rank_of p (byAsc l) = rank_of p l) by (intros p; unfold rank_of; by rewrite byAsc_length).
  destruct (extremes_ranked (mkAgg (byAsc l) true)) as [Hmin Hmax]; [done | by simpl; rewrite Hid | done |].
  erewrite bind_ret_eq by (by apply Percentile_ranked; [lia | ..]). erewrite bind_ret_eq by exact Hmin.
  erewrite bind_ret_eq by (by apply (Percentile_ranked 50 (mkAgg (byAsc l) true)); [lia | ..]).
  cbn [samples] in *. rewrite Hid. erewrite bind_ret_eq by exact Hmax.
  unfold figures, ret. by rewrite !ranked_byAsc, Hr, byAsc_length.
Qed.

Lemma ranked_mono l i j : i <= j -> j < length l -> (ranked l i <= ranked l j)%Z.
Proof.
  intros Hij Hj. rewrite <- byAsc_length in Hj. unfold ranked.
  destruct (lookup_lt_is_Some_2 (byAsc l) i) as [x Hx]; [lia |]. destruct (lookup_lt_is_Some_2 (byAsc l) j Hj) as [y Hy].
  rewrite Hx, Hy. simpl. destruct (decide (i = j)) as [->|Hne]; [rewrite Hx in Hy; by injection Hy as -> |].
  pose proof (byAsc_sorted l) as Hs. rewrite <- (take_drop_middle (byAsc l) i x Hx) in Hs, Hy.
  apply StronglySorted_app in Hs as (_ & _ & Hs). apply StronglySorted_inv in Hs as [_ Hs].
  rewrite Forall_forall in Hs. apply Hs.
  assert (Hti : length (take i (byAsc l)) = i) by (rewrite length_take; lia).
  rewrite lookup_app_r in Hy by lia. rewrite Hti in Hy. destruct (j - i) as [|k] eqn:Hk; [lia |].
  simpl in Hy. by eapply list_elem_of_lookup_2.
Qed.

Lemma ranked_elem l r : r < length l -> ranked l r ∈ l.
Proof.
  intros Hr. unfold ranked. destruct (lookup_lt_is_Some_2 (byAsc l) r) as [x Hx]; [by rewrite byAsc_length |].
  rewrite Hx. simpl. rewrite <- (byAsc_perm l). by eapply list_elem_of_lookup_2.
Qed.

Lemma RoundToMS_mono x y : (0 <= x)%Z -> (x <= y)%Z -> (y < 2 ^ 63 - 500000)%Z -> (RoundToMS x <= RoundToMS y)%Z.
Proof.
  intros Hx Hxy Hy. unfold RoundToMS, Microsecond, Millisecond. rewrite !to_i64_small by lia.
  rewrite !Z.quot_div_nonneg by lia. apply Z.div_le_mono; lia.
Qed.

Lemma collect_agg_ok total arriving t t' :
  sorted (ta_agg t) = false -> collect total arriving t = Some t' -> sorted (ta_agg t') = false.
Proof.
  revert t. induction arriving as [|r arriving IH]; intros t Ht; simpl; destruct (_ <? _)%nat; try done.
  1, 3: by intros [= <-]. intros Hc. eapply IH; [| exact Hc]. by destruct r.
Qed.

(** Once every request has been answered, the commands report: each request was a
    sample or a failure, failures are reported with their number out of the total, and
    unless all requests failed the figures are durations that were measured, in order:
    minimum, median, 95th percentile, maximum. *)
Theorem bench_reports_all o m arriving out :
  bench_main o m arriving = Some out ->
  exists l failed, length l + failed = Z.to_nat (bo_total o) /\
    (l <> [] -> Forall (fun d => 0 <= d < 2 ^ 63 - 500000)%Z l ->
     exists agg p95 mn p50 mx,
       out = Ret (mkReport (p95, mn, p50, mx) (printMetrics m)
                   (if (0 <? failed)%nat then Some (failed, Z.to_nat (bo_total o)) else None)) agg /\
       (mn <= p50 <= p95)%Z /\ (p95 <= mx)%Z /\
       (exists x y, x ∈ l /\ y ∈ l /\ mn = RoundToMS x /\ mx = RoundToMS y)).
Proof.
  unfold bench_main. intros Ho. apply fmap_Some in Ho as (t & Hc & ->).
  destruct (collect_counts _ arriving no_results t eq_refl (Nat.le_0_l _) Hc) as [Hd Hsum].
  exists (samples (ta_agg t)), (ta_failures t). split; [done |]. intros Hne Hall. set (l := samples (ta_agg t)) in *.
  assert (Hok : agg_ok (ta_agg t)) by (intros Hs; by rewrite (collect_agg_ok _ _ no_results t eq_refl Hc) in Hs).
  assert (Hpos : 0 < length l) by (destruct l; simpl; [done | lia]).
  pose proof (rank_of_lt 50 l ltac:(lia) Hne) as H50. pose proof (rank_of_lt 95 l ltac:(lia) Hne) as H95.
  assert (Hle : rank_of 50 l <= rank_of 95 l) by (unfold rank_of; apply Z2Nat.inj_le; [| | apply Z.div_le_mono]; try apply Z.div_pos; lia).
  assert (Hin : forall r, r < length l -> (0 <= ranked l r < 2 ^ 63 - 500000)%Z).
  { intros r Hr. rewrite Forall_forall in Hall. by apply Hall, ranked_elem. }
  assert (Hm : forall i j, i <= j -> j < length l -> (RoundToMS (ranked l i) <= RoundToMS (ranked l j))%Z).
  { intros i j Hij Hj. apply RoundToMS_mono; [apply Hin; lia | by apply ranked_mono | by apply Hin]. }
  do 5 eexists. split; [| split_and!].
  - unfold bench_finish. erewrite bind_ret_eq by (by apply printResults_ok). unfold failures_line. by rewrite Hd.
  - apply Hm; fold l; lia.
  - apply Hm; fold l; lia.
  - apply Hm; fold l; lia.
  - exists (ranked l 0), (ranked l (pred (length l))). split_and!; [apply ranked_elem; lia | apply ranked_elem; lia | done | done].
Qed.

Lemma bench_reports_all_witness :
  let o := mkBenchOptions "localhost" 1 1 3 "c" "a" "perform" false in
  exists out, bench_main o NewMetrics [inl 3000000%Z; inr (Errorf "x"); inl 1000000%Z] = Some out /\
    exists l failed, length l + failed = 3 /\
    (l <> [] -> Forall (fun d => 0 <= d < 2 ^ 63 - 500000)%Z l ->
     exists agg p95 mn p50 mx,
       out = Ret (mkReport (p95, mn, p50, mx) None (if (0 <? failed)%nat then Some (failed, 3) else None)) agg /\
       (mn <= p50 <= p95)%Z /\ (p95 <= mx)%Z /\ (exists x y, x ∈ l /\ y ∈ l /\ mn = RoundToMS x /\ mx = RoundToMS y)).
Proof.
  intros o. eexists. split; [reflexivity |].
  exact (bench_reports_all o NewMetrics [inl 3000000%Z; inr (Errorf "x"); inl 1000000%Z] _ eq_refl).
Defined.
